(* ===== verification/_CoqProject ===== *)
-Q . S2P
Prelude.v
Bytes.v
Store.v
Wire.v
Proto.v
Pb.v
Keeps.v
Json.v
Ifaces.v
Org.v
OrgFacts.v
OrgProps.v
Emissions.v
EmissionsFacts.v
EmissionsProps.v
Identity.v
Bandwidth.v
Attestation.v
Memory.v
MemoryFacts.v
MemoryProps.v
Serve.v
ServeFacts.v
ServeProps.v
ServeGenesis.v
Reputation.v
ReputationProps.v
ReputationLists.v
Floating.v
PbState.v
EmissionsStored.v
PbWire.v
App.v
PbTx.v
AppFacts.v
AppProps.v
AppRewards.v
AppDemo.v
Isolation.v
PbApp.v
AppConfig.v
GenesisJson.v
Modules.v
AppExport.v
Queries.v
QueriesProps.v
QueriesDemo.v
Gateway.v
GatewayProps.v
Autocli.v
Cli.v
