(* ===== verification/Prelude.v ===== *)
(** * WeVibe chain: verification library

    The repository is a Cosmos-SDK application ([wevibed]) of eight modules
    under [src/x/], wired in [src/app/app.go].  This library models the keepers,
    message servers and query servers of all eight modules, their composition,
    the bytes of their records and messages, the configuration of the
    application, its genesis files and their export, the REST gateway and the
    command line, and proves what they promise.

    ** The program

    - [x/org]: organisations in slots with an ascending price, their members,
      leader wallet, serving key and fee grants.
    - [x/memory]: commitments submitted by the org leader, approved with the
      contributor's signature, reported, expired; epoch labels and epoch Merkle
      roots; reads [x/org], writes aggregates of [x/org] and [x/reputation].
    - [x/serve]: batches of signed serve receipts, denials and events, with
      fingerprints against replay and counters per memory and epoch; reads
      [x/org] and [x/memory], consumes quotas of [x/bandwidth], writes
      [x/reputation].
    - [x/bandwidth]: per-org and per-epoch quotas.
    - [x/reputation]: developer statistics, contributor, moderator and leader
      profiles.
    - [x/emissions]: the daily emission, contributor rewards and their claims;
      reads [x/memory] and [x/identity], moves coins through the bank.
    - [x/identity]: the binding of a passkey to a wallet.
    - [x/attestation]: session attestations and their epoch index.

    At the end of an epoch [x/epochs] calls the hooks of the emissions and of
    the memory keeper.  Messages of a transaction run on a cached store that is
    written back only if all of them succeed.  A chain starts from a JSON file
    with a state per module, which the module manager hands to the modules that
    implement its genesis interface, and which an export writes.  Clients read
    through gRPC, through the REST routes of [query.pb.gw.go], or with the query
    commands of [wevibed].

    ** Files

    - [Prelude]: Go errors, fallible results, the state-and-error monad, KV
      store operations, record update, 64-bit arithmetic, proof automation.
    - [Bytes]: lengths, decimal and hexadecimal text, big-endian integers,
      separators and the injectivity of composed keys.
    - [Store]: iteration over a KV store by range and prefix, sums over stores.
    - [Wire]: protobuf messages as field lists, for the scans that decode one
      record type as another.  [Proto]: their bytes, as the generated code writes
      and reads them.  [Pb]: the generated Marshal and Unmarshal methods as
      combinators on fields, with their laws.
    - [Keeps]: invariants of a store, operation by operation.
    - [Json]: JSON values and the codecs of Go's [encoding/json].
    - [Ifaces]: the SDK's addresses, bank, feegrant, cryptography and URL
      parser as classes with their documented laws, and small executable
      instances ([Simple]).
    - [Org], [Memory], [Serve], [Emissions], [Identity], [Bandwidth],
      [Attestation], [Reputation]: one file per module with the data of
      [types/], the keeper of [keeper/] and the message server.  A module's
      state is [St V P]: its KV store with the module's value type [V] under the
      real string keys, the state [P] of its peers and the events.  Definitions
      keep the names of the Go functions; a handler is [MsgServer_X].  The
      methods a keeper calls on others ([expected_keepers.go]) are a class on
      [P], so a module's theorems hold for every implementation of its peers.
    - [OrgFacts], [MemoryFacts], [ServeFacts], [EmissionsFacts]: store
      invariants, abstract step relations and the lemmas that the operations
      follow them.  [OrgProps], [MemoryProps], [ServeProps], [EmissionsProps],
      [ReputationProps]: the properties, and a [Demo] module with executions.
      The properties of the three small modules are in their own files.
      [ServeGenesis]: the genesis export of [x/serve].  [ReputationLists]: the
      reads of [x/reputation] that no query uses.  [Floating]: the functions
      with [float64] values.
    - [PbState]: the codecs of all stored records and the stores as bytes.
      [EmissionsStored]: the conversions of [x/emissions] to its stored forms.
      [PbWire]: the decoders of [Wire] against those of [Pb].  [PbTx]: the codecs
      of all messages, their registration and their handlers.  [PbApp]: the records
      and messages of the application as bytes.
    - [App]: the application: one store per module, the instances of the
      expected-keeper classes by the other modules, the message router, the
      epoch hooks in their order, [InitChainer].  [AppFacts]: what a handler can
      do to its peers.  [AppProps], [AppRewards]: properties of the composition.
      [AppDemo]: an execution of the application.  [Isolation]: who signs a
      message, and the frame of every message on the records of an org.
    - [AppConfig]: names, permissions of the module accounts, store keys, module
      orders, upgrades.  [GenesisJson]: the JSON of the genesis states.
      [Modules]: [module.go] of the eight modules on that JSON, and the start of
      a chain from a file.  [AppExport]: [app/export.go] and a restart.
    - [Queries]: the gRPC query servers of the eight modules over a state of the
      application; a query is named after its server ([OrgQuery_GetOrg]).
      [QueriesProps]: what they answer on every run.  [QueriesDemo]: answers at
      an execution.
    - [Gateway], [GatewayProps]: the routes of [query.pb.gw.go] and the requests
      they answer.
    - [Autocli]: the command descriptors of [autocli.go] beside the services they
      describe.  [Cli]: the commands of [cmd/wevibed/cmd/root.go].

    ** What the theorems show

    - Invariants on every run: org records, roles and member counters; memory
      records, their validity and approved counters; serve receipts, counters and totals;
      reputation statistics; all of them together in the application, where the
      lookups of the keepers find records of the type and key they look for.
    - Authorization: org and memory decisions need the leader wallet, approvals
      the contributor's signature, serves and denials the serve key's, identity
      migrations the passkey's.  Isolation: in a transaction of any messages of
      the eight modules nothing of an org (record, configuration, members, pending
      and approved memories, reports) changes without its leader's signature.
    - Permanence: approved memories, receipts, denials, events and policy anchors
      are never changed or removed, and neither is the binding of a passkey under
      the spelling it was migrated with.
    - Accounting: registration payments, the daily emission (pools, rollover,
      shares of the contributors and the module balance), claims, solvency, the
      validator schedule, quotas, serve batches.
    - Composition: every receipt is for an approved memory; an approval that
      passes its checks is executed; the epoch hooks never credit a contributor.
    - Queries: the evidence answered for a report verifies, the report listings
      are exact pages, the org profile counts what is stored.  The REST routes
      answer as the query servers, for the values in the path and the query
      string; those of three modules are not mounted.
    - Genesis: a file of module states starts the chain in these states, if the
      strings in it are valid UTF-8; the export of [x/serve] is imported without
      loss of receipts, statistics and fingerprints, and of denials, events,
      anchors and contributor records that no other value is misread as; a restart
      forgets memories and attestations, and is refused once an event is recorded.
    - Bytes: every stored record is read back from its protobuf bytes, whatever
      the iteration order of Go's maps; every message is read back from its bytes
      by the Unmarshal of its type URL, and the registered URLs are those that
      have a handler.
    - Configuration: the permissions of the module accounts are enough for every
      step of the application, up to claims of rewards to a module account.
    - Refinement of the org message server against [org_step], equivalence of
      the slot price with a closed form, genesis round trip, the epoch hooks
      return without error.

    ** Integers, bounds and fuel

    A [uint64] is an [N] below 2^64 with wrap-around written out ([u64_add] and
    so on); theorems about counters are modulo 2^64 or carry the bound.  All
    recursion is structural except [sel_sort] (fuel = length of the list, one
    position per round), [put_varint] and [get_varint] (ten bytes hold 64 bits),
    and [read_fields], [unmarshal_into], [skip_group], [read_packed] and
    [read_entry] (fuel = length of the bytes, every field or number takes at least
    one: [read_fields_enough], [unmarshal_enough], [read_packed_enough],
    [read_entry_enough]).  The laws of the codecs need values that fit their Go
    types ([fits]): numbers their widths, strings and slices less than 2^63 bytes.
    Go's map iteration order is a sorted order where the result cannot depend on
    it, and a quantified order where it can.

    ** Not modelled

    The accessors, file descriptors and clients of the generated protobuf code
    and the codecs of queries; how the SDK finds the messages inside the bytes of
    a transaction; the ante handler (fees, account signatures, sequence numbers), gas, the SDK's own
    modules, commands and module version map; the text of JSON and the
    characters of base64, HTTP and the path matching of the gateway runtime
    (parameters with laws); the set-up of the process and the node in
    [root.go] and [app.go]; the shell scripts. *)

From stdpp Require Export base gmap strings list pretty sorting.
From Stdlib Require Export Lia.

(** ** Go errors and fallible results *)

(** A Go [error].  [Sentinel m t] is the package-level variable
    [errors.New(t)] of module [m] (compared by identity in Go, hence by name
    here); [Errorf t] is an anonymous [fmt.Errorf(t)]; [Wrap c e] is
    [fmt.Errorf("c: %w", e)]; [Panic t] is a run-time panic, which baseapp
    recovers into a failed transaction. *)
Inductive error :=
  | Sentinel (module text : string)
  | Errorf (text : string)
  | Wrap (context : string) (inner : error)
  | Panic (text : string).

#[export] Instance error_eq_dec : EqDecision error.
Proof. solve_decision. Defined.

(** [errors.Is(e, target)]: walks the chain of wrapped errors. *)
Fixpoint errors_is (e target : error) : bool :=
  bool_decide (e = target) ||
  match e with Wrap _ e' => errors_is e' target | _ => false end.

Inductive result (A : Type) :=
  | Ok (a : A)
  | Err (e : error).
Arguments Ok {_} _.
Arguments Err {_} _.

#[export] Instance result_ret : MRet result := fun A a => Ok a.
#[export] Instance result_bind : MBind result := fun A B f r =>
  match r with Ok a => f a | Err e => Err e end.

Definition is_ok {A} (r : result A) : bool :=
  match r with Ok _ => true | Err _ => false end.

Definition from_option_err {A} (e : error) (o : option A) : result A :=
  match o with Some a => Ok a | None => Err e end.

(** [if cond { return err }] in a read-only function. *)
Definition err_if (cond : bool) (e : error) : result unit :=
  if cond then Err e else Ok tt.

(** [fmt.Errorf("c: %w", err)] around a read-only call. *)
Definition wrap_err {A} (c : string) (r : result A) : result A :=
  match r with Err e => Err (Wrap c e) | r => r end.

(** ** State-passing computations

    A keeper method mutates its stores and may return an error after some of
    its writes: the state is returned on both paths.  Discarding the writes of
    a failed transaction is a separate step ([deliver]). *)
Definition M (S A : Type) : Type := S -> result A * S.

#[export] Instance M_ret S : MRet (M S) := fun A a s => (Ok a, s).
#[export] Instance M_bind S : MBind (M S) := fun A B f m s =>
  match m s with
  | (Ok a, s') => f a s'
  | (Err e, s') => (Err e, s')
  end.

Definition fail {S A} (e : error) : M S A := fun s => (Err e, s).

(** [if cond { return err }]. *)
Definition fail_if {S} (cond : bool) (e : error) : M S unit :=
  if cond then fail e else mret tt.

(** A pure fallible call. *)
Definition lift {S A} (r : result A) : M S A := fun s => (r, s).

(** A read-only call. *)
Definition reads {S A} (f : S -> result A) : M S A := fun s => (f s, s).

(** A call whose error the caller inspects or drops: the writes stay. *)
Definition attempt {S A} (m : M S A) : M S (result A) :=
  fun s => match m s with (r, s') => (Ok r, s') end.

(** [for _, x := range l { ... }] with the loop body returning early on error. *)
Fixpoint for_each {S A} (l : list A) (body : A -> M S unit) : M S unit :=
  match l with
  | [] => mret tt
  | x :: l' => body x ;; for_each l' body
  end.

(** The transaction boundary: baseapp runs a message on a cached store and
    writes the cache back only when the handler returned no error. *)
Definition deliver {S A} (m : M S A) : M S A :=
  fun s => match m s with
           | (Ok a, s') => (Ok a, s')
           | (Err e, _) => (Err e, s)
           end.

(** ** The state of a module

    [kv] is the module's own KV store (raw byte keys; the values are the
    decoded records of the module's value type [V]); [peers] is the state of
    the keepers it calls through its [expected_keepers.go] interfaces; [evs]
    the events emitted so far, most recent last. *)
Record Event := mkEvent { ev_type : string; ev_attrs : list (string * string) }.

Record St (V P : Type) := mkSt {
  kv : gmap string V;
  peers : P;
  evs : list Event;
}.
Arguments mkSt {_ _} _ _ _.
Arguments kv {_ _} _.
Arguments peers {_ _} _.
Arguments evs {_ _} _.

Lemma St_eta {V P} (s : St V P) : s = mkSt (kv s) (peers s) (evs s).
Proof. by destruct s. Qed.

Section StoreOps.
Context {V P : Type}.
Implicit Types (s : St V P).

Definition kget (k : string) : M (St V P) (option V) :=
  fun s => (Ok (kv s !! k), s).

Definition khas (k : string) : M (St V P) bool :=
  fun s => (Ok (bool_decide (is_Some (kv s !! k))), s).

Definition kset (k : string) (v : V) : M (St V P) unit :=
  fun s => (Ok tt, mkSt (<[k:=v]> (kv s)) (peers s) (evs s)).

Definition kdel (k : string) : M (St V P) unit :=
  fun s => (Ok tt, mkSt (delete k (kv s)) (peers s) (evs s)).

Definition kread {A} (f : gmap string V -> result A) : M (St V P) A :=
  fun s => (f (kv s), s).

Definition on_peers {A} (m : M P A) : M (St V P) A :=
  fun s => match m (peers s) with (r, p) => (r, mkSt (kv s) p (evs s)) end.

Definition peer_read {A} (f : P -> result A) : M (St V P) A :=
  fun s => (f (peers s), s).

Definition emit (e : Event) : M (St V P) unit :=
  fun s => (Ok tt, mkSt (kv s) (peers s) (evs s ++ [e])).
End StoreOps.

(** A computation on one component of a pair of peers. *)
Definition on_fst {A B T} (m : M A T) : M (A * B) T :=
  fun s => match m s.1 with (r, a) => (r, (a, s.2)) end.
Definition on_snd {A B T} (m : M B T) : M (A * B) T :=
  fun s => match m s.2 with (r, b) => (r, (s.1, b)) end.

(** [if err != nil { return wrap(err) }] around a call. *)
Definition map_err {S A} (w : error -> error) (m : M S A) : M S A :=
  fun s => match m s with (Err e, s') => (Err (w e), s') | r => r end.

(** ** Record fields

    [Fields R] gives the eta-expansion of a record type; from it the tactic
    below reads off, for each projection [f], the update [r <| f := v |>]
    (Go's [r.f = v] on a struct). *)
Class Fields (R : Type) := eta_fields : R -> R.
Class Setter {R A : Type} (f : R -> A) := field_setter : A -> R -> R.

Ltac solve_setter :=
  lazymatch goal with
  | |- @Setter ?R ?A ?f =>
      let inst := constr:(_ : Fields R) in
      let h := match inst with ?c => c end in
      let e := eval unfold h in inst in
      lazymatch eval pattern f in e with
      | ?g _ =>
          let t := eval cbv beta in (fun (v : A) (r : R) => g (fun _ => v) r) in
          exact t
      end
  end.
#[export] Hint Extern 0 (Setter _) => solve_setter : typeclass_instances.

Definition set_field {R A} (f : R -> A) `{!Setter f} (v : A) (r : R) : R :=
  field_setter v r.

Notation "r <| f := v |>" := (set_field f v r)
  (at level 1, left associativity, f at level 9, v at level 200,
   format "r  <|  f  :=  v  |>").

(** ** 64-bit unsigned arithmetic

    A Go [uint64] is an [N] below [2^64]; addition and subtraction wrap. *)
Declare Scope u64_scope.
Delimit Scope u64_scope with u64.

Definition two64 : N := 18446744073709551616.
Definition two63 : N := 9223372036854775808.
Definition is_u64 (x : N) : Prop := (x < two64)%N.
Definition u64_add (a b : N) : N := ((a + b) mod two64)%N.
Definition u64_sub (a b : N) : N := ((a + (two64 - b mod two64)) mod two64)%N.
Definition u64_mul (a b : N) : N := ((a * b) mod two64)%N.

Infix "+" := u64_add : u64_scope.
Infix "-" := u64_sub : u64_scope.
Infix "*" := u64_mul : u64_scope.

(** [int64(x)] for a [uint64] x, and back. *)
Definition int64_of_u64 (x : N) : Z :=
  (if N.ltb x two63 then Z.of_N x else Z.of_N x - Z.of_N two64)%Z.
Definition u64_of_int64 (x : Z) : N := Z.to_N (x mod Z.of_N two64).

(** ** Lemmas on computations *)

Section MonadLemmas.
Context {S : Type}.

Lemma M_bind_ok {A B} (m : M S A) (f : A -> M S B) s b s' :
  (m ≫= f) s = (Ok b, s') ->
  exists a s1, m s = (Ok a, s1) /\ f a s1 = (Ok b, s').
Proof. unfold mbind, M_bind. destruct (m s) as [[a|e] s1]; naive_solver. Qed.

Lemma M_bind_err {A B} (m : M S A) (f : A -> M S B) s e s' :
  (m ≫= f) s = (Err e, s') ->
  m s = (Err e, s') \/ exists a s1, m s = (Ok a, s1) /\ f a s1 = (Err e, s').
Proof. unfold mbind, M_bind. destruct (m s) as [[a|e'] s1]; naive_solver. Qed.

Lemma M_bind_run {A B} (m : M S A) (f : A -> M S B) s a s1 :
  m s = (Ok a, s1) -> (m ≫= f) s = f a s1.
Proof. unfold mbind, M_bind. by intros ->. Qed.

Lemma M_bind_run_err {A B} (m : M S A) (f : A -> M S B) s e s1 :
  m s = (Err e, s1) -> (m ≫= f) s = (Err e, s1).
Proof. unfold mbind, M_bind. by intros ->. Qed.

Lemma fail_if_ok (b : bool) e (s : S) u s' :
  fail_if b e s = (Ok u, s') -> b = false /\ s' = s.
Proof. destruct b; cbv; naive_solver. Qed.

Lemma fail_if_err (b : bool) e (s : S) e' s' :
  fail_if b e s = (Err e', s') -> b = true /\ e' = e /\ s' = s.
Proof. destruct b; cbv; naive_solver. Qed.

Lemma reads_ok {A} (f : S -> result A) s a s' :
  reads f s = (Ok a, s') -> f s = Ok a /\ s' = s.
Proof. unfold reads. naive_solver. Qed.

Lemma lift_ok {A} (r : result A) (s : S) a s' :
  lift r s = (Ok a, s') -> r = Ok a /\ s' = s.
Proof. unfold lift. naive_solver. Qed.

Lemma map_err_ok {A} w (m : M S A) s a s' :
  map_err w m s = (Ok a, s') -> m s = (Ok a, s').
Proof. unfold map_err. destruct (m s) as [[|] ?]; naive_solver. Qed.

Lemma attempt_ok {A} (m : M S A) s r s' :
  attempt m s = (Ok r, s') -> m s = (r, s').
Proof. unfold attempt. destruct (m s); naive_solver. Qed.

Lemma deliver_ok {A} (m : M S A) s a s' :
  deliver m s = (Ok a, s') -> m s = (Ok a, s').
Proof. unfold deliver. destruct (m s) as [[|] ?]; naive_solver. Qed.

Lemma deliver_run {A} (m : M S A) s a s' :
  m s = (Ok a, s') -> deliver m s = (Ok a, s').
Proof. unfold deliver. by intros ->. Qed.

Lemma deliver_err {A} (m : M S A) s e s' :
  deliver m s = (Err e, s') -> s' = s.
Proof. unfold deliver. destruct (m s) as [[|] ?]; naive_solver. Qed.

(** A run from its outcome. *)
Lemma run_outcome {A} (m : M S A) s r : (m s).1 = r -> m s = (r, (m s).2).
Proof. by destruct (m s); intros <-. Qed.

(** A property of states that the body of a loop preserves holds after the
    loop, on the error path too. *)
Lemma for_each_preserves {A} (I : S -> Prop) (l : list A) (body : A -> M S unit) s r s' :
  (forall x s0 r0 s1, x ∈ l -> I s0 -> body x s0 = (r0, s1) -> I s1) ->
  I s -> for_each l body s = (r, s') -> I s'.
Proof.
  revert s. induction l as [|x l IH]; simpl; intros s Hb HI H.
  - unfold mret, M_ret in H. by simplify_eq.
  - unfold mbind, M_bind in H. destruct (body x s) as [[[]|e] s1] eqn:E.
    + eapply IH; [|eapply Hb; [by left|done|done]|done].
      intros; eapply Hb; [by right|..]; eauto.
    + simplify_eq. eapply Hb; [by left|..]; eauto.
Qed.
End MonadLemmas.

Lemma on_fst_ok {A B T} (m : M A T) (s : A * B) t s' :
  on_fst m s = (Ok t, s') -> exists a, m s.1 = (Ok t, a) /\ s' = (a, s.2).
Proof. unfold on_fst. destruct (m s.1); naive_solver. Qed.

Lemma on_snd_ok {A B T} (m : M B T) (s : A * B) t s' :
  on_snd m s = (Ok t, s') -> exists b, m s.2 = (Ok t, b) /\ s' = (s.1, b).
Proof. unfold on_snd. destruct (m s.2); naive_solver. Qed.

Lemma result_bind_ok {A B} (r : result A) (f : A -> result B) b :
  (r ≫= f) = Ok b -> exists a, r = Ok a /\ f a = Ok b.
Proof. destruct r; unfold mbind, result_bind; naive_solver. Qed.

Lemma err_if_ok (b : bool) e u : err_if b e = Ok u -> b = false.
Proof. by destruct b. Qed.

Lemma from_option_err_ok {A} e (o : option A) a :
  from_option_err e o = Ok a <-> o = Some a.
Proof. destruct o; simpl; naive_solver. Qed.

Section StoreOpLemmas.
Context {V P : Type}.

Lemma kread_ok {A} (f : gmap string V -> result A) (s : St V P) a s' :
  kread f s = (Ok a, s') -> f (kv s) = Ok a /\ s' = s.
Proof. unfold kread. naive_solver. Qed.

Lemma peer_read_ok {A} (f : P -> result A) (s : St V P) a s' :
  peer_read f s = (Ok a, s') -> f (peers s) = Ok a /\ s' = s.
Proof. unfold peer_read. naive_solver. Qed.

Lemma on_peers_ok {A} (m : M P A) (s : St V P) a s' :
  on_peers m s = (Ok a, s') ->
  exists p, m (peers s) = (Ok a, p) /\ s' = mkSt (kv s) p (evs s).
Proof. unfold on_peers. destruct (m (peers s)); naive_solver. Qed.
End StoreOpLemmas.

Lemma ok_pair_inj {S A} (a a' : A) (s s' : S) : (Ok a, s) = (Ok a', s') -> a = a' /\ s = s'.
Proof. naive_solver. Qed.

(** Eliminates the right-hand variable of an equation, else the left one. *)
Ltac subst_eq E :=
  lazymatch type of E with
  | ?x = ?y => first [is_var y; subst y | is_var x; subst x | idtac]
  end.
Ltac ok_pair H :=
  let E := fresh "E" in apply ok_pair_inj in H as [E H]; subst_eq H; subst_eq E.

(** [mok H] takes apart a successful run: every guard that let it through,
    every intermediate state. *)
Ltac mok H :=
  lazymatch type of H with
  | (_ ≫= _) _ = (Ok _, _) =>
      let a := fresh "a" in let s1 := fresh "s" in let H1 := fresh "Hm" in
      apply M_bind_ok in H as (a & s1 & H1 & H); cbn beta in H; mok H1; mok H
  | fail_if _ _ _ = (Ok _, _) => apply fail_if_ok in H as [H ->]
  | fail _ _ = (Ok _, _) => discriminate H
  | mret _ _ = (Ok _, _) => unfold mret, M_ret in H; ok_pair H
  | reads _ _ = (Ok _, _) => apply reads_ok in H as [H ->]
  | lift _ _ = (Ok _, _) => apply lift_ok in H as [H ->]
  | map_err _ _ _ = (Ok _, _) => apply map_err_ok in H; mok H
  | kread _ _ = (Ok _, _) => apply kread_ok in H as [H ->]
  | peer_read _ _ = (Ok _, _) => apply peer_read_ok in H as [H ->]
  | kget _ _ = (Ok _, _) => unfold kget in H; ok_pair H
  | khas _ _ = (Ok _, _) => unfold khas in H; ok_pair H
  | kset _ _ _ = (Ok _, _) => unfold kset in H; ok_pair H
  | kdel _ _ = (Ok _, _) => unfold kdel in H; ok_pair H
  | emit _ _ = (Ok _, _) => unfold emit in H; ok_pair H
  | on_peers _ _ = (Ok _, _) =>
      let p := fresh "p" in apply on_peers_ok in H as (p & H & ->); mok H
  | on_fst _ _ = (Ok _, _) =>
      let p := fresh "p" in apply on_fst_ok in H as (p & H & ->)
  | on_snd _ _ = (Ok _, _) =>
      let p := fresh "p" in apply on_snd_ok in H as (p & H & ->)
  | attempt _ _ = (Ok _, _) => apply attempt_ok in H
  | (Ok _, _) = (Ok _, _) => ok_pair H
  | (Err _, _) = (Ok _, _) => discriminate H
  | (if ?b then _ else _) _ = (Ok _, _) =>
      let E := fresh "E" in destruct b eqn:E; mok H
  | (match ?x with _ => _ end) _ = (Ok _, _) =>
      let E := fresh "E" in destruct x eqn:E; mok H
  | _ => idtac
  end.

(** [rok H]: the same for read-only results. *)
Ltac rok H :=
  lazymatch type of H with
  | (_ ≫= _) = Ok _ =>
      let a := fresh "a" in let H1 := fresh "Hr" in
      apply result_bind_ok in H as (a & H1 & H); cbn beta in H; rok H1; rok H
  | err_if _ _ = Ok _ => apply err_if_ok in H
  | from_option_err _ _ = Ok _ => apply from_option_err_ok in H
  | mret _ = Ok _ => unfold mret, result_ret in H; injection H as ?; subst
  | Ok _ = Ok _ => injection H as ?; subst
  | Err _ = Ok _ => discriminate H
  | (if ?b then _ else _) = Ok _ =>
      let E := fresh "E" in destruct b eqn:E; rok H
  | (match ?x with _ => _ end) = Ok _ =>
      let E := fresh "E" in destruct x eqn:E; rok H
  | _ => idtac
  end.

(** Runs a computation symbolically: the calls become matches on their
    results, for rewriting with what is known of them. *)
Ltac mrun :=
  unfold kread, khas, kget, lift, reads, fail_if, fail, mret, M_ret, mbind, M_bind; cbn beta iota.

(** ** Computations that do not write *)
Definition read_only {S A} (m : M S A) : Prop := forall s r s', m s = (r, s') -> s' = s.

Create HintDb ro.

Section ReadOnly.
Context {S : Type}.

Lemma ro_lift {A} (r : result A) : read_only (S := S) (lift r).
Proof. unfold lift. intros s r' s'. naive_solver. Qed.
Lemma ro_ret {A} (a : A) : read_only (S := S) (mret a).
Proof. unfold mret, M_ret. intros s r' s'. naive_solver. Qed.
Lemma ro_fail {A} e : read_only (S := S) (A := A) (fail e).
Proof. unfold fail. intros s r' s'. naive_solver. Qed.
Lemma ro_fail_if b e : read_only (S := S) (fail_if b e).
Proof. destruct b; cbv; naive_solver. Qed.
Lemma ro_reads {A} (f : S -> result A) : read_only (reads f).
Proof. unfold reads. intros s r' s'. naive_solver. Qed.
Lemma ro_map_err {A} w (m : M S A) : read_only m -> read_only (map_err w m).
Proof.
  intros H s r s'. unfold map_err. destruct (m s) as [[a|e] s1] eqn:E; apply H in E; naive_solver.
Qed.
Lemma ro_bind {A B} (m : M S A) (f : A -> M S B) :
  read_only m -> (forall a, read_only (f a)) -> read_only (m ≫= f).
Proof.
  intros Hm Hf s r s'. unfold mbind, M_bind. destruct (m s) as [[a|e] s1] eqn:E.
  - apply Hm in E as ->. apply Hf.
  - apply Hm in E as ->. naive_solver.
Qed.

(** An error of a sequence that starts with a read: nothing was written, or
    the rest failed from the same state. *)
Lemma ro_bind_err {A B} (m : M S A) (f : A -> M S B) s e s' :
  read_only m -> (m ≫= f) s = (Err e, s') ->
  s' = s \/ exists a, m s = (Ok a, s) /\ f a s = (Err e, s').
Proof.
  intros Hm [H|(a & s1 & H1 & H2)]%M_bind_err; [left; by eapply Hm|].
  pose proof (Hm _ _ _ H1) as ->. eauto.
Qed.
End ReadOnly.

Section ReadOnlyStore.
Context {V P : Type}.
Lemma ro_kget k : read_only (S := St V P) (kget k).
Proof. unfold kget. intros s r' s'. naive_solver. Qed.
Lemma ro_khas k : read_only (S := St V P) (khas k).
Proof. unfold khas. intros s r' s'. naive_solver. Qed.
Lemma ro_kread {A} (f : gmap string V -> result A) : read_only (S := St V P) (kread f).
Proof. unfold kread. intros s r' s'. naive_solver. Qed.
Lemma ro_peer_read {A} (f : P -> result A) : read_only (S := St V P) (peer_read f).
Proof. unfold peer_read. intros s r' s'. naive_solver. Qed.
End ReadOnlyStore.
#[export] Hint Resolve ro_lift ro_ret ro_fail ro_fail_if ro_reads ro_map_err ro_bind
  ro_kget ro_khas ro_kread ro_peer_read : ro.

(** [ro_err H] takes apart a failed run as long as it only read; it closes
    the branches where nothing was written. *)
Ltac ro_err H :=
  repeat (
    let a := fresh "a" in let Hm := fresh "Hm" in
    apply ro_bind_err in H as [H|(a & Hm & H)]; [|clear Hm|solve [eauto with ro]];
    [first [exact H | by subst]|]; cbn beta in H).

(** Boolean guards as propositions. *)
Ltac gok :=
  repeat match goal with
  | H : (_ || _) = false |- _ => apply orb_false_iff in H as [??]
  | H : (_ && _) = true |- _ => apply andb_true_iff in H as [??]
  | H : negb _ = false |- _ => apply negb_false_iff in H
  | H : negb _ = true |- _ => apply negb_true_iff in H
  | H : bool_decide _ = true |- _ => apply bool_decide_eq_true in H
  | H : bool_decide _ = false |- _ => apply bool_decide_eq_false in H
  | H : ~ is_Some _ |- _ => apply eq_None_not_Some in H
  | H : Ok _ = Ok _ |- _ => injection H as H; subst_eq H
  | H : N.ltb _ _ = false |- _ => apply N.ltb_ge in H
  | H : N.ltb _ _ = true |- _ => apply N.ltb_lt in H
  | H : N.leb _ _ = false |- _ => apply N.leb_gt in H
  | H : N.leb _ _ = true |- _ => apply N.leb_le in H
  | H : N.eqb _ _ = false |- _ => apply N.eqb_neq in H
  | H : N.eqb _ _ = true |- _ => apply N.eqb_eq in H
  end.

(** ** Lemmas on 64-bit arithmetic *)

Lemma u64_add_small a b : (a + b < two64)%N -> (a + b)%u64 = (a + b)%N.
Proof. intros. by apply N.mod_small. Qed.

Lemma u64_add_is a b : is_u64 (a + b)%u64.
Proof. apply N.mod_lt. done. Qed.

Lemma u64_mul_small a b : (a * b < two64)%N -> (a * b)%u64 = (a * b)%N.
Proof. intros. by apply N.mod_small. Qed.

Lemma u64_sub_small a b : (b <= a)%N -> is_u64 a -> (a - b)%u64 = (a - b)%N.
Proof.
  unfold u64_sub, is_u64, two64. intros Hb Ha.
  rewrite (N.mod_small b) by lia.
  replace (a + (18446744073709551616 - b))%N
    with (a - b + 1 * 18446744073709551616)%N by lia.
  rewrite N.Div0.mod_add. apply N.mod_small. lia.
Qed.

Lemma u64_sub_wraps a b :
  (a < b)%N -> is_u64 b -> (a - b)%u64 = (two64 - (b - a))%N.
Proof.
  unfold u64_sub, is_u64, two64. intros Hb Ha.
  rewrite (N.mod_small b) by lia.
  rewrite N.mod_small by lia. lia.
Qed.

Lemma u64_sub_is a b : is_u64 (a - b)%u64.
Proof. apply N.mod_lt. done. Qed.

Create HintDb wv.
#[export] Hint Resolve u64_add_is u64_sub_is : wv.

Lemma u64_of_int64_is x : is_u64 (u64_of_int64 x).
Proof.
  unfold u64_of_int64, is_u64. pose proof (Z.mod_pos_bound x (Z.of_N two64) eq_refl). lia.
Qed.

Lemma u64_succ_mod n : (n mod two64 + 1)%u64 = ((n + 1) mod two64)%N.
Proof. unfold u64_add. by rewrite N.Div0.add_mod_idemp_l. Qed.
