(* ===== verification/Bytes.v ===== *)
(** * Byte strings

    Go strings and byte slices are [string]s (sequences of bytes).  This file
    models the standard-library functions the modules build keys, signing
    preimages and counters with: [encoding/hex], [strconv], [strings.Join],
    [strings.ToLower] (on ASCII), [encoding/binary], and gives the facts about
    separators that make composed keys and preimages unambiguous. *)

From S2P Require Import Prelude.
From Stdlib Require Import Ascii.

(** ** Characters *)

Fixpoint all_chars (p : ascii -> bool) (s : string) : bool :=
  match s with
  | EmptyString => true
  | String c s' => p c && all_chars p s'
  end.

Definition free_of (c : ascii) (s : string) : Prop :=
  all_chars (fun d => negb (Ascii.eqb d c)) s = true.

Definition is_digit (c : ascii) : bool :=
  N.leb 48 (N_of_ascii c) && N.leb (N_of_ascii c) 57.

(** Characters [0-9a-f]. *)
Definition is_hex_lower (c : ascii) : bool :=
  is_digit c || (N.leb 97 (N_of_ascii c) && N.leb (N_of_ascii c) 102).

(** ** [encoding/hex] *)

Definition hex_digit (x : N) : ascii :=
  if N.ltb x 10 then ascii_of_N (48 + x) else ascii_of_N (87 + x).

(** [hex.EncodeToString]. *)
Fixpoint hex_encode (s : string) : string :=
  match s with
  | EmptyString => EmptyString
  | String c s' =>
      String (hex_digit (N_of_ascii c / 16))
        (String (hex_digit (N_of_ascii c mod 16)) (hex_encode s'))
  end.

Definition hex_val (c : ascii) : option N :=
  let n := N_of_ascii c in
  if N.leb 48 n && N.leb n 57 then Some (n - 48)%N
  else if N.leb 97 n && N.leb n 102 then Some (n - 87)%N
  else if N.leb 65 n && N.leb n 70 then Some (n - 55)%N
  else None.

(** [hex.DecodeString]: both cases accepted, odd length is an error. *)
Fixpoint hex_decode (s : string) : option string :=
  match s with
  | EmptyString => Some EmptyString
  | String _ EmptyString => None
  | String c (String d s') =>
      match hex_val c, hex_val d, hex_decode s' with
      | Some x, Some y, Some t => Some (String (ascii_of_N (16 * x + y)) t)
      | _, _, _ => None
      end
  end.

(** ** [strconv] *)

(** [strconv.FormatUint(x, 10)], and [%d] of a [uint64]. *)
Definition FormatUint (x : N) : string := pretty x.

(** [%d] of an [int64]. *)
Definition FormatInt (x : Z) : string := pretty x.

Fixpoint digits_val (acc : N) (s : string) : option N :=
  match s with
  | EmptyString => Some acc
  | String c s' =>
      if is_digit c then digits_val (10 * acc + (N_of_ascii c - 48))%N s' else None
  end.

(** [strconv.ParseUint(s, 10, 64)]. *)
Definition ParseUint (s : string) : option N :=
  if bool_decide (s = "") then None
  else match digits_val 0 s with
       | Some x => if N.ltb x two64 then Some x else None
       | None => None
       end.

(** ** [encoding/binary] *)

Fixpoint be_bytes (n : nat) (x : N) (acc : string) : string :=
  match n with
  | O => acc
  | S n' => be_bytes n' (x / 256) (String (ascii_of_N (x mod 256)) acc)
  end.

(** [binary.BigEndian.PutUint64]. *)
Definition PutUint64 (x : N) : string := be_bytes 8 x "".

Fixpoint be_val (acc : N) (s : string) : N :=
  match s with
  | EmptyString => acc
  | String c s' => be_val (256 * acc + N_of_ascii c)%N s'
  end.

(** [binary.BigEndian.Uint64]: reads the first eight bytes and panics on a
    shorter slice. *)
Definition BigEndianUint64 (s : string) : result N :=
  if Nat.ltb (String.length s) 8 then Err (Panic "index out of range")
  else Ok (be_val 0 (String.substring 0 8 s)).

(** ** [strings] *)

(** [strings.Join]. *)
Fixpoint Join (sep : string) (l : list string) : string :=
  match l with
  | [] => ""
  | [x] => x
  | x :: l' => x +:+ sep +:+ Join sep l'
  end.

Definition newline : string := String (ascii_of_N 10) "".

(** [strings.ToLower] restricted to ASCII letters: the two callers compare the
    result with the input and then require hexadecimal digits, so a non-ASCII
    input is rejected by either test. *)
Definition lower_char (c : ascii) : ascii :=
  let n := N_of_ascii c in
  if N.leb 65 n && N.leb n 90 then ascii_of_N (n + 32) else c.

Fixpoint ToLower (s : string) : string :=
  match s with
  | EmptyString => EmptyString
  | String c s' => String (lower_char c) (ToLower s')
  end.

(** [len(s)] of a Go string or slice, as a [uint64]-sized number. *)
Definition len (s : string) : N := N.of_nat (String.length s).

(** ** Facts about characters and appending *)

#[local] Arguments String.append !_ _ /.

Lemma str_app_nil_r s : s +:+ "" = s.
Proof. induction s; simpl; congruence. Qed.

Lemma str_app_assoc a b c : (a +:+ b) +:+ c = a +:+ (b +:+ c).
Proof. induction a; simpl; congruence. Qed.

Lemma str_app_inj_l a b c : a +:+ b = a +:+ c -> b = c.
Proof. apply (inj (String.app a)). Qed.

Lemma str_length_app a b :
  String.length (a +:+ b) = (String.length a + String.length b)%nat.
Proof. induction a; simpl; congruence. Qed.

Lemma all_chars_app p a b : all_chars p (a +:+ b) = all_chars p a && all_chars p b.
Proof. induction a; simpl; [done|]. rewrite IHa. by rewrite andb_assoc. Qed.

Lemma all_chars_impl (p q : ascii -> bool) s :
  (forall c, p c = true -> q c = true) -> all_chars p s = true -> all_chars q s = true.
Proof.
  intros Hpq. induction s; simpl; [done|].
  rewrite !andb_true_iff. naive_solver.
Qed.

Lemma free_of_cons c d s : free_of c (String d s) <-> d <> c /\ free_of c s.
Proof.
  unfold free_of. simpl. rewrite andb_true_iff, negb_true_iff.
  destruct (Ascii.eqb_spec d c); naive_solver.
Qed.

Lemma free_of_app c a b : free_of c (a +:+ b) <-> free_of c a /\ free_of c b.
Proof. unfold free_of. rewrite all_chars_app, andb_true_iff. done. Qed.

(** A separator that the left parts do not contain splits a string in only
    one way. *)
Lemma sep_split c a a' b b' :
  free_of c a -> free_of c a' ->
  a +:+ String c b = a' +:+ String c b' -> a = a' /\ b = b'.
Proof.
  revert a'. induction a as [|x a IH]; intros [|x' a'] Ha Ha' H; simpl in *.
  - naive_solver.
  - apply free_of_cons in Ha' as [? _]. naive_solver.
  - apply free_of_cons in Ha as [? _]. naive_solver.
  - apply free_of_cons in Ha as [? Ha]. apply free_of_cons in Ha' as [? Ha'].
    injection H as -> H. destruct (IH a' Ha Ha' H). naive_solver.
Qed.

Lemma sep_absent c a b s : free_of c s -> a +:+ String c b <> s.
Proof.
  intros Hs <-. apply free_of_app in Hs as [_ [? _]%free_of_cons]. done.
Qed.

(** The last separator splits a string in only one way. *)
Lemma sep_split_last c a a' b b' :
  free_of c b -> free_of c b' ->
  a +:+ String c b = a' +:+ String c b' -> a = a' /\ b = b'.
Proof.
  intros Hb Hb'. revert a'. induction a as [|x a IH]; intros [|x' a'] H; simpl in *.
  - by injection H.
  - injection H as -> ->. by destruct (sep_absent x' a' b' _ Hb).
  - injection H as -> <-. by destruct (sep_absent c a b _ Hb').
  - injection H as -> H. by destruct (IH a' H) as [-> ->].
Qed.

Lemma is_digit_not c : is_digit c = true -> N_of_ascii c <> 47%N /\ N_of_ascii c <> 10%N.
Proof. unfold is_digit. rewrite andb_true_iff, !N.leb_le. lia. Qed.

Lemma is_hex_lower_not c :
  is_hex_lower c = true -> N_of_ascii c <> 47%N /\ N_of_ascii c <> 10%N.
Proof.
  unfold is_hex_lower. rewrite orb_true_iff, andb_true_iff, !N.leb_le.
  intros [?%is_digit_not|?]; [done|lia].
Qed.

Lemma class_free_of p (c : ascii) s :
  (forall d, p d = true -> N_of_ascii d <> N_of_ascii c) ->
  all_chars p s = true -> free_of c s.
Proof.
  intros Hp. apply all_chars_impl. intros d Hd%Hp.
  rewrite negb_true_iff. destruct (Ascii.eqb_spec d c); naive_solver.
Qed.

(** ** Hexadecimal *)

Lemma N_of_ascii_lt c : (N_of_ascii c < 256)%N.
Proof. apply N_ascii_bounded. Qed.

(** Checking a bounded statement on every value. *)
Lemma N_forallb (n : nat) (p : N -> bool) x :
  forallb p (map N.of_nat (List.seq 0 n)) = true -> (x < N.of_nat n)%N -> p x = true.
Proof.
  intros Hall Hx. rewrite forallb_forall in Hall. apply Hall.
  rewrite in_map_iff. exists (N.to_nat x). rewrite in_seq. lia.
Qed.

Lemma hex_digit_val x : (x < 16)%N -> hex_val (hex_digit x) = Some x.
Proof.
  intros Hx.
  set (p y := match hex_val (hex_digit y) with Some z => N.eqb z y | None => false end).
  assert (p x = true) as Hp by by apply (N_forallb 16).
  unfold p in Hp. destruct (hex_val _); [|done]. apply N.eqb_eq in Hp. by subst.
Qed.

Lemma hex_digit_lower x : (x < 16)%N -> is_hex_lower (hex_digit x) = true.
Proof. by apply (N_forallb 16 (fun y => is_hex_lower (hex_digit y))). Qed.

Lemma byte_nibbles c :
  (N_of_ascii c / 16 < 16)%N /\ (N_of_ascii c mod 16 < 16)%N.
Proof.
  pose proof (N_of_ascii_lt c). split; [apply N.Div0.div_lt_upper_bound; lia|].
  by apply N.mod_lt.
Qed.

Lemma hex_decode_encode s : hex_decode (hex_encode s) = Some s.
Proof.
  induction s as [|c s IH]; [done|].
  destruct (byte_nibbles c) as [H1 H2].
  cbn [hex_encode hex_decode]. rewrite !hex_digit_val, IH by done.
  rewrite <- N.Div0.div_mod, ascii_N_embedding. done.
Qed.

Lemma hex_encode_inj s t : hex_encode s = hex_encode t -> s = t.
Proof. intros H. apply (f_equal hex_decode) in H. rewrite !hex_decode_encode in H. naive_solver. Qed.

Lemma hex_encode_lower s : all_chars is_hex_lower (hex_encode s) = true.
Proof.
  induction s as [|c s IH]; [done|].
  destruct (byte_nibbles c) as [H1 H2].
  cbn [hex_encode all_chars]. rewrite !hex_digit_lower, IH by done. done.
Qed.

Lemma hex_encode_no_slash s : free_of "/"%char (hex_encode s).
Proof. eapply class_free_of; [|apply hex_encode_lower]. apply is_hex_lower_not. Qed.

Lemma hex_encode_no_newline s : free_of (ascii_of_N 10) (hex_encode s).
Proof. eapply class_free_of; [|apply hex_encode_lower]. apply is_hex_lower_not. Qed.

(** ** Decimal *)

Lemma pretty_N_go_digits x s :
  all_chars is_digit s = true -> all_chars is_digit (pretty_N_go x s) = true.
Proof.
  revert s. induction (N.lt_wf_0 x) as [x _ IH]; intros s Hs.
  destruct (decide (0 < x)%N); [|by replace x with 0%N by lia].
  rewrite pretty_N_go_step by done. apply IH; [by apply N.div_lt|].
  simpl. rewrite Hs, andb_true_r.
  pose proof (N.mod_lt x 10 ltac:(done)) as Hlt.
  unfold pretty_N_char, is_digit. by repeat case_match.
Qed.

Lemma FormatUint_digits x : all_chars is_digit (FormatUint x) = true.
Proof.
  unfold FormatUint, pretty, pretty_N. case_decide; [done|].
  by apply pretty_N_go_digits.
Qed.

Lemma FormatUint_inj x y : FormatUint x = FormatUint y -> x = y.
Proof. apply (inj pretty). Qed.

Lemma FormatUint_no_slash x : free_of "/"%char (FormatUint x).
Proof. eapply class_free_of; [|apply FormatUint_digits]. apply is_digit_not. Qed.

Lemma FormatUint_no_newline x : free_of (ascii_of_N 10) (FormatUint x).
Proof. eapply class_free_of; [|apply FormatUint_digits]. apply is_digit_not. Qed.

Lemma pretty_N_char_digit x : (x < 10)%N ->
  is_digit (pretty_N_char x) = true /\ (N_of_ascii (pretty_N_char x) - 48)%N = x.
Proof.
  intros Hx. split.
  - by apply (N_forallb 10 (fun y => is_digit (pretty_N_char y))).
  - apply N.eqb_eq.
    by apply (N_forallb 10 (fun y => N.eqb (N_of_ascii (pretty_N_char y) - 48) y)).
Qed.

Lemma digits_val_pretty x s : digits_val 0 (pretty_N_go x s) = digits_val x s.
Proof.
  revert s. induction (N.lt_wf_0 x) as [x _ IH]; intros s.
  destruct (decide (0 < x)%N); [|by replace x with 0%N by lia].
  rewrite pretty_N_go_step by done. rewrite IH by (by apply N.div_lt). simpl.
  destruct (pretty_N_char_digit (x `mod` 10)) as [-> ->]; [by apply N.mod_lt|].
  f_equal. rewrite <- N.Div0.div_mod. done.
Qed.

Lemma pretty_N_go_nonempty x s : s <> "" -> pretty_N_go x s <> "".
Proof.
  revert s. induction (N.lt_wf_0 x) as [x _ IH]; intros s Hs.
  destruct (decide (0 < x)%N); [|by replace x with 0%N by lia].
  rewrite pretty_N_go_step by done. apply IH; [by apply N.div_lt|done].
Qed.

(** [ParseUint] inverts [FormatUint] on every [uint64]. *)
Lemma ParseUint_FormatUint x : is_u64 x -> ParseUint (FormatUint x) = Some x.
Proof.
  unfold is_u64. intros Hx. unfold ParseUint, FormatUint, pretty, pretty_N.
  case_decide; [by subst|].
  rewrite bool_decide_eq_false_2; last first.
  { rewrite pretty_N_go_step by lia. by apply pretty_N_go_nonempty. }
  rewrite digits_val_pretty. simpl. apply N.ltb_lt in Hx. by rewrite Hx.
Qed.

Lemma FormatUint_nonempty x : FormatUint x <> "".
Proof.
  unfold FormatUint, pretty, pretty_N. case_decide; [done|].
  rewrite pretty_N_go_step by lia. by apply pretty_N_go_nonempty.
Qed.

(** ** Big-endian counters *)

Lemma be_val_bytes n x acc s :
  be_val acc (be_bytes n x s) = be_val (256 ^ N.of_nat n * acc + x mod 256 ^ N.of_nat n) s.
Proof.
  revert x acc s. induction n as [|n IH]; intros x acc s.
  - cbn. f_equal. rewrite N.mod_1_r. lia.
  - cbn [be_bytes]. rewrite IH. cbn [be_val]. f_equal.
    rewrite N_ascii_embedding by (by apply N.mod_lt).
    rewrite Nat2N.inj_succ, N.pow_succ_r'.
    rewrite (N.mul_comm 256 (256 ^ N.of_nat n)) at 1.
    rewrite (N.mul_comm 256 (256 ^ _)).
    rewrite (N.mul_comm (256 ^ N.of_nat n) 256) at 2.
    rewrite (N.Div0.mod_mul_r x 256). lia.
Qed.

Lemma be_bytes_length n x s :
  String.length (be_bytes n x s) = (n + String.length s)%nat.
Proof. revert x s. induction n; intros; simpl; [done|]. rewrite IHn. simpl. lia. Qed.

Lemma substring_all s : String.substring 0 (String.length s) s = s.
Proof. induction s; simpl; congruence. Qed.

Lemma BigEndianUint64_Put x : is_u64 x -> BigEndianUint64 (PutUint64 x) = Ok x.
Proof.
  unfold is_u64. intros Hx. unfold BigEndianUint64, PutUint64.
  pose proof (be_bytes_length 8 x "") as Hlen. cbn [String.length Nat.add] in Hlen.
  rewrite Hlen. simpl Nat.ltb. cbv iota. rewrite <- Hlen, substring_all, be_val_bytes.
  cbn [be_val]. f_equal. rewrite N.mul_0_r, N.add_0_l.
  by apply N.mod_small.
Qed.

(** ** Joined lines *)

Lemma Join_cons2 sep x y l : Join sep (x :: y :: l) = x +:+ sep +:+ Join sep (y :: l).
Proof. done. Qed.

(** Joining newline-free lines with a newline is injective. *)
Lemma Join_newline_inj l l' :
  Forall (free_of (ascii_of_N 10)) l -> Forall (free_of (ascii_of_N 10)) l' ->
  l <> [] -> l' <> [] ->
  Join newline l = Join newline l' -> l = l'.
Proof.
  revert l'. induction l as [|x l IH]; intros [|x' l'] Hl Hl' Hn Hn' H; try done.
  apply Forall_cons in Hl as [Hx Hl]. apply Forall_cons in Hl' as [Hx' Hl'].
  destruct l as [|y l], l' as [|y' l'].
  - simpl in H. by subst.
  - rewrite Join_cons2 in H. symmetry in H.
    exfalso. eapply sep_absent; [exact Hx|exact H].
  - rewrite Join_cons2 in H. exfalso. eapply sep_absent; [exact Hx'|exact H].
  - rewrite !Join_cons2 in H. unfold newline in H. cbn [String.app] in H.
    apply sep_split in H as [-> H]; [|done|done].
    f_equal. by apply IH.
Qed.

#[export] Hint Resolve hex_encode_no_slash hex_encode_no_newline
  FormatUint_no_slash FormatUint_no_newline : wv.

Lemma Join_snoc sep x l y : Join sep ((x :: l) ++ [y]) = Join sep (x :: l) +:+ sep +:+ y.
Proof.
  revert x. induction l as [|z l IH]; intros x; [done|].
  change ((x :: z :: l) ++ [y])%list with (x :: z :: (l ++ [y]))%list. rewrite !Join_cons2.
  change (z :: (l ++ [y]))%list with ((z :: l) ++ [y])%list. rewrite IH.
  by rewrite !str_app_assoc.
Qed.

(** When all the lines but the first are newline-free, the first may be
    anything: equally many lines with the same text are the same lines. *)
Lemma Join_newline_tail_inj o o' l l' :
  length l = length l' ->
  Forall (free_of (ascii_of_N 10)) l -> Forall (free_of (ascii_of_N 10)) l' ->
  Join newline (o :: l) = Join newline (o' :: l') -> o = o' /\ l = l'.
Proof.
  revert l'. induction l as [|x l IH] using rev_ind; intros l' Hlen Hl Hl' H.
  - by destruct l'.
  - destruct l' as [|x' l' _] using rev_ind; rewrite !length_app in Hlen; [simpl in Hlen; lia|].
    apply Forall_app in Hl as [Hl [Hx _]%Forall_cons].
    apply Forall_app in Hl' as [Hl' [Hx' _]%Forall_cons].
    change (o :: l ++ [x])%list with ((o :: l) ++ [x])%list in H.
    change (o' :: l' ++ [x'])%list with ((o' :: l') ++ [x'])%list in H. rewrite !Join_snoc in H.
    apply sep_split_last in H as [H ->]; [|done..].
    apply IH in H as [-> ->]; [done| |done..]. simpl in Hlen; lia.
Qed.
