(* ===== verification/Store.v ===== *)
(** * KV-store iteration

    [store.Iterator(start, end)] of the SDK visits the keys [k] with
    [start <= k < end] in byte order, [end = nil] meaning no upper bound;
    [storetypes.PrefixEndBytes(p)] is the first key after all the keys with
    prefix [p].  Most scans of the modules pass both bounds; several pass
    [nil] as the end and run to the end of the module's store. *)

From S2P Require Import Prelude Bytes.
From Stdlib Require Import Ascii.

Section Iteration.
Context {V : Type}.
Implicit Types (m : gmap string V).

Definition key_le (x y : string * V) : Prop := String.le x.1 y.1.

#[export] Instance key_le_dec : RelDecision key_le.
Proof. intros x y. unfold key_le. apply _. Defined.

Definition in_range (start : string) (stop : option string) (k : string) : bool :=
  String.leb start k && match stop with None => true | Some e => String.ltb k e end.

Definition Iterator (start : string) (stop : option string) m : list (string * V) :=
  merge_sort key_le (map_to_list (filter (fun kv => in_range start stop kv.1 = true) m)).
End Iteration.

Definition succ_char (c : ascii) : option ascii :=
  if N.eqb (N_of_ascii c) 255 then None else Some (ascii_of_N (N_of_ascii c + 1)).

(** [storetypes.PrefixEndBytes]: drop trailing 0xFF bytes, increment the last
    byte left; [nil] when nothing is left. *)
Fixpoint PrefixEndBytes (p : string) : option string :=
  match p with
  | EmptyString => None
  | String c p' =>
      match PrefixEndBytes p' with
      | Some e => Some (String c e)
      | None => match succ_char c with Some d => Some (String d "") | None => None end
      end
  end.

(** The two kinds of scan. *)
Definition prefix_iter {V} (p : string) (m : gmap string V) : list (string * V) :=
  Iterator p (PrefixEndBytes p) m.

Definition from_iter {V} (p : string) (m : gmap string V) : list (string * V) :=
  Iterator p None m.

(** The sentinel key the application's [InitChainer] writes to every store. *)
Definition genesisInitMarkerKey : string :=
  let c := ascii_of_N 255 in String c (String c (String c (String c ""))).
Definition genesisInitMarkerValue : string := String (ascii_of_N 1) "".

(** ** Order and prefixes *)

Lemma prefix_cons c p d s :
  String.prefix (String c p) (String d s) =
  if decide (c = d) then String.prefix p s else false.
Proof.
  change (String.prefix (String c p) (String d s))
    with (if ascii_dec c d then String.prefix p s else false).
  by destruct (ascii_dec c d), (decide (c = d)).
Qed.

Lemma prefix_spec p s : String.prefix p s = true <-> exists t, s = p +:+ t.
Proof.
  revert s. induction p as [|c p IH]; intros s.
  - split; [intros _; by exists s|]. by destruct s.
  - destruct s as [|d s]; [by split; [|intros [? ?]]|].
    rewrite prefix_cons. case_decide as Hcd.
    + subst. rewrite IH. split; intros [t H]; exists t; [by rewrite H|by injection H].
    + split; [done|]. intros [t H]. injection H as H _. congruence.
Qed.

Lemma prefix_app p t : String.prefix p (p +:+ t) = true.
Proof. apply prefix_spec. eauto. Qed.

Lemma leb_cons c s d t :
  String.leb (String c s) (String d t) =
  match Ascii.compare c d with Lt => true | Eq => String.leb s t | Gt => false end.
Proof. unfold String.leb. cbn. by destruct (Ascii.compare c d). Qed.

Lemma ltb_cons c s d t :
  String.ltb (String c s) (String d t) =
  match Ascii.compare c d with Lt => true | Eq => String.ltb s t | Gt => false end.
Proof. unfold String.ltb. cbn. by destruct (Ascii.compare c d). Qed.

Lemma ascii_compare_N c d : Ascii.compare c d = N.compare (N_of_ascii c) (N_of_ascii d).
Proof. done. Qed.

Lemma N_of_ascii_inj c d : N_of_ascii c = N_of_ascii d -> c = d.
Proof. intros H. rewrite <- (ascii_N_embedding c), H. apply ascii_N_embedding. Qed.

Lemma leb_prefix_all_ff p k :
  PrefixEndBytes p = None -> String.leb p k = String.prefix p k.
Proof.
  revert k. induction p as [|c p IH]; intros k Hp; [by destruct k|].
  cbn in Hp. destruct (PrefixEndBytes p); [done|]. unfold succ_char in Hp.
  destruct (N.eqb _ 255) eqn:Hc; [|done]. apply N.eqb_eq in Hc.
  destruct k as [|d k]; [reflexivity|].
  rewrite leb_cons, prefix_cons, ascii_compare_N, Hc.
  pose proof (N_of_ascii_lt d). case_decide as Hcd.
  - subst. rewrite Hc, N.compare_refl. by apply IH.
  - destruct (N.compare_spec 255 (N_of_ascii d)) as [He| |]; [|lia|done].
    destruct Hcd. apply N_of_ascii_inj. congruence.
Qed.

(** The range up to [PrefixEndBytes p] is exactly the keys with prefix [p]. *)
Lemma in_range_prefix p k e :
  PrefixEndBytes p = Some e -> in_range p (Some e) k = String.prefix p k.
Proof.
  unfold in_range. revert k e. induction p as [|c p IH]; intros k e He; [done|].
  cbn in He. destruct k as [|d k]; [reflexivity|]. rewrite leb_cons, prefix_cons, ascii_compare_N.
  destruct (PrefixEndBytes p) as [e'|] eqn:Hp.
  - simplify_eq. rewrite ltb_cons, ascii_compare_N.
    case_decide as Hcd; [subst; rewrite N.compare_refl; by apply IH|].
    destruct (N.compare_spec (N_of_ascii c) (N_of_ascii d)) as [He| |]; [|by rewrite (proj2 (N.compare_gt_iff _ _))|done].
    destruct Hcd. by apply N_of_ascii_inj.
  - unfold succ_char in He. destruct (N.eqb _ 255) eqn:Hc; [done|]. simplify_eq.
    apply N.eqb_neq in Hc. pose proof (N_of_ascii_lt c).
    rewrite ltb_cons, ascii_compare_N, N_ascii_embedding by lia.
    case_decide as Hcd.
    + subst. rewrite N.compare_refl, leb_prefix_all_ff by done.
      rewrite (proj2 (N.compare_lt_iff _ _)) by lia. by rewrite andb_true_r.
    + destruct (N.compare_spec (N_of_ascii c) (N_of_ascii d)) as [He| |]; [| |done].
      { destruct Hcd. by apply N_of_ascii_inj. }
      simpl. destruct (N.compare_spec (N_of_ascii d) (N_of_ascii c + 1)); [|lia|done].
      unfold String.ltb. by destruct k.
Qed.

(** A prefix that ends in a byte other than 0xff has an end key, whatever
    precedes that byte. *)
Lemma PrefixEndBytes_app p s :
  is_Some (PrefixEndBytes s) -> is_Some (PrefixEndBytes (p +:+ s)).
Proof.
  intros Hs. induction p as [|c p [e IH]]; [done|].
  change (String c p +:+ s) with (String c (p +:+ s)).
  change (is_Some (match PrefixEndBytes (p +:+ s) with
    | Some e => Some (String c e)
    | None => match succ_char c with Some d => Some (String d "") | None => None end
    end)).
  rewrite IH. by eexists.
Qed.

Lemma leb_refl s : String.leb s s = true.
Proof. apply Is_true_true. apply (reflexivity (R := String.le)). Qed.

Lemma leb_app p t : String.leb p (p +:+ t) = true.
Proof.
  induction p as [|c p IH]; [by destruct t|].
  change (String c p +:+ t) with (String c (p +:+ t)).
  by rewrite leb_cons, ascii_compare_N, N.compare_refl.
Qed.

(** ** What a scan visits *)

Section IterationLemmas.
Context {V : Type}.
Implicit Types (m : gmap string V).

Lemma elem_of_Iterator start stop m k v :
  (k, v) ∈ Iterator start stop m <-> m !! k = Some v /\ in_range start stop k = true.
Proof.
  unfold Iterator. rewrite merge_sort_Permutation, elem_of_map_to_list, map_lookup_filter_Some.
  done.
Qed.

Lemma elem_of_prefix_iter p m k v :
  is_Some (PrefixEndBytes p) ->
  (k, v) ∈ prefix_iter p m <-> m !! k = Some v /\ String.prefix p k = true.
Proof.
  intros [e He]. unfold prefix_iter. rewrite elem_of_Iterator, He.
  by rewrite in_range_prefix.
Qed.

Lemma elem_of_from_iter p m k v :
  (k, v) ∈ from_iter p m <-> m !! k = Some v /\ String.leb p k = true.
Proof. unfold from_iter. rewrite elem_of_Iterator. unfold in_range. by rewrite andb_true_r. Qed.

Lemma prefix_iter_range p k :
  is_Some (PrefixEndBytes p) -> in_range p (PrefixEndBytes p) k = String.prefix p k.
Proof. intros [e He]. rewrite He. by apply in_range_prefix. Qed.

(** A scan visits each key once and in increasing order. *)
Lemma Iterator_NoDup start stop m : NoDup (Iterator start stop m).*1.
Proof.
  unfold Iterator. rewrite merge_sort_Permutation. apply NoDup_fst_map_to_list.
Qed.

#[export] Instance key_le_trans : Transitive (@key_le V).
Proof. intros x y z. unfold key_le. apply transitivity. Qed.

#[export] Instance key_le_total : Total (@key_le V).
Proof. intros x y. unfold key_le. apply (total String.le). Qed.

Lemma Iterator_sorted start stop m : StronglySorted key_le (Iterator start stop m).
Proof. unfold Iterator. apply StronglySorted_merge_sort; apply _. Qed.

Lemma Iterator_length start stop m :
  length (Iterator start stop m) = size (filter (fun kv => in_range start stop kv.1 = true) m).
Proof. unfold Iterator. rewrite merge_sort_Permutation. by rewrite length_map_to_list. Qed.

(** Writes outside the range do not change a scan. *)
Lemma Iterator_insert_out start stop m k v :
  in_range start stop k = false -> Iterator start stop (<[k:=v]> m) = Iterator start stop m.
Proof.
  intros Hk. unfold Iterator. rewrite map_filter_insert_not; [done|]. simpl. congruence.
Qed.

Lemma Iterator_delete_out start stop m k :
  in_range start stop k = false -> Iterator start stop (delete k m) = Iterator start stop m.
Proof.
  intros Hk. unfold Iterator. rewrite map_filter_delete_not; [done|]. simpl. congruence.
Qed.

Lemma Iterator_length_insert_new start stop m k v :
  in_range start stop k = true -> m !! k = None ->
  length (Iterator start stop (<[k:=v]> m)) = S (length (Iterator start stop m)).
Proof.
  intros Hk Hm. rewrite !Iterator_length, map_filter_insert_True by done.
  apply map_size_insert_None. rewrite map_lookup_filter_None. auto.
Qed.

Lemma Iterator_length_insert_old start stop m k v :
  in_range start stop k = true -> is_Some (m !! k) ->
  length (Iterator start stop (<[k:=v]> m)) = length (Iterator start stop m).
Proof.
  intros Hk [w Hm]. rewrite !Iterator_length, map_filter_insert_True by done.
  apply map_size_insert_Some. exists w. by rewrite map_lookup_filter_Some.
Qed.

Lemma Iterator_length_delete start stop m k :
  in_range start stop k = true -> is_Some (m !! k) ->
  length (Iterator start stop m) = S (length (Iterator start stop (delete k m))).
Proof.
  intros Hk [w Hm]. rewrite !Iterator_length, map_filter_delete.
  rewrite map_size_delete_Some; [|exists w; by rewrite map_lookup_filter_Some].
  assert (size (filter (fun kv => in_range start stop kv.1 = true) m) <> 0).
  { apply map_size_ne_0_lookup_2 with k. exists w. by rewrite map_lookup_filter_Some. }
  lia.
Qed.

(** A scan depends only on the entries in its range. *)
Lemma Iterator_ext start stop m m' :
  (forall k, in_range start stop k = true -> m !! k = m' !! k) ->
  Iterator start stop m = Iterator start stop m'.
Proof.
  intros H. unfold Iterator. do 2 f_equal. apply map_eq. intros k. apply option_eq. intros v.
  rewrite !map_lookup_filter_Some. cbn [fst]. split; intros [H1 H2]; split; try done;
    by rewrite <- H1, H.
Qed.

(** ** Scans that ignore some entries *)

Lemma Iterator_filter (p : string * V -> bool) start stop m :
  List.filter p (Iterator start stop m) =
  Iterator start stop (filter (fun kv => p kv = true) m).
Proof.
  assert (forall l, List.filter p l = filter (fun kv => p kv = true) l) as Hf.
  { induction l as [|x l IH]; [done|]. rewrite filter_cons. simpl.
    destruct (p x); simpl; by rewrite IH. }
  apply (StronglySorted_unique_strong key_le).
  - intros [k1 v1] [k2 v2] H1 H2 L1 L2.
    assert (k1 = k2) as <- by (apply (anti_symm String.le); done).
    rewrite Hf, list_elem_of_filter, elem_of_Iterator in H1. rewrite elem_of_Iterator in H2.
    rewrite map_lookup_filter_Some in H2. f_equal. naive_solver congruence.
  - pose proof (Iterator_sorted start stop m) as Hs. rewrite Hf.
    induction Hs as [|x l Hs IH Hx]; [constructor|]. rewrite filter_cons.
    case_decide; [|done]. constructor; [done|].
    apply Forall_forall. intros y [_ Hy]%list_elem_of_filter. by eapply Forall_forall in Hx.
  - apply Iterator_sorted.
  - rewrite Hf. apply NoDup_Permutation.
    + apply NoDup_filter. eapply NoDup_fmap_1, Iterator_NoDup.
    + eapply NoDup_fmap_1, Iterator_NoDup.
    + intros [k v]. rewrite list_elem_of_filter, !elem_of_Iterator, map_lookup_filter_Some. tauto.
Qed.

(** A write that a scan ignores, over nothing or over an entry it ignores. *)
Lemma scan_insert_ignored {A} (g : string * V -> option A) start stop m k v :
  g (k, v) = None -> (forall w, m !! k = Some w -> g (k, w) = None) ->
  omap g (Iterator start stop (<[k:=v]> m)) = omap g (Iterator start stop m).
Proof.
  intros Hv Hw.
  set (p := fun kv => bool_decide (is_Some (g kv))).
  assert (forall l, omap g l = omap g (List.filter p l)) as Hg.
  { induction l as [|x l IH]; [done|]. cbn. unfold p. destruct (g x) eqn:E; cbn; [rewrite E|]; by rewrite IH. }
  rewrite (Hg (Iterator _ _ (<[k:=v]> m))), (Hg (Iterator _ _ m)), !Iterator_filter.
  do 2 f_equal. apply map_filter_insert_not'.
  - unfold p. rewrite Hv. discriminate.
  - intros w Hmw. unfold p. rewrite (Hw _ Hmw). discriminate.
Qed.
End IterationLemmas.

(** Two keys built from different literal prefixes are different. *)
Ltac key_ne :=
  match goal with
  | |- _ <> _ => let H := fresh in intros H; discriminate H
  | |- _ = false => reflexivity
  end.

(** ** Totals over a store *)

(** The sum of [f key value] over the entries of a store. *)
Definition sum_values {V} (f : string -> V -> N) (m : gmap string V) : N :=
  map_fold (fun k v acc => (f k v + acc)%N) 0%N m.

Section Sums.
Context {V : Type} (f : string -> V -> N).
Implicit Types m : gmap string V.

Lemma sum_insert_new m k v :
  m !! k = None -> sum_values f (<[k:=v]> m) = (f k v + sum_values f m)%N.
Proof. intros H. unfold sum_values. rewrite map_fold_insert_L; [done| |done]. intros; lia. Qed.

Lemma sum_insert m k v :
  (sum_values f (<[k:=v]> m) + from_option (f k) 0 (m !! k) = sum_values f m + f k v)%N.
Proof.
  destruct (m !! k) as [w|] eqn:E; simpl; [|rewrite sum_insert_new by done; lia].
  rewrite <- (insert_delete_id m k w E) at 2. rewrite <- (insert_delete_eq m k v).
  rewrite !sum_insert_new by apply lookup_delete_eq. lia.
Qed.

Lemma sum_elem m k v : m !! k = Some v -> (f k v <= sum_values f m)%N.
Proof.
  intros E. rewrite <- (insert_delete_id m k v E).
  rewrite sum_insert_new by apply lookup_delete_eq. lia.
Qed.

Lemma sum_delete m k :
  (sum_values f (delete k m) + from_option (f k) 0 (m !! k) = sum_values f m)%N.
Proof.
  destruct (m !! k) as [w|] eqn:E; simpl; [|rewrite delete_id by done; lia].
  rewrite <- (insert_delete_id m k w E) at 2. rewrite sum_insert_new by apply lookup_delete_eq. lia.
Qed.

Lemma sum_positive m : sum_values f m <> 0%N -> exists k v, m !! k = Some v /\ f k v <> 0%N.
Proof.
  induction m as [|k v m Hk IH] using map_ind; [done|]. rewrite sum_insert_new by done. intros H.
  destruct (decide (f k v = 0%N)) as [Hz|Hz].
  - destruct IH as (k' & v' & Hk' & Hv'); [lia|]. exists k', v'. split; [|done].
    rewrite lookup_insert_ne; [done|congruence].
  - exists k, v. by rewrite lookup_insert_eq.
Qed.

Lemma sum_insert_zero m k v :
  (forall w, f k w = 0%N) -> sum_values f (<[k:=v]> m) = sum_values f m.
Proof.
  intros Hz. pose proof (sum_insert m k v) as H. rewrite Hz in H.
  destruct (m !! k); simpl in H; rewrite ?Hz in H; lia.
Qed.
End Sums.

(** ** Loops that write one entry per element *)
Section WriteAll.
Context {V A : Type} (key : A -> string) (val : A -> V).

Definition write_all (m : gmap string V) (l : list A) : gmap string V :=
  foldl (fun acc a => <[key a := val a]> acc) m l.

Lemma for_each_kset {P} l (s : St V P) :
  for_each l (fun a => kset (key a) (val a)) s = (Ok tt, mkSt (write_all (kv s) l) (peers s) (evs s)).
Proof.
  revert s. induction l as [|a l IH]; intros s; [by destruct s|].
  exact (IH (mkSt (<[key a := val a]> (kv s)) (peers s) (evs s))).
Qed.

(** Elements that agree on equal keys: each finds its own value. *)
Lemma lookup_write_all m l k v :
  (forall a b, a ∈ l -> b ∈ l -> key a = key b -> val a = val b) ->
  write_all m l !! k = Some v <->
  (exists a, a ∈ l /\ key a = k /\ val a = v) \/ ((forall a, a ∈ l -> key a <> k) /\ m !! k = Some v).
Proof.
  unfold write_all. induction l as [|a l IH] using rev_ind; intros Hc.
  - split; [right; split; [set_solver|done]|]. set_solver.
  - rewrite foldl_app. cbn [foldl]. rewrite lookup_insert_Some, IH by set_solver.
    setoid_rewrite elem_of_app. setoid_rewrite list_elem_of_singleton.
    split.
    + intros [[<- <-]|[Hne [(b & ? & ? & ?)|[Hl ?]]]]; [eauto 10..|].
      right. split; [|done]. intros b [Hb| ->]; [by apply Hl|done].
    + intros [(b & [Hb| ->] & <- & <-)|[Hl ?]]; [|by left|].
      * destruct (decide (key a = key b)) as [E|E]; [left|right; eauto 10].
        split; [done|]. apply Hc; [| |done]; rewrite elem_of_app, list_elem_of_singleton; auto.
      * right. split; [apply Hl; auto|]. right. eauto 10.
Qed.
End WriteAll.
