(* ===== verification/Wire.v ===== *)
(** * Protobuf messages as field lists

    The modules store protobuf records and some of their scans hand the bytes
    of one record type to the decoder of another.  A message is modelled by
    the list of its fields as they stand on the wire, a field number with a
    varint or a length-delimited value.  Proto.v models the bytes and shows that
    reading them back gives this list.  [WSkip] stands for a value of a wire
    type that no record of the modules uses (fixed-width numbers, groups): the
    decoders skip it under an unknown field number and refuse it under a known
    one.

    The generated [Marshal] writes the non-zero fields in the order of their
    numbers; the generated [Unmarshal] takes the last value of a field, appends
    for a repeated field, skips unknown field numbers and fails when a known
    field arrives with another wire type. *)

From S2P Require Import Prelude Bytes.
From Stdlib Require Import Ascii.
Local Open Scope N_scope.

Inductive wire := WVarint (n : N) | WBytes (b : string) | WSkip.
Definition message : Type := list (N * wire).

(** ** Marshal *)
Definition w_uint (f n : N) : message := if n =? 0 then [] else [(f, WVarint n)].
Definition w_bool (f : N) (b : bool) : message := if b then [(f, WVarint 1)] else [].
Definition w_bytes (f : N) (b : string) : message :=
  if bool_decide (b = "") then [] else [(f, WBytes b)].
Definition w_strings (f : N) (l : list string) : message := (fun b => (f, WBytes b)) <$> l.

(** A varint as bytes, seven bits at a time; ten bytes hold 64 bits. *)
Fixpoint put_varint (fuel : nat) (n : N) : string :=
  match fuel with
  | O => ""
  | S fuel' =>
      if n <? 128 then String (ascii_of_N n) ""
      else String (ascii_of_N (n mod 128 + 128)) (put_varint fuel' (n / 128))
  end.
Definition varint (n : N) : string := put_varint 10 n.

(** An entry of a [map<string, uint64>]: a nested message with key and value. *)
Definition map_entry (kv : string * N) : string :=
  String (ascii_of_N 10) (varint (len kv.1)) +:+ kv.1 +:+
  String (ascii_of_N 16) (varint kv.2).

(** [Marshal] writes the entries in the iteration order of the Go map, which the
    language leaves unspecified: the order is an argument. *)
Definition w_map (f : N) (order : list (string * N)) : message :=
  (fun kv => (f, WBytes (map_entry kv))) <$> order.

(** ** Unmarshal *)
Inductive kind := KVarint | KBytes.

Definition has_kind (k : kind) (w : wire) : bool :=
  match k, w with KVarint, WVarint _ | KBytes, WBytes _ => true | _, _ => false end.

(** The field numbers a message type knows, with their wire kinds. *)
Definition schema : Type := list (N * kind).

Definition kind_of (sch : schema) (f : N) : option kind :=
  snd <$> List.find (fun fk => fk.1 =? f) sch.

Definition well_typed (sch : schema) (m : message) : bool :=
  forallb (fun fw => match kind_of sch fw.1 with
                     | Some k => has_kind k fw.2
                     | None => true
                     end) m.

Definition occurrences (f : N) (m : message) : list wire :=
  snd <$> List.filter (fun fw => fw.1 =? f) m.

Definition r_uint (f : N) (m : message) : N :=
  match last (occurrences f m) with Some (WVarint n) => n | _ => 0 end.
Definition r_uint32 (f : N) (m : message) : N := r_uint f m mod 4294967296.
Definition r_bool (f : N) (m : message) : bool := negb (r_uint f m =? 0).
Definition r_bytes (f : N) (m : message) : string :=
  match last (occurrences f m) with Some (WBytes b) => b | _ => "" end.
Definition r_strings (f : N) (m : message) : list string :=
  omap (fun w => match w with WBytes b => Some b | _ => None end) (occurrences f m).

Definition unmarshal {A} (sch : schema) (build : message -> A) (m : message) : option A :=
  if well_typed sch m then Some (build m) else None.

(** ** Reading back what was written *)

Lemma occurrences_app f m m' : occurrences f (m ++ m') = (occurrences f m ++ occurrences f m')%list.
Proof. unfold occurrences. by rewrite List.filter_app, fmap_app. Qed.

Lemma well_typed_app sch m m' : well_typed sch (m ++ m') = well_typed sch m && well_typed sch m'.
Proof. apply forallb_app. Qed.

Definition o_uint (n : N) : list wire := if n =? 0 then [] else [WVarint n].
Definition o_bool (b : bool) : list wire := if b then [WVarint 1] else [].
Definition o_bytes (b : string) : list wire := if bool_decide (b = "") then [] else [WBytes b].

Lemma occ_uint f g n : occurrences f (w_uint g n) = if g =? f then o_uint n else [].
Proof.
  unfold w_uint, o_uint. destruct (n =? 0); simpl; [by destruct (g =? f)|].
  unfold occurrences. simpl. by destruct (g =? f).
Qed.

Lemma occ_bool f g b : occurrences f (w_bool g b) = if g =? f then o_bool b else [].
Proof.
  unfold w_bool, o_bool. destruct b; simpl; [|by destruct (g =? f)].
  unfold occurrences. simpl. by destruct (g =? f).
Qed.

Lemma occ_bytes f g b : occurrences f (w_bytes g b) = if g =? f then o_bytes b else [].
Proof.
  unfold w_bytes, o_bytes. case_bool_decide; simpl; [by destruct (g =? f)|].
  unfold occurrences. simpl. by destruct (g =? f).
Qed.

Lemma occ_strings f g l : occurrences f (w_strings g l) = if g =? f then WBytes <$> l else [].
Proof.
  destruct (g =? f) eqn:E; unfold w_strings, occurrences; induction l as [|b l IH]; try done;
    cbn; rewrite E; cbn; [by f_equal|done].
Qed.

Lemma wt_uint sch g n : kind_of sch g = Some KVarint -> well_typed sch (w_uint g n) = true.
Proof. intros H. unfold w_uint. destruct (n =? 0); [done|]. simpl. by rewrite H. Qed.
Lemma wt_bool sch g b : kind_of sch g = Some KVarint -> well_typed sch (w_bool g b) = true.
Proof. intros H. unfold w_bool. destruct b; [|done]. simpl. by rewrite H. Qed.
Lemma wt_bytes sch g b : kind_of sch g = Some KBytes -> well_typed sch (w_bytes g b) = true.
Proof. intros H. unfold w_bytes. case_bool_decide; [done|]. simpl. by rewrite H. Qed.
Lemma wt_strings sch g l : kind_of sch g = Some KBytes -> well_typed sch (w_strings g l) = true.
Proof.
  intros H. unfold w_strings. induction l as [|b l IH]; [done|]. cbn. by rewrite H.
Qed.

Lemma last_o_uint n : match last (o_uint n) with Some (WVarint x) => x | _ => 0 end = n.
Proof. unfold o_uint. destruct (n =? 0) eqn:E; [|done]. apply N.eqb_eq in E. done. Qed.
Lemma last_o_bytes b : match last (o_bytes b) with Some (WBytes x) => x | _ => "" end = b.
Proof. unfold o_bytes. case_bool_decide as E; [by subst|done]. Qed.
Lemma last_o_bool b :
  negb (match last (o_bool b) with Some (WVarint x) => x | _ => 0 end =? 0) = b.
Proof. by destruct b. Qed.
Lemma strings_o (l : list string) :
  omap (fun w => match w with WBytes b => Some b | _ => None end) (WBytes <$> l) = l.
Proof. induction l as [|b l IH]; [done|]. cbn. by f_equal. Qed.

(** Solves [unmarshal sch build (marshal r) = Some r] for a record [r] whose
    fields are listed once each. *)
Ltac wire_roundtrip :=
  unfold unmarshal;
  rewrite ?well_typed_app;
  rewrite ?wt_uint, ?wt_bool, ?wt_bytes, ?wt_strings by reflexivity;
  cbn [andb];
  unfold r_uint32, r_bool, r_uint, r_bytes, r_strings;
  rewrite ?occurrences_app, ?occ_uint, ?occ_bool, ?occ_bytes, ?occ_strings;
  cbn -[o_uint o_bool o_bytes last N.modulo omap fmap list_fmap];
  rewrite ?app_nil_r;
  rewrite ?last_o_uint, ?last_o_bytes, ?last_o_bool, ?strings_o.
