(* ===== verification/Proto.v ===== *)
(** * The bytes of protobuf messages

    The generated code of the state.pb.go, event.pb.go and params.pb.go files
    shares one way of writing and reading bytes: [encodeVarintState], the loop
    over tags at the head of every [Unmarshal], and [skipState] for the fields a
    message type does not know.  This file models them and shows that a message
    is read back from its bytes, so that the decoders of the other files may be
    stated on field lists ([Wire.message]).

    [int] is 64 bits wide; every failure of the generated code ([ErrIntOverflow],
    [io.ErrUnexpectedEOF], [ErrInvalidLength], an illegal tag or wire type) is
    [None], since all callers treat them alike. *)

From S2P Require Import Prelude Bytes Wire.
From Stdlib Require Import Ascii.
Local Open Scope string_scope.
Local Open Scope N_scope.

(** ** Reading *)

(** The bytes of a varint: seven bits each, the last one below 0x80. *)
Fixpoint get_varint (fuel : nat) (s : string) : option (N * string) :=
  match fuel, s with
  | S fuel', String c s' =>
      let b := N_of_ascii c in
      if b <? 128 then Some (b, s')
      else '(v, rest) ← get_varint fuel' s'; Some (b mod 128 + 128 * v, rest)
  | _, _ => None
  end.

(** [for shift := uint(0); ; shift += 7]: the eleventh byte is an overflow; bits
    shifted out of the 64-bit word are lost. *)
Definition uvarint (s : string) : option (N * string) :=
  '(v, rest) ← get_varint 10 s; Some (v mod two64, rest).

#[local] Arguments varint : simpl never.
#[local] Arguments uvarint : simpl never.

Fixpoint split_at (n : nat) (s : string) : option (string * string) :=
  match n, s with
  | O, _ => Some ("", s)
  | S n', String c s' => '(a, b) ← split_at n' s'; Some (String c a, b)
  | S _, EmptyString => None
  end.

(** [postIndex := iNdEx + length], with [postIndex > l] and negative lengths
    refused. *)
Definition take_bytes (n : N) (s : string) : option (string * string) :=
  if len s <? n then None else split_at (N.to_nat n) s.

Definition drop_bytes (n : N) (s : string) : option string := snd <$> take_bytes n s.

Definition delimited (s : string) : option (string * string) :=
  '(n, rest) ← uvarint s; take_bytes n rest.

#[local] Arguments take_bytes : simpl never.
#[local] Arguments drop_bytes : simpl never.
#[local] Arguments delimited : simpl never.

(** The inner loop of [skipState] while inside groups: it ends when [depth] is
    back to zero. *)
Fixpoint skip_group (fuel : nat) (depth : nat) (s : string) : option string :=
  match fuel with
  | O => None
  | S fuel' =>
      '(tag, rest) ← uvarint s;
      let wireType := tag mod 8 in
      if wireType =? 0 then '(_, rest) ← uvarint rest; skip_group fuel' depth rest
      else if wireType =? 1 then drop_bytes 8 rest ≫= skip_group fuel' depth
      else if wireType =? 2 then '(_, rest) ← delimited rest; skip_group fuel' depth rest
      else if wireType =? 3 then skip_group fuel' (S depth) rest
      else if wireType =? 4 then
        match depth with
        | O | S O => Some rest
        | S depth' => skip_group fuel' depth' rest
        end
      else if wireType =? 5 then drop_bytes 4 rest ≫= skip_group fuel' depth
      else None
  end.

(** The value after a tag of the given wire type. *)
Definition read_value (wireType : N) (s : string) : option (wire * string) :=
  if wireType =? 0 then '(n, rest) ← uvarint s; Some (WVarint n, rest)
  else if wireType =? 1 then rest ← drop_bytes 8 s; Some (WSkip, rest)
  else if wireType =? 2 then '(b, rest) ← delimited s; Some (WBytes b, rest)
  else if wireType =? 3 then rest ← skip_group (String.length s) 1 s; Some (WSkip, rest)
  else if wireType =? 5 then rest ← drop_bytes 4 s; Some (WSkip, rest)
  else None.

(** [fieldNum := int32(wire >> 3)], which must be positive. *)
Definition field_number (tag : N) : option N :=
  let f := (tag / 8) mod 4294967296 in
  if (f =? 0) || (2147483648 <=? f) then None else Some f.

(** One turn of the loop of [Unmarshal]. *)
Definition read_field (s : string) : option (N * wire * string) :=
  '(tag, rest) ← uvarint s;
  f ← field_number tag;
  '(w, rest) ← read_value (tag mod 8) rest;
  Some (f, w, rest).

Fixpoint read_fields (fuel : nat) (s : string) : option message :=
  match s, fuel with
  | EmptyString, _ => Some []
  | _, O => None
  | _, S fuel' =>
      '(f, w, rest) ← read_field s;
      m ← read_fields fuel' rest;
      Some ((f, w) :: m)
  end.

(** Every turn consumes at least one byte ([read_fields_enough]). *)
Definition parse_message (s : string) : option message := read_fields (String.length s) s.

(** ** Writing *)

(** Tag and value of a field.  [WSkip] is never written. *)
Definition write_field (fw : N * wire) : string :=
  match fw.2 with
  | WVarint n => varint (8 * fw.1) +:+ varint n
  | WBytes b => varint (8 * fw.1 + 2) +:+ varint (len b) +:+ b
  | WSkip => ""
  end.

Fixpoint encode_message (m : message) : string :=
  match m with
  | [] => ""
  | fw :: m' => write_field fw +:+ encode_message m'
  end.

(** What the generated code can write: field numbers of a .proto file, 64-bit
    numbers, byte slices shorter than 2^63. *)
Definition writable (fw : N * wire) : bool :=
  (0 <? fw.1) && (fw.1 <? 536870912) &&
  match fw.2 with
  | WVarint n => n <? two64
  | WBytes b => len b <? two63
  | WSkip => false
  end.

(** ** Every turn consumes input *)

Lemma get_varint_shorter fuel s v rest :
  get_varint fuel s = Some (v, rest) -> (String.length rest < String.length s)%nat.
Proof.
  revert s v rest. induction fuel as [|fuel IH]; intros s v rest H; [done|].
  destruct s as [|c s]; [done|]. cbn in H. destruct (N_of_ascii c <? 128).
  - simplify_eq. simpl. lia.
  - destruct (get_varint fuel s) as [[v' r]|] eqn:E; [|done]. simplify_eq/=.
    apply IH in E. lia.
Qed.

Lemma uvarint_shorter s v rest :
  uvarint s = Some (v, rest) -> (String.length rest < String.length s)%nat.
Proof.
  unfold uvarint. intros H. destruct (get_varint 10 s) as [[v' r]|] eqn:E; [|done].
  cbn -[get_varint] in H. injection H as <- <-. by eapply get_varint_shorter.
Qed.

Lemma split_at_rest n s a b :
  split_at n s = Some (a, b) -> s = a +:+ b /\ String.length a = n.
Proof.
  revert s a. induction n as [|n IH]; intros s a H; [by destruct s; simplify_eq/=|].
  destruct s as [|c s]; [done|]. cbn in H.
  destruct (split_at n s) as [[a' b']|] eqn:E; [|done]. simplify_eq/=.
  apply IH in E as [-> <-]. done.
Qed.

Lemma take_bytes_rest n s a b :
  take_bytes n s = Some (a, b) -> s = a +:+ b /\ len a = n.
Proof.
  unfold take_bytes. destruct (len s <? n); [done|]. intros [-> H]%split_at_rest.
  split; [done|]. unfold len. lia.
Qed.

Lemma drop_bytes_shorter n s rest :
  drop_bytes n s = Some rest -> (String.length rest <= String.length s)%nat.
Proof.
  unfold drop_bytes. destruct (take_bytes n s) as [[a b]|] eqn:E; [|done]. intros [= <-].
  apply take_bytes_rest in E as [-> _]. rewrite str_length_app. simpl. lia.
Qed.

Lemma delimited_shorter s a rest :
  delimited s = Some (a, rest) -> (String.length rest <= String.length s)%nat.
Proof.
  unfold delimited. destruct (uvarint s) as [[n r]|] eqn:E; [|done]. cbn.
  intros [-> _]%take_bytes_rest. apply uvarint_shorter in E. rewrite str_length_app in E. lia.
Qed.

Lemma skip_group_shorter fuel depth s rest :
  skip_group fuel depth s = Some rest -> (String.length rest <= String.length s)%nat.
Proof.
  revert depth s. induction fuel as [|fuel IH]; intros depth s H; [done|].
  cbn in H. destruct (uvarint s) as [[tag r]|] eqn:E; [|done]. apply uvarint_shorter in E.
  cbn in H. repeat (case_match; simplify_eq; try lia).
  - destruct (uvarint r) as [[? r']|] eqn:E'; [|done]. apply uvarint_shorter in E'.
    apply IH in H. lia.
  - destruct (drop_bytes 8 r) as [r'|] eqn:E'; [|done]. apply drop_bytes_shorter in E'.
    apply IH in H. lia.
  - destruct (delimited r) as [[? r']|] eqn:E'; [|done]. apply delimited_shorter in E'.
    apply IH in H. lia.
  - apply IH in H. lia.
  - apply IH in H. lia.
  - destruct (drop_bytes 4 r) as [r'|] eqn:E'; [|done]. apply drop_bytes_shorter in E'.
    apply IH in H. lia.
Qed.

Lemma read_value_shorter k s w rest :
  read_value k s = Some (w, rest) -> (String.length rest <= String.length s)%nat.
Proof.
  unfold read_value. intros H.
  repeat match type of H with context [if ?b then _ else _] => destruct b end; try done.
  - destruct (uvarint s) as [[? r]|] eqn:E; simplify_eq/=. apply uvarint_shorter in E. lia.
  - destruct (drop_bytes 8 s) as [r|] eqn:E; simplify_eq/=. by apply drop_bytes_shorter in E.
  - destruct (delimited s) as [[? r]|] eqn:E; simplify_eq/=. by apply delimited_shorter in E.
  - destruct (skip_group _ 1 s) as [r|] eqn:E; simplify_eq/=. by apply skip_group_shorter in E.
  - destruct (drop_bytes 4 s) as [r|] eqn:E; simplify_eq/=. by apply drop_bytes_shorter in E.
Qed.

Lemma read_field_shorter s f w rest :
  read_field s = Some (f, w, rest) -> (String.length rest < String.length s)%nat.
Proof.
  unfold read_field. intros H.
  destruct (uvarint s) as [[tag r]|] eqn:E; [|done]. apply uvarint_shorter in E. cbn in H.
  destruct (field_number tag); [|done]. cbn in H.
  destruct (read_value (tag mod 8) r) as [[w' r']|] eqn:E'; simplify_eq/=. apply read_value_shorter in E'. lia.
Qed.

(** The length of the input is enough fuel: more changes nothing. *)
Lemma read_fields_enough fuel s :
  (String.length s <= fuel)%nat -> read_fields fuel s = parse_message s.
Proof.
  unfold parse_message. remember (String.length s) as n eqn:Hn.
  revert fuel s Hn. induction n as [n IH] using lt_wf_ind. intros fuel s -> Hf.
  destruct s as [|c s]; [by destruct fuel|]. destruct fuel as [|fuel]; [simpl in Hf; lia|].
  cbn [read_fields String.length]. destruct (read_field (String c s)) as [[[f w] rest]|] eqn:E; [|done].
  apply read_field_shorter in E. simpl in E. cbn.
  rewrite (IH (String.length rest)) by (simpl in *; lia).
  destruct (read_fields (String.length s) rest) eqn:E2;
    rewrite (IH (String.length rest)) in E2 by (simpl in *; lia); by rewrite E2.
Qed.

Lemma parse_message_cons s f w rest :
  read_field s = Some (f, w, rest) ->
  parse_message s = m ← parse_message rest; Some ((f, w) :: m).
Proof.
  intros E. pose proof (read_field_shorter _ _ _ _ E) as Hl. unfold parse_message at 1.
  destruct s as [|c s]; [done|]. cbn [read_fields String.length]. rewrite E. cbn.
  by rewrite read_fields_enough by (simpl in Hl; lia).
Qed.

(** ** Reading back what was written *)

Lemma str_app_cons c s t : String c s +:+ t = String c (s +:+ t).
Proof. done. Qed.

Lemma get_varint_cons fuel c s :
  get_varint (S fuel) (String c s) =
  if N_of_ascii c <? 128 then Some (N_of_ascii c, s)
  else '(v, rest) ← get_varint fuel s; Some (N_of_ascii c mod 128 + 128 * v, rest).
Proof. done. Qed.

Lemma put_varint_S fuel n :
  put_varint (S fuel) n =
  if n <? 128 then String (ascii_of_N n) ""
  else String (ascii_of_N (n mod 128 + 128)) (put_varint fuel (n / 128)).
Proof. done. Qed.

Lemma get_put_varint fuel n rest :
  n < 128 ^ N.of_nat (Datatypes.S fuel) ->
  get_varint (S fuel) (put_varint (S fuel) n +:+ rest) = Some (n, rest).
Proof.
  revert n. induction fuel as [|fuel IH]; intros n Hn; rewrite put_varint_S;
    (destruct (n <? 128) eqn:E;
      [apply N.ltb_lt in E; rewrite str_app_cons, get_varint_cons, N_ascii_embedding by lia;
       by rewrite (proj2 (N.ltb_lt _ _))|apply N.ltb_ge in E]).
  { change (128 ^ N.of_nat 1) with 128 in Hn. lia. }
  rewrite Nat2N.inj_succ, N.pow_succ_r' in Hn. rewrite str_app_cons, get_varint_cons.
  pose proof (N.mod_lt n 128 ltac:(done)). rewrite N_ascii_embedding by lia.
  rewrite (proj2 (N.ltb_ge _ _)) by apply N.le_add_l. rewrite IH by (apply N.Div0.div_lt_upper_bound; lia).
  simpl. f_equal. f_equal. pose proof (N.div_mod n 128 ltac:(done)).
  replace (n mod 128 + 128) with (n mod 128 + 1 * 128) by lia.
  rewrite N.Div0.mod_add, N.mod_small by done. lia.
Qed.

Lemma uvarint_put n rest : n < two64 -> uvarint (varint n +:+ rest) = Some (n, rest).
Proof.
  intros Hn. unfold uvarint, varint. rewrite get_put_varint.
  - cbn. by rewrite N.mod_small.
  - etransitivity; [exact Hn|]. by vm_compute.
Qed.

Lemma split_at_app a b : split_at (String.length a) (a +:+ b) = Some (a, b).
Proof. induction a as [|c a IH]; [by destruct b|]. rewrite str_app_cons. cbn. by rewrite IH. Qed.

Lemma delimited_put b rest :
  len b < two64 -> delimited (varint (len b) +:+ b +:+ rest) = Some (b, rest).
Proof.
  intros Hb. unfold delimited. rewrite uvarint_put by done. cbn. unfold take_bytes.
  assert ((len (b +:+ rest) <? len b) = false) as ->
    by (apply N.ltb_ge; unfold len; rewrite str_length_app; lia).
  unfold len at 1. rewrite Nat2N.id. apply split_at_app.
Qed.

Lemma field_number_tag f k : 0 < f -> f < 536870912 -> k < 8 -> field_number (8 * f + k) = Some f.
Proof.
  intros H0 Hf Hk. unfold field_number.
  assert ((8 * f + k) / 8 = f) as -> by (symmetry; apply (N.div_unique _ 8 f k); lia).
  rewrite N.mod_small by lia. by rewrite (proj2 (N.eqb_neq _ _)), (proj2 (N.leb_gt _ _)) by lia.
Qed.

Lemma tag_wire_type f k : k < 8 -> (8 * f + k) mod 8 = k.
Proof. intros Hk. symmetry. apply (N.mod_unique _ 8 f k); lia. Qed.

Lemma read_write_field fw rest :
  writable fw = true -> read_field (write_field fw +:+ rest) = Some (fw, rest).
Proof.
  unfold writable. destruct fw as [f w]. cbn [fst snd]. intros H.
  apply andb_true_iff in H as [[H0%N.ltb_lt Hf%N.ltb_lt]%andb_true_iff Hw].
  destruct w as [n|b|]; [| |done]; apply N.ltb_lt in Hw; unfold read_field, write_field; cbn [fst snd];
    rewrite ?str_app_assoc.
  - rewrite uvarint_put by (unfold two64; lia). cbn -[field_number N.mul].
    rewrite <- (N.add_0_r (8 * f)), field_number_tag, tag_wire_type by lia.
    cbn. by rewrite uvarint_put.
  - rewrite uvarint_put by (unfold two64; lia). cbn -[field_number N.mul N.add].
    rewrite field_number_tag, tag_wire_type by lia.
    cbn -[delimited]. by rewrite delimited_put by (unfold two64, two63 in *; lia).
Qed.

Lemma encode_message_app m m' : encode_message (m ++ m')%list = encode_message m +:+ encode_message m'.
Proof. induction m as [|fw m IH]; [done|]. cbn. by rewrite IH, str_app_assoc. Qed.

(** The bytes of every message the generated code writes, followed by those
    of any other readable message, are read back as the fields that were
    written: [Unmarshal] of [Marshal] is the identity on field lists, and no
    message's bytes are read as another's. *)
Theorem parse_encode_message m rest m' :
  forallb writable m = true -> parse_message rest = Some m' ->
  parse_message (encode_message m +:+ rest) = Some (m ++ m')%list.
Proof.
  intros Hw Hr. induction m as [|fw m IH]; [done|]. cbn in Hw |- *.
  apply andb_true_iff in Hw as [Hfw Hm]. rewrite str_app_assoc.
  destruct fw as [f w]. erewrite parse_message_cons by by apply read_write_field.
  by rewrite IH.
Qed.

(** Values that are no messages: the markers and the big-endian counters below
    2^56 begin with a byte below 8, a tag with field number zero. *)
Lemma parse_low_tag c s : N_of_ascii c < 8 -> parse_message (String c s) = None.
Proof.
  intros Hc. unfold parse_message. cbn [read_fields String.length]. unfold read_field, uvarint.
  rewrite get_varint_cons, (proj2 (N.ltb_lt (N_of_ascii c) 128)) by lia. simpl.
  rewrite (N.mod_small (N_of_ascii c) two64) by (unfold two64; lia). unfold field_number.
  by rewrite N.div_small by done.
Qed.

Module ProtoDemo.
Definition record : message := [(1, WBytes "org-0"); (5, WVarint 300); (13, WBytes "ref")].
Definition tail : string := encode_message [(2, WVarint 1)].

Lemma parse_encode_message_witness :
  encode_message record <> "" /\
  parse_message (encode_message record +:+ tail) = Some (record ++ [(2, WVarint 1)])%list.
Proof. split; [done|]. apply parse_encode_message; reflexivity. Defined.

(** Groups and fixed-width values are read over; an unfinished group, a
    truncated field, a varint of eleven bytes and an end-group tag are errors. *)
Definition bytes (l : list N) : string := foldr (fun b s => String (ascii_of_N b) s) EmptyString l.
Lemma skipping :
  parse_message (bytes [11; 8; 1; 12; 16; 7]) = Some [(1, WSkip); (2, WVarint 7)] /\
  parse_message (bytes [9; 0; 0; 0; 0; 0; 0; 0; 0; 16; 7]) = Some [(1, WSkip); (2, WVarint 7)] /\
  parse_message (bytes [11; 8; 1]) = None /\ parse_message (bytes [10; 3; 65]) = None /\
  parse_message (bytes [12]) = None /\
  parse_message (bytes [8; 255; 255; 255; 255; 255; 255; 255; 255; 255; 255; 1]) = None /\
  parse_message (bytes [8; 255; 255; 255; 255; 255; 255; 255; 255; 255; 127])
    = Some [(1, WVarint 18446744073709551615)].
Proof. by vm_compute. Qed.
End ProtoDemo.
