(* ===== verification/Pb.v ===== *)
(** * Generated protobuf messages

    The Marshal and Unmarshal methods the proto compiler generates (x/*/types,
    files ending in pb.go), as combinators.  A message type is a list of fields:
    Marshal writes the fields in the order of their numbers and leaves out zero
    values; Unmarshal loops over the fields on the wire and updates the struct,
    field by field, skipping numbers it does not know.

    A field has a type [pb A]: [put] is what Marshal writes of a value, [take]
    is the update Unmarshal makes for one occurrence (numbers and bytes are
    overwritten, slices extended, maps updated, embedded messages merged into).
    [take] is given the bytes behind the field and returns those the loop goes on
    with: inside packed numbers and map entries the generated loops check the end
    of the whole message, not of the field, and on malformed bytes they read past
    it ([read_packed], [read_entry]).  [merge] says what the occurrences of one
    value do to another; [fits] bounds the values a Go program can hold.

    The laws are proved once for every combinator; a message type gets them
    field by field ([message_law]). *)

From S2P Require Import Prelude Bytes Wire Proto.
From Stdlib Require Import Ascii.
Local Open Scope N_scope.

(** ** Field types *)
Record pb (A : Type) := mkPb {
  pb_zero : A;
  put : A -> list wire;
  take : A -> wire -> string -> option (A * string);
  fits : A -> bool;
  merge : A -> A -> A;
}.
Arguments pb_zero {_} _.
Arguments put {_} _ _.
Arguments take {_} _ _ _ _.
Arguments fits {_} _ _.
Arguments merge {_} _ _ _.

(** One occurrence after the other, each followed by whatever bytes: [r] becomes
    [r'] and nothing behind the occurrences is read. *)
Fixpoint takes {R} (t : R -> wire -> string -> option (R * string)) (r : R) (l : list wire) (r' : R) : Prop :=
  match l with
  | [] => r = r'
  | w :: l' => exists r1, (forall rest, t r w rest = Some (r1, rest)) /\ takes t r1 l' r'
  end.

Definition wire_fits (w : wire) : bool :=
  match w with
  | WVarint n => n <? two64
  | WBytes b => len b <? two63
  | WSkip => false
  end.

Class PbLaw {A} (c : pb A) : Prop := {
  take_put x0 x : fits c x = true -> takes (take c) x0 (put c x) (merge c x0 x);
  take_rest x w rest y rest' :
    take c x w rest = Some (y, rest') -> (String.length rest' <= String.length rest)%nat;
  put_fits x : fits c x = true -> forallb wire_fits (put c x) = true;
  merge_zero x : fits c x = true -> merge c (pb_zero c) x = x;
}.

Definition or_kept {A} (x0 : A) (written : list wire) (x : A) : A :=
  match written with [] => x0 | _ => x end.

Definition scalar {A} (z : A) (w : A -> list wire) (t : wire -> option A) (f : A -> bool) : pb A := {|
  pb_zero := z; put := w; take _ v rest := x ← t v; Some (x, rest); fits := f; merge x0 x := or_kept x0 (w x) x;
|}.

Definition p_uint64 : pb N :=
  scalar 0 o_uint (fun w => match w with WVarint n => Some n | _ => None end) (fun n => n <? two64).
(** [uint32]: the value is cut to 32 bits. *)
Definition p_uint32 : pb N :=
  scalar 0 o_uint (fun w => match w with WVarint n => Some (n mod 2 ^ 32) | _ => None end)
    (fun n => n <? 2 ^ 32).
(** Enumerations and times are signed in Go; a negative value read from the wire
    is its bit pattern here. *)
Definition p_enum : pb N :=
  scalar 0 o_uint (fun w => match w with WVarint n => Some (n mod 2 ^ 32) | _ => None end)
    (fun n => n <? 2 ^ 31).
Definition p_time : pb N :=
  scalar 0 o_uint (fun w => match w with WVarint n => Some n | _ => None end) (fun n => n <? two63).
Definition p_bool : pb bool :=
  scalar false o_bool (fun w => match w with WVarint n => Some (negb (n =? 0)) | _ => None end)
    (fun _ => true).
(** [string] and [[]byte]. *)
Definition p_bytes : pb string :=
  scalar "" o_bytes (fun w => match w with WBytes b => Some b | _ => None end) (fun b => len b <? two63).

(** Signed numbers are written in 64-bit two's complement. *)
Definition of_signed (z : Z) : N := Z.to_N (z mod 2 ^ 64).
Definition to_signed (w : Z) (n : N) : Z :=
  let u := (Z.of_N n mod 2 ^ w)%Z in if (u <? 2 ^ (w - 1))%Z then u else (u - 2 ^ w)%Z.
Definition p_signed (w : Z) : pb Z :=
  scalar 0%Z (fun z => o_uint (of_signed z))
    (fun v => match v with WVarint n => Some (to_signed w n) | _ => None end)
    (fun z => (- 2 ^ (w - 1) <=? z)%Z && (z <? 2 ^ (w - 1))%Z).
Definition p_int32 : pb Z := p_signed 32.
Definition p_int64 : pb Z := p_signed 64.

(** Repeated strings and byte slices. *)
Definition p_strings : pb (list string) := {|
  pb_zero := [];
  put l := WBytes <$> l;
  take l w rest := match w with WBytes b => Some ((l ++ [b])%list, rest) | _ => None end;
  fits l := forallb (fun b => len b <? two63) l;
  merge l l' := (l ++ l')%list;
|}.

(** Repeated numbers: written packed, read packed or one by one.  The loop runs
    until no more than the [after] bytes behind the field are left; its last
    number may end among them. *)
Fixpoint read_packed (fuel after : nat) (s : string) : option (list N * string) :=
  if (String.length s <=? after)%nat then Some ([], s) else
  match fuel with
  | O => None
  | S fuel' =>
      '(n, rest) ← uvarint s; '(l, rest) ← read_packed fuel' after rest; Some (n :: l, rest)
  end.
Definition packed (l : list N) : string := foldr (fun n s => varint n +:+ s) "" l.
Definition p_packed : pb (list N) := {|
  pb_zero := [];
  put l := match l with [] => [] | _ => [WBytes (packed l)] end;
  take l w rest := match w with
    | WVarint n => Some ((l ++ [n])%list, rest)
    | WBytes b =>
        '(l', rest') ← read_packed (String.length b) (String.length rest) (b +:+ rest);
        Some ((l ++ l')%list, rest')
    | WSkip => None
    end;
  fits l := forallb (fun n => n <? two64) l && (len (packed l) <? two63);
  merge l l' := (l ++ l')%list;
|}.

(** Maps from strings to numbers: an entry is read tag by tag, without a look
    at the wire types of its key (1) and value (2); the bits of several values
    are joined.  Key and value may end among the [after] bytes behind the entry,
    a field that is skipped may not. *)
Fixpoint read_entry (fuel after : nat) (kv : string * N) (s : string) : option (string * N) :=
  if (String.length s <=? after)%nat then Some kv else
  match fuel with
  | O => None
  | S fuel' =>
      '(tag, rest) ← uvarint s;
      let fieldNum := tag / 8 mod 2 ^ 32 in
      if fieldNum =? 1 then '(key, rest) ← delimited rest; read_entry fuel' after (key, kv.2) rest
      else if fieldNum =? 2 then
        '(n, rest) ← uvarint rest; read_entry fuel' after (kv.1, N.lor kv.2 n) rest
      else
        '(_, rest) ← read_value (tag mod 8) rest;
        if (String.length rest <? after)%nat then None else read_entry fuel' after kv rest
  end.
Section Maps.
(** The order in which Go iterates the map. *)
Context (order : gmap string N -> list (string * N)).
Definition p_map : pb (gmap string N) := {|
  pb_zero := ∅;
  put m := (fun kv => WBytes (map_entry kv)) <$> order m;
  take m w rest := match w with
    | WBytes b =>
        '(k, n) ← read_entry (String.length b) (String.length rest) ("", 0) (b +:+ rest);
        Some (<[k := n]> m, rest)
    | _ => None
    end;
  fits m := forallb (fun kv => (len kv.1 <? 2 ^ 62) && (kv.2 <? two64)) (map_to_list m);
  merge m m' := m' ∪ m;
|}.
End Maps.

(** ** Laws of the field types *)
Lemma scalar_law {A} (z : A) w t f :
  (forall x, f x = true -> match w x with [] => x = z | [v] => t v = Some x /\ wire_fits v = true | _ => False end) ->
  PbLaw (scalar z w t f).
Proof.
  intros H. split; intros x; [intros y Hy; specialize (H y Hy)| |intros Hx; specialize (H x Hx)..];
    cbn; unfold or_kept.
  - destruct (w y) as [|v [|]]; cbn; [done| |done]. destruct H as [-> _]. by eexists.
  - intros v rest y rest'. destruct (t v); by intros [= _ <-].
  - destruct (w x) as [|v [|]]; cbn; [done| |done]. by rewrite (proj2 H).
  - by destruct (w x) as [|v [|]].
Qed.

Lemma uint_law t f :
  (forall n, f n = true -> t (WVarint n) = Some n /\ (n <? two64) = true) -> PbLaw (scalar 0 o_uint t f).
Proof.
  intros H. apply scalar_law. intros n Hn. unfold o_uint. destruct (N.eqb_spec n 0); [done|]. by apply H.
Qed.

Lemma cut32 n k : k <= 2 ^ 32 -> n < k -> Some (n mod 2 ^ 32) = Some n /\ (n <? two64) = true.
Proof.
  intros Hk Hn. split; [f_equal; apply N.mod_small; lia|]. apply N.ltb_lt. unfold two64.
  change (2 ^ 32) with 4294967296 in Hk. lia.
Qed.
#[export] Instance p_uint64_law : PbLaw p_uint64.
Proof. by apply uint_law. Qed.
#[export] Instance p_time_law : PbLaw p_time.
Proof.
  apply uint_law. intros n Hn%N.ltb_lt. split; [done|]. apply N.ltb_lt. unfold two63, two64 in *. lia.
Qed.
#[export] Instance p_uint32_law : PbLaw p_uint32.
Proof. apply uint_law. intros n Hn%N.ltb_lt. by apply (cut32 n (2 ^ 32)). Qed.
#[export] Instance p_enum_law : PbLaw p_enum.
Proof. apply uint_law. intros n Hn%N.ltb_lt. by apply (cut32 n (2 ^ 31)). Qed.
#[export] Instance p_bool_law : PbLaw p_bool.
Proof. apply scalar_law. by intros []. Qed.
#[export] Instance p_bytes_law : PbLaw p_bytes.
Proof. apply scalar_law. intros b Hb. unfold o_bytes. by case_bool_decide. Qed.

Lemma of_signed_lt z : of_signed z < two64.
Proof.
  unfold of_signed, two64. pose proof (Z.mod_pos_bound z (2 ^ 64)). change (2 ^ 64)%Z with 18446744073709551616%Z in *. lia.
Qed.
Lemma to_of_signed w z :
  (1 <= w <= 64)%Z -> (- 2 ^ (w - 1) <= z < 2 ^ (w - 1))%Z -> to_signed w (of_signed z) = z.
Proof.
  intros Hw Hz. unfold to_signed, of_signed.
  rewrite Z2N.id by (apply Z.mod_pos_bound; lia).
  assert (2 ^ w = 2 * 2 ^ (w - 1))%Z as E by (rewrite <- Z.pow_succ_r by lia; f_equal; lia).
  assert (2 ^ 64 = 2 ^ w * 2 ^ (64 - w))%Z as E64 by (rewrite <- Z.pow_add_r by lia; f_equal; lia).
  assert (0 < 2 ^ (w - 1))%Z as Hp by (apply Z.pow_pos_nonneg; lia).
  assert (0 < 2 ^ (64 - w))%Z as Hq by (apply Z.pow_pos_nonneg; lia).
  assert ((z mod 2 ^ 64) mod 2 ^ w = z mod 2 ^ w)%Z as ->.
  { rewrite E64. rewrite Z.rem_mul_r by lia. rewrite Z.mul_comm, Z.mod_add by lia. apply Z.mod_mod. lia. }
  destruct (Z.leb_spec 0 z).
  - rewrite Z.mod_small by lia. by rewrite (proj2 (Z.ltb_lt _ _)) by lia.
  - assert (z mod 2 ^ w = z + 2 ^ w)%Z as ->.
    { rewrite <- (Z.mod_add z 1) by lia. rewrite Z.mod_small; lia. }
    rewrite (proj2 (Z.ltb_ge _ _)) by lia. lia.
Qed.
Lemma of_signed_zero z : (- 2 ^ 63 <= z < 2 ^ 63)%Z -> of_signed z = 0 -> z = 0%Z.
Proof. intros Hz E. rewrite <- (to_of_signed 64 z) by lia. by rewrite E. Qed.

Lemma p_signed_law w : (1 <= w <= 64)%Z -> PbLaw (p_signed w).
Proof.
  intros Hw. apply scalar_law. intros z [H1%Z.leb_le H2%Z.ltb_lt]%andb_true_iff. unfold o_uint.
  assert (2 ^ (w - 1) <= 2 ^ 63)%Z by (apply Z.pow_le_mono_r; lia).
  destruct (N.eqb_spec (of_signed z) 0) as [E|E]; [by apply of_signed_zero; [lia|]|].
  split; [|by apply N.ltb_lt, of_signed_lt]. f_equal. apply to_of_signed; lia.
Qed.
#[export] Instance p_int32_law : PbLaw p_int32.
Proof. by apply p_signed_law. Qed.
#[export] Instance p_int64_law : PbLaw p_int64.
Proof. by apply p_signed_law. Qed.

#[export] Instance p_strings_law : PbLaw p_strings.
Proof.
  split; cbn.
  - intros l0 l _. revert l0. induction l as [|b l IH]; intros l0; cbn; [by rewrite app_nil_r|].
    eexists. split; [done|]. specialize (IH (l0 ++ [b])%list). by rewrite <- app_assoc in IH.
  - intros l [] rest y rest'; by intros [= _ <-].
  - intros l Hl. induction l as [|b l IH]; [done|]. cbn in *. apply andb_true_iff in Hl as [-> Hl]. auto.
  - done.
Qed.

Lemma varint_not_empty n s : varint n +:+ s <> "".
Proof. unfold varint. rewrite put_varint_S. by destruct (n <? 128). Qed.

Lemma put_varint_short fuel n : (String.length (put_varint fuel n) <= fuel)%nat.
Proof.
  revert n. induction fuel as [|fuel IH]; intros n; [done|]. rewrite put_varint_S.
  destruct (n <? 128); cbn [String.length]; [lia|]. specialize (IH (n / 128)). lia.
Qed.
Lemma varint_short n : (String.length (varint n) <= 10)%nat.
Proof. apply put_varint_short. Qed.

Lemma forallb_perm {A} (f : A -> bool) l l' : l ≡ₚ l' -> forallb f l = forallb f l'.
Proof.
  induction 1; cbn; [done|by f_equal|by rewrite !andb_assoc, (andb_comm (f y))|congruence].
Qed.

(** Bytes in front of those that stay are still to be read. *)
Lemma left_over a rest : a <> "" -> (String.length (a +:+ rest) <=? String.length rest)%nat = false.
Proof. intros Ha. apply Nat.leb_gt. rewrite str_length_app. destruct a; [done|]. cbn. lia. Qed.

Lemma read_packed_step fuel n b rest :
  n < two64 ->
  read_packed (S fuel) (String.length rest) (varint n +:+ b +:+ rest) =
  ('(l, rest) ← read_packed fuel (String.length rest) (b +:+ rest); Some (n :: l, rest)).
Proof.
  intros Hn. cbn [read_packed]. rewrite <- str_app_assoc, left_over by apply varint_not_empty.
  by rewrite str_app_assoc, uvarint_put.
Qed.

Lemma packed_cons n l : packed (n :: l) = varint n +:+ packed l.
Proof. done. Qed.

Lemma packed_longer l : (length l <= String.length (packed l))%nat.
Proof.
  induction l as [|n l IH]; [done|]. rewrite packed_cons.
  enough (0 < String.length (varint n))%nat by (rewrite str_length_app; cbn [length]; lia).
  unfold varint. rewrite put_varint_S. destruct (n <? 128); cbn [String.length]; lia.
Qed.

Lemma read_packed_all fuel l rest :
  forallb (fun n => n <? two64) l = true -> (length l <= fuel)%nat ->
  read_packed fuel (String.length rest) (packed l +:+ rest) = Some (l, rest).
Proof.
  revert fuel. induction l as [|n l IH]; intros fuel Hl Hf.
  { change (packed [] +:+ rest) with rest. destruct fuel; cbn [read_packed]; by rewrite Nat.leb_refl. }
  destruct fuel as [|fuel]; [cbn in Hf; lia|]. cbn in Hl. apply andb_true_iff in Hl as [Hn%N.ltb_lt Hl].
  rewrite packed_cons, str_app_assoc, read_packed_step by done. rewrite IH; [done|done|]. cbn in Hf. lia.
Qed.

Lemma read_packed_rest fuel after s l rest :
  read_packed fuel after s = Some (l, rest) -> (String.length rest <= after)%nat.
Proof.
  revert s l. induction fuel as [|fuel IH]; intros s l; cbn [read_packed];
    destruct (Nat.leb_spec (String.length s) after) as [?|_]; try (by intros [= _ <-]).
  destruct (uvarint s) as [[n s']|]; [|done]. cbn.
  destruct (read_packed fuel after s') as [[l' r]|] eqn:E; [|done]. cbn. intros [= _ <-]. eauto.
Qed.

(** Every number takes a byte at least, so the bytes of the field are enough fuel. *)
Lemma read_packed_enough fuel after s :
  (String.length s <= fuel + after)%nat ->
  read_packed fuel after s = read_packed (S fuel) after s.
Proof.
  revert s. induction fuel as [|fuel IH]; intros s Hs; cbn [read_packed];
    destruct (Nat.leb_spec (String.length s) after) as [?|?]; try done; [lia|].
  destruct (uvarint s) as [[n s']|] eqn:E; [|done]. cbn. apply uvarint_shorter in E.
  rewrite IH by lia. done.
Qed.

#[export] Instance p_packed_law : PbLaw p_packed.
Proof.
  split.
  - intros l0 l [Hl _]%andb_true_iff. cbn [put take merge p_packed]. destruct l as [|n l'] eqn:E.
    + cbn. by rewrite app_nil_r.
    + rewrite <- E in *. cbn [takes]. eexists. split; [|done]. intros rest.
      by rewrite read_packed_all by (done || apply packed_longer).
  - intros l [n|b|] rest y rest'; cbn [take p_packed]; [by intros [= _ <-]| |done].
    destruct (read_packed _ _ _) as [[l' r]|] eqn:E; [|done]. cbn. intros [= _ <-].
    by eapply read_packed_rest.
  - intros l [_ Hl]%andb_true_iff. cbn [put p_packed]. destruct l; [done|]. cbn [forallb wire_fits].
    by rewrite Hl.
  - done.
Qed.

Lemma read_entry_key fuel kv k b rest :
  len k < two64 ->
  read_entry (S fuel) (String.length rest) kv (varint 10 +:+ varint (len k) +:+ k +:+ b +:+ rest) =
  read_entry fuel (String.length rest) (k, kv.2) (b +:+ rest).
Proof.
  intros Hk. cbn [read_entry]. rewrite uvarint_put by done.
  rewrite <- !str_app_assoc, left_over by (rewrite !str_app_assoc; apply varint_not_empty).
  cbn [mbind option_bind]. change (10 / 8 mod 2 ^ 32 =? 1) with true. cbv iota.
  by rewrite !str_app_assoc, delimited_put.
Qed.
Lemma read_entry_value fuel kv n b rest :
  n < two64 ->
  read_entry (S fuel) (String.length rest) kv (varint 16 +:+ varint n +:+ b +:+ rest) =
  read_entry fuel (String.length rest) (kv.1, N.lor kv.2 n) (b +:+ rest).
Proof.
  intros Hn. cbn [read_entry]. rewrite uvarint_put by done.
  rewrite <- !str_app_assoc, left_over by (rewrite !str_app_assoc; apply varint_not_empty).
  cbn [mbind option_bind]. change (16 / 8 mod 2 ^ 32 =? 1) with false.
  change (16 / 8 mod 2 ^ 32 =? 2) with true. cbv iota. by rewrite !str_app_assoc, uvarint_put.
Qed.

Lemma read_map_entry k n rest :
  len k < two63 -> n < two64 ->
  read_entry (String.length (map_entry (k, n))) (String.length rest) ("", 0) (map_entry (k, n) +:+ rest) =
  Some (k, n).
Proof.
  intros Hk Hn. unfold map_entry. cbn [fst snd].
  set (b := String _ _ +:+ _). assert (exists f, String.length b = S (S f)) as [f ->].
  { subst b. rewrite !str_length_app. cbn [String.length].
    exists (String.length (varint (len k)) + String.length k + String.length (varint n))%nat. lia. }
  subst b. change (String (ascii_of_N 10) ?t) with (varint 10 +:+ t).
  change (String (ascii_of_N 16) ?t) with (varint 16 +:+ t).
  rewrite !(str_app_assoc _ (k +:+ _)), !(str_app_assoc (varint 10)), !(str_app_assoc k).
  rewrite read_entry_key by (unfold two63, two64 in *; lia).
  rewrite str_app_assoc. change (varint n +:+ rest) with (varint n +:+ "" +:+ rest). rewrite read_entry_value by done.
  change ("" +:+ rest) with rest. destruct f; cbn [read_entry]; by rewrite Nat.leb_refl.
Qed.

(** Every tag takes a byte at least. *)
Lemma read_entry_enough fuel after kv s :
  (String.length s <= fuel + after)%nat ->
  read_entry fuel after kv s = read_entry (S fuel) after kv s.
Proof.
  revert kv s. induction fuel as [|fuel IH]; intros kv s Hs.
  { cbn [read_entry]. by rewrite (proj2 (Nat.leb_le _ _)). }
  remember (S fuel) as fuel' eqn:E. rewrite E at 1. cbn [read_entry].
  destruct (Nat.leb_spec (String.length s) after) as [?|_]; [done|].
  destruct (uvarint s) as [[tag t]|] eqn:Et; [|done]. cbn [mbind option_bind]. apply uvarint_shorter in Et.
  cbv zeta. set (n := tag / 8 mod 2 ^ 32). destruct (n =? 1), (n =? 2); subst fuel'.
  1, 2: destruct (delimited t) as [[k t']|] eqn:Ed; [|done]; apply delimited_shorter in Ed; apply IH; lia.
  - destruct (uvarint t) as [[k t']|] eqn:Ed; [|done]. apply uvarint_shorter in Ed. apply IH. lia.
  - destruct (read_value (tag mod 8) t) as [[k t']|] eqn:Ed; [|done]. apply read_value_shorter in Ed.
    cbn [mbind option_bind]. destruct (_ <? _)%nat; [done|]. apply IH. lia.
Qed.

Lemma map_entry_short k n : len k < 2 ^ 62 -> len (map_entry (k, n)) < two63.
Proof.
  intros Hk. unfold map_entry, len. cbn [fst snd]. rewrite !str_length_app. cbn [String.length].
  pose proof (varint_short (len k)). pose proof (varint_short n). unfold len, two63 in *.
  change (2 ^ 62) with 4611686018427387904 in *. lia.
Qed.

(** Go visits every entry once. *)
Class MapOrder (order : gmap string N -> list (string * N)) : Prop :=
  order_perm m : order m ≡ₚ map_to_list m.

Section MapLaw.
Context (order : gmap string N -> list (string * N)) `{!MapOrder order}.

Lemma order_list m : list_to_map (reverse (order m)) = m.
Proof.
  rewrite <- (list_to_map_to_list m) at 2. symmetry. apply list_to_map_proper.
  - apply NoDup_fst_map_to_list.
  - by rewrite reverse_Permutation, order_perm.
Qed.

Lemma take_entries m0 l :
  forallb (fun kv => (len kv.1 <? 2 ^ 62) && (kv.2 <? two64)) l = true ->
  takes (take (p_map order)) m0 ((fun kv => WBytes (map_entry kv)) <$> l)
    (list_to_map (reverse l) ∪ m0).
Proof.
  revert m0. induction l as [|[k n] l IH]; intros m0 Hl; [cbn; by rewrite (left_id_L ∅ (∪))|].
  cbn in Hl. apply andb_true_iff in Hl as [[Hk%N.ltb_lt Hn%N.ltb_lt]%andb_true_iff Hl].
  rewrite fmap_cons. cbn [takes take p_map]. exists (<[k := n]> m0). split.
  - intros rest.
    by rewrite read_map_entry by (done || (unfold two63; change (2 ^ 62) with 4611686018427387904 in *; lia)).
  - rewrite reverse_cons, list_to_map_app. cbn [list_to_map foldr uncurry fst snd].
    rewrite insert_empty, <- (assoc_L (∪)), <- insert_union_singleton_l. by apply IH.
Qed.

#[export] Instance p_map_law : PbLaw (p_map order).
Proof.
  split; cbn [put merge fits p_map pb_zero].
  - intros m0 m Hm. rewrite <- (order_list m) at 2. apply take_entries.
    by rewrite (forallb_perm _ _ (map_to_list m)).
  - intros m [n|b|] rest y rest'; cbn [take p_map]; try done.
    destruct (read_entry _ _ _ _) as [[k n]|]; [|done]. by intros [= _ <-].
  - intros m Hm. rewrite <- (forallb_perm _ _ _ (order_perm m)) in Hm. induction (order m) as [|[k n] l IH]; [done|].
    cbn in *. apply andb_true_iff in Hm as [[Hk%N.ltb_lt _]%andb_true_iff Hl].
    apply andb_true_iff. split; [|auto]. by apply N.ltb_lt, map_entry_short.
  - intros m _. apply (right_id_L ∅ (∪)).
Qed.
End MapLaw.

(** ** Messages *)
Record pb_field (R : Type) := mkField {
  f_num : N;
  f_out : R -> list wire;
  f_in : R -> wire -> string -> option (R * string);
  f_fits : R -> bool;
  f_merge : R -> R -> R;
}.
Arguments f_num {_} _.
Arguments f_out {_} _ _.
Arguments f_in {_} _ _ _ _.
Arguments f_fits {_} _ _.
Arguments f_merge {_} _ _ _.

Definition fld {R A} (n : N) (c : pb A) (get : R -> A) `{!Setter get} : pb_field R := {|
  f_num := n;
  f_out r := put c (get r);
  f_in r w rest := '(x, rest') ← take c (get r) w rest; Some (r <| get := x |>, rest');
  f_fits r := fits c (get r);
  f_merge r0 r := r0 <| get := merge c (get r0) (get r) |>;
|}.

Record pb_message (R : Type) := mkMessage { m_empty : R; m_fields : list (pb_field R) }.
Arguments mkMessage {_} _ _.
Arguments m_empty {_} _.
Arguments m_fields {_} _.

Section Message.
Context {R : Type} (c : pb_message R).

Definition marshal (r : R) : message :=
  concat ((fun f => pair (f_num f) <$> f_out f r) <$> m_fields c).
Definition Marshal (r : R) : string := encode_message (marshal r).

Definition find_num (n : N) : option (pb_field R) := List.find (fun f => f_num f =? n) (m_fields c).
(** The loop over the bytes; an unknown field is skipped. *)
Fixpoint unmarshal_into (fuel : nat) (r : R) (s : string) : option R :=
  match s, fuel with
  | EmptyString, _ => Some r
  | _, O => None
  | _, S fuel' =>
      '(n, w, rest) ← read_field s;
      match find_num n with
      | Some f => '(r', rest') ← f_in f r w rest; unmarshal_into fuel' r' rest'
      | None => unmarshal_into fuel' r rest
      end
  end.
Definition UnmarshalInto (r : R) (b : string) : option R := unmarshal_into (String.length b) r b.
Definition Unmarshal (b : string) : option R := UnmarshalInto (m_empty c) b.

Definition message_fits (r : R) : bool := forallb (fun f => f_fits f r) (m_fields c).
Definition message_merge (r0 r : R) : R := foldl (fun acc f => f_merge f acc r) r0 (m_fields c).
End Message.

(** Pointers to messages and slices of such pointers. *)
Definition p_message {R} (c : pb_message R) : pb (option R) := {|
  pb_zero := None;
  put o := match o with None => [] | Some r => [WBytes (Marshal c r)] end;
  take o w rest := match w with
    | WBytes b => r ← UnmarshalInto c (default (m_empty c) o) b; Some (Some r, rest)
    | _ => None
    end;
  fits o := match o with None => true | Some r => message_fits c r && (len (Marshal c r) <? two63) end;
  merge o o' := match o' with
    | None => o
    | Some r => Some (message_merge c (default (m_empty c) o) r)
    end;
|}.
Definition p_messages {R} (c : pb_message R) : pb (list R) := {|
  pb_zero := [];
  put l := WBytes ∘ Marshal c <$> l;
  take l w rest := match w with WBytes b => r ← Unmarshal c b; Some ((l ++ [r])%list, rest) | _ => None end;
  fits l := forallb (fun r => message_fits c r && (len (Marshal c r) <? two63)) l;
  merge l l' := (l ++ l')%list;
|}.

(** Slices that may hold nil pointers in the model; Marshal panics on one. *)
Definition p_pointers {R} (c : pb_message R) : pb (list (option R)) := {|
  pb_zero := [];
  put l := omap (fun o => WBytes ∘ Marshal c <$> o) l;
  take l w rest := match w with
    | WBytes b => r ← Unmarshal c b; Some ((l ++ [Some r])%list, rest)
    | _ => None
    end;
  fits l := forallb (fun o => match o with
    | Some r => message_fits c r && (len (Marshal c r) <? two63)
    | None => false
    end) l;
  merge l l' := (l ++ l')%list;
|}.

(** ** Laws of messages *)
Class PbFieldLaw {R} (f : pb_field R) : Prop := {
  in_out r0 r : f_fits f r = true -> takes (f_in f) r0 (f_out f r) (f_merge f r0 r);
  in_rest r w rest r' rest' :
    f_in f r w rest = Some (r', rest') -> (String.length rest' <= String.length rest)%nat;
  out_fits r : f_fits f r = true -> forallb wire_fits (f_out f r) = true;
}.

(** The update of a field behaves as an assignment. *)
Definition setter_ok {R A} (get : R -> A) `{!Setter get} : Prop :=
  (forall r, r <| get := get r |> = r) /\ (forall r x, get (r <| get := x |>) = x) /\
  (forall r x y, r <| get := x |> <| get := y |> = r <| get := y |>).

Lemma field_law {R A} n (c : pb A) `{!PbLaw c} (get : R -> A) `{!Setter get} :
  setter_ok get -> PbFieldLaw (fld n c get).
Proof.
  intros (Hid & Hget & Hset). split; cbn; [| |intros r; apply put_fits].
  - assert (forall l r0 x, takes (take c) (get r0) l x -> takes (f_in (fld n c get)) r0 l (r0 <| get := x |>))
      as Hall.
    { induction l as [|w l IH]; intros r0 x; cbn; [by intros <-|]. intros (y & Hy & Hx).
      exists (r0 <| get := y |>). split; [intros rest; by rewrite Hy|].
      rewrite <- (Hset r0 y x). apply IH. by rewrite Hget. }
    intros r0 r Hr. by apply Hall, take_put.
  - intros r w rest r' rest'. destruct (take c (get r) w rest) as [[x s]|] eqn:E; [|done].
    cbn. intros [= _ <-]. by eapply take_rest.
Qed.

Class MessageLaw {R} (c : pb_message R) : Prop := {
  nums_distinct : NoDup (f_num <$> m_fields c);
  nums_valid : forallb (fun f => (0 <? f_num f) && (f_num f <? 536870912)) (m_fields c) = true;
  fields_law : Forall PbFieldLaw (m_fields c);
  merge_empty r : message_fits c r = true -> message_merge c (m_empty c) r = r;
}.

Section MessageFacts.
Context {R : Type} (c : pb_message R) `{!MessageLaw c}.

Lemma find_num_in n f : find_num c n = Some f -> f ∈ m_fields c.
Proof. intros [H _]%List.find_some. by apply list_elem_of_In. Qed.

Lemma find_num_self f : f ∈ m_fields c -> find_num c (f_num f) = Some f.
Proof.
  pose proof (nums_distinct (c := c)) as Hd. unfold find_num. intros Hf.
  induction (m_fields c) as [|g l IH]; [by apply elem_of_nil in Hf|]. cbn in *.
  apply NoDup_cons in Hd as [Hg Hd]. apply elem_of_cons in Hf as [->|Hf]; [by rewrite N.eqb_refl|].
  destruct (N.eqb_spec (f_num g) (f_num f)) as [E|_]; [|by apply IH].
  destruct Hg. rewrite E. by apply list_elem_of_fmap_2.
Qed.

(** Every turn takes a byte at least: more fuel than the length changes nothing. *)
Lemma unmarshal_enough fuel r s :
  (String.length s <= fuel)%nat -> unmarshal_into c fuel r s = UnmarshalInto c r s.
Proof.
  unfold UnmarshalInto. remember (String.length s) as n eqn:Hn. revert fuel r s Hn.
  induction n as [n IH] using lt_wf_ind. intros fuel r s -> Hf.
  destruct s as [|a s]; [by destruct fuel|]. destruct fuel as [|fuel]; [simpl in Hf; lia|].
  cbn [unmarshal_into String.length] in *. destruct (read_field (String a s)) as [[[m w] rest]|] eqn:E; [|done].
  apply read_field_shorter in E. cbn [mbind option_bind String.length] in *.
  assert (forall r rest', (String.length rest' <= String.length rest)%nat ->
    unmarshal_into c fuel r rest' = unmarshal_into c (String.length s) r rest') as Hsame.
  { intros r' t Ht. rewrite (IH (String.length t)) by lia. symmetry. apply (IH (String.length t)); lia. }
  destruct (find_num c m) as [f|] eqn:Ef; [|by apply Hsame].
  destruct (f_in f r w rest) as [[r' rest']|] eqn:Ei; [|done]. cbn. apply Hsame.
  apply find_num_in in Ef. pose proof (fields_law (c := c)) as Hlaw. rewrite Forall_forall in Hlaw.
  specialize (Hlaw f Ef). by eapply in_rest.
Qed.

(** One turn of the loop, on a field that was written. *)
Lemma unmarshal_turn f w r r' rest :
  f ∈ m_fields c -> writable (f_num f, w) = true -> (forall rest, f_in f r w rest = Some (r', rest)) ->
  UnmarshalInto c r (write_field (f_num f, w) +:+ rest) = UnmarshalInto c r' rest.
Proof.
  intros Hf Hw Hin. pose proof (read_write_field _ rest Hw) as E. pose proof (read_field_shorter _ _ _ _ E) as Hl.
  unfold UnmarshalInto at 1. destruct (write_field (f_num f, w) +:+ rest) as [|a s]; [done|].
  cbn [unmarshal_into String.length] in *. rewrite E. cbn. rewrite find_num_self, Hin by done. cbn.
  apply unmarshal_enough. lia.
Qed.

Lemma unmarshal_field f r0 l r rest :
  f ∈ m_fields c -> forallb writable (pair (f_num f) <$> l) = true -> takes (f_in f) r0 l r ->
  UnmarshalInto c r0 (encode_message (pair (f_num f) <$> l) +:+ rest) = UnmarshalInto c r rest.
Proof.
  intros Hf. revert r0. induction l as [|w l IH]; intros r0; cbn; [by intros _ ->|].
  intros [Hw Hl]%andb_true_iff (r1 & Hin & Ht). rewrite str_app_assoc.
  rewrite (unmarshal_turn f w r0 r1) by done. by apply IH.
Qed.

Lemma unmarshal_fields l r0 r :
  (forall f, f ∈ l -> f ∈ m_fields c /\ PbFieldLaw f /\ f_fits f r = true) ->
  forallb writable (concat ((fun f => pair (f_num f) <$> f_out f r) <$> l)) = true ->
  UnmarshalInto c r0 (encode_message (concat ((fun f => pair (f_num f) <$> f_out f r) <$> l))) =
  Some (foldl (fun acc f => f_merge f acc r) r0 l).
Proof.
  revert r0. induction l as [|f l IH]; intros r0 Hl; [done|]. destruct (Hl f) as (Hf & Hff & Hr); [left|].
  rewrite fmap_cons. cbn [concat foldl]. rewrite forallb_app. intros [Hw Hws]%andb_true_iff.
  rewrite encode_message_app, (unmarshal_field f r0 _ _ _ Hf Hw (in_out r0 r Hr)).
  apply IH; [|done]. intros g Hg. apply Hl. by right.
Qed.

Lemma marshal_writable r : message_fits c r = true -> forallb writable (marshal c r) = true.
Proof.
  pose proof (fields_law (c := c)) as Hlaw. pose proof (nums_valid (c := c)) as Hnum.
  unfold message_fits, marshal. intros Hfit. induction (m_fields c) as [|f l IH]; [done|].
  apply Forall_cons in Hlaw as [Hf Hl]. cbn in *.
  apply andb_true_iff in Hnum as [Hn Hnum], Hfit as [Hr Hfit].
  rewrite forallb_app, IH by done. rewrite andb_true_r. pose proof (out_fits r Hr) as Ho.
  induction (f_out f r) as [|w ws IHw]; [done|]. cbn in *. apply andb_true_iff in Ho as [Hw Ho].
  unfold writable at 1. cbn. rewrite Hn, IHw by done. by destruct w; cbn in *; rewrite ?Hw.
Qed.

(** [Unmarshal] into a struct of the bytes [Marshal] wrote merges the values. *)
Lemma UnmarshalInto_Marshal r0 r :
  message_fits c r = true -> UnmarshalInto c r0 (Marshal c r) = Some (message_merge c r0 r).
Proof.
  intros Hr. apply unmarshal_fields; [|by apply marshal_writable].
  pose proof (fields_law (c := c)) as Hlaw. rewrite Forall_forall in Hlaw.
  unfold message_fits in Hr. rewrite forallb_forall in Hr.
  intros f Hf. split; [done|]. split; [by apply Hlaw|]. by apply Hr, list_elem_of_In.
Qed.

Lemma Unmarshal_Marshal r : message_fits c r = true -> Unmarshal c (Marshal c r) = Some r.
Proof. intros Hr. unfold Unmarshal. by rewrite UnmarshalInto_Marshal, merge_empty. Qed.

#[export] Instance p_message_law : PbLaw (p_message c).
Proof.
  split; cbn.
  - intros o [r|] Hr; [|done]. apply andb_true_iff in Hr as [Hr _]. cbn.
    eexists. split; [|done]. intros rest. by rewrite UnmarshalInto_Marshal.
  - intros o [n|b|] rest y rest'; cbn; try done. destruct (UnmarshalInto c _ b); [|done]. by intros [= _ <-].
  - intros [r|] Hr; [|done]. apply andb_true_iff in Hr as [_ Hr]. cbn. by rewrite Hr.
  - intros [r|] Hr; [|done]. apply andb_true_iff in Hr as [Hr _]. cbn. by rewrite merge_empty.
Qed.

#[export] Instance p_messages_law : PbLaw (p_messages c).
Proof.
  split; cbn.
  - intros l0 l Hl. revert l0. induction l as [|r l IH]; intros l0; [cbn; by rewrite app_nil_r|].
    cbn in *. apply andb_true_iff in Hl as [[Hr _]%andb_true_iff Hl].
    eexists. split; [intros rest; by rewrite Unmarshal_Marshal by done|].
    specialize (IH Hl (l0 ++ [r])%list). by rewrite <- app_assoc in IH.
  - intros l [n|b|] rest y rest'; cbn; try done. destruct (Unmarshal c b); [|done]. by intros [= _ <-].
  - intros l Hl. induction l as [|r l IH]; [done|]. cbn in *.
    apply andb_true_iff in Hl as [[_ Hr]%andb_true_iff Hl]. rewrite Hr. auto.
  - done.
Qed.

#[export] Instance p_pointers_law : PbLaw (p_pointers c).
Proof.
  split; cbn.
  - intros l0 l Hl. revert l0. induction l as [|[r|] l IH]; intros l0; [cbn; by rewrite app_nil_r| |done].
    cbn in *. apply andb_true_iff in Hl as [[Hr _]%andb_true_iff Hl].
    eexists. split; [intros rest; by rewrite Unmarshal_Marshal by done|].
    specialize (IH Hl (l0 ++ [Some r])%list). by rewrite <- app_assoc in IH.
  - intros l [n|b|] rest y rest'; cbn; try done. destruct (Unmarshal c b); [|done]. by intros [= _ <-].
  - intros l Hl. induction l as [|[r|] l IH]; [done| |done]. cbn in *.
    apply andb_true_iff in Hl as [[_ Hr]%andb_true_iff Hl]. rewrite Hr. auto.
  - done.
Qed.
End MessageFacts.

(** ** Bodies of oneof fields: a field per alternative; reading one replaces the body. *)
Definition fld_oneof {R A B} (n : N) (c : pb_message A) (inj : A -> B) (prj : B -> option A)
    (get : R -> option B) `{!Setter get} : pb_field R :=
  let mine r := b ← get r; prj b in {|
  f_num := n;
  f_out r := match mine r with Some x => [WBytes (Marshal c x)] | None => [] end;
  f_in r w rest := match w with
    | WBytes b => x ← Unmarshal c b; Some (r <| get := Some (inj x) |>, rest)
    | _ => None
    end;
  f_fits r := match mine r with
    | Some x => message_fits c x && (len (Marshal c x) <? two63)
    | None => true
    end;
  f_merge r0 r := match mine r with Some x => r0 <| get := Some (inj x) |> | None => r0 end;
|}.

Lemma oneof_law {R A B} n (c : pb_message A) `{!MessageLaw c} (inj : A -> B) prj (get : R -> option B)
    `{!Setter get} : PbFieldLaw (fld_oneof n c inj prj get).
Proof.
  split; cbn.
  - intros r0 r H. destruct (b ← get r; prj b) as [x|]; [|done]. apply andb_true_iff in H as [H _].
    cbn. eexists. split; [|done]. intros rest. by rewrite Unmarshal_Marshal.
  - intros r [k|b|] rest y rest'; try done. destruct (Unmarshal c b); [|done]. by intros [= _ <-].
  - intros r H. destruct (b ← get r; prj b) as [x|]; [|done]. apply andb_true_iff in H as [_ H].
    cbn. by rewrite H.
Qed.

(** Message types: distinct numbers by computation, then field by field.  The
    last goal, that merging into an empty struct gives the value, is opened down
    to the field types. *)
Ltac open_message := cbv -[merge pb_zero fits andb message_fits Marshal two63 N.ltb len p_uint64 p_uint32
  p_enum p_time p_bool p_bytes p_int32 p_int64 p_strings p_packed p_map p_message p_messages p_pointers].
Ltac open_message_in H := cbv -[merge pb_zero fits andb message_fits Marshal two63 N.ltb len p_uint64
  p_uint32 p_enum p_time p_bool p_bytes p_int32 p_int64 p_strings p_packed p_map p_message p_messages p_pointers] in H.

Ltac each_field := first
  [ apply field_law; [apply _ | split_and!; by intros []]
  | apply oneof_law; apply _ ].

Lemma opened_fits {R} (c : pb_message R) r :
  message_fits c r = forallb (fun f => f_fits f r) (m_fields c).
Proof. done. Qed.
Lemma opened_merge {R} (c : pb_message R) r0 r :
  message_merge c r0 r = foldl (fun acc f => f_merge f acc r) r0 (m_fields c).
Proof. done. Qed.

Ltac merged_fields r H :=
  rewrite opened_fits in H; rewrite opened_merge; destruct r;
  open_message; open_message_in H; repeat rewrite andb_true_iff in H; destruct_and? H;
  f_equal; apply merge_zero; assumption.

Ltac message_law_with tac :=
  lazymatch goal with |- MessageLaw ?c => unfold c end;
  split;
  [ apply (bool_decide_unpack _); vm_compute; exact I
  | reflexivity
  | repeat (apply Forall_cons; split); [..|apply Forall_nil; exact I]; each_field
  | let r := fresh "r" in let H := fresh "H" in intros r H; tac r H ].
Ltac message_law := message_law_with ltac:(fun r H => merged_fields r H).

(** Malformed bytes: a packed number and a map key that end behind their field.
    After the number the loop of [Unmarshal] goes on behind it; after the entry it
    goes back to the end of the entry; a field inside an entry that is skipped has
    to end with it. *)
Module PbDemo.
Definition bytes (l : list N) : string := foldr (fun b s => String (ascii_of_N b) s) EmptyString l.

Lemma reading_past_the_field :
  take p_packed [5] (WBytes (bytes [7; 128])) (bytes [2; 16; 9]) = Some ([5; 7; 256], bytes [16; 9]) /\
  take (p_map map_to_list) ∅ (WBytes (bytes [10; 2; 65])) (bytes [66; 1]) =
    Some ({["AB" := 0]}, bytes [66; 1]) /\
  take (p_map map_to_list) ∅ (WBytes (bytes [26; 2; 65])) (bytes [66; 1]) = None.
Proof. by vm_compute. Qed.
End PbDemo.
