(* ===== verification/Keeps.v ===== *)
(** * Invariants of a store, operation by operation

    [keeps I c]: the computation [c], however it ends, leaves the store in a
    state satisfying [I] when it starts in one.  The lemmas follow the
    operations of the state monad and are applied by [auto] with the database
    [keeps]; what is left are the writes. *)

From S2P Require Import Prelude.

Section Keeps.
Context {V P : Type} (I : gmap string V -> Prop).

Definition keeps {A} (c : M (St V P) A) : Prop :=
  forall s r s', I (kv s) -> c s = (r, s') -> I (kv s').

Lemma keeps_bind {A B} (c : M (St V P) A) (f : A -> M (St V P) B) :
  keeps c -> (forall a, keeps (f a)) -> keeps (c ≫= f).
Proof.
  intros Hc Hf s r s' HI H. unfold mbind, M_bind in H. destruct (c s) as [[a|e] s1] eqn:E.
  - by eapply Hf, H; eapply Hc.
  - simplify_eq. by eapply Hc.
Qed.

Lemma keeps_ret {A} (a : A) : keeps (mret a).
Proof. intros s r s' HI H. unfold mret, M_ret in H. by simplify_eq. Qed.

Lemma keeps_kset k v : (forall m, I m -> I (<[k := v]> m)) -> keeps (kset k v).
Proof. intros Hk s r s' HI H. unfold kset in H. simplify_eq. by apply Hk. Qed.

Lemma keeps_kdel k : (forall m, I m -> I (delete k m)) -> keeps (kdel k).
Proof. intros Hk s r s' HI H. unfold kdel in H. simplify_eq. by apply Hk. Qed.
Lemma keeps_kget k : keeps (kget k).
Proof. intros s r s' HI H. unfold kget in H. by simplify_eq. Qed.
Lemma keeps_map_err {A} w (c : M (St V P) A) : keeps c -> keeps (map_err w c).
Proof.
  intros Hc s r s' HI H. unfold map_err in H. destruct (c s) as [[a|e] s1] eqn:E; simplify_eq; by eapply Hc.
Qed.

Lemma keeps_kread {A} (f : gmap string V -> result A) : keeps (kread f).
Proof. intros s r s' HI H. unfold kread in H. by simplify_eq. Qed.

(** A read and what follows it, with the value that was read. *)
Lemma keeps_kread_bind {A B} (f : gmap string V -> result A) (g : A -> M (St V P) B) :
  (forall s a r s', I (kv s) -> f (kv s) = Ok a -> g a s = (r, s') -> I (kv s')) ->
  keeps (kread f ≫= g).
Proof.
  intros Hg s r s' HI H. unfold mbind, M_bind, kread in H. destruct (f (kv s)) eqn:E; [by eauto|].
  by simplify_eq.
Qed.

Lemma keeps_khas k : keeps (khas k).
Proof. intros s r s' HI H. unfold khas in H. by simplify_eq. Qed.
Lemma keeps_peer_read {A} (f : P -> result A) : keeps (peer_read f).
Proof. intros s r s' HI H. unfold peer_read in H. by simplify_eq. Qed.
Lemma keeps_on_peers {A} (c : M P A) : keeps (on_peers c).
Proof. intros s r s' HI H. unfold on_peers in H. destruct (c (peers s)). by simplify_eq. Qed.
Lemma keeps_attempt {A} (c : M (St V P) A) : keeps c -> keeps (attempt c).
Proof.
  intros Hc s r s' HI H. unfold attempt in H. destruct (c s) as [r1 s1] eqn:E. simplify_eq.
  by eapply Hc.
Qed.
Lemma keeps_lift {A} (r : result A) : keeps (lift r).
Proof. intros s r' s' HI H. unfold lift in H. by simplify_eq. Qed.
Lemma keeps_fail {A} e : keeps (fail e : M (St V P) A).
Proof. intros s r' s' HI H. unfold fail in H. by simplify_eq. Qed.
Lemma keeps_fail_if b e : keeps (fail_if b e).
Proof. destruct b; [apply keeps_fail|apply keeps_ret]. Qed.
Lemma keeps_emit ev : keeps (emit ev).
Proof. intros s r' s' HI H. unfold emit in H. by simplify_eq. Qed.
Lemma keeps_if {A} (b : bool) (c d : M (St V P) A) :
  keeps c -> keeps d -> keeps (if b then c else d).
Proof. by destruct b. Qed.
Lemma keeps_for_each {A} (l : list A) body :
  (forall x, x ∈ l -> keeps (body x)) -> keeps (for_each l body).
Proof.
  intros Hb s r s' HI H. eapply (for_each_preserves (fun s => I (kv s))); [|exact HI|exact H].
  intros x s0 r0 s1 Hx HI0. by apply (Hb x Hx).
Qed.
Lemma keeps_deliver {A} (c : M (St V P) A) : keeps c -> keeps (deliver c).
Proof.
  intros Hc s r s' HI H. unfold deliver in H. destruct (c s) as [[a|e] s1] eqn:E; simplify_eq; [|done].
  by eapply Hc.
Qed.

(** [runs I c]: started in [I], the computation succeeds and ends in [I]. *)
Definition runs (c : M (St V P) unit) : Prop :=
  forall s, I (kv s) -> exists s', c s = (Ok tt, s') /\ I (kv s') /\ peers s' = peers s.

Lemma runs_bind c d : runs c -> runs d -> runs (c ;; d).
Proof.
  intros Hc Hd s HI. destruct (Hc s HI) as (s1 & E1 & HI1 & P1).
  destruct (Hd s1 HI1) as (s2 & E2 & HI2 & P2). exists s2. split_and!; [|done|by rewrite P2].
  by rewrite (M_bind_run _ _ _ _ _ E1).
Qed.
Lemma runs_ret : runs (mret tt).
Proof. intros s HI. by exists s. Qed.
Lemma runs_kset k v : (forall m, I m -> I (<[k := v]> m)) -> runs (kset k v).
Proof. intros Hk s HI. eexists. split_and!; [done|by apply Hk|done]. Qed.
Lemma runs_for_each {A} (l : list A) body : (forall x, runs (body x)) -> runs (for_each l body).
Proof.
  intros Hb. induction l as [|x l IH]; [apply runs_ret|]. cbn [for_each].
  apply runs_bind; [apply Hb|apply IH].
Qed.

(** [after c]: whenever [c] succeeds, the store it leaves satisfies [I]. *)
Definition after {A} (c : M (St V P) A) : Prop :=
  forall s a s', c s = (Ok a, s') -> I (kv s').

Lemma after_bind_l {A B} (c : M (St V P) A) (f : A -> M (St V P) B) :
  after c -> (forall a, keeps (f a)) -> after (c ≫= f).
Proof. intros Hc Hf s b s' (a & s1 & E1 & E2)%M_bind_ok. eapply Hf; [by eapply Hc|done]. Qed.
Lemma after_bind_r {A B} (c : M (St V P) A) (f : A -> M (St V P) B) :
  (forall a, after (f a)) -> after (c ≫= f).
Proof. intros Hf s b s' (a & s1 & E1 & E2)%M_bind_ok. by eapply Hf. Qed.
Lemma after_for_each {A} (x : A) l body :
  x ∈ l -> after (body x) -> (forall y, y ∈ l -> keeps (body y)) -> after (for_each l body).
Proof.
  intros (l1 & l2 & ->)%list_elem_of_split Hx Hb.
  induction l1 as [|y l1 IH]; cbn [app for_each].
  - apply after_bind_l; [done|]. intros _. apply keeps_for_each. intros y Hy. apply Hb. set_solver.
  - apply after_bind_r. intros _. apply IH. intros z Hz. apply Hb. set_solver.
Qed.
End Keeps.

(** What is present stays present when entries are written. *)
Lemma present_insert {V} (k k' : string) (v : V) (m : gmap string V) :
  is_Some (m !! k) -> is_Some (<[k' := v]> m !! k).
Proof. intros H. destruct (decide (k' = k)) as [->|]; [by rewrite lookup_insert_eq|by rewrite lookup_insert_ne]. Qed.

Create HintDb keeps.
#[export] Hint Resolve keeps_ret keeps_kread keeps_kget keeps_khas keeps_peer_read keeps_on_peers keeps_attempt
  keeps_map_err keeps_lift keeps_fail keeps_fail_if keeps_emit : keeps.

(** Walks through a computation, leaving its writes and loops. *)
Ltac keep :=
  repeat first
    [ solve [eauto with keeps]
    | match goal with |- keeps _ (_ ≫= _) => apply keeps_bind; [|intros ?] end
    | match goal with |- keeps _ (if _ then _ else _) => apply keeps_if end
    | progress cbv beta zeta
    | match goal with |- keeps _ (match ?x with _ => _ end) => destruct x end ].
