(* ===== verification/Json.v ===== *)
(** * JSON of the genesis states (encoding/json)

    The genesis of a module is written and read with Go's [encoding/json].  A
    JSON text is modelled by its value; what the package does with the types the
    genesis states use is modelled by [codec]s:

    - [enc] is [json.Marshal], [dec x0] is [json.Unmarshal] into a variable
      holding [x0]: members that are absent, or [null] for a plain value, leave
      the old value in place;
    - [omitempty] leaves zero values out, so that reading them back keeps
      whatever the variable held;
    - an object cannot be read into an interface other than [any], such as the
      oneof body of an event;
    - a key matches a field by its exact name or, failing that, ignoring case;
      unknown keys are ignored, of repeated keys the last wins.

    [ok] says that the value fits its Go type, [back x0 x] is what reading back
    what was written for [x] leaves in a variable holding [x0] ([codec_law]).
    Go writes a nil slice as [null] and an empty one as [[]]; both are the empty
    list here, written [[]].  A JSON text is UTF-8: where a Go string is not,
    each byte that starts no encoded rune is written, and read, as U+FFFD
    ([to_valid]), so only strings that are valid UTF-8 come back as they were. *)

From S2P Require Import Prelude Bytes.
From Stdlib Require Import Ascii.
Local Open Scope string_scope.

(** ** UTF-8 (unicode/utf8) *)

Definition in_range (lo hi : N) (c : ascii) : bool := (lo <=? N_of_ascii c)%N && (N_of_ascii c <=? hi)%N.
Definition continuation : ascii -> bool := in_range 128 191.

(** The encodings of a rune by one, two, three and four bytes: no overlong form,
    no surrogate, nothing above U+10FFFF. *)
Definition rune1 : ascii -> bool := in_range 0 127.
Definition rune2 (a b : ascii) : bool := in_range 194 223 a && continuation b.
Definition rune3 (a b c : ascii) : bool :=
  (in_range 224 224 a && in_range 160 191 b || in_range 225 236 a && continuation b ||
   in_range 237 237 a && in_range 128 159 b || in_range 238 239 a && continuation b) && continuation c.
Definition rune4 (a b c d : ascii) : bool :=
  (in_range 240 240 a && in_range 144 191 b || in_range 241 243 a && continuation b ||
   in_range 244 244 a && in_range 128 143 b) && continuation c && continuation d.

(** [utf8.ValidString]. *)
Fixpoint valid_utf8 (s : string) : bool :=
  match s with
  | EmptyString => true
  | String a s1 =>
      if rune1 a then valid_utf8 s1 else
      match s1 with
      | EmptyString => false
      | String b s2 =>
          if rune2 a b then valid_utf8 s2 else
          match s2 with
          | EmptyString => false
          | String c s3 =>
              if rune3 a b c then valid_utf8 s3 else
              match s3 with
              | EmptyString => false
              | String d s4 => rune4 a b c d && valid_utf8 s4
              end
          end
      end
  end.

(** U+FFFD and what [appendString] and [unquote] of encoding/json make of a
    string, rune by rune. *)
Definition replacement (s : string) : string :=
  String (ascii_of_N 239) (String (ascii_of_N 191) (String (ascii_of_N 189) s)).

Fixpoint to_valid (s : string) : string :=
  match s with
  | EmptyString => EmptyString
  | String a s1 =>
      if rune1 a then String a (to_valid s1) else
      match s1 with
      | EmptyString => replacement (to_valid s1)
      | String b s2 =>
          if rune2 a b then String a (String b (to_valid s2)) else
          match s2 with
          | EmptyString => replacement (to_valid s1)
          | String c s3 =>
              if rune3 a b c then String a (String b (String c (to_valid s3))) else
              match s3 with
              | EmptyString => replacement (to_valid s1)
              | String d s4 =>
                  if rune4 a b c d then String a (String b (String c (String d (to_valid s4))))
                  else replacement (to_valid s1)
              end
          end
      end
  end.

(** The two agree on what is valid, and what was repaired stays. *)
Lemma string_length_ind (P : string -> Prop) :
  (forall s, (forall t, (String.length t < String.length s)%nat -> P t) -> P s) -> forall s, P s.
Proof. intros H s. induction s as [s IH] using (induction_ltof1 _ String.length). by apply H. Qed.

Lemma to_valid_id s : valid_utf8 s = true -> to_valid s = s.
Proof.
  induction s as [s IH] using string_length_ind.
  destruct s as [|a s1]; [done|]. cbn [valid_utf8 to_valid].
  destruct (rune1 a); [intros H; by rewrite IH by (done || cbn; lia)|].
  destruct s1 as [|b s2]; [done|].
  destruct (rune2 a b); [intros H; by rewrite IH by (done || cbn; lia)|].
  destruct s2 as [|c s3]; [done|].
  destruct (rune3 a b c); [intros H; by rewrite IH by (done || cbn; lia)|].
  destruct s3 as [|d s4]; [done|].
  destruct (rune4 a b c d); [intros H; by rewrite IH by (done || cbn; lia)|done].
Qed.

Lemma replacement_valid s : valid_utf8 (replacement s) = valid_utf8 s.
Proof. done. Qed.

Lemma to_valid_valid s : valid_utf8 (to_valid s) = true.
Proof.
  induction s as [s IH] using string_length_ind.
  destruct s as [|a s1]; [done|]. cbn [to_valid].
  destruct (rune1 a) eqn:E1; [cbn [valid_utf8]; rewrite E1; apply IH; cbn; lia|].
  assert (valid_utf8 (replacement (to_valid s1)) = true) as Hr.
  { rewrite replacement_valid. apply IH. cbn. lia. }
  destruct s1 as [|b s2]; [done|].
  destruct (rune2 a b) eqn:E2; [cbn [valid_utf8]; rewrite E1, E2; apply IH; cbn; lia|].
  destruct s2 as [|c s3]; [done|].
  destruct (rune3 a b c) eqn:E3; [cbn [valid_utf8]; rewrite E1, E2, E3; apply IH; cbn; lia|].
  destruct s3 as [|d s4]; [done|].
  destruct (rune4 a b c d) eqn:E4; [|done].
  cbn [valid_utf8]. rewrite E1, E2, E3, E4. apply IH. cbn. lia.
Qed.

Inductive json :=
  | JNull
  | JBool (b : bool)
  | JNum (n : Z)
  | JStr (s : string)
  | JArr (l : list json)
  | JObj (l : list (string * json)).

(** [json.RawMessage]: [None] for [len(bz) == 0]. *)
Definition RawMessage : Type := option json.

Definition type_error {A} : result A := Err (Errorf "json: cannot unmarshal").

(** ** Codecs *)
Record codec (A : Type) := mkCodec {
  zero : A;
  enc : A -> json;
  dec : A -> json -> result A;
  ok : A -> bool;
  back : A -> A -> A;
}.
Arguments zero {_} _.
Arguments enc {_} _ _.
Arguments dec {_} _ _ _.
Arguments ok {_} _ _.
Arguments back {_} _ _ _.

Class CodecLaw {A} (c : codec A) : Prop :=
  codec_law x0 x : ok c x = true -> dec c x0 (enc c x) = Ok (back c x0 x).

Definition j_string : codec string := {|
  zero := "";
  enc s := JStr (to_valid s);
  dec x0 j := match j with JNull => Ok x0 | JStr s => Ok (to_valid s) | _ => type_error end;
  ok := valid_utf8;
  back _ x := x;
|}.

Definition j_bool : codec bool := {|
  zero := false;
  enc := JBool;
  dec x0 j := match j with JNull => Ok x0 | JBool b => Ok b | _ => type_error end;
  ok _ := true;
  back _ x := x;
|}.

(** Unsigned integers of [w] bits; a number out of range is an error. *)
Definition j_uint (w : N) : codec N := {|
  zero := 0%N;
  enc n := JNum (Z.of_N n);
  dec x0 j := match j with
    | JNull => Ok x0
    | JNum n => if (0 <=? n)%Z && (n <? 2 ^ Z.of_N w)%Z then Ok (Z.to_N n) else type_error
    | _ => type_error
    end;
  ok n := (n <? 2 ^ w)%N;
  back _ x := x;
|}.

Definition j_int (w : N) : codec Z := {|
  zero := 0%Z;
  enc := JNum;
  dec x0 j := match j with
    | JNull => Ok x0
    | JNum n => if (- 2 ^ Z.of_N (w - 1) <=? n)%Z && (n <? 2 ^ Z.of_N (w - 1))%Z then Ok n else type_error
    | _ => type_error
    end;
  ok n := (- 2 ^ Z.of_N (w - 1) <=? n)%Z && (n <? 2 ^ Z.of_N (w - 1))%Z;
  back _ x := x;
|}.

(** [[]byte] is written in base64. *)
Class Base64 := {
  base64_Encode : string -> string;
  base64_Decode : string -> option string;
}.
Class Base64Law {B64 : Base64} : Prop :=
  base64_roundtrip s : base64_Decode (base64_Encode s) = Some s.

Definition j_bytes {B64 : Base64} : codec string := {|
  zero := "";
  enc b := JStr (base64_Encode b);
  dec x0 j := match j with
    | JNull => Ok ""
    | JStr s => match base64_Decode s with Some b => Ok b | None => type_error end
    | _ => type_error
    end;
  ok _ := true;
  back _ x := x;
|}.

Fixpoint dec_all {A} (d : json -> result A) (l : list json) : result (list A) :=
  match l with
  | [] => mret []
  | j :: l' => x ← d j; xs ← dec_all d l'; mret (x :: xs)
  end.

Definition j_slice {A} (c : codec A) : codec (list A) := {|
  zero := [];
  enc l := JArr (enc c <$> l);
  dec x0 j := match j with
    | JNull => Ok []
    | JArr l => dec_all (dec c (zero c)) l
    | _ => type_error
    end;
  ok l := forallb (ok c) l;
  back _ l := back c (zero c) <$> l;
|}.

(** [[n]T]: missing elements are zeroed, further ones ignored. *)
Definition j_array {A} (n : nat) (c : codec A) : codec (list A) := {|
  zero := replicate n (zero c);
  enc l := JArr (enc c <$> l);
  dec x0 j := match j with
    | JNull => Ok x0
    | JArr l => xs ← dec_all (dec c (zero c)) (take n l); mret (resize n (zero c) xs)
    | _ => type_error
    end;
  ok l := forallb (ok c) l && (length l =? n)%nat;
  back _ l := back c (zero c) <$> l;
|}.

(** [map[string]uint64]: written in the order of the keys, the members read are
    added to the map the variable holds. *)
Definition key_le (x y : string * N) : Prop := String.leb x.1 y.1 = true.
#[export] Instance key_le_dec : RelDecision key_le.
Proof. intros x y. unfold key_le. apply _. Defined.

Definition j_counts : codec (option (gmap string N)) := {|
  zero := None;
  enc m := match m with
    | None => JNull
    | Some m => JObj ((fun kv => (to_valid kv.1, JNum (Z.of_N kv.2))) <$> merge_sort key_le (map_to_list m))
    end;
  dec x0 j := match j with
    | JNull => Ok None
    | JObj l =>
        vs ← dec_all (dec (j_uint 64) 0%N) l.*2;
        mret (Some (list_to_map (reverse (zip (to_valid <$> l.*1) vs)) ∪ default ∅ x0))
    | _ => type_error
    end;
  ok m := forallb (fun kv => valid_utf8 kv.1 && (kv.2 <? 2 ^ 64)%N)
            (merge_sort key_le (map_to_list (default ∅ m)));
  back x0 m := (fun m => m ∪ default ∅ x0) <$> m;
|}.

(** The same map where the code does not tell nil from empty. *)
Definition j_map : codec (gmap string N) := {|
  zero := ∅;
  enc m := enc j_counts (Some m);
  dec x0 j := m ← dec j_counts (Some x0) j; mret (default ∅ m);
  ok m := ok j_counts (Some m);
  back x0 m := m ∪ x0;
|}.

Definition j_ptr {A} (c : codec A) : codec (option A) := {|
  zero := None;
  enc o := match o with None => JNull | Some x => enc c x end;
  dec x0 j := match j with
    | JNull => Ok None
    | _ => x ← dec c (default (zero c) x0) j; mret (Some x)
    end;
  ok o := match o with
    | None => true
    | Some x => ok c x && match enc c x with JNull => false | _ => true end
    end;
  back x0 o := back c (default (zero c) x0) <$> o;
|}.

(** The element of a slice of pointers the code dereferences without a test:
    the panic on [null] is brought forward to the reading. *)
Definition j_nonnil {A} (c : codec A) : codec A := {|
  zero := zero c;
  enc := enc c;
  dec x0 j := match j with JNull => Err (Panic "nil pointer dereference") | _ => dec c x0 j end;
  ok x := ok c x && match enc c x with JNull => false | _ => true end;
  back := back c;
|}.

(** An interface with methods: only [null] can be read. *)
Definition j_interface {A} (write : A -> json) : codec (option A) := {|
  zero := None;
  enc o := match o with None => JNull | Some x => write x end;
  dec x0 j := match j with JNull => Ok None | _ => type_error end;
  ok o := match o with None => true | Some _ => false end;
  back _ _ := None;
|}.

(** ** Structs *)
Record field (R : Type) := mkField {
  f_name : string;
  f_out : R -> option json;
  f_in : R -> json -> result R;
  f_ok : R -> bool;
  f_back : R -> R -> R;
}.
Arguments f_name {_} _.
Arguments f_out {_} _ _.
Arguments f_in {_} _ _ _.
Arguments f_ok {_} _ _.
Arguments f_back {_} _ _ _.

(** A field without and with [omitempty]. *)
Definition fld {R A : Type} (name : string) (c : codec A) (get : R -> A) `{!Setter get} : field R := {|
  f_name := name;
  f_out r := Some (enc c (get r));
  f_in r j := x ← dec c (get r) j; mret (r <| get := x |>);
  f_ok r := ok c (get r);
  f_back r0 r := r0 <| get := back c (get r0) (get r) |>;
|}.

Definition fld_omit {R A : Type} (name : string) (c : codec A) (empty : A -> bool) (get : R -> A)
    `{!Setter get} : field R := {|
  f_name := name;
  f_out r := if empty (get r) then None else Some (enc c (get r));
  f_in r j := x ← dec c (get r) j; mret (r <| get := x |>);
  f_ok r := ok c (get r);
  f_back r0 r := r0 <| get := if empty (get r) then get r0 else back c (get r0) (get r) |>;
|}.

Definition empty_string (s : string) : bool := bool_decide (s = "").
Definition empty_slice {A} (l : list A) : bool := match l with [] => true | _ => false end.

Section Struct.
Context {R : Type} (empty : R) (fs : list (field R)).

Definition find_field (k : string) : option (field R) :=
  match List.find (fun f => bool_decide (f_name f = k)) fs with
  | Some f => Some f
  | None => List.find (fun f => bool_decide (ToLower (f_name f) = ToLower k)) fs
  end.

Fixpoint dec_members (r : R) (l : list (string * json)) : result R :=
  match l with
  | [] => Ok r
  | (k, v) :: l' =>
      match find_field k with
      | None => dec_members r l'
      | Some f => r' ← f_in f r v; dec_members r' l'
      end
  end.

Definition members (r : R) : list (string * json) :=
  omap (fun f => pair (f_name f) <$> f_out f r) fs.

Definition j_struct : codec R := {|
  zero := empty;
  enc r := JObj (members r);
  dec r j := match j with JNull => Ok r | JObj l => dec_members r l | _ => type_error end;
  ok r := forallb (fun f => f_ok f r) fs;
  back r0 r := foldl (fun acc f => f_back f acc r) r0 fs;
|}.

(** A struct embedded by pointer in a fresh variable: the pointer stays nil when
    no member of the object is one of its fields. *)
Definition dec_embedded (j : json) : result (option R) :=
  match j with
  | JNull => Ok None
  | JObj l =>
      if existsb (fun kv => match find_field kv.1 with Some _ => true | None => false end) l
      then r ← dec_members empty l; mret (Some r)
      else Ok None
  | _ => type_error
  end.
End Struct.

(** ** The law holds for all of them *)
#[export] Instance j_string_law : CodecLaw j_string.
Proof. intros x0 x H. cbn in *. by rewrite !(to_valid_id x H). Qed.
#[export] Instance j_bool_law : CodecLaw j_bool.
Proof. done. Qed.

Lemma uint_range w n :
  (n <? 2 ^ w)%N = true -> (0 <=? Z.of_N n)%Z && (Z.of_N n <? 2 ^ Z.of_N w)%Z = true.
Proof.
  intros H%N.ltb_lt. apply andb_true_iff. split; [apply Z.leb_le; lia|]. apply Z.ltb_lt.
  change 2%Z with (Z.of_N 2). rewrite <- N2Z.inj_pow. lia.
Qed.

#[export] Instance j_uint_law w : CodecLaw (j_uint w).
Proof. intros x0 x H. cbn in *. rewrite uint_range by done. by rewrite N2Z.id. Qed.
#[export] Instance j_int_law w : CodecLaw (j_int w).
Proof. intros x0 x H. cbn in *. by rewrite H. Qed.
#[export] Instance j_bytes_law `{!Base64} `{!Base64Law} : CodecLaw j_bytes.
Proof. intros x0 x _. cbn. by rewrite base64_roundtrip. Qed.

Lemma dec_all_enc {A} (c : codec A) `{!CodecLaw c} l :
  forallb (ok c) l = true ->
  dec_all (dec c (zero c)) (enc c <$> l) = Ok (back c (zero c) <$> l).
Proof.
  induction l as [|x l IH]; cbn; [done|]. intros [Hx Hl]%andb_true_iff.
  rewrite (codec_law (zero c) x Hx). cbn. by rewrite IH.
Qed.

#[export] Instance j_slice_law {A} (c : codec A) `{!CodecLaw c} : CodecLaw (j_slice c).
Proof. intros x0 l H. cbn in *. by apply dec_all_enc. Qed.

#[export] Instance j_array_law {A} n (c : codec A) `{!CodecLaw c} : CodecLaw (j_array n c).
Proof.
  intros x0 l [Hl Hn%Nat.eqb_eq]%andb_true_iff. cbn. subst n.
  rewrite take_ge by by rewrite length_fmap. rewrite (dec_all_enc c l Hl). cbn. f_equal.
  rewrite <- (length_fmap (back c (zero c)) l). apply resize_all.
Qed.

Lemma dec_counts (l : list (string * N)) :
  forallb (fun kv => valid_utf8 kv.1 && (kv.2 <? 2 ^ 64)%N) l = true ->
  dec_all (dec (j_uint 64) 0%N) ((fun kv => (to_valid kv.1, JNum (Z.of_N kv.2))) <$> l).*2 = Ok l.*2.
Proof.
  induction l as [|[k n] l IH]; [done|]. intros [[_ Hn]%andb_true_iff Hl]%andb_true_iff. rewrite !fmap_cons.
  cbn [fst snd dec_all]. change (JNum (Z.of_N n)) with (enc (j_uint 64) n).
  rewrite (codec_law (c := j_uint 64) 0%N n Hn). cbn [mbind result_bind]. by rewrite (IH Hl).
Qed.

Lemma counts_keys (l : list (string * N)) :
  forallb (fun kv => valid_utf8 kv.1 && (kv.2 <? 2 ^ 64)%N) l = true ->
  to_valid <$> ((fun kv => (to_valid kv.1, JNum (Z.of_N kv.2))) <$> l).*1 = l.*1.
Proof.
  induction l as [|[k n] l IH]; [done|]. intros [[Hk _]%andb_true_iff Hl]%andb_true_iff.
  cbn [fst] in Hk. rewrite !fmap_cons. cbn [fst]. by rewrite !(to_valid_id k Hk), IH.
Qed.

Lemma list_to_map_reverse (m : gmap string N) :
  list_to_map (reverse (merge_sort key_le (map_to_list m))) = m.
Proof.
  rewrite <- (list_to_map_to_list m) at 2. symmetry. apply list_to_map_proper.
  - apply NoDup_fst_map_to_list.
  - by rewrite reverse_Permutation, merge_sort_Permutation.
Qed.

#[export] Instance j_counts_law : CodecLaw j_counts.
Proof.
  intros x0 [m|] H; [|done]. cbn [enc dec j_counts ok default] in *. rewrite dec_counts by done.
  cbn [mbind result_bind mret result_ret]. by rewrite counts_keys, zip_fst_snd, list_to_map_reverse.
Qed.
#[export] Instance j_map_law : CodecLaw j_map.
Proof. intros x0 m H. cbn [enc dec j_map]. by rewrite (codec_law (Some x0) (Some m) H). Qed.

#[export] Instance j_ptr_law {A} (c : codec A) `{!CodecLaw c} : CodecLaw (j_ptr c).
Proof.
  intros x0 [x|]; [|done]. cbn. intros [Hx Hn]%andb_true_iff.
  pose proof (codec_law (default (zero c) x0) x Hx) as E. destruct (enc c x); try done; by rewrite E.
Qed.
#[export] Instance j_nonnil_law {A} (c : codec A) `{!CodecLaw c} : CodecLaw (j_nonnil c).
Proof.
  intros x0 x. cbn. intros [Hx Hn]%andb_true_iff.
  pose proof (codec_law x0 x Hx) as E. by destruct (enc c x).
Qed.
#[export] Instance j_interface_law {A} (write : A -> json) : CodecLaw (j_interface write).
Proof. by intros x0 [x|]. Qed.

(** What a field wrote is read back; a field that was left out changes nothing. *)
Class FieldLaw {R} (f : field R) : Prop :=
  field_law r0 r : f_ok f r = true ->
    match f_out f r with
    | Some j => f_in f r0 j = Ok (f_back f r0 r)
    | None => f_back f r0 r = r0
    end.

Lemma fld_law {R A} name (c : codec A) `{!CodecLaw c} (get : R -> A) `{!Setter get} :
  FieldLaw (fld name c get).
Proof. intros r0 r H. cbn in *. by rewrite codec_law. Qed.
Lemma fld_omit_law {R A} name (c : codec A) `{!CodecLaw c} empty (get : R -> A) `{!Setter get} :
  (forall r, r <| get := get r |> = r) -> FieldLaw (fld_omit name c empty get).
Proof. intros Hp r0 r H. cbn in *. destruct (empty (get r)); [apply Hp|]. by rewrite codec_law. Qed.

Section StructLaw.
Context {R : Type} (empty : R) (fs : list (field R)).

Lemma find_field_self f :
  NoDup (f_name <$> fs) -> f ∈ fs -> find_field fs (f_name f) = Some f.
Proof.
  unfold find_field. intros Hnd Hf.
  enough (List.find (fun g => bool_decide (f_name g = f_name f)) fs = Some f) as -> by done.
  induction fs as [|g l IH]; [by apply elem_of_nil in Hf|]. cbn in *.
  apply NoDup_cons in Hnd as [Hg Hnd]. apply elem_of_cons in Hf as [->|Hf].
  - by rewrite bool_decide_eq_true_2.
  - rewrite bool_decide_eq_false_2; [by apply IH|]. intros E. apply Hg. rewrite E.
    by apply list_elem_of_fmap_2.
Qed.

Lemma dec_members_out l r r0 :
  NoDup (f_name <$> fs) -> (forall f, f ∈ l -> f ∈ fs /\ FieldLaw f /\ f_ok f r = true) ->
  dec_members fs r0 (omap (fun f => pair (f_name f) <$> f_out f r) l) =
  Ok (foldl (fun acc f => f_back f acc r) r0 l).
Proof.
  intros Hnd. revert r0. induction l as [|f l IH]; intros r0 Hl; [done|].
  destruct (Hl f) as (Hf & Hlaw & Hok); [left|]. cbn [omap list_omap foldl].
  pose proof (Hlaw r0 r Hok) as Hr. destruct (f_out f r) as [j|]; cbn [fmap option_fmap option_map dec_members].
  - rewrite find_field_self by done. rewrite Hr. cbn. apply IH. intros g Hg. apply Hl. by right.
  - rewrite Hr. apply IH. intros g Hg. apply Hl. by right.
Qed.

Lemma j_struct_law :
  NoDup (f_name <$> fs) -> Forall FieldLaw fs -> CodecLaw (j_struct empty fs).
Proof.
  intros Hnd Hlaw r0 r Hok. cbn in *. apply dec_members_out; [done|]. intros f Hf. split; [done|].
  rewrite Forall_forall in Hlaw. split; [by apply Hlaw|].
  rewrite forallb_forall in Hok. by apply Hok, list_elem_of_In.
Qed.

(** Read into a fresh struct embedded by pointer: something must have been written. *)
Lemma dec_embedded_out r :
  NoDup (f_name <$> fs) -> Forall FieldLaw fs -> ok (j_struct empty fs) r = true ->
  members fs r <> [] ->
  dec_embedded empty fs (enc (j_struct empty fs) r) = Ok (Some (back (j_struct empty fs) empty r)).
Proof.
  intros Hnd Hlaw Hok Hne. cbn [enc j_struct dec_embedded].
  pose proof (j_struct_law Hnd Hlaw empty r Hok) as E. cbn [enc dec j_struct] in E.
  assert (existsb (fun kv => match find_field fs kv.1 with Some _ => true | None => false end)
    (members fs r) = true) as ->.
  { destruct (members fs r) as [|[k j] l] eqn:Hm; [done|]. cbn [existsb fst].
    assert ((k, j) ∈ members fs r) as Hk by (rewrite Hm; left).
    apply list_elem_of_omap in Hk as (f & Hf & Hk). destruct (f_out f r); [|done]. cbn in Hk.
    injection Hk as <- <-. by rewrite find_field_self. }
  by rewrite E.
Qed.
End StructLaw.

(** Struct codecs: distinct names by computation, fields one by one. *)
Ltac struct_law := apply j_struct_law;
  [ apply (bool_decide_unpack _); vm_compute; exact I
  | repeat (apply Forall_cons; split); [..|apply Forall_nil; exact I];
    first [apply fld_law; apply _ | apply fld_omit_law; [apply _ | by intros []]] ].

(** ** Reading back into a fresh variable *)
Class Faithful {A} (c : codec A) : Prop :=
  back_zero x : ok c x = true -> back c (zero c) x = x.

#[export] Instance j_string_faithful : Faithful j_string.
Proof. done. Qed.
#[export] Instance j_bool_faithful : Faithful j_bool.
Proof. done. Qed.
#[export] Instance j_uint_faithful w : Faithful (j_uint w).
Proof. done. Qed.
#[export] Instance j_int_faithful w : Faithful (j_int w).
Proof. done. Qed.
#[export] Instance j_bytes_faithful `{!Base64} : Faithful j_bytes.
Proof. done. Qed.
#[export] Instance j_map_faithful : Faithful j_map.
Proof. intros m _. cbn. apply (right_id_L ∅ (∪)). Qed.
#[export] Instance j_counts_faithful : Faithful j_counts.
Proof. intros [m|] _; [|done]. cbn. f_equal. apply (right_id_L ∅ (∪)). Qed.
#[export] Instance j_interface_faithful {A} (write : A -> json) : Faithful (j_interface write).
Proof. by intros [x|]. Qed.

Lemma back_slice {A} (c : codec A) `{!Faithful c} x0 l :
  ok (j_slice c) l = true -> back (j_slice c) x0 l = l.
Proof.
  cbn. induction l as [|x l IH]; [done|]. intros [Hx Hl]%andb_true_iff.
  rewrite fmap_cons, IH by done. by rewrite back_zero.
Qed.
#[export] Instance j_slice_faithful {A} (c : codec A) `{!Faithful c} : Faithful (j_slice c).
Proof. intros l. by apply back_slice. Qed.
#[export] Instance j_array_faithful {A} n (c : codec A) `{!Faithful c} : Faithful (j_array n c).
Proof. intros l [H _]%andb_true_iff. by apply (back_slice c [] l). Qed.
#[export] Instance j_ptr_faithful {A} (c : codec A) `{!Faithful c} : Faithful (j_ptr c).
Proof. intros [x|]; cbn; [|done]. intros [H _]%andb_true_iff. by rewrite (back_zero (c := c)). Qed.
#[export] Instance j_nonnil_faithful {A} (c : codec A) `{!Faithful c} : Faithful (j_nonnil c).
Proof. intros x [H _]%andb_true_iff. by apply (back_zero (c := c)). Qed.

(** Struct codecs: field by field. *)
Lemma back_omit {A} (c : codec A) `{!Faithful c} (empty : A -> bool) x :
  (empty x = true -> x = zero c) -> ok c x = true ->
  (if empty x then zero c else back c (zero c) x) = x.
Proof. intros H Hok. destruct (empty x) eqn:E; [by rewrite H|]. by apply back_zero. Qed.
Lemma empty_string_zero s : empty_string s = true -> s = "".
Proof. unfold empty_string. by rewrite bool_decide_eq_true. Qed.
Lemma empty_slice_zero {A} (l : list A) : empty_slice l = true -> l = [].
Proof. by destruct l. Qed.
Lemma empty_bool_zero b : negb b = true -> b = false.
Proof. by destruct b. Qed.
Lemma empty_N_zero n : N.eqb 0 n = true -> n = 0%N.
Proof. by intros <-%N.eqb_eq. Qed.
Lemma empty_Z_zero n : Z.eqb 0 n = true -> n = 0%Z.
Proof. by intros <-%Z.eqb_eq. Qed.

Lemma back_struct {R} (e : R) fs r0 r :
  back (j_struct e fs) r0 r = foldl (fun acc f => f_back f acc r) r0 fs.
Proof. done. Qed.
Lemma ok_struct {R} (e : R) fs r : ok (j_struct e fs) r = forallb (fun f => f_ok f r) fs.
Proof. done. Qed.
Lemma zero_struct {R} (e : R) fs : zero (j_struct e fs) = e.
Proof. done. Qed.

(** Reduces structs and their fields and nothing of the values. *)
Ltac open_struct := cbv -[back zero ok enc andb j_string j_bool j_uint j_int j_bytes j_slice j_array
  j_counts j_map j_ptr j_nonnil j_interface empty_string empty_slice negb N.eqb Z.eqb].
Ltac open_struct_in H := cbv -[back zero ok enc andb j_string j_bool j_uint j_int j_bytes j_slice j_array
  j_counts j_map j_ptr j_nonnil j_interface empty_string empty_slice negb N.eqb Z.eqb] in H.

Ltac is_empty := first [exact (empty_string_zero _) | exact (empty_slice_zero _)
  | exact (empty_bool_zero _) | exact (empty_N_zero _) | exact (empty_Z_zero _)].

Ltac faithful :=
  lazymatch goal with |- Faithful ?c => unfold c end;
  let x := fresh "x" in let H := fresh "H" in
  intros x H; rewrite back_struct, zero_struct; rewrite ok_struct in H; destruct x;
  open_struct; open_struct_in H; repeat rewrite andb_true_iff in H; destruct_and? H;
  f_equal; first
  [ apply back_zero; assumption
  | lazymatch goal with |- (if ?e ?y then zero ?c else _) = _ => apply (back_omit c e y) end;
    [is_empty|assumption] ].

(** What a faithful codec wrote is read back from scratch. *)
Lemma decode_encode {A} (c : codec A) `{!CodecLaw c} `{!Faithful c} x :
  ok c x = true -> dec c (zero c) (enc c x) = Ok x.
Proof. intros H. by rewrite codec_law, back_zero. Qed.

(** ** One bad member spoils the whole *)
Definition unreadable {A} (c : codec A) (j : json) : Prop := forall x0, is_ok (dec c x0 j) = false.

Lemma bind_not_ok {A B} (r : result A) (f : A -> result B) :
  is_ok r = false -> is_ok (r ≫= f) = false.
Proof. by destruct r. Qed.

Lemma dec_all_unreadable {A} (d : json -> result A) l j :
  j ∈ l -> is_ok (d j) = false -> is_ok (dec_all d l) = false.
Proof.
  intros Hj Hd. induction Hj as [j l|j j' l Hj IH]; cbn; [by apply bind_not_ok|].
  destruct (d j'); [|done]. cbn. by apply bind_not_ok, IH.
Qed.

Lemma slice_unreadable {A} (c : codec A) (l : list A) x :
  x ∈ l -> unreadable c (enc c x) -> unreadable (j_slice c) (enc (j_slice c) l).
Proof.
  intros Hx Hu x0. cbn. apply (dec_all_unreadable _ _ (enc c x)); [|apply Hu].
  by apply list_elem_of_fmap_2.
Qed.

Lemma ptr_unreadable {A} (c : codec A) (x : A) :
  enc c x <> JNull -> unreadable c (enc c x) -> unreadable (j_ptr c) (enc (j_ptr c) (Some x)).
Proof.
  intros Hn Hu x0. cbn. pose proof (Hu (default (zero c) x0)) as H.
  destruct (enc c x); try done; by apply bind_not_ok.
Qed.

Lemma interface_unreadable {A} (write : A -> json) (x : A) :
  write x <> JNull -> unreadable (j_interface write) (enc (j_interface write) (Some x)).
Proof. intros Hn x0. cbn. by destruct (write x). Qed.

Section StructUnreadable.
Context {R : Type} (empty : R) (fs : list (field R)).

Lemma dec_members_unreadable l k v f r :
  (k, v) ∈ l -> find_field fs k = Some f -> (forall r, is_ok (f_in f r v) = false) ->
  is_ok (dec_members fs r l) = false.
Proof.
  intros Hk Hf Hu. revert r. induction l as [|[k' v'] l IH]; intros r; [by apply elem_of_nil in Hk|].
  apply elem_of_cons in Hk as [[= <- <-]|Hk]; cbn.
  - rewrite Hf. by apply bind_not_ok.
  - destruct (find_field fs k') as [g|]; [|by apply IH]. destruct (f_in g r v'); [by apply IH|done].
Qed.

Lemma struct_unreadable {A} name (c : codec A) (get : R -> A) `{!Setter get} r :
  NoDup (f_name <$> fs) -> fld name c get ∈ fs -> unreadable c (enc c (get r)) ->
  unreadable (j_struct empty fs) (enc (j_struct empty fs) r).
Proof.
  intros Hnd Hf Hu r0. cbn. apply (dec_members_unreadable _ name (enc c (get r)) (fld name c get)).
  - apply list_elem_of_omap. by exists (fld name c get).
  - by apply (find_field_self fs (fld name c get)).
  - intros r'. cbn. by apply bind_not_ok, Hu.
Qed.
End StructUnreadable.
