(* ===== verification/Ifaces.v ===== *)
(** * Interfaces to code outside the repository

    The custom modules call the Cosmos SDK (addresses, [x/bank],
    [x/feegrant]), the Go standard library's cryptography and its URL parser.
    Each is a type class whose fields are the operations the modules call;
    a second class states the documented behaviour the theorems rely on.
    The instances at the end are small executable implementations used to
    evaluate the model on concrete inputs. *)

From S2P Require Import Prelude Bytes.

(** [sdk.Coins] as a list of (denomination, amount); the chain only moves
    [uvibe]. *)
Definition Coins : Type := list (string * N).
Definition uvibe (n : N) : Coins := [("uvibe", n)].

(** ** Addresses ([sdk.AccAddress], [authtypes.NewModuleAddress]) *)
Class Addresses := {
  AccAddressFromBech32 : string -> result string;
  AccAddress_String : string -> string;
  NewModuleAddress : string -> string;
}.

(** ** [x/bank] *)
Class BankKeeper (B : Type) := {
  GetBalance : B -> string -> N;
  GetSupply : B -> N;
  SendCoins : string -> string -> Coins -> M B unit;
  SendCoinsFromAccountToModule : string -> string -> Coins -> M B unit;
  SendCoinsFromModuleToAccount : string -> string -> Coins -> M B unit;
  MintCoins : string -> Coins -> M B unit;
  BurnCoins : string -> Coins -> M B unit;
}.

(** Moving [n] uvibe from [a] to [b] in a balance sheet. *)
Definition moved (a b : string) (n : N) (bal : string -> N) : string -> N :=
  fun x =>
    let after_sub := if decide (x = a) then (bal x - n)%N else bal x in
    if decide (x = b) then (after_sub + n)%N else after_sub.

(** What a successful bank call does to the uvibe balances and supply. *)
Class BankLaws (B : Type) `{Addresses} `{!BankKeeper B} := {
  send_ok a b n s u s' :
    SendCoins a b (uvibe n) s = (Ok u, s') ->
    (n <= GetBalance s a)%N /\ GetSupply s' = GetSupply s /\
    forall x, GetBalance s' x = moved a b n (GetBalance s) x;
  to_module_ok a m n s u s' :
    SendCoinsFromAccountToModule a m (uvibe n) s = (Ok u, s') ->
    (n <= GetBalance s a)%N /\ GetSupply s' = GetSupply s /\
    forall x, GetBalance s' x = moved a (NewModuleAddress m) n (GetBalance s) x;
  from_module_ok m b n s u s' :
    SendCoinsFromModuleToAccount m b (uvibe n) s = (Ok u, s') ->
    (n <= GetBalance s (NewModuleAddress m))%N /\ GetSupply s' = GetSupply s /\
    forall x, GetBalance s' x = moved (NewModuleAddress m) b n (GetBalance s) x;
  mint_ok m n s u s' :
    MintCoins m (uvibe n) s = (Ok u, s') ->
    GetSupply s' = (GetSupply s + n)%N /\
    forall x, GetBalance s' x =
      if decide (x = NewModuleAddress m) then (GetBalance s x + n)%N else GetBalance s x;
  burn_ok m n s u s' :
    BurnCoins m (uvibe n) s = (Ok u, s') ->
    (n <= GetBalance s (NewModuleAddress m))%N /\ (n <= GetSupply s)%N /\
    GetSupply s' = (GetSupply s - n)%N /\
    forall x, GetBalance s' x =
      if decide (x = NewModuleAddress m) then (GetBalance s x - n)%N else GetBalance s x;
}.

(** Balances after successful bank calls, from the laws. *)
Ltac bank_ok :=
  repeat match goal with
  | H : SendCoins _ _ (uvibe _) _ = (Ok _, _) |- _ => apply send_ok in H as (? & ? & H)
  | H : SendCoinsFromAccountToModule _ _ (uvibe _) _ = (Ok _, _) |- _ =>
      apply to_module_ok in H as (? & ? & H)
  | H : SendCoinsFromModuleToAccount _ _ (uvibe _) _ = (Ok _, _) |- _ =>
      apply from_module_ok in H as (? & ? & H)
  | H : MintCoins _ (uvibe _) _ = (Ok _, _) |- _ => apply mint_ok in H as (? & H)
  | H : BurnCoins _ (uvibe _) _ = (Ok _, _) |- _ => apply burn_ok in H as (? & ? & ? & H)
  end.
Ltac balances :=
  unfold moved in *;
  repeat first
    [ match goal with
      | H : forall x, GetBalance ?s x = _ |- context [GetBalance ?s _] => rewrite H
      | H : forall x, GetBalance ?s x = _, H2 : context [GetBalance ?s _] |- _ => rewrite H in H2
      end
    | case_decide ];
  try congruence; try lia.

(** A larger state that contains a bank is a bank, with the same laws. *)
Section BankLens.
Context {S B : Type} {ADDR : Addresses} {BANK : BankKeeper B}.
Variables (get_bank : S -> B) (set_bank : B -> S -> S).

Definition via_bank {A} (m : M B A) : M S A :=
  fun s => match m (get_bank s) with (r, b) => (r, set_bank b s) end.

Definition lens_bank : BankKeeper S := {|
  GetBalance s := GetBalance (get_bank s);
  GetSupply s := GetSupply (get_bank s);
  SendCoins a b c := via_bank (SendCoins a b c);
  SendCoinsFromAccountToModule a m c := via_bank (SendCoinsFromAccountToModule a m c);
  SendCoinsFromModuleToAccount m b c := via_bank (SendCoinsFromModuleToAccount m b c);
  MintCoins m c := via_bank (MintCoins m c);
  BurnCoins m c := via_bank (BurnCoins m c);
|}.

Lemma via_bank_ok {A} (m : M B A) s a s' :
  via_bank m s = (Ok a, s') -> exists b, m (get_bank s) = (Ok a, b) /\ s' = set_bank b s.
Proof. unfold via_bank. destruct (m (get_bank s)); naive_solver. Qed.

Lemma lens_bank_laws {LAWS : BankLaws B} :
  (forall b s, get_bank (set_bank b s) = b) -> @BankLaws S ADDR lens_bank.
Proof.
  intros Hgs. constructor; cbn [SendCoins SendCoinsFromAccountToModule
    SendCoinsFromModuleToAccount MintCoins BurnCoins GetBalance GetSupply lens_bank];
    intros * (b' & Hb & ->)%via_bank_ok; rewrite Hgs.
  - by eapply send_ok.
  - by eapply to_module_ok.
  - by eapply from_module_ok.
  - by eapply mint_ok.
  - by eapply burn_ok.
Qed.
End BankLens.

(** ** [x/feegrant] *)

(** The allowances the org module grants: [feegrant.NewAllowedMsgAllowance] of
    an unlimited [BasicAllowance], and [feegrant.PeriodicAllowance]; times are
    in nanoseconds. *)
Inductive FeeAllowance :=
  | AllowedMsgAllowance (allowed : list string)
  | PeriodicAllowance (spend_limit : Coins) (expiration : Z) (period : Z)
      (period_spend_limit period_can_spend : Coins).

Class FeegrantKeeper (F : Type) := {
  GrantAllowance : string -> string -> FeeAllowance -> M F unit;
}.

(** ** Cryptography ([crypto/sha256], [crypto/ed25519]) *)
Class Crypto := {
  sha256 : string -> string;
  ed25519_Verify : string -> string -> string -> bool;
}.

(** The sizes: a SHA-256 digest has 32 bytes, and a signature that verifies has
    64. *)
Class CryptoLaws {CRYPTO : Crypto} : Prop := {
  sha256_size x : len (sha256 x) = 32%N;
  verify_size pk msg sig : ed25519_Verify pk msg sig = true -> len sig = 64%N;
}.

(** ** [net/url]: the scheme and the host of a parsed URL *)
Class UrlParser := {
  url_Parse : string -> option (string * string);
}.

(** ** Block context *)
Record BlockCtx := mkCtx { BlockHeight : Z; BlockTime : Z }.

(** ** Executable instances *)

Module Simple.
(** A bank holding uvibe only. *)
Record bank := mkBank { bal : gmap string N; supply : N }.

Definition balance (b : bank) (a : string) : N := default 0%N (bal b !! a).

Definition amount (c : Coins) : N :=
  match c with [("uvibe", n)] => n | _ => 0%N end.

Definition transfer (a b : string) (c : Coins) : M bank unit := fun s =>
  let n := amount c in
  if N.ltb (balance s a) n then (Err (Errorf "insufficient funds"), s)
  else
    let bal1 := <[a := (balance s a - n)%N]> (bal s) in
    let bal2 := <[b := (default 0%N (bal1 !! b) + n)%N]> bal1 in
    (Ok tt, mkBank bal2 (supply s)).

#[export] Instance addresses : Addresses := {|
  AccAddressFromBech32 s := if bool_decide (s = "") then Err (Errorf "empty address") else Ok s;
  AccAddress_String s := s;
  NewModuleAddress s := "module:" +:+ s;
|}.

#[export] Instance bank_keeper : BankKeeper bank := {|
  GetBalance := balance;
  GetSupply := supply;
  SendCoins := transfer;
  SendCoinsFromAccountToModule a m c := transfer a (NewModuleAddress m) c;
  SendCoinsFromModuleToAccount m b c := transfer (NewModuleAddress m) b c;
  MintCoins m c := fun s =>
    (Ok tt, mkBank (<[NewModuleAddress m := (balance s (NewModuleAddress m) + amount c)%N]> (bal s))
              (supply s + amount c));
  BurnCoins m c := fun s =>
    if N.ltb (balance s (NewModuleAddress m)) (amount c) || N.ltb (supply s) (amount c)
    then (Err (Errorf "insufficient funds"), s)
    else (Ok tt, mkBank (<[NewModuleAddress m := (balance s (NewModuleAddress m) - amount c)%N]> (bal s))
              (supply s - amount c));
|}.

(** The grants made so far, most recent first. *)
#[export] Instance feegrant_keeper : FeegrantKeeper (list (string * string * FeeAllowance)) := {|
  GrantAllowance g e a := fun s => (Ok tt, (g, e, a) :: s);
|}.

(** A toy hash and signature scheme: the hash is the identity and a message is
    signed by appending the key to it. *)
#[export] Instance crypto : Crypto := {|
  sha256 s := s;
  ed25519_Verify pk msg sig := bool_decide (sig = "sig:" +:+ pk +:+ ":" +:+ msg);
|}.

#[export] Instance url_parser : UrlParser := {|
  url_Parse s := if String.prefix "https://" s then Some ("https", "host") else None;
|}.

Lemma transfer_moved a b n s u s' :
  transfer a b (uvibe n) s = (Ok u, s') ->
  (n <= balance s a)%N /\ supply s' = supply s /\
  forall x, balance s' x = moved a b n (balance s) x.
Proof.
  unfold transfer. simpl. destruct (N.ltb _ _) eqn:E; [done|].
  apply N.ltb_ge in E. intros [= _ <-]. split; [done|]. split; [done|].
  intros x. unfold moved. unfold balance at 1. simpl.
  rewrite !lookup_insert. repeat case_decide; subst; unfold balance; try done; lia.
Qed.

#[export] Instance bank_laws : BankLaws bank.
Proof.
  constructor.
  - intros *. apply transfer_moved.
  - intros *. apply transfer_moved.
  - intros *. apply transfer_moved.
  - simpl. intros m n s u s' [= _ <-]. split; [done|].
    intros x. unfold balance. simpl. rewrite lookup_insert.
    repeat case_decide; subst; done.
  - simpl. intros m n s u s'. destruct (_ || _) eqn:E; [done|]. gok.
    intros [= _ <-]. split; [done|]. split; [done|]. split; [done|].
    intros x. unfold balance. simpl. rewrite lookup_insert.
    repeat case_decide; subst; done.
Qed.
End Simple.
