(* ===== verification/Org.v ===== *)
(** * x/org: organisations, members, serving keys, slots

    Models x/org/types (keys.go, msgs.go, params.go, slot.go, the records of
    state.pb.go) and x/org/keeper (keeper.go, aggregates.go,
    serving_feegrant.go, msg_server.go).  The module's store maps the real key
    bytes to decoded records ([org_val]); the bank and the feegrant keeper are
    the parameters of [Ifaces].  Handlers of the message server carry the
    prefix [MsgServer_]. *)

From S2P Require Import Prelude Bytes Store Ifaces.
From Stdlib Require Import QArith Ascii.
Local Open Scope string_scope.
Local Open Scope N_scope.

(** [types.Org] (x/org/types/keys.go). *)
Record Org := mkOrg {
  o_OrgID : string; o_Slot : N; o_Leader : string; o_Domain : string; o_Name : string;
  o_Description : string; o_TechStack : string; o_FocusAreas : string; o_CreatedAt : N;
  o_RenewalHeight : N; o_StorageQuota : N; o_RetrievalBudget : N; o_Status : Z;
  o_HubServingAddress : string; o_HubEndpoints : list string; o_HubResponsePubkey : string;
  o_LeaderWalletAddress : string; o_AccountAddress : string;
}.
#[export] Instance Org_fields : Fields Org :=
  fun r => mkOrg (o_OrgID r) (o_Slot r) (o_Leader r) (o_Domain r) (o_Name r)
    (o_Description r) (o_TechStack r) (o_FocusAreas r) (o_CreatedAt r) (o_RenewalHeight r)
    (o_StorageQuota r) (o_RetrievalBudget r) (o_Status r) (o_HubServingAddress r)
    (o_HubEndpoints r) (o_HubResponsePubkey r) (o_LeaderWalletAddress r)
    (o_AccountAddress r).

(** [types.MemberRecord]. *)
Record MemberRecord := mkMember {
  m_OrgID : string; m_Pubkey : string; m_Role : string; m_X25519Pubkey : string;
  m_CanContribute : bool; m_CanModerate : bool;
}.
#[export] Instance MemberRecord_fields : Fields MemberRecord :=
  fun r => mkMember (m_OrgID r) (m_Pubkey r) (m_Role r) (m_X25519Pubkey r)
    (m_CanContribute r) (m_CanModerate r).

(** [types.OrgConfig]. *)
Record OrgConfig := mkOrgConfig {
  c_OrgID : string; c_ServeReceiptRequired : bool; c_ContestStakeVibe : N;
  c_VocabHash : string; c_EmbeddingModelID : string; c_MinContributionsPerEpoch : N;
}.

(** The protobuf records kept in the store (x/org/types/state.pb.go). *)
Record StoredOrg := mkStoredOrg {
  so_OrgId : string; so_Leader : string; so_CreatedAt : N; so_RenewalHeight : N;
  so_StorageQuota : N; so_RetrievalBudget : N; so_Status : Z; so_Domain : string;
  so_TotalCommittedMemories : N; so_TotalActiveMembers : N; so_TotalUpheldReports : N;
  so_LastActivityEpoch : N; so_HubServingAddress : string; so_LeaderWalletAddress : string;
  so_Slot : N; so_AccountAddress : string; so_HubEndpoints : list string;
  so_HubResponsePubkey : string; so_Description : string; so_TechStack : string;
  so_FocusAreas : string; so_Name : string;
}.
#[export] Instance StoredOrg_fields : Fields StoredOrg :=
  fun r => mkStoredOrg (so_OrgId r) (so_Leader r) (so_CreatedAt r) (so_RenewalHeight r)
    (so_StorageQuota r) (so_RetrievalBudget r) (so_Status r) (so_Domain r)
    (so_TotalCommittedMemories r) (so_TotalActiveMembers r) (so_TotalUpheldReports r)
    (so_LastActivityEpoch r) (so_HubServingAddress r) (so_LeaderWalletAddress r) (so_Slot r)
    (so_AccountAddress r) (so_HubEndpoints r) (so_HubResponsePubkey r) (so_Description r)
    (so_TechStack r) (so_FocusAreas r) (so_Name r).

Record StoredMemberRecord := mkStoredMember {
  sm_OrgId : string; sm_Pubkey : string; sm_Role : string; sm_X25519Pubkey : string;
  sm_CanContribute : bool; sm_CanModerate : bool;
}.
#[export] Instance StoredMemberRecord_fields : Fields StoredMemberRecord :=
  fun r => mkStoredMember (sm_OrgId r) (sm_Pubkey r) (sm_Role r) (sm_X25519Pubkey r)
    (sm_CanContribute r) (sm_CanModerate r).

Record StoredOrgConfig := mkStoredOrgConfig {
  sc_OrgId : string; sc_ServeReceiptRequired : bool; sc_ContestStakeVibe : N;
  sc_VocabHash : string; sc_EmbeddingModelId : string; sc_MinContributionsPerEpoch : N;
}.

(** [types.Params]. *)
Record Params := mkParams {
  p_MinRegistrationFee : N; p_AnnualRenewalFee : N; p_DefaultStorageQuota : N;
  p_DefaultRetrievalBudget : N; p_GracePeriodEpochs : N; p_BurnPriceDecayEpochs : N;
  p_BaseBurnPrice : N; p_BurnPriceIncreasePercent : N; p_SlotCap : N;
}.
#[export] Instance Params_fields : Fields Params :=
  fun r => mkParams (p_MinRegistrationFee r) (p_AnnualRenewalFee r)
      (p_DefaultStorageQuota r) (p_DefaultRetrievalBudget r) (p_GracePeriodEpochs r)
      (p_BurnPriceDecayEpochs r) (p_BaseBurnPrice r) (p_BurnPriceIncreasePercent r)
      (p_SlotCap r).

Record MsgRegisterOrg := mkMsgRegisterOrg {
  mr_Signer : string; mr_Leader : string; mr_StorageQuota : N; mr_RetrievalBudget : N;
  mr_Domain : string; mr_HubServingKey : string; mr_LeaderWallet : string;
  mr_Description : string; mr_TechStack : string; mr_FocusAreas : string; mr_Name : string;
}.

Record MsgSetServingKey := mkMsgSetServingKey {
  mk_Signer : string; mk_OrgId : string; mk_NewServingKey : string;
}.

Record MsgSetServingInfo := mkMsgSetServingInfo {
  mi_Signer : string; mi_OrgId : string; mi_HubEndpoints : list string;
  mi_HubResponsePubkey : string;
}.

Record MsgAddMember := mkMsgAddMember {
  ma_Signer : string; ma_OrgId : string; ma_Pubkey : string; ma_Role : string;
  ma_X25519Pubkey : string; ma_CanContribute : bool; ma_CanModerate : bool;
}.

Record MsgRemoveMember := mkMsgRemoveMember {
  md_Signer : string; md_OrgId : string; md_Pubkey : string;
}.

Record MsgUpdateParams := mkMsgUpdateParams {
  mu_Authority : string; mu_Params : option Params;
}.

Record MsgSetOrgConfig := mkMsgSetOrgConfig {
  mc_Signer : string; mc_OrgId : string; mc_ServeReceiptRequired : bool;
  mc_MinContributionsPerEpoch : N; mc_ContestStakeVibe : N; mc_VocabHash : string;
  mc_EmbeddingModelId : string;
}.

Record MsgGrantTrialAllowance := mkMsgGrantTrialAllowance {
  mg_Signer : string; mg_OrgId : string; mg_Grantee : string; mg_DailySubmissions : N;
  mg_TrialDays : N;
}.

Record MsgSetMemberCapabilities := mkMsgSetMemberCapabilities {
  ms_Signer : string; ms_OrgId : string; ms_Pubkey : string; ms_CanContribute : bool;
  ms_CanModerate : bool;
}.

Record MsgTransferLeadership := mkMsgTransferLeadership {
  mt_Signer : string; mt_OrgId : string; mt_NewLeader : string;
  mt_NewLeaderWallet : string;
}.

Record MsgCloseOrg := mkMsgCloseOrg {
  mx_Signer : string; mx_OrgId : string;
}.

#[export] Instance Params_eq_dec : EqDecision Params.
Proof. solve_decision. Defined.

(** ** Errors (types/errors.go) *)
Definition ErrInvalidOrgID := Sentinel "org" "invalid org ID".
Definition ErrInvalidLeader := Sentinel "org" "invalid leader pubkey".
Definition ErrInvalidDomain := Sentinel "org" "invalid domain".
Definition ErrInvalidName := Sentinel "org" "invalid name".
Definition ErrInvalidDescription := Sentinel "org" "invalid description".
Definition ErrInvalidTechStack := Sentinel "org" "invalid tech stack".
Definition ErrInvalidFocusAreas := Sentinel "org" "invalid focus areas".
Definition ErrOrgAlreadyExists := Sentinel "org" "org already exists".
Definition ErrLeaderAlreadyOwnsOrg := Sentinel "org" "leader already owns an org".
Definition ErrOrgNotFound := Sentinel "org" "org not found".
Definition ErrMemberNotFound := Sentinel "org" "member not found".
Definition ErrMemberExists := Sentinel "org" "member already exists".
Definition ErrCannotRemoveLeader := Sentinel "org" "cannot remove org leader".
Definition ErrNotLeader := Sentinel "org" "caller is not the org leader".
Definition ErrInvalidRole := Sentinel "org" "invalid role".
Definition ErrInvalidHubEndpoints := Sentinel "org" "invalid hub endpoints".
Definition ErrInvalidHubResponsePubkey := Sentinel "org" "invalid hub response pubkey".
Definition ErrOrgNotActive := Sentinel "org" "org is not active".
Definition ErrInsufficientFund := Sentinel "org" "insufficient funds for registration".
Definition ErrSlotCapReached := Sentinel "org" "org slot cap reached".
Definition ErrUnauthorized := Sentinel "org" "unauthorized".
Definition ErrFeegrantUnavailable := Sentinel "org" "feegrant module is not configured".

(** ** Status values and parameters *)
Definition OrgStatus_ACTIVE : Z := 0%Z.
Definition OrgStatus_DORMANT : Z := 1%Z.
Definition OrgStatus_SUSPENDED : Z := 2%Z.
Definition OrgStatus_CLOSED : Z := 3%Z.

Definition ModuleName := "org".

Definition DefaultParams : Params := {|
  p_MinRegistrationFee := 10000000;
  p_AnnualRenewalFee := 5000000;
  p_DefaultStorageQuota := 1073741824;
  p_DefaultRetrievalBudget := 10000;
  p_GracePeriodEpochs := 30;
  p_BurnPriceDecayEpochs := 10;
  p_BaseBurnPrice := 10000000;
  p_BurnPriceIncreasePercent := 20;
  p_SlotCap := 32;
|}.

(** The Go zero values [Params{}], [StoredOrg{}] and [StoredMemberRecord{}]. *)
Definition zeroParams : Params := mkParams 0 0 0 0 0 0 0 0 0.
Definition zeroStoredOrg : StoredOrg :=
  mkStoredOrg "" "" 0 0 0 0 0%Z "" 0 0 0 0 "" "" 0 "" [] "" "" "" "" "".
Definition zeroStoredMember : StoredMemberRecord := mkStoredMember "" "" "" "" false false.

Definition Params_Validate (p : Params) : result unit :=
  err_if (p_SlotCap p =? 0) (Errorf "slot_cap must be greater than 0").

(** ** Org values *)
Definition NewOrg (orgID leader domain description techStack focusAreas : string)
    (storageQuota retrievalBudget : N) : Org := {|
  o_OrgID := orgID; o_Slot := 0; o_Leader := leader; o_Domain := domain; o_Name := "";
  o_Description := description; o_TechStack := techStack; o_FocusAreas := focusAreas;
  o_CreatedAt := 0; o_RenewalHeight := 0; o_StorageQuota := storageQuota;
  o_RetrievalBudget := retrievalBudget; o_Status := OrgStatus_ACTIVE;
  o_HubServingAddress := ""; o_HubEndpoints := []; o_HubResponsePubkey := "";
  o_LeaderWalletAddress := ""; o_AccountAddress := "";
|}.

Definition containsASCIIControl (s : string) : bool :=
  negb (all_chars (fun c => negb (N_of_ascii c <? 32)) s).

(** The characters a domain may contain.  Go ranges over runes; a byte above
    0x7f starts a rune outside the ASCII set below, so the byte-wise test is
    the same. *)
Definition domain_char (c : ascii) : bool :=
  let n := N_of_ascii c in
  ((97 <=? n) && (n <=? 122)) || ((65 <=? n) && (n <=? 90)) || ((48 <=? n) && (n <=? 57)) ||
  (n =? 32) || (n =? 44) || (n =? 46) || (n =? 45) || (n =? 95) || (n =? 47) || (n =? 43) ||
  (n =? 38).

Definition Org_Validate (o : Org) : result unit :=
  err_if (bool_decide (o_OrgID o = "")) ErrInvalidOrgID ;;
  err_if (bool_decide (o_Leader o = "")) ErrInvalidLeader ;;
  err_if ((500 <? len (o_Description o)) || containsASCIIControl (o_Description o))
    ErrInvalidDescription ;;
  err_if ((200 <? len (o_TechStack o)) || containsASCIIControl (o_TechStack o))
    ErrInvalidTechStack ;;
  err_if ((200 <? len (o_FocusAreas o)) || containsASCIIControl (o_FocusAreas o))
    ErrInvalidFocusAreas ;;
  err_if ((100 <? len (o_Name o)) || containsASCIIControl (o_Name o)) ErrInvalidName ;;
  err_if (128 <? len (o_Domain o)) ErrInvalidDomain ;;
  err_if (negb (all_chars domain_char (o_Domain o))) ErrInvalidDomain.

Definition IsActive (o : Org) : bool := bool_decide (o_Status o = OrgStatus_ACTIVE).

Definition NewMemberRecord (orgID pubkey role x25519Pubkey : string) : MemberRecord :=
  mkMember orgID pubkey role x25519Pubkey false false.

(** ** Identifiers and addresses (types/slot.go) *)
Definition FormatOrgID (slot : N) : string := "wevibe-org-" +:+ FormatUint slot.

Definition OrgAccountAddress `{Addresses} (orgID : string) : string :=
  NewModuleAddress ("orgacct/" +:+ orgID).

(** ** The store *)
Inductive org_val :=
  | VParams (p : Params)
  | VSlotRegistry (next_slot : N)
  | VOrg (o : StoredOrg)
  | VMember (m : StoredMemberRecord)
  | VConfig (c : StoredOrgConfig)
  | VRaw (b : string).

Definition orgKey (orgID : string) : string := "org/" +:+ orgID.
Definition memberKey (orgID memberPubkey : string) : string :=
  "member/" +:+ orgID +:+ "/" +:+ memberPubkey.
Definition slotRegistryKey : string := "slotreg/".
Definition orgConfigKey (orgID : string) : string := "orgconfig/" +:+ orgID.
Definition ParamsKey : string := "params".
Definition memberPrefix (orgID : string) : string := "member/" +:+ orgID +:+ "/".

(** [proto.Unmarshal] into a record type: absent bytes decode to the zero
    value, bytes of another record are reported as undecodable. *)
Definition unmarshalOrg (v : option org_val) : result StoredOrg :=
  match v with
  | None => Ok zeroStoredOrg
  | Some (VOrg o) => Ok o
  | Some _ => Err (Errorf "unmarshal org")
  end.

Definition unmarshalMember (v : option org_val) : result StoredMemberRecord :=
  match v with
  | None => Ok zeroStoredMember
  | Some (VMember m) => Ok m
  | Some _ => Err (Errorf "unmarshal member")
  end.

Definition orgToStored (org : Org) : StoredOrg := {|
  so_OrgId := o_OrgID org; so_Leader := o_Leader org; so_CreatedAt := o_CreatedAt org;
  so_RenewalHeight := o_RenewalHeight org; so_StorageQuota := o_StorageQuota org;
  so_RetrievalBudget := o_RetrievalBudget org; so_Status := o_Status org;
  so_Domain := o_Domain org; so_TotalCommittedMemories := 0; so_TotalActiveMembers := 0;
  so_TotalUpheldReports := 0; so_LastActivityEpoch := 0;
  so_HubServingAddress := o_HubServingAddress org;
  so_LeaderWalletAddress := o_LeaderWalletAddress org; so_Slot := o_Slot org;
  so_AccountAddress := o_AccountAddress org; so_HubEndpoints := o_HubEndpoints org;
  so_HubResponsePubkey := o_HubResponsePubkey org; so_Description := o_Description org;
  so_TechStack := o_TechStack org; so_FocusAreas := o_FocusAreas org; so_Name := o_Name org;
|}.

Definition storedToOrg (stored : StoredOrg) : Org := {|
  o_OrgID := so_OrgId stored; o_Slot := so_Slot stored; o_Leader := so_Leader stored;
  o_Domain := so_Domain stored; o_Name := so_Name stored;
  o_Description := so_Description stored; o_TechStack := so_TechStack stored;
  o_FocusAreas := so_FocusAreas stored; o_CreatedAt := so_CreatedAt stored;
  o_RenewalHeight := so_RenewalHeight stored; o_StorageQuota := so_StorageQuota stored;
  o_RetrievalBudget := so_RetrievalBudget stored; o_Status := so_Status stored;
  o_HubServingAddress := so_HubServingAddress stored;
  o_HubEndpoints := so_HubEndpoints stored;
  o_HubResponsePubkey := so_HubResponsePubkey stored;
  o_LeaderWalletAddress := so_LeaderWalletAddress stored;
  o_AccountAddress := so_AccountAddress stored;
|}.

Definition memberToStored (m : MemberRecord) : StoredMemberRecord :=
  mkStoredMember (m_OrgID m) (m_Pubkey m) (m_Role m) (m_X25519Pubkey m)
    (m_CanContribute m) (m_CanModerate m).

Definition storedToMember (m : StoredMemberRecord) : MemberRecord :=
  mkMember (sm_OrgId m) (sm_Pubkey m) (sm_Role m) (sm_X25519Pubkey m)
    (sm_CanContribute m) (sm_CanModerate m).

Definition orgConfigToStored (c : OrgConfig) : StoredOrgConfig :=
  mkStoredOrgConfig (c_OrgID c) (c_ServeReceiptRequired c) (c_ContestStakeVibe c)
    (c_VocabHash c) (c_EmbeddingModelID c) (c_MinContributionsPerEpoch c).

Definition storedToOrgConfig (c : StoredOrgConfig) : OrgConfig :=
  mkOrgConfig (sc_OrgId c) (sc_ServeReceiptRequired c) (sc_ContestStakeVibe c)
    (sc_VocabHash c) (sc_EmbeddingModelId c) (sc_MinContributionsPerEpoch c).

(** ** Reads of the keeper *)
Section Reads.
Implicit Types m : gmap string org_val.

Definition GetParams m : result Params :=
  match m !! ParamsKey with
  | None => Ok DefaultParams
  | Some (VParams p) => Ok p
  | Some _ => Err (Errorf "unmarshal params")
  end.

Definition GetNextSlot m : result N :=
  match m !! slotRegistryKey with
  | None => Ok 0
  | Some (VSlotRegistry n) => Ok n
  | Some _ => Err (Errorf "unmarshal slot registry")
  end.

Definition GetOrg m (orgID : string) : result Org :=
  match m !! orgKey orgID with
  | None => Err ErrOrgNotFound
  | Some v => stored ← unmarshalOrg (Some v); mret (storedToOrg stored)
  end.

Definition HasOrg m (orgID : string) : bool := bool_decide (is_Some (m !! orgKey orgID)).

Definition GetMember m (orgID memberPubkey : string) : result MemberRecord :=
  match m !! memberKey orgID memberPubkey with
  | None => Err ErrMemberNotFound
  | Some v => stored ← unmarshalMember (Some v); mret (storedToMember stored)
  end.

(** Iterations skip the values they cannot decode. *)
Definition orgs_of (l : list (string * org_val)) : list Org :=
  omap (fun kv => match kv.2 with VOrg o => Some (storedToOrg o) | _ => None end) l.

Definition members_of (l : list (string * org_val)) : list MemberRecord :=
  omap (fun kv => match kv.2 with VMember x => Some (storedToMember x) | _ => None end) l.

Definition GetAllMembers m (orgID : string) : list MemberRecord :=
  members_of (prefix_iter (memberPrefix orgID) m).

Definition GetAllOrgs m : list Org := orgs_of (prefix_iter "org/" m).

Definition IsMember m (orgID memberPubkey : string) : bool :=
  bool_decide (is_Some (m !! memberKey orgID memberPubkey)).

Definition IsLeader m (orgID memberPubkey : string) : result bool :=
  match GetMember m orgID memberPubkey with
  | Err e => if errors_is e ErrMemberNotFound then Ok false else Err e
  | Ok member => Ok (bool_decide (m_Role member = "leader"))
  end.

Definition IsModerator m (orgID memberPubkey : string) : result bool :=
  match GetMember m orgID memberPubkey with
  | Err e => if errors_is e ErrMemberNotFound then Ok false else Err e
  | Ok member => Ok (m_CanModerate member)
  end.

Definition GetServingAddress m (orgID : string) : result string :=
  org ← GetOrg m orgID; mret (o_HubServingAddress org).

Definition GetLeaderWallet m (orgID : string) : result string :=
  org ← GetOrg m orgID; mret (o_LeaderWalletAddress org).

(** [big.Rat] arithmetic on [Q]; [Num] and [Denom] are those of the reduced
    fraction, [big.Int.Div] by a positive denominator is [Z.div]. *)
Definition price_multiplier (increasePercent slot : N) : Q :=
  let inc := Qred (int64_of_u64 increasePercent # 100) in
  N.iter slot (fun q => Qred (q + inc)) 1%Q.

Definition computeAscendingPrice m (slot : N) : N :=
  match GetParams m with
  | Err _ => p_BaseBurnPrice zeroParams
  | Ok params =>
      let multiplier := price_multiplier (p_BurnPriceIncreasePercent params) slot in
      let result := (int64_of_u64 (p_BaseBurnPrice params) * Qnum multiplier
                     / Zpos (Qden multiplier))%Z in
      if (result <=? 0)%Z then p_BaseBurnPrice params
      else if (Z.of_N two64 <=? result)%Z then p_BaseBurnPrice params
      else Z.to_N result
  end.

Definition ComputeSlotPrice m (slot : N) : N := computeAscendingPrice m slot.

Definition GetOrgConfig m (orgID : string) : result OrgConfig :=
  match m !! orgConfigKey orgID with
  | None => Ok (mkOrgConfig orgID false 0 "" "" 0)
  | Some (VConfig c) => Ok (storedToOrgConfig c)
  | Some _ => Err (Errorf "unmarshal org config")
  end.

Definition getCurrentEpoch m : result N :=
  match m !! "epoch/current" with
  | None => Ok 0
  | Some (VRaw b) => BigEndianUint64 b
  | Some _ => Err (Errorf "epoch/current")
  end.
End Reads.

(** ** Messages: stateless validation (types/msgs.go) *)
Definition MsgRegisterOrg_ValidateBasic (m : MsgRegisterOrg) : result unit :=
  err_if (bool_decide (mr_Signer m = "")) (Errorf "signer cannot be empty") ;;
  err_if (bool_decide (mr_Leader m = "")) ErrInvalidLeader.

Definition MsgSetServingKey_ValidateBasic (m : MsgSetServingKey) : result unit :=
  err_if (bool_decide (mk_Signer m = "")) (Errorf "signer cannot be empty") ;;
  err_if (bool_decide (mk_OrgId m = "")) ErrInvalidOrgID ;;
  err_if (bool_decide (mk_NewServingKey m = "")) (Errorf "new_serving_key cannot be empty").

Fixpoint validate_endpoints `{UrlParser} (l : list string) : result unit :=
  match l with
  | [] => mret tt
  | e :: l' =>
      match url_Parse e with
      | None => Err (Wrap "hub_endpoints parse error" ErrInvalidHubEndpoints)
      | Some (scheme, host) =>
          err_if ((negb (bool_decide (ToLower scheme = "http")) &&
                   negb (bool_decide (ToLower scheme = "https"))) ||
                  bool_decide (host = ""))
            (Wrap "hub_endpoints must be an http(s) URL with host" ErrInvalidHubEndpoints) ;;
          validate_endpoints l'
      end
  end.

Definition ValidateHubEndpoints `{UrlParser} (endpoints : list string) : result unit :=
  err_if ((length endpoints <? 1)%nat || (3 <? length endpoints)%nat)
    (Wrap "hub_endpoints must contain between 1 and 3 endpoints" ErrInvalidHubEndpoints) ;;
  validate_endpoints endpoints.

Definition ValidateHubResponsePubkey (pubkey : string) : result unit :=
  if bool_decide (pubkey = "") then mret tt
  else
    err_if (negb (bool_decide (pubkey = ToLower pubkey)))
      (Wrap "hub_response_pubkey must be lowercase hex" ErrInvalidHubResponsePubkey) ;;
    bz ← from_option_err
      (Wrap "hub_response_pubkey must be valid hex" ErrInvalidHubResponsePubkey)
      (hex_decode pubkey);
    err_if (negb (len bz =? 32))
      (Wrap "hub_response_pubkey must decode to exactly 32 bytes" ErrInvalidHubResponsePubkey).

Definition MsgSetServingInfo_ValidateBasic `{UrlParser} (m : MsgSetServingInfo) : result unit :=
  err_if (bool_decide (mi_Signer m = "")) (Errorf "signer cannot be empty") ;;
  err_if (bool_decide (mi_OrgId m = "")) ErrInvalidOrgID ;;
  ValidateHubEndpoints (mi_HubEndpoints m) ;;
  ValidateHubResponsePubkey (mi_HubResponsePubkey m).

Definition MsgAddMember_ValidateBasic (m : MsgAddMember) : result unit :=
  err_if (bool_decide (ma_Signer m = "")) (Errorf "signer cannot be empty") ;;
  err_if (bool_decide (ma_OrgId m = "")) ErrInvalidOrgID ;;
  err_if (bool_decide (ma_Pubkey m = "")) (Errorf "pubkey cannot be empty") ;;
  err_if (bool_decide (ma_X25519Pubkey m = "")) (Errorf "x25519_pubkey cannot be empty") ;;
  err_if (negb (bool_decide (ma_Role m = "member"))) ErrInvalidRole.

Definition MsgRemoveMember_ValidateBasic (m : MsgRemoveMember) : result unit :=
  err_if (bool_decide (md_Signer m = "")) (Errorf "signer cannot be empty") ;;
  err_if (bool_decide (md_OrgId m = "")) ErrInvalidOrgID ;;
  err_if (bool_decide (md_Pubkey m = "")) (Errorf "pubkey cannot be empty").

(** [Params.Validate] has a value receiver: calling it through a nil pointer
    panics. *)
Definition Params_ptr_Validate (p : option Params) : result unit :=
  match p with
  | None => Err (Panic "nil pointer dereference")
  | Some p => Params_Validate p
  end.

Definition MsgUpdateParams_ValidateBasic (m : MsgUpdateParams) : result unit :=
  err_if (bool_decide (mu_Authority m = "")) (Errorf "authority cannot be empty") ;;
  Params_ptr_Validate (mu_Params m).

Definition MsgSetOrgConfig_ValidateBasic (m : MsgSetOrgConfig) : result unit :=
  err_if (bool_decide (mc_Signer m = "")) (Errorf "signer cannot be empty") ;;
  err_if (bool_decide (mc_OrgId m = "")) ErrInvalidOrgID ;;
  err_if (100 <? mc_MinContributionsPerEpoch m)
    (Errorf "min_contributions_per_epoch must be <= 100") ;;
  (if bool_decide (mc_VocabHash m = "") then mret tt
   else
     err_if (negb (len (mc_VocabHash m) =? 64) ||
             negb (bool_decide (mc_VocabHash m = ToLower (mc_VocabHash m))))
       (Errorf "vocab_hash must be 64 lowercase hex chars") ;;
     err_if (bool_decide (hex_decode (mc_VocabHash m) = None))
       (Errorf "vocab_hash must be 64 lowercase hex chars")) ;;
  err_if (negb (bool_decide (mc_EmbeddingModelId m = "")) &&
          (128 <? len (mc_EmbeddingModelId m)))
    (Errorf "embedding_model_id must be <= 128 chars").

Definition MsgGrantTrialAllowance_ValidateBasic (m : MsgGrantTrialAllowance) : result unit :=
  err_if (bool_decide (mg_Signer m = "")) (Errorf "signer cannot be empty") ;;
  err_if (bool_decide (mg_OrgId m = "")) ErrInvalidOrgID ;;
  err_if (bool_decide (mg_Grantee m = "")) (Errorf "grantee cannot be empty") ;;
  err_if (mg_DailySubmissions m =? 0) (Errorf "daily_submissions must be positive") ;;
  err_if (mg_TrialDays m =? 0) (Errorf "trial_days must be positive").

Definition MsgSetMemberCapabilities_ValidateBasic (m : MsgSetMemberCapabilities) : result unit :=
  err_if (bool_decide (ms_Signer m = "")) (Errorf "signer cannot be empty") ;;
  err_if (bool_decide (ms_OrgId m = "")) ErrInvalidOrgID ;;
  err_if (bool_decide (ms_Pubkey m = "")) (Errorf "pubkey cannot be empty").

Definition MsgTransferLeadership_ValidateBasic `{Addresses} (m : MsgTransferLeadership) :
    result unit :=
  err_if (bool_decide (mt_Signer m = "")) (Errorf "signer cannot be empty") ;;
  err_if (bool_decide (mt_OrgId m = "")) ErrInvalidOrgID ;;
  err_if (bool_decide (mt_NewLeader m = "")) (Errorf "new_leader cannot be empty") ;;
  err_if (bool_decide (mt_NewLeaderWallet m = "")) (Errorf "new_leader_wallet cannot be empty") ;;
  wrap_err "invalid new_leader_wallet" (AccAddressFromBech32 (mt_NewLeaderWallet m)) ;;
  err_if (bool_decide (mt_Signer m = mt_NewLeader m))
    (Errorf "signer cannot transfer leadership to self").

Definition MsgCloseOrg_ValidateBasic (m : MsgCloseOrg) : result unit :=
  err_if (bool_decide (mx_Signer m = "")) (Errorf "signer cannot be empty") ;;
  err_if (bool_decide (mx_OrgId m = "")) ErrInvalidOrgID.

(** ** The keeper *)

(** The keeper's configuration: the governance authority and whether a
    feegrant keeper was wired in. *)
Record Keeper := mkKeeper { authority : string; feegrant_configured : bool }.

(** Genesis state (types/genesis.go). *)
Record GenesisState := mkGenesisState {
  g_Orgs : list Org; g_Members : list MemberRecord; g_OrgConfigs : list OrgConfig;
  g_NextSlot : N; g_Params : Params;
}.

Definition DefaultGenesis : GenesisState := mkGenesisState [] [] [] 0 DefaultParams.

Definition GenesisState_Validate (g : GenesisState) : result unit :=
  Params_Validate (g_Params g).

(** Type URLs the feegrants are scoped to (serving_feegrant.go). *)
Definition servingAllowedMsgTypeURLs : list string := [
  "/wevibe.serve.v1.MsgSubmitServeBatch";
  "/wevibe.serve.v1.MsgSubmitDenialBatch";
  "/wevibe.serve.v1.MsgSubmitEventBatch"].

Definition leaderAllowedMsgTypeURLs : list string := [
  "/wevibe.org.v1.MsgAddMember";
  "/wevibe.org.v1.MsgRemoveMember";
  "/wevibe.org.v1.MsgSetMemberCapabilities";
  "/wevibe.org.v1.MsgSetOrgConfig";
  "/wevibe.org.v1.MsgSetServingKey";
  "/wevibe.org.v1.MsgSetServingInfo";
  "/wevibe.org.v1.MsgTransferLeadership";
  "/wevibe.org.v1.MsgCloseOrg";
  "/wevibe.org.v1.MsgGrantTrialAllowance";
  "/wevibe.memory.v1.MsgSubmitCommitment";
  "/wevibe.memory.v1.MsgApproveMemory";
  "/wevibe.memory.v1.MsgReportMemory"].

(** [time.Duration(days) * 24 * time.Hour], in nanoseconds: [int64]
    multiplication wraps. *)
Definition days_duration (days : N) : Z :=
  int64_of_u64 ((days * (24 * 3600000000000))%u64).

Section KeeperOps.
Context {B F : Type} {ADDR : Addresses} {BANK : BankKeeper B} {FEEGRANT : FeegrantKeeper F}
  {URL : UrlParser}.
Variable k : Keeper.

Notation S := (St org_val (B * F)).

Definition SetParams (params : Params) : M S unit := kset ParamsKey (VParams params).

Definition SetNextSlot (nextSlot : N) : M S unit :=
  kset slotRegistryKey (VSlotRegistry nextSlot).

Definition grantFeegrant (parseErr grantErr : string) (allowed : list string)
    (granter grantee : string) : M S unit :=
  if bool_decide (grantee = "") then mret tt
  else
    grantee_addr ← lift (wrap_err parseErr (AccAddressFromBech32 grantee));
    fail_if (negb (feegrant_configured k)) ErrFeegrantUnavailable ;;
    map_err (Wrap grantErr)
      (on_peers (on_snd (GrantAllowance granter grantee_addr (AllowedMsgAllowance allowed)))).

Definition grantServingFeegrant (orgAccountAddr servingAddr : string) : M S unit :=
  grantFeegrant "parse serving address" "grant serving feegrant"
    servingAllowedMsgTypeURLs orgAccountAddr servingAddr.

Definition grantLeaderFeegrant (granter leaderWallet : string) : M S unit :=
  grantFeegrant "parse leader wallet address" "grant leader feegrant"
    leaderAllowedMsgTypeURLs granter leaderWallet.

(** The slot price: half (rounded down) is burned through the module account,
    the rest goes to the org's account. *)
Definition paySlotPrice (price : N) (creator orgID : string) : M S unit :=
  if 0 <? price then
    let burnHalf := price / 2 in
    let acctHalf := price - burnHalf in
    (if 0 <? burnHalf then
       map_err (fun _ => ErrInsufficientFund)
         (on_peers (on_fst (SendCoinsFromAccountToModule creator ModuleName (uvibe burnHalf)))) ;;
       map_err (Wrap "burn coins") (on_peers (on_fst (BurnCoins ModuleName (uvibe burnHalf))))
     else mret tt) ;;
    (if 0 <? acctHalf then
       map_err (fun _ => ErrInsufficientFund)
         (on_peers (on_fst (SendCoins creator (OrgAccountAddress orgID) (uvibe acctHalf))))
     else mret tt)
  else mret tt.

(** The org value is a pointer the keeper fills in: the updated value is
    returned. *)
Definition RegisterOrg (org : Org) (creator : string) : M S Org :=
  nextSlot ← kread GetNextSlot;
  params ← kread GetParams;
  fail_if (p_SlotCap params <=? nextSlot) ErrSlotCapReached ;;
  let orgID := FormatOrgID nextSlot in
  let org := org <| o_Slot := nextSlot |> <| o_OrgID := orgID |>
                 <| o_AccountAddress := AccAddress_String (OrgAccountAddress orgID) |> in
  lift (Org_Validate org) ;;
  has ← khas (orgKey orgID);
  fail_if has ErrOrgAlreadyExists ;;
  orgs ← kread (fun m => Ok (GetAllOrgs m));
  fail_if (existsb (fun e => bool_decide (o_Leader e = o_Leader org)) orgs)
    ErrLeaderAlreadyOwnsOrg ;;
  price ← kread (fun m => Ok (ComputeSlotPrice m (o_Slot org)));
  paySlotPrice price creator orgID ;;
  kset (orgKey orgID) (VOrg ((orgToStored org) <| so_TotalActiveMembers := 1 |>)) ;;
  grantServingFeegrant (OrgAccountAddress orgID) (o_HubServingAddress org) ;;
  (if bool_decide (o_LeaderWalletAddress org = "") then mret tt
   else grantLeaderFeegrant (OrgAccountAddress orgID) (o_LeaderWalletAddress org)) ;;
  kset (memberKey orgID (o_Leader org))
    (VMember (mkStoredMember orgID (o_Leader org) "leader" "" false false)) ;;
  SetNextSlot (nextSlot + 1)%u64 ;;
  mret org.

(** [store.Get] of an existing org record. *)
Definition getStoredOrg (orgID : string) : M S StoredOrg :=
  v ← kget (orgKey orgID);
  match v with
  | None => fail ErrOrgNotFound
  | Some _ => lift (unmarshalOrg v)
  end.

Definition AddMember (member : MemberRecord) : M S unit :=
  fail_if (negb (bool_decide (m_Role member = "member"))) ErrInvalidRole ;;
  orgStored ← getStoredOrg (m_OrgID member);
  fail_if (negb (bool_decide (so_Status orgStored = OrgStatus_ACTIVE))) ErrOrgNotActive ;;
  let key := memberKey (m_OrgID member) (m_Pubkey member) in
  has ← khas key;
  fail_if has ErrMemberExists ;;
  kset key (VMember (memberToStored member)) ;;
  kset (orgKey (m_OrgID member))
    (VOrg (orgStored <| so_TotalActiveMembers := (so_TotalActiveMembers orgStored + 1)%u64 |>)).

Definition RemoveMember (orgID memberPubkey : string) : M S unit :=
  let key := memberKey orgID memberPubkey in
  v ← kget key;
  fail_if (bool_decide (v = None)) ErrMemberNotFound ;;
  memberStored ← lift (unmarshalMember v);
  fail_if (bool_decide (sm_Role memberStored = "leader")) ErrCannotRemoveLeader ;;
  orgStored ← getStoredOrg orgID;
  fail_if (negb (bool_decide (so_Status orgStored = OrgStatus_ACTIVE))) ErrOrgNotActive ;;
  kdel key ;;
  let orgStored' :=
    if 0 <? so_TotalActiveMembers orgStored
    then orgStored <| so_TotalActiveMembers := (so_TotalActiveMembers orgStored - 1)%u64 |>
    else orgStored in
  kset (orgKey orgID) (VOrg orgStored').

(** [org.LeaderWalletAddress == "" || signer != org.LeaderWalletAddress]. *)
Definition not_leader_wallet (org : Org) (signer : string) : bool :=
  bool_decide (o_LeaderWalletAddress org = "") ||
  negb (bool_decide (signer = o_LeaderWalletAddress org)).

Definition SetServingKey (orgID newServingKey signer : string) : M S unit :=
  org ← kread (fun m => GetOrg m orgID);
  fail_if (not_leader_wallet org signer) ErrNotLeader ;;
  v ← kget (orgKey orgID);
  stored ← lift (unmarshalOrg v);
  kset (orgKey orgID) (VOrg (stored <| so_HubServingAddress := newServingKey |>)) ;;
  grantServingFeegrant (OrgAccountAddress orgID) newServingKey.

Definition SetServingInfo (orgID : string) (endpoints : list string)
    (responsePubkey signer : string) : M S unit :=
  org ← kread (fun m => GetOrg m orgID);
  fail_if (not_leader_wallet org signer) ErrNotLeader ;;
  lift (ValidateHubEndpoints endpoints) ;;
  v ← kget (orgKey orgID);
  stored ← lift (unmarshalOrg v);
  kset (orgKey orgID)
    (VOrg (stored <| so_HubEndpoints := endpoints |> <| so_HubResponsePubkey := responsePubkey |>)).

Definition SetMemberCapabilities (orgID pubkey : string) (canContribute canModerate : bool)
    (signer : string) : M S unit :=
  org ← kread (fun m => GetOrg m orgID);
  fail_if (not_leader_wallet org signer) ErrNotLeader ;;
  fail_if (negb (IsActive org)) ErrOrgNotActive ;;
  member ← kread (fun m => GetMember m orgID pubkey);
  let member := member <| m_CanContribute := canContribute |> <| m_CanModerate := canModerate |> in
  kset (memberKey orgID pubkey) (VMember (memberToStored member)).

Definition TransferLeadership (orgID newLeader newLeaderWallet signer : string) : M S unit :=
  fail_if (bool_decide (newLeaderWallet = "")) (Errorf "new_leader_wallet cannot be empty") ;;
  lift (wrap_err "invalid new_leader_wallet" (AccAddressFromBech32 newLeaderWallet)) ;;
  org ← kread (fun m => GetOrg m orgID);
  fail_if (not_leader_wallet org signer) ErrNotLeader ;;
  map_err (fun _ => Errorf "new_leader must be a member of the org")
    (kread (fun m => GetMember m orgID newLeader)) ;;
  let oldLeaderKey := memberKey orgID (o_Leader org) in
  old ← kget oldLeaderKey;
  oldLeaderStored ← lift (unmarshalMember old);
  kset oldLeaderKey (VMember (oldLeaderStored <| sm_Role := "member" |>)) ;;
  let newLeaderKey := memberKey orgID newLeader in
  new ← kget newLeaderKey;
  newLeaderStored ← lift (unmarshalMember new);
  kset newLeaderKey (VMember (newLeaderStored <| sm_Role := "leader" |>)) ;;
  v ← kget (orgKey orgID);
  orgStored ← lift (unmarshalOrg v);
  kset (orgKey orgID)
    (VOrg (orgStored <| so_Leader := newLeader |> <| so_LeaderWalletAddress := newLeaderWallet |>)) ;;
  grantLeaderFeegrant (OrgAccountAddress orgID) newLeaderWallet.

Definition CloseOrg (orgID signer : string) : M S unit :=
  org ← kread (fun m => GetOrg m orgID);
  fail_if (not_leader_wallet org signer) ErrNotLeader ;;
  fail_if (negb (IsActive org)) ErrOrgNotActive ;;
  v ← kget (orgKey orgID);
  stored ← lift (unmarshalOrg v);
  kset (orgKey orgID) (VOrg (stored <| so_Status := OrgStatus_CLOSED |>)).

Definition UpdateOrgStatus (orgID : string) (status : Z) : M S unit :=
  stored ← getStoredOrg orgID;
  kset (orgKey orgID) (VOrg (stored <| so_Status := status |>)).

Definition UpdateStorageQuota (orgID : string) (quota : N) : M S unit :=
  stored ← getStoredOrg orgID;
  kset (orgKey orgID) (VOrg (stored <| so_StorageQuota := quota |>)).

Definition SetOrgConfig (orgID : string) (cfg : OrgConfig) : M S unit :=
  kset (orgConfigKey orgID) (VConfig (orgConfigToStored cfg)).

(** *** Aggregates (aggregates.go) *)
Definition modifyOrgAggregate (orgID : string) (fn : StoredOrg -> N -> StoredOrg) : M S unit :=
  stored ← getStoredOrg orgID;
  currentEpoch ← kread getCurrentEpoch;
  kset (orgKey orgID) (VOrg (fn stored currentEpoch)).

Definition IncrementOrgCommittedMemories (orgID : string) : M S unit :=
  modifyOrgAggregate orgID (fun stored currentEpoch =>
    stored <| so_TotalCommittedMemories := (so_TotalCommittedMemories stored + 1)%u64 |>
           <| so_LastActivityEpoch := currentEpoch |>).

Definition IncrementOrgUpheldReports (orgID : string) : M S unit :=
  modifyOrgAggregate orgID (fun stored currentEpoch =>
    stored <| so_TotalUpheldReports := (so_TotalUpheldReports stored + 1)%u64 |>
           <| so_LastActivityEpoch := currentEpoch |>).

Definition SetOrgLastActivityEpoch (orgID : string) (epoch : N) : M S unit :=
  modifyOrgAggregate orgID (fun stored _ => stored <| so_LastActivityEpoch := epoch |>).

Definition count_active (l : list (string * org_val)) : N :=
  foldl (fun count kv => match kv.2 with
    | VMember x => if bool_decide (sm_Role x = "inactive") then count else (count + 1)%u64
    | _ => count
    end) 0 l.

Definition RecomputeOrgActiveMembers (orgID : string) : M S unit :=
  count ← kread (fun m => Ok (count_active (prefix_iter (memberPrefix orgID) m)));
  modifyOrgAggregate orgID (fun stored currentEpoch =>
    stored <| so_TotalActiveMembers := count |> <| so_LastActivityEpoch := currentEpoch |>).

(** *** Genesis *)
Definition InitGenesis (state : GenesisState) : M S unit :=
  let params := if decide (g_Params state = zeroParams) then DefaultParams else g_Params state in
  SetParams params ;;
  SetNextSlot (g_NextSlot state) ;;
  for_each (g_Orgs state) (fun org =>
    lift (Org_Validate org) ;;
    kset (orgKey (o_OrgID org)) (VOrg (orgToStored org))) ;;
  for_each (g_Members state) (fun member =>
    kset (memberKey (m_OrgID member) (m_Pubkey member)) (VMember (memberToStored member))) ;;
  for_each (g_OrgConfigs state) (fun c =>
    kset (orgConfigKey (c_OrgID c))
      (VConfig (mkStoredOrgConfig (c_OrgID c) (c_ServeReceiptRequired c) 0 "" "" 0))).

Definition ExportGenesis (m : gmap string org_val) : result GenesisState :=
  params ← GetParams m;
  nextSlot ← GetNextSlot m;
  mret {|
    g_Orgs := orgs_of (prefix_iter "org/" m);
    g_Members := members_of (prefix_iter "member/" m);
    g_OrgConfigs := omap (fun kv => match kv.2 with
      | VConfig c => Some (mkOrgConfig (sc_OrgId c) (sc_ServeReceiptRequired c)
                             (sc_ContestStakeVibe c) "" "" (sc_MinContributionsPerEpoch c))
      | _ => None end) (prefix_iter "orgconfig/" m);
    g_NextSlot := nextSlot;
    g_Params := params;
  |}.

(** ** The message server *)

(** [has, err := HasOrg(orgID); if !has { return ErrOrgNotFound }]. *)
Definition require_org (orgID : string) : M S unit :=
  has ← kread (fun m => Ok (HasOrg m orgID));
  fail_if (negb has) ErrOrgNotFound.

(** The org, provided the signer is its registered leader wallet. *)
Definition require_leader (orgID signer : string) : M S Org :=
  org ← kread (fun m => GetOrg m orgID);
  fail_if (not_leader_wallet org signer) ErrNotLeader ;;
  mret org.

Definition format_bool (b : bool) : string := if b then "true" else "false".

Definition MsgServer_RegisterOrg (msg : MsgRegisterOrg) : M S string :=
  lift (MsgRegisterOrg_ValidateBasic msg) ;;
  creator ← lift (wrap_err "invalid signer address" (AccAddressFromBech32 (mr_Signer msg)));
  let org := NewOrg "" (mr_Leader msg) (mr_Domain msg) (mr_Description msg) (mr_TechStack msg)
               (mr_FocusAreas msg) (mr_StorageQuota msg) (mr_RetrievalBudget msg) in
  let org := org <| o_HubServingAddress := mr_HubServingKey msg |>
                 <| o_LeaderWalletAddress := mr_LeaderWallet msg |>
                 <| o_Name := mr_Name msg |> in
  org ← RegisterOrg org creator;
  emit (mkEvent "org_registered" [("org_id", o_OrgID org); ("leader", mr_Leader msg)]) ;;
  mret (o_OrgID org).

Definition MsgServer_AddMember (msg : MsgAddMember) : M S unit :=
  lift (MsgAddMember_ValidateBasic msg) ;;
  require_org (ma_OrgId msg) ;;
  org ← require_leader (ma_OrgId msg) (ma_Signer msg);
  fail_if (negb (IsActive org)) ErrOrgNotActive ;;
  fail_if (bool_decide (ma_Role msg = "leader")) ErrInvalidRole ;;
  let member := NewMemberRecord (ma_OrgId msg) (ma_Pubkey msg) (ma_Role msg)
                  (ma_X25519Pubkey msg) in
  let member := member <| m_CanContribute := ma_CanContribute msg |>
                       <| m_CanModerate := ma_CanModerate msg |> in
  AddMember member ;;
  emit (mkEvent "member_added" [("org_id", ma_OrgId msg); ("member_pubkey", ma_Pubkey msg);
    ("role", ma_Role msg); ("member_x25519_pubkey", ma_X25519Pubkey msg)]).

Definition MsgServer_SetServingKey (msg : MsgSetServingKey) : M S unit :=
  lift (MsgSetServingKey_ValidateBasic msg) ;;
  require_org (mk_OrgId msg) ;;
  SetServingKey (mk_OrgId msg) (mk_NewServingKey msg) (mk_Signer msg).

Definition MsgServer_SetServingInfo (msg : MsgSetServingInfo) : M S unit :=
  lift (MsgSetServingInfo_ValidateBasic msg) ;;
  require_org (mi_OrgId msg) ;;
  SetServingInfo (mi_OrgId msg) (mi_HubEndpoints msg) (mi_HubResponsePubkey msg) (mi_Signer msg).

Definition MsgServer_RemoveMember (ctx : BlockCtx) (msg : MsgRemoveMember) : M S unit :=
  lift (MsgRemoveMember_ValidateBasic msg) ;;
  require_org (md_OrgId msg) ;;
  require_leader (md_OrgId msg) (md_Signer msg) ;;
  RemoveMember (md_OrgId msg) (md_Pubkey msg) ;;
  emit (mkEvent "member_removed" [("org_id", md_OrgId msg); ("member_pubkey", md_Pubkey msg);
    ("removed_by", md_Signer msg); ("block_height", FormatInt (BlockHeight ctx))]).

Definition MsgServer_UpdateParams (msg : MsgUpdateParams) : M S unit :=
  fail_if (negb (bool_decide (mu_Authority msg = authority k))) ErrUnauthorized ;;
  lift (Params_ptr_Validate (mu_Params msg)) ;;
  match mu_Params msg with
  | None => fail (Panic "nil pointer dereference")
  | Some p => SetParams p
  end.

Definition MsgServer_SetOrgConfig (msg : MsgSetOrgConfig) : M S unit :=
  lift (MsgSetOrgConfig_ValidateBasic msg) ;;
  require_org (mc_OrgId msg) ;;
  require_leader (mc_OrgId msg) (mc_Signer msg) ;;
  fail_if (100 <? mc_MinContributionsPerEpoch msg)
    (Errorf "min_contributions_per_epoch must be <= 100") ;;
  SetOrgConfig (mc_OrgId msg)
    (mkOrgConfig (mc_OrgId msg) (mc_ServeReceiptRequired msg) (mc_ContestStakeVibe msg)
       (mc_VocabHash msg) (mc_EmbeddingModelId msg) (mc_MinContributionsPerEpoch msg)).

Definition MsgServer_GrantTrialAllowance (ctx : BlockCtx) (msg : MsgGrantTrialAllowance) :
    M S unit :=
  lift (MsgGrantTrialAllowance_ValidateBasic msg) ;;
  fail_if (negb (feegrant_configured k)) ErrFeegrantUnavailable ;;
  require_org (mg_OrgId msg) ;;
  require_leader (mg_OrgId msg) (mg_Signer msg) ;;
  granter ← lift (wrap_err "invalid signer address" (AccAddressFromBech32 (mg_Signer msg)));
  grantee ← lift (wrap_err "invalid grantee address" (AccAddressFromBech32 (mg_Grantee msg)));
  let dailyLimit := 2000 * mg_DailySubmissions msg in
  let totalLimit := dailyLimit * mg_TrialDays msg in
  let expires := (BlockTime ctx + days_duration (mg_TrialDays msg))%Z in
  map_err (Wrap "grant allowance")
    (on_peers (on_snd (GrantAllowance granter grantee
      (PeriodicAllowance (uvibe totalLimit) expires (days_duration 1)
         (uvibe dailyLimit) (uvibe dailyLimit))))).

Definition MsgServer_SetMemberCapabilities (msg : MsgSetMemberCapabilities) : M S unit :=
  lift (MsgSetMemberCapabilities_ValidateBasic msg) ;;
  require_org (ms_OrgId msg) ;;
  SetMemberCapabilities (ms_OrgId msg) (ms_Pubkey msg) (ms_CanContribute msg)
    (ms_CanModerate msg) (ms_Signer msg) ;;
  emit (mkEvent "member_capabilities_set" [("org_id", ms_OrgId msg);
    ("member_pubkey", ms_Pubkey msg); ("can_contribute", format_bool (ms_CanContribute msg));
    ("can_moderate", format_bool (ms_CanModerate msg))]).

Definition MsgServer_TransferLeadership (msg : MsgTransferLeadership) : M S unit :=
  lift (MsgTransferLeadership_ValidateBasic msg) ;;
  require_org (mt_OrgId msg) ;;
  org ← kread (fun m => GetOrg m (mt_OrgId msg));
  TransferLeadership (mt_OrgId msg) (mt_NewLeader msg) (mt_NewLeaderWallet msg)
    (mt_Signer msg) ;;
  emit (mkEvent "leadership_transferred" [("org_id", mt_OrgId msg);
    ("old_leader", o_Leader org); ("new_leader", mt_NewLeader msg)]).

Definition MsgServer_CloseOrg (msg : MsgCloseOrg) : M S unit :=
  lift (MsgCloseOrg_ValidateBasic msg) ;;
  require_org (mx_OrgId msg) ;;
  CloseOrg (mx_OrgId msg) (mx_Signer msg) ;;
  emit (mkEvent "org_closed" [("org_id", mx_OrgId msg)]).

(** The messages of the module's Msg service. *)
Inductive msg :=
  | RegisterOrgMsg (m : MsgRegisterOrg)
  | AddMemberMsg (m : MsgAddMember)
  | SetServingKeyMsg (m : MsgSetServingKey)
  | SetServingInfoMsg (m : MsgSetServingInfo)
  | RemoveMemberMsg (m : MsgRemoveMember)
  | UpdateParamsMsg (m : MsgUpdateParams)
  | SetOrgConfigMsg (m : MsgSetOrgConfig)
  | GrantTrialAllowanceMsg (m : MsgGrantTrialAllowance)
  | SetMemberCapabilitiesMsg (m : MsgSetMemberCapabilities)
  | TransferLeadershipMsg (m : MsgTransferLeadership)
  | CloseOrgMsg (m : MsgCloseOrg).

Definition handle (ctx : BlockCtx) (m : msg) : M S unit :=
  match m with
  | RegisterOrgMsg m => MsgServer_RegisterOrg m ;; mret tt
  | AddMemberMsg m => MsgServer_AddMember m
  | SetServingKeyMsg m => MsgServer_SetServingKey m
  | SetServingInfoMsg m => MsgServer_SetServingInfo m
  | RemoveMemberMsg m => MsgServer_RemoveMember ctx m
  | UpdateParamsMsg m => MsgServer_UpdateParams m
  | SetOrgConfigMsg m => MsgServer_SetOrgConfig m
  | GrantTrialAllowanceMsg m => MsgServer_GrantTrialAllowance ctx m
  | SetMemberCapabilitiesMsg m => MsgServer_SetMemberCapabilities m
  | TransferLeadershipMsg m => MsgServer_TransferLeadership m
  | CloseOrgMsg m => MsgServer_CloseOrg m
  end.
End KeeperOps.
