(* ===== verification/OrgFacts.v ===== *)
(** * Correctness of x/org

    The store transitions the keeper is meant to make ([org_step]), the
    invariant they preserve, and the proof that every message the server
    accepts is one of them; then authorisation, the slot price and its
    payment, and the life cycle of an org. *)

From S2P Require Import Prelude Bytes Store Ifaces Org.
From Stdlib Require Import QArith Qround Ascii.
Local Open Scope string_scope.
Local Open Scope N_scope.

Implicit Types m : gmap string org_val.

(** ** Keys *)
Lemma FormatOrgID_inj a b : FormatOrgID a = FormatOrgID b -> a = b.
Proof. intros H%str_app_inj_l. by apply FormatUint_inj. Qed.

Lemma FormatOrgID_no_slash n : free_of "/" (FormatOrgID n).
Proof. apply free_of_app. split; [done|apply FormatUint_no_slash]. Qed.

Lemma orgKey_inj a b : orgKey a = orgKey b -> a = b.
Proof. apply str_app_inj_l. Qed.

Lemma memberKey_eq a p b q :
  free_of "/" a -> free_of "/" b -> memberKey a p = memberKey b q -> a = b /\ p = q.
Proof. intros Ha Hb H%str_app_inj_l. by apply (sep_split "/"%char). Qed.

Lemma memberPrefix_key a b p :
  free_of "/" a -> free_of "/" b ->
  String.prefix (memberPrefix a) (memberKey b p) = bool_decide (a = b).
Proof.
  intros Ha Hb. case_bool_decide as E.
  - subst. apply prefix_spec. exists p. unfold memberKey, memberPrefix.
    by rewrite !str_app_assoc.
  - apply not_true_iff_false. intros [t Ht]%prefix_spec. apply E.
    unfold memberKey, memberPrefix in Ht. rewrite !str_app_assoc in Ht.
    apply str_app_inj_l in Ht. by destruct (sep_split "/"%char _ _ _ _ Hb Ha Ht).
Qed.

Lemma memberPrefix_end a : is_Some (PrefixEndBytes (memberPrefix a)).
Proof.
  unfold memberPrefix. apply PrefixEndBytes_app, PrefixEndBytes_app. by eexists.
Qed.

(** ** The number of members of an org *)
Definition member_count (id : string) m : N := N.of_nat (length (prefix_iter (memberPrefix id) m)).

Lemma member_range id k : in_range (memberPrefix id) (PrefixEndBytes (memberPrefix id)) k =
  String.prefix (memberPrefix id) k.
Proof. apply prefix_iter_range, memberPrefix_end. Qed.

Lemma member_count_insert_out id k v m :
  String.prefix (memberPrefix id) k = false -> member_count id (<[k:=v]> m) = member_count id m.
Proof.
  intros Hk. unfold member_count, prefix_iter.
  rewrite Iterator_insert_out; [done|]. by rewrite member_range.
Qed.

Lemma member_count_insert_new id k v m :
  String.prefix (memberPrefix id) k = true -> m !! k = None ->
  member_count id (<[k:=v]> m) = member_count id m + 1.
Proof.
  intros Hk Hm. unfold member_count, prefix_iter.
  rewrite Iterator_length_insert_new; [lia| |done]. by rewrite member_range.
Qed.

Lemma member_count_insert_old id k v m :
  String.prefix (memberPrefix id) k = true -> is_Some (m !! k) ->
  member_count id (<[k:=v]> m) = member_count id m.
Proof.
  intros Hk Hm. unfold member_count, prefix_iter.
  rewrite Iterator_length_insert_old; [done| |done]. by rewrite member_range.
Qed.

Lemma member_count_delete id k m :
  String.prefix (memberPrefix id) k = true -> is_Some (m !! k) ->
  member_count id m = member_count id (delete k m) + 1.
Proof.
  intros Hk Hm. unfold member_count, prefix_iter.
  rewrite (Iterator_length_delete _ _ m k); [lia| |done]. by rewrite member_range.
Qed.

Lemma member_count_delete_out id k m :
  String.prefix (memberPrefix id) k = false -> member_count id (delete k m) = member_count id m.
Proof.
  intros Hk. unfold member_count, prefix_iter.
  rewrite Iterator_delete_out; [done|]. by rewrite member_range.
Qed.

Lemma member_count_0 id m :
  (forall p, m !! memberKey id p = None) -> member_count id m = 0.
Proof.
  intros H. unfold member_count.
  destruct (prefix_iter (memberPrefix id) m) as [|[k v] l] eqn:E; [done|]. exfalso.
  assert ((k, v) ∈ prefix_iter (memberPrefix id) m) as Hin by (rewrite E; left).
  apply elem_of_prefix_iter in Hin as [Hk [t ->]%prefix_spec]; [|apply memberPrefix_end].
  specialize (H t). unfold memberPrefix in Hk. rewrite !str_app_assoc in Hk.
  unfold memberKey in H. simpl in *. congruence.
Qed.

(** Lookups under updates of other keys. *)
Ltac other_key := solve [ let H := fresh in intros H; discriminate H ].
Ltac klook :=
  repeat match goal with
  | |- context [<[?a:=_]> _ !! ?a] => rewrite lookup_insert_eq
  | |- context [<[?a:=_]> _ !! ?b] => rewrite (lookup_insert_ne _ a b) by other_key
  | |- context [delete ?a _ !! ?b] => rewrite (lookup_delete_ne _ a b) by other_key
  end.

Ltac conj_easy :=
  repeat (split; [first [reflexivity | eassumption]|]); first [reflexivity | eassumption].

(** ** Specification: the transitions of the org store *)
Definition next_slot m : N := match GetNextSlot m with Ok n => n | Err _ => 0 end.

Inductive org_step m : gmap string org_val -> Prop :=
  | step_skip : org_step m m
  | step_register n p o :
      GetNextSlot m = Ok n -> GetParams m = Ok p -> n < p_SlotCap p ->
      m !! orgKey (FormatOrgID n) = None ->
      so_OrgId o = FormatOrgID n -> so_Slot o = n -> so_Leader o <> "" ->
      so_Status o = OrgStatus_ACTIVE ->
      so_TotalActiveMembers o = 1 ->
      (forall id o', m !! orgKey id = Some (VOrg o') -> so_Leader o' <> so_Leader o) ->
      org_step m
        (<[slotRegistryKey := VSlotRegistry (n + 1)%u64]>
          (<[memberKey (FormatOrgID n) (so_Leader o) :=
               VMember (mkStoredMember (FormatOrgID n) (so_Leader o) "leader" "" false false)]>
            (<[orgKey (FormatOrgID n) := VOrg o]> m)))
  | step_update id o o' :
      m !! orgKey id = Some (VOrg o) ->
      so_OrgId o' = so_OrgId o -> so_Slot o' = so_Slot o -> so_Leader o' = so_Leader o ->
      so_TotalActiveMembers o' = so_TotalActiveMembers o ->
      (so_Status o' <> so_Status o ->
         so_Status o = OrgStatus_ACTIVE /\ so_Status o' = OrgStatus_CLOSED) ->
      org_step m (<[orgKey id := VOrg o']> m)
  | step_add id o x :
      m !! orgKey id = Some (VOrg o) -> so_Status o = OrgStatus_ACTIVE ->
      sm_OrgId x = id -> sm_Role x = "member" ->
      m !! memberKey id (sm_Pubkey x) = None ->
      org_step m
        (<[orgKey id :=
             VOrg (o <| so_TotalActiveMembers := (so_TotalActiveMembers o + 1)%u64 |>)]>
          (<[memberKey id (sm_Pubkey x) := VMember x]> m))
  | step_remove id o pk x :
      m !! orgKey id = Some (VOrg o) -> so_Status o = OrgStatus_ACTIVE ->
      m !! memberKey id pk = Some (VMember x) -> sm_Role x <> "leader" ->
      org_step m
        (<[orgKey id :=
             VOrg (if 0 <? so_TotalActiveMembers o
                   then o <| so_TotalActiveMembers := (so_TotalActiveMembers o - 1)%u64 |>
                   else o)]> (delete (memberKey id pk) m))
  | step_capabilities id o pk x x' :
      m !! orgKey id = Some (VOrg o) -> so_Status o = OrgStatus_ACTIVE ->
      m !! memberKey id pk = Some (VMember x) ->
      sm_OrgId x' = sm_OrgId x -> sm_Pubkey x' = sm_Pubkey x -> sm_Role x' = sm_Role x ->
      org_step m (<[memberKey id pk := VMember x']> m)
  | step_transfer id o nl w x1 x2 m1 :
      m !! orgKey id = Some (VOrg o) -> w <> "" ->
      is_Some (m !! memberKey id nl) ->
      unmarshalMember (m !! memberKey id (so_Leader o)) = Ok x1 ->
      m1 = <[memberKey id (so_Leader o) := VMember (x1 <| sm_Role := "member" |>)]> m ->
      unmarshalMember (m1 !! memberKey id nl) = Ok x2 ->
      org_step m
        (<[orgKey id := VOrg (o <| so_Leader := nl |> <| so_LeaderWalletAddress := w |>)]>
          (<[memberKey id nl := VMember (x2 <| sm_Role := "leader" |>)]> m1))
  | step_params p :
      p_SlotCap p <> 0 -> is_u64 (p_SlotCap p) ->
      org_step m (<[ParamsKey := VParams p]> m)
  | step_config id c :
      is_Some (m !! orgKey id) -> sc_OrgId c = id ->
      org_step m (<[orgConfigKey id := VConfig c]> m).

(** ** The invariant of the org store *)
Record org_inv m : Prop := {
  inv_params v : m !! ParamsKey = Some v -> exists p, v = VParams p /\ is_u64 (p_SlotCap p);
  inv_next v : m !! slotRegistryKey = Some v -> exists n, v = VSlotRegistry n;
  inv_org id v : m !! orgKey id = Some v ->
    exists o, v = VOrg o /\ so_OrgId o = id /\ id = FormatOrgID (so_Slot o) /\
      so_Slot o < next_slot m;
  inv_member id pk v : free_of "/" id -> m !! memberKey id pk = Some v ->
    exists x o, v = VMember x /\ sm_OrgId x = id /\ sm_Pubkey x = pk /\
      m !! orgKey id = Some (VOrg o) /\ (sm_Role x = "leader" <-> pk = so_Leader o);
  inv_leader id o : m !! orgKey id = Some (VOrg o) -> is_Some (m !! memberKey id (so_Leader o));
  inv_count id o : m !! orgKey id = Some (VOrg o) -> so_TotalActiveMembers o = member_count id m;
}.

(** The org id of every stored org is slash-free. *)
Lemma inv_org_slash m id o : org_inv m -> m !! orgKey id = Some (VOrg o) -> free_of "/" id.
Proof.
  intros HI H. destruct (inv_org _ HI _ _ H) as (? & _ & _ & -> & _). apply FormatOrgID_no_slash.
Qed.

Lemma GetNextSlot_next m n : GetNextSlot m = Ok n -> next_slot m = n.
Proof. unfold next_slot. by intros ->. Qed.

Lemma next_slot_other m k v : k <> slotRegistryKey -> next_slot (<[k:=v]> m) = next_slot m.
Proof. intros. unfold next_slot, GetNextSlot. by rewrite lookup_insert_ne. Qed.

Lemma next_slot_delete m k : k <> slotRegistryKey -> next_slot (delete k m) = next_slot m.
Proof. intros. unfold next_slot, GetNextSlot. by rewrite lookup_delete_ne. Qed.

Lemma member_count_not_member id k v m :
  (forall p, k <> memberKey id p) -> member_count id (<[k:=v]> m) = member_count id m.
Proof.
  intros Hk. apply member_count_insert_out, not_true_iff_false.
  intros [t Ht]%prefix_spec. apply (Hk t). rewrite Ht. unfold memberPrefix, memberKey.
  by rewrite !str_app_assoc.
Qed.

Ltac count_other := rewrite ?member_count_not_member by (intros ?; other_key).

(** Writing under a key that holds none of the invariant's records. *)
Lemma inv_insert_other m k v :
  org_inv m ->
  k <> ParamsKey -> k <> slotRegistryKey ->
  (forall id, k <> orgKey id) -> (forall id pk, k <> memberKey id pk) ->
  org_inv (<[k:=v]> m).
Proof.
  intros [] Hp Hs Ho Hm. split; intros *; rewrite ?next_slot_other by done;
    rewrite ?lookup_insert_ne by auto; rewrite ?member_count_not_member by auto; eauto.
Qed.

(** Rewriting an org record with the fields the invariant talks about kept. *)
Lemma inv_update m id o o' :
  org_inv m -> m !! orgKey id = Some (VOrg o) ->
  so_OrgId o' = so_OrgId o -> so_Slot o' = so_Slot o -> so_Leader o' = so_Leader o ->
  so_TotalActiveMembers o' = so_TotalActiveMembers o ->
  org_inv (<[orgKey id := VOrg o']> m).
Proof.
  intros HI Ho Hid Hsl Hl Hc. destruct HI as [HP HN HO HM HL HC].
  split; rewrite ?next_slot_other by other_key; intros *; klook; eauto.
  - intros Hv. destruct (decide (id = id0)) as [<-|Hne].
    + rewrite lookup_insert_eq in Hv. injection Hv as <-.
      destruct (HO _ _ Ho) as (? & [= <-] & ? & ? & ?). exists o'. rewrite Hsl. repeat split; try done; try congruence.
    + rewrite lookup_insert_ne in Hv; [|by intros ?%orgKey_inj]. eauto.
  - intros Hf Hv. destruct (HM _ _ _ Hf Hv) as (x & o1 & -> & ? & ? & Ho1 & Hr).
    destruct (decide (id = id0)) as [<-|Hne].
    + exists x, o'. rewrite lookup_insert_eq. simplify_eq. by rewrite Hl.
    + exists x, o1. rewrite lookup_insert_ne; [done|]. by intros ?%orgKey_inj.
  - destruct (decide (id = id0)) as [<-|Hne].
    + rewrite lookup_insert_eq. intros [= <-]. rewrite Hl. eauto.
    + rewrite lookup_insert_ne; [|by intros ?%orgKey_inj]. eauto.
  - count_other. destruct (decide (id = id0)) as [<-|Hne].
    + rewrite lookup_insert_eq. intros [= <-]. rewrite Hc. eauto.
    + rewrite lookup_insert_ne; [|by intros ?%orgKey_inj]. eauto.
Qed.

Lemma inv_capabilities m id o pk x x' :
  org_inv m -> m !! orgKey id = Some (VOrg o) ->
  m !! memberKey id pk = Some (VMember x) ->
  sm_OrgId x' = sm_OrgId x -> sm_Pubkey x' = sm_Pubkey x -> sm_Role x' = sm_Role x ->
  org_inv (<[memberKey id pk := VMember x']> m).
Proof.
  intros HI Ho Hx H1 H2 H3. pose proof (inv_org_slash _ _ _ HI Ho) as Hid.
  destruct HI as [HP HN HO HM HL HC].
  split; rewrite ?next_slot_other by other_key; intros *; klook; eauto.
  - intros Hf Hv. destruct (decide (memberKey id0 pk0 = memberKey id pk)) as [E|E].
    + rewrite E, lookup_insert_eq in Hv. injection Hv as <-.
      rewrite <- E in Hx. destruct (HM _ _ _ Hf Hx) as (x0 & o0 & [= <-] & ? & ? & ? & ?).
      exists x', o0. by rewrite H1, H2, H3.
    + rewrite lookup_insert_ne in Hv by done. eauto.
  - intros H. apply lookup_insert_is_Some'. eauto.
  - intros H. rewrite (HC _ _ H). pose proof (inv_org_slash _ _ _ (Build_org_inv _ HP HN HO HM HL HC) H).
    destruct (decide (id = id0)) as [<-|Hne].
    + rewrite member_count_insert_old; [done| |by eexists].
      rewrite memberPrefix_key by done. by apply bool_decide_eq_true.
    + rewrite member_count_insert_out; [done|].
      rewrite memberPrefix_key by done. by apply bool_decide_eq_false.
Qed.

(** Lookups of org and member records after a write to one of them. *)
Lemma org_lookup_insert m id v id' :
  <[orgKey id := v]> m !! orgKey id' = if decide (id = id') then Some v else m !! orgKey id'.
Proof.
  case_decide as E; [subst; apply lookup_insert_eq|].
  apply lookup_insert_ne. by intros ?%orgKey_inj.
Qed.

Lemma member_lookup_insert m id pk v id' pk' :
  free_of "/" id -> free_of "/" id' ->
  <[memberKey id pk := v]> m !! memberKey id' pk' =
  if decide (id = id' /\ pk = pk') then Some v else m !! memberKey id' pk'.
Proof.
  intros Hi Hi'. case_decide as E; [destruct E; subst; apply lookup_insert_eq|].
  apply lookup_insert_ne. intros ?%memberKey_eq; auto.
Qed.

Lemma member_lookup_delete m id pk id' pk' :
  free_of "/" id -> free_of "/" id' ->
  delete (memberKey id pk) m !! memberKey id' pk' =
  if decide (id = id' /\ pk = pk') then None else m !! memberKey id' pk'.
Proof.
  intros Hi Hi'. case_decide as E; [destruct E; subst; apply lookup_delete_eq|].
  apply lookup_delete_ne. intros ?%memberKey_eq; auto.
Qed.

Lemma member_count_add m id pk v id' :
  free_of "/" id -> free_of "/" id' -> m !! memberKey id pk = None ->
  member_count id' (<[memberKey id pk := v]> m) =
  member_count id' m + (if decide (id = id') then 1 else 0).
Proof.
  intros Hi Hi' Hm. case_decide as E.
  - apply member_count_insert_new; [|done]. rewrite memberPrefix_key by done.
    by apply bool_decide_eq_true.
  - rewrite member_count_insert_out; [lia|]. rewrite memberPrefix_key by done.
    apply bool_decide_eq_false. congruence.
Qed.

Lemma member_count_overwrite m key v id' :
  is_Some (m !! key) -> member_count id' (<[key := v]> m) = member_count id' m.
Proof.
  intros Hm. destruct (String.prefix (memberPrefix id') key) eqn:E.
  - by apply member_count_insert_old.
  - by apply member_count_insert_out.
Qed.

Lemma member_count_remove m id pk id' :
  free_of "/" id -> free_of "/" id' -> is_Some (m !! memberKey id pk) ->
  member_count id' m =
  member_count id' (delete (memberKey id pk) m) + (if decide (id = id') then 1 else 0).
Proof.
  intros Hi Hi' Hm. case_decide as E.
  - apply member_count_delete; [|done]. rewrite memberPrefix_key by done.
    by apply bool_decide_eq_true.
  - rewrite member_count_delete_out; [lia|]. rewrite memberPrefix_key by done.
    apply bool_decide_eq_false. congruence.
Qed.

Lemma inv_add m id o x :
  org_inv m -> member_count id m + 1 < two64 ->
  m !! orgKey id = Some (VOrg o) -> sm_OrgId x = id -> sm_Role x = "member" ->
  m !! memberKey id (sm_Pubkey x) = None ->
  org_inv (<[orgKey id :=
      VOrg (o <| so_TotalActiveMembers := (so_TotalActiveMembers o + 1)%u64 |>)]>
    (<[memberKey id (sm_Pubkey x) := VMember x]> m)).
Proof.
  intros HI Hb Ho Hxi Hxr Hn. pose proof (inv_org_slash _ _ _ HI Ho) as Hid.
  pose proof (inv_count _ HI _ _ Ho) as Hcnt.
  pose proof (fun id o => inv_org_slash m id o HI) as Hsl.
  destruct HI as [HP HN HO HM HL HC].
  split; rewrite ?next_slot_other by other_key; intros *; klook; eauto.
  - rewrite org_lookup_insert. case_decide; subst; klook; [|eauto].
    intros [= <-]. destruct (HO _ _ Ho) as (o1 & [= <-] & ? & ? & ?). by eexists.
  - intros Hf. rewrite member_lookup_insert by done. case_decide as E.
    + destruct E as [<- <-]. intros [= <-]. exists x. eexists. rewrite lookup_insert_eq.
      repeat split; try done; rewrite Hxr; simpl; [done|].
      intros Hl. destruct (HL _ _ Ho) as [? Hl']. simpl in Hl. congruence.
    + intros Hv. destruct (HM _ _ _ Hf Hv) as (x1 & o1 & -> & ? & ? & Ho1 & Hr).
      exists x1. rewrite org_lookup_insert. case_decide as Ei; klook;
        [rewrite <- Ei in Ho1; rewrite Ho in Ho1; injection Ho1 as <-|]; eexists; conj_easy.
  - rewrite org_lookup_insert. case_decide; subst; klook; intros Hlk; simplify_eq; simpl;
      apply lookup_insert_is_Some'; eauto.
  - count_other. rewrite org_lookup_insert. case_decide; subst; klook; intros Hlk; simplify_eq.
    + simpl. rewrite member_count_add, decide_True, Hcnt by auto. by rewrite u64_add_small.
    + rewrite member_count_add, decide_False, N.add_0_r by eauto. auto.
Qed.

Lemma inv_remove m id o pk x :
  org_inv m -> is_u64 (member_count id m) ->
  m !! orgKey id = Some (VOrg o) ->
  m !! memberKey id pk = Some (VMember x) -> sm_Role x <> "leader" ->
  org_inv (<[orgKey id :=
      VOrg (if 0 <? so_TotalActiveMembers o
            then o <| so_TotalActiveMembers := (so_TotalActiveMembers o - 1)%u64 |>
            else o)]> (delete (memberKey id pk) m)).
Proof.
  intros HI Hb Ho Hx Hr. pose proof (inv_org_slash _ _ _ HI Ho) as Hid.
  pose proof (fun id o => inv_org_slash m id o HI) as Hsl.
  pose proof (inv_count _ HI _ _ Ho) as Hcnt.
  assert (is_Some (m !! memberKey id pk)) as Hsome by (by eexists).
  pose proof (member_count_remove m id pk id Hid Hid Hsome) as Hdec.
  rewrite decide_True in Hdec by done.
  destruct (0 <? _) eqn:E0; gok; [|lia].
  destruct HI as [HP HN HO HM HL HC].
  split; rewrite ?next_slot_other, ?next_slot_delete by other_key; intros *; klook; eauto.
  - rewrite org_lookup_insert. case_decide; subst; klook; [|eauto].
    intros [= <-]. destruct (HO _ _ Ho) as (o1 & [= <-] & ? & ? & ?). by eexists.
  - intros Hf. rewrite member_lookup_delete by done. case_decide as E; [done|].
    intros Hv. destruct (HM _ _ _ Hf Hv) as (x1 & o1 & -> & ? & ? & Ho1 & Hr1).
    exists x1. rewrite org_lookup_insert. case_decide as Ei; klook;
        [rewrite <- Ei in Ho1; rewrite Ho in Ho1; injection Ho1 as <-|]; eexists; conj_easy.
  - rewrite org_lookup_insert. case_decide; subst; klook; intros Hlk; simplify_eq; simpl.
    + rewrite member_lookup_delete by done. rewrite decide_False; [eauto|].
      intros [_ ->]. destruct (HM _ _ _ Hid Hx) as (x1 & o1 & [= <-] & ? & ? & Ho1 & Hr1).
      simplify_eq. tauto.
    + rewrite member_lookup_delete by eauto. rewrite decide_False; [eauto|]. tauto.
  - count_other. rewrite org_lookup_insert. case_decide; subst; klook; intros Hlk; simplify_eq.
    + simpl. rewrite u64_sub_small; [lia|lia|by rewrite Hcnt].
    + rewrite (HC _ _ Hlk), (member_count_remove m id pk id0), decide_False; eauto. lia.
Qed.

Lemma inv_transfer m id o nl w x1 x2 m1 :
  org_inv m -> m !! orgKey id = Some (VOrg o) ->
  is_Some (m !! memberKey id nl) ->
  unmarshalMember (m !! memberKey id (so_Leader o)) = Ok x1 ->
  m1 = <[memberKey id (so_Leader o) := VMember (x1 <| sm_Role := "member" |>)]> m ->
  unmarshalMember (m1 !! memberKey id nl) = Ok x2 ->
  org_inv (<[orgKey id := VOrg (o <| so_Leader := nl |> <| so_LeaderWalletAddress := w |>)]>
          (<[memberKey id nl := VMember (x2 <| sm_Role := "leader" |>)]> m1)).
Proof.
  intros HI Ho Hnl Hx1 Hm1 Hx2. pose proof (inv_org_slash _ _ _ HI Ho) as Hid.
  pose proof (fun id o => inv_org_slash m id o HI) as Hsl.
  pose proof (inv_leader _ HI _ _ Ho) as Hold.
  destruct HI as [HP HN HO HM HL HC].
  assert (is_Some (m1 !! memberKey id nl)) as Hnl1.
  { rewrite Hm1. apply lookup_insert_is_Some'. auto. }
  assert (sm_OrgId x2 = id /\ sm_Pubkey x2 = nl) as [Hx2i Hx2p].
  { rewrite Hm1, member_lookup_insert in Hx2 by done. destruct Hold as [v Hv].
    destruct (HM _ _ _ Hid Hv) as (y & o1 & -> & ? & ? & _). rewrite Hv in Hx1.
    injection Hx1 as <-. case_decide as E; [destruct E as [_ <-]; injection Hx2 as <-; done|].
    destruct Hnl as [v' Hv']. destruct (HM _ _ _ Hid Hv') as (y' & o1' & -> & ? & ? & _).
    rewrite Hv' in Hx2. by injection Hx2 as <-. }
  split; rewrite ?next_slot_other by other_key; intros *; subst m1; rewrite ?next_slot_other by other_key; klook; eauto.
  - rewrite org_lookup_insert. case_decide as Ei; klook; [|eauto].
    intros [= <-]. destruct (HO _ _ Ho) as (o1 & [= <-] & ? & ? & ?). subst. by eexists.
  - intros Hf. rewrite member_lookup_insert by done. case_decide as E.
    + destruct E as [<- <-]. intros [= <-]. do 2 eexists. rewrite lookup_insert_eq. done.
    + rewrite member_lookup_insert by done. case_decide as E2.
      * destruct E2 as [<- <-]. intros [= <-]. destruct Hold as [v' Hv'].
        destruct (HM _ _ _ Hid Hv') as (y & o1 & -> & ? & ? & Ho1 & Hr). rewrite Hv' in Hx1.
        injection Hx1 as <-. do 2 eexists. rewrite lookup_insert_eq.
        repeat (split; [first [reflexivity|eassumption]|]). simpl. split; [done|]. intros Heq. by destruct E.
      * intros Hv. destruct (HM _ _ _ Hf Hv) as (y & o1 & -> & ? & ? & Ho1 & Hr).
        exists y. rewrite org_lookup_insert. case_decide as Ei; klook; eexists; [|conj_easy].
        rewrite <- Ei, Ho in Ho1. injection Ho1 as <-.
        repeat (split; [first [reflexivity|eassumption]|]). simpl. naive_solver.
  - rewrite org_lookup_insert. case_decide as Ei; klook; intros Hlk.
    + injection Hlk as <-. subst. by rewrite lookup_insert_eq.
    + do 2 (apply lookup_insert_is_Some'; right). eauto.
  - count_other. rewrite org_lookup_insert. case_decide as Ei; klook; intros Hlk.
    + injection Hlk as <-. subst id0. simpl. rewrite !member_count_overwrite; auto.
    + rewrite !member_count_overwrite; eauto.
Qed.

Lemma params_u64 m p : org_inv m -> GetParams m = Ok p -> is_u64 (p_SlotCap p).
Proof.
  unfold GetParams. intros HI Hp.
  destruct (m !! ParamsKey) as [v|] eqn:E; [|simplify_eq; by vm_compute].
  destruct (inv_params _ HI _ E) as (p' & -> & ?). by injection Hp as <-.
Qed.

Lemma inv_register m n p o :
  org_inv m ->
  GetNextSlot m = Ok n -> GetParams m = Ok p -> n < p_SlotCap p ->
  m !! orgKey (FormatOrgID n) = None ->
  so_OrgId o = FormatOrgID n -> so_Slot o = n ->
  so_TotalActiveMembers o = 1 ->
  org_inv (<[slotRegistryKey := VSlotRegistry (n + 1)%u64]>
          (<[memberKey (FormatOrgID n) (so_Leader o) :=
               VMember (mkStoredMember (FormatOrgID n) (so_Leader o) "leader" "" false false)]>
            (<[orgKey (FormatOrgID n) := VOrg o]> m))).
Proof.
  intros HI Hn Hp Hcap Hfresh Hoid Hosl Hocnt.
  pose proof (FormatOrgID_no_slash n) as Hid.
  pose proof (fun id o => inv_org_slash m id o HI) as Hsl.
  pose proof (params_u64 _ _ HI Hp) as Hpu.
  assert ((n + 1)%u64 = n + 1) as Hn1 by (apply u64_add_small; unfold is_u64 in Hpu; lia).
  apply GetNextSlot_next in Hn. destruct HI as [HP HN HO HM HL HC].
  assert (forall pk, m !! memberKey (FormatOrgID n) pk = None) as Hnomem.
  { intros pk. destruct (m !! memberKey (FormatOrgID n) pk) as [v|] eqn:E; [|done].
    destruct (HM _ _ _ Hid E) as (? & ? & _ & _ & _ & ? & _). congruence. }
  set (m' := <[slotRegistryKey:=_]> _).
  assert (next_slot m' = n + 1) as Hn'.
  { unfold m', next_slot, GetNextSlot. by rewrite lookup_insert_eq, Hn1. }
  assert (forall id, m' !! orgKey id =
            if decide (FormatOrgID n = id) then Some (VOrg o) else m !! orgKey id) as Horg.
  { intros id. unfold m'. rewrite !lookup_insert_ne by other_key. apply org_lookup_insert. }
  assert (forall id, free_of "/" id ->
            member_count id m' = member_count id m + if decide (FormatOrgID n = id) then 1 else 0)
    as Hcount.
  { intros id Hf. unfold m'. count_other. rewrite member_count_add; [|done..|].
    - by count_other.
    - by rewrite lookup_insert_ne by other_key. }
  split.
  - intros v. unfold m'. klook. eauto.
  - intros v. unfold m'. klook. intros [= <-]. by eexists.
  - intros id v. rewrite Horg, Hn'. case_decide as E.
    + intros [= <-]. exists o. repeat split; [congruence..|]. lia.
    + intros H. destruct (HO _ _ H) as (o1 & ? & ? & ? & ?). exists o1. repeat split; [done..|]. lia.
  - intros id pk v Hf. unfold m' at 1. rewrite lookup_insert_ne by other_key.
    rewrite member_lookup_insert by done. case_decide as E.
    + destruct E as [<- <-]. intros [= <-]. eexists _, o. rewrite Horg, decide_True by done. done.
    + rewrite lookup_insert_ne by other_key. intros H.
      destruct (HM _ _ _ Hf H) as (x & o1 & -> & ? & ? & Ho1 & ?). exists x, o1.
      rewrite Horg, decide_False; [done|]. intros <-. congruence.
  - intros id o1. rewrite Horg. unfold m'. klook. case_decide as E.
    + intros [= <-]. subst. by rewrite lookup_insert_eq.
    + intros H. apply lookup_insert_is_Some'. right. klook. eauto.
  - intros id o1. rewrite Horg. case_decide as E.
    + intros [= <-]. subst id. rewrite Hcount, decide_True, member_count_0 by done. done.
    + intros H. rewrite Hcount, decide_False by eauto. rewrite N.add_0_r. auto.
Qed.

(** Every transition preserves the invariant, as long as no org has
    [2^64 - 1] members. *)
Definition counts_fit m : Prop := forall id, member_count id m + 1 < two64.

Theorem org_step_inv m m' : org_inv m -> counts_fit m -> org_step m m' -> org_inv m'.
Proof.
  intros HI Hb H. destruct H.
  - done.
  - by eapply inv_register.
  - by eapply inv_update.
  - by eapply inv_add.
  - eapply inv_remove; eauto. specialize (Hb id). unfold is_u64. lia.
  - by eapply inv_capabilities.
  - by eapply inv_transfer.
  - destruct HI. split; intros *; rewrite ?next_slot_other by other_key; klook; count_other; eauto.
    intros [= <-]. eauto.
  - apply inv_insert_other; [done|intros; other_key..].
Qed.

(** ** The message server refines the specification *)

(** Integers of a decoded message are in range. *)
Definition msg_wf (x : msg) : Prop :=
  match x with
  | UpdateParamsMsg u => forall p, mu_Params u = Some p -> is_u64 (p_SlotCap p)
  | _ => True
  end.

Section ServerCalls.
Context {B F : Type} {ADDR : Addresses} {BANK : BankKeeper B} {FEEGRANT : FeegrantKeeper F}
  {URL : UrlParser}.
Variable k : Keeper.
Implicit Types s : St org_val (B * F).

Lemma grantFeegrant_ok pe ge al g a s u s' :
  grantFeegrant k pe ge al g a s = (Ok u, s') -> kv s' = kv s /\ evs s' = evs s /\ (peers s').1 = (peers s).1.
Proof. unfold grantFeegrant. intros H. mok H; done. Qed.

Lemma paySlotPrice_kv price c id s u s' :
  paySlotPrice price c id s = (Ok u, s') -> kv s' = kv s.
Proof. unfold paySlotPrice. intros H. mok H; done. Qed.

Lemma GetOrg_ok m id org :
  GetOrg m id = Ok org -> exists o, m !! orgKey id = Some (VOrg o) /\ org = storedToOrg o.
Proof.
  unfold GetOrg. intros H. rok H. destruct o; simplify_eq/=. eauto.
Qed.

Lemma GetMember_ok m id pk x :
  GetMember m id pk = Ok x ->
  exists y, m !! memberKey id pk = Some (VMember y) /\ x = storedToMember y.
Proof.
  unfold GetMember. intros H. rok H. destruct o; simplify_eq/=. eauto.
Qed.

Lemma getStoredOrg_ok id s o s' :
  getStoredOrg id s = (Ok o, s') -> kv s !! orgKey id = Some (VOrg o) /\ s' = s.
Proof.
  unfold getStoredOrg. intros H. mok H. destruct (kv s !! orgKey id) as [[]|] eqn:E';
    cbn in *; simplify_eq; done.
Qed.

Lemma unmarshalOrg_some m id o o' :
  m !! orgKey id = Some (VOrg o) -> unmarshalOrg (m !! orgKey id) = Ok o' -> o' = o.
Proof. intros ->. cbn. by intros [= <-]. Qed.

Lemma not_leader_wallet_false org signer :
  not_leader_wallet org signer = false ->
  o_LeaderWalletAddress org <> "" /\ signer = o_LeaderWalletAddress org.
Proof. unfold not_leader_wallet. intros. by gok. Qed.

End ServerCalls.

(** Reads the facts out of the keeper calls of a successful run. *)
Ltac org_ok :=
  repeat match goal with
  | H : GetOrg _ _ = Ok _ |- _ =>
      let o := fresh "o" in apply GetOrg_ok in H as (o & H & ->)
  | H : GetMember _ _ _ = Ok _ |- _ =>
      let y := fresh "y" in apply GetMember_ok in H as (y & H & ->)
  | H : getStoredOrg _ _ = (Ok _, _) |- _ => apply getStoredOrg_ok in H as [H ->]
  | H : grantServingFeegrant _ _ _ _ = (Ok _, _) |- _ =>
      let E := fresh "Ek" in let Ep := fresh "Ep" in
      apply grantFeegrant_ok in H as (E & H & Ep); rewrite ?E; simpl in E, H, Ep
  | H : grantLeaderFeegrant _ _ _ _ = (Ok _, _) |- _ =>
      let E := fresh "Ek" in let Ep := fresh "Ep" in
      apply grantFeegrant_ok in H as (E & H & Ep); rewrite ?E; simpl in E, H, Ep
  | H : not_leader_wallet _ _ = false |- _ => apply not_leader_wallet_false in H as [? ->]
  | H1 : ?m !! orgKey ?id = Some (VOrg _), H2 : unmarshalOrg (?m !! orgKey ?id) = Ok _ |- _ =>
      rewrite H1 in H2; injection H2 as <-
  end; gok; simpl in *.

Section Server.
Context {B F : Type} {ADDR : Addresses} {BANK : BankKeeper B} {FEEGRANT : FeegrantKeeper F}
  {URL : UrlParser}.
Variable k : Keeper.
Implicit Types s : St org_val (B * F).

Lemma AddMember_step member s u s' :
  AddMember member s = (Ok u, s') -> org_step (kv s) (kv s').
Proof.
  unfold AddMember. intros H. mok H. org_ok.
  eapply (step_add _ _ _ (memberToStored member)); eauto.
Qed.

Lemma RemoveMember_step id pk s u s' :
  RemoveMember id pk s = (Ok u, s') -> org_step (kv s) (kv s').
Proof.
  unfold RemoveMember. intros H. mok H. org_ok.
  destruct (kv s !! memberKey id pk) as [[]|] eqn:E; simplify_eq/=.
  eapply step_remove; eauto.
Qed.

Lemma SetServingKey_step id nk sg s u s' :
  SetServingKey k id nk sg s = (Ok u, s') -> org_step (kv s) (kv s').
Proof. unfold SetServingKey. intros H. mok H. org_ok. by eapply step_update. Qed.

Lemma SetServingInfo_step id es rp sg s u s' :
  SetServingInfo id es rp sg s = (Ok u, s') -> org_step (kv s) (kv s').
Proof. unfold SetServingInfo. intros H. mok H. org_ok. by eapply step_update. Qed.

Lemma SetMemberCapabilities_step id pk cc cm sg s u s' :
  SetMemberCapabilities id pk cc cm sg s = (Ok u, s') -> org_step (kv s) (kv s').
Proof.
  unfold SetMemberCapabilities, IsActive. intros H. mok H. org_ok.
  by eapply (step_capabilities _ _ _ _ y).
Qed.

Lemma CloseOrg_step id sg s u s' :
  CloseOrg id sg s = (Ok u, s') -> org_step (kv s) (kv s').
Proof. unfold CloseOrg, IsActive. intros H. mok H. org_ok. by eapply step_update. Qed.

Lemma TransferLeadership_step id nl w sg s u s' :
  TransferLeadership k id nl w sg s = (Ok u, s') -> org_step (kv s) (kv s').
Proof.
  unfold TransferLeadership. intros H. mok H. org_ok.
  rewrite !lookup_insert_ne in * by other_key. org_ok.
  eapply step_transfer; eauto.
Qed.

Lemma elem_of_GetAllOrgs m id o :
  m !! orgKey id = Some (VOrg o) -> storedToOrg o ∈ GetAllOrgs m.
Proof.
  intros H. apply list_elem_of_omap. exists (orgKey id, VOrg o). split; [|done].
  apply elem_of_prefix_iter; [by eexists|]. split; [done|]. apply prefix_app.
Qed.

Lemma existsb_leader l a :
  existsb (fun e => bool_decide (o_Leader e = a)) l = false -> forall e, e ∈ l -> o_Leader e <> a.
Proof.
  intros H e He Ha. apply not_true_iff_false in H. apply H, existsb_exists.
  exists e. split; [by apply list_elem_of_In|]. by apply bool_decide_eq_true.
Qed.

(** The org value registration produces for slot [n]. *)
Definition registered (org : Org) (n : N) : Org :=
  org <| o_Slot := n |> <| o_OrgID := FormatOrgID n |>
      <| o_AccountAddress := AccAddress_String (OrgAccountAddress (FormatOrgID n)) |>.

(** What a successful registration checked, and everything it wrote. *)
Lemma RegisterOrg_ok org c s o s' :
  RegisterOrg k org c s = (Ok o, s') ->
  exists n p s1,
    GetNextSlot (kv s) = Ok n /\ GetParams (kv s) = Ok p /\ n < p_SlotCap p /\
    o = registered org n /\ Org_Validate o = Ok tt /\
    kv s !! orgKey (FormatOrgID n) = None /\
    (forall e, e ∈ GetAllOrgs (kv s) -> o_Leader e <> o_Leader org) /\
    paySlotPrice (ComputeSlotPrice (kv s) n) c (FormatOrgID n) s = (Ok tt, s1) /\
    (peers s').1 = (peers s1).1 /\ evs s' = evs s1 /\
    kv s' = <[slotRegistryKey := VSlotRegistry (n + 1)%u64]>
          (<[memberKey (FormatOrgID n) (o_Leader org) :=
               VMember (mkStoredMember (FormatOrgID n) (o_Leader org) "leader" "" false false)]>
            (<[orgKey (FormatOrgID n) :=
                 VOrg ((orgToStored o) <| so_TotalActiveMembers := 1 |>)]> (kv s))).
Proof.
  unfold RegisterOrg, SetNextSlot. intros H.
  mok H; pose proof (paySlotPrice_kv _ _ _ _ _ _ Hm7) as Hk; destruct a2, a7; org_ok;
    repeat match goal with E : kv ?x = _ |- context [kv ?x] => rewrite E end;
    repeat match goal with E : evs ?x = _ |- context [evs ?x] => rewrite E end;
    do 3 eexists;
    repeat (split; [first [eassumption | reflexivity | by apply existsb_leader | congruence]|]);
    reflexivity.
Qed.

Lemma RegisterOrg_step org c s o s' :
  o_Status org = OrgStatus_ACTIVE ->
  RegisterOrg k org c s = (Ok o, s') -> org_step (kv s) (kv s').
Proof.
  intros Hst H. apply RegisterOrg_ok in H
    as (n & p & s1 & Hn & Hp & Hcap & -> & Hv & Hf & Hl & _ & _ & _ & ->).
  remember ((orgToStored (registered org n)) <| so_TotalActiveMembers := 1 |>) as o1 eqn:Ho1.
  replace (o_Leader org) with (so_Leader o1) in * by (by subst o1).
  apply (step_register _ n p); try done; try (by subst o1).
  - unfold Org_Validate in Hv. rok Hv. gok. by subst o1.
  - intros id o' Ho'. by eapply (Hl (storedToOrg o')), elem_of_GetAllOrgs.
Qed.

(** The keeper call of each handler, without validation and events. *)
Lemma handle_step ctx x s u s' :
  msg_wf x -> handle k ctx x s = (Ok u, s') -> org_step (kv s) (kv s').
Proof.
  destruct x as [x|x|x|x|x|x|x|x|x|x|x]; intros Hwf H; unfold handle in H.
  - unfold MsgServer_RegisterOrg in H. mok H. simpl. eapply RegisterOrg_step; [|eassumption]. done.
  - unfold MsgServer_AddMember, require_org, require_leader in H. mok H. simpl. by eapply AddMember_step.
  - unfold MsgServer_SetServingKey, require_org in H. mok H. by eapply SetServingKey_step.
  - unfold MsgServer_SetServingInfo, require_org in H. mok H. by eapply SetServingInfo_step.
  - unfold MsgServer_RemoveMember, require_org, require_leader in H. mok H.
    simpl. by eapply RemoveMember_step.
  - unfold MsgServer_UpdateParams, SetParams in H. mok H. simpl in *.
    rewrite E in *. unfold Params_ptr_Validate, Params_Validate in *. rok Hm0. gok.
    apply step_params; [done|]. by apply Hwf.
  - unfold MsgServer_SetOrgConfig, require_org, require_leader, SetOrgConfig in H. mok H.
    org_ok. by apply step_config.
  - unfold MsgServer_GrantTrialAllowance, require_org, require_leader in H. mok H.
    apply step_skip.
  - unfold MsgServer_SetMemberCapabilities, require_org in H. mok H.
    simpl. by eapply SetMemberCapabilities_step.
  - unfold MsgServer_TransferLeadership, require_org in H. mok H.
    simpl. by eapply TransferLeadership_step.
  - unfold MsgServer_CloseOrg, require_org in H. mok H. simpl. by eapply CloseOrg_step.
Qed.
End Server.

(** ** Slot prices *)

(** The price in closed form: [base * (100 + slot * increase) / 100], falling
    back to the base price when that is not a positive 64-bit number. *)
Definition slot_price_spec (p : Org.Params) (slot : N) : N :=
  let base := int64_of_u64 (p_BaseBurnPrice p) in
  let inc := int64_of_u64 (p_BurnPriceIncreasePercent p) in
  let price := (base * (100 + Z.of_N slot * inc) / 100)%Z in
  if (price <=? 0)%Z || (Z.of_N two64 <=? price)%Z then p_BaseBurnPrice p else Z.to_N price.

Lemma price_multiplier_eq inc slot :
  Qeq (price_multiplier inc slot) ((100 + Z.of_N slot * int64_of_u64 inc) # 100).
Proof.
  unfold price_multiplier. induction slot as [|n IH] using N.peano_ind; [reflexivity|].
  rewrite N.iter_succ. cbv beta. rewrite Qred_correct, IH, Qred_correct.
  unfold Qeq, Qplus. simpl Qnum. simpl Qden. lia.
Qed.

Lemma floor_mul_compat (b : Z) p q :
  Qeq p q -> (b * Qnum p / Zpos (Qden p) = b * Qnum q / Zpos (Qden q))%Z.
Proof.
  intros H. assert (Qfloor (inject_Z b * p) = Qfloor (inject_Z b * q)) as E.
  { apply Qfloor_comp. by rewrite H. }
  destruct p as [n d], q as [n' d']. exact E.
Qed.

Lemma computeAscendingPrice_spec m p slot :
  GetParams m = Ok p -> computeAscendingPrice m slot = slot_price_spec p slot.
Proof.
  intros Hp. unfold computeAscendingPrice, slot_price_spec. rewrite Hp.
  rewrite (floor_mul_compat _ _ _ (price_multiplier_eq _ _)). simpl Qnum. simpl Qden.
  destruct (_ <=? 0)%Z eqn:E1; simpl; [done|]. destruct (_ <=? _)%Z; done.
Qed.

(** ** Paying for a slot *)
Section Payment.
Context {B F : Type} {ADDR : Addresses} {BANK : BankKeeper B} {FEEGRANT : FeegrantKeeper F}
  {URL : UrlParser} {LAWS : BankLaws B}.
Variable k : Keeper.
Implicit Types s : St org_val (B * F).

Definition bank_of s : B := (peers s).1.

(** Half of the price leaves circulation, the other half reaches the org
    account, and nobody but the payer pays. *)
Lemma paySlotPrice_balances price c id s u s' :
  c <> OrgAccountAddress id -> c <> NewModuleAddress ModuleName ->
  OrgAccountAddress id <> NewModuleAddress ModuleName ->
  paySlotPrice price c id s = (Ok u, s') ->
  price <= GetBalance (bank_of s) c /\
  GetSupply (bank_of s') + price / 2 = GetSupply (bank_of s) /\
  GetBalance (bank_of s') c + price = GetBalance (bank_of s) c /\
  GetBalance (bank_of s') (OrgAccountAddress id) =
    GetBalance (bank_of s) (OrgAccountAddress id) + (price - price / 2) /\
  (forall x, x <> c -> x <> OrgAccountAddress id ->
    GetBalance (bank_of s') x = GetBalance (bank_of s) x).
Proof.
  intros Hc Hcm Hom H. unfold paySlotPrice in H.
  assert (price / 2 <= price) by (apply N.Div0.div_le_upper_bound; lia).
  remember (price / 2) as half. unfold bank_of. mok H; gok; simpl in *; bank_ok;
    repeat split; intros; balances.
Qed.
End Payment.

(** ** Roles *)

(** Every member record holds one of the two roles the keeper writes. *)
Definition roles_ok m : Prop :=
  forall key x, m !! key = Some (VMember x) -> sm_Role x = "leader" \/ sm_Role x = "member".

Lemma roles_insert_member m key x :
  roles_ok m -> sm_Role x = "leader" \/ sm_Role x = "member" ->
  roles_ok (<[key := VMember x]> m).
Proof. intros HR Hx key' y [[_ [= <-]]|[_ H]]%lookup_insert_Some; eauto. Qed.

Lemma roles_insert_other m key v :
  roles_ok m -> (forall x, v <> VMember x) -> roles_ok (<[key := v]> m).
Proof. intros HR Hv key' y [[_ Hy]|[_ H]]%lookup_insert_Some; [by destruct (Hv y)|eauto]. Qed.

Lemma roles_delete m key : roles_ok m -> roles_ok (delete key m).
Proof. intros HR key' y [_ H]%lookup_delete_Some. eauto. Qed.

Create HintDb org_roles.
#[export] Hint Resolve roles_insert_member roles_insert_other roles_delete : org_roles.
#[export] Hint Extern 1 (forall x, VOrg _ <> VMember x) => discriminate : org_roles.
#[export] Hint Extern 1 (forall x, VParams _ <> VMember x) => discriminate : org_roles.
#[export] Hint Extern 1 (forall x, VConfig _ <> VMember x) => discriminate : org_roles.
#[export] Hint Extern 1 (forall x, VRaw _ <> VMember x) => discriminate : org_roles.
#[export] Hint Extern 1 (forall x, VSlotRegistry _ <> VMember x) => discriminate : org_roles.

Lemma org_step_roles m m' : roles_ok m -> org_step m m' -> roles_ok m'.
Proof.
  intros HR H. destruct H; subst; eauto 10 with org_roles.
  apply roles_insert_member; [done|]. rewrite H4. by eapply HR.
Qed.

(** The number of members grows by at most one per transition. *)
Lemma member_count_insert_le id key v m :
  member_count id (<[key:=v]> m) <= member_count id m + (if decide (is_Some (m !! key)) then 0 else 1).
Proof.
  destruct (String.prefix (memberPrefix id) key) eqn:E; [|rewrite member_count_insert_out by done; lia].
  case_decide as Hk; [rewrite member_count_insert_old by done; lia|].
  rewrite member_count_insert_new; [lia|done|by apply eq_None_not_Some].
Qed.

Lemma member_count_delete_le id key m : member_count id (delete key m) <= member_count id m.
Proof.
  destruct (String.prefix (memberPrefix id) key) eqn:E; [|by rewrite member_count_delete_out].
  destruct (m !! key) eqn:Hk; [|by rewrite delete_id].
  rewrite (member_count_delete id key m) by done. lia.
Qed.

Lemma org_step_count m m' id :
  org_inv m -> org_step m m' -> member_count id m' <= member_count id m + 1.
Proof.
  intros HI H. destruct H; subst; count_other; try lia.
  - etrans; [apply member_count_insert_le|]. count_other. case_decide; lia.
  - etrans; [apply member_count_insert_le|]. case_decide; lia.
  - etrans; [apply member_count_delete_le|]. lia.
  - etrans; [apply member_count_insert_le|]. case_decide; lia.
  - etrans; [apply member_count_insert_le|]. rewrite decide_True.
    + rewrite N.add_0_r. etrans; [apply member_count_insert_le|].
      rewrite decide_True; [lia|]. by eapply inv_leader.
    + apply lookup_insert_is_Some'. auto.
Qed.

(** The recount of [RecomputeOrgActiveMembers] visits every member of the org
    and skips none. *)
Lemma count_active_members (l : list (string * org_val)) :
  (forall key v, (key, v) ∈ l -> exists x, v = VMember x /\ sm_Role x <> "inactive") ->
  N.of_nat (length l) < two64 -> count_active l = N.of_nat (length l).
Proof.
  intros Hl Hb. unfold count_active.
  assert (forall acc, acc + N.of_nat (length l) < two64 ->
    foldl (fun count kv => match kv.2 with
      | VMember x => if bool_decide (sm_Role x = "inactive") then count else (count + 1)%u64
      | _ => count end) acc l = acc + N.of_nat (length l)) as Hgen; [|rewrite Hgen; lia].
  clear Hb. induction l as [|[key v] l IH]; intros acc Hacc; simpl in *; [lia|].
  destruct (Hl key v) as (x & -> & Hx); [by left|]. rewrite bool_decide_false by done.
  rewrite u64_add_small by lia. rewrite IH; [lia| |lia]. intros; eapply Hl; by right.
Qed.

Lemma recount_exact m id o :
  org_inv m -> roles_ok m -> is_u64 (member_count id m) -> m !! orgKey id = Some (VOrg o) ->
  count_active (prefix_iter (memberPrefix id) m) = so_TotalActiveMembers o.
Proof.
  intros HI HR Hu Ho. rewrite (inv_count _ HI _ _ Ho). apply count_active_members; [|done].
  intros key v [Hk [t ->]%prefix_spec]%elem_of_prefix_iter; [|apply memberPrefix_end].
  unfold memberPrefix in Hk. rewrite !str_app_assoc in Hk.
  destruct (inv_member _ HI id t v) as (x & ? & -> & _); [by eapply inv_org_slash|exact Hk|].
  exists x. split; [done|]. apply HR in Hk. destruct Hk as [-> | ->]; done.
Qed.

(** Leadership is decided by the org record. *)
Lemma IsLeader_spec m id o pk :
  org_inv m -> m !! orgKey id = Some (VOrg o) ->
  IsLeader m id pk = Ok (bool_decide (pk = so_Leader o)).
Proof.
  intros HI Ho. unfold IsLeader, GetMember.
  destruct (m !! memberKey id pk) as [v|] eqn:E.
  - destruct (inv_member _ HI id pk v) as (x & o1 & -> & _ & _ & Ho1 & Hr);
      [by eapply inv_org_slash|done|]. rewrite Ho in Ho1. injection Ho1 as <-. simpl.
    f_equal. by apply bool_decide_ext.
  - simpl. rewrite bool_decide_false; [done|]. intros ->.
    destruct (inv_leader _ HI _ _ Ho) as [? Hl]. congruence.
Qed.

(** ** Orgs that are not active *)
Ltac unchanged o :=
  exists o; klook; split; [done|]; split; [done|]; intros; klook.

Lemma inactive_step m m' id o :
  org_inv m -> org_step m m' ->
  m !! orgKey id = Some (VOrg o) -> so_Status o <> OrgStatus_ACTIVE ->
  exists o', m' !! orgKey id = Some (VOrg o') /\ so_Status o' = so_Status o /\
    forall pk, IsMember m' id pk = IsMember m id pk.
Proof.
  intros HI H Ho Hst. pose proof (inv_org_slash _ _ _ HI Ho) as Hid.
  assert (forall key v pk, is_Some (m !! key) ->
    (is_Some (<[key:=v]> m !! memberKey id pk) <-> is_Some (m !! memberKey id pk))) as Hover.
  { intros key v pk Hk. rewrite lookup_insert_is_Some'. split; [intros [<-|?]|]; auto. }
  unfold IsMember. destruct H.
  - eauto.
  - exists o. rewrite !lookup_insert_ne by (first [other_key | intros E%orgKey_inj; congruence]).
    split; [done|]. split; [done|]. intros pk. apply bool_decide_ext. klook.
    rewrite (member_lookup_insert _ (FormatOrgID n)) by (done || apply FormatOrgID_no_slash).
    rewrite decide_False; [by klook|]. intros [<- _]. congruence.
  - rewrite org_lookup_insert. case_decide as E; [|by unchanged o].
    subst. rewrite Ho in H. injection H as <-. exists o'. split; [done|]. split.
    + destruct (decide (so_Status o' = so_Status o)) as [|Hne]; [done|]. tauto.
    + intros pk. by klook.
  - rewrite org_lookup_insert. case_decide as E; [congruence|]. exists o. klook.
    split; [done|]. split; [done|]. intros pk. klook.
    rewrite member_lookup_insert; [|by eapply inv_org_slash|done].
    by rewrite decide_False by tauto.
  - rewrite org_lookup_insert. case_decide as E; [congruence|]. exists o. klook.
    split; [done|]. split; [done|]. intros pk'. klook.
    rewrite member_lookup_delete; [|by eapply inv_org_slash|done].
    by rewrite decide_False by tauto.
  - exists o. klook. split; [done|]. split; [done|]. intros pk'.
    apply bool_decide_ext, Hover. by eexists.
  - subst m1. assert (forall pk, is_Some (<[memberKey id0 nl:=VMember x2 <| sm_Role := "leader" |>]>
        (<[memberKey id0 (so_Leader o0):=VMember x1 <| sm_Role := "member" |>]> m)
        !! memberKey id pk) <-> is_Some (m !! memberKey id pk)) as Hmem.
    { intros pk. rewrite lookup_insert_is_Some', Hover by (by eapply inv_leader).
      split; [intros [E|?]|]; [rewrite <- E|..]; auto. }
    rewrite org_lookup_insert. case_decide as E.
    + subst. rewrite Ho in H. injection H as <-. eexists. split; [done|]. split; [done|].
      intros pk. klook. by apply bool_decide_ext.
    + exists o. klook. split; [done|]. split; [done|]. intros pk. klook.
      by apply bool_decide_ext.
  - by unchanged o.
  - by unchanged o.
Qed.
