(* ===== verification/OrgProps.v ===== *)
(** * Properties of x/org

    The theorems about the org module that clients rely on, each with an
    execution on a concrete chain state where it has hypotheses. *)

From S2P Require Import Prelude Bytes Store Ifaces Org OrgFacts.
From Stdlib Require Import QArith Ascii.
Local Open Scope string_scope.
Local Open Scope N_scope.

(** ** Executions of the module *)
Section Run.
Context {B F : Type} {ADDR : Addresses} {BANK : BankKeeper B} {FEEGRANT : FeegrantKeeper F}
  {URL : UrlParser}.
Variable k : Keeper.

(** The state after [InitChain] with the default genesis: the module's
    [InitGenesis], then the application's marker. *)
Definition org_genesis (p : B * F) : St org_val (B * F) :=
  ((InitGenesis DefaultGenesis ;; kset genesisInitMarkerKey (VRaw genesisInitMarkerValue))
     (mkSt ∅ p [])).2.

(** A block's transactions, one message after the other. *)
Definition run_msgs (l : list (BlockCtx * msg)) (s : St org_val (B * F)) : St org_val (B * F) :=
  foldl (fun s cx => (deliver (handle k cx.1 cx.2) s).2) s l.

Lemma org_genesis_kv p :
  kv (org_genesis p) =
  <[genesisInitMarkerKey := VRaw genesisInitMarkerValue]>
    (<[slotRegistryKey := VSlotRegistry 0]> (<[ParamsKey := VParams DefaultParams]> ∅)).
Proof. reflexivity. Qed.

Lemma org_genesis_inv p : org_inv (kv (org_genesis p)) /\ roles_ok (kv (org_genesis p)) /\
  forall id, member_count id (kv (org_genesis p)) = 0.
Proof.
  rewrite org_genesis_kv. split; [|split].
  - apply inv_insert_other; [|intros; other_key..].
    split; intros *; klook; rewrite ?lookup_empty; try done; intros [= <-]; eexists; [|done].
    split; [done|]. by vm_compute.
  - intros key x. rewrite !lookup_insert_Some, lookup_empty. naive_solver.
  - intros id. apply member_count_0. intros pk. klook. apply lookup_empty.
Qed.

Lemma run_msgs_inv l s n :
  org_inv (kv s) -> roles_ok (kv s) -> (forall id, member_count id (kv s) <= n) ->
  Forall (fun cx => msg_wf cx.2) l -> n + N.of_nat (length l) < two64 ->
  org_inv (kv (run_msgs l s)) /\ roles_ok (kv (run_msgs l s)) /\
  (forall id, member_count id (kv (run_msgs l s)) <= n + N.of_nat (length l)).
Proof.
  revert s n. induction l as [|[c x] l IH]; intros s n HI HR Hn Hwf Hb; simpl in *.
  { split; [done|split; [done|]]. intros id. specialize (Hn id). lia. }
  apply Forall_cons in Hwf as [Hx Hwf]. fold (run_msgs l (deliver (handle k c x) s).2).
  assert (org_inv (kv (deliver (handle k c x) s).2) /\ roles_ok (kv (deliver (handle k c x) s).2) /\
    forall id, member_count id (kv (deliver (handle k c x) s).2) <= n + 1) as (HI' & HR' & Hn').
  { destruct (deliver (handle k c x) s) as [[u|e] s'] eqn:E; simpl.
    - apply deliver_ok in E. apply handle_step in E; [|done].
      split; [|split].
      + eapply org_step_inv; [done| |done]. intros id. specialize (Hn id). lia.
      + by eapply org_step_roles.
      + intros id. etrans; [by eapply org_step_count|]. specialize (Hn id). lia.
    - apply deliver_err in E as ->. split; [done|split; [done|]]. intros id. specialize (Hn id). lia. }
  destruct (IH _ (n + 1) HI' HR' Hn' Hwf) as (? & ? & Hc); [lia|]. split; [done|split; [done|]].
  intros id. specialize (Hc id). lia.
Qed.

(** C1: on every chain started from the default genesis, after any sequence of
    (well-formed, possibly failing) x/org messages, the store satisfies the
    module's invariant: records are well typed under their keys, org ids are
    the ids of allocated slots, every org has exactly one member with the
    leader role (the leader it records), and [TotalActiveMembers] is the
    number of its member records. *)
Theorem org_messages_keep_invariant p l :
  Forall (fun cx => msg_wf cx.2) l -> N.of_nat (length l) < two64 ->
  org_inv (kv (run_msgs l (org_genesis p))) /\ roles_ok (kv (run_msgs l (org_genesis p))).
Proof.
  intros Hwf Hl. destruct (org_genesis_inv p) as (HI & HR & Hc).
  destruct (run_msgs_inv l (org_genesis p) 0) as (? & ? & _); auto.
  intros id. by rewrite Hc.
Qed.

(** C26: the message server refines the specification: a delivered message
    either fails and leaves the whole state as it was, or performs exactly one
    of the transitions of [org_step]. *)
Theorem handle_refines_spec ctx x s r s' :
  msg_wf x -> deliver (handle k ctx x) s = (r, s') ->
  match r with Err _ => s' = s | Ok _ => org_step (kv s) (kv s') end.
Proof.
  intros Hwf H. destruct r; [|exact (deliver_err _ _ _ _ H)].
  apply deliver_ok in H. exact (handle_step k ctx x s _ s' Hwf H).
Qed.

(** Who has to sign a message, and for which org. *)
Definition msg_signer (x : msg) : option (string * string) :=
  match x with
  | RegisterOrgMsg _ | UpdateParamsMsg _ => None
  | AddMemberMsg m => Some (ma_OrgId m, ma_Signer m)
  | SetServingKeyMsg m => Some (mk_OrgId m, mk_Signer m)
  | SetServingInfoMsg m => Some (mi_OrgId m, mi_Signer m)
  | RemoveMemberMsg m => Some (md_OrgId m, md_Signer m)
  | SetOrgConfigMsg m => Some (mc_OrgId m, mc_Signer m)
  | GrantTrialAllowanceMsg m => Some (mg_OrgId m, mg_Signer m)
  | SetMemberCapabilitiesMsg m => Some (ms_OrgId m, ms_Signer m)
  | TransferLeadershipMsg m => Some (mt_OrgId m, mt_Signer m)
  | CloseOrgMsg m => Some (mx_OrgId m, mx_Signer m)
  end.

(** No org decision without the leader's wallet: every message about an
    existing org that the server accepts was signed by that org's registered,
    non-empty leader wallet; parameters change only under the module
    authority. *)
Theorem org_decisions_authorized ctx x s u s' :
  handle k ctx x s = (Ok u, s') ->
  match msg_signer x with
  | Some (id, signer) => GetLeaderWallet (kv s) id = Ok signer /\ signer <> ""
  | None => match x with UpdateParamsMsg m => mu_Authority m = authority k | _ => True end
  end.
Proof.
  assert (forall id sg org, GetOrg (kv s) id = Ok org -> not_leader_wallet org sg = false ->
    GetLeaderWallet (kv s) id = Ok sg /\ sg <> "") as Hauth.
  { intros id sg org Ho [? ->]%not_leader_wallet_false. unfold GetLeaderWallet. by rewrite Ho. }
  destruct x as [x|x|x|x|x|x|x|x|x|x|x]; intros H; unfold handle in H; simpl.
  - done.
  - unfold MsgServer_AddMember, require_org, require_leader in H. mok H. eauto.
  - unfold MsgServer_SetServingKey, require_org, SetServingKey in H. mok H. eauto.
  - unfold MsgServer_SetServingInfo, require_org, SetServingInfo in H. mok H. eauto.
  - unfold MsgServer_RemoveMember, require_org, require_leader in H. mok H. eauto.
  - unfold MsgServer_UpdateParams in H. mok H. by gok.
  - unfold MsgServer_SetOrgConfig, require_org, require_leader in H. mok H. eauto.
  - unfold MsgServer_GrantTrialAllowance, require_org, require_leader in H. mok H. eauto.
  - unfold MsgServer_SetMemberCapabilities, require_org, SetMemberCapabilities in H. mok H. eauto.
  - unfold MsgServer_TransferLeadership, require_org, TransferLeadership in H. mok H. eauto.
  - unfold MsgServer_CloseOrg, require_org, CloseOrg in H. mok H. eauto.
Qed.

End Run.

(** ** Registration *)

(** The iterated big.Rat computation of the slot price equals the closed
    form [base * (100 + slot * increase) / 100] (rounded down; the base price
    when that is not a positive 64-bit number). *)
Theorem slot_price_closed_form m p slot :
  GetParams m = Ok p -> ComputeSlotPrice m slot = slot_price_spec p slot.
Proof. apply computeAscendingPrice_spec. Qed.

Section Registration.
Context {B F : Type} {ADDR : Addresses} {BANK : BankKeeper B} {FEEGRANT : FeegrantKeeper F}
  {URL : UrlParser}.
Variable k : Keeper.
Implicit Types s : St org_val (B * F).

(** A successful registration takes the next slot (below the cap), stores
    the org as ACTIVE under the slot's id with one member, its leader, and
    advances the slot counter by one without overflow; no existing org has the
    same leader. *)
Theorem register_org_spec msg s id s' :
  org_inv (kv s) -> MsgServer_RegisterOrg k msg s = (Ok id, s') ->
  exists n p org,
    GetNextSlot (kv s) = Ok n /\ GetParams (kv s) = Ok p /\ n < p_SlotCap p /\
    id = FormatOrgID n /\ GetNextSlot (kv s') = Ok (n + 1) /\
    (forall e, e ∈ GetAllOrgs (kv s) -> o_Leader e <> mr_Leader msg) /\
    GetOrg (kv s) id = Err ErrOrgNotFound /\
    GetOrg (kv s') id = Ok org /\ o_OrgID org = id /\ o_Slot org = n /\
    o_Leader org = mr_Leader msg /\ o_LeaderWalletAddress org = mr_LeaderWallet msg /\
    o_HubServingAddress org = mr_HubServingKey msg /\ IsActive org = true /\
    IsLeader (kv s') id (mr_Leader msg) = Ok true /\ member_count id (kv s') = 1.
Proof.
  intros HI H. unfold MsgServer_RegisterOrg in H. mok H. simpl in *.
  match type of Hm1 with RegisterOrg _ ?o _ _ = _ => remember o as org0 eqn:Horg0 end.
  apply RegisterOrg_ok in Hm1
    as (n & p & s1 & Hn & Hp & Hcap & -> & Hv & Hf & Hl & _ & _ & _ & Hkv).
  pose proof (params_u64 _ _ HI Hp) as Hpu. unfold is_u64 in Hpu.
  assert (org_inv (kv s0)) as HI' by (rewrite Hkv; eapply (inv_register _ _ p); eauto).
  assert (kv s0 !! orgKey (FormatOrgID n) = Some (VOrg
            ((orgToStored (registered org0 n)) <| so_TotalActiveMembers := 1 |>))) as Ho
    by (rewrite Hkv; by klook).
  pose proof (IsLeader_spec _ _ _ (mr_Leader msg) HI' Ho) as Hlead.
  rewrite bool_decide_true in Hlead by (by subst org0).
  exists n, p, (storedToOrg ((orgToStored (registered org0 n)) <| so_TotalActiveMembers := 1 |>)).
  cbn [kv]. change (o_OrgID (registered org0 n)) with (FormatOrgID n).
  rewrite <- (inv_count _ HI' _ _ Ho). unfold GetOrg. rewrite Ho, Hf.
  repeat (split; [first [done | by subst org0 | idtac]|]); [|done].
  unfold GetNextSlot. rewrite Hkv. klook. f_equal. apply u64_add_small. lia.
Qed.

(** The error branches of a registration change nothing: with every slot
    taken it answers [ErrSlotCapReached]; with a free slot and a valid org
    whose leader already leads an org, [ErrLeaderAlreadyOwnsOrg]. *)
Theorem register_org_rejects org c s n p :
  GetNextSlot (kv s) = Ok n -> GetParams (kv s) = Ok p ->
  (p_SlotCap p <= n -> RegisterOrg k org c s = (Err ErrSlotCapReached, s)) /\
  (n < p_SlotCap p -> Org_Validate (registered org n) = Ok tt ->
   kv s !! orgKey (FormatOrgID n) = None ->
   (exists e, e ∈ GetAllOrgs (kv s) /\ o_Leader e = o_Leader org) ->
   RegisterOrg k org c s = (Err ErrLeaderAlreadyOwnsOrg, s)).
Proof.
  intros Hn Hp. split.
  - intros Hcap%N.leb_le. unfold RegisterOrg. mrun. by rewrite Hn, Hp, Hcap.
  - intros Hcap%N.leb_gt Hv Hf (e & He & Hle). unfold RegisterOrg. mrun.
    rewrite Hn, Hp, Hcap. unfold registered in Hv. rewrite Hv, Hf, bool_decide_false by done.
    replace (existsb _ (GetAllOrgs (kv s))) with true; [done|]. symmetry. apply existsb_exists.
    exists e. split; [by apply list_elem_of_In|]. by apply bool_decide_eq_true.
Qed.

(** C33: who pays for a slot, and where it goes: a successful registration by
    [c] takes exactly the closed-form price from [c], destroys half of it
    (rounded down), credits the rest to the org's own account and changes no
    other balance. *)
Theorem register_org_payment {LAWS : BankLaws B} org c s o s' p :
  GetParams (kv s) = Ok p -> RegisterOrg k org c s = (Ok o, s') ->
  let acct := OrgAccountAddress (o_OrgID o) in
  let price := slot_price_spec p (o_Slot o) in
  c <> acct -> c <> NewModuleAddress ModuleName -> acct <> NewModuleAddress ModuleName ->
  price <= GetBalance (bank_of s) c /\
  GetSupply (bank_of s') + price / 2 = GetSupply (bank_of s) /\
  GetBalance (bank_of s') c + price = GetBalance (bank_of s) c /\
  GetBalance (bank_of s') acct = GetBalance (bank_of s) acct + (price - price / 2) /\
  (forall x, x <> c -> x <> acct -> GetBalance (bank_of s') x = GetBalance (bank_of s) x).
Proof.
  intros Hp H acct price Hc Hcm Ham.
  apply RegisterOrg_ok in H
    as (n & p' & s1 & Hn & Hp' & _ & -> & _ & _ & _ & Hpay & Hpeer & _ & _).
  simpl in *. unfold ComputeSlotPrice in Hpay.
  rewrite (computeAscendingPrice_spec _ p) in Hpay by done.
  unfold bank_of in *. rewrite Hpeer. by eapply paySlotPrice_balances.
Qed.
End Registration.

(** ** The life of an org *)
Section Lifecycle.
Context {B F : Type} {ADDR : Addresses} {BANK : BankKeeper B} {FEEGRANT : FeegrantKeeper F}
  {URL : UrlParser}.
Variable k : Keeper.
Implicit Types s : St org_val (B * F).

(** An org that is not ACTIVE (in particular a CLOSED one) stays as it is:
    no message changes its status again or adds or removes a member. *)
Theorem inactive_org_is_frozen ctx x s r s' id o :
  org_inv (kv s) -> msg_wf x -> deliver (handle k ctx x) s = (r, s') ->
  kv s !! orgKey id = Some (VOrg o) -> so_Status o <> OrgStatus_ACTIVE ->
  exists o', kv s' !! orgKey id = Some (VOrg o') /\ so_Status o' = so_Status o /\
    forall pk, IsMember (kv s') id pk = IsMember (kv s) id pk.
Proof.
  intros HI Hwf H Ho Hst. destruct r; [|apply deliver_err in H as ->; by eauto].
  apply deliver_ok in H. apply handle_step in H; [|done]. revert Ho Hst HI H.
  generalize (kv s), (kv s'). clear. intros m m' Ho Hst HI H.
  by apply (inactive_step m m').
Qed.

(** A leadership transfer moves the leader role and the signing wallet
    together: afterwards the new leader is the only member with the leader
    role, the new wallet is the one org decisions need, and the number of
    members has not changed. *)
Theorem transfer_leadership_spec msg s u s' :
  org_inv (kv s) -> MsgServer_TransferLeadership k msg s = (Ok u, s') ->
  org_inv (kv s') /\
  GetLeaderWallet (kv s') (mt_OrgId msg) = Ok (mt_NewLeaderWallet msg) /\
  (forall pk, IsLeader (kv s') (mt_OrgId msg) pk = Ok (bool_decide (pk = mt_NewLeader msg))) /\
  GetMember (kv s) (mt_OrgId msg) (mt_NewLeader msg) <> Err ErrMemberNotFound /\
  (forall id, member_count id (kv s') = member_count id (kv s)).
Proof.
  unfold MsgServer_TransferLeadership, require_org, TransferLeadership. intros HI H.
  mok H. org_ok. rewrite !lookup_insert_ne in * by other_key. org_ok.
  match goal with |- org_inv ?m' /\ _ => set (m2 := m') end.
  assert (org_inv m2) as HI2 by (eapply inv_transfer; eauto).
  assert (m2 !! orgKey (mt_OrgId msg) = Some (VOrg (o <| so_Leader := mt_NewLeader msg |>
     <| so_LeaderWalletAddress := mt_NewLeaderWallet msg |>))) as Ho2 by apply lookup_insert_eq.
  split; [done|]. split; [unfold GetLeaderWallet, GetOrg; by rewrite Ho2|]. split.
  { intros pk. by apply (IsLeader_spec _ _ _ pk HI2 Ho2). }
  split; [unfold GetMember; by rewrite Hm8|]. intros id. unfold m2. count_other.
  rewrite !member_count_overwrite; [done|by eapply inv_leader|].
  apply lookup_insert_is_Some'. eauto.
Qed.

(** The member counter that [AddMember] and [RemoveMember] maintain agrees
    with the recount of [RecomputeOrgActiveMembers], which therefore changes
    nothing but the activity epoch. *)
Theorem recompute_active_members_agrees id o e s :
  org_inv (kv s) -> roles_ok (kv s) -> counts_fit (kv s) ->
  kv s !! orgKey id = Some (VOrg o) -> getCurrentEpoch (kv s) = Ok e ->
  RecomputeOrgActiveMembers id s =
  (Ok tt, mkSt (<[orgKey id := VOrg (o <| so_LastActivityEpoch := e |>)]> (kv s)) (peers s) (evs s)).
Proof.
  intros HI HR Hc Ho He. unfold RecomputeOrgActiveMembers, modifyOrgAggregate, getStoredOrg. mrun.
  rewrite Ho, He. cbn.
  rewrite (recount_exact _ _ o) by (try done; specialize (Hc id); unfold is_u64; lia).
  reflexivity.
Qed.
End Lifecycle.

(** ** Concrete executions *)
Module OrgDemo.
Import Simple.

Notation state := (St org_val (bank * list (string * string * FeeAllowance))).

Definition k0 : Keeper := mkKeeper "gov" true.
Definition bank0 : bank := mkBank {["alice" := 50000000; "bob" := 40000000]} 90000000.
Definition ctx0 : BlockCtx := mkCtx 7 0.
Definition genesis : state := org_genesis (bank0, []).

Definition register (who leader wallet : string) : msg :=
  RegisterOrgMsg (mkMsgRegisterOrg who leader 100 100 "dev" "hubkey" wallet "d" "go" "f" "n").
Definition add (pk : string) : msg :=
  AddMemberMsg (mkMsgAddMember "wA" "wevibe-org-0" pk "member" "x" true false).
Definition transfer : MsgTransferLeadership :=
  mkMsgTransferLeadership "wA" "wevibe-org-0" "m1" "wM".
Definition close : msg := CloseOrgMsg (mkMsgCloseOrg "wA" "wevibe-org-0").

Definition trace1 : list (BlockCtx * msg) :=
  [(ctx0, register "alice" "pkA" "wA"); (ctx0, add "m1"); (ctx0, add "m2"); (ctx0, add "m2")].
Definition s1 : state := run_msgs k0 trace1 genesis.
Definition s_closed : state := run_msgs k0 [(ctx0, close)] s1.

Lemma s1_inv : org_inv (kv s1) /\ roles_ok (kv s1) /\
  forall id, member_count id (kv s1) <= 4.
Proof.
  destruct (org_genesis_inv (bank0, [] : list (string * string * FeeAllowance))) as (HI & HR & Hc).
  apply (run_msgs_inv k0 trace1 genesis 0); [done..| | |done].
  - intros id. by rewrite Hc.
  - repeat constructor.
Qed.

Lemma s_closed_inv : org_inv (kv s_closed).
Proof.
  destruct s1_inv as (HI & HR & Hc).
  apply (run_msgs_inv k0 [(ctx0, close)] s1 4); [done..| |done]. repeat constructor.
Qed.

Example s1_members : map m_Pubkey (GetAllMembers (kv s1) "wevibe-org-0") = ["m1"; "m2"; "pkA"].
Proof. vm_compute. reflexivity. Qed.

Lemma org_messages_keep_invariant_witness :
  org_inv (kv s1) /\ roles_ok (kv s1).
Proof.
  apply (org_messages_keep_invariant k0 (bank0, []) trace1); [repeat constructor|reflexivity].
Defined.

Lemma handle_refines_spec_witness :
  match (deliver (handle k0 ctx0 close) s1).1 with
  | Err _ => (deliver (handle k0 ctx0 close) s1).2 = s1
  | Ok _ => org_step (kv s1) (kv (deliver (handle k0 ctx0 close) s1).2)
  end.
Proof.
  apply (handle_refines_spec k0 ctx0 close s1); [exact I|]. apply surjective_pairing.
Defined.

Lemma org_decisions_authorized_witness :
  is_ok (handle k0 ctx0 close s1).1 = true /\ GetLeaderWallet (kv s1) "wevibe-org-0" = Ok "wA".
Proof.
  split; [vm_compute; reflexivity|].
  apply (org_decisions_authorized k0 ctx0 close s1 tt (handle k0 ctx0 close s1).2).
  vm_compute. reflexivity.
Defined.

Lemma slot_price_closed_form_witness :
  ComputeSlotPrice (kv genesis) 5 = slot_price_spec DefaultParams 5 /\
  slot_price_spec DefaultParams 5 = 20000000.
Proof.
  split; [|vm_compute; reflexivity]. apply slot_price_closed_form. vm_compute. reflexivity.
Defined.

Definition bob_msg : MsgRegisterOrg :=
  mkMsgRegisterOrg "bob" "pkB" 100 100 "dev" "hubB" "wB" "d" "go" "f" "n".
Definition s2 : state := (MsgServer_RegisterOrg k0 bob_msg s1).2.

Lemma register_org_spec_witness :
  exists org, GetOrg (kv s2) "wevibe-org-1" = Ok org /\ o_Slot org = 1 /\
    member_count "wevibe-org-1" (kv s2) = 1.
Proof.
  destruct (register_org_spec k0 bob_msg s1 "wevibe-org-1" s2) as
    (n & p & org & Hn & _ & _ & _ & _ & _ & _ & Ho & _ & Hs & _ & _ & _ & _ & _ & Hc).
  - apply s1_inv.
  - vm_compute. reflexivity.
  - exists org. split; [exact Ho|]. split; [|exact Hc]. rewrite Hs. vm_compute in Hn. congruence.
Defined.

Definition org_of (leader : string) : Org := NewOrg "" leader "dev" "d" "go" "f" 100 100.

Lemma register_org_rejects_witness :
  RegisterOrg k0 (org_of "pkA") "bob" s1 = (Err ErrLeaderAlreadyOwnsOrg, s1).
Proof.
  apply (register_org_rejects k0 (org_of "pkA") "bob" s1 1 DefaultParams).
  - vm_compute. reflexivity.
  - vm_compute. reflexivity.
  - vm_compute. reflexivity.
  - vm_compute. reflexivity.
  - vm_compute. reflexivity.
  - destruct (GetAllOrgs (kv s1)) as [|e l] eqn:E; [vm_compute in E; discriminate|].
    exists e. split; [left|]. vm_compute in E. injection E as <- _. reflexivity.
Defined.

Lemma register_org_payment_witness :
  GetBalance (bank_of s2) "bob" + 12000000 = GetBalance (bank_of s1) "bob" /\
  GetBalance (bank_of s2) (OrgAccountAddress "wevibe-org-1") =
    GetBalance (bank_of s1) (OrgAccountAddress "wevibe-org-1") + 6000000.
Proof.
  assert (exists o s', RegisterOrg k0 (org_of "pkB") "bob" s1 = (Ok o, s') /\
    o_Slot o = 1 /\ o_OrgID o = "wevibe-org-1" /\ bank_of s' = bank_of s2)
    as (o & s' & H & Hsl & Hid & Hb).
  { do 2 eexists. split; [vm_compute; reflexivity|]. split; [reflexivity|].
    split; [reflexivity|]. vm_compute. reflexivity. }
  destruct (register_org_payment k0 (org_of "pkB") "bob" s1 o s' DefaultParams)
    as (_ & _ & H1 & H2 & _).
  - vm_compute. reflexivity.
  - exact H.
  - rewrite Hid. discriminate.
  - discriminate.
  - rewrite Hid. discriminate.
  - rewrite Hsl, Hid, Hb in *. split; [exact H1|exact H2].
Defined.

Lemma inactive_org_is_frozen_witness :
  exists o', kv (deliver (handle k0 ctx0 (add "m9")) s_closed).2 !! orgKey "wevibe-org-0"
               = Some (VOrg o') /\ so_Status o' = OrgStatus_CLOSED.
Proof.
  destruct (kv s_closed !! orgKey "wevibe-org-0") as [v|] eqn:E; [|vm_compute in E; discriminate].
  pose proof E as E'. vm_compute in E'. injection E' as <-.
  destruct (inactive_org_is_frozen k0 ctx0 (add "m9") s_closed
    (deliver (handle k0 ctx0 (add "m9")) s_closed).1
    (deliver (handle k0 ctx0 (add "m9")) s_closed).2 "wevibe-org-0" _ s_closed_inv I
    (surjective_pairing _) E) as (o' & H1 & H2 & _).
  - discriminate.
  - exists o'. split; [exact H1|exact H2].
Defined.

Lemma transfer_leadership_spec_witness :
  GetLeaderWallet (kv (MsgServer_TransferLeadership k0 transfer s1).2) "wevibe-org-0" = Ok "wM" /\
  IsLeader (kv (MsgServer_TransferLeadership k0 transfer s1).2) "wevibe-org-0" "pkA" = Ok false.
Proof.
  destruct (transfer_leadership_spec k0 transfer s1 tt (MsgServer_TransferLeadership k0 transfer s1).2)
    as (_ & H1 & H2 & _).
  - apply s1_inv.
  - vm_compute. reflexivity.
  - split; [exact H1|exact (H2 "pkA")].
Defined.

Lemma recompute_active_members_agrees_witness :
  exists o, kv s1 !! orgKey "wevibe-org-0" = Some (VOrg o) /\ so_TotalActiveMembers o = 3 /\
    RecomputeOrgActiveMembers "wevibe-org-0" s1 =
    (Ok tt, mkSt (<[orgKey "wevibe-org-0" := VOrg (o <| so_LastActivityEpoch := 0 |>)]> (kv s1))
              (peers s1) (evs s1)).
Proof.
  destruct (kv s1 !! orgKey "wevibe-org-0") as [v|] eqn:E; [|vm_compute in E; discriminate].
  pose proof E as E'. vm_compute in E'. injection E' as <-.
  eexists. split; [reflexivity|]. split; [reflexivity|].
  apply (recompute_active_members_agrees "wevibe-org-0" _ 0 s1).
  - apply s1_inv.
  - apply s1_inv.
  - intros id. destruct s1_inv as (_ & _ & Hc). specialize (Hc id). unfold two64. lia.
  - exact E.
  - vm_compute. reflexivity.
Defined.

(** *** What the model shows beside the invariant *)

(** Registration refuses a leader who already leads an org, but a transfer
    does not: bob's org can be handed to a member whose key already leads
    another org. *)
Definition bob_gives_alice : list (BlockCtx * msg) :=
  [(ctx0, register "bob" "pkB" "wB");
   (ctx0, AddMemberMsg (mkMsgAddMember "wB" "wevibe-org-1" "pkA" "member" "x" true true));
   (ctx0, TransferLeadershipMsg (mkMsgTransferLeadership "wB" "wevibe-org-1" "pkA" "wA"))].

(** One leader can end up leading two orgs: registration's "one org per
    leader" rule is not enforced by leadership transfer. *)
Theorem transfer_allows_two_orgs_per_leader :
  map o_Leader (GetAllOrgs (kv (run_msgs k0 bob_gives_alice s1))) = ["pkA"; "pkA"].
Proof. vm_compute. reflexivity. Qed.

(** A genesis export of the running chain, imported into a fresh store. *)
Definition reimported : state :=
  match ExportGenesis (kv s1) with
  | Ok g => (InitGenesis g (mkSt ∅ (peers s1) [])).2
  | Err _ => s1
  end.

(** The genesis round trip loses the member counter: the exported [Org] has
    no aggregates, so an imported org restarts with [TotalActiveMembers = 0]
    beside its three member records. *)
Theorem genesis_roundtrip_resets_member_counter :
  length (GetAllMembers (kv s1) "wevibe-org-0") = 3%nat /\
  length (GetAllMembers (kv reimported) "wevibe-org-0") = 3%nat /\
  match kv reimported !! orgKey "wevibe-org-0" with
  | Some (VOrg o) => so_TotalActiveMembers o = 0
  | _ => False
  end.
Proof. vm_compute. auto. Qed.
End OrgDemo.
