(* ===== verification/Emissions.v ===== *)
(** * x/emissions: the emission pool, contributor rewards, bootstrap credits

    Models x/emissions/types (keys.go, params.go, genesis.go, msgs.go) and
    x/emissions/keeper (keeper.go, msg_server.go, epoch_hooks.go), with the
    module's [InitGenesis].  The keepers it calls are reached through the
    classes below, which mirror types/expected_keepers.go; the bank is
    [Ifaces.BankKeeper] on the same peer state. *)

From S2P Require Import Prelude Bytes Store Ifaces.
Local Open Scope string_scope.
Local Open Scope N_scope.

(** ** Expected keepers (types/expected_keepers.go) *)
Class MemoryKeeper (P : Type) := {
  GetContributorsWithApprovalsInEpoch : P -> N -> result (gmap string N);
}.

Class IdentityKeeper (P : Type) := {
  (** wallet address, is_migrated, found *)
  ResolveIdentity : P -> string -> result (string * bool * bool);
}.

(** ** Data *)
(** [types.EmissionPool] (types/keys.go); [StoredEmissionPool] has the same fields. *)
Record EmissionPool := mkEmissionPool {
  ep_TotalSupply : N; ep_DailyMint : N; ep_OperatorShare : N; ep_ValidatorShare : N;
  ep_Epoch : N; ep_ValidatorPoolRemainingUvibe : N; ep_ContributorPoolRemainingUvibe : N;
  ep_ContributorRolloverUvibe : N; ep_StartEpoch : N; ep_TotalEpochsElapsed : N;
}.
#[export] Instance EmissionPool_fields : Fields EmissionPool :=
  fun r => mkEmissionPool (ep_TotalSupply r) (ep_DailyMint r) (ep_OperatorShare r)
    (ep_ValidatorShare r) (ep_Epoch r) (ep_ValidatorPoolRemainingUvibe r)
    (ep_ContributorPoolRemainingUvibe r) (ep_ContributorRolloverUvibe r) (ep_StartEpoch r)
    (ep_TotalEpochsElapsed r).

(** [types.DailyEmission] and [StoredDailyEmission]. *)
Record DailyEmission := mkDailyEmission {
  de_Epoch : N; de_TotalEmitted : N; de_ValidatorShare : N;
}.
#[export] Instance DailyEmission_fields : Fields DailyEmission :=
  fun r => mkDailyEmission (de_Epoch r) (de_TotalEmitted r)
      (de_ValidatorShare r).

(** [types.BootstrapCredit] and [StoredBootstrapCredit]. *)
Record BootstrapCredit := mkBootstrapCredit {
  bc_OperatorID : string; bc_Credits : N; bc_Redeemed : N;
}.
#[export] Instance BootstrapCredit_fields : Fields BootstrapCredit :=
  fun r => mkBootstrapCredit (bc_OperatorID r) (bc_Credits r) (bc_Redeemed r).

(** [types.AsymmetricGate] and [StoredAsymmetricGate]. *)
Record AsymmetricGate := mkAsymmetricGate {
  ag_OperatorID : string; ag_OrgID : string; ag_StoragePassed : bool;
  ag_RetrievalAllowed : bool; ag_Epoch : N;
}.
#[export] Instance AsymmetricGate_fields : Fields AsymmetricGate :=
  fun r => mkAsymmetricGate (ag_OperatorID r) (ag_OrgID r)
      (ag_StoragePassed r) (ag_RetrievalAllowed r) (ag_Epoch r).

(** [types.Params] (types/params.pb.go). *)
Record Params := mkParams {
  p_DailyMintAmount : N; p_OperatorSharePercent : N; p_ValidatorSharePercent : N;
  p_StorageWeightPercent : N; p_RetrievalWeightPercent : N; p_RarityMultiplierCap : string;
  p_BootstrapDurationEpochs : N; p_TotalSupplyUvibe : N; p_ValidatorEmissionPoolUvibe : N;
  p_ContributorAnnualCapUvibe : N; p_ScheduleDurationDays : N;
  p_ContributorQualifyThreshold : N;
}.
#[export] Instance Params_fields : Fields Params :=
  fun r => mkParams (p_DailyMintAmount r) (p_OperatorSharePercent r)
    (p_ValidatorSharePercent r) (p_StorageWeightPercent r) (p_RetrievalWeightPercent r)
    (p_RarityMultiplierCap r) (p_BootstrapDurationEpochs r) (p_TotalSupplyUvibe r)
    (p_ValidatorEmissionPoolUvibe r) (p_ContributorAnnualCapUvibe r)
    (p_ScheduleDurationDays r) (p_ContributorQualifyThreshold r).

Record MsgMintDailyEmission := mkMsgMintDailyEmission {
  mm_Authority : string; mm_Epoch : N;
}.

Record MsgUpdateParams := mkMsgUpdateParams {
  mu_Authority : string; mu_Params : option Params;
}.

Record MsgClaimContributorReward := mkMsgClaimContributorReward {
  mc_Signer : string; mc_PasskeyPubkey : string;
}.

(** [types.GenesisState] (types/genesis.go). *)
Record GenesisState := mkGenesisState {
  g_EmissionPool : option EmissionPool; g_DailyEmissions : list DailyEmission;
  g_BootstrapCredits : list BootstrapCredit; g_AsymmetricGates : list AsymmetricGate;
  g_BootstrapExpiry : N;
}.

(** ** Errors (types/errors.go) *)
Definition ErrInvalidEmissionPool := Sentinel "emissions" "invalid emission pool".
Definition ErrNoEmissionPool := Sentinel "emissions" "no emission pool found".
Definition ErrInsufficientBalance := Sentinel "emissions" "insufficient balance".
Definition ErrBootstrapExpired := Sentinel "emissions" "bootstrap period expired".
Definition ErrNoBootstrapPool := Sentinel "emissions" "no bootstrap pool found".
Definition ErrUnauthorized := Sentinel "emissions" "unauthorized".
Definition ErrNotMigrated := Sentinel "emissions" "identity not migrated".
Definition ErrUnauthorizedClaim := Sentinel "emissions" "unauthorized claim".
Definition ErrNothingToClaim := Sentinel "emissions" "nothing to claim".
Definition ErrInvalidWalletAddress := Sentinel "emissions" "invalid wallet address".

Definition EmissionsModuleName := "emissions".
Definition EpochsPerYear : N := 365.

Definition DefaultParams : Params := {|
  p_DailyMintAmount := 1000000000;
  p_OperatorSharePercent := 80;
  p_ValidatorSharePercent := 20;
  p_StorageWeightPercent := 30;
  p_RetrievalWeightPercent := 70;
  p_RarityMultiplierCap := "3.0";
  p_BootstrapDurationEpochs := 365;
  p_TotalSupplyUvibe := 1000000000000000;
  p_ValidatorEmissionPoolUvibe := 570000000000000;
  p_ContributorAnnualCapUvibe := 10000000000000;
  p_ScheduleDurationDays := 11680;
  p_ContributorQualifyThreshold := 1;
|}.

Definition Params_Validate (p : Params) : result unit :=
  err_if (negb ((p_OperatorSharePercent p + p_ValidatorSharePercent p)%u64 =? 100))
    (Errorf "operator_share_percent + validator_share_percent must equal 100") ;;
  err_if (negb ((p_StorageWeightPercent p + p_RetrievalWeightPercent p)%u64 =? 100))
    (Errorf "storage_weight_percent + retrieval_weight_percent must equal 100").

Definition EmissionPool_Validate (p : EmissionPool) : result unit :=
  err_if (negb ((ep_OperatorShare p + ep_ValidatorShare p)%u64 =? 100)) ErrInvalidEmissionPool.

Definition NewDailyEmission (epoch totalEmitted validatorShare : N) : DailyEmission :=
  mkDailyEmission epoch totalEmitted validatorShare.

Definition NewBootstrapCredit (operatorID : string) (credits : N) : BootstrapCredit :=
  mkBootstrapCredit operatorID credits 0.

Definition CanRedeem (b : BootstrapCredit) (amount : N) : bool :=
  amount <=? (bc_Credits b - bc_Redeemed b)%u64.

Definition Redeem (b : BootstrapCredit) (amount : N) : result BootstrapCredit :=
  err_if (negb (CanRedeem b amount)) ErrInsufficientBalance ;;
  mret (b <| bc_Redeemed := (bc_Redeemed b + amount)%u64 |>).

Definition NewAsymmetricGate (operatorID orgID : string) (storagePassed : bool) (epoch : N) :
    AsymmetricGate :=
  mkAsymmetricGate operatorID orgID storagePassed storagePassed epoch.

Definition DefaultEmissionPool : EmissionPool :=
  let p := DefaultParams in
  let years := p_ScheduleDurationDays p / EpochsPerYear in
  {| ep_TotalSupply := 0;
     ep_DailyMint := p_DailyMintAmount p;
     ep_OperatorShare := p_OperatorSharePercent p;
     ep_ValidatorShare := p_ValidatorSharePercent p;
     ep_Epoch := 0;
     ep_ValidatorPoolRemainingUvibe := p_ValidatorEmissionPoolUvibe p;
     ep_ContributorPoolRemainingUvibe := (p_ContributorAnnualCapUvibe p * years)%u64;
     ep_ContributorRolloverUvibe := 0;
     ep_StartEpoch := 0;
     ep_TotalEpochsElapsed := 0 |}.

Definition DefaultGenesis : GenesisState :=
  mkGenesisState (Some DefaultEmissionPool) [] [] [] 0.

Definition GenesisState_Validate (g : GenesisState) : result unit :=
  match g_EmissionPool g with None => mret tt | Some p => EmissionPool_Validate p end.

(** ** The store *)
Inductive emi_val :=
  | VParams (p : Params)
  | VPool (p : EmissionPool)
  | VEmission (e : DailyEmission)
  | VCredit (c : BootstrapCredit)
  | VGate (g : AsymmetricGate)
  | VRaw (b : string).

Definition KeyPrefixPool := "pool/".
Definition KeyPrefixEmission := "emission/".
Definition KeyPrefixGate := "gate/".
Definition KeyPrefixBootstrap := "bootstrap/".
Definition KeyPrefixBootstrapPool := "bootstrappool/".
Definition KeyPrefixContribReward := "contribreward/".
Definition KeyPrefixLifetimeReward := "lifetimereward/".

Definition poolKey : string := KeyPrefixPool.
Definition emissionKey (epoch : N) : string := KeyPrefixEmission +:+ FormatUint epoch.
Definition gateKey (operatorID orgID : string) (epoch : N) : string :=
  KeyPrefixGate +:+ operatorID +:+ "/" +:+ orgID +:+ "/" +:+ FormatUint epoch.
Definition bootstrapKey (operatorID : string) : string := KeyPrefixBootstrap +:+ operatorID.
Definition bootstrapPoolKey : string := KeyPrefixBootstrapPool.
Definition contribRewardKey (addr : string) : string := KeyPrefixContribReward +:+ addr.
Definition lifetimeRewardKey (addr : string) : string := KeyPrefixLifetimeReward +:+ addr.
Definition ParamsKey : string := "params".
Definition bootstrapExpiryKey : string := "bootstrapExpiry".

(** [strconv.ParseUint] of a stored decimal; a record is not a decimal. *)
Definition parse_raw (what : string) (v : emi_val) : result N :=
  match v with
  | VRaw b => from_option_err (Errorf ("parse " +:+ what)) (ParseUint b)
  | _ => Err (Errorf ("parse " +:+ what))
  end.

(** A decimal counter, zero when absent. *)
Definition read_counter (what key : string) (m : gmap string emi_val) : result N :=
  match m !! key with None => Ok 0 | Some v => parse_raw what v end.

Definition VUint (x : N) : emi_val := VRaw (FormatUint x).

(** ** Reads *)
Section Reads.
Implicit Types m : gmap string emi_val.

Definition GetParams m : result Params :=
  match m !! ParamsKey with
  | None => Ok DefaultParams
  | Some (VParams p) => Ok p
  | Some _ => Err (Errorf "unmarshal params")
  end.

Definition GetEmissionPool m : result EmissionPool :=
  match m !! poolKey with
  | None => Err ErrNoEmissionPool
  | Some (VPool p) => Ok p
  | Some _ => Err (Errorf "unmarshal emission pool")
  end.

Definition GetContributorReward m (addr : string) : result N :=
  read_counter "contributor reward" (contribRewardKey addr) m.

Definition GetLifetimeContributorReward m (addr : string) : result N :=
  read_counter "contributor lifetime reward" (lifetimeRewardKey addr) m.

(** The address is the key without its prefix; unparsable values are skipped. *)
Definition GetAllContributorRewards m : gmap string N :=
  foldl (fun rewards kv => match parse_raw "" kv.2 with
    | Ok amount =>
        <[String.substring (String.length KeyPrefixContribReward)
            (String.length kv.1 - String.length KeyPrefixContribReward) kv.1 := amount]> rewards
    | Err _ => rewards
    end) ∅ (prefix_iter KeyPrefixContribReward m).

Definition GetDailyEmission m (epoch : N) : result DailyEmission :=
  match m !! emissionKey epoch with
  | None => Err (Errorf "daily emission not found for epoch")
  | Some (VEmission e) => Ok e
  | Some _ => Err (Errorf "unmarshal daily emission")
  end.

Definition GetAsymmetricGate m (operatorID orgID : string) (epoch : N) : result AsymmetricGate :=
  match m !! gateKey operatorID orgID epoch with
  | None => Ok (NewAsymmetricGate operatorID orgID true epoch)
  | Some (VGate g) => Ok g
  | Some _ => Err (Errorf "unmarshal asymmetric gate")
  end.

Definition CheckRetrievalAllowed m (operatorID orgID : string) (epoch : N) : result bool :=
  gate ← GetAsymmetricGate m operatorID orgID epoch; mret (ag_RetrievalAllowed gate).

Definition GetBootstrapCredits m : result N :=
  match m !! bootstrapPoolKey with
  | None => Err ErrNoBootstrapPool
  | Some v => parse_raw "bootstrap credits" v
  end.

Definition GetBootstrapCredit m (operatorID : string) : result BootstrapCredit :=
  match m !! bootstrapKey operatorID with
  | None => Ok (NewBootstrapCredit operatorID 0)
  | Some (VCredit c) => Ok c
  | Some _ => Err (Errorf "unmarshal bootstrap credit")
  end.

(** The parse error is dropped; only decimals are ever stored here. *)
Definition getBootstrapExpiry m : N :=
  match read_counter "" bootstrapExpiryKey m with Ok x => x | Err _ => 0 end.

Definition IsBootstrapExpired m (currentEpoch : N) : bool := getBootstrapExpiry m <? currentEpoch.

Definition ExportGenesis m : result GenesisState :=
  pool ← match m !! poolKey with
         | None => Ok (mkEmissionPool 0 0 0 0 0 0 0 0 0 0)
         | Some (VPool p) => Ok p
         | Some _ => Err (Errorf "unmarshal emission pool")
         end;
  mret {|
    g_EmissionPool := Some pool;
    g_DailyEmissions := omap (fun kv => match kv.2 with VEmission e => Some e | _ => None end)
      (prefix_iter KeyPrefixEmission m);
    g_BootstrapCredits := omap (fun kv => match kv.2 with VCredit c => Some c | _ => None end)
      (prefix_iter KeyPrefixBootstrap m);
    g_AsymmetricGates := omap (fun kv => match kv.2 with VGate g => Some g | _ => None end)
      (prefix_iter KeyPrefixGate m);
    g_BootstrapExpiry := getBootstrapExpiry m;
  |}.
End Reads.

(** ** The emission of one epoch: pure parts *)

Definition remaining_epochs (params : Params) (pool : EmissionPool) : N :=
  if ep_TotalEpochsElapsed pool <? p_ScheduleDurationDays params
  then (p_ScheduleDurationDays params - ep_TotalEpochsElapsed pool)%u64
  else 1.

(** The validator emission and the pool without it. *)
Definition take_validator (remainingEpochs : N) (pool : EmissionPool) : N * EmissionPool :=
  if 0 <? ep_ValidatorPoolRemainingUvibe pool then
    let e := ep_ValidatorPoolRemainingUvibe pool / remainingEpochs in
    let e := if ep_ValidatorPoolRemainingUvibe pool <? e
             then ep_ValidatorPoolRemainingUvibe pool else e in
    (e, pool <| ep_ValidatorPoolRemainingUvibe :=
          (ep_ValidatorPoolRemainingUvibe pool - e)%u64 |>)
  else (0, pool).

(** The contributor budget of the epoch and the pool without it. *)
Definition take_contributor (params : Params) (remainingEpochs : N) (pool : EmissionPool) :
    N * EmissionPool :=
  if 0 <? ep_ContributorPoolRemainingUvibe pool then
    let b := ep_ContributorPoolRemainingUvibe pool / remainingEpochs in
    let epochCap := p_ContributorAnnualCapUvibe params / EpochsPerYear in
    let b := if (0 <? epochCap) && (epochCap <? b) then epochCap else b in
    let b := if ep_ContributorPoolRemainingUvibe pool <? b
             then ep_ContributorPoolRemainingUvibe pool else b in
    (b, pool <| ep_ContributorPoolRemainingUvibe :=
          (ep_ContributorPoolRemainingUvibe pool - b)%u64 |>)
  else (0, pool).

(** The addresses with enough approvals, sorted: the order in which Go visits
    the map does not matter. *)
Definition qualifying (threshold : N) (counts : gmap string N) : list string :=
  merge_sort String.le
    (map_to_list (filter (fun ac => ac.1 <> "" /\ threshold <= ac.2) counts)).*1.

(** What each contributor gets, and what is carried to the next epoch. *)
Definition split_budget (budget rollover : N) (n : N) : N * N :=
  let total := (budget + rollover)%u64 in (total / n, total mod n).

(** ** The keeper *)
Record Keeper := mkKeeper { authority : string }.

Definition WeVibeEpochIdentifier := "wevibe_epoch".

Section KeeperOps.
Context {P : Type} {ADDR : Addresses} {BANK : BankKeeper P} {MEM : MemoryKeeper P}
  {IDENT : IdentityKeeper P}.
Variable k : Keeper.

Notation S := (St emi_val P).

Definition SetParams (params : Params) : M S unit := kset ParamsKey (VParams params).

Definition SetEmissionPool (pool : EmissionPool) : M S unit :=
  lift (EmissionPool_Validate pool) ;;
  kset poolKey (VPool pool).

Definition AddContributorReward (addr : string) (amount : N) : M S unit :=
  currentPending ← kread (fun m => GetContributorReward m addr);
  kset (contribRewardKey addr) (VUint (currentPending + amount)%u64) ;;
  currentLifetime ← kread (fun m => GetLifetimeContributorReward m addr);
  kset (lifetimeRewardKey addr) (VUint (currentLifetime + amount)%u64).

Definition SetContributorReward (addr : string) (amount : N) : M S unit :=
  kset (contribRewardKey addr) (VUint amount).

(** Pays the qualifying contributors their equal shares; returns what was
    distributed and the new rollover. *)
Definition distribute (quals : list string) (budget rollover : N) : M S (N * N) :=
  if bool_decide (quals = []) then mret (0, (rollover + budget)%u64)
  else
    let n := N.of_nat (length quals) in
    let per := (split_budget budget rollover n).1 in
    let remainder := (split_budget budget rollover n).2 in
    for_each quals (fun addr => if 0 <? per then AddContributorReward addr per else mret tt) ;;
    mret ((per * n)%u64, remainder).

Definition MintDailyEmission (epoch : N) : M S DailyEmission :=
  pool ← map_err (fun _ => ErrNoEmissionPool) (kread GetEmissionPool);
  fail_if (epoch <=? ep_Epoch pool)
    (Errorf "epoch must be greater than last emission epoch") ;;
  params ← kread GetParams;
  let remainingEpochs := remaining_epochs params pool in
  let '(validatorEmission, pool) := take_validator remainingEpochs pool in
  let '(contributorBudget, pool) := take_contributor params remainingEpochs pool in
  r ← attempt (peer_read (fun p => GetContributorsWithApprovalsInEpoch p epoch));
  let counts := match r with Ok c => c | Err _ => ∅ end in
  let quals := qualifying (p_ContributorQualifyThreshold params) counts in
  dr ← distribute quals contributorBudget (ep_ContributorRolloverUvibe pool);
  let '(distributed, rollover) := dr in
  let pool := pool <| ep_ContributorRolloverUvibe := rollover |> in
  (if 0 <? distributed
   then on_peers (MintCoins EmissionsModuleName (uvibe distributed))
   else mret tt) ;;
  let totalEmitted := (validatorEmission + distributed)%u64 in
  let emission := NewDailyEmission epoch totalEmitted validatorEmission in
  kset (emissionKey epoch) (VEmission emission) ;;
  let pool := if (ep_StartEpoch pool =? 0) && (ep_TotalEpochsElapsed pool =? 0)
              then pool <| ep_StartEpoch := epoch |> else pool in
  let pool := pool <| ep_TotalEpochsElapsed := (ep_TotalEpochsElapsed pool + 1)%u64 |>
                   <| ep_Epoch := epoch |>
                   <| ep_TotalSupply := (ep_TotalSupply pool + totalEmitted)%u64 |> in
  SetEmissionPool pool ;;
  mret emission.

Definition SetAvgRetrievalVolume (avg : N) : M S unit := kset "avgresrievalvolume" (VUint avg).

Definition SetAsymmetricGate (gate : AsymmetricGate) : M S unit :=
  kset (gateKey (ag_OperatorID gate) (ag_OrgID gate) (ag_Epoch gate)) (VGate gate).

Definition SetBootstrapCredits (credits : N) : M S unit := kset bootstrapPoolKey (VUint credits).

Definition RedeemBootstrapCredit (operatorID : string) (amount : N) : M S unit :=
  currentEpoch ← kread (fun m => Ok (getBootstrapExpiry m));
  fail_if (currentEpoch =? 0) ErrBootstrapExpired ;;
  credit ← kread (fun m => GetBootstrapCredit m operatorID);
  credit ← lift (Redeem credit amount);
  kset (bootstrapKey operatorID) (VCredit credit) ;;
  r ← attempt (kread GetBootstrapCredits);
  let bootstrapPool := match r with Ok c => c | Err _ => 0 end in
  kset bootstrapPoolKey (VUint (bootstrapPool - amount)%u64).

Definition AddBootstrapCredit (operatorID : string) (credits : N) : M S unit :=
  v ← kget (bootstrapKey operatorID);
  match v with
  | None => kset (bootstrapKey operatorID) (VCredit (NewBootstrapCredit operatorID credits))
  | Some (VCredit c) =>
      kset (bootstrapKey operatorID)
        (VCredit (c <| bc_Credits := (bc_Credits c + credits)%u64 |>))
  | Some _ => mret tt
  end.

Definition SetBootstrapExpiry (expiry : N) : M S unit := kset bootstrapExpiryKey (VUint expiry).

Definition InitGenesis (state : GenesisState) : M S unit :=
  match g_EmissionPool state with
  | None => mret tt
  | Some p => kset poolKey (VPool p)
  end ;;
  for_each (g_DailyEmissions state) (fun e => kset (emissionKey (de_Epoch e)) (VEmission e)) ;;
  for_each (g_BootstrapCredits state) (fun c => kset (bootstrapKey (bc_OperatorID c)) (VCredit c)) ;;
  for_each (g_AsymmetricGates state) (fun g =>
    kset (gateKey (ag_OperatorID g) (ag_OrgID g) (ag_Epoch g)) (VGate g)) ;;
  if 0 <? g_BootstrapExpiry state
  then kset bootstrapExpiryKey (VUint (g_BootstrapExpiry state))
  else mret tt.

(** The module's [InitGenesis] (module/module.go): [None] is an absent genesis
    entry. *)
Definition Module_InitGenesis (supplied : option GenesisState) : M S unit :=
  let state := default DefaultGenesis supplied in
  let state := match g_EmissionPool state with
    | Some _ => state
    | None => mkGenesisState (Some DefaultEmissionPool) (g_DailyEmissions state)
                (g_BootstrapCredits state) (g_AsymmetricGates state) (g_BootstrapExpiry state)
    end in
  SetParams DefaultParams ;;
  InitGenesis state.

(** ** Epoch hooks (epoch_hooks.go) *)

(** The error of a failed mint is logged and dropped; what it wrote stays. *)
Definition AfterEpochEnd (epochIdentifier : string) (epochNumber : Z) : M S unit :=
  if negb (bool_decide (epochIdentifier = WeVibeEpochIdentifier)) then mret tt
  else attempt (MintDailyEmission (u64_of_int64 epochNumber)) ;; mret tt.

Definition BeforeEpochStart (epochIdentifier : string) (epochNumber : Z) : M S unit := mret tt.

(** ** Messages *)
Definition MsgMintDailyEmission_ValidateBasic (m : MsgMintDailyEmission) : result unit :=
  err_if (bool_decide (mm_Authority m = "")) (Errorf "authority cannot be empty") ;;
  err_if (mm_Epoch m =? 0) (Errorf "epoch must be greater than 0").

Definition Params_ptr_Validate (p : option Params) : result unit :=
  match p with
  | None => Err (Panic "nil pointer dereference")
  | Some p => Params_Validate p
  end.

Definition MsgUpdateParams_ValidateBasic (m : MsgUpdateParams) : result unit :=
  err_if (bool_decide (mu_Authority m = "")) (Errorf "authority cannot be empty") ;;
  Params_ptr_Validate (mu_Params m).

Definition MsgClaimContributorReward_ValidateBasic (m : MsgClaimContributorReward) : result unit :=
  err_if (bool_decide (mc_Signer m = "")) (Errorf "signer cannot be empty") ;;
  err_if (bool_decide (mc_PasskeyPubkey m = "")) (Errorf "passkey_pubkey cannot be empty").

(** The response: total emitted, operator share, validator share. *)
Definition MsgServer_MintDailyEmission (msg : MsgMintDailyEmission) : M S (N * N * N) :=
  lift (MsgMintDailyEmission_ValidateBasic msg) ;;
  fail_if (negb (bool_decide (mm_Authority msg = authority k))) ErrUnauthorized ;;
  emission ← MintDailyEmission (mm_Epoch msg);
  mret (de_TotalEmitted emission, 0, de_ValidatorShare emission).

Definition MsgServer_UpdateParams (msg : MsgUpdateParams) : M S unit :=
  fail_if (negb (bool_decide (mu_Authority msg = authority k))) ErrUnauthorized ;;
  lift (Params_ptr_Validate (mu_Params msg)) ;;
  match mu_Params msg with
  | None => fail (Panic "nil pointer dereference")
  | Some p => SetParams p
  end.

Definition MsgServer_ClaimContributorReward (msg : MsgClaimContributorReward) : M S N :=
  lift (MsgClaimContributorReward_ValidateBasic msg) ;;
  res ← peer_read (fun p => ResolveIdentity p (mc_PasskeyPubkey msg));
  let '(wallet, isMigrated, found) := res in
  fail_if (negb found || negb isMigrated) ErrNotMigrated ;;
  fail_if (negb (bool_decide (wallet = mc_Signer msg))) ErrUnauthorizedClaim ;;
  balance ← kread (fun m => GetContributorReward m (mc_PasskeyPubkey msg));
  fail_if (balance =? 0) ErrNothingToClaim ;;
  recipient ← map_err (fun _ => ErrInvalidWalletAddress)
                (lift (AccAddressFromBech32 (mc_Signer msg)));
  on_peers (SendCoinsFromModuleToAccount EmissionsModuleName recipient (uvibe balance)) ;;
  SetContributorReward (mc_PasskeyPubkey msg) 0 ;;
  emit (mkEvent "emissions.contributor_reward_claimed" [
    ("passkey_pubkey", mc_PasskeyPubkey msg); ("wallet", mc_Signer msg);
    ("amount", FormatUint balance)]) ;;
  mret balance.
End KeeperOps.
