(* ===== verification/EmissionsFacts.v ===== *)
(** * Correctness of x/emissions

    Accounting of the emission pool, solvency of the contributor rewards and
    the validator schedule. *)

From S2P Require Import Prelude Bytes Store Ifaces Emissions.
Local Open Scope string_scope.
Local Open Scope N_scope.

Implicit Types m : gmap string emi_val.

(** ** Pool accounting *)

(** Everything the pool has emitted or can still emit. *)
Definition pool_total (p : EmissionPool) : N :=
  ep_TotalSupply p + ep_ValidatorPoolRemainingUvibe p +
  ep_ContributorPoolRemainingUvibe p + ep_ContributorRolloverUvibe p.

Lemma remaining_epochs_pos params pool :
  is_u64 (p_ScheduleDurationDays params) -> 0 < remaining_epochs params pool.
Proof.
  intros Hu. unfold remaining_epochs. destruct (_ <? _) eqn:E; gok; [|lia].
  rewrite u64_sub_small by (lia || done). lia.
Qed.

(** Taking the validator emission moves it out of the validator pool and
    touches nothing else. *)
Lemma take_validator_spec r pool e pool' :
  0 < r -> is_u64 (ep_ValidatorPoolRemainingUvibe pool) ->
  take_validator r pool = (e, pool') ->
  e = ep_ValidatorPoolRemainingUvibe pool / r /\
  pool' = pool <| ep_ValidatorPoolRemainingUvibe := ep_ValidatorPoolRemainingUvibe pool - e |> /\
  e <= ep_ValidatorPoolRemainingUvibe pool.
Proof.
  intros Hr Hu. unfold take_validator. destruct (0 <? _) eqn:E; gok.
  - assert (ep_ValidatorPoolRemainingUvibe pool / r <= ep_ValidatorPoolRemainingUvibe pool)
      by (apply N.Div0.div_le_upper_bound; nia).
    rewrite (proj2 (N.ltb_ge _ _)) by done. intros [= <- <-].
    by rewrite u64_sub_small.
  - intros [= <- <-]. assert (ep_ValidatorPoolRemainingUvibe pool = 0) as Hz by lia.
    rewrite Hz, N.Div0.div_0_l. repeat split; [|lia]. destruct pool; simpl in *. by subst.
Qed.

Lemma take_contributor_spec params r pool b pool' :
  0 < r -> is_u64 (ep_ContributorPoolRemainingUvibe pool) ->
  take_contributor params r pool = (b, pool') ->
  b <= ep_ContributorPoolRemainingUvibe pool / r /\
  pool' = pool <| ep_ContributorPoolRemainingUvibe := ep_ContributorPoolRemainingUvibe pool - b |> /\
  b <= ep_ContributorPoolRemainingUvibe pool.
Proof.
  intros Hr Hu. unfold take_contributor. destruct (0 <? ep_ContributorPoolRemainingUvibe pool) eqn:E; gok.
  - set (c := ep_ContributorPoolRemainingUvibe pool) in *.
    assert (c / r <= c) by (apply N.Div0.div_le_upper_bound; nia).
    set (b0 := if _ && _ then _ else _).
    assert (b0 <= c / r) by (unfold b0; destruct (_ && _) eqn:E2; gok; lia).
    rewrite (proj2 (N.ltb_ge c b0)) by lia. intros [= <- <-].
    split; [done|]. split; [|lia]. unfold c in *. by rewrite u64_sub_small by (lia || done).
  - intros [= <- <-]. assert (ep_ContributorPoolRemainingUvibe pool = 0) as Hz by lia.
    rewrite Hz, N.Div0.div_0_l. repeat split; [lia| |lia]. destruct pool; simpl in *. by subst.
Qed.

(** ** Contributor rewards *)

(** The pending reward an entry of the store stands for. *)
Definition pending_of (key : string) (v : emi_val) : N :=
  if String.prefix KeyPrefixContribReward key
  then match parse_raw "" v with Ok n => n | Err _ => 0 end
  else 0.

Definition pending_total m : N := sum_values pending_of m.

(** Reward counters hold decimals of 64-bit numbers. *)
Definition rewards_wt m : Prop :=
  forall key v, m !! key = Some v ->
    String.prefix KeyPrefixContribReward key = true \/
    String.prefix KeyPrefixLifetimeReward key = true ->
    exists n, v = VUint n /\ is_u64 n.

(** The current value of a counter of a well-typed store. *)
Definition counter m (key : string) : N :=
  match m !! key with Some (VRaw b) => default 0 (ParseUint b) | _ => 0 end.

Lemma parse_VUint what n : is_u64 n -> parse_raw what (VUint n) = Ok n.
Proof. intros H. simpl. by rewrite ParseUint_FormatUint. Qed.

Lemma read_counter_wt what key m :
  rewards_wt m ->
  String.prefix KeyPrefixContribReward key = true \/
    String.prefix KeyPrefixLifetimeReward key = true ->
  read_counter what key m = Ok (counter m key).
Proof.
  intros Hw Hk. unfold read_counter, counter. destruct (m !! key) as [v|] eqn:E; [|done].
  destruct (Hw _ _ E Hk) as (n & -> & Hn). rewrite parse_VUint by done. simpl.
  by rewrite ParseUint_FormatUint.
Qed.

Lemma rewards_wt_insert m key n :
  rewards_wt m -> is_u64 n -> rewards_wt (<[key := VUint n]> m).
Proof. intros Hw Hn k' v [[_ <-]|[_ H]]%lookup_insert_Some Hk; eauto. Qed.

Lemma rewards_wt_other m key v :
  rewards_wt m -> String.prefix KeyPrefixContribReward key = false ->
  String.prefix KeyPrefixLifetimeReward key = false -> rewards_wt (<[key := v]> m).
Proof.
  intros Hw H1 H2 k' v' [[<- _]|[_ H]]%lookup_insert_Some Hk; [|eauto].
  destruct Hk; congruence.
Qed.

Lemma pending_total_other m key v :
  String.prefix KeyPrefixContribReward key = false ->
  pending_total (<[key := v]> m) = pending_total m.
Proof. intros H. apply sum_insert_zero. intros w. unfold pending_of. by rewrite H. Qed.

Lemma contrib_prefix addr : String.prefix KeyPrefixContribReward (contribRewardKey addr) = true.
Proof. apply prefix_app. Qed.

Lemma lifetime_prefix addr : String.prefix KeyPrefixLifetimeReward (lifetimeRewardKey addr) = true.
Proof. apply prefix_app. Qed.

(** Writing a reward changes the total by the difference. *)
Lemma pending_total_set m addr n :
  rewards_wt m -> is_u64 n ->
  pending_total (<[contribRewardKey addr := VUint n]> m) + counter m (contribRewardKey addr)
  = pending_total m + n.
Proof.
  intros Hw Hn. pose proof (sum_insert pending_of m (contribRewardKey addr) (VUint n)) as H.
  unfold pending_total, counter. unfold pending_of at 2 4 in H.
  rewrite contrib_prefix, parse_VUint in H by done. rewrite <- H. f_equal.
  destruct (m !! contribRewardKey addr) as [v|] eqn:E; [|done]. simpl.
  destruct (Hw _ _ E) as (x & -> & Hx); [left; apply contrib_prefix|].
  rewrite parse_VUint by done. simpl. by rewrite ParseUint_FormatUint.
Qed.

Lemma counter_le_total m addr :
  rewards_wt m -> counter m (contribRewardKey addr) <= pending_total m.
Proof.
  intros Hw. unfold counter. destruct (m !! contribRewardKey addr) as [v|] eqn:E; [|lia].
  pose proof (sum_elem pending_of _ _ _ E) as H.
  destruct (Hw _ _ E) as (x & -> & Hx); [left; apply contrib_prefix|].
  unfold pending_of at 1 in H. rewrite contrib_prefix, parse_VUint in H by done.
  simpl. by rewrite ParseUint_FormatUint.
Qed.

Lemma counter_insert m key n :
  is_u64 n -> counter (<[key := VUint n]> m) key = n.
Proof. intros Hn. unfold counter. rewrite lookup_insert_eq. simpl. by rewrite ParseUint_FormatUint. Qed.

Lemma counter_insert_ne m key key' v : key <> key' -> counter (<[key := v]> m) key' = counter m key'.
Proof. intros. unfold counter. by rewrite lookup_insert_ne. Qed.

Section Rewards.
Context {P : Type}.
Implicit Types s : St emi_val P.

(** Only reward counters differ. *)
Definition same_but_rewards m m' : Prop :=
  forall key, String.prefix KeyPrefixContribReward key = false ->
    String.prefix KeyPrefixLifetimeReward key = false -> m' !! key = m !! key.

Lemma AddContributorReward_run addr n s :
  rewards_wt (kv s) -> pending_total (kv s) + n < two64 ->
  exists m', AddContributorReward addr n s = (Ok tt, mkSt m' (peers s) (evs s)) /\
    rewards_wt m' /\ same_but_rewards (kv s) m' /\
    pending_total m' = pending_total (kv s) + n /\
    forall a, counter m' (contribRewardKey a) =
      counter (kv s) (contribRewardKey a) + (if decide (a = addr) then n else 0).
Proof.
  intros Hw Hb. unfold AddContributorReward, GetContributorReward, GetLifetimeContributorReward.
  pose proof (counter_le_total (kv s) addr Hw) as Hle.
  mrun. rewrite read_counter_wt by (auto using contrib_prefix). unfold kset. simpl.
  rewrite (u64_add_small (counter (kv s) _)) by lia.
  set (m1 := <[contribRewardKey addr:=_]> (kv s)).
  assert (rewards_wt m1) as Hw1 by (apply rewards_wt_insert; [done|unfold is_u64; lia]).
  rewrite read_counter_wt by (auto using lifetime_prefix).
  eexists. split; [reflexivity|]. split; [|split; [|split]].
  - apply rewards_wt_insert; [done|apply u64_add_is].
  - intros key H1 H2. unfold m1. rewrite !lookup_insert_ne; [done|..]; intros <-;
      [by rewrite contrib_prefix in H1|by rewrite lifetime_prefix in H2].
  - rewrite pending_total_other by done. unfold m1.
    pose proof (pending_total_set (kv s) addr (counter (kv s) (contribRewardKey addr) + n) Hw).
    unfold is_u64 in *. lia.
  - intros a. rewrite counter_insert_ne by (intros H; discriminate H). unfold m1.
    case_decide as E; [subst; rewrite counter_insert by (unfold is_u64; lia); done|].
    rewrite counter_insert_ne, N.add_0_r; [done|]. intros H%str_app_inj_l. congruence.
Qed.

(** Paying every address of a duplicate-free list. *)
Lemma pay_all_run (l : list string) n s :
  NoDup l -> rewards_wt (kv s) -> pending_total (kv s) + n * N.of_nat (length l) < two64 ->
  exists m', for_each l (fun addr => if 0 <? n then AddContributorReward addr n else mret tt) s
      = (Ok tt, mkSt m' (peers s) (evs s)) /\
    rewards_wt m' /\ same_but_rewards (kv s) m' /\
    pending_total m' = pending_total (kv s) + n * N.of_nat (length l) /\
    forall a, counter m' (contribRewardKey a) =
      counter (kv s) (contribRewardKey a) + (if decide (a ∈ l) then n else 0).
Proof.
  revert s. induction l as [|a l IH]; intros s Hnd Hw Hb.
  { exists (kv s). split; [by destruct s|]. split; [done|]. split; [done|]. split; [simpl; lia|].
    intros a. rewrite decide_False by apply not_elem_of_nil. lia. }
  apply NoDup_cons in Hnd as [Hni Hnd]. cbn [for_each length] in *.
  destruct (0 <? n) eqn:E; gok.
  - destruct (AddContributorReward_run a n s) as (m1 & Hr & Hw1 & Hs1 & Ht1 & Hc1); [done|lia|].
    rewrite (M_bind_run _ _ _ _ _ Hr).
    destruct (IH (mkSt m1 (peers s) (evs s))) as (m2 & Hr2 & Hw2 & Hs2 & Ht2 & Hc2);
      [done|done|simpl; lia|].
    exists m2. simpl in *. split; [exact Hr2|]. split; [done|]. split; [|split; [lia|]].
    + intros key H1 H2. rewrite Hs2, Hs1; done.
    + intros b. rewrite Hc2, Hc1. repeat case_decide; try lia; set_solver.
  - assert (n = 0) as -> by lia. destruct (IH s) as (m2 & Hr2 & Hw2 & Hs2 & Ht2 & Hc2);
      [done|done|lia|].
    exists m2. split; [exact Hr2|]. split; [done|]. split; [done|]. split; [lia|].
    intros b. rewrite Hc2. repeat case_decide; lia.
Qed.
End Rewards.

(** ** Qualification *)
Lemma elem_of_qualifying t (c : gmap string N) a :
  a ∈ qualifying t c <-> a <> "" /\ exists n, c !! a = Some n /\ t <= n.
Proof.
  unfold qualifying. rewrite merge_sort_Permutation, list_elem_of_fmap. split.
  - intros ([a' n] & -> & H). apply elem_of_map_to_list, map_lookup_filter_Some in H.
    simpl in H. naive_solver.
  - intros (Ha & n & Hn & Ht). exists (a, n). split; [done|].
    apply elem_of_map_to_list, map_lookup_filter_Some. done.
Qed.

Lemma qualifying_NoDup t c : NoDup (qualifying t c).
Proof. unfold qualifying. rewrite merge_sort_Permutation. apply NoDup_fst_map_to_list. Qed.

(** ** One epoch *)
Section Mint.
Context {P : Type} {ADDR : Addresses} {BANK : BankKeeper P} {MEM : MemoryKeeper P}
  {IDENT : IdentityKeeper P} {LAWS : BankLaws P}.
Implicit Types s : St emi_val P.

Definition emissions_account : string := NewModuleAddress EmissionsModuleName.

(** The module's invariant; [T] is the amount the pool was seeded with.  The
    pool never holds more than that, the pending rewards are covered by what
    was emitted, and the module account can pay all of them. *)
Record emi_inv (T : N) (s : St emi_val P) : Prop := {
  emi_T : T < two64;
  emi_pool : exists pool, kv s !! poolKey = Some (VPool pool) /\ pool_total pool = T /\
    EmissionPool_Validate pool = Ok tt /\ pending_total (kv s) <= ep_TotalSupply pool;
  emi_params : exists p, GetParams (kv s) = Ok p /\ is_u64 (p_ScheduleDurationDays p);
  emi_rewards : rewards_wt (kv s);
  emi_solvent : pending_total (kv s) <= GetBalance (peers s) emissions_account;
}.

(** The counts the epoch is paid for: a failing query counts as none. *)
Definition epoch_counts (epoch : N) s : gmap string N :=
  match GetContributorsWithApprovalsInEpoch (peers s) epoch with Ok c => c | Err _ => ∅ end.

(** What [MintDailyEmission] computes for an epoch. *)
Record epoch_plan := mkPlan {
  pl_validator : N; pl_budget : N; pl_quals : list string; pl_per : N; pl_rollover : N }.

Definition plan_epoch (params : Params) (pool : EmissionPool) (counts : gmap string N) : epoch_plan :=
  let r := remaining_epochs params pool in
  let budget := (take_contributor params r pool).1 in
  let quals := qualifying (p_ContributorQualifyThreshold params) counts in
  let n := N.of_nat (length quals) in
  let total := budget + ep_ContributorRolloverUvibe pool in
  {| pl_validator := ep_ValidatorPoolRemainingUvibe pool / r;
     pl_budget := budget;
     pl_quals := quals;
     pl_per := if decide (quals = []) then 0 else total / n;
     pl_rollover := if decide (quals = []) then total else total mod n |}.

Definition pl_distributed (pl : epoch_plan) : N := pl_per pl * N.of_nat (length (pl_quals pl)).
Arguments pl_distributed : simpl never.

(** Nothing is created or lost when the budget is split. *)
Lemma plan_split params pool counts :
  let pl := plan_epoch params pool counts in
  pl_distributed pl + pl_rollover pl = pl_budget pl + ep_ContributorRolloverUvibe pool.
Proof.
  unfold pl_distributed. simpl. case_decide as E; [lia|].
  set (n := N.of_nat _). assert (n <> 0).
  { unfold n. destruct (qualifying _ _); simpl; [done|lia]. }
  pose proof (N.Div0.div_mod ((take_contributor params (remaining_epochs params pool) pool).1 +
    ep_ContributorRolloverUvibe pool) n). lia.
Qed.

(** The pool after the epoch. *)
Definition minted_pool (epoch : N) (pl : epoch_plan) (pool : EmissionPool) : EmissionPool := {|
  ep_TotalSupply := ep_TotalSupply pool + (pl_validator pl + pl_distributed pl);
  ep_DailyMint := ep_DailyMint pool;
  ep_OperatorShare := ep_OperatorShare pool;
  ep_ValidatorShare := ep_ValidatorShare pool;
  ep_Epoch := epoch;
  ep_ValidatorPoolRemainingUvibe := ep_ValidatorPoolRemainingUvibe pool - pl_validator pl;
  ep_ContributorPoolRemainingUvibe := ep_ContributorPoolRemainingUvibe pool - pl_budget pl;
  ep_ContributorRolloverUvibe := pl_rollover pl;
  ep_StartEpoch := if (ep_StartEpoch pool =? 0) && (ep_TotalEpochsElapsed pool =? 0)
                   then epoch else ep_StartEpoch pool;
  ep_TotalEpochsElapsed := (ep_TotalEpochsElapsed pool + 1)%u64;
|}.

Lemma plan_bounds T params pool counts :
  is_u64 (p_ScheduleDurationDays params) -> T < two64 -> pool_total pool = T ->
  let pl := plan_epoch params pool counts in
  pl_validator pl <= ep_ValidatorPoolRemainingUvibe pool /\
  pl_budget pl <= ep_ContributorPoolRemainingUvibe pool /\
  pool_total (minted_pool 0 pl pool) = T.
Proof.
  intros Hp HT Hpool pl. unfold pool_total in Hpool.
  pose proof (remaining_epochs_pos params pool Hp) as Hr.
  destruct (take_validator (remaining_epochs params pool) pool) as [e p1] eqn:E1.
  destruct (take_contributor params (remaining_epochs params pool) pool) as [b p2] eqn:E2.
  apply take_contributor_spec in E2 as Hc; [|done|unfold is_u64; lia].
  apply take_validator_spec in E1 as He; [|done|unfold is_u64; lia].
  destruct Hc as (_ & _ & Hb), He as (He & _ & Hv).
  pose proof (plan_split params pool counts) as Hs. fold pl in Hs. cbv zeta in Hs.
  assert (pl_budget pl = b) as Hbudget by (unfold pl; simpl; by rewrite E2).
  assert (pl_validator pl = e) as Hval by (unfold pl; simpl; by rewrite He).
  clearbody pl. unfold pool_total. simpl. lia.
Qed.

(** The pure part of the epoch, as the handler computes it. *)
Lemma take_both params pool e p1 b p2 :
  is_u64 (p_ScheduleDurationDays params) -> pool_total pool < two64 ->
  take_validator (remaining_epochs params pool) pool = (e, p1) ->
  take_contributor params (remaining_epochs params pool) p1 = (b, p2) ->
  e = ep_ValidatorPoolRemainingUvibe pool / remaining_epochs params pool /\
  b = (take_contributor params (remaining_epochs params pool) pool).1 /\
  p2 = pool <| ep_ValidatorPoolRemainingUvibe := ep_ValidatorPoolRemainingUvibe pool - e |>
            <| ep_ContributorPoolRemainingUvibe := ep_ContributorPoolRemainingUvibe pool - b |>.
Proof.
  intros Hp Hpool E1 E2. unfold pool_total in Hpool.
  pose proof (remaining_epochs_pos params pool Hp) as Hr.
  apply take_validator_spec in E1 as (-> & -> & _); [|done|unfold is_u64; lia].
  split; [done|]. pose proof E2 as E3.
  apply take_contributor_spec in E2 as (_ & -> & _); [|done|simpl; unfold is_u64; lia].
  split; [|done]. apply (f_equal fst) in E3. simpl in E3. rewrite <- E3.
  unfold take_contributor. simpl. by destruct (0 <? _).
Qed.

Variables (epoch : N) (s : St emi_val P) (T : N) (pool : EmissionPool) (params : Params).
Hypothesis INV : emi_inv T s.
Hypothesis POOL : kv s !! poolKey = Some (VPool pool).
Hypothesis PARAMS : GetParams (kv s) = Ok params.

Let pl := plan_epoch params pool (epoch_counts epoch s).

(** The distribution step: rewards are credited and nothing else moves. *)
Lemma distribute_run :
  exists m', distribute (pl_quals pl) (pl_budget pl) (ep_ContributorRolloverUvibe pool) s
      = (Ok (pl_distributed pl, pl_rollover pl), mkSt m' (peers s) (evs s)) /\
    rewards_wt m' /\ same_but_rewards (kv s) m' /\
    pending_total m' = pending_total (kv s) + pl_distributed pl /\
    forall a, counter m' (contribRewardKey a) =
      counter (kv s) (contribRewardKey a) + (if decide (a ∈ pl_quals pl) then pl_per pl else 0).
Proof.
  destruct INV as [HT (pool' & Hpool & Htot & _ & Hpend) (params' & Hp & Hu) Hw _].
  rewrite POOL in Hpool. injection Hpool as <-. rewrite PARAMS in Hp. injection Hp as <-.
  pose proof (plan_split params pool (epoch_counts epoch s)) as Hs. fold pl in Hs. cbv zeta in Hs.
  destruct (plan_bounds T params pool (epoch_counts epoch s) Hu HT Htot) as (_ & Hb & _).
  fold pl in Hb. unfold pool_total in Htot.
  unfold distribute. case_bool_decide as Hq.
  - exists (kv s). unfold mret, M_ret. split.
    { rewrite <- (St_eta s). do 2 f_equal. f_equal.
      - unfold pl_distributed. by rewrite Hq, N.mul_0_r.
      - unfold pl_distributed in Hs. rewrite Hq in Hs.
        change (N.of_nat (length [])) with 0 in Hs.
        rewrite N.mul_0_r in Hs. rewrite u64_add_small by lia. lia. }
    split; [done|]. split; [done|]. unfold pl_distributed. rewrite Hq.
    split; [change (N.of_nat (length [])) with 0; lia|].
    intros a. by rewrite decide_False, N.add_0_r by apply not_elem_of_nil.
  - unfold split_budget. rewrite (u64_add_small (pl_budget pl)) by lia. cbn [fst snd].
    assert ((pl_budget pl + ep_ContributorRolloverUvibe pool) / N.of_nat (length (pl_quals pl))
            = pl_per pl) as Hper.
    { unfold pl in *. simpl in *. by rewrite decide_False. }
    assert ((pl_budget pl + ep_ContributorRolloverUvibe pool) mod N.of_nat (length (pl_quals pl))
            = pl_rollover pl) as Hroll.
    { unfold pl in *. simpl in *. by rewrite decide_False. }
    rewrite Hper, Hroll.
    destruct (pay_all_run (pl_quals pl) (pl_per pl) s) as (m' & Hr & Hw' & Hsame & Hsum & Hc).
    { apply qualifying_NoDup. }
    { done. }
    { fold (pl_distributed pl). lia. }
    exists m'. rewrite (M_bind_run _ _ _ _ _ Hr). unfold mret, M_ret.
    rewrite u64_mul_small by (fold (pl_distributed pl); lia). auto.
Qed.

Lemma minted_pool_total : pool_total (minted_pool epoch pl pool) = T.
Proof.
  destruct INV as [HT (pool' & Hpool & Htot & _ & _) (params' & Hp & Hu) _ _].
  rewrite POOL in Hpool. injection Hpool as <-. rewrite PARAMS in Hp. injection Hp as <-.
  by destruct (plan_bounds T params pool (epoch_counts epoch s) Hu HT Htot) as (_ & _ & ?).
Qed.

(** The coins minted to the module account: the distributed rewards. *)
Definition mint_effect (n : N) (b b' : P) : Prop :=
  GetSupply b' = GetSupply b + n /\
  forall x, GetBalance b' x =
    if decide (x = emissions_account) then GetBalance b x + n else GetBalance b x.

(** The coins are minted when there are any. *)
Lemma mint_positive_run :
  (forall n b, exists b', MintCoins EmissionsModuleName (uvibe n) b = (Ok tt, b')) ->
  forall n (m1 : gmap string emi_val) es, exists b',
    (if 0 <? n then on_peers (MintCoins EmissionsModuleName (uvibe n)) else mret tt)
      (mkSt m1 (peers s) es) = (Ok tt, mkSt m1 b' es) /\ mint_effect n (peers s) b'.
Proof.
  intros Hmint n m1 es. destruct (0 <? _) eqn:E0; gok.
  - destruct (Hmint n (peers s)) as [b' Hb']. exists b'. split.
    + unfold on_peers. simpl. by rewrite Hb'.
    + by apply mint_ok in Hb'.
  - exists (peers s). split; [done|]. assert (n = 0) as -> by lia. split; [lia|]. intros x. case_decide; lia.
Qed.

(** The whole epoch, when the bank mints: the handler returns, and this is
    everything it changed. *)
Lemma mint_run :
  ep_Epoch pool < epoch ->
  (forall n b, exists b', MintCoins EmissionsModuleName (uvibe n) b = (Ok tt, b')) ->
  exists m' b',
    MintDailyEmission epoch s =
      (Ok (NewDailyEmission epoch (pl_validator pl + pl_distributed pl) (pl_validator pl)),
       mkSt m' b' (evs s)) /\
    m' !! poolKey = Some (VPool (minted_pool epoch pl pool)) /\
    m' !! emissionKey epoch =
      Some (VEmission (NewDailyEmission epoch (pl_validator pl + pl_distributed pl) (pl_validator pl))) /\
    GetParams m' = Ok params /\ rewards_wt m' /\
    pending_total m' = pending_total (kv s) + pl_distributed pl /\
    (forall a, counter m' (contribRewardKey a) =
      counter (kv s) (contribRewardKey a) + (if decide (a ∈ pl_quals pl) then pl_per pl else 0)) /\
    mint_effect (pl_distributed pl) (peers s) b' /\
    (forall key, String.prefix KeyPrefixContribReward key = false ->
      String.prefix KeyPrefixLifetimeReward key = false ->
      key <> poolKey -> key <> emissionKey epoch -> m' !! key = kv s !! key).
Proof.
  intros He Hmint. pose proof minted_pool_total as Hmt.
  destruct distribute_run as (m1 & Hd & Hw1 & Hsame & Hsum & Hc).
  destruct INV as [HT (pool' & Hpool & Htot & Hval & Hpend) (params' & Hp & Hu) Hw _].
  rewrite POOL in Hpool. injection Hpool as <-. rewrite PARAMS in Hp. injection Hp as <-.
  destruct (take_validator (remaining_epochs params pool) pool) as [e p1] eqn:E1.
  destruct (take_contributor params (remaining_epochs params pool) p1) as [b p2] eqn:E2.
  destruct (take_both params pool e p1 b p2 Hu ltac:(lia) E1 E2) as (Hev & Hbv & Hp2).
  destruct (plan_bounds T params pool (epoch_counts epoch s) Hu HT Htot) as (Hb1 & Hb2 & Hb3).
  fold pl in Hb1, Hb2, Hb3. unfold pool_total in Hb3. cbn [minted_pool ep_TotalSupply
    ep_ValidatorPoolRemainingUvibe ep_ContributorPoolRemainingUvibe ep_ContributorRolloverUvibe] in Hb3.
  destruct (mint_positive_run Hmint (pl_distributed pl) m1 (evs s)) as (b' & Hm & Hme).
  exists (<[poolKey := VPool (minted_pool epoch pl pool)]>
    (<[emissionKey epoch := VEmission (NewDailyEmission epoch
        (pl_validator pl + pl_distributed pl) (pl_validator pl))]> m1)), b'.
  split.
  { unfold MintDailyEmission.
    erewrite M_bind_run; [|unfold map_err, kread, GetEmissionPool; by rewrite POOL].
    erewrite M_bind_run; [|by rewrite (proj2 (N.leb_gt _ _) He)].
    erewrite M_bind_run; [|unfold kread; by rewrite PARAMS].
    cbv zeta. rewrite E1, E2.
    erewrite M_bind_run; [|reflexivity].
    fold (epoch_counts epoch s).
    assert (e = pl_validator pl) as -> by exact Hev.
    assert (b = pl_budget pl) as -> by exact Hbv.
    change (qualifying _ _) with (pl_quals pl).
    replace (ep_ContributorRolloverUvibe p2) with (ep_ContributorRolloverUvibe pool)
      by (by subst p2).
    rewrite (M_bind_run _ _ _ _ _ Hd). cbv beta iota.
    rewrite (M_bind_run _ _ _ _ _ Hm).
    rewrite (u64_add_small (pl_validator pl)) by lia.
    match goal with |- context [SetEmissionPool ?q] =>
      assert (q = minted_pool epoch pl pool) as -> end.
    { subst p2. clearbody pl. unfold minted_pool. simpl.
      destruct (_ && _); simpl; by rewrite (u64_add_small (ep_TotalSupply pool)) by lia. }
    unfold SetEmissionPool, EmissionPool_Validate in *. simpl. by mrun; rewrite Hval. }
  split; [apply lookup_insert_eq|].
  split; [rewrite lookup_insert_ne by (intros HH; discriminate HH); apply lookup_insert_eq|].
  split.
  { unfold GetParams. rewrite !lookup_insert_ne by (intros HH; discriminate HH).
    rewrite Hsame by done. exact PARAMS. }
  split; [by repeat apply rewards_wt_other|].
  split; [by rewrite !pending_total_other|]. split; [|split; [done|]].
  - intros a. rewrite !counter_insert_ne by (intros HH; discriminate HH). apply Hc.
  - intros key H1 H2 H3 H4. rewrite !lookup_insert_ne by done. by apply Hsame.
Qed.

Lemma mint_inv m' b' :
  m' !! poolKey = Some (VPool (minted_pool epoch pl pool)) ->
  GetParams m' = Ok params -> rewards_wt m' ->
  pending_total m' = pending_total (kv s) + pl_distributed pl ->
  mint_effect (pl_distributed pl) (peers s) b' ->
  emi_inv T (mkSt m' b' (evs s)).
Proof.
  intros Hp' Hpar Hw' Hsum [_ Hbal]. pose proof minted_pool_total as Hmt.
  destruct INV as [HT (pool' & Hpool & Htot & Hval & Hpend) (params' & Hp & Hu) Hw Hsol].
  rewrite POOL in Hpool. injection Hpool as <-. rewrite PARAMS in Hp. injection Hp as <-.
  split; simpl; [done| |eauto|done|].
  - exists (minted_pool epoch pl pool). split; [done|]. split; [done|].
    split; [exact Hval|]. rewrite Hsum. clearbody pl. simpl. lia.
  - rewrite Hsum, Hbal, decide_True by done. lia.
Qed.
End Mint.

(** ** The validator schedule *)

(** With [r] epochs left, the validator pool holds between [q] and [q + 1]
    per remaining epoch. *)
Definition on_schedule (q r v : N) : Prop := q * r <= v <= (q + 1) * r.

Lemma schedule_step q r v :
  0 < r -> on_schedule q r v ->
  (v / r = q \/ v / r = q + 1) /\ on_schedule q (r - 1) (v - v / r).
Proof.
  intros Hr [Hl Hh]. unfold on_schedule. destruct (decide (v = (q + 1) * r)) as [->|Hne].
  - rewrite N.div_mul by lia. split; [by right|]. nia.
  - assert (v / r = q) as ->.
    { symmetry. apply N.div_unique with (v - q * r); nia. }
    split; [by left|]. nia.
Qed.

Lemma schedule_end q v : on_schedule q 0 v -> v = 0.
Proof. unfold on_schedule. nia. Qed.
