(* ===== verification/EmissionsProps.v ===== *)
(** * Properties of x/emissions *)

From S2P Require Import Prelude Bytes Store Ifaces Emissions EmissionsFacts.
Local Open Scope string_scope.
Local Open Scope N_scope.

Section Props.
Context {P : Type} {ADDR : Addresses} {BANK : BankKeeper P} {MEM : MemoryKeeper P}
  {IDENT : IdentityKeeper P} {LAWS : BankLaws P}.
Implicit Types s : St emi_val P.

(** [x/bank]'s [MintCoins] returns an error for no amount: the module account
    has the minter permission (app.go, [maccPerms]). *)
Definition bank_mints : Prop :=
  forall n (b : P), exists b', MintCoins EmissionsModuleName (uvibe n) b = (Ok tt, b').

Lemma mint_epoch_after epoch s e s' pool :
  GetEmissionPool (kv s) = Ok pool -> MintDailyEmission epoch s = (Ok e, s') ->
  ep_Epoch pool < epoch.
Proof.
  intros Hp H. unfold MintDailyEmission in H. mok H; gok; congruence.
Qed.

Lemma mint_sets_epoch epoch s e s' :
  MintDailyEmission epoch s = (Ok e, s') ->
  exists pool, GetEmissionPool (kv s') = Ok pool /\ ep_Epoch pool = epoch.
Proof.
  intros H. unfold MintDailyEmission in H. mok H; unfold SetEmissionPool in *;
    match goal with H : (_ ≫= _) _ = (Ok _, _) |- _ => mok H end;
    unfold GetEmissionPool; simpl; rewrite lookup_insert_eq; by eexists.
Qed.

(** C4: accounting of one epoch.  When a mint succeeds, the validator share
    leaves the validator pool, the rest of the emission (what was distributed)
    plus the new rollover is exactly the budget plus the old rollover, the
    pool's total supply grows by the emission, the bank minted exactly the
    distributed amount to the module account, and the pending rewards grew by
    exactly that amount. *)
Theorem mint_accounting T epoch s e s' pool :
  emi_inv T s -> bank_mints -> GetEmissionPool (kv s) = Ok pool ->
  MintDailyEmission epoch s = (Ok e, s') ->
  exists pool', GetEmissionPool (kv s') = Ok pool' /\
    let distributed := de_TotalEmitted e - de_ValidatorShare e in
    de_ValidatorShare e <= de_TotalEmitted e /\
    ep_ValidatorPoolRemainingUvibe pool' + de_ValidatorShare e
      = ep_ValidatorPoolRemainingUvibe pool /\
    ep_ContributorPoolRemainingUvibe pool' + ep_ContributorRolloverUvibe pool' + distributed
      = ep_ContributorPoolRemainingUvibe pool + ep_ContributorRolloverUvibe pool /\
    ep_TotalSupply pool' = ep_TotalSupply pool + de_TotalEmitted e /\
    GetSupply (peers s') = GetSupply (peers s) + distributed /\
    GetBalance (peers s') emissions_account
      = GetBalance (peers s) emissions_account + distributed /\
    pending_total (kv s') = pending_total (kv s) + distributed /\
    GetDailyEmission (kv s') epoch = Ok e.
Proof.
  intros HI Hbank Hpool H.
  assert (kv s !! poolKey = Some (VPool pool)) as Hp.
  { unfold GetEmissionPool in Hpool. destruct (kv s !! poolKey) as [[]|]; congruence. }
  assert (ep_Epoch pool < epoch) as He.
  { by eapply mint_epoch_after. }
  destruct HI as [HT HP (params & Hpar & Hu) Hw Hs].
  assert (emi_inv T s) as HI by (split; eauto).
  destruct (mint_run epoch s T pool params HI Hp Hpar He Hbank)
    as (m' & b' & Hrun & Hp' & He' & _ & _ & Hsum & _ & [Hsup Hbal] & _).
  rewrite Hrun in H. apply ok_pair_inj in H as [<- <-]. destruct HP as (pool0 & Hp0 & Htot & _).
  rewrite Hp in Hp0. injection Hp0 as <-.
  pose proof (plan_split params pool (epoch_counts epoch s)) as Hsp. cbv zeta in Hsp.
  destruct (plan_bounds T params pool (epoch_counts epoch s) Hu HT Htot) as (Hb1 & Hb2 & _).
  set (pl := plan_epoch params pool (epoch_counts epoch s)) in *. clearbody pl.
  exists (minted_pool epoch pl pool).
  unfold GetEmissionPool, GetDailyEmission. simpl in *. rewrite Hp', He', Hsup, Hbal, Hsum.
  rewrite decide_True by done.
  replace (pl_validator pl + pl_distributed pl - pl_validator pl) with (pl_distributed pl) by lia.
  repeat split; lia.
Qed.

(** Enough approvals in the epoch. *)
Definition qualifies (params : Params) (counts : gmap string N) (a : string) : bool :=
  negb (bool_decide (a = "")) &&
  match counts !! a with
  | Some n => p_ContributorQualifyThreshold params <=? n
  | None => false
  end.

Lemma qualifies_elem params counts a :
  a ∈ qualifying (p_ContributorQualifyThreshold params) counts <-> qualifies params counts a = true.
Proof.
  rewrite elem_of_qualifying. unfold qualifies.
  rewrite andb_true_iff, negb_true_iff, bool_decide_eq_false.
  destruct (counts !! a) as [n|]; [rewrite N.leb_le|]; naive_solver.
Qed.

(** What the schedule grants the contributors of an epoch: an even part of what is
    left in their pool over the epochs that are left, at most a 365th of the annual
    cap where there is one. *)
Definition epochs_left (params : Params) (pool : EmissionPool) : N :=
  N.max 1 (p_ScheduleDurationDays params - ep_TotalEpochsElapsed pool).
Definition contributor_grant (params : Params) (pool : EmissionPool) : N :=
  let even := ep_ContributorPoolRemainingUvibe pool / epochs_left params pool in
  let cap := p_ContributorAnnualCapUvibe params / 365 in
  if cap =? 0 then even else N.min even cap.

Lemma epochs_left_ok params pool :
  is_u64 (p_ScheduleDurationDays params) -> remaining_epochs params pool = epochs_left params pool.
Proof.
  intros Hu. unfold remaining_epochs, epochs_left. destruct (_ <? _) eqn:E.
  - apply N.ltb_lt in E. rewrite u64_sub_small by (done || lia). lia.
  - apply N.ltb_ge in E. lia.
Qed.

Lemma contributor_grant_ok params pool :
  is_u64 (p_ScheduleDurationDays params) ->
  (take_contributor params (remaining_epochs params pool) pool).1 = contributor_grant params pool.
Proof.
  intros Hu. rewrite epochs_left_ok by done. unfold take_contributor, contributor_grant.
  change EpochsPerYear with 365. set (r := epochs_left params pool).
  set (c := ep_ContributorPoolRemainingUvibe pool). set (cap := _ / 365).
  assert (1 <= r) as H1 by (unfold r, epochs_left; lia).
  assert (c / r <= c) as Hr by (apply N.Div0.div_le_upper_bound; nia).
  assert (c = 0 -> c / r = 0) as H0 by (intros ->; apply N.Div0.div_0_l).
  generalize dependent (c / r). intros q Hr H0.
  destruct (N.ltb_spec 0 cap), (N.ltb_spec cap q), (N.eqb_spec cap 0); cbn [andb];
    try lia; destruct (N.ltb_spec 0 c); cbn [fst]; try lia;
    match goal with |- context [N.ltb c ?y] => destruct (N.ltb_spec c y) end; lia.
Qed.

(** C34: every contributor with enough approvals in the epoch, and nobody else,
    is credited, and all of them with the same share.  The budget of the epoch is
    an even part of the contributor pool over the epochs left, capped by the
    365th part of the annual cap; it leaves the pool.  Budget and old rollover
    together are divided by the number of the qualified, rounding down, and what
    is not paid out (everything when nobody qualified) is the new rollover. *)
Theorem mint_pays_equal_shares T epoch s e s' pool params :
  emi_inv T s -> bank_mints -> GetEmissionPool (kv s) = Ok pool -> GetParams (kv s) = Ok params ->
  MintDailyEmission epoch s = (Ok e, s') ->
  exists (qualified : gset string) pool',
    (forall a, a ∈ qualified <-> qualifies params (epoch_counts epoch s) a = true) /\
    GetEmissionPool (kv s') = Ok pool' /\
    let budget := contributor_grant params pool in
    let total := budget + ep_ContributorRolloverUvibe pool in
    let n := N.of_nat (size qualified) in
    let share := if n =? 0 then 0 else total / n in
    ep_ContributorPoolRemainingUvibe pool' + budget = ep_ContributorPoolRemainingUvibe pool /\
    ep_ContributorRolloverUvibe pool' + share * n = total /\
    forall a,
      GetContributorReward (kv s) a = Ok (counter (kv s) (contribRewardKey a)) /\
      GetContributorReward (kv s') a =
        Ok (counter (kv s) (contribRewardKey a) +
            if qualifies params (epoch_counts epoch s) a then share else 0).
Proof.
  intros HI Hbank Hpool Hpar H.
  assert (kv s !! poolKey = Some (VPool pool)) as Hp.
  { unfold GetEmissionPool in Hpool. destruct (kv s !! poolKey) as [[]|]; congruence. }
  pose proof (mint_epoch_after _ _ _ _ _ Hpool H) as He.
  destruct (mint_run epoch s T pool params HI Hp Hpar He Hbank)
    as (m' & b' & Hrun & Hp' & _ & _ & Hw' & _ & Hc & _).
  rewrite Hrun in H. apply ok_pair_inj in H as [<- <-].
  destruct (emi_params _ _ HI) as (params0 & Hpar0 & Hu). rewrite Hpar in Hpar0. injection Hpar0 as <-.
  destruct (emi_pool _ _ HI) as (pool0 & Hp0 & Htot & _). rewrite Hp in Hp0. injection Hp0 as <-.
  destruct (plan_bounds T params pool (epoch_counts epoch s) Hu (emi_T _ _ HI) Htot) as (_ & Hb & _).
  set (pl := plan_epoch params pool (epoch_counts epoch s)) in *.
  pose proof (plan_split params pool (epoch_counts epoch s)) as Hsp. cbv zeta in Hsp. fold pl in Hsp.
  exists (list_to_set (pl_quals pl)), (minted_pool epoch pl pool).
  split; [intros a; rewrite elem_of_list_to_set; apply qualifies_elem|].
  split; [unfold GetEmissionPool; cbn [kv]; by rewrite Hp'|]. cbv zeta.
  rewrite <- (contributor_grant_ok params pool Hu), size_list_to_set by apply qualifying_NoDup.
  change (take_contributor params (remaining_epochs params pool) pool).1 with (pl_budget pl).
  assert ((if N.of_nat (length (pl_quals pl)) =? 0 then 0 else
    (pl_budget pl + ep_ContributorRolloverUvibe pool) / N.of_nat (length (pl_quals pl))) = pl_per pl) as ->.
  { unfold pl, plan_epoch. cbn [pl_quals pl_budget pl_per].
    destruct (qualifying _ _); [done|]. by rewrite decide_False. }
  unfold pl_distributed in Hsp. cbn [minted_pool ep_ContributorPoolRemainingUvibe ep_ContributorRolloverUvibe].
  split; [lia|]. split; [lia|]. intros a. unfold GetContributorReward. cbn [kv].
  rewrite !read_counter_wt by (auto using contrib_prefix; by destruct HI).
  split; [done|]. rewrite Hc. do 2 f_equal.
  destruct (qualifies _ _ a) eqn:E.
  - rewrite decide_True; [done|]. by apply qualifies_elem.
  - rewrite decide_False; [done|]. intros Hq%qualifies_elem. congruence.
Qed.

Lemma mint_epoch_at_most_once_aux epoch s pool :
  GetEmissionPool (kv s) = Ok pool -> epoch <= ep_Epoch pool ->
  exists e, MintDailyEmission epoch s = (Err e, s).
Proof.
  intros Hp He%N.leb_le. eexists. unfold MintDailyEmission, map_err. mrun. by rewrite Hp, He.
Qed.

(** An epoch is emitted at most once: for an epoch not after the last
    emitted one the mint is refused and nothing changes, and a successful
    mint makes its own epoch the last one. *)
Theorem mint_epoch_at_most_once epoch s pool :
  GetEmissionPool (kv s) = Ok pool ->
  (epoch <= ep_Epoch pool ->
    MintDailyEmission epoch s
      = (Err (Errorf "epoch must be greater than last emission epoch"), s)) /\
  (forall e s', MintDailyEmission epoch s = (Ok e, s') ->
    exists e2, MintDailyEmission epoch s' = (Err e2, s')).
Proof.
  intros Hp. split.
  - intros He%N.leb_le. unfold MintDailyEmission, map_err. mrun. by rewrite Hp, He.
  - intros e s' H. exists (Errorf "epoch must be greater than last emission epoch").
    destruct (mint_sets_epoch _ _ _ _ H) as (pool' & Hp' & He').
    unfold MintDailyEmission, map_err. mrun. by rewrite Hp', He', N.leb_refl.
Qed.

Lemma hook_inv T id n s :
  emi_inv T s -> bank_mints ->
  exists s', AfterEpochEnd id n s = (Ok tt, s') /\ emi_inv T s'.
Proof.
  intros HI Hbank. unfold AfterEpochEnd. destruct (negb _); [by exists s|].
  destruct (emi_pool _ _ HI) as (pool & Hp & Htot & Hval & Hpend).
  destruct (emi_params _ _ HI) as (params & Hpar & Hu).
  destruct (decide (ep_Epoch pool < u64_of_int64 n)) as [He|He].
  - destruct (mint_run _ s T pool params HI Hp Hpar He Hbank)
      as (m' & b' & Hrun & Hp' & _ & Hpar' & Hw' & Hsum & _ & Hme & _).
    exists (mkSt m' b' (evs s)). split; [|by eapply mint_inv].
    unfold attempt, mbind, M_bind. by rewrite Hrun.
  - exists s. split; [|done].
    assert (GetEmissionPool (kv s) = Ok pool) as Hg by (unfold GetEmissionPool; by rewrite Hp).
    destruct (mint_epoch_at_most_once_aux (u64_of_int64 n) s pool Hg) as [e Hf]; [lia|].
    unfold attempt, mbind, M_bind. by rewrite Hf.
Qed.

(** C25: with a bank that mints, the epoch hook always returns without error and
    keeps the module invariant: the pool never creates tokens beyond its
    seed, and the module account can pay every pending reward. *)
Theorem epoch_hook_keeps_solvency T id n s :
  emi_inv T s -> bank_mints ->
  exists s', AfterEpochEnd id n s = (Ok tt, s') /\ emi_inv T s'.
Proof. apply hook_inv. Qed.

(** C27: a claim pays the caller exactly the pending reward of the passkey, only
    if the passkey's identity is migrated to the caller's wallet, and leaves a
    zero reward: the same claim again is refused with [ErrNothingToClaim]. *)
Theorem claim_pays_once msg s n s' :
  rewards_wt (kv s) -> MsgServer_ClaimContributorReward msg s = (Ok n, s') ->
  exists recipient,
    AccAddressFromBech32 (mc_Signer msg) = Ok recipient /\
    ResolveIdentity (peers s) (mc_PasskeyPubkey msg) = Ok (mc_Signer msg, true, true) /\
    GetContributorReward (kv s) (mc_PasskeyPubkey msg) = Ok n /\ 0 < n /\
    GetContributorReward (kv s') (mc_PasskeyPubkey msg) = Ok 0 /\
    (forall a, a <> mc_PasskeyPubkey msg ->
       GetContributorReward (kv s') a = GetContributorReward (kv s) a) /\
    GetSupply (peers s') = GetSupply (peers s) /\
    (forall x, GetBalance (peers s') x = moved emissions_account recipient n (GetBalance (peers s)) x) /\
    (ResolveIdentity (peers s') (mc_PasskeyPubkey msg) = Ok (mc_Signer msg, true, true) ->
     MsgServer_ClaimContributorReward msg s' = (Err ErrNothingToClaim, s')).
Proof.
  intros Hw H. pose proof H as H0. unfold MsgServer_ClaimContributorReward, SetContributorReward in H.
  mok H. gok. subst. simpl in *. apply from_module_ok in Hm6 as (_ & Hsup & Hbal).
  assert (GetContributorReward (<[contribRewardKey (mc_PasskeyPubkey msg):=VUint 0]> (kv s))
            (mc_PasskeyPubkey msg) = Ok 0) as Hz.
  { unfold GetContributorReward, read_counter. rewrite lookup_insert_eq. by apply parse_VUint. }
  exists a5. repeat (split; [first [done | by destruct b, b0 | lia | idtac]|]).
  - intros a0 Ha. unfold GetContributorReward, read_counter. rewrite lookup_insert_ne; [done|].
    intros HH%str_app_inj_l. congruence.
  - intros Hres. unfold MsgServer_ClaimContributorReward. unfold peer_read. mrun. cbn [peers kv evs].
    rewrite Hm, Hres. cbn [negb orb]. rewrite bool_decide_true by done. cbn [negb].
    cbn [kv]. by rewrite Hz.
Qed.

(** Claims keep the module solvent: what a claim takes from the module
    account it takes from the pending rewards, so every other pending reward
    stays covered. *)
Theorem claim_keeps_solvency T msg s n s' :
  emi_inv T s -> MsgServer_ClaimContributorReward msg s = (Ok n, s') -> emi_inv T s'.
Proof.
  intros [HT (pool & Hp & Htot & Hval & Hpend) Hpar Hw Hsol] H.
  unfold MsgServer_ClaimContributorReward, SetContributorReward in H. mok H. gok. subst.
  simpl in *. apply from_module_ok in Hm6 as (Hle & _ & Hbal).
  assert (counter (kv s) (contribRewardKey (mc_PasskeyPubkey msg)) = a3) as Hcnt.
  { unfold GetContributorReward in Hm3.
    rewrite read_counter_wt in Hm3 by (auto using contrib_prefix). congruence. }
  assert (is_u64 0) as H0 by reflexivity.
  pose proof (pending_total_set (kv s) (mc_PasskeyPubkey msg) 0 Hw H0) as Hset.
  split; simpl; [done| | |by apply rewards_wt_insert|].
  - exists pool. rewrite lookup_insert_ne by (intros HH; discriminate HH).
    repeat split; [done..|]. lia.
  - unfold GetParams. rewrite lookup_insert_ne by (intros HH; discriminate HH). exact Hpar.
  - rewrite Hbal. unfold moved, emissions_account. fold emissions_account in *.
    unfold emissions_account in *. repeat case_decide; try congruence; lia.
Qed.
End Props.

(** ** The 32-year schedule *)
Section Schedule.
Context {P : Type} {ADDR : Addresses} {BANK : BankKeeper P} {MEM : MemoryKeeper P}
  {IDENT : IdentityKeeper P} {LAWS : BankLaws P}.

(** The chain's state after the module's genesis with no genesis entry. *)
Definition emissions_genesis (b : P) : St emi_val P :=
  ((Module_InitGenesis None ;; kset genesisInitMarkerKey (VRaw genesisInitMarkerValue))
     (mkSt ∅ b [])).2.

(** The hook at the end of epochs 1, ..., n. *)
Fixpoint run_epochs (n : nat) (s : St emi_val P) : St emi_val P :=
  match n with
  | O => s
  | S n' => (AfterEpochEnd WeVibeEpochIdentifier (Z.of_nat n) (run_epochs n' s)).2
  end.

Lemma emissions_genesis_inv b : emi_inv 890000000000000 (emissions_genesis b).
Proof.
  assert (pending_total (kv (emissions_genesis b)) = 0) as Hz by (vm_compute; reflexivity).
  split.
  - reflexivity.
  - exists DefaultEmissionPool. rewrite Hz. repeat split; vm_compute; congruence.
  - exists DefaultParams. split; vm_compute; reflexivity.
  - intros key v H Hk. change (kv (emissions_genesis b)) with
      (<[genesisInitMarkerKey := VRaw genesisInitMarkerValue]>
        (<[poolKey := VPool DefaultEmissionPool]>
          (<[ParamsKey := VParams DefaultParams]> (∅ : gmap string emi_val)))) in H.
    rewrite !lookup_insert_Some, lookup_empty in H.
    destruct Hk as [Hk|Hk]; destruct H as [[<- _]|[_ [[<- _]|[_ [[<- _]|[_ ?]]]]]];
      (discriminate Hk || done).
  - rewrite Hz. lia.
Qed.

Lemma run_epochs_inv T n s : bank_mints -> emi_inv T s -> emi_inv T (run_epochs n s).
Proof.
  intros Hb HI. induction n as [|n IH]; [done|]. cbn [run_epochs].
  destruct (hook_inv T WeVibeEpochIdentifier (Z.of_nat (S n)) _ IH Hb) as (s' & -> & HI'). done.
Qed.

(** Epochs of the schedule and the validator emission per epoch, rounded down:
    570,000,000 VIBE over 11,680 epochs. *)
Definition schedule_epochs : N := 11680.
Definition epoch_quota : N := 48801369863.

(** The validator shares recorded for epochs 1, ..., n. *)
Fixpoint shares_paid (m : gmap string emi_val) (n : nat) : N :=
  match n with
  | O => 0
  | S n' => shares_paid m n' +
      match GetDailyEmission m (N.of_nat n) with Ok e => de_ValidatorShare e | Err _ => 0 end
  end.

Lemma shares_frame m m' n :
  (forall j, 0 < j -> j <= N.of_nat n -> GetDailyEmission m' j = GetDailyEmission m j) ->
  shares_paid m' n = shares_paid m n.
Proof.
  induction n as [|n IH]; intros Hj; [done|]. cbn [shares_paid]. rewrite Hj, IH; [done|..|lia|lia].
  intros j ??. apply Hj; lia.
Qed.

(** The state of the schedule after [i] epochs. *)
Definition schedule_state (i : nat) (s : St emi_val P) : Prop :=
  emi_inv 890000000000000 s /\ GetParams (kv s) = Ok DefaultParams /\
  (exists pool, kv s !! poolKey = Some (VPool pool) /\ ep_Epoch pool = N.of_nat i /\
    ep_TotalEpochsElapsed pool = N.of_nat i /\
    on_schedule epoch_quota (schedule_epochs - N.of_nat i) (ep_ValidatorPoolRemainingUvibe pool) /\
    ep_ValidatorPoolRemainingUvibe pool + shares_paid (kv s) i = 570000000000000) /\
  forall j, 0 < j -> j <= N.of_nat i -> exists e, GetDailyEmission (kv s) j = Ok e /\
    (de_ValidatorShare e = epoch_quota \/ de_ValidatorShare e = epoch_quota + 1).

Lemma u64_of_nat n : N.of_nat n < two64 -> u64_of_int64 (Z.of_nat n) = N.of_nat n.
Proof. intros H. unfold u64_of_int64. rewrite Z.mod_small by (unfold two64 in *; lia). lia. Qed.

Lemma schedule_epoch i s :
  bank_mints -> N.of_nat (S i) <= schedule_epochs -> schedule_state i s ->
  schedule_state (S i) (AfterEpochEnd WeVibeEpochIdentifier (Z.of_nat (S i)) s).2.
Proof.
  intros Hbank Hi (HI & Hpar & (pool & Hp & He & Hel & Hs & Hsh) & Hem). unfold schedule_epochs in *.
  destruct (mint_run (N.of_nat (S i)) s _ pool DefaultParams HI Hp Hpar) as
    (m' & b' & Hrun & Hp' & He' & Hpar' & Hw' & Hsum & _ & Hme & Hframe); [lia|done|].
  assert ((AfterEpochEnd WeVibeEpochIdentifier (Z.of_nat (S i)) s).2 = mkSt m' b' (evs s)) as ->.
  { unfold AfterEpochEnd. rewrite bool_decide_true by done. cbn [negb].
    rewrite u64_of_nat by (unfold two64; lia).
    unfold attempt, mbind, M_bind. by rewrite Hrun. }
  assert (remaining_epochs DefaultParams pool = 11680 - N.of_nat i) as Hr.
  { unfold remaining_epochs. rewrite Hel. simpl p_ScheduleDurationDays.
    rewrite (proj2 (N.ltb_lt _ _)) by lia. apply u64_sub_small; [lia|reflexivity]. }
  destruct (schedule_step epoch_quota (11680 - N.of_nat i) (ep_ValidatorPoolRemainingUvibe pool))
    as [Hv Hs']; [lia|done|].
  set (pl := plan_epoch DefaultParams pool (epoch_counts (N.of_nat (S i)) s)) in *.
  assert (pl_validator pl = ep_ValidatorPoolRemainingUvibe pool / (11680 - N.of_nat i)) as Hpv
    by (unfold pl; simpl; by rewrite Hr).
  assert (forall j, 0 < j -> j <= N.of_nat i -> GetDailyEmission m' j = GetDailyEmission (kv s) j) as Hold.
  { intros j Hj0 Hj. unfold GetDailyEmission. rewrite Hframe; [done..|].
    intros HH%str_app_inj_l%FormatUint_inj. lia. }
  split; [by eapply mint_inv|]. split; [done|]. split.
  - exists (minted_pool (N.of_nat (S i)) pl pool). split; [done|]. clearbody pl.
    replace (schedule_epochs - N.of_nat (S i)) with (11680 - N.of_nat i - 1)
      by (unfold schedule_epochs; lia).
    cbn [minted_pool ep_Epoch ep_TotalEpochsElapsed ep_ValidatorPoolRemainingUvibe].
    rewrite Hel, u64_add_small by (unfold two64; lia). split; [done|]. split; [lia|].
    split; [by rewrite Hpv|]. cbn [kv shares_paid]. rewrite (shares_frame (kv s) m' i Hold).
    unfold GetDailyEmission. rewrite He'. cbn [de_ValidatorShare NewDailyEmission].
    assert (pl_validator pl <= ep_ValidatorPoolRemainingUvibe pool); [|lia].
    rewrite Hpv. apply N.Div0.div_le_upper_bound. nia.
  - intros j Hj0 Hj. unfold GetDailyEmission. simpl kv.
    destruct (decide (j = N.of_nat (S i))) as [->|Hne].
    + rewrite He'. eexists. split; [done|]. cbn [de_ValidatorShare NewDailyEmission]. by rewrite Hpv.
    + destruct (Hem j) as (e & Hj' & He2); [lia..|]. exists e. split; [|done].
      rewrite <- Hj'. apply Hold; lia.
Qed.

(** C35: the 32-year schedule.  Starting from the default genesis, after every
    number of epochs up to the 11,680 of the schedule: every epoch so far has its
    emission recorded with a validator share that differs by at most one uvibe
    from an even split; what is left in the validator pool and the shares recorded
    so far together are the 570,000,000 VIBE the pool started with, so it never
    runs below zero; and after the last epoch it is exactly empty. *)
Theorem validator_schedule_even b i :
  bank_mints -> N.of_nat i <= schedule_epochs ->
  let s := run_epochs i (emissions_genesis b) in
  (forall j, 0 < j -> j <= N.of_nat i ->
    exists e, GetDailyEmission (kv s) j = Ok e /\
      (de_ValidatorShare e = epoch_quota \/ de_ValidatorShare e = epoch_quota + 1)) /\
  exists pool, GetEmissionPool (kv s) = Ok pool /\
    ep_TotalEpochsElapsed pool = N.of_nat i /\
    ep_ValidatorPoolRemainingUvibe pool + shares_paid (kv s) i = 570000000000000 /\
    (N.of_nat i = schedule_epochs -> ep_ValidatorPoolRemainingUvibe pool = 0).
Proof.
  intros Hbank Hi s.
  assert (schedule_state i s) as (_ & _ & (pool & Hp & _ & Hel & Hs & Hsh) & Hem).
  { unfold s. clear s. induction i as [|i IH].
    - split; [apply emissions_genesis_inv|]. split; [vm_compute; reflexivity|]. split; [|lia].
      exists DefaultEmissionPool. split; [vm_compute; reflexivity|]. repeat split; vm_compute; congruence.
    - cbn [run_epochs]. apply schedule_epoch; [done|done|]. apply IH. lia. }
  clearbody s. split; [done|]. exists pool. unfold GetEmissionPool. rewrite Hp.
  split; [done|]. split; [done|]. split; [done|].
  intros Hend. rewrite Hend, N.sub_diag in Hs. by eapply schedule_end.
Qed.
End Schedule.

(** ** Concrete executions *)
Module EmissionsDemo.
Import Simple.

(** A bank, the approvals of each epoch and the migrated identities. *)
Record world := mkWorld {
  w_bank : bank; w_counts : N -> gmap string N; w_wallet : gmap string string }.
Definition set_bank (b : bank) (w : world) : world := mkWorld b (w_counts w) (w_wallet w).

#[export] Instance world_bank : BankKeeper world := lens_bank w_bank set_bank.
#[export] Instance world_laws : BankLaws world.
Proof. by apply (lens_bank_laws w_bank set_bank). Qed.
#[export] Instance world_memory : MemoryKeeper world := {|
  GetContributorsWithApprovalsInEpoch w e := Ok (w_counts w e);
|}.
#[export] Instance world_identity : IdentityKeeper world := {|
  ResolveIdentity w pk := match w_wallet w !! pk with
    | Some a => Ok (a, true, true) | None => Ok ("", false, false) end;
|}.

Lemma world_mints : bank_mints (P := world).
Proof. intros n w. eexists. reflexivity. Qed.

(** Two contributors have approvals in every epoch; one of them is migrated. *)
Definition w0 : world :=
  mkWorld (mkBank ∅ 0) (fun _ => {["pkA" := 2; "pkB" := 1]}) {["pkA" := "wA"]}.
Definition s0 : St emi_val world := emissions_genesis w0.
Definition s3 : St emi_val world := run_epochs 3 s0.
Definition claimA : MsgClaimContributorReward := mkMsgClaimContributorReward "wA" "pkA".
Definition s_claimed : St emi_val world := (MsgServer_ClaimContributorReward claimA s3).2.

Lemma s3_inv : emi_inv 890000000000000 s3.
Proof.
  apply run_epochs_inv; [exact world_mints|apply emissions_genesis_inv].
Qed.

Lemma mint_accounting_witness :
  exists e s', MintDailyEmission 4 s3 = (Ok e, s') /\
    pending_total (kv s') =
      pending_total (kv s3) + (de_TotalEmitted e - de_ValidatorShare e) /\
    0 < de_TotalEmitted e - de_ValidatorShare e.
Proof.
  destruct (MintDailyEmission 4 s3) as [[e|e] s'] eqn:E; [|vm_compute in E; discriminate].
  destruct (GetEmissionPool (kv s3)) as [pool|] eqn:Hp; [|vm_compute in Hp; discriminate].
  destruct (mint_accounting _ 4 s3 e s' pool s3_inv world_mints Hp E)
    as (_ & _ & _ & _ & _ & _ & _ & _ & H & _).
  exists e, s'. split; [reflexivity|]. split; [exact H|].
  apply (f_equal fst) in E. vm_compute in E. injection E as <-. reflexivity.
Defined.

Lemma two_qualify a :
  qualifies DefaultParams (epoch_counts 4 s3) a = true <-> a ∈ ({["pkA"; "pkB"]} : gset string).
Proof.
  assert (epoch_counts 4 s3 = {["pkA" := 2; "pkB" := 1]}) as -> by (vm_compute; reflexivity).
  rewrite elem_of_union, !elem_of_singleton. unfold qualifies.
  destruct (decide (a = "pkA")) as [->|HA]; [split; [by left|by vm_compute]|].
  destruct (decide (a = "pkB")) as [->|HB]; [split; [by right|by vm_compute]|].
  rewrite lookup_insert_ne, lookup_singleton_ne, andb_false_r by congruence. naive_solver.
Qed.

(** Two contributors share the budget; the odd uvibe is carried over. *)
Lemma mint_pays_equal_shares_witness :
  exists n pool', GetEmissionPool (kv (MintDailyEmission 4 s3).2) = Ok pool' /\ 0 < n /\
    GetContributorReward (kv (MintDailyEmission 4 s3).2) "pkC" =
      Ok (counter (kv s3) (contribRewardKey "pkC") + 0) /\
    GetContributorReward (kv (MintDailyEmission 4 s3).2) "pkB" =
      Ok (counter (kv s3) (contribRewardKey "pkB") + n).
Proof.
  destruct (MintDailyEmission 4 s3) as [[e|e] s'] eqn:E; [|vm_compute in E; discriminate].
  destruct (GetEmissionPool (kv s3)) as [pool|] eqn:Hp; [|vm_compute in Hp; discriminate].
  destruct (mint_pays_equal_shares _ 4 s3 e s' pool DefaultParams s3_inv world_mints Hp)
    as (qualified & pool' & Hq & Hp' & _ & _ & H).
  - vm_compute. reflexivity.
  - exact E.
  - assert (qualified = {["pkA"; "pkB"]}) as Hq'.
    { apply set_eq. intros a. rewrite Hq. apply two_qualify. }
    rewrite Hq' in H. vm_compute in Hp. injection Hp as <-. revert H.
    lazymatch goal with |- context [if N.eqb ?n 0 then 0 else ?q] =>
      assert (0 < if N.eqb n 0 then 0 else q) as Hn by (vm_compute; reflexivity);
      revert Hn; generalize (if N.eqb n 0 then 0 else q) end.
    intros share Hn H. exists share, pool'. split; [exact Hp'|]. split; [exact Hn|].
    split; [exact (proj2 (H "pkC"))|exact (proj2 (H "pkB"))].
Defined.

Lemma mint_epoch_at_most_once_witness :
  MintDailyEmission 3 s3 = (Err (Errorf "epoch must be greater than last emission epoch"), s3).
Proof.
  destruct (GetEmissionPool (kv s3)) as [pool|] eqn:Hp; [|vm_compute in Hp; discriminate].
  apply (mint_epoch_at_most_once 3 s3 pool Hp). vm_compute in Hp. injection Hp as <-.
  vm_compute. discriminate.
Defined.

Lemma epoch_hook_keeps_solvency_witness :
  exists s', AfterEpochEnd WeVibeEpochIdentifier 1 s0 = (Ok tt, s') /\ emi_inv 890000000000000 s'.
Proof.
  apply (epoch_hook_keeps_solvency _ WeVibeEpochIdentifier 1 s0 (emissions_genesis_inv w0)).
  intros n w. eexists. reflexivity.
Defined.

Lemma claim_pays_once_witness :
  exists n, MsgServer_ClaimContributorReward claimA s3 = (Ok n, s_claimed) /\ n = 41095890409 /\
    MsgServer_ClaimContributorReward claimA s_claimed = (Err ErrNothingToClaim, s_claimed).
Proof.
  assert (MsgServer_ClaimContributorReward claimA s3 = (Ok 41095890409, s_claimed)) as H
    by (vm_compute; reflexivity).
  destruct (claim_pays_once claimA s3 41095890409 s_claimed (emi_rewards _ _ s3_inv) H)
    as (r & _ & _ & _ & _ & _ & _ & _ & _ & Hagain).
  exists 41095890409. split; [exact H|]. split; [reflexivity|]. apply Hagain. vm_compute. reflexivity.
Defined.

Lemma claim_keeps_solvency_witness : emi_inv 890000000000000 s_claimed.
Proof.
  apply (claim_keeps_solvency _ claimA s3 41095890409 s_claimed s3_inv). vm_compute. reflexivity.
Defined.

Lemma validator_schedule_even_witness :
  exists e, GetDailyEmission (kv s3) 2 = Ok e /\
    (de_ValidatorShare e = epoch_quota \/ de_ValidatorShare e = epoch_quota + 1).
Proof.
  apply (validator_schedule_even w0 3); [intros n w; eexists; reflexivity|..];
    vm_compute; (discriminate || reflexivity).
Defined.

(** *** What happens when a mint fails half-way *)

(** The hook drops the error of a failed mint but not its writes.  With a bank
    whose mint fails, the rewards of the epoch are credited all the same. *)
Definition nomint_world : BankKeeper world := {|
  GetBalance := @GetBalance world world_bank;
  GetSupply := @GetSupply world world_bank;
  SendCoins := @SendCoins world world_bank;
  SendCoinsFromAccountToModule := @SendCoinsFromAccountToModule world world_bank;
  SendCoinsFromModuleToAccount := @SendCoinsFromModuleToAccount world world_bank;
  MintCoins m c := fail (Errorf "minting disabled");
  BurnCoins := @BurnCoins world world_bank;
|}.

(** The epoch hook is not atomic: if the bank refuses to mint, the hook
    still reports success and leaves rewards credited to contributors that no
    coins back, with the pool unchanged. *)
Theorem failed_mint_credits_unbacked_rewards :
  let s := (@AfterEpochEnd world nomint_world world_memory WeVibeEpochIdentifier 1 s0).2 in
  (@AfterEpochEnd world nomint_world world_memory WeVibeEpochIdentifier 1 s0).1 = Ok tt /\
  GetContributorReward (kv s) "pkA" = Ok 13698630136 /\
  GetBalance (peers s) emissions_account = 0 /\
  GetEmissionPool (kv s) = Ok DefaultEmissionPool.
Proof. vm_compute. auto. Qed.

(** A genesis pool whose shares do not add up to 100: the module's
    [InitGenesis] stores it without validating it. *)
Definition bad_pool : EmissionPool := DefaultEmissionPool <| ep_OperatorShare := 0 |>.
Definition s_bad : St emi_val world :=
  (Module_InitGenesis (Some (mkGenesisState (Some bad_pool) [] [] [] 0)) (mkSt ∅ w0 [])).2.

(** With an invalid genesis pool every epoch mints and credits, then fails to
    store the pool: the supply grows without the pool ever shrinking, and even
    the same epoch number mints again. *)
Theorem unvalidated_pool_mints_without_accounting :
  (Module_InitGenesis (Some (mkGenesisState (Some bad_pool) [] [] [] 0)) (mkSt ∅ w0 [])).1 = Ok tt /\
  let s1 := (AfterEpochEnd WeVibeEpochIdentifier 1 s_bad).2 in
  let s2 := (AfterEpochEnd WeVibeEpochIdentifier 1 s1).2 in
  GetEmissionPool (kv s2) = Ok bad_pool /\
  GetSupply (peers s1) = 27397260272 /\ GetSupply (peers s2) = 54794520544.
Proof. vm_compute. auto. Qed.

(** Redeeming bootstrap credit subtracts from the global pool without
    checking it: with no pool set, the pool wraps around to almost 2^64. *)
Theorem bootstrap_redeem_wraps_pool :
  let s := ((SetBootstrapExpiry 10 ;; AddBootstrapCredit "op" 5 ;; RedeemBootstrapCredit "op" 5) s0) in
  s.1 = Ok tt /\ GetBootstrapCredits (kv s.2) = Ok (two64 - 5).
Proof. vm_compute. auto. Qed.
End EmissionsDemo.
