(* ===== verification/Identity.v ===== *)
(** * x/identity: migrating a passkey to a wallet

    Models x/identity/types (keys.go, msgs.go, genesis.go, params.go) and
    x/identity/keeper (keeper.go, msg_server.go), with the theorems about the
    binding of a passkey to a wallet.  Signatures are the [Crypto] parameter. *)

From S2P Require Import Prelude Bytes Store Ifaces.
From Stdlib Require Import Ascii.
Local Open Scope string_scope.
Local Open Scope N_scope.

(** [types.StoredIdentityAlias] (types/state.pb.go). *)
Record StoredIdentityAlias := mkAlias {
  a_PasskeyPubkey : string; a_WalletAddress : string; a_IsMigrated : bool;
  a_MigratedAtEpoch : N;
}.
#[export] Instance StoredIdentityAlias_fields : Fields StoredIdentityAlias :=
  fun r => mkAlias (a_PasskeyPubkey r) (a_WalletAddress r)
      (a_IsMigrated r) (a_MigratedAtEpoch r).

(** [types.Params]. *)
Record Params := mkParams {
  p_Active : bool;
}.
#[export] Instance Params_fields : Fields Params :=
  fun r => mkParams (p_Active r).

(** [types.MsgMigrateIdentity] (types/tx.pb.go). *)
Record MsgMigrateIdentity := mkMsgMigrateIdentity {
  mm_Signer : string; mm_PasskeyPubkey : string; mm_PasskeySignature : string;
  mm_Nonce : N;
}.

(** [types.GenesisState]: the aliases are pointers. *)
Record GenesisState := mkGenesisState {
  g_Aliases : list (option StoredIdentityAlias); g_Params : Params;
}.

Definition ErrAliasAlreadyMigrated := Sentinel "identity" "alias already migrated".
Definition ErrInvalidPasskeySignature := Sentinel "identity" "invalid passkey signature".
Definition ErrInvalidWalletAddress := Sentinel "identity" "invalid wallet address".
Definition ErrInvalidPasskeyPubkey := Sentinel "identity" "invalid passkey pubkey".

Definition DefaultParams : Params := mkParams true.
Definition DefaultGenesis : GenesisState := mkGenesisState [] DefaultParams.

Definition PublicKeySize : N := 32.
Definition SignatureSize : N := 64.

(** [hex.DecodeString] followed by the length check. *)
Definition decode_sized (e : error) (size : N) (s : string) : result string :=
  bz ← from_option_err e (hex_decode s);
  err_if (negb (len bz =? size)) e ;;
  mret bz.

Definition MsgMigrateIdentity_ValidateBasic (m : MsgMigrateIdentity) : result unit :=
  err_if (bool_decide (mm_Signer m = "")) (Errorf "signer cannot be empty") ;;
  err_if (bool_decide (mm_PasskeyPubkey m = "")) ErrInvalidPasskeyPubkey ;;
  err_if (bool_decide (mm_PasskeySignature m = "")) ErrInvalidPasskeySignature ;;
  decode_sized ErrInvalidPasskeyPubkey PublicKeySize (mm_PasskeyPubkey m) ;;
  decode_sized ErrInvalidPasskeySignature SignatureSize (mm_PasskeySignature m) ;;
  mret tt.

Fixpoint validate_aliases (seen : list string) (l : list (option StoredIdentityAlias)) :
    result unit :=
  match l with
  | [] => mret tt
  | None :: _ => Err (Errorf "alias cannot be nil")
  | Some alias :: l' =>
      err_if (bool_decide (a_PasskeyPubkey alias = "")) ErrInvalidPasskeyPubkey ;;
      decode_sized ErrInvalidPasskeyPubkey PublicKeySize (a_PasskeyPubkey alias) ;;
      err_if (bool_decide (a_WalletAddress alias = "")) ErrInvalidWalletAddress ;;
      err_if (bool_decide (a_PasskeyPubkey alias ∈ seen)) (Errorf "duplicate passkey_pubkey") ;;
      validate_aliases (a_PasskeyPubkey alias :: seen) l'
  end.

Definition GenesisState_Validate (g : GenesisState) : result unit := validate_aliases [] (g_Aliases g).

(** ** Store *)
Inductive id_val :=
  | VParams (p : Params)
  | VAlias (a : StoredIdentityAlias)
  | VRaw (b : string).

Definition KeyPrefixAlias := "alias/".
Definition AliasKey (passkeyPubkey : string) : string := KeyPrefixAlias +:+ passkeyPubkey.
Definition paramsKey := "params".

Definition getParams (m : gmap string id_val) : result Params :=
  match m !! paramsKey with
  | None => Ok DefaultParams
  | Some (VParams p) => Ok p
  | Some _ => Err (Errorf "unmarshal params")
  end.

Definition GetAlias (m : gmap string id_val) (passkeyPubkey : string) :
    result (option StoredIdentityAlias) :=
  match m !! AliasKey passkeyPubkey with
  | None => Ok None
  | Some (VAlias a) => Ok (Some a)
  | Some _ => Err (Errorf "unmarshal alias")
  end.

(** wallet address, is_migrated, found *)
Definition ResolveIdentity (m : gmap string id_val) (passkeyPubkey : string) :
    result (string * bool * bool) :=
  alias ← GetAlias m passkeyPubkey;
  match alias with
  | None => mret ("", false, false)
  | Some a => mret (a_WalletAddress a, a_IsMigrated a, true)
  end.

(** [IterateAliases] stops calling back after the callback returns [false];
    an undecodable value is an error. *)
Fixpoint iterate_aliases {A} (cb : A -> StoredIdentityAlias -> A * bool) (acc : A) (stop : bool)
    (l : list (string * id_val)) : result A :=
  match l with
  | [] => mret acc
  | (_, VAlias a) :: l' =>
      if stop then iterate_aliases cb acc stop l'
      else let '(acc', go) := cb acc a in iterate_aliases cb acc' (negb go) l'
  | _ :: _ => Err (Errorf "unmarshal alias")
  end.

Definition IterateAliases {A} (cb : A -> StoredIdentityAlias -> A * bool) (acc : A)
    (m : gmap string id_val) : result A :=
  iterate_aliases cb acc false (prefix_iter KeyPrefixAlias m).

Definition ExportGenesisState (m : gmap string id_val) : result GenesisState :=
  params ← getParams m;
  aliases ← IterateAliases (fun l a => ((l ++ [Some a])%list, true)) [] m;
  mret (mkGenesisState aliases params).

Section KeeperOps.
Context {P : Type} {ADDR : Addresses} {CRYPTO : Crypto}.

Definition setParams (params : Params) : M (St id_val P) unit := kset paramsKey (VParams params).

Definition SetAlias (alias : StoredIdentityAlias) : M (St id_val P) unit :=
  kset (AliasKey (a_PasskeyPubkey alias)) (VAlias alias).

(** Errors are panics. *)
Definition InitGenesisState (state : option GenesisState) : M (St id_val P) unit :=
  let state := default DefaultGenesis state in
  map_err (fun _ => Panic "identity: validate genesis") (lift (GenesisState_Validate state)) ;;
  setParams (g_Params state) ;;
  for_each (g_Aliases state) (fun alias =>
    match alias with None => mret tt | Some a => SetAlias a end).

(** The bytes the passkey signs. *)
Definition canonical (passkeyPubkey wallet : string) (nonce : N) : string :=
  "wevibe.migrate_identity.v1" +:+ newline +:+ "passkey_pubkey:" +:+ passkeyPubkey +:+
  newline +:+ "wallet:" +:+ wallet +:+ newline +:+ "nonce:" +:+ FormatUint nonce.

Definition MigrateIdentity (ctx : BlockCtx) (msg : MsgMigrateIdentity) : M (St id_val P) unit :=
  lift (MsgMigrateIdentity_ValidateBasic msg) ;;
  map_err (fun _ => ErrInvalidWalletAddress) (lift (AccAddressFromBech32 (mm_Signer msg))) ;;
  passkeyPubkey ← lift (decode_sized ErrInvalidPasskeyPubkey PublicKeySize (mm_PasskeyPubkey msg));
  passkeySignature ← lift (decode_sized ErrInvalidPasskeySignature SignatureSize
                             (mm_PasskeySignature msg));
  fail_if (negb (ed25519_Verify passkeyPubkey
                   (canonical (mm_PasskeyPubkey msg) (mm_Signer msg) (mm_Nonce msg))
                   passkeySignature))
    ErrInvalidPasskeySignature ;;
  existing ← kread (fun m => GetAlias m (mm_PasskeyPubkey msg));
  fail_if (match existing with Some a => a_IsMigrated a | None => false end)
    ErrAliasAlreadyMigrated ;;
  SetAlias (mkAlias (mm_PasskeyPubkey msg) (mm_Signer msg) true
              (u64_of_int64 (BlockHeight ctx))) ;;
  emit (mkEvent "identity.migrated"
    [("passkey_pubkey", mm_PasskeyPubkey msg); ("wallet", mm_Signer msg)]).

(** A sequence of migration transactions. *)
Definition run_migrations (l : list (BlockCtx * MsgMigrateIdentity)) (s : St id_val P) :
    St id_val P :=
  foldl (fun s cm => (deliver (MigrateIdentity cm.1 cm.2) s).2) s l.
End KeeperOps.

(** ** Properties *)
Section Facts.
Context {P : Type} {ADDR : Addresses} {CRYPTO : Crypto}.
Implicit Types s : St id_val P.

Lemma decode_sized_ok e n h bz : decode_sized e n h = Ok bz -> hex_decode h = Some bz /\ len bz = n.
Proof. unfold decode_sized. intros H. rok H. gok. done. Qed.

(** What a successful migration checked and wrote. *)
Lemma MigrateIdentity_ok ctx msg s u s' :
  MigrateIdentity ctx msg s = (Ok u, s') ->
  (exists pk sig, hex_decode (mm_PasskeyPubkey msg) = Some pk /\ len pk = PublicKeySize /\
    hex_decode (mm_PasskeySignature msg) = Some sig /\ len sig = SignatureSize /\
    ed25519_Verify pk (canonical (mm_PasskeyPubkey msg) (mm_Signer msg) (mm_Nonce msg)) sig = true) /\
  (forall w found, ResolveIdentity (kv s) (mm_PasskeyPubkey msg) <> Ok (w, true, found)) /\
  kv s' = <[AliasKey (mm_PasskeyPubkey msg) :=
             VAlias (mkAlias (mm_PasskeyPubkey msg) (mm_Signer msg) true
                       (u64_of_int64 (BlockHeight ctx)))]> (kv s).
Proof.
  unfold MigrateIdentity, SetAlias. intros H. mok H. gok.
  apply decode_sized_ok in Hm1 as [Hp Hpl], Hm2 as [Hs Hsl].
  split; [by eauto 10|]. split; [|done].
  intros w found HH. unfold ResolveIdentity in HH. rewrite Hm4 in HH.
  rok HH; subst; simplify_eq/=; congruence.
Qed.

Lemma AliasKey_inj a b : AliasKey a = AliasKey b -> a = b.
Proof. apply str_app_inj_l. Qed.

(** One delivered migration never changes the resolution of an identity that
    is already migrated. *)
Lemma migration_keeps ctx msg s pk w :
  ResolveIdentity (kv s) pk = Ok (w, true, true) ->
  ResolveIdentity (kv (deliver (MigrateIdentity ctx msg) s).2) pk = Ok (w, true, true).
Proof.
  intros Hr. destruct (deliver (MigrateIdentity ctx msg) s) as [[u|e] s'] eqn:E; simpl.
  - apply deliver_ok, MigrateIdentity_ok in E as (_ & Hn & Hkv).
    destruct (decide (mm_PasskeyPubkey msg = pk)) as [<-|Hne]; [by destruct (Hn w true)|].
    unfold ResolveIdentity, GetAlias in *. rewrite Hkv, lookup_insert_ne; [done|].
    by intros ?%AliasKey_inj.
  - apply deliver_err in E. by subst.
Qed.

Lemma migrated_refused ctx msg s w r s' :
  ResolveIdentity (kv s) (mm_PasskeyPubkey msg) = Ok (w, true, true) ->
  MigrateIdentity ctx msg s = (r, s') -> (exists e, r = Err e) /\ s' = s.
Proof.
  intros Hr H. destruct r as [u|e].
  { apply MigrateIdentity_ok in H as (_ & Hn & _). by destruct (Hn w true). }
  split; [by eexists|]. unfold MigrateIdentity in H. ro_err H.
  apply M_bind_err in H as [H|(? & ? & _ & H)]; discriminate H.
Qed.

(** C37: a passkey, as it is spelled in hex, is bound to a wallet at most once and
    for good.  After a successful migration, and after any later sequence of
    migrations by whomever, that spelling resolves to the signer's wallet, and
    every further migration of the same spelling is refused and changes nothing.
    (Another spelling of the same key is another entry of the store.) *)
Theorem migration_is_permanent ctx msg s u s' l :
  MigrateIdentity ctx msg s = (Ok u, s') ->
  let s'' := run_migrations l s' in
  ResolveIdentity (kv s'') (mm_PasskeyPubkey msg) = Ok (mm_Signer msg, true, true) /\
  forall ctx2 msg2, mm_PasskeyPubkey msg2 = mm_PasskeyPubkey msg ->
    exists e, MigrateIdentity ctx2 msg2 s'' = (Err e, s'').
Proof.
  intros (_ & _ & Hkv)%MigrateIdentity_ok.
  assert (ResolveIdentity (kv s') (mm_PasskeyPubkey msg) = Ok (mm_Signer msg, true, true)) as H.
  { unfold ResolveIdentity, GetAlias. by rewrite Hkv, lookup_insert_eq. }
  intros s''. assert (ResolveIdentity (kv s'') (mm_PasskeyPubkey msg) = Ok (mm_Signer msg, true, true)) as H''.
  { unfold s''. clear Hkv s''. revert s' H. induction l as [|[c m] l IH]; intros s' H; [done|].
    simpl. apply IH. by apply migration_keeps. }
  split; [done|]. intros ctx2 msg2 E. rewrite <- E in H''.
  destruct (MigrateIdentity ctx2 msg2 s'') as [r t] eqn:Hr.
  destruct (migrated_refused _ _ _ _ _ _ H'' Hr) as ([e ->] & ->). by exists e.
Qed.

(** Hex digits contain no newline. *)
Lemma hex_decode_no_newline h bz : hex_decode h = Some bz -> free_of (ascii_of_N 10) h.
Proof.
  remember (String.length h) as n eqn:Hn. revert h bz Hn.
  induction n as [n IH] using lt_wf_ind. intros [|a [|b h]] bz Hn H; [done|done|].
  cbn [hex_decode] in H.
  destruct (hex_val a) eqn:Ea; [|done]. destruct (hex_val b) eqn:Eb; [|done].
  destruct (hex_decode h) eqn:Eh; [|done].
  rewrite !free_of_cons. split; [by intros ->|]. split; [by intros ->|].
  eapply (IH (String.length h)); [|done|done]. subst. simpl. lia.
Qed.

(** The signed bytes determine what is signed: for hex passkeys and wallets
    without line breaks, equal canonical messages have equal passkey, wallet
    and nonce, so a passkey signature authorises one binding only. *)
Theorem canonical_binds pk pk' w w' n n' bz bz' :
  hex_decode pk = Some bz -> hex_decode pk' = Some bz' ->
  free_of (ascii_of_N 10) w -> free_of (ascii_of_N 10) w' ->
  canonical pk w n = canonical pk' w' n' -> pk = pk' /\ w = w' /\ n = n'.
Proof.
  intros Hp Hp' Hw Hw' H. apply hex_decode_no_newline in Hp, Hp'. unfold canonical in H.
  apply str_app_inj_l, str_app_inj_l, str_app_inj_l in H.
  apply (sep_split (ascii_of_N 10)) in H as [-> H]; [|done..].
  apply str_app_inj_l in H. apply (sep_split (ascii_of_N 10)) in H as [-> H]; [|done..].
  apply str_app_inj_l, FormatUint_inj in H. done.
Qed.

(** Nobody but the holder of the passkey can bind it: every accepted
    migration carries a valid ed25519 signature, under the passkey's own public
    key, over the canonical message naming that passkey and the signing wallet;
    an already migrated passkey is refused with [ErrAliasAlreadyMigrated]
    whatever the signature. *)
Theorem migration_needs_passkey_signature ctx msg s :
  (forall u s', MigrateIdentity ctx msg s = (Ok u, s') ->
    exists pk sig, hex_decode (mm_PasskeyPubkey msg) = Some pk /\ len pk = 32 /\
      hex_decode (mm_PasskeySignature msg) = Some sig /\ len sig = 64 /\
      ed25519_Verify pk (canonical (mm_PasskeyPubkey msg) (mm_Signer msg) (mm_Nonce msg)) sig
        = true) /\
  (forall w r s', ResolveIdentity (kv s) (mm_PasskeyPubkey msg) = Ok (w, true, true) ->
    MigrateIdentity ctx msg s = (r, s') -> (exists e, r = Err e) /\ s' = s).
Proof.
  split; [by intros u s' (? & _)%MigrateIdentity_ok|]. intros w r s'. apply migrated_refused.
Qed.
End Facts.

(** ** Concrete executions *)
Module IdentityDemo.
Import Simple.

Definition pkA : string := hex_encode "0123456789abcdef0123456789abcdef".
(** A toy signature scheme of the right sizes: a signature is the first 64
    bytes of key and message. *)
#[export] Instance crypto64 : Crypto := {|
  sha256 s := s;
  ed25519_Verify pk msg sig := bool_decide (sig = String.substring 0 64 (pk +:+ msg));
|}.

Definition sigA (w : string) (n : N) : string :=
  hex_encode (String.substring 0 64 ("0123456789abcdef0123456789abcdef" +:+ canonical pkA w n)).
Definition msgA : MsgMigrateIdentity := mkMsgMigrateIdentity "walletA" pkA (sigA "walletA" 1) 1.
Definition msgB : MsgMigrateIdentity := mkMsgMigrateIdentity "walletB" pkA (sigA "walletB" 2) 2.
Definition s0 : St id_val unit := (InitGenesisState None (mkSt ∅ tt [])).2.
Definition s1 : St id_val unit := (MigrateIdentity (mkCtx 5 0) msgA s0).2.

Lemma migration_is_permanent_witness :
  ResolveIdentity (kv (run_migrations [(mkCtx 6 0, msgB)] s1)) pkA = Ok ("walletA", true, true).
Proof.
  apply (migration_is_permanent (mkCtx 5 0) msgA s0 tt s1). vm_compute. reflexivity.
Defined.

(** The store is keyed by the spelling: one key in lower and in upper case is
    bound to two wallets. *)
Definition key_o : string := "oooooooooooooooooooooooooooooooo".
Definition lower_o : string := hex_encode key_o.
Definition upper_o : string :=
  "6F6F6F6F6F6F6F6F6F6F6F6F6F6F6F6F6F6F6F6F6F6F6F6F6F6F6F6F6F6F6F6F".
Definition migrate_o (pk w : string) : MsgMigrateIdentity :=
  mkMsgMigrateIdentity w pk (hex_encode (String.substring 0 64 (key_o +:+ canonical pk w 1))) 1.

Lemma one_key_two_wallets :
  let s := run_migrations [(mkCtx 5 0, migrate_o lower_o "walletA"); (mkCtx 6 0, migrate_o upper_o "walletB")] s0 in
  hex_decode lower_o = Some key_o /\ hex_decode upper_o = Some key_o /\
  ResolveIdentity (kv s) lower_o = Ok ("walletA", true, true) /\
  ResolveIdentity (kv s) upper_o = Ok ("walletB", true, true).
Proof. split_and!; vm_compute; reflexivity. Qed.

Lemma canonical_binds_witness :
  canonical pkA "walletA" 1 <> canonical pkA "walletA" 2.
Proof.
  intros H. destruct (canonical_binds pkA pkA "walletA" "walletA" 1 2 _ _
    (hex_decode_encode _) (hex_decode_encode _) eq_refl eq_refl H) as (_ & _ & E).
  discriminate E.
Defined.
End IdentityDemo.
