(* ===== verification/Bandwidth.v ===== *)
(** * x/bandwidth: per-org, per-epoch quotas

    Models x/bandwidth/types (keys.go, msgs.go, params.go, genesis.go) and
    x/bandwidth/keeper (keeper.go, convert.go, msg_server.go), with the
    theorems about the quotas. *)

From S2P Require Import Prelude Bytes Store Ifaces.
From Stdlib Require Import Ascii.
Local Open Scope string_scope.
Local Open Scope N_scope.

(** ** Expected keepers (types/expected_keepers.go) *)
Class OrgKeeper (P : Type) := {
  HasOrg : P -> string -> result bool;
  IsLeader : P -> string -> string -> result bool;
}.

(** [types.BandwidthState] (types/keys.go). *)
Record BandwidthState := mkBandwidthState {
  bs_OrgID : string; bs_Epoch : N; bs_MemoryUsed : N; bs_MemoryCap : N; bs_ServeUsed : N;
  bs_ServeCap : N;
}.
#[export] Instance BandwidthState_fields : Fields BandwidthState :=
  fun r => mkBandwidthState (bs_OrgID r) (bs_Epoch r) (bs_MemoryUsed r) (bs_MemoryCap r)
    (bs_ServeUsed r) (bs_ServeCap r).

(** [types.StoredBandwidthState] (types/state.pb.go). *)
Record StoredBandwidthState := mkStoredBandwidthState {
  ss_OrgId : string; ss_Epoch : N; ss_MemoryUsed : N; ss_MemoryCap : N; ss_ServeUsed : N;
  ss_ServeCap : N;
}.

(** [types.BandwidthOverride]. *)
Record BandwidthOverride := mkBandwidthOverride {
  bo_OrgID : string; bo_MemoryCap : N; bo_ServeCap : N;
}.

(** [types.StoredBandwidthOverride]. *)
Record StoredBandwidthOverride := mkStoredBandwidthOverride {
  so_OrgId : string; so_MemoryCap : N; so_ServeCap : N;
}.

(** [types.Params]. *)
Record Params := mkParams {
  p_DefaultMemoryCapPerEpoch : N; p_DefaultServeCapPerEpoch : N;
}.

Record MsgSetBandwidthOverride := mkMsgSetBandwidthOverride {
  mo_Signer : string; mo_OrgId : string; mo_MemoryCap : N; mo_ServeCap : N;
}.

Record MsgUpdateParams := mkMsgUpdateParams {
  mu_Authority : string; mu_Params : option Params;
}.

Record GenesisState := mkGenesisState {
  g_BandwidthStates : list BandwidthState; g_BandwidthOverrides : list BandwidthOverride;
}.

Definition ErrInvalidOrgID := Sentinel "bandwidth" "invalid org ID".
Definition ErrMemoryBandwidthExhausted :=
  Sentinel "bandwidth" "memory bandwidth exhausted for this epoch".
Definition ErrServeBandwidthExhausted :=
  Sentinel "bandwidth" "serve bandwidth exhausted for this epoch".
Definition ErrInvalidCap := Sentinel "bandwidth" "bandwidth cap must be greater than zero".
Definition ErrOverrideNotFound := Sentinel "bandwidth" "no bandwidth override for org".
Definition ErrUnauthorized := Sentinel "bandwidth" "unauthorized".
Definition ErrOrgNotFound := Sentinel "bandwidth" "org not found".

Definition DefaultParams : Params := mkParams 10000 50000.

Definition NewBandwidthState (orgID : string) (epoch memoryCap serveCap : N) : BandwidthState :=
  mkBandwidthState orgID epoch 0 memoryCap 0 serveCap.

Definition NewBandwidthOverride (orgID : string) (memoryCap serveCap : N) : BandwidthOverride :=
  mkBandwidthOverride orgID memoryCap serveCap.

Definition stateToStored (s : BandwidthState) : StoredBandwidthState :=
  mkStoredBandwidthState (bs_OrgID s) (bs_Epoch s) (bs_MemoryUsed s) (bs_MemoryCap s)
    (bs_ServeUsed s) (bs_ServeCap s).

Definition storedToState (s : StoredBandwidthState) : BandwidthState :=
  mkBandwidthState (ss_OrgId s) (ss_Epoch s) (ss_MemoryUsed s) (ss_MemoryCap s)
    (ss_ServeUsed s) (ss_ServeCap s).

Definition overrideToStored (o : BandwidthOverride) : StoredBandwidthOverride :=
  mkStoredBandwidthOverride (bo_OrgID o) (bo_MemoryCap o) (bo_ServeCap o).

Definition storedToOverride (o : StoredBandwidthOverride) : BandwidthOverride :=
  mkBandwidthOverride (so_OrgId o) (so_MemoryCap o) (so_ServeCap o).

Definition MsgSetBandwidthOverride_ValidateBasic (m : MsgSetBandwidthOverride) : result unit :=
  err_if (bool_decide (mo_Signer m = "")) (Errorf "signer cannot be empty") ;;
  err_if (bool_decide (mo_OrgId m = "")) ErrInvalidOrgID ;;
  err_if ((mo_MemoryCap m =? 0) && (mo_ServeCap m =? 0)) ErrInvalidCap.

(** [Params.Validate] has a pointer receiver and accepts everything, nil
    included. *)
Definition MsgUpdateParams_ValidateBasic (m : MsgUpdateParams) : result unit :=
  err_if (bool_decide (mu_Authority m = "")) (Errorf "authority cannot be empty").

(** ** The store *)
Inductive bw_val :=
  | VParams (p : Params)
  | VState (s : StoredBandwidthState)
  | VOverride (o : StoredBandwidthOverride)
  | VRaw (b : string).

Definition stateKey (orgID : string) (epoch : N) : string :=
  "state/" +:+ orgID +:+ "/" +:+ FormatUint epoch.
Definition overrideKey (orgID : string) : string := "override/" +:+ orgID.
Definition ParamsKey : string := "params".

(** [proto.Unmarshal] of the bytes of one record type into another, by the
    field numbers and wire types of state.proto and params.proto: unknown
    fields are skipped, an absent field is zero, and a varint where a string is
    expected is an error.  The genesis marker (one byte 0x01) decodes to
    neither. *)
Definition decode_override (v : bw_val) : option StoredBandwidthOverride :=
  match v with
  | VOverride o => Some o
  | VState s => Some (mkStoredBandwidthOverride (ss_OrgId s) (ss_Epoch s) (ss_MemoryUsed s))
  | VParams p =>
      if p_DefaultMemoryCapPerEpoch p =? 0
      then Some (mkStoredBandwidthOverride "" (p_DefaultServeCapPerEpoch p) 0)
      else None
  | VRaw _ => None
  end.

Definition decode_state (v : bw_val) : option StoredBandwidthState :=
  match v with
  | VState s => Some s
  | VOverride o =>
      Some (mkStoredBandwidthState (so_OrgId o) (so_MemoryCap o) (so_ServeCap o) 0 0 0)
  | VParams p =>
      if p_DefaultMemoryCapPerEpoch p =? 0
      then Some (mkStoredBandwidthState "" (p_DefaultServeCapPerEpoch p) 0 0 0 0)
      else None
  | VRaw _ => None
  end.

Section Reads.
Implicit Types m : gmap string bw_val.

Definition GetParams m : result Params :=
  match m !! ParamsKey with
  | None => Ok DefaultParams
  | Some (VParams p) => Ok p
  | Some _ => Err (Errorf "unmarshal params")
  end.

Definition GetBandwidthState m (orgID : string) (epoch : N) : result (option BandwidthState) :=
  match m !! stateKey orgID epoch with
  | None => Ok None
  | Some v => match decode_state v with
              | Some s => Ok (Some (storedToState s))
              | None => Err (Errorf "unmarshal bandwidth state")
              end
  end.

Definition GetBandwidthOverride m (orgID : string) : result BandwidthOverride :=
  match m !! overrideKey orgID with
  | None => Err ErrOverrideNotFound
  | Some v => match decode_override v with
              | Some o => Ok (storedToOverride o)
              | None => Err (Errorf "unmarshal override")
              end
  end.

(** The caps of a new state: the org's override, else the parameters. *)
Definition caps m (orgID : string) : result (N * N) :=
  match m !! overrideKey orgID with
  | Some v => match decode_override v with
              | Some o => Ok (so_MemoryCap o, so_ServeCap o)
              | None => Err (Errorf "unmarshal override")
              end
  | None => params ← GetParams m;
            mret (p_DefaultMemoryCapPerEpoch params, p_DefaultServeCapPerEpoch params)
  end.

(** Keeps the first override of each org. *)
Fixpoint first_overrides (seen : list string) (l : list StoredBandwidthOverride) :
    list BandwidthOverride :=
  match l with
  | [] => []
  | o :: l' =>
      if bool_decide (so_OrgId o ∈ seen) then first_overrides seen l'
      else storedToOverride o :: first_overrides (so_OrgId o :: seen) l'
  end.

(** Both scans run from their prefix to the end of the store. *)
Definition ExportGenesis m : GenesisState :=
  mkGenesisState
    (omap (fun kv => storedToState <$> decode_state kv.2) (from_iter "state/" m))
    (first_overrides [] (omap (fun kv => decode_override kv.2) (from_iter "override/" m))).
End Reads.

Record Keeper := mkKeeper { authority : string }.

Section KeeperOps.
Context {P : Type} {ORG : OrgKeeper P}.
Variable k : Keeper.
Notation S := (St bw_val P).

Definition SetParams (params : Params) : M S unit := kset ParamsKey (VParams params).

Definition GetOrInitBandwidthState (orgID : string) (epoch : N) : M S BandwidthState :=
  v ← kread (fun m => GetBandwidthState m orgID epoch);
  match v with
  | Some state => mret state
  | None =>
      mc ← kread (fun m => caps m orgID);
      let state := NewBandwidthState orgID epoch mc.1 mc.2 in
      kset (stateKey orgID epoch) (VState (stateToStored state)) ;;
      mret state
  end.

(** used and cap of memory, used and cap of serve *)
Definition GetOrInitBandwidthStateRaw (orgID : string) (epoch : N) : M S (N * N * N * N) :=
  state ← GetOrInitBandwidthState orgID epoch;
  mret (bs_MemoryUsed state, bs_MemoryCap state, bs_ServeUsed state, bs_ServeCap state).

Definition ConsumeMemoryBandwidth (orgID : string) (epoch : N) : M S unit :=
  state ← GetOrInitBandwidthState orgID epoch;
  fail_if (bs_MemoryCap state <=? bs_MemoryUsed state) ErrMemoryBandwidthExhausted ;;
  let state := state <| bs_MemoryUsed := (bs_MemoryUsed state + 1)%u64 |> in
  kset (stateKey orgID epoch) (VState (stateToStored state)).

Definition ConsumeServeBandwidth (orgID : string) (epoch count : N) : M S unit :=
  state ← GetOrInitBandwidthState orgID epoch;
  fail_if (bs_ServeCap state <? (bs_ServeUsed state + count)%u64) ErrServeBandwidthExhausted ;;
  let state := state <| bs_ServeUsed := (bs_ServeUsed state + count)%u64 |> in
  kset (stateKey orgID epoch) (VState (stateToStored state)).

Definition SetBandwidthOverride (orgID : string) (memoryCap serveCap : N) : M S unit :=
  kset (overrideKey orgID)
    (VOverride (overrideToStored (NewBandwidthOverride orgID memoryCap serveCap))).

Definition DeleteBandwidthOverride (orgID : string) : M S unit := kdel (overrideKey orgID).

Definition GetRemainingBandwidth (orgID : string) (epoch : N) : M S (N * N) :=
  state ← GetOrInitBandwidthState orgID epoch;
  mret ((bs_MemoryCap state - bs_MemoryUsed state)%u64, (bs_ServeCap state - bs_ServeUsed state)%u64).

Fixpoint init_overrides (seen : list string) (l : list BandwidthOverride) : M S unit :=
  match l with
  | [] => mret tt
  | bo :: l' =>
      if bool_decide (bo_OrgID bo ∈ seen) then init_overrides seen l'
      else kset (overrideKey (bo_OrgID bo)) (VOverride (overrideToStored bo)) ;;
           init_overrides (bo_OrgID bo :: seen) l'
  end.

Definition InitGenesis (state : GenesisState) : M S unit :=
  for_each (g_BandwidthStates state) (fun bs =>
    kset (stateKey (bs_OrgID bs) (bs_Epoch bs)) (VState (stateToStored bs))) ;;
  init_overrides [] (g_BandwidthOverrides state).

Definition MsgServer_SetBandwidthOverride (msg : MsgSetBandwidthOverride) : M S unit :=
  lift (MsgSetBandwidthOverride_ValidateBasic msg) ;;
  hasOrg ← peer_read (fun p => HasOrg p (mo_OrgId msg));
  fail_if (negb hasOrg) ErrOrgNotFound ;;
  isLeader ← peer_read (fun p => IsLeader p (mo_OrgId msg) (mo_Signer msg));
  fail_if (negb isLeader) ErrUnauthorized ;;
  SetBandwidthOverride (mo_OrgId msg) (mo_MemoryCap msg) (mo_ServeCap msg).

Definition MsgServer_UpdateParams (msg : MsgUpdateParams) : M S unit :=
  fail_if (negb (bool_decide (mu_Authority msg = authority k))) ErrUnauthorized ;;
  lift (MsgUpdateParams_ValidateBasic msg) ;;
  match mu_Params msg with
  | None => fail (Panic "nil pointer dereference")
  | Some p => SetParams p
  end.
End KeeperOps.

(** ** Keys *)
Lemma stateKey_inj id e id' e' : stateKey id e = stateKey id' e' -> id = id' /\ e = e'.
Proof.
  intros H%str_app_inj_l.
  destruct (sep_split_last "/" id id' (FormatUint e) (FormatUint e')) as [-> He];
    [apply FormatUint_no_slash..|exact H|]. split; [done|]. by apply FormatUint_inj.
Qed.

(** ** Properties *)

(** Every recorded usage is within its cap. *)
Definition quota_ok (m : gmap string bw_val) : Prop :=
  forall id e st, GetBandwidthState m id e = Ok (Some st) ->
    bs_MemoryUsed st <= bs_MemoryCap st /\ bs_ServeUsed st <= bs_ServeCap st.

Section Facts.
Context {P : Type} {ORG : OrgKeeper P}.
Implicit Types s : St bw_val P.

Lemma GetBandwidthState_insert m id e st id' e' :
  GetBandwidthState (<[stateKey id e := VState (stateToStored st)]> m) id' e' =
  if decide (id = id' /\ e = e') then Ok (Some st) else GetBandwidthState m id' e'.
Proof.
  unfold GetBandwidthState. case_decide as E.
  - destruct E as [<- <-]. rewrite lookup_insert_eq. by destruct st.
  - rewrite lookup_insert_ne; [done|]. intros ?%stateKey_inj. auto.
Qed.

(** Reading or creating the state of an epoch: the result is what the store
    then holds, a created state is unused, and no other state changes. *)
Lemma GetOrInit_ok id e s st s' :
  GetOrInitBandwidthState id e s = (Ok st, s') ->
  GetBandwidthState (kv s') id e = Ok (Some st) /\
  (forall id' e', (id' <> id \/ e' <> e) ->
     GetBandwidthState (kv s') id' e' = GetBandwidthState (kv s) id' e') /\
  (GetBandwidthState (kv s) id e = Ok (Some st) \/
   GetBandwidthState (kv s) id e = Ok None /\ bs_MemoryUsed st = 0 /\ bs_ServeUsed st = 0 /\
   caps (kv s) id = Ok (bs_MemoryCap st, bs_ServeCap st)).
Proof.
  unfold GetOrInitBandwidthState. intros H. mok H; simpl.
  - split; [done|]. split; [done|]. by left.
  - setoid_rewrite GetBandwidthState_insert. rewrite decide_True by done.
    split; [done|]. split; [|right; by destruct a0].
    intros id' e' Hne. rewrite decide_False; [done|]. naive_solver.
Qed.

Lemma quota_GetOrInit id e s st s' :
  quota_ok (kv s) -> GetOrInitBandwidthState id e s = (Ok st, s') -> quota_ok (kv s').
Proof.
  intros HQ (Hst & Hoth & Hor)%GetOrInit_ok id' e' st' Hg.
  destruct (decide (id' = id /\ e' = e)) as [[-> ->]|Hne].
  - rewrite Hst in Hg. injection Hg as <-. destruct Hor as [Hs|(_ & -> & -> & _)]; [by eapply HQ|lia].
  - eapply HQ. rewrite <- Hoth; [exact Hg|]. destruct (decide (id' = id)); naive_solver.
Qed.

Lemma quota_write id e st s :
  quota_ok (kv s) -> bs_MemoryUsed st <= bs_MemoryCap st -> bs_ServeUsed st <= bs_ServeCap st ->
  quota_ok (<[stateKey id e := VState (stateToStored st)]> (kv s)).
Proof.
  intros HQ H1 H2 id' e' st'. rewrite GetBandwidthState_insert.
  case_decide; [by intros [= <-]|apply HQ].
Qed.

(** No org ever uses more than its cap: consuming bandwidth, on every path,
    keeps every recorded usage within its cap. *)
Theorem quotas_never_exceeded id e n s :
  quota_ok (kv s) ->
  (forall u s', ConsumeMemoryBandwidth id e s = (Ok u, s') -> quota_ok (kv s')) /\
  (forall u s', ConsumeServeBandwidth id e n s = (Ok u, s') -> quota_ok (kv s')) /\
  (forall c u s', SetBandwidthOverride id n c s = (Ok u, s') -> quota_ok (kv s')).
Proof.
  intros HQ. split; [|split].
  - intros u s' H. unfold ConsumeMemoryBandwidth in H. mok H. gok. simpl.
    pose proof (quota_GetOrInit _ _ _ _ _ HQ Hm) as HQ'. apply GetOrInit_ok in Hm as (Hst & _ & _).
    destruct (HQ' _ _ _ Hst) as [H1 H2]. apply quota_write; [done| |done]. simpl.
    unfold u64_add. etrans; [apply N.Div0.mod_le|]. lia.
  - intros u s' H. unfold ConsumeServeBandwidth in H. mok H. gok. simpl.
    pose proof (quota_GetOrInit _ _ _ _ _ HQ Hm) as HQ'. apply GetOrInit_ok in Hm as (Hst & _ & _).
    destruct (HQ' _ _ _ Hst) as [H1 H2]. apply quota_write; done.
  - intros c u s' H. unfold SetBandwidthOverride in H. mok H. intros id' e' st'. simpl.
    unfold GetBandwidthState. rewrite lookup_insert_ne by (intros HH; discriminate HH). apply HQ.
Qed.

(** [n] commitments in a row: how many were admitted. *)
Fixpoint admitted (id : string) (e : N) (n : nat) (s : St bw_val P) : N * St bw_val P :=
  match n with
  | O => (0, s)
  | S n' =>
      let '(c, s1) := admitted id e n' s in
      match ConsumeMemoryBandwidth id e s1 with
      | (Ok _, s2) => (c + 1, s2)
      | (Err _, s2) => (c, s2)
      end
  end.

Lemma consume_memory_run id e s st :
  GetBandwidthState (kv s) id e = Ok (Some st) -> is_u64 (bs_MemoryCap st) ->
  if bs_MemoryUsed st <? bs_MemoryCap st
  then exists s', ConsumeMemoryBandwidth id e s = (Ok tt, s') /\
    GetBandwidthState (kv s') id e = Ok (Some (st <| bs_MemoryUsed := bs_MemoryUsed st + 1 |>))
  else ConsumeMemoryBandwidth id e s = (Err ErrMemoryBandwidthExhausted, s).
Proof.
  intros Hst Hu. unfold ConsumeMemoryBandwidth, GetOrInitBandwidthState. mrun. rewrite Hst.
  destruct (_ <? _) eqn:E; gok.
  - rewrite (proj2 (N.leb_gt _ _)) by done. eexists. split; [reflexivity|]. simpl.
    rewrite GetBandwidthState_insert, decide_True by done.
    by rewrite u64_add_small by (unfold is_u64 in Hu; lia).
  - by rewrite (proj2 (N.leb_le _ _)).
Qed.

(** The memory quota is exact: with usage [used] of cap [cap] recorded for the
    epoch, of [n] further commitments exactly the first [cap - used] (or all
    of them) are admitted. *)
Theorem memory_quota_exact id e n s st :
  GetBandwidthState (kv s) id e = Ok (Some st) -> is_u64 (bs_MemoryCap st) ->
  bs_MemoryUsed st <= bs_MemoryCap st ->
  (admitted id e n s).1 = N.min (N.of_nat n) (bs_MemoryCap st - bs_MemoryUsed st).
Proof.
  intros Hst Hu Hle.
  enough (exists st', (admitted id e n s).1 = N.min (N.of_nat n) (bs_MemoryCap st - bs_MemoryUsed st) /\
    GetBandwidthState (kv (admitted id e n s).2) id e = Ok (Some st') /\
    bs_MemoryCap st' = bs_MemoryCap st /\
    bs_MemoryUsed st' = bs_MemoryUsed st + (admitted id e n s).1) as (? & ? & _) by done.
  induction n as [|n (st' & Hc & Hs & Hcap & Hused)]; [exists st; simpl; repeat split; try done; lia|].
  cbn [admitted]. destruct (admitted id e n s) as [c s1]. simpl in *.
  pose proof (consume_memory_run id e s1 st' Hs) as Hrun. rewrite Hcap in Hrun. specialize (Hrun Hu).
  destruct (_ <? _) eqn:E; gok.
  - destruct Hrun as (s2 & -> & Hs2). exists (st' <| bs_MemoryUsed := bs_MemoryUsed st' + 1 |>).
    cbn [fst snd]. split; [lia|]. split; [done|]. simpl. split; [done|lia].
  - rewrite Hrun. cbn [fst snd]. exists st'. split; [lia|]. split; [done|]. split; [done|lia].
Qed.

(** C36: the serve quota is exact as long as the sum does not overflow: with
    [cap + count < 2^64], a batch of [count] is accepted iff it fits in what is
    left of the cap, and then the usage grows by exactly [count]. *)
Theorem serve_quota_exact id e count s st :
  GetBandwidthState (kv s) id e = Ok (Some st) -> bs_ServeUsed st <= bs_ServeCap st ->
  bs_ServeCap st + count < two64 ->
  if bs_ServeUsed st + count <=? bs_ServeCap st
  then exists s', ConsumeServeBandwidth id e count s = (Ok tt, s') /\
    GetBandwidthState (kv s') id e = Ok (Some (st <| bs_ServeUsed := bs_ServeUsed st + count |>))
  else ConsumeServeBandwidth id e count s = (Err ErrServeBandwidthExhausted, s).
Proof.
  intros Hst Hle Hb. unfold ConsumeServeBandwidth, GetOrInitBandwidthState. mrun. rewrite Hst.
  rewrite u64_add_small by lia. destruct (_ <=? _) eqn:E; gok.
  - rewrite (proj2 (N.ltb_ge _ _)) by done. eexists. split; [reflexivity|]. simpl.
    by rewrite GetBandwidthState_insert, decide_True.
  - by rewrite (proj2 (N.ltb_lt _ _)).
Qed.
End Facts.

(** ** Concrete executions *)
Module BandwidthDemo.

Definition st0 : St bw_val unit := mkSt ∅ tt [].
Definition st1 : St bw_val unit :=
  ((SetBandwidthOverride "org" 3 10 ;; ConsumeMemoryBandwidth "org" 7) st0).2.

Lemma st0_quota : quota_ok (kv st0).
Proof. intros id e st. vm_compute. discriminate. Qed.

Lemma quotas_never_exceeded_witness :
  quota_ok (kv (ConsumeMemoryBandwidth "org" 7 st0).2).
Proof.
  pose proof (quotas_never_exceeded "org" 7 1 st0 st0_quota) as (Hm & _).
  exact (Hm tt _ eq_refl).
Defined.

Lemma memory_quota_exact_witness : (admitted "org" 7 5 st1).1 = 2.
Proof.
  apply (memory_quota_exact "org" 7 5 st1 (mkBandwidthState "org" 7 1 3 0 10));
    vm_compute; (reflexivity || discriminate).
Defined.

Lemma serve_quota_exact_witness :
  ConsumeServeBandwidth "org" 7 11 st1 = (Err ErrServeBandwidthExhausted, st1).
Proof.
  apply (serve_quota_exact "org" 7 11 st1 (mkBandwidthState "org" 7 1 3 0 10));
    vm_compute; (reflexivity || discriminate).
Defined.

(** Without the bound the serve check can be passed by overflow: with a cap
    of [2^64 - 1] and all but one unit used, a batch of three is accepted and
    the recorded usage drops to one. *)
Theorem serve_quota_overflows :
  let s := ((SetBandwidthOverride "org" 0 (two64 - 1) ;;
             ConsumeServeBandwidth "org" 7 (two64 - 2)) st0).2 in
  (ConsumeServeBandwidth "org" 7 3 s).1 = Ok tt /\
  GetBandwidthState (kv (ConsumeServeBandwidth "org" 7 3 s).2) "org" 7
    = Ok (Some (mkBandwidthState "org" 7 0 0 1 (two64 - 1))).
Proof. vm_compute. auto. Qed.

(** The store of an org without override that used 3 memory units in epoch 7,
    exported and imported again. *)
Definition used3 : St bw_val unit :=
  ((ConsumeMemoryBandwidth "org" 7 ;; ConsumeMemoryBandwidth "org" 7 ;;
    ConsumeMemoryBandwidth "org" 7) st0).2.
Definition reimported : St bw_val unit := (InitGenesis (ExportGenesis (kv used3)) st0).2.

(** The genesis export invents overrides: the scan for overrides runs past
    its prefix into the states, whose bytes decode as an override (epoch as
    memory cap, used memory as serve cap); after an import the org is limited
    to caps 7 and 3 instead of the defaults. *)
Theorem export_invents_overrides :
  g_BandwidthOverrides (ExportGenesis (kv used3)) = [mkBandwidthOverride "org" 7 3] /\
  caps (kv used3) "org" = Ok (10000, 50000) /\ caps (kv reimported) "org" = Ok (7, 3).
Proof. vm_compute. auto. Qed.
End BandwidthDemo.
