(* ===== verification/Attestation.v ===== *)
(** * x/attestation: session attestations

    Models x/attestation/types (keys.go, msgs.go, params.go, genesis.go) and
    x/attestation/keeper (keeper.go, msg_server.go).  Submission is disabled in
    the message server; the keeper's storage is complete. *)

From S2P Require Import Prelude Bytes Store Ifaces.
From Stdlib Require Import Ascii.
Local Open Scope string_scope.
Local Open Scope N_scope.

(** [types.StoredSessionAttestation] (types/state.pb.go). *)
Record StoredSessionAttestation := mkAttestation {
  sa_OrgId : string; sa_SessionHash : string; sa_ModelId : string; sa_TurnCount : N;
  sa_TokenCount : N; sa_ProviderType : N; sa_CommitllmReceiptHash : string;
  sa_ProviderSignatureHash : string; sa_ContributorId : string; sa_Epoch : N;
  sa_SubmittedAtHeight : N;
}.
#[export] Instance StoredSessionAttestation_fields : Fields StoredSessionAttestation :=
  fun r => mkAttestation (sa_OrgId r) (sa_SessionHash r)
      (sa_ModelId r) (sa_TurnCount r) (sa_TokenCount r)
      (sa_ProviderType r) (sa_CommitllmReceiptHash r)
      (sa_ProviderSignatureHash r) (sa_ContributorId r) (sa_Epoch r)
      (sa_SubmittedAtHeight r).

(** [types.Params]. *)
Record Params := mkParams {
  p_MaxAttestationsPerEpoch : N; p_RequireAttestationForServe : bool;
}.

Record MsgSubmitSessionAttestation := mkMsgSubmit {
  ms_Signer : string; ms_OrgId : string; ms_SessionHash : string; ms_ModelId : string;
  ms_TurnCount : N; ms_TokenCount : N; ms_ProviderType : N;
  ms_CommitllmReceiptHash : string; ms_ProviderSignatureHash : string;
  ms_ContributorId : string; ms_Epoch : N;
}.

Record MsgUpdateParams := mkMsgUpdateParams {
  mu_Authority : string; mu_Params : option Params;
}.


Record GenesisState := mkGenesisState {
  g_Attestations : list StoredSessionAttestation;
}.

Definition ErrInvalidOrgID := Sentinel "attestation" "invalid org ID".
Definition ErrInvalidSessionHash := Sentinel "attestation" "session hash must be 32 bytes".
Definition ErrInvalidContributor := Sentinel "attestation" "invalid contributor ID".
Definition ErrInvalidModelID := Sentinel "attestation" "invalid model ID".
Definition ErrInvalidProviderType := Sentinel "attestation" "invalid provider type".
Definition ErrAttestationNotFound := Sentinel "attestation" "session attestation not found".
Definition ErrAttestationDisabled := Sentinel "attestation" "session attestation is disabled pending verification infrastructure (D-ATTEST-ROADMAP)".
Definition ErrUnauthorized := Sentinel "attestation" "unauthorized".

Definition SessionHashLen : N := 32.
Definition ProviderType_PROVIDER_TYPE_UNSPECIFIED : N := 0.

Definition DefaultParams : Params := mkParams 10000 false.

Definition ContentHashToHex (hash : string) : string := hex_encode hash.
Definition AttestationKey (orgID sessionHash : string) : string :=
  "attestation/" +:+ orgID +:+ "/" +:+ ContentHashToHex sessionHash.
Definition AttestationByEpochKey (orgID : string) (epoch : N) (sessionHash : string) : string :=
  "session_epoch/" +:+ orgID +:+ "/" +:+ FormatUint epoch +:+ "/" +:+ ContentHashToHex sessionHash.
Definition AttestationByEpochPrefix (orgID : string) (epoch : N) : string :=
  "session_epoch/" +:+ orgID +:+ "/" +:+ FormatUint epoch +:+ "/".
Definition ParamsKey := "params".

Definition MsgSubmitSessionAttestation_ValidateBasic (m : MsgSubmitSessionAttestation) :
    result unit :=
  err_if (bool_decide (ms_Signer m = "")) (Errorf "signer cannot be empty") ;;
  err_if (bool_decide (ms_OrgId m = "")) ErrInvalidOrgID ;;
  err_if (negb (len (ms_SessionHash m) =? SessionHashLen)) ErrInvalidSessionHash ;;
  err_if (bool_decide (ms_ModelId m = "")) ErrInvalidModelID ;;
  err_if (bool_decide (ms_ContributorId m = "")) ErrInvalidContributor ;;
  err_if (ms_ProviderType m =? ProviderType_PROVIDER_TYPE_UNSPECIFIED) ErrInvalidProviderType ;;
  mret tt.

Definition MsgUpdateParams_ValidateBasic (m : MsgUpdateParams) : result unit :=
  err_if (bool_decide (mu_Authority m = "")) (Errorf "authority cannot be empty") ;;
  mret tt.

(** ** Store *)
Inductive att_val :=
  | VParams (p : Params)
  | VAtt (a : StoredSessionAttestation)
  | VRaw (b : string).

(** The module's own [prefixEndBytes]: increments from the last byte with
    wrap-around and stops at the first byte that does not wrap; the wrapped
    bytes stay as zeros. *)
Fixpoint zeros (s : string) : string :=
  match s with EmptyString => "" | String _ s' => String (ascii_of_N 0) (zeros s') end.
Fixpoint prefixEndBytes (prefix : string) : option string :=
  match prefix with
  | EmptyString => None
  | String c p' =>
      match prefixEndBytes p' with
      | Some e => Some (String c e)
      | None => match succ_char c with Some d => Some (String d (zeros p')) | None => None end
      end
  end.

Definition GetSessionAttestation (m : gmap string att_val) (orgID sessionHash : string) :
    result StoredSessionAttestation :=
  match m !! AttestationKey orgID sessionHash with
  | None => Err ErrAttestationNotFound
  | Some (VAtt a) => Ok a
  | Some _ => Err (Errorf "unmarshal attestation")
  end.

Definition HasSessionAttestation (m : gmap string att_val) (orgID sessionHash : string) : bool :=
  bool_decide (is_Some (m !! AttestationKey orgID sessionHash)).

(** Values that do not unmarshal are skipped. *)
Definition decode_atts (l : list (string * att_val)) : list StoredSessionAttestation :=
  omap (fun kv => match kv.2 with VAtt a => Some a | _ => None end) l.

Definition ListSessionAttestations (m : gmap string att_val) (orgID : string) (epoch : N) :
    list StoredSessionAttestation :=
  let prefix := AttestationByEpochPrefix orgID epoch in
  decode_atts (Iterator prefix (prefixEndBytes prefix) m).

Definition VerifyCommitLLMReceipt (receiptHash : string) : bool * string :=
  (false, "unverified: commitllm integration pending").
Definition VerifyCloudProviderSignature (signatureHash : string) : bool * string :=
  (false, "unverified: cloud provider attestation pending").

Definition GetParams (m : gmap string att_val) : result Params :=
  match m !! ParamsKey with
  | None => Ok DefaultParams
  | Some (VParams p) => Ok p
  | Some _ => Err (Errorf "unmarshal params")
  end.

Definition ExportGenesis (m : gmap string att_val) : GenesisState :=
  let prefix := "attestation/" in
  mkGenesisState (decode_atts (Iterator prefix (prefixEndBytes prefix) m)).

Section KeeperOps.
Context {P : Type} (authority : string).

Definition SetSessionAttestation (att : StoredSessionAttestation) : M (St att_val P) unit :=
  kset (AttestationKey (sa_OrgId att) (sa_SessionHash att)) (VAtt att) ;;
  kset (AttestationByEpochKey (sa_OrgId att) (sa_Epoch att) (sa_SessionHash att)) (VAtt att).

Definition SetParams (params : Params) : M (St att_val P) unit := kset ParamsKey (VParams params).

Definition InitGenesis (state : GenesisState) : M (St att_val P) unit :=
  for_each (g_Attestations state) SetSessionAttestation.

Definition MsgServer_SubmitSessionAttestation (msg : MsgSubmitSessionAttestation) :
    M (St att_val P) unit :=
  lift (MsgSubmitSessionAttestation_ValidateBasic msg) ;;
  fail ErrAttestationDisabled.

Definition MsgServer_UpdateParams (msg : MsgUpdateParams) : M (St att_val P) unit :=
  lift (MsgUpdateParams_ValidateBasic msg) ;;
  fail_if (negb (bool_decide (mu_Authority msg = authority))) ErrUnauthorized ;;
  match mu_Params msg with
  | None => fail (Panic "nil params")
  | Some p => SetParams p
  end.
End KeeperOps.

(** ** Properties *)

(** On the prefixes in use (they end in a slash) the module's end key is the
    SDK's. *)
Lemma prefixEndBytes_sdk p c :
  N_of_ascii c <> 255 -> prefixEndBytes (p +:+ String c "") = PrefixEndBytes (p +:+ String c "").
Proof.
  intros Hc.
  enough (exists e, prefixEndBytes (p +:+ String c "") = Some e /\
    PrefixEndBytes (p +:+ String c "") = Some e) as (e & -> & ->) by done.
  induction p as [|d p (e & IH1 & IH2)].
  - simpl. unfold succ_char. rewrite (proj2 (N.eqb_neq _ _)) by done. eauto.
  - exists (String d e). simpl. by rewrite IH1, IH2.
Qed.

Lemma ends_slash_scan {V} p (m : gmap string V) :
  Iterator (p +:+ "/") (prefixEndBytes (p +:+ "/")) m = prefix_iter (p +:+ "/") m.
Proof. unfold prefix_iter. by rewrite prefixEndBytes_sdk. Qed.

Lemma AttestationKey_inj o h o' h' :
  AttestationKey o h = AttestationKey o' h' -> o = o' /\ h = h'.
Proof.
  unfold AttestationKey. intros H. apply (inj (String.append _)) in H.
  apply sep_split_last in H as [-> H]; try apply hex_encode_no_slash.
  by apply hex_encode_inj in H.
Qed.

Lemma AttestationByEpochKey_inj o e h o' e' h' :
  AttestationByEpochKey o e h = AttestationByEpochKey o' e' h' -> o = o' /\ e = e' /\ h = h'.
Proof.
  unfold AttestationByEpochKey. intros H. apply (inj (String.append _)) in H.
  rewrite <- (str_app_assoc "/" (FormatUint e)), <- (str_app_assoc "/" (FormatUint e')) in H.
  rewrite <- (str_app_assoc o), <- (str_app_assoc o') in H.
  apply sep_split_last in H as [H Hh]; try apply hex_encode_no_slash.
  apply sep_split_last in H as [-> He]; try apply FormatUint_no_slash.
  by apply hex_encode_inj in Hh; apply FormatUint_inj in He.
Qed.

Lemma epoch_prefix_key o e o' e' h :
  free_of "/"%char o -> free_of "/"%char o' ->
  String.prefix (AttestationByEpochPrefix o e) (AttestationByEpochKey o' e' h) = true <->
  o = o' /\ e = e'.
Proof.
  intros Ho Ho'. rewrite prefix_spec. unfold AttestationByEpochPrefix, AttestationByEpochKey. split.
  - intros [t H]. rewrite !str_app_assoc in H. apply (inj (String.append _)) in H.
    apply sep_split in H as [-> H]; [|done..].
    apply sep_split in H as [He _]; try apply FormatUint_no_slash.
    by apply FormatUint_inj in He.
  - intros [-> ->]. exists (ContentHashToHex h). by rewrite !str_app_assoc.
Qed.

Lemma elem_of_decode_atts a l : a ∈ decode_atts l <-> exists k, (k, VAtt a) ∈ l.
Proof.
  unfold decode_atts. rewrite list_elem_of_omap. split.
  - intros ([k v] & Hin & Hv). destruct v; simplify_eq/=. eauto.
  - intros [k Hk]. by exists (k, VAtt a).
Qed.

Lemma epoch_scan o e (m : gmap string att_val) k v :
  (k, v) ∈ Iterator (AttestationByEpochPrefix o e) (prefixEndBytes (AttestationByEpochPrefix o e)) m <->
  m !! k = Some v /\ String.prefix (AttestationByEpochPrefix o e) k = true.
Proof.
  assert (AttestationByEpochPrefix o e = ("session_epoch/" +:+ o +:+ "/" +:+ FormatUint e) +:+ "/")
    as Hp by (unfold AttestationByEpochPrefix; by rewrite !str_app_assoc).
  rewrite Hp, ends_slash_scan. apply elem_of_prefix_iter. apply PrefixEndBytes_app. by eexists.
Qed.

(** The latest element of [l] that satisfies [q]. *)
Definition latest {A} (q : A -> bool) (l : list A) : option A := last (List.filter q l).

Lemma latest_snoc {A} (q : A -> bool) l x :
  latest q (l ++ [x]) = if q x then Some x else latest q l.
Proof.
  unfold latest. rewrite List.filter_app. simpl. destruct (q x).
  - by rewrite last_snoc.
  - by rewrite app_nil_r.
Qed.

Definition same_session (o h : string) (a : StoredSessionAttestation) : bool :=
  bool_decide (sa_OrgId a = o /\ sa_SessionHash a = h).
Definition same_entry (o : string) (e : N) (h : string) (a : StoredSessionAttestation) : bool :=
  bool_decide (sa_OrgId a = o /\ sa_Epoch a = e /\ sa_SessionHash a = h).

(** The store after setting the attestations [l] in an empty store. *)
Definition stored (l : list StoredSessionAttestation) : gmap string att_val :=
  kv (InitGenesis (mkGenesisState l) (mkSt ∅ tt [])).2.

Definition set_att (m : gmap string att_val) (a : StoredSessionAttestation) : gmap string att_val :=
  <[AttestationByEpochKey (sa_OrgId a) (sa_Epoch a) (sa_SessionHash a) := VAtt a]>
    (<[AttestationKey (sa_OrgId a) (sa_SessionHash a) := VAtt a]> m).

Lemma InitGenesis_fold {P} l (s : St att_val P) :
  kv (InitGenesis (mkGenesisState l) s).2 = foldl set_att (kv s) l.
Proof.
  unfold InitGenesis. simpl. revert s. induction l as [|a l IH]; intros s; [done|].
  exact (IH (mkSt (set_att (kv s) a) (peers s) (evs s))).
Qed.

Lemma keys_disjoint o h o' e h' : AttestationKey o h <> AttestationByEpochKey o' e h'.
Proof. key_ne. Qed.

Lemma lookup_set_session m a o h :
  set_att m a !! AttestationKey o h =
  if same_session o h a then Some (VAtt a) else m !! AttestationKey o h.
Proof.
  unfold set_att, same_session. rewrite lookup_insert_ne by (apply not_eq_sym, keys_disjoint).
  case_bool_decide as Hs; [destruct Hs as [-> ->]; apply lookup_insert_eq|].
  apply lookup_insert_ne. intros Hk. by apply AttestationKey_inj in Hk.
Qed.

Lemma lookup_set_entry m a o e h :
  set_att m a !! AttestationByEpochKey o e h =
  if same_entry o e h a then Some (VAtt a) else m !! AttestationByEpochKey o e h.
Proof.
  unfold set_att, same_entry. case_bool_decide as Hs.
  - destruct Hs as (-> & -> & ->). apply lookup_insert_eq.
  - rewrite lookup_insert_ne by (intros Hk; by apply AttestationByEpochKey_inj in Hk).
    apply lookup_insert_ne, keys_disjoint.
Qed.

Lemma stored_session l o h :
  stored l !! AttestationKey o h = VAtt <$> latest (same_session o h) l.
Proof.
  unfold stored. rewrite InitGenesis_fold. induction l as [|a l IH] using rev_ind; [done|].
  rewrite foldl_app, latest_snoc. cbn [foldl]. rewrite lookup_set_session, IH.
  by destruct (same_session o h a).
Qed.

Lemma stored_entry l o e h :
  stored l !! AttestationByEpochKey o e h = VAtt <$> latest (same_entry o e h) l.
Proof.
  unfold stored. rewrite InitGenesis_fold. induction l as [|a l IH] using rev_ind; [done|].
  rewrite foldl_app, latest_snoc. cbn [foldl]. rewrite lookup_set_entry, IH.
  by destruct (same_entry o e h a).
Qed.

(** Every entry of the store is under a key made from its own fields. *)
Lemma stored_keys l k v :
  stored l !! k = Some v -> exists a, v = VAtt a /\ a ∈ l /\
    (k = AttestationKey (sa_OrgId a) (sa_SessionHash a) \/
     k = AttestationByEpochKey (sa_OrgId a) (sa_Epoch a) (sa_SessionHash a)).
Proof.
  unfold stored. rewrite InitGenesis_fold. induction l as [|a l IH] using rev_ind; [done|].
  rewrite foldl_app. cbn [foldl]. unfold set_att.
  rewrite !lookup_insert_Some. intros [[<- <-]|[_ [[<- <-]|[_ H]]]];
    [exists a; rewrite elem_of_app, list_elem_of_singleton; eauto..|].
  destruct (IH H) as (b & ? & ? & ?). exists b. rewrite elem_of_app, list_elem_of_singleton. eauto.
Qed.

Lemma elem_of_latest {A} (q : A -> bool) l a : latest q l = Some a -> a ∈ l /\ q a = true.
Proof.
  unfold latest. intros H. apply last_Some_elem_of in H.
  apply list_elem_of_In, List.filter_In in H as [H ?]. by rewrite list_elem_of_In.
Qed.

(** C40: the attestation storage is a map with a per-epoch index: after any
    sequence of writes a lookup returns the latest attestation written for the
    (org, session) and [ErrAttestationNotFound] when there is none, and the
    listing of an (org, epoch) returns exactly the latest attestation of each
    session written for that org and epoch (org ids without slashes). *)
Theorem attestation_store_spec (l : list StoredSessionAttestation) :
  (forall a, a ∈ l -> free_of "/"%char (sa_OrgId a)) ->
  (forall o h, GetSessionAttestation (stored l) o h =
     from_option_err ErrAttestationNotFound (latest (same_session o h) l)) /\
  (forall o e a, free_of "/"%char o ->
     a ∈ ListSessionAttestations (stored l) o e <->
     sa_OrgId a = o /\ sa_Epoch a = e /\ latest (same_entry o e (sa_SessionHash a)) l = Some a).
Proof.
  intros Hl. split.
  - intros o h. unfold GetSessionAttestation. rewrite stored_session.
    by destruct (latest _ _).
  - intros o e a Ho. unfold ListSessionAttestations. rewrite elem_of_decode_atts. split.
    + intros [k Hk]. apply epoch_scan in Hk as [Hk Hp].
      pose proof (stored_keys _ _ _ Hk) as (b & Hb & Hin & Hkey). simplify_eq/=.
      destruct Hkey as [->| ->]; [done|].
      apply epoch_prefix_key in Hp as [-> ->]; [|done|by apply Hl].
      rewrite stored_entry in Hk. split; [done|]. split; [done|].
      by apply fmap_Some in Hk as (? & ? & ?); simplify_eq.
    + intros (Hao & Hae & Hlast). exists (AttestationByEpochKey o e (sa_SessionHash a)).
      apply epoch_scan. rewrite stored_entry, Hlast. split; [done|]. by apply epoch_prefix_key.
Qed.

(** Every export entry is a stored attestation and conversely. *)
Lemma elem_of_export l a :
  a ∈ g_Attestations (ExportGenesis (stored l)) <->
  latest (same_session (sa_OrgId a) (sa_SessionHash a)) l = Some a.
Proof.
  unfold ExportGenesis. cbn [g_Attestations]. rewrite elem_of_decode_atts.
  change "attestation/" with ("attestation" +:+ "/"). rewrite ends_slash_scan. split.
  - intros [k Hk]. apply elem_of_prefix_iter in Hk as [Hk Hp]; [|by eexists].
    pose proof (stored_keys _ _ _ Hk) as (b & Hb & Hin & [->| ->]); simplify_eq.
    rewrite stored_session in Hk. by apply fmap_Some in Hk as (? & ? & ?); simplify_eq.
  - intros Ha. exists (AttestationKey (sa_OrgId a) (sa_SessionHash a)).
    apply elem_of_prefix_iter; [by eexists|]. rewrite stored_session, Ha. split; [done|].
    apply prefix_spec. by eexists.
Qed.

Lemma latest_None {A} (q : A -> bool) l : latest q l = None -> forall a, a ∈ l -> q a = false.
Proof.
  unfold latest. intros H a Ha. apply last_None in H.
  destruct (q a) eqn:Hq; [|done].
  assert (In a (List.filter q l)) as Hin by (apply List.filter_In; by rewrite <- list_elem_of_In).
  by rewrite H in Hin.
Qed.

Lemma export_latest l o h :
  latest (same_session o h) (g_Attestations (ExportGenesis (stored l))) =
  latest (same_session o h) l.
Proof.
  destruct (latest _ (g_Attestations _)) as [a|] eqn:E.
  - apply elem_of_latest in E as [Hin Hq]. apply elem_of_export in Hin.
    unfold same_session in Hq. by apply bool_decide_eq_true in Hq as [<- <-].
  - destruct (latest _ l) as [a|] eqn:E'; [|done].
    pose proof (elem_of_latest _ _ _ E') as [_ Hq].
    pose proof Hq as Hq'. apply bool_decide_eq_true in Hq' as [Ho Hh].
    rewrite <- Ho, <- Hh in E'. apply elem_of_export in E'.
    by rewrite (latest_None _ _ E a E') in Hq.
Qed.

(** Exporting the attestations and importing them into a new chain restores
    every lookup. *)
Theorem attestation_genesis_roundtrip (l : list StoredSessionAttestation) o h :
  GetSessionAttestation (stored (g_Attestations (ExportGenesis (stored l)))) o h =
  GetSessionAttestation (stored l) o h.
Proof. unfold GetSessionAttestation. by rewrite !stored_session, export_latest. Qed.

(** Submission is switched off: every submission, valid or not, answers an
    error and changes nothing; a well-formed one gets
    [ErrAttestationDisabled]. *)
Theorem attestation_submission_disabled {P} msg (s : St att_val P) :
  exists e, MsgServer_SubmitSessionAttestation msg s = (Err e, s) /\
    (MsgSubmitSessionAttestation_ValidateBasic msg = Ok tt -> e = ErrAttestationDisabled).
Proof.
  unfold MsgServer_SubmitSessionAttestation. mrun.
  destruct (MsgSubmitSessionAttestation_ValidateBasic msg) as [[]|e]; eauto.
  exists e. split; [done|]. discriminate.
Qed.

(** ** Concrete executions *)
Module AttestationDemo.
Definition mk (org : string) (h : string) (e : N) : StoredSessionAttestation :=
  mkAttestation org h "model" 1 1 1 "" "" "alice" e 5.
Definition two_epochs := [mk "o" "s1" 1; mk "o" "s2" 1; mk "o" "s1" 2].

Lemma attestation_store_spec_witness :
  GetSessionAttestation (stored two_epochs) "o" "s1" = Ok (mk "o" "s1" 2).
Proof.
  assert (forall a, a ∈ two_epochs -> free_of "/"%char (sa_OrgId a)) as Hf.
  { intros a Ha. unfold two_epochs in Ha.
    repeat (apply elem_of_cons in Ha as [->|Ha]; [reflexivity|]). by apply elem_of_nil in Ha. }
  exact (proj1 (attestation_store_spec two_epochs Hf) "o" "s1").
Defined.
End AttestationDemo.
