(* ===== verification/Memory.v ===== *)
(** * x/memory: the memory commitments of the orgs

    Models x/memory/types (keys.go, memory_types.go, msgs.go, params.go,
    genesis.go) and x/memory/keeper (keeper.go, lifecycle.go, validity.go,
    relationships.go, epoch_hooks.go, msg_server.go).  The org and reputation
    keepers are reached through the classes below, which mirror
    types/expected_keepers.go. *)

From S2P Require Import Prelude Bytes Store Wire Ifaces Org.
From Stdlib Require Import Ascii.
Local Open Scope string_scope.
Local Open Scope N_scope.

(** ** Expected keepers (types/expected_keepers.go)

    The methods the keeper calls. *)
Class OrgKeeper (P : Type) := {
  HasOrg : P -> string -> result bool;
  IsLeader : P -> string -> string -> result bool;
  (** a nil pointer is [None] *)
  GetMember : P -> string -> string -> result (option Org.MemberRecord);
  GetLeaderWallet : P -> string -> result string;
  IncrementOrgCommittedMemories : string -> M P unit;
  IncrementOrgUpheldReports : string -> M P unit;
  SetOrgLastActivityEpoch : string -> N -> M P unit;
}.

Class ReputationKeeper (P : Type) := {
  IncrementContribution : string -> string -> string -> M P unit;
  IncrementModeratorUpheld : string -> string -> M P unit;
  IncrementLeaderChainCommit : string -> string -> M P unit;
  IncrementLeaderUpheldReport : string -> string -> M P unit;
}.

(** [encoding/json] decoding of a [map[string]string]. *)
Class JsonTags := {
  json_Unmarshal_tags : string -> option (gmap string string);
}.

(** ** Data *)
(** [types.PendingCommitment] (types/keys.go). *)
Record PendingCommitment := mkPending {
  pc_OrgID : string; pc_ContentHash : string; pc_Keywords : list string;
  pc_Contributor : string; pc_ContributorAddress : string; pc_ProducerModelId : string;
  pc_AttestationSessionHash : string; pc_Epoch : N; pc_SubmittedAt : N; pc_MemoryType : N;
  pc_McVersion : N;
}.
#[export] Instance PendingCommitment_fields : Fields PendingCommitment :=
  fun r => mkPending (pc_OrgID r) (pc_ContentHash r) (pc_Keywords r) (pc_Contributor r)
    (pc_ContributorAddress r) (pc_ProducerModelId r) (pc_AttestationSessionHash r)
    (pc_Epoch r) (pc_SubmittedAt r) (pc_MemoryType r) (pc_McVersion r).

(** [types.StoredPendingCommitment] (types/state.pb.go); enums are their numbers. *)
Record StoredPendingCommitment := mkStoredPending {
  sp_OrgId : string; sp_ContentHash : string; sp_ContributorId : string; sp_Epoch : N;
  sp_SubmittedAtHeight : N; sp_MemoryType : N; sp_ContributorAddress : string;
  sp_Keywords : list string; sp_ProducerModelId : string;
  sp_AttestationSessionHash : string; sp_McVersion : N;
}.

(** [types.MemoryCommitment] (types/keys.go). *)
Record MemoryCommitment := mkMemory {
  mc_OrgID : string; mc_ContentHash : string; mc_EncryptedBlob : string;
  mc_Keywords : list string; mc_Contributor : string; mc_ContributorAddress : string;
  mc_ProducerModelId : string; mc_AttestationSessionHash : string; mc_Epoch : N;
  mc_CommittedAtHeight : N; mc_CommittingLeader : string; mc_State : N;
  mc_LastActiveEpoch : N; mc_WrappedDekEnc : string; mc_PlaintextHash : string;
  mc_Salt : string; mc_CiphertextHash : string; mc_WrappedDekHash : string;
  mc_ContributorSig : string; mc_MemoryType : N; mc_ApprovedAtEpoch : N; mc_McVersion : N;
}.
#[export] Instance MemoryCommitment_fields : Fields MemoryCommitment :=
  fun r => mkMemory (mc_OrgID r) (mc_ContentHash r) (mc_EncryptedBlob r) (mc_Keywords r)
    (mc_Contributor r) (mc_ContributorAddress r) (mc_ProducerModelId r)
    (mc_AttestationSessionHash r) (mc_Epoch r) (mc_CommittedAtHeight r)
    (mc_CommittingLeader r) (mc_State r) (mc_LastActiveEpoch r) (mc_WrappedDekEnc r)
    (mc_PlaintextHash r) (mc_Salt r) (mc_CiphertextHash r) (mc_WrappedDekHash r)
    (mc_ContributorSig r) (mc_MemoryType r) (mc_ApprovedAtEpoch r) (mc_McVersion r).

(** [types.StoredMemoryCommitment] (types/state.pb.go). *)
Record StoredMemoryCommitment := mkStoredMemory {
  sm_OrgId : string; sm_ContentHash : string; sm_EncryptedBlob : string;
  sm_ContributorPubkey : string; sm_Epoch : N; sm_CommittedAtHeight : N;
  sm_CommittingLeaderPubkey : string; sm_State : N; sm_LastActiveEpoch : N;
  sm_WrappedDekEnc : string; sm_MemoryType : N; sm_ApprovedAtEpoch : N;
  sm_PlaintextHash : string; sm_Salt : string; sm_CiphertextHash : string;
  sm_WrappedDekHash : string; sm_ContributorSig : string; sm_ContributorAddress : string;
  sm_ProducerModelId : string; sm_AttestationSessionHash : string; sm_McVersion : N;
  sm_Keywords : list string;
}.

(** [types.MemoryRelationship] (types/memory_types.go). *)
Record MemoryRelationship := mkRelationship {
  mr_SourceCID : string; mr_TargetCID : string; mr_RelationType : N; mr_OrgID : string;
  mr_Proposer : string; mr_Approved : bool; mr_Epoch : N;
}.

(** [types.StoredMemoryRelationship] (types/state.pb.go). *)
Record StoredMemoryRelationship := mkStoredRelationship {
  sr_OrgId : string; sr_SourceCid : string; sr_TargetCid : string; sr_RelationType : N;
  sr_Proposer : string; sr_Approved : bool; sr_Epoch : N;
}.
#[export] Instance StoredMemoryRelationship_fields : Fields StoredMemoryRelationship :=
  fun r => mkStoredRelationship (sr_OrgId r) (sr_SourceCid r) (sr_TargetCid r)
    (sr_RelationType r) (sr_Proposer r) (sr_Approved r) (sr_Epoch r).

(** [types.ValidityMetadata] (types/memory_types.go). *)
Record ValidityMetadata := mkValidity {
  vm_ValidAfterEpoch : N; vm_ValidUntilEpoch : N; vm_ScopeTags : gmap string string;
}.

(** [types.StoredValidityMetadata] (types/state.pb.go). *)
Record StoredValidityMetadata := mkStoredValidity {
  sv_OrgId : string; sv_MemoryCid : string; sv_ValidAfterEpoch : N; sv_ValidUntilEpoch : N;
  sv_ScopeTagsBz : string;
}.
#[export] Instance StoredValidityMetadata_fields : Fields StoredValidityMetadata :=
  fun r => mkStoredValidity (sv_OrgId r) (sv_MemoryCid r)
      (sv_ValidAfterEpoch r) (sv_ValidUntilEpoch r) (sv_ScopeTagsBz r).

(** [types.EpochMerkleRoot] (types/keys.go). *)
Record EpochMerkleRoot := mkMerkleRoot {
  em_OrgID : string; em_Epoch : N; em_MerkleRoot : string; em_MemoryCount : N;
}.

(** [types.StoredEpochMerkleRoot] (types/state.pb.go). *)
Record StoredEpochMerkleRoot := mkStoredMerkleRoot {
  se_OrgId : string; se_Epoch : N; se_MerkleRoot : string; se_MemoryCount : N;
}.

(** [types.StoredMemoryReport] (types/state.pb.go). *)
Record StoredMemoryReport := mkReport {
  rp_OrgId : string; rp_ContentHash : string; rp_ContributorPubkey : string;
  rp_ApprovingModerators : list string; rp_UpholdingModerators : list string;
  rp_ReporterPubkey : string; rp_CommittingLeaderPubkey : string; rp_Reason : string;
  rp_Plaintext : string; rp_Ciphertext : string; rp_Capsule : string;
  rp_PlaintextHash : string; rp_PlaintextOversized : bool; rp_UpheldAtEpoch : N;
  rp_UpheldAtTimestamp : N;
}.

(** [types.Params] (types/params.pb.go). *)
Record Params := mkParams {
  p_MaxPendingPerOrg : N; p_PendingRetentionEpochs : N; p_MaxBlobSizeBytes : N;
  p_MaxKeywordsPerMemory : N; p_ContestWindowEpochs : N;
}.
#[export] Instance Params_fields : Fields Params :=
  fun r => mkParams (p_MaxPendingPerOrg r) (p_PendingRetentionEpochs r)
      (p_MaxBlobSizeBytes r) (p_MaxKeywordsPerMemory r) (p_ContestWindowEpochs r).

(** Messages (types/tx.pb.go). *)
Record MsgSubmitCommitment := mkMsgSubmitCommitment {
  ms_Signer : string; ms_OrgId : string; ms_ContentHash : string;
  ms_ContributorId : string; ms_ContributorWallet : string; ms_MemoryType : N;
  ms_Keywords : list string; ms_ProducerModelId : string;
  ms_AttestationSessionHash : string; ms_McVersion : N;
}.

Record MsgApproveMemory := mkMsgApproveMemory {
  ma_Signer : string; ma_OrgId : string; ma_ContentHash : string;
  ma_EncryptedBlob : string; ma_CommittingLeader : string; ma_WrappedDekEnc : string;
  ma_MemoryType : N; ma_PlaintextHash : string; ma_Salt : string;
  ma_CiphertextHash : string; ma_ContributorSig : string; ma_McVersion : N;
}.

Record MsgUpdateParams := mkMsgUpdateParams {
  mu_Authority : string; mu_Params : option Params;
}.

Record MsgReportMemory := mkMsgReportMemory {
  mp_Signer : string; mp_OrgId : string; mp_ContentHash : string;
  mp_ContributorPubkey : string; mp_ApprovingModerators : list string;
  mp_UpholdingModerators : list string; mp_ReporterPubkey : string; mp_Reason : string;
  mp_Plaintext : string; mp_Ciphertext : string; mp_Capsule : string;
  mp_PlaintextHash : string; mp_PlaintextOversized : bool;
}.

(** [types.GenesisState] (types/genesis.go). *)
Record GenesisState := mkGenesisState {
  g_PendingCommitments : list PendingCommitment;
  g_MemoryCommitments : list MemoryCommitment;
  g_Relationships : list (option MemoryRelationship);
  g_ValidityMetadata : list (option StoredValidityMetadata);
  g_MerkleRoots : list EpochMerkleRoot; g_Params : Params;
}.

(** ** Errors (types/errors.go) *)
Definition ErrInvalidContentHash := Sentinel "memory" "content hash must be 32 bytes".
Definition ErrInvalidOrgID := Sentinel "memory" "invalid org ID".
Definition ErrInvalidContributor := Sentinel "memory" "invalid contributor ID".
Definition ErrInvalidContributorSignature := Sentinel "memory" "invalid contributor signature".
Definition ErrNotContributor :=
  Sentinel "memory" "can_contribute capability or leader role required to submit memory".
Definition ErrInvalidBlob := Sentinel "memory" "invalid encrypted blob".
Definition ErrBlobTooLarge := Sentinel "memory" "encrypted blob exceeds max size".
Definition ErrInvalidKeyword := Sentinel "memory" "invalid keyword".
Definition ErrCommitmentExists := Sentinel "memory" "pending commitment already exists".
Definition ErrCommitmentNotFound := Sentinel "memory" "pending commitment not found".
Definition ErrMemoryExists := Sentinel "memory" "memory already exists".
Definition ErrMemoryNotFound := Sentinel "memory" "memory not found".
Definition ErrMerkleRootNotFound := Sentinel "memory" "merkle root not found for epoch".
Definition ErrMaxPendingExceeded := Sentinel "memory" "max pending commitments per org exceeded".
Definition ErrUnauthorized := Sentinel "memory" "unauthorized".
Definition ErrOrgNotFound := Sentinel "memory" "org not found".
Definition ErrRelationshipNotFound := Sentinel "memory" "relationship not found".
Definition ErrInvalidMemoryType := Sentinel "memory" "invalid memory type".
Definition ErrInvalidReporter := Sentinel "memory" "invalid reporter ID".
Definition ErrInvalidReportReason := Sentinel "memory" "invalid report reason".
Definition ErrReportExists :=
  Sentinel "memory" "report already exists for this memory by this reporter".

(** ** Constants and validation *)
Definition ContentHashLen : N := 32.
Definition MaxProducerModelIdLen : N := 128.
Definition MemoryType_MEMORY_TYPE_MEMORY : N := 1.
Definition MemoryState_MEMORY_STATE_COMMITTED : N := 4.
Definition MemoryState_MEMORY_STATE_DENIED : N := 5.
Definition MemoryState_MEMORY_STATE_ARCHIVED : N := 6.

Definition DefaultParams : Params := mkParams 1000 7 1048576 20 10.
Definition zero_Params : Params := mkParams 0 0 0 0 0.

#[export] Instance Params_eq_dec : EqDecision Params.
Proof. solve_decision. Defined.

Inductive ProvenanceStatus :=
  | ProvenanceUnattested | ProvenanceSelfDeclared | ProvenanceSessionReferenced.

Definition DeriveProvenanceStatus (producerModelID attestationSessionHash : string) :
    ProvenanceStatus :=
  if bool_decide (producerModelID = "") && bool_decide (attestationSessionHash = "")
  then ProvenanceUnattested
  else if bool_decide (attestationSessionHash = "") then ProvenanceSelfDeclared
  else ProvenanceSessionReferenced.

Definition ValidMemoryType (mt : N) : bool := mt =? MemoryType_MEMORY_TYPE_MEMORY.
Definition CanonicalMemoryType (mt : N) : string :=
  if mt =? MemoryType_MEMORY_TYPE_MEMORY then "memory" else "".

Definition NewPendingCommitment (orgID contentHash : string) (keywords : list string)
    (contributor : string) (epoch submittedAt memoryType : N) : PendingCommitment :=
  mkPending orgID contentHash keywords contributor "" "" "" epoch submittedAt memoryType 0.

Definition has_empty (l : list string) : bool := existsb (fun kw => bool_decide (kw = "")) l.

Definition PendingCommitment_Validate (pc : PendingCommitment) : result unit :=
  err_if (bool_decide (pc_OrgID pc = "")) ErrInvalidOrgID ;;
  err_if (negb (len (pc_ContentHash pc) =? ContentHashLen)) ErrInvalidContentHash ;;
  err_if (bool_decide (pc_Contributor pc = "")) ErrInvalidContributor ;;
  err_if (negb (ValidMemoryType (pc_MemoryType pc))) ErrInvalidMemoryType ;;
  err_if (has_empty (pc_Keywords pc)) ErrInvalidKeyword.

Definition NewMemoryCommitment (orgID contentHash encryptedBlob : string) (keywords : list string)
    (contributor : string) (epoch committedAtHeight : N) (committingLeader : string)
    (state lastActiveEpoch memoryType approvedAtEpoch : N) : MemoryCommitment := {|
  mc_OrgID := orgID;
  mc_ContentHash := contentHash;
  mc_EncryptedBlob := encryptedBlob;
  mc_Keywords := keywords;
  mc_Contributor := contributor;
  mc_ContributorAddress := "";
  mc_ProducerModelId := "";
  mc_AttestationSessionHash := "";
  mc_Epoch := epoch;
  mc_CommittedAtHeight := committedAtHeight;
  mc_CommittingLeader := committingLeader;
  mc_State := state;
  mc_LastActiveEpoch := lastActiveEpoch;
  mc_WrappedDekEnc := "";
  mc_PlaintextHash := "";
  mc_Salt := "";
  mc_CiphertextHash := "";
  mc_WrappedDekHash := "";
  mc_ContributorSig := "";
  mc_MemoryType := memoryType;
  mc_ApprovedAtEpoch := approvedAtEpoch;
  mc_McVersion := 0;
|}.

Definition MemoryCommitment_Validate (mc : MemoryCommitment) : result unit :=
  err_if (bool_decide (mc_OrgID mc = "")) ErrInvalidOrgID ;;
  err_if (negb (len (mc_ContentHash mc) =? ContentHashLen)) ErrInvalidContentHash ;;
  err_if (len (mc_EncryptedBlob mc) =? 0) ErrInvalidBlob ;;
  err_if (bool_decide (mc_Contributor mc = "")) ErrInvalidContributor ;;
  err_if (negb (ValidMemoryType (mc_MemoryType mc))) ErrInvalidMemoryType ;;
  err_if (has_empty (mc_Keywords mc)) ErrInvalidKeyword.

(** [strings.TrimSpace(s) == ""]: every rune is Unicode white space. *)
Fixpoint all_space (s : string) : bool :=
  match s with
  | EmptyString => true
  | String a s1 =>
      let x := N_of_ascii a in
      if (x =? 32) || ((9 <=? x) && (x <=? 13)) then all_space s1 else
      match s1 with
      | EmptyString => false
      | String b s2 =>
          let y := N_of_ascii b in
          if (x =? 194) && ((y =? 133) || (y =? 160)) then all_space s2 else
          match s2 with
          | EmptyString => false
          | String c s3 =>
              let z := N_of_ascii c in
              if ((x =? 225) && (y =? 154) && (z =? 128)) ||
                 ((x =? 226) && (y =? 128) &&
                    (((128 <=? z) && (z <=? 138)) || (z =? 168) || (z =? 169) || (z =? 175))) ||
                 ((x =? 226) && (y =? 129) && (z =? 159)) ||
                 ((x =? 227) && (y =? 128) && (z =? 128))
              then all_space s3 else false
          end
      end
  end.

Definition MsgSubmitCommitment_ValidateBasic (m : MsgSubmitCommitment) : result unit :=
  err_if (bool_decide (ms_Signer m = "")) (Errorf "signer cannot be empty") ;;
  err_if (bool_decide (ms_OrgId m = "")) ErrInvalidOrgID ;;
  err_if (negb (len (ms_ContentHash m) =? ContentHashLen)) ErrInvalidContentHash ;;
  err_if (bool_decide (ms_ContributorId m = "")) ErrInvalidContributor ;;
  (if bool_decide (ms_ProducerModelId m = "") then mret tt else
     err_if (MaxProducerModelIdLen <? len (ms_ProducerModelId m))
       (Errorf "producer_model_id must be <= 128 characters") ;;
     err_if (all_space (ms_ProducerModelId m)) (Errorf "producer_model_id cannot be whitespace")) ;;
  (if 0 <? len (ms_AttestationSessionHash m) then
     err_if (negb (len (ms_AttestationSessionHash m) =? 32))
       (Errorf "attestation_session_hash must be exactly 32 bytes when set") ;;
     err_if (bool_decide (ms_ProducerModelId m = ""))
       (Errorf "producer_model_id is required when attestation_session_hash is set")
   else mret tt).

Definition MsgApproveMemory_ValidateBasic (m : MsgApproveMemory) : result unit :=
  err_if (bool_decide (ma_Signer m = "")) (Errorf "signer cannot be empty") ;;
  err_if (bool_decide (ma_OrgId m = "")) ErrInvalidOrgID ;;
  err_if (negb (len (ma_ContentHash m) =? ContentHashLen)) ErrInvalidContentHash ;;
  err_if (len (ma_EncryptedBlob m) =? 0) ErrInvalidBlob.

(** [m.Params.Validate()] on a nil pointer dereferences it. *)
Definition MsgUpdateParams_ValidateBasic (m : MsgUpdateParams) : result unit :=
  err_if (bool_decide (mu_Authority m = "")) (Errorf "authority cannot be empty") ;;
  err_if (bool_decide (mu_Params m = None)) (Panic "nil params").

Definition MsgReportMemory_ValidateBasic (m : MsgReportMemory) : result unit :=
  err_if (bool_decide (mp_Signer m = "")) (Errorf "signer cannot be empty") ;;
  err_if (bool_decide (mp_OrgId m = "")) ErrInvalidOrgID ;;
  err_if (negb (len (mp_ContentHash m) =? ContentHashLen)) ErrInvalidContentHash ;;
  err_if (bool_decide (mp_ReporterPubkey m = "")) ErrInvalidReporter ;;
  err_if (bool_decide (mp_Reason m = "")) ErrInvalidReportReason.

(** ** Wire formats (field numbers of state.proto and params.proto) *)
Definition marshal_pending (x : StoredPendingCommitment) : message :=
  (w_bytes 1 (sp_OrgId x) ++ w_bytes 2 (sp_ContentHash x) ++
   w_bytes 4 (sp_ContributorId x) ++ w_uint 5 (sp_Epoch x) ++
   w_uint 6 (sp_SubmittedAtHeight x) ++ w_uint 7 (sp_MemoryType x) ++
   w_bytes 8 (sp_ContributorAddress x) ++ w_strings 9 (sp_Keywords x) ++
   w_uint 11 (sp_McVersion x) ++ w_bytes 24 (sp_ProducerModelId x) ++
   w_bytes 25 (sp_AttestationSessionHash x))%list.
Definition schema_pending : schema :=
  [(1, KBytes); (2, KBytes); (4, KBytes); (5, KVarint); (6, KVarint); (7, KVarint);
   (8, KBytes); (9, KBytes); (11, KVarint); (24, KBytes); (25, KBytes)].
Definition unmarshal_pending : message -> option StoredPendingCommitment :=
  unmarshal schema_pending (fun m => mkStoredPending
    (r_bytes 1 m) (r_bytes 2 m) (r_bytes 4 m) (r_uint 5 m) (r_uint 6 m) (r_uint32 7 m)
    (r_bytes 8 m) (r_strings 9 m) (r_bytes 24 m) (r_bytes 25 m) (r_uint32 11 m)).

Definition marshal_memory (x : StoredMemoryCommitment) : message :=
  (w_bytes 1 (sm_OrgId x) ++ w_bytes 2 (sm_ContentHash x) ++
   w_bytes 3 (sm_EncryptedBlob x) ++ w_bytes 5 (sm_ContributorPubkey x) ++
   w_uint 6 (sm_Epoch x) ++ w_uint 7 (sm_CommittedAtHeight x) ++
   w_bytes 9 (sm_CommittingLeaderPubkey x) ++ w_uint 10 (sm_State x) ++
   w_uint 11 (sm_LastActiveEpoch x) ++ w_bytes 12 (sm_WrappedDekEnc x) ++
   w_uint 13 (sm_MemoryType x) ++ w_uint 14 (sm_ApprovedAtEpoch x) ++
   w_bytes 15 (sm_PlaintextHash x) ++ w_bytes 16 (sm_Salt x) ++
   w_bytes 17 (sm_CiphertextHash x) ++ w_bytes 18 (sm_WrappedDekHash x) ++
   w_bytes 19 (sm_ContributorSig x) ++ w_bytes 23 (sm_ContributorAddress x) ++
   w_bytes 24 (sm_ProducerModelId x) ++ w_bytes 25 (sm_AttestationSessionHash x) ++
   w_uint 26 (sm_McVersion x) ++ w_strings 27 (sm_Keywords x))%list.
Definition schema_memory : schema :=
  [(1, KBytes); (2, KBytes); (3, KBytes); (5, KBytes); (6, KVarint); (7, KVarint);
   (9, KBytes); (10, KVarint); (11, KVarint); (12, KBytes); (13, KVarint); (14, KVarint);
   (15, KBytes); (16, KBytes); (17, KBytes); (18, KBytes); (19, KBytes); (23, KBytes);
   (24, KBytes); (25, KBytes); (26, KVarint); (27, KBytes)].
Definition unmarshal_memory : message -> option StoredMemoryCommitment :=
  unmarshal schema_memory (fun m => mkStoredMemory
    (r_bytes 1 m) (r_bytes 2 m) (r_bytes 3 m) (r_bytes 5 m) (r_uint 6 m) (r_uint 7 m)
    (r_bytes 9 m) (r_uint32 10 m) (r_uint 11 m) (r_bytes 12 m) (r_uint32 13 m)
    (r_uint 14 m) (r_bytes 15 m) (r_bytes 16 m) (r_bytes 17 m) (r_bytes 18 m)
    (r_bytes 19 m) (r_bytes 23 m) (r_bytes 24 m) (r_bytes 25 m) (r_uint32 26 m)
    (r_strings 27 m)).

Definition marshal_merkle (x : StoredEpochMerkleRoot) : message :=
  (w_bytes 1 (se_OrgId x) ++ w_uint 2 (se_Epoch x) ++ w_bytes 3 (se_MerkleRoot x) ++
   w_uint 4 (se_MemoryCount x))%list.
Definition schema_merkle : schema :=
  [(1, KBytes); (2, KVarint); (3, KBytes); (4, KVarint)].
Definition unmarshal_merkle : message -> option StoredEpochMerkleRoot :=
  unmarshal schema_merkle (fun m => mkStoredMerkleRoot
    (r_bytes 1 m) (r_uint 2 m) (r_bytes 3 m) (r_uint 4 m)).

Definition marshal_report (x : StoredMemoryReport) : message :=
  (w_bytes 1 (rp_OrgId x) ++ w_bytes 2 (rp_ContentHash x) ++
   w_bytes 3 (rp_ContributorPubkey x) ++ w_strings 4 (rp_ApprovingModerators x) ++
   w_strings 5 (rp_UpholdingModerators x) ++ w_bytes 6 (rp_ReporterPubkey x) ++
   w_bytes 7 (rp_CommittingLeaderPubkey x) ++ w_bytes 8 (rp_Reason x) ++
   w_bytes 9 (rp_Plaintext x) ++ w_bytes 10 (rp_Ciphertext x) ++
   w_bytes 11 (rp_Capsule x) ++ w_bytes 12 (rp_PlaintextHash x) ++
   w_bool 13 (rp_PlaintextOversized x) ++ w_uint 14 (rp_UpheldAtEpoch x) ++
   w_uint 15 (rp_UpheldAtTimestamp x))%list.
Definition schema_report : schema :=
  [(1, KBytes); (2, KBytes); (3, KBytes); (4, KBytes); (5, KBytes); (6, KBytes);
   (7, KBytes); (8, KBytes); (9, KBytes); (10, KBytes); (11, KBytes); (12, KBytes);
   (13, KVarint); (14, KVarint); (15, KVarint)].
Definition unmarshal_report : message -> option StoredMemoryReport :=
  unmarshal schema_report (fun m => mkReport
    (r_bytes 1 m) (r_bytes 2 m) (r_bytes 3 m) (r_strings 4 m) (r_strings 5 m) (r_bytes 6 m)
    (r_bytes 7 m) (r_bytes 8 m) (r_bytes 9 m) (r_bytes 10 m) (r_bytes 11 m) (r_bytes 12 m)
    (r_bool 13 m) (r_uint 14 m) (r_uint 15 m)).

Definition marshal_params (x : Params) : message :=
  (w_uint 1 (p_MaxPendingPerOrg x) ++ w_uint 2 (p_PendingRetentionEpochs x) ++
   w_uint 3 (p_MaxBlobSizeBytes x) ++ w_uint 4 (p_MaxKeywordsPerMemory x) ++
   w_uint 10 (p_ContestWindowEpochs x))%list.
Definition schema_params : schema :=
  [(1, KVarint); (2, KVarint); (3, KVarint); (4, KVarint); (10, KVarint)].
Definition unmarshal_params : message -> option Params :=
  unmarshal schema_params (fun m => mkParams
    (r_uint 1 m) (r_uint 2 m) (r_uint 3 m) (r_uint32 4 m) (r_uint 10 m)).

(** ** The store *)
Inductive mem_val :=
  | VParams (p : Params)
  | VPending (c : StoredPendingCommitment)
  | VMemory (c : StoredMemoryCommitment)
  | VRelationship (r : StoredMemoryRelationship)
  | VValidity (v : StoredValidityMetadata)
  | VMerkle (r : StoredEpochMerkleRoot)
  | VReport (r : StoredMemoryReport)
  | VRaw (b : string).

(** The fields of a stored value as another decoder sees them.  Raw values (the
    eight-byte counters below 2^56 and the genesis marker) begin with a byte
    below 8, a tag with field number zero, which every decoder rejects.
    Relationships and validity records lie before every scan that crosses
    record types. *)
Definition wire_of (v : mem_val) : option message :=
  match v with
  | VParams p => Some (marshal_params p)
  | VPending c => Some (marshal_pending c)
  | VMemory c => Some (marshal_memory c)
  | VMerkle r => Some (marshal_merkle r)
  | VReport r => Some (marshal_report r)
  | VRelationship _ | VValidity _ | VRaw _ => None
  end.

(** [proto.Unmarshal] of a stored value; its own type decodes to itself. *)
Definition decode_pending (v : mem_val) : option StoredPendingCommitment :=
  match v with VPending c => Some c | _ => wire_of v ≫= unmarshal_pending end.
Definition decode_memory (v : mem_val) : option StoredMemoryCommitment :=
  match v with VMemory c => Some c | _ => wire_of v ≫= unmarshal_memory end.
Definition decode_report (v : mem_val) : option StoredMemoryReport :=
  match v with VReport r => Some r | _ => wire_of v ≫= unmarshal_report end.

Definition ContentHashToHex (hash : string) : string := hex_encode hash.

Definition pendingKey (orgID contentHash : string) : string :=
  "pending/" +:+ orgID +:+ "/" +:+ ContentHashToHex contentHash.
Definition pendingPrefix (orgID : string) : string := "pending/" +:+ orgID +:+ "/".
Definition approvedKey (orgID contentHash : string) : string :=
  "approved/" +:+ orgID +:+ "/" +:+ ContentHashToHex contentHash.
Definition approvedPrefix (orgID : string) : string := "approved/" +:+ orgID +:+ "/".
Definition merkleKey (orgID : string) (epoch : N) : string :=
  "merkle/" +:+ orgID +:+ "/" +:+ FormatUint epoch.
Definition reportPrefixKey := "report/".
Definition reportKey (orgID contentHash reporterID : string) : string :=
  "report/" +:+ orgID +:+ "/" +:+ ContentHashToHex contentHash +:+ "/" +:+ reporterID.
Definition reportPrefix (orgID contentHash : string) : string :=
  "report/" +:+ orgID +:+ "/" +:+ ContentHashToHex contentHash +:+ "/".
Definition countKey (orgID : string) : string := "count/" +:+ orgID.
Definition ParamsKey := "params".
Definition currentEpochKey := "current_epoch".
Definition RelationshipKeyPrefix : string := String (ascii_of_N 16) "".
Definition ValidityKeyPrefix : string := String (ascii_of_N 18) "".
Definition relationshipKey (orgID sourceCID targetCID : string) : string :=
  RelationshipKeyPrefix +:+ orgID +:+ ":" +:+ sourceCID +:+ ":" +:+ targetCID.
Definition relationshipPrefix (orgID : string) : string :=
  RelationshipKeyPrefix +:+ orgID +:+ ":".
Definition validityKey (orgID cid : string) : string :=
  ValidityKeyPrefix +:+ orgID +:+ ":" +:+ cid.

Definition pendingToStored (pc : PendingCommitment) : StoredPendingCommitment := {|
  sp_OrgId := pc_OrgID pc;
  sp_ContentHash := pc_ContentHash pc;
  sp_Keywords := pc_Keywords pc;
  sp_ContributorId := pc_Contributor pc;
  sp_Epoch := pc_Epoch pc;
  sp_SubmittedAtHeight := pc_SubmittedAt pc;
  sp_MemoryType := pc_MemoryType pc;
  sp_ContributorAddress := pc_ContributorAddress pc;
  sp_ProducerModelId := pc_ProducerModelId pc;
  sp_AttestationSessionHash := pc_AttestationSessionHash pc;
  sp_McVersion := pc_McVersion pc;
|}.

Definition storedToPending (stored : StoredPendingCommitment) : PendingCommitment := {|
  pc_OrgID := sp_OrgId stored;
  pc_ContentHash := sp_ContentHash stored;
  pc_Keywords := sp_Keywords stored;
  pc_Contributor := sp_ContributorId stored;
  pc_ContributorAddress := sp_ContributorAddress stored;
  pc_ProducerModelId := sp_ProducerModelId stored;
  pc_AttestationSessionHash := sp_AttestationSessionHash stored;
  pc_McVersion := sp_McVersion stored;
  pc_Epoch := sp_Epoch stored;
  pc_SubmittedAt := sp_SubmittedAtHeight stored;
  pc_MemoryType := sp_MemoryType stored;
|}.

Definition memoryToStored (con : MemoryCommitment) : StoredMemoryCommitment := {|
  sm_OrgId := mc_OrgID con;
  sm_ContentHash := mc_ContentHash con;
  sm_EncryptedBlob := mc_EncryptedBlob con;
  sm_Keywords := mc_Keywords con;
  sm_ContributorPubkey := mc_Contributor con;
  sm_ContributorAddress := mc_ContributorAddress con;
  sm_ProducerModelId := mc_ProducerModelId con;
  sm_AttestationSessionHash := mc_AttestationSessionHash con;
  sm_Epoch := mc_Epoch con;
  sm_CommittedAtHeight := mc_CommittedAtHeight con;
  sm_CommittingLeaderPubkey := mc_CommittingLeader con;
  sm_State := mc_State con;
  sm_LastActiveEpoch := mc_LastActiveEpoch con;
  sm_WrappedDekEnc := mc_WrappedDekEnc con;
  sm_PlaintextHash := mc_PlaintextHash con;
  sm_Salt := mc_Salt con;
  sm_CiphertextHash := mc_CiphertextHash con;
  sm_WrappedDekHash := mc_WrappedDekHash con;
  sm_ContributorSig := mc_ContributorSig con;
  sm_MemoryType := mc_MemoryType con;
  sm_ApprovedAtEpoch := mc_ApprovedAtEpoch con;
  sm_McVersion := mc_McVersion con;
|}.

Definition storedToMemory (stored : StoredMemoryCommitment) : MemoryCommitment := {|
  mc_OrgID := sm_OrgId stored;
  mc_ContentHash := sm_ContentHash stored;
  mc_EncryptedBlob := sm_EncryptedBlob stored;
  mc_Keywords := sm_Keywords stored;
  mc_Contributor := sm_ContributorPubkey stored;
  mc_ContributorAddress := sm_ContributorAddress stored;
  mc_ProducerModelId := sm_ProducerModelId stored;
  mc_AttestationSessionHash := sm_AttestationSessionHash stored;
  mc_Epoch := sm_Epoch stored;
  mc_CommittedAtHeight := sm_CommittedAtHeight stored;
  mc_CommittingLeader := sm_CommittingLeaderPubkey stored;
  mc_State := sm_State stored;
  mc_LastActiveEpoch := sm_LastActiveEpoch stored;
  mc_WrappedDekEnc := sm_WrappedDekEnc stored;
  mc_PlaintextHash := sm_PlaintextHash stored;
  mc_Salt := sm_Salt stored;
  mc_CiphertextHash := sm_CiphertextHash stored;
  mc_WrappedDekHash := sm_WrappedDekHash stored;
  mc_ContributorSig := sm_ContributorSig stored;
  mc_MemoryType := sm_MemoryType stored;
  mc_ApprovedAtEpoch := sm_ApprovedAtEpoch stored;
  mc_McVersion := sm_McVersion stored;
|}.

Definition relationshipToStored (rel : MemoryRelationship) : StoredMemoryRelationship := {|
  sr_OrgId := "";
  sr_SourceCid := mr_SourceCID rel;
  sr_TargetCid := mr_TargetCID rel;
  sr_RelationType := mr_RelationType rel;
  sr_Proposer := mr_Proposer rel;
  sr_Approved := mr_Approved rel;
  sr_Epoch := mr_Epoch rel;
|}.

Definition storedToRelationship (stored : StoredMemoryRelationship) : MemoryRelationship := {|
  mr_SourceCID := sr_SourceCid stored;
  mr_TargetCID := sr_TargetCid stored;
  mr_RelationType := sr_RelationType stored;
  mr_OrgID := sr_OrgId stored;
  mr_Proposer := sr_Proposer stored;
  mr_Approved := sr_Approved stored;
  mr_Epoch := sr_Epoch stored;
|}.

(** ** Reads *)
Section Reads.
Context {JSON : JsonTags}.
Implicit Types m : gmap string mem_val.

Definition GetParams m : result Params :=
  match m !! ParamsKey with
  | None => Ok DefaultParams
  | Some (VParams p) => Ok p
  | Some _ => Err (Errorf "unmarshal params")
  end.

Definition GetApprovedMemory m (orgID contentHash : string) : result MemoryCommitment :=
  match m !! approvedKey orgID contentHash with
  | None => Err ErrMemoryNotFound
  | Some v => stored ← from_option_err (Errorf "unmarshal approved memory") (decode_memory v);
              mret (storedToMemory stored)
  end.

Definition GetPendingCommitment m (orgID contentHash : string) : result PendingCommitment :=
  match m !! pendingKey orgID contentHash with
  | None => Err ErrCommitmentNotFound
  | Some v => stored ← from_option_err (Errorf "unmarshal pending") (decode_pending v);
              mret (storedToPending stored)
  end.

(** The scan has no upper bound. *)
Definition GetAllPendingForOrg m (orgID : string) : list PendingCommitment :=
  omap (fun kv => storedToPending <$> decode_pending kv.2) (from_iter (pendingPrefix orgID) m).

Definition read_uint64 (key : string) m : result N :=
  match m !! key with
  | None => Ok 0
  | Some (VRaw b) => BigEndianUint64 b
  | Some _ => Err (Panic "index out of range")
  end.

Definition GetApprovedCount m (orgID : string) : result N := read_uint64 (countKey orgID) m.

Definition bump (c : string) (counts : gmap string N) : gmap string N :=
  <[c := (default 0 (counts !! c) + 1)%u64]> counts.

(** The scan has no upper bound. *)
Definition GetApprovedCountByContributor m (orgID : string) (epoch : N) : gmap string N :=
  foldl (fun counts kv => match decode_memory kv.2 with
    | Some stored => if sm_Epoch stored =? epoch then bump (sm_ContributorPubkey stored) counts
                     else counts
    | None => counts
    end) ∅ (from_iter (approvedPrefix orgID) m).

Definition GetContributorsWithApprovalsInEpoch m (epoch : N) : gmap string N :=
  foldl (fun counts kv => match decode_memory kv.2 with
    | Some stored =>
        if negb (sm_ApprovedAtEpoch stored =? epoch) then counts
        else if negb (sm_State stored =? MemoryState_MEMORY_STATE_COMMITTED) then counts
        else if bool_decide (sm_ContributorPubkey stored = "") then counts
        else bump (sm_ContributorPubkey stored) counts
    | None => counts
    end) ∅ (prefix_iter "approved/" m).

Definition GetEpochMerkleRoot m (orgID : string) (epoch : N) : result EpochMerkleRoot :=
  match m !! merkleKey orgID epoch with
  | None => Err ErrMerkleRootNotFound
  | Some (VMerkle s) =>
      Ok (mkMerkleRoot (se_OrgId s) (se_Epoch s) (se_MerkleRoot s) (se_MemoryCount s))
  | Some _ => Err (Errorf "unmarshal merkle root")
  end.

(** The scan has no upper bound. *)
Definition GetMemoryReports m (orgID contentHash : string) : list StoredMemoryReport :=
  omap (fun kv => decode_report kv.2) (from_iter (reportPrefix orgID contentHash) m).

(** The callback stops the iteration by returning [false]; an undecodable value
    is an error. *)
Fixpoint iterate_reports {A} (cb : A -> StoredMemoryReport -> A * bool) (acc : A)
    (l : list (string * mem_val)) : result A :=
  match l with
  | [] => mret acc
  | (_, v) :: l' =>
      report ← from_option_err (Errorf "unmarshal report") (decode_report v);
      let '(acc', go) := cb acc report in
      if go then iterate_reports cb acc' l' else mret acc'
  end.

Definition IterateUpheldReports {A} (cb : A -> StoredMemoryReport -> A * bool) (acc : A) m :
    result A :=
  iterate_reports cb acc (prefix_iter reportPrefixKey m).

Definition GetUpheldReport m (orgID memoryHash : string) : option StoredMemoryReport :=
  List.find (fun report => bool_decide (rp_OrgId report = orgID) &&
      bool_decide (ContentHashToHex (rp_ContentHash report) = ContentHashToHex memoryHash))
    (omap (fun kv => decode_report kv.2) (prefix_iter reportPrefixKey m)).

Definition getCurrentEpoch m : result N := read_uint64 currentEpochKey m.

Definition decodeCID (cid : string) : result string :=
  contentHash ← from_option_err (Errorf "decode cid") (hex_decode cid);
  err_if (negb (len contentHash =? ContentHashLen)) ErrInvalidContentHash ;;
  mret contentHash.

Definition loadMemoryByCID m (orgID cid : string) : result MemoryCommitment :=
  contentHash ← decodeCID cid;
  match m !! approvedKey orgID contentHash with
  | None => Err ErrMemoryNotFound
  | Some v => stored ← from_option_err (Errorf "unmarshal memory") (decode_memory v);
              mret (storedToMemory stored)
  end.

Definition decodeValidityMetadata (stored : StoredValidityMetadata) : result ValidityMetadata :=
  scope ← (if 0 <? len (sv_ScopeTagsBz stored)
           then from_option_err (Errorf "unmarshal scope tags")
                  (json_Unmarshal_tags (sv_ScopeTagsBz stored))
           else Ok ∅);
  mret (mkValidity (sv_ValidAfterEpoch stored) (sv_ValidUntilEpoch stored) scope).

Definition GetValidityMetadata m (orgID cid : string) : result (option ValidityMetadata) :=
  match m !! validityKey orgID cid with
  | None => Ok None
  | Some (VValidity stored) => metadata ← decodeValidityMetadata stored; mret (Some metadata)
  | Some _ => Err (Errorf "unmarshal validity metadata")
  end.

Definition IsValidInEpoch m (orgID cid : string) (epoch : N) : result bool :=
  metadata ← GetValidityMetadata m orgID cid;
  match metadata with
  | None => mret true
  | Some md =>
      if negb (vm_ValidAfterEpoch md =? 0) && (epoch <? vm_ValidAfterEpoch md) then mret false
      else if negb (vm_ValidUntilEpoch md =? 0) && (vm_ValidUntilEpoch md <? epoch)
      then mret false else mret true
  end.

Definition loadRelationship m (orgID sourceCID targetCID : string) : result MemoryRelationship :=
  match m !! relationshipKey orgID sourceCID targetCID with
  | None => Err ErrRelationshipNotFound
  | Some (VRelationship r) => Ok (storedToRelationship r)
  | Some _ => Err (Errorf "unmarshal relationship")
  end.

Definition GetRelationship m (orgID sourceCID targetCID : string) : result MemoryRelationship :=
  loadRelationship m orgID sourceCID targetCID.

Fixpoint relationships_of (cid : string) (l : list (string * mem_val)) :
    result (list MemoryRelationship) :=
  match l with
  | [] => mret []
  | (_, VRelationship r) :: l' =>
      let rel := storedToRelationship r in
      rest ← relationships_of cid l';
      mret (if bool_decide (mr_SourceCID rel = cid) || bool_decide (mr_TargetCID rel = cid)
            then rel :: rest else rest)
  | _ :: _ => Err (Errorf "unmarshal relationship")
  end.

Definition ListRelationshipsForMemory m (orgID cid : string) : result (list MemoryRelationship) :=
  relationships_of cid (prefix_iter (relationshipPrefix orgID) m).

(** The part of a key before its first slash. *)
Fixpoint before_slash (s : string) : string :=
  match s with
  | EmptyString => ""
  | String c s' => if bool_decide (c = "/"%char) then "" else String c (before_slash s')
  end.

Definition drop_prefix (p s : string) : string :=
  String.substring (String.length p) (String.length s - String.length p) s.

(** The distinct non-empty org ids under the approved memories, sorted. *)
Definition getAllOrgsWithMemories m : list string :=
  let ids := (fun kv => before_slash (drop_prefix "approved/" kv.1)) <$> prefix_iter "approved/" m in
  merge_sort String.le (elements (list_to_set (List.filter (fun i => negb (bool_decide (i = ""))) ids)
                                    : gset string)).

Definition ExportGenesis m : result GenesisState :=
  params ← GetParams m;
  mret (mkGenesisState
    (omap (fun kv => storedToPending <$> decode_pending kv.2) (prefix_iter "pending/" m))
    (omap (fun kv => storedToMemory <$> decode_memory kv.2) (prefix_iter "approved/" m))
    (omap (fun kv => match kv.2 with
       | VRelationship r => Some (Some (storedToRelationship r)) | _ => None end)
       (prefix_iter RelationshipKeyPrefix m))
    (omap (fun kv => match kv.2 with VValidity v => Some (Some v) | _ => None end)
       (prefix_iter ValidityKeyPrefix m))
    (omap (fun kv => match kv.2 with
       | VMerkle s => Some (mkMerkleRoot (se_OrgId s) (se_Epoch s) (se_MerkleRoot s) (se_MemoryCount s))
       | _ => None end) (prefix_iter "merkle/" m))
    params).
End Reads.

(** [types.ComputeMerkleRoot]: the hash of the sorted content hashes; [nil] for
    none. *)
Definition ComputeMerkleRoot {CRYPTO : Crypto} (contentHashes : list string) : string :=
  match contentHashes with
  | [] => ""
  | _ => sha256 (String.concat "" (merge_sort String.le contentHashes))
  end.

(** The content hashes [ComputeAndStoreEpochMerkleRoot] collects for an org and
    epoch; the scan has no upper bound. *)
Definition epoch_hashes (m : gmap string mem_val) (orgID : string) (epoch : N) : list string :=
  omap (fun kv => match decode_memory kv.2 with
    | Some stored => if sm_Epoch stored =? epoch then Some (sm_ContentHash stored) else None
    | None => None
    end) (from_iter (approvedPrefix orgID) m).

(** ** The keeper *)
Record Keeper := mkKeeper { authority : string }.

Definition WeVibeEpochIdentifier := "wevibe_epoch".
Definition EventTypeCommitmentSubmitted := "commitment_submitted".

(** An entry of the store under [ValidityKeyPrefix] that has expired. *)
Record expiringEntry := mkExpiring { ee_key : string; ee_orgID : string; ee_memoryCid : string }.

Section KeeperOps.
Context {P : Type} {CRYPTO : Crypto} {ORG : OrgKeeper P} {REP : ReputationKeeper P} (k : Keeper).
Notation S := (St mem_val P).

Definition SetParams (params : Params) : M S unit := kset ParamsKey (VParams params).

Definition ReportMemory (orgID contentHash contributorPubkey : string)
    (approvingModerators upholdingModerators : list string)
    (reporterPubkey committingLeader reason plaintext ciphertext capsule plaintextHash : string)
    (plaintextOversized : bool) (epoch : N) : M S unit :=
  fail_if (len plaintextHash =? 0) ErrInvalidContentHash ;;
  (if plaintextOversized
   then fail_if ((0 <? len plaintext) || (0 <? len ciphertext) || (0 <? len capsule))
          ErrBlobTooLarge
   else fail_if ((4096 <? len plaintext) || (8192 <? len ciphertext) || (len capsule =? 0))
          ErrBlobTooLarge) ;;
  has ← khas (approvedKey orgID contentHash);
  fail_if (negb has) ErrMemoryNotFound ;;
  let rKey := reportKey orgID contentHash reporterPubkey in
  has ← khas rKey;
  fail_if has ErrReportExists ;;
  kset rKey (VReport {|
    rp_OrgId := orgID;
    rp_ContentHash := contentHash;
    rp_ContributorPubkey := contributorPubkey;
    rp_ApprovingModerators := approvingModerators;
    rp_UpholdingModerators := upholdingModerators;
    rp_ReporterPubkey := reporterPubkey;
    rp_CommittingLeaderPubkey := committingLeader;
    rp_Reason := reason;
    rp_Plaintext := plaintext;
    rp_Ciphertext := ciphertext;
    rp_Capsule := capsule;
    rp_PlaintextHash := plaintextHash;
    rp_PlaintextOversized := plaintextOversized;
    rp_UpheldAtEpoch := epoch;
    rp_UpheldAtTimestamp := 0;
  |}) ;;
  map_err (Wrap "increment org upheld reports") (on_peers (IncrementOrgUpheldReports orgID)) ;;
  map_err (Wrap "increment contribution")
    (on_peers (IncrementContribution contributorPubkey orgID (ContentHashToHex contentHash))) ;;
  for_each approvingModerators (fun modPubkey =>
    map_err (Wrap "increment moderator upheld")
      (on_peers (IncrementModeratorUpheld modPubkey orgID))) ;;
  map_err (Wrap "increment leader upheld report")
    (on_peers (IncrementLeaderUpheldReport committingLeader orgID)).

Definition SubmitCommitment (commitment : PendingCommitment) : M S unit :=
  lift (PendingCommitment_Validate commitment) ;;
  hasOrg ← peer_read (fun p => HasOrg p (pc_OrgID commitment));
  fail_if (negb hasOrg) ErrOrgNotFound ;;
  let key := pendingKey (pc_OrgID commitment) (pc_ContentHash commitment) in
  has ← khas key;
  fail_if has ErrCommitmentExists ;;
  params ← kread GetParams;
  pendingCount ← kread (fun m => Ok (length (from_iter (pendingPrefix (pc_OrgID commitment)) m)));
  fail_if (p_MaxPendingPerOrg params <=? N.of_nat pendingCount) ErrMaxPendingExceeded ;;
  kset key (VPending (pendingToStored commitment)).

Definition ApproveMemory (orgID contentHash encryptedBlob committingLeader wrappedDekEnc
    plaintextHash salt ciphertextHash wrappedDekHash contributorSig : string) (memoryType : N) :
    M S unit :=
  fail_if (negb (ValidMemoryType memoryType)) ErrInvalidMemoryType ;;
  let pendingStoreKey := pendingKey orgID contentHash in
  has ← khas pendingStoreKey;
  fail_if (negb has) ErrCommitmentNotFound ;;
  isLeader ← peer_read (fun p => IsLeader p orgID committingLeader);
  fail_if (negb isLeader) ErrUnauthorized ;;
  params ← kread GetParams;
  fail_if (int64_of_u64 (p_MaxBlobSizeBytes params) <? Z.of_N (len encryptedBlob))%Z
    ErrBlobTooLarge ;;
  pending ← kread (fun m => GetPendingCommitment m orgID contentHash);
  has ← khas (approvedKey orgID contentHash);
  fail_if has ErrMemoryExists ;;
  let currentEpoch := pc_Epoch pending in
  approvedAt ← kread getCurrentEpoch;
  let approved := {|
    mc_OrgID := orgID;
    mc_ContentHash := contentHash;
    mc_EncryptedBlob := encryptedBlob;
    mc_Keywords := pc_Keywords pending;
    mc_Contributor := pc_Contributor pending;
    mc_ContributorAddress := pc_ContributorAddress pending;
    mc_ProducerModelId := pc_ProducerModelId pending;
    mc_AttestationSessionHash := pc_AttestationSessionHash pending;
    mc_Epoch := currentEpoch;
    mc_CommittedAtHeight := pc_SubmittedAt pending;
    mc_CommittingLeader := committingLeader;
    mc_State := MemoryState_MEMORY_STATE_COMMITTED;
    mc_LastActiveEpoch := currentEpoch;
    mc_ApprovedAtEpoch := approvedAt;
    mc_WrappedDekEnc := wrappedDekEnc;
    mc_PlaintextHash := plaintextHash;
    mc_Salt := salt;
    mc_CiphertextHash := ciphertextHash;
    mc_WrappedDekHash := wrappedDekHash;
    mc_ContributorSig := contributorSig;
    mc_MemoryType := memoryType;
    mc_McVersion := pc_McVersion pending;
  |} in
  kset (approvedKey orgID contentHash) (VMemory (memoryToStored approved)) ;;
  kdel pendingStoreKey ;;
  count ← kread (fun m => GetApprovedCount m orgID);
  kset (countKey orgID) (VRaw (PutUint64 (count + 1)%u64)) ;;
  map_err (Wrap "increment org committed memories")
    (on_peers (IncrementOrgCommittedMemories orgID)) ;;
  map_err (Wrap "set org last activity") (on_peers (SetOrgLastActivityEpoch orgID currentEpoch)) ;;
  map_err (Wrap "increment contribution")
    (on_peers (IncrementContribution (pc_Contributor pending) orgID
                 (ContentHashToHex contentHash))) ;;
  map_err (Wrap "increment leader chain commit")
    (on_peers (IncrementLeaderChainCommit committingLeader orgID)).

Definition ComputeAndStoreEpochMerkleRoot (orgID : string) (epoch : N) : M S unit :=
  contentHashes ← kread (fun m => Ok (epoch_hashes m orgID epoch));
  kset (merkleKey orgID epoch) (VMerkle {|
    se_OrgId := orgID;
    se_Epoch := epoch;
    se_MerkleRoot := ComputeMerkleRoot contentHashes;
    se_MemoryCount := N.of_nat (length contentHashes);
  |}).

Definition saveMemoryCommitment (memory : MemoryCommitment) : M S unit :=
  kset (approvedKey (mc_OrgID memory) (mc_ContentHash memory)) (VMemory (memoryToStored memory)).

Definition setCurrentEpoch (epoch : N) : M S unit := kset currentEpochKey (VRaw (PutUint64 epoch)).

(** The expired validity records, collected before anything is written. *)
Fixpoint expired_entries (epoch : N) (l : list (string * mem_val)) : result (list expiringEntry) :=
  match l with
  | [] => mret []
  | (key, VValidity stored) :: l' =>
      rest ← expired_entries epoch l';
      mret (if (sv_ValidUntilEpoch stored =? 0) || (epoch <=? sv_ValidUntilEpoch stored) then rest
            else mkExpiring key (sv_OrgId stored) (sv_MemoryCid stored) :: rest)
  | _ :: _ => Err (Errorf "unmarshal validity metadata")
  end.

Definition expire_entry (e : expiringEntry) : M S unit :=
  memory ← kread (fun m => loadMemoryByCID m (ee_orgID e) (ee_memoryCid e));
  (if negb (mc_State memory =? MemoryState_MEMORY_STATE_ARCHIVED) &&
      negb (mc_State memory =? MemoryState_MEMORY_STATE_DENIED)
   then saveMemoryCommitment (memory <| mc_State := MemoryState_MEMORY_STATE_ARCHIVED |>)
   else mret tt) ;;
  kdel (ee_key e).

Definition CheckEpochExpiry (epoch : N) : M S unit :=
  expired ← kread (fun m => expired_entries epoch (prefix_iter ValidityKeyPrefix m));
  for_each expired expire_entry.

Definition saveRelationship (orgID : string) (relationship : MemoryRelationship) : M S unit :=
  kset (relationshipKey orgID (mr_SourceCID relationship) (mr_TargetCID relationship))
    (VRelationship ((relationshipToStored relationship) <| sr_OrgId := orgID |>)).

Definition DeleteRelationship (orgID sourceCID targetCID : string) : M S unit :=
  kdel (relationshipKey orgID sourceCID targetCID).

Definition InitGenesis (state : GenesisState) : M S unit :=
  for_each (g_PendingCommitments state) (fun pc =>
    kset (pendingKey (pc_OrgID pc) (pc_ContentHash pc)) (VPending (pendingToStored pc))) ;;
  for_each (g_MemoryCommitments state) (fun am =>
    kset (approvedKey (mc_OrgID am) (mc_ContentHash am)) (VMemory (memoryToStored am))) ;;
  for_each (g_Relationships state) (fun rel =>
    match rel with None => mret tt | Some r => saveRelationship (mr_OrgID r) r end) ;;
  for_each (g_ValidityMetadata state) (fun vm =>
    match vm with
    | None => mret tt
    | Some v => kset (validityKey (sv_OrgId v) (sv_MemoryCid v)) (VValidity v)
    end) ;;
  for_each (g_MerkleRoots state) (fun mr =>
    kset (merkleKey (em_OrgID mr) (em_Epoch mr)) (VMerkle
      (mkStoredMerkleRoot (em_OrgID mr) (em_Epoch mr) (em_MerkleRoot mr) (em_MemoryCount mr)))) ;;
  SetParams (if bool_decide (g_Params state = zero_Params) then DefaultParams else g_Params state).

(** ** Epoch hooks (epoch_hooks.go): every failure is logged and skipped *)
Definition AfterEpochEnd (epochIdentifier : string) (epochNumber : Z) : M S unit :=
  if negb (bool_decide (epochIdentifier = WeVibeEpochIdentifier)) then mret tt else
  let epoch := u64_of_int64 epochNumber in
  attempt (setCurrentEpoch epoch) ;;
  attempt (CheckEpochExpiry epoch) ;;
  orgs ← kread (fun m => Ok (getAllOrgsWithMemories m));
  for_each orgs (fun orgID => attempt (ComputeAndStoreEpochMerkleRoot orgID epoch) ;; mret tt).

Definition BeforeEpochStart (epochIdentifier : string) (epochNumber : Z) : M S unit := mret tt.

(** ** Message server (msg_server.go) *)
Definition requireLeaderWallet (orgID signer : string) : M S unit :=
  wallet ← peer_read (fun p => GetLeaderWallet p orgID);
  fail_if (bool_decide (wallet = "") || negb (bool_decide (signer = wallet))) ErrUnauthorized.

Definition MsgServer_SubmitCommitment (ctx : BlockCtx) (msg : MsgSubmitCommitment) : M S unit :=
  lift (MsgSubmitCommitment_ValidateBasic msg) ;;
  requireLeaderWallet (ms_OrgId msg) (ms_Signer msg) ;;
  member ← map_err (fun _ => Wrap "failed to load member record" ErrNotContributor)
             (peer_read (fun p => GetMember p (ms_OrgId msg) (ms_ContributorId msg)));
  match member with
  | None => fail ErrNotContributor
  | Some member =>
      fail_if (negb (bool_decide (Org.m_Role member = "leader")) &&
               negb (Org.m_CanContribute member)) ErrNotContributor ;;
      fail_if (negb (ValidMemoryType (ms_MemoryType msg))) ErrInvalidMemoryType ;;
      let commitment := NewPendingCommitment (ms_OrgId msg) (ms_ContentHash msg)
        (ms_Keywords msg) (ms_ContributorId msg) 0 0 (ms_MemoryType msg) in
      let commitment := commitment <| pc_ContributorAddress := ms_ContributorWallet msg |>
        <| pc_McVersion := ms_McVersion msg |>
        <| pc_ProducerModelId := ms_ProducerModelId msg |>
        <| pc_AttestationSessionHash := ms_AttestationSessionHash msg |> in
      SubmitCommitment commitment ;;
      emit (mkEvent EventTypeCommitmentSubmitted [
        ("org_id", ms_OrgId msg);
        ("contributor_id", ms_ContributorId msg);
        ("producer_model_id", if bool_decide (ms_ProducerModelId msg = "") then "unattested"
                              else ms_ProducerModelId msg);
        ("attestation_session_hash", if 0 <? len (ms_AttestationSessionHash msg)
                                     then ContentHashToHex (ms_AttestationSessionHash msg)
                                     else "none");
        ("block_height", FormatInt (BlockHeight ctx))])
  end.

Definition buildSubmitMemoryCanonicalBody (ciphertextHash contributorPubkey : string)
    (epochID memoryType : N)
    (orgID plaintextHash salt submissionHash wrappedDekHash : string) : string :=
  Join newline [
    "wevibe.submit_memory.v1";
    "ciphertext_hash:" +:+ hex_encode ciphertextHash;
    "contributor_pubkey:" +:+ contributorPubkey;
    "epoch_id:" +:+ FormatUint epochID;
    "memory_type:" +:+ CanonicalMemoryType memoryType;
    "org_id:" +:+ orgID;
    "plaintext_hash:" +:+ hex_encode plaintextHash;
    "salt:" +:+ hex_encode salt;
    "submission_hash:" +:+ hex_encode submissionHash;
    "wrapped_dek_hash:" +:+ hex_encode wrappedDekHash].

Definition bytesEqual (left right : string) : bool := bool_decide (left = right).

(** [hex.DecodeString] of an ed25519 public key. *)
Definition decode_pubkey (s : string) : option string :=
  match hex_decode s with
  | Some b => if len b =? 32 then Some b else None
  | None => None
  end.

Definition MsgServer_ApproveMemory (msg : MsgApproveMemory) : M S unit :=
  lift (MsgApproveMemory_ValidateBasic msg) ;;
  requireLeaderWallet (ma_OrgId msg) (ma_Signer msg) ;;
  fail_if (negb (ValidMemoryType (ma_MemoryType msg))) ErrInvalidMemoryType ;;
  pending ← kread (fun m => GetPendingCommitment m (ma_OrgId msg) (ma_ContentHash msg));
  let wrappedDekHash := sha256 (ma_WrappedDekEnc msg) in
  let submissionHash := sha256 (ma_EncryptedBlob msg +:+ ma_WrappedDekEnc msg) in
  let canonicalBody := buildSubmitMemoryCanonicalBody (ma_CiphertextHash msg)
    (pc_Contributor pending) (pc_Epoch pending) (ma_MemoryType msg) (ma_OrgId msg)
    (ma_PlaintextHash msg) (ma_Salt msg) submissionHash wrappedDekHash in
  contributorPubkeyBytes ← lift (from_option_err
    (Wrap "memory approval rejected: invalid contributor pubkey" ErrInvalidContributor)
    (decode_pubkey (pc_Contributor pending)));
  fail_if (negb (ed25519_Verify contributorPubkeyBytes canonicalBody (ma_ContributorSig msg)))
    (Wrap "memory approval rejected: contributor signature verification failed"
       ErrInvalidContributorSignature) ;;
  fail_if (negb (bytesEqual (ma_CiphertextHash msg) (sha256 (ma_EncryptedBlob msg))))
    (Wrap "memory approval rejected: ciphertext hash mismatch" ErrInvalidBlob) ;;
  fail_if (negb (bytesEqual (ma_ContentHash msg) submissionHash))
    (Wrap "memory approval rejected: content hash mismatch" ErrInvalidContentHash) ;;
  ApproveMemory (ma_OrgId msg) (ma_ContentHash msg) (ma_EncryptedBlob msg)
    (ma_CommittingLeader msg) (ma_WrappedDekEnc msg) (ma_PlaintextHash msg) (ma_Salt msg)
    (ma_CiphertextHash msg) wrappedDekHash (ma_ContributorSig msg) (ma_MemoryType msg).

Definition MsgServer_UpdateParams (msg : MsgUpdateParams) : M S unit :=
  fail_if (negb (bool_decide (mu_Authority msg = authority k))) ErrUnauthorized ;;
  lift (MsgUpdateParams_ValidateBasic msg) ;;
  match mu_Params msg with
  | None => fail (Panic "nil params")
  | Some p => SetParams p
  end.

Definition MsgServer_ReportMemory (msg : MsgReportMemory) : M S unit :=
  lift (MsgReportMemory_ValidateBasic msg) ;;
  requireLeaderWallet (mp_OrgId msg) (mp_Signer msg) ;;
  ReportMemory (mp_OrgId msg) (mp_ContentHash msg) (mp_ContributorPubkey msg)
    (mp_ApprovingModerators msg) (mp_UpholdingModerators msg) (mp_ReporterPubkey msg)
    (mp_Signer msg) (mp_Reason msg) (mp_Plaintext msg) (mp_Ciphertext msg) (mp_Capsule msg)
    (mp_PlaintextHash msg) (mp_PlaintextOversized msg) 0.
End KeeperOps.

(** The entry points that change the module's state. *)
Inductive mem_msg :=
  | SubmitCommitmentMsg (msg : MsgSubmitCommitment)
  | ApproveMemoryMsg (msg : MsgApproveMemory)
  | ReportMemoryMsg (msg : MsgReportMemory)
  | UpdateParamsMsg (msg : MsgUpdateParams)
  | EpochEnd (identifier : string) (number : Z).

Definition handle {P} {CRYPTO : Crypto} {ORG : OrgKeeper P} {REP : ReputationKeeper P}
    (k : Keeper) (ctx : BlockCtx) (m : mem_msg) : M (St mem_val P) unit :=
  match m with
  | SubmitCommitmentMsg msg => MsgServer_SubmitCommitment ctx msg
  | ApproveMemoryMsg msg => MsgServer_ApproveMemory msg
  | ReportMemoryMsg msg => MsgServer_ReportMemory msg
  | UpdateParamsMsg msg => MsgServer_UpdateParams k msg
  | EpochEnd i n => AfterEpochEnd i n
  end.
