(* ===== verification/MemoryFacts.v ===== *)
(** * The lifecycle of memories

    The store of x/memory as a transition system: the elementary steps, the
    invariant they keep, and the simulation of the message handlers and of the
    epoch hook by these steps. *)

From S2P Require Import Prelude Bytes Store Wire Ifaces Org Memory.
From Stdlib Require Import Ascii.
Local Open Scope string_scope.
Local Open Scope N_scope.

Implicit Types m : gmap string mem_val.

(** ** Keys *)

Lemma pendingKey_inj o h o' h' : pendingKey o h = pendingKey o' h' -> o = o' /\ h = h'.
Proof.
  unfold pendingKey. intros H%str_app_inj_l.
  apply sep_split_last in H as [-> H]; try apply hex_encode_no_slash.
  by apply hex_encode_inj in H.
Qed.

Lemma approvedKey_inj o h o' h' : approvedKey o h = approvedKey o' h' -> o = o' /\ h = h'.
Proof.
  unfold approvedKey. intros H%str_app_inj_l.
  apply sep_split_last in H as [-> H]; try apply hex_encode_no_slash.
  by apply hex_encode_inj in H.
Qed.

Lemma merkleKey_inj o e o' e' : merkleKey o e = merkleKey o' e' -> o = o' /\ e = e'.
Proof.
  unfold merkleKey. intros H%str_app_inj_l.
  apply sep_split_last in H as [-> H]; try apply FormatUint_no_slash.
  by apply FormatUint_inj in H.
Qed.

Lemma countKey_inj o o' : countKey o = countKey o' -> o = o'.
Proof. apply str_app_inj_l. Qed.

(** ** Well-formed stores: every record lies under the key made of its own
    fields *)
Definition shape (k : string) (v : mem_val) : Prop :=
  match v with
  | VParams _ => k = ParamsKey
  | VPending c => k = pendingKey (sp_OrgId c) (sp_ContentHash c)
  | VMemory c => k = approvedKey (sm_OrgId c) (sm_ContentHash c)
  | VRelationship r => k = relationshipKey (sr_OrgId r) (sr_SourceCid r) (sr_TargetCid r)
  | VValidity v => k = validityKey (sv_OrgId v) (sv_MemoryCid v)
  | VMerkle r => k = merkleKey (se_OrgId r) (se_Epoch r)
  | VReport r => k = reportKey (rp_OrgId r) (rp_ContentHash r) (rp_ReporterPubkey r)
  | VRaw b =>
      ((exists o, k = countKey o) \/ k = currentEpochKey) /\
        (exists n, is_u64 n /\ b = PutUint64 n) \/
      k = genesisInitMarkerKey
  end.

Definition mem_wf m : Prop := map_Forall shape m.

Lemma wf_approved m o h v :
  mem_wf m -> m !! approvedKey o h = Some v ->
  exists c, v = VMemory c /\ sm_OrgId c = o /\ sm_ContentHash c = h.
Proof.
  intros Hwf Hv. pose proof (Hwf _ _ Hv) as Hs. destruct v; simpl in Hs; try done.
  - apply approvedKey_inj in Hs as [-> ->]. eauto.
  - destruct Hs as [[[[o' H]|H] _]|H]; discriminate H.
Qed.

Lemma wf_pending m o h v :
  mem_wf m -> m !! pendingKey o h = Some v ->
  exists c, v = VPending c /\ sp_OrgId c = o /\ sp_ContentHash c = h.
Proof.
  intros Hwf Hv. pose proof (Hwf _ _ Hv) as Hs. destruct v; simpl in Hs; try done.
  - apply pendingKey_inj in Hs as [-> ->]. eauto.
  - destruct Hs as [[[[o' H]|H] _]|H]; discriminate H.
Qed.

Lemma wf_count m o : mem_wf m -> exists n, GetApprovedCount m o = Ok n /\ is_u64 n.
Proof.
  intros Hwf. unfold GetApprovedCount, read_uint64.
  destruct (m !! countKey o) as [v|] eqn:Hv; [|by exists 0].
  pose proof (Hwf _ _ Hv) as Hs. destruct v; simpl in Hs; try done.
  destruct Hs as [[_ (n & Hn & ->)]|H]; [|discriminate H].
  exists n. by rewrite BigEndianUint64_Put.
Qed.

Lemma wf_epoch m : mem_wf m -> exists n, getCurrentEpoch m = Ok n /\ is_u64 n.
Proof.
  intros Hwf. unfold getCurrentEpoch, read_uint64.
  destruct (m !! currentEpochKey) as [v|] eqn:Hv; [|by exists 0].
  pose proof (Hwf _ _ Hv) as Hs. destruct v; simpl in Hs; try done.
  destruct Hs as [[_ (n & Hn & ->)]|H]; [|discriminate H].
  exists n. by rewrite BigEndianUint64_Put.
Qed.

Lemma wf_insert m k v : mem_wf m -> shape k v -> mem_wf (<[k:=v]> m).
Proof. intros H Hs. by apply map_Forall_insert_2. Qed.

Lemma wf_delete m k : mem_wf m -> mem_wf (delete k m).
Proof. intros H. by apply map_Forall_delete. Qed.
#[export] Hint Resolve wf_insert wf_delete : wv.

(** ** The lifecycle
    [mem_step cur m m']: with [cur] the epoch label in force, the store moves
    from [m] to [m']. *)
Definition archived (c : StoredMemoryCommitment) : StoredMemoryCommitment :=
  memoryToStored ((storedToMemory c) <| mc_State := MemoryState_MEMORY_STATE_ARCHIVED |>).

(** [c] is the approved record of the pending commitment [p]. *)
Definition approves (p : StoredPendingCommitment) (c : StoredMemoryCommitment) : Prop :=
  sm_OrgId c = sp_OrgId p /\ sm_ContentHash c = sp_ContentHash p /\
  sm_Keywords c = sp_Keywords p /\ sm_ContributorPubkey c = sp_ContributorId p /\
  sm_ContributorAddress c = sp_ContributorAddress p /\
  sm_ProducerModelId c = sp_ProducerModelId p /\
  sm_AttestationSessionHash c = sp_AttestationSessionHash p /\
  sm_Epoch c = sp_Epoch p /\ sm_CommittedAtHeight c = sp_SubmittedAtHeight p /\
  sm_McVersion c = sp_McVersion p /\ sm_State c = MemoryState_MEMORY_STATE_COMMITTED.

(** The number of approved memories of an org. *)
Definition approved_total (o : string) : gmap string mem_val -> N :=
  sum_values (fun _ v => match v with
    | VMemory c => if bool_decide (sm_OrgId c = o) then 1 else 0
    | _ => 0
    end).

Inductive mem_step m : gmap string mem_val -> Prop :=
  | step_submit c :
      m !! pendingKey (sp_OrgId c) (sp_ContentHash c) = None ->
      sp_Epoch c = 0 -> sp_SubmittedAtHeight c = 0 ->
      PendingCommitment_Validate (storedToPending c) = Ok tt ->
      mem_step m (<[pendingKey (sp_OrgId c) (sp_ContentHash c) := VPending c]> m)
  | step_approve p c n :
      m !! pendingKey (sp_OrgId p) (sp_ContentHash p) = Some (VPending p) ->
      m !! approvedKey (sp_OrgId p) (sp_ContentHash p) = None ->
      approves p c ->
      getCurrentEpoch m = Ok (sm_ApprovedAtEpoch c) ->
      GetApprovedCount m (sp_OrgId p) = Ok n ->
      sm_EncryptedBlob c <> "" -> ValidMemoryType (sm_MemoryType c) = true ->
      mem_step m (<[countKey (sp_OrgId p) := VRaw (PutUint64 (n + 1)%u64)]>
        (delete (pendingKey (sp_OrgId p) (sp_ContentHash p))
          (<[approvedKey (sp_OrgId p) (sp_ContentHash p) := VMemory c]> m)))
  | step_report r :
      is_Some (m !! approvedKey (rp_OrgId r) (rp_ContentHash r)) ->
      m !! reportKey (rp_OrgId r) (rp_ContentHash r) (rp_ReporterPubkey r) = None ->
      mem_step m
        (<[reportKey (rp_OrgId r) (rp_ContentHash r) (rp_ReporterPubkey r) := VReport r]> m)
  | step_params p : mem_step m (<[ParamsKey := VParams p]> m).

(** What the hook of the end of epoch [e] does, one write at a time. *)
Inductive epoch_step (e : N) m : gmap string mem_val -> Prop :=
  | step_epoch : epoch_step e m (<[currentEpochKey := VRaw (PutUint64 e)]> m)
  | step_archive c v :
      m !! approvedKey (sm_OrgId c) (sm_ContentHash c) = Some (VMemory c) ->
      m !! validityKey (sm_OrgId c) (sv_MemoryCid v) = Some (VValidity v) ->
      hex_decode (sv_MemoryCid v) = Some (sm_ContentHash c) ->
      sv_ValidUntilEpoch v <> 0 -> sv_ValidUntilEpoch v < e ->
      sm_State c <> MemoryState_MEMORY_STATE_ARCHIVED ->
      sm_State c <> MemoryState_MEMORY_STATE_DENIED ->
      epoch_step e m (<[approvedKey (sm_OrgId c) (sm_ContentHash c) := VMemory (archived c)]> m)
  | step_expire o cid : epoch_step e m (delete (validityKey o cid) m)
  | step_merkle r :
      se_Epoch r = e -> epoch_step e m (<[merkleKey (se_OrgId r) e := VMerkle r]> m).

(** ** The invariant: well-formed, and the counters count *)
Record mem_inv m : Prop := {
  inv_wf : mem_wf m;
  inv_count o : GetApprovedCount m o = Ok (approved_total o m mod two64);
}.

(** Reads of a counter after a write elsewhere. *)
Lemma count_insert_ne m k v o :
  k <> countKey o -> GetApprovedCount (<[k:=v]> m) o = GetApprovedCount m o.
Proof. intros H. unfold GetApprovedCount, read_uint64. by rewrite lookup_insert_ne. Qed.
Lemma count_delete_ne m k o :
  k <> countKey o -> GetApprovedCount (delete k m) o = GetApprovedCount m o.
Proof. intros H. unfold GetApprovedCount, read_uint64. by rewrite lookup_delete_ne. Qed.
Lemma count_insert m n o o' :
  is_u64 n -> GetApprovedCount (<[countKey o := VRaw (PutUint64 n)]> m) o' =
  if decide (o = o') then Ok n else GetApprovedCount m o'.
Proof.
  intros Hn. case_decide as E.
  - subst. unfold GetApprovedCount, read_uint64. by rewrite lookup_insert_eq, BigEndianUint64_Put.
  - apply count_insert_ne. by intros ?%countKey_inj.
Qed.

Definition is_memory (v : mem_val) : bool := match v with VMemory _ => true | _ => false end.

(** Writing a value that is not a memory over one that is not. *)
Lemma total_insert_other m k v o :
  is_memory v = false -> (forall w, m !! k = Some w -> is_memory w = false) ->
  approved_total o (<[k:=v]> m) = approved_total o m.
Proof.
  intros Hv Hk. pose proof (sum_insert (fun _ v => match v with
    | VMemory c => if bool_decide (sm_OrgId c = o) then 1 else 0 | _ => 0 end) m k v) as H.
  unfold approved_total. destruct (m !! k) as [w|]; simpl in H.
  - specialize (Hk _ eq_refl). destruct v, w; try done; lia.
  - destruct v; try done; lia.
Qed.

Lemma total_delete_other m k o :
  (forall w, m !! k = Some w -> is_memory w = false) ->
  approved_total o (delete k m) = approved_total o m.
Proof.
  intros Hk. pose proof (sum_delete (fun _ v => match v with
    | VMemory c => if bool_decide (sm_OrgId c = o) then 1 else 0 | _ => 0 end) m k) as H.
  unfold approved_total. destruct (m !! k) as [w|]; simpl in H; [|lia].
  specialize (Hk _ eq_refl). destruct w; try done; lia.
Qed.

Lemma total_insert_new m k c o :
  m !! k = None ->
  approved_total o (<[k:=VMemory c]> m) =
  approved_total o m + if decide (sm_OrgId c = o) then 1 else 0.
Proof.
  intros Hk. unfold approved_total. rewrite sum_insert_new by done.
  case_bool_decide; case_decide; done || lia.
Qed.

Lemma total_replace m k c c' o :
  m !! k = Some (VMemory c) -> sm_OrgId c' = sm_OrgId c ->
  approved_total o (<[k:=VMemory c']> m) = approved_total o m.
Proof.
  intros Hk Ho. pose proof (sum_insert (fun _ v => match v with
    | VMemory c => if bool_decide (sm_OrgId c = o) then 1 else 0 | _ => 0 end) m k (VMemory c')) as H.
  rewrite Hk in H. simpl in H. rewrite Ho in H. unfold approved_total. lia.
Qed.

(** Only approved keys hold memories. *)
Lemma wf_not_memory m k w :
  mem_wf m -> (forall o h, k <> approvedKey o h) -> m !! k = Some w -> is_memory w = false.
Proof. intros Hwf Hk Hw. pose proof (Hwf _ _ Hw). destruct w; try done. by destruct (Hk _ _ H). Qed.

Lemma inv_other m k v :
  mem_inv m -> shape k v -> is_memory v = false -> (forall o, k <> countKey o) ->
  (forall o h, k <> approvedKey o h) -> mem_inv (<[k:=v]> m).
Proof.
  intros [Hwf Hc] Hs Hv Hk Ha. split; [by apply wf_insert|]. intros o.
  rewrite count_insert_ne by done. rewrite total_insert_other; [done..|].
  intros w. by apply wf_not_memory.
Qed.

Lemma inv_delete_other m k :
  mem_inv m -> (forall o, k <> countKey o) -> (forall o h, k <> approvedKey o h) ->
  mem_inv (delete k m).
Proof.
  intros [Hwf Hc] Hk Ha. split; [by apply wf_delete|]. intros o.
  rewrite count_delete_ne by done. rewrite total_delete_other; [done..|].
  intros w. by apply wf_not_memory.
Qed.

Lemma mem_step_inv m m' : mem_inv m -> mem_step m m' -> mem_inv m'.
Proof.
  intros HI Hstep. destruct Hstep as [c Hc _ _|p c n Hp Ha Happ He Hn|r Hm Hr|p];
    [by apply inv_other| |by apply inv_other; [done..|by intros ?|by intros ??]|by apply inv_other].
  destruct HI as [Hwf Hcnt]. destruct Happ as (Ho & Hh & _).
  rewrite (Hcnt (sp_OrgId p)) in Hn. injection Hn as <-. rewrite u64_succ_mod. split.
  - apply wf_insert; [apply wf_delete, wf_insert; [done|]|].
    + simpl. by rewrite Ho, Hh.
    + simpl. left. split; [eauto|]. eexists. split; [|done]. by apply N.mod_lt.
  - intros o. rewrite count_insert by by apply N.mod_lt.
    rewrite total_insert_other; [|done|].
    2: { intros w Hw. eapply wf_not_memory; [| |exact Hw]; [|by intros ??].
         apply wf_delete, wf_insert; [done|]. simpl. by rewrite Ho, Hh. }
    rewrite total_delete_other.
    2: { intros w. rewrite lookup_insert_ne by done. by apply wf_not_memory. }
    rewrite total_insert_new, Ho by done.
    case_decide as E; [by subst|].
    by rewrite count_delete_ne, count_insert_ne, N.add_0_r by done.
Qed.

Lemma epoch_step_inv e m m' : is_u64 e -> mem_inv m -> epoch_step e m m' -> mem_inv m'.
Proof.
  intros He HI Hstep. destruct Hstep as [|c v Hc Hv Hx Hu Hlt Hs1 Hs2|o cid|r Hr].
  - apply inv_other; try done; simpl; eauto 10.
  - destruct HI as [Hwf Hcnt]. split; [by apply wf_insert|]. intros o.
    rewrite count_insert_ne by done. by erewrite total_replace.
  - by apply inv_delete_other.
  - subst. by apply inv_other.
Qed.

(** ** The handlers simulate the steps *)
Section Simulation.
Context {P : Type} {CRYPTO : Crypto} {ORG : OrgKeeper P} {REP : ReputationKeeper P}.
Implicit Types s : St mem_val P.

Lemma for_each_kv {A} (l : list A) (body : A -> M (St mem_val P) unit) s r s' :
  (forall a s r s', body a s = (r, s') -> kv s' = kv s) ->
  for_each l body s = (r, s') -> kv s' = kv s.
Proof.
  intros Hb H. eapply (for_each_preserves (fun x => kv x = kv s)); [|reflexivity|exact H].
  intros a s1 r1 s2 _ <- H1. by eapply Hb.
Qed.

Lemma peer_call_kv {A} w (f : M P A) s r s' :
  map_err w (on_peers f) s = (r, s') -> kv s' = kv s.
Proof.
  unfold map_err, on_peers. destruct (f (peers s)) as [[a|e] p]; intros [= <- <-]; done.
Qed.

Lemma SubmitCommitment_step c s u s' :
  SubmitCommitment c s = (Ok u, s') ->
  (pc_Epoch c = 0 -> pc_SubmittedAt c = 0 -> mem_step (kv s) (kv s')) /\
  PendingCommitment_Validate c = Ok tt /\
  kv s' = <[pendingKey (pc_OrgID c) (pc_ContentHash c) := VPending (pendingToStored c)]> (kv s) /\
  exists params, GetParams (kv s) = Ok params /\
    N.of_nat (length (from_iter (pendingPrefix (pc_OrgID c)) (kv s))) < p_MaxPendingPerOrg params.
Proof.
  unfold SubmitCommitment. intros H. mok H. gok. simplify_eq/=.
  assert (PendingCommitment_Validate c = Ok tt) as Hv by (by destruct a).
  split; [intros; apply (step_submit _ (pendingToStored c)); try done; by destruct c|].
  split; [done|]. split; [done|]. eexists. split; [eassumption|done].
Qed.

Lemma ReportMemory_step o h cp am um rp cl rs pt ct cap ph ov e s u s' :
  ReportMemory o h cp am um rp cl rs pt ct cap ph ov e s = (Ok u, s') ->
  mem_step (kv s) (kv s') /\
  exists r, kv s' = <[reportKey (rp_OrgId r) (rp_ContentHash r) (rp_ReporterPubkey r) := VReport r]> (kv s).
Proof.
  unfold ReportMemory. intros H. mok H; gok; simplify_eq/=.
  all: match goal with H : for_each _ _ _ = _ |- _ =>
         apply for_each_kv in H; [simpl in H|intros; by eapply peer_call_kv] end.
  all: match goal with H : kv ?x = _ |- mem_step _ (kv ?x) /\ _ => rewrite H end.
  all: split; [by apply (step_report _ (mkReport o h cp am um rp cl rs pt ct cap ph _ e 0))|].
  all: by eexists (mkReport o h cp am um rp cl rs pt ct cap ph _ e 0).
Qed.

Lemma GetPending_wf m o h p :
  mem_wf m -> GetPendingCommitment m o h = Ok p ->
  m !! pendingKey o h = Some (VPending (pendingToStored p)) /\ pc_OrgID p = o /\ pc_ContentHash p = h.
Proof.
  intros Hwf H. unfold GetPendingCommitment in H. rok H.
  destruct (wf_pending _ _ _ _ Hwf E) as (c & -> & Ho & Hh). simplify_eq/=.
  split; [|done].
  match goal with x : StoredPendingCommitment |- _ => by destruct x end.
Qed.

Lemma ApproveMemory_step o h blob cl dek ph salt cth dekh sig mt s u s' :
  mem_wf (kv s) ->
  ApproveMemory o h blob cl dek ph salt cth dekh sig mt s = (Ok u, s') ->
  (blob <> "" -> mem_step (kv s) (kv s')) /\ IsLeader (peers s) o cl = Ok true /\
  GetPendingCommitment (kv s') o h = Err ErrCommitmentNotFound /\
  exists p c, GetPendingCommitment (kv s) o h = Ok p /\
    GetApprovedMemory (kv s') o h = Ok c /\
    mc_EncryptedBlob c = blob /\ mc_CommittingLeader c = cl /\ mc_WrappedDekEnc c = dek /\
    mc_PlaintextHash c = ph /\ mc_Salt c = salt /\ mc_CiphertextHash c = cth /\
    mc_WrappedDekHash c = dekh /\ mc_ContributorSig c = sig /\
    mc_Contributor c = pc_Contributor p /\ mc_Epoch c = pc_Epoch p /\
    mc_MemoryType c = mt /\ mc_State c = MemoryState_MEMORY_STATE_COMMITTED.
Proof.
  intros Hwf H. unfold ApproveMemory in H. mok H. gok. cbn [kv peers] in *.
  match goal with H : GetPendingCommitment _ _ _ = Ok ?p |- _ =>
    pose proof H as HG; apply GetPending_wf in HG as (Hp & Hpo & Hph); [|done] end.
  match goal with H : GetApprovedCount _ _ = Ok ?n |- _ =>
    rewrite count_delete_ne, count_insert_ne in H by done end.
  split; [|split; [congruence|split]].
  - intros Hb. subst. eapply (step_approve _ (pendingToStored _)); try done.
  - unfold GetPendingCommitment. by rewrite lookup_insert_ne, lookup_delete_eq.
  - eexists _, _. split; [eassumption|]. split.
    + unfold GetApprovedMemory. rewrite lookup_insert_ne, lookup_delete_ne by done.
      by rewrite lookup_insert_eq.
    + done.
Qed.

(** ** The end of an epoch *)

Lemma expired_entries_spec e l es :
  expired_entries e l = Ok es ->
  (forall k v, (k, v) ∈ l -> exists x, v = VValidity x) /\
  sublist (ee_key <$> es) l.*1 /\
  forall x, x ∈ es -> exists v, (ee_key x, VValidity v) ∈ l /\ ee_orgID x = sv_OrgId v /\
    ee_memoryCid x = sv_MemoryCid v /\ sv_ValidUntilEpoch v <> 0 /\ sv_ValidUntilEpoch v < e.
Proof.
  revert es. induction l as [|[k v] l IH]; simpl; intros es H.
  - rok H. split; [set_solver|]. split; [done|set_solver].
  - destruct v; try discriminate H. rok H. destruct (IH _ Hr) as (H1 & H2 & H3). clear IH.
    split; [|split].
    + intros k' v' [[= -> ->]|Hin]%elem_of_cons; eauto.
    + destruct (_ || _); simpl; [by apply sublist_cons|by apply sublist_skip].
    + intros x Hx. destruct (_ || _) eqn:E; gok.
      * destruct (H3 _ Hx) as (v' & Hv & ?). exists v'. by rewrite elem_of_cons; auto.
      * apply elem_of_cons in Hx as [->|Hx].
        -- exists v. rewrite elem_of_cons. by auto.
        -- destruct (H3 _ Hx) as (v' & Hv & ?). exists v'. by rewrite elem_of_cons; auto.
Qed.

(** An entry still to be expired: its validity record is in the store. *)
Definition due (e : N) m (x : expiringEntry) : Prop :=
  exists v, m !! ee_key x = Some (VValidity v) /\ ee_orgID x = sv_OrgId v /\
    ee_memoryCid x = sv_MemoryCid v /\ sv_ValidUntilEpoch v <> 0 /\ sv_ValidUntilEpoch v < e.

Lemma loadMemory_wf m o cid c :
  mem_wf m -> loadMemoryByCID m o cid = Ok c ->
  exists sc, c = storedToMemory sc /\ sm_OrgId sc = o /\ hex_decode cid = Some (sm_ContentHash sc) /\
    m !! approvedKey (sm_OrgId sc) (sm_ContentHash sc) = Some (VMemory sc).
Proof.
  intros Hwf H. unfold loadMemoryByCID, decodeCID in H. rok H.
  destruct (wf_approved _ _ _ _ Hwf E) as (sc & -> & <- & Hh). simplify_eq/=.
  by eauto.
Qed.

Lemma expire_entry_steps e x s r s' :
  mem_wf (kv s) -> due e (kv s) x -> expire_entry x s = (r, s') ->
  rtc (epoch_step e) (kv s) (kv s') /\
  (forall y, ee_key y <> ee_key x -> due e (kv s) y -> due e (kv s') y).
Proof.
  intros Hwf (v & Hv & Ho & Hcid & Hu & Hlt) H.
  pose proof (Hwf _ _ Hv) as Hkey. simpl in Hkey.
  unfold expire_entry in H. unfold mbind, M_bind, kread in H.
  destruct (loadMemoryByCID _ _ _) as [c|err] eqn:Hl; [|by simplify_eq].
  destruct (loadMemory_wf _ _ _ _ Hwf Hl) as (sc & -> & Hso & Hsh & Hsc).
  assert (epoch_step e (kv s) (delete (ee_key x) (kv s))) as Hdel
    by (rewrite Hkey; apply step_expire).
  destruct (_ && _) eqn:Est; unfold saveMemoryCommitment, kset, kdel, mret, M_ret in H; simplify_eq/=; gok.
  - split.
    + eapply rtc_l; [|eapply rtc_once; rewrite Hkey; apply step_expire].
      rewrite Ho in Hso. eapply (step_archive _ _ sc v); try done.
      * by rewrite Hso, <- Hkey.
      * by rewrite <- Hcid.
    + intros y Hne (w & Hw & ?). exists w. rewrite lookup_delete_ne by done.
      rewrite lookup_insert_ne; [done|]. intros Hk. pose proof (Hwf _ _ Hw) as Hy. simpl in Hy.
      rewrite Hy in Hk. discriminate Hk.
  - split; [by apply rtc_once|]. intros y Hne (w & Hw & ?). exists w. by rewrite lookup_delete_ne.
Qed.

Lemma epoch_steps_inv e m m' : is_u64 e -> mem_inv m -> rtc (epoch_step e) m m' -> mem_inv m'.
Proof. intros He HI Hs. induction Hs; eauto using epoch_step_inv. Qed.

Lemma expire_all_steps e l s r s' :
  is_u64 e -> mem_inv (kv s) -> NoDup (ee_key <$> l) -> Forall (due e (kv s)) l ->
  for_each l expire_entry s = (r, s') -> rtc (epoch_step e) (kv s) (kv s').
Proof.
  intros He. revert s. induction l as [|x l IH]; simpl; intros s HI Hnd Hdue H.
  - unfold mret, M_ret in H. by simplify_eq.
  - apply NoDup_cons in Hnd as [Hx Hnd]. apply Forall_cons in Hdue as [Hd Hl].
    unfold mbind, M_bind in H. destruct (expire_entry x s) as [r1 s1] eqn:E.
    destruct (expire_entry_steps e _ _ _ _ (inv_wf _ HI) Hd E) as [Hs Hkeep].
    destruct r1 as [[]|err]; [|by simplify_eq].
    etrans; [exact Hs|]. eapply IH; [|done| |exact H].
    + by eapply epoch_steps_inv.
    + rewrite Forall_forall in Hl |- *. intros y Hy. apply Hkeep; [|by apply Hl].
      intros Hk. apply Hx. rewrite <- Hk. by apply list_elem_of_fmap_2.
Qed.

Lemma CheckEpochExpiry_steps e s r s' :
  is_u64 e -> mem_inv (kv s) -> CheckEpochExpiry e s = (r, s') ->
  rtc (epoch_step e) (kv s) (kv s').
Proof.
  intros He HI H. unfold CheckEpochExpiry, mbind, M_bind, kread in H.
  destruct (expired_entries _ _) as [es|err] eqn:E; [|by simplify_eq].
  apply expired_entries_spec in E as (_ & Hsub & Hes).
  eapply expire_all_steps; [done|done| | |exact H].
  - eapply sublist_NoDup; [|exact Hsub]. apply Iterator_NoDup.
  - apply Forall_forall. intros x (v & Hv & ?)%Hes. exists v.
    by apply elem_of_Iterator in Hv as [? _].
Qed.

(** The merkle root record of an org for epoch [e] as computed from [m]. *)
Definition merkle_record m (o : string) (e : N) : StoredEpochMerkleRoot :=
  mkStoredMerkleRoot o e (ComputeMerkleRoot (epoch_hashes m o e))
    (N.of_nat (length (epoch_hashes m o e))).

(** A root of an epoch other than zero does not decode as a memory, so writing
    roots does not change what later roots are computed from. *)
Lemma merkle_not_memory r : se_Epoch r <> 0 -> decode_memory (VMerkle r) = None.
Proof.
  intros He. simpl. unfold unmarshal_memory, unmarshal, marshal_merkle.
  rewrite !well_typed_app. unfold w_uint at 1. rewrite (proj2 (N.eqb_neq _ _)) by done.
  simpl. by rewrite andb_false_r.
Qed.

Lemma epoch_hashes_merkle m o r e' :
  mem_wf m -> se_Epoch r <> 0 ->
  epoch_hashes (<[merkleKey (se_OrgId r) (se_Epoch r) := VMerkle r]> m) o e' = epoch_hashes m o e'.
Proof.
  intros Hwf He. unfold epoch_hashes, from_iter. apply scan_insert_ignored.
  - cbn [snd]. by rewrite merkle_not_memory.
  - intros w Hw. cbn [snd]. pose proof (Hwf _ _ Hw) as Hs. destruct w; simpl in Hs; try done.
    apply merkleKey_inj in Hs as [_ Hs]. by rewrite merkle_not_memory by congruence.
Qed.

Lemma merkle_loop e orgs s :
  e <> 0 -> is_u64 e -> mem_inv (kv s) -> NoDup orgs ->
  exists s', for_each orgs (fun orgID =>
    attempt (ComputeAndStoreEpochMerkleRoot orgID e) ;; mret tt) s = (Ok tt, s') /\
    rtc (epoch_step e) (kv s) (kv s') /\ peers s' = peers s /\ evs s' = evs s /\
    (forall o, epoch_hashes (kv s') o e = epoch_hashes (kv s) o e) /\
    (forall k, (forall o, o ∈ orgs -> k <> merkleKey o e) -> kv s' !! k = kv s !! k) /\
    (forall o, o ∈ orgs -> kv s' !! merkleKey o e = Some (VMerkle (merkle_record (kv s) o e))).
Proof.
  intros He0 He. revert s. induction orgs as [|o orgs IH]; intros s HI Hnd.
  - exists s. repeat split; try done; set_solver.
  - apply NoDup_cons in Hnd as [Ho Hnd].
    set (m1 := <[merkleKey o e := VMerkle (merkle_record (kv s) o e)]> (kv s)).
    assert (epoch_step e (kv s) m1) as Hstep
      by (apply (step_merkle _ _ (merkle_record (kv s) o e)); done).
    assert (forall o', epoch_hashes m1 o' e = epoch_hashes (kv s) o' e) as Hh
      by (intros o'; apply (epoch_hashes_merkle (kv s) o' (merkle_record (kv s) o e)); [apply HI|done]).
    destruct (IH (mkSt m1 (peers s) (evs s))) as (s' & Hrun & Hs & Hp & Hv & Hh' & Hk & Hm);
      [by eapply epoch_step_inv|done|]. cbn [kv peers evs] in *.
    exists s'. split; [exact Hrun|]. split; [by eapply rtc_l|]. split; [done|]. split; [done|].
    split; [intros o'; by rewrite Hh', Hh|]. split.
    + intros k Hne. rewrite Hk by (intros; apply Hne; set_solver). unfold m1.
      rewrite lookup_insert_ne; [done|]. apply not_eq_sym, Hne. set_solver.
    + intros o' [->|Ho']%elem_of_cons.
      * rewrite Hk; [apply lookup_insert_eq|]. intros o'' Hin [-> _]%merkleKey_inj. done.
      * rewrite (Hm _ Ho'). unfold merkle_record. by rewrite Hh.
Qed.

Lemma getAllOrgs_NoDup m : NoDup (getAllOrgsWithMemories m).
Proof. unfold getAllOrgsWithMemories. rewrite merge_sort_Permutation. apply NoDup_elements. Qed.

Lemma epoch_current e m : is_u64 e -> getCurrentEpoch (<[currentEpochKey := VRaw (PutUint64 e)]> m) = Ok e.
Proof.
  intros He. unfold getCurrentEpoch, read_uint64. by rewrite lookup_insert_eq, BigEndianUint64_Put.
Qed.

(** The label written by the hook survives the rest of the hook. *)
Lemma epoch_steps_label e m m' :
  is_u64 e -> rtc (epoch_step e) m m' -> getCurrentEpoch m = Ok e -> getCurrentEpoch m' = Ok e.
Proof.
  intros He Hs. induction Hs as [|m m1 m2 H1 _ IH]; [done|]. intros Hm. apply IH.
  destruct H1; [by apply epoch_current|..]; revert Hm; unfold getCurrentEpoch, read_uint64;
    by rewrite ?lookup_insert_ne, ?lookup_delete_ne.
Qed.

Lemma CheckEpochExpiry_peers e s r s' :
  CheckEpochExpiry e s = (r, s') -> peers s' = peers s /\ evs s' = evs s.
Proof.
  unfold CheckEpochExpiry, mbind, M_bind, kread. destruct (expired_entries _ _); [|by intros [= <- <-]].
  apply (for_each_preserves (fun x => peers x = peers s /\ evs x = evs s)); [|done].
  intros x s0 r0 s1 _ HI. unfold expire_entry, mbind, M_bind, kread.
  destruct (loadMemoryByCID _ _ _); [|by intros [= <- <-]]. by destruct (_ && _); intros [= <- <-].
Qed.

(** What the epoch hook does, on any well-formed store: it returns without
    error, labels the new epoch, and stores for every org with memories the
    root of the hashes found in the final store. *)
Lemma AfterEpochEnd_spec n s :
  let e := u64_of_int64 n in
  e <> 0 -> mem_inv (kv s) ->
  exists s', AfterEpochEnd WeVibeEpochIdentifier n s = (Ok tt, s') /\
    rtc (epoch_step e) (kv s) (kv s') /\ peers s' = peers s /\ evs s' = evs s /\
    getCurrentEpoch (kv s') = Ok e /\
    (forall o, o ∈ getAllOrgsWithMemories (kv s') ->
       GetEpochMerkleRoot (kv s') o e =
       Ok (mkMerkleRoot o e (ComputeMerkleRoot (epoch_hashes (kv s') o e))
             (N.of_nat (length (epoch_hashes (kv s') o e))))).
Proof.
  intros e He HI.
  assert (is_u64 e) as Hu by apply u64_of_int64_is.
  unfold AfterEpochEnd. rewrite bool_decide_true by done. cbn [negb]. fold e.
  unfold mbind, M_bind, attempt, setCurrentEpoch, kset, kread.
  set (s1 := mkSt (<[currentEpochKey := VRaw (PutUint64 e)]> (kv s)) (peers s) (evs s)).
  assert (epoch_step e (kv s) (kv s1)) as H1 by apply step_epoch.
  assert (mem_inv (kv s1)) as HI1 by by eapply epoch_step_inv.
  destruct (CheckEpochExpiry e s1) as [r2 s2] eqn:E2.
  pose proof (CheckEpochExpiry_steps _ _ _ _ Hu HI1 E2) as H2.
  pose proof (epoch_steps_inv _ _ _ Hu HI1 H2) as HI2.
  destruct (CheckEpochExpiry_peers _ _ _ _ E2) as [Hp2 Hv2].
  destruct (merkle_loop e (getAllOrgsWithMemories (kv s2)) s2)
    as (s' & Hrun & H3 & Hp & Hv & Hh & Hk & Hm); [done..|apply getAllOrgs_NoDup|].
  exists s'. split; [exact Hrun|]. split; [eapply rtc_l; [exact H1|]; by etrans|].
  split; [by rewrite Hp|]. split; [by rewrite Hv|]. split.
  - eapply epoch_steps_label; [done|etrans; [exact H2|exact H3]|]. by apply epoch_current.
  - assert (getAllOrgsWithMemories (kv s') = getAllOrgsWithMemories (kv s2)) as Hsame.
    { unfold getAllOrgsWithMemories. assert (prefix_iter "approved/" (kv s') = prefix_iter "approved/" (kv s2)) as ->; [|done].
      unfold prefix_iter. apply Iterator_ext.
      intros k Hr. apply Hk. intros o _ ->. discriminate Hr. }
    intros o Ho. rewrite Hsame in Ho. unfold GetEpochMerkleRoot. rewrite (Hm _ Ho).
    unfold merkle_record. cbn. by rewrite Hh.
Qed.

(** For every epoch number the hook returns without error and moves along the
    epoch steps. *)
Lemma AfterEpochEnd_steps i n s r s' :
  mem_inv (kv s) -> AfterEpochEnd i n s = (r, s') ->
  r = Ok tt /\ rtc (epoch_step (u64_of_int64 n)) (kv s) (kv s').
Proof.
  intros HI H. unfold AfterEpochEnd in H. case_bool_decide; cbn [negb] in H.
  2: { unfold mret, M_ret in H. by simplify_eq. }
  pose proof (u64_of_int64_is n) as Hu. set (e := u64_of_int64 n) in *.
  unfold mbind, M_bind, attempt, setCurrentEpoch, kset, kread in H.
  set (s1 := mkSt (<[currentEpochKey := VRaw (PutUint64 e)]> (kv s)) (peers s) (evs s)) in *.
  assert (epoch_step e (kv s) (kv s1)) as H1 by apply step_epoch.
  destruct (CheckEpochExpiry e s1) as [r2 s2] eqn:E2.
  assert (rtc (epoch_step e) (kv s) (kv s2)) as H2.
  { eapply rtc_l; [exact H1|]. eapply CheckEpochExpiry_steps; [done| |exact E2].
    by eapply epoch_step_inv. }
  clear E2 H1. revert H. generalize (getAllOrgsWithMemories (kv s2)).
  intros orgs. clear s1 r2. revert s2 H2. induction orgs as [|o orgs IH]; intros s2 H2 H.
  - cbn in H. unfold mret, M_ret in H. by simplify_eq.
  - eapply (IH (mkSt _ _ _)); [|exact H]. eapply rtc_r; [exact H2|].
    apply (step_merkle _ _ (merkle_record (kv s2) o e)). done.
Qed.

(** Every message either leaves the store alone or makes one step. *)
Lemma deliver_msg_step k ctx msg s r s' :
  mem_inv (kv s) -> deliver (handle k ctx msg) s = (r, s') ->
  match msg with
  | EpochEnd _ n => r = Ok tt /\ rtc (epoch_step (u64_of_int64 n)) (kv s) (kv s')
  | _ => kv s' = kv s \/ mem_step (kv s) (kv s')
  end.
Proof.
  intros HI H. destruct r as [u|e].
  - apply deliver_ok in H. destruct msg; cbn [handle] in H.
    + unfold MsgServer_SubmitCommitment, requireLeaderWallet in H. mok H. right.
      match goal with H : SubmitCommitment _ _ = _ |- _ =>
        apply SubmitCommitment_step in H as [H _]; exact (H eq_refl eq_refl) end.
    + unfold MsgServer_ApproveMemory, requireLeaderWallet in H. mok H. right.
      unfold MsgApproveMemory_ValidateBasic in *. match goal with H : (err_if _ _ ;; _) = Ok _ |- _ => rok H end.
      eapply ApproveMemory_step; [|exact H|]; [apply HI|]. gok. intros Hb. by rewrite Hb in *.
    + unfold MsgServer_ReportMemory, requireLeaderWallet in H. mok H. right.
      by eapply ReportMemory_step in H as [? _].
    + unfold MsgServer_UpdateParams, SetParams in H. mok H. right. apply step_params.
    + by eapply AfterEpochEnd_steps in H.
  - pose proof (deliver_err _ _ _ _ H) as ->. destruct msg; [by left..|].
    unfold deliver in H. cbn [handle] in H.
    destruct (AfterEpochEnd identifier number s) as [r1 s1] eqn:E.
    destruct (AfterEpochEnd_steps _ _ _ _ _ HI E) as [-> _]. discriminate H.
Qed.
End Simulation.

(** A sequence of transactions and epoch ends. *)
Definition run {P} {CRYPTO : Crypto} {ORG : OrgKeeper P} {REP : ReputationKeeper P}
    (k : Keeper) (l : list (BlockCtx * mem_msg)) (s : St mem_val P) : St mem_val P :=
  foldl (fun s cm => (deliver (handle k cm.1 cm.2) s).2) s l.

(** A property of stores that every step keeps holds along every run. *)
Lemma run_preserves {P} {CRYPTO : Crypto} {ORG : OrgKeeper P} {REP : ReputationKeeper P}
    (I : gmap string mem_val -> Prop) k l (s : St mem_val P) :
  (forall m m', mem_inv m -> I m -> mem_step m m' -> I m') ->
  (forall e m m', is_u64 e -> mem_inv m -> I m -> epoch_step e m m' -> I m') ->
  mem_inv (kv s) -> I (kv s) -> mem_inv (kv (run k l s)) /\ I (kv (run k l s)).
Proof.
  intros Hmsg Hep. revert s. induction l as [|[ctx msg] l IH]; intros s HI H; [done|].
  change (run k ((ctx, msg) :: l) s) with (run k l (deliver (handle k ctx msg) s).2).
  destruct (deliver (handle k ctx msg) s) as [r s'] eqn:E. cbn [snd].
  pose proof (deliver_msg_step _ _ _ _ _ _ HI E) as Hs.
  assert (forall e m m', is_u64 e -> rtc (epoch_step e) m m' -> mem_inv m -> I m ->
            mem_inv m' /\ I m') as Hrtc.
  { intros e m m' He Hr. induction Hr; eauto 6 using epoch_step_inv. }
  apply IH.
  - destruct msg; [destruct Hs as [->|Hs]; eauto using mem_step_inv..|].
    destruct Hs as [_ Hs]. eapply Hrtc; eauto using u64_of_int64_is.
  - destruct msg; [destruct Hs as [->|Hs]; eauto..|].
    destruct Hs as [_ Hs]. eapply Hrtc; eauto using u64_of_int64_is.
Qed.
