(* ===== verification/MemoryProps.v ===== *)
(** * Correctness of x/memory

    The properties of the memory module: who may submit, approve and report,
    what an approved record stands for, that it is permanent, that the
    counters and caps are exact, what the epoch hook computes. *)

From S2P Require Import Prelude Bytes Store Wire Ifaces Org Memory MemoryFacts.
From Stdlib Require Import Ascii.
Local Open Scope string_scope.
Local Open Scope N_scope.

(** Lines made of a label and a newline-free value. *)
Ltac line_free :=
  rewrite ?free_of_app; repeat split;
  first [done | solve [eauto with wv] | unfold CanonicalMemoryType; by case_match].

Section MemoryProps.
Context {P : Type} {CRYPTO : Crypto} {ORG : OrgKeeper P} {REP : ReputationKeeper P}.
Implicit Types (s : St mem_val P) (m : gmap string mem_val).

(** The store of a new chain: the genesis marker only. *)
Definition new_store : gmap string mem_val :=
  {[ genesisInitMarkerKey := VRaw genesisInitMarkerValue ]}.

Lemma new_store_inv : mem_inv new_store.
Proof.
  split.
  - apply map_Forall_singleton. simpl. auto.
  - intros o. unfold GetApprovedCount, read_uint64, new_store.
    rewrite lookup_singleton_ne by done. by vm_compute.
Qed.

(** ** Validity of the stored commitments *)

(** Every stored commitment passes the [Validate] of its type. *)
Definition value_valid (v : mem_val) : Prop :=
  match v with
  | VPending c => PendingCommitment_Validate (storedToPending c) = Ok tt
  | VMemory c => MemoryCommitment_Validate (storedToMemory c) = Ok tt
  | _ => True
  end.
Definition commitments_valid m : Prop := map_Forall (fun _ v => value_valid v) m.

Lemma approves_valid p c :
  approves p c -> PendingCommitment_Validate (storedToPending p) = Ok tt ->
  sm_EncryptedBlob c <> "" -> ValidMemoryType (sm_MemoryType c) = true ->
  MemoryCommitment_Validate (storedToMemory c) = Ok tt.
Proof.
  intros (Ho & Hh & Hk & Hc & _) H Hb Ht. unfold PendingCommitment_Validate, MemoryCommitment_Validate in *.
  cbn in *. rewrite Ho, Hh, Hk, Hc, Ht. rok H. gok.
  rewrite !bool_decide_false by done. destruct (sm_EncryptedBlob c); [done|].
  rewrite Hr0, H. done.
Qed.

Lemma valid_step m m' : commitments_valid m -> mem_step m m' -> commitments_valid m'.
Proof.
  intros HV H. destruct H as [c _ _ _ Hc|p c n Hp _ Ha _ _ Hb Ht|r _ _|p].
  - by apply map_Forall_insert_2.
  - apply map_Forall_insert_2; [done|]. apply map_Forall_delete, map_Forall_insert_2; [|done].
    eapply approves_valid; [exact Ha| |done..]. exact (HV _ _ Hp).
  - by apply map_Forall_insert_2.
  - by apply map_Forall_insert_2.
Qed.

Lemma valid_epoch_step e m m' : commitments_valid m -> epoch_step e m m' -> commitments_valid m'.
Proof.
  intros HV H. destruct H as [|c v Hc _ _ _ _ _ _|o cid|r _].
  - by apply map_Forall_insert_2.
  - apply map_Forall_insert_2; [|done]. exact (HV _ _ Hc).
  - by apply map_Forall_delete.
  - by apply map_Forall_insert_2.
Qed.

Lemma runs_valid k l s :
  kv s = new_store -> mem_inv (kv (run k l s)) /\ commitments_valid (kv (run k l s)).
Proof.
  intros Hs. apply run_preserves.
  - intros m m' _. apply valid_step.
  - intros e m m' _ _. apply valid_epoch_step.
  - rewrite Hs. apply new_store_inv.
  - rewrite Hs. by apply map_Forall_singleton.
Qed.

(** C2: every sequence of transactions and epoch ends from a new chain leaves a
    well-formed store (each record under the key made of its own fields) in
    which the approved-memory counter of every org is the number of its
    approved memories, and every pending or approved commitment passes the
    [Validate] of its type - although that of the approved ones is never called:
    what a submission and an approval check implies it, and the epoch hook
    changes none of the checked fields. *)
Theorem memory_runs_keep_invariant k l s o :
  kv s = new_store ->
  mem_wf (kv (run k l s)) /\
  GetApprovedCount (kv (run k l s)) o = Ok (approved_total o (kv (run k l s)) mod two64) /\
  (forall h p, GetPendingCommitment (kv (run k l s)) o h = Ok p -> PendingCommitment_Validate p = Ok tt) /\
  (forall h c, GetApprovedMemory (kv (run k l s)) o h = Ok c -> MemoryCommitment_Validate c = Ok tt).
Proof.
  intros Hs. destruct (runs_valid k l s Hs) as [[Hwf Hc] HV].
  split; [done|]. split; [done|]. split; intros h x Hx.
  - destruct (GetPending_wf _ _ _ _ Hwf Hx) as (Hp & _). apply HV in Hp. by destruct x.
  - unfold GetApprovedMemory in Hx. rok Hx. destruct (wf_approved _ _ _ _ Hwf E) as (c & -> & _).
    apply HV in E. injection Hr as <-. exact E.
Qed.

(** [c] with another lifecycle state. *)
Definition with_state (c : StoredMemoryCommitment) (st : N) : StoredMemoryCommitment :=
  memoryToStored ((storedToMemory c) <| mc_State := st |>).

Lemma with_state_twice c st st' : with_state (with_state c st) st' = with_state c st'.
Proof. done. Qed.
Lemma with_state_same c : with_state c (sm_State c) = c.
Proof. by destruct c. Qed.

Definition kept (o h : string) (c : StoredMemoryCommitment) m : Prop :=
  exists st, m !! approvedKey o h = Some (VMemory (with_state c st)) /\
    (st = sm_State c \/ st = MemoryState_MEMORY_STATE_ARCHIVED).

Lemma kept_msg o h c m m' : kept o h c m -> mem_step m m' -> kept o h c m'.
Proof.
  intros (st & Hst & Hor) H. exists st. split; [|done].
  destruct H as [x Hx _ _|p x n Hp Ha _ _ _|r Hm Hr|p]; rewrite ?lookup_insert_ne by done; try done.
  rewrite lookup_delete_ne by done. rewrite lookup_insert_ne; [done|].
  intros Hk. rewrite Hk in Ha. congruence.
Qed.

Lemma kept_epoch o h c e m m' : kept o h c m -> epoch_step e m m' -> kept o h c m'.
Proof.
  intros (st & Hst & Hor) H. destruct H as [|x v Hx|o' cid|r Hr].
  - exists st. by rewrite lookup_insert_ne.
  - destruct (decide (approvedKey (sm_OrgId x) (sm_ContentHash x) = approvedKey o h)) as [E|E].
    + rewrite E in Hx. rewrite E, Hst in *. injection Hx as <-.
      exists MemoryState_MEMORY_STATE_ARCHIVED. rewrite lookup_insert_eq. auto.
    + exists st. by rewrite lookup_insert_ne.
  - exists st. by rewrite lookup_delete_ne.
  - exists st. by rewrite lookup_insert_ne.
Qed.

(** C10: an approved memory is permanent: whatever transactions and epoch ends
    follow, it stays approved with the same content, contributor, signature
    and approval epoch; only its state may change, and only to ARCHIVED. *)
Theorem approved_memory_is_permanent k l s o h c :
  mem_inv (kv s) -> GetApprovedMemory (kv s) o h = Ok c ->
  exists st, GetApprovedMemory (kv (run k l s)) o h = Ok (c <| mc_State := st |>) /\
    (st = mc_State c \/ st = MemoryState_MEMORY_STATE_ARCHIVED).
Proof.
  intros HI Hc. unfold GetApprovedMemory in Hc. rok Hc.
  destruct (wf_approved _ _ _ _ (inv_wf _ HI) E) as (x & -> & _). injection Hr as <-.
  destruct (run_preserves (kept o h x) k l s) as [_ (st & Hst & Hor)].
  - intros m m' _. apply kept_msg.
  - intros e m m' _ _. apply kept_epoch.
  - done.
  - exists (sm_State x). rewrite with_state_same. auto.
  - exists st. unfold GetApprovedMemory. rewrite Hst. split; [done|]. by destruct x.
Qed.

(** ** Authorization *)

(** The org and signer of an org decision. *)
Definition decision (msg : mem_msg) : option (string * string) :=
  match msg with
  | SubmitCommitmentMsg x => Some (ms_OrgId x, ms_Signer x)
  | ApproveMemoryMsg x => Some (ma_OrgId x, ma_Signer x)
  | ReportMemoryMsg x => Some (mp_OrgId x, mp_Signer x)
  | _ => None
  end.

Lemma requireLeaderWallet_ok o signer s u s' :
  requireLeaderWallet o signer s = (Ok u, s') ->
  s' = s /\ GetLeaderWallet (peers s) o = Ok signer /\ signer <> "".
Proof. unfold requireLeaderWallet. intros H. mok H. gok. by subst. Qed.

(** What the guards of the handlers have established. *)
Lemma decision_authorized k ctx msg s s' :
  handle k ctx msg s = (Ok tt, s') ->
  match decision msg with
  | Some (o, signer) => GetLeaderWallet (peers s) o = Ok signer /\ signer <> ""
  | None => match msg with UpdateParamsMsg x => mu_Authority x = authority k | _ => True end
  end.
Proof.
  intros H. destruct msg; cbn [handle decision] in *; try done.
  - unfold MsgServer_SubmitCommitment in H. apply M_bind_ok in H as (? & ? & Hv & H). mok Hv.
    apply M_bind_ok in H as (? & ? & Hw & _). by apply requireLeaderWallet_ok in Hw as (_ & Hw).
  - unfold MsgServer_ApproveMemory in H. apply M_bind_ok in H as (? & ? & Hv & H). mok Hv.
    apply M_bind_ok in H as (? & ? & Hw & _). by apply requireLeaderWallet_ok in Hw as (_ & Hw).
  - unfold MsgServer_ReportMemory in H. apply M_bind_ok in H as (? & ? & Hv & H). mok Hv.
    apply M_bind_ok in H as (? & ? & Hw & _). by apply requireLeaderWallet_ok in Hw as (_ & Hw).
  - unfold MsgServer_UpdateParams in H. mok H. by gok.
Qed.

(** C28: org decisions are taken by the leader wallet only: every accepted
    submission, approval or report was signed by the non-empty leader wallet
    registered for the org, and the parameters change only under the module
    authority. *)
Theorem memory_decisions_authorized k ctx msg s s' :
  deliver (handle k ctx msg) s = (Ok tt, s') ->
  match decision msg with
  | Some (o, signer) => GetLeaderWallet (peers s) o = Ok signer /\ signer <> ""
  | None => match msg with UpdateParamsMsg x => mu_Authority x = authority k | _ => True end
  end.
Proof. intros H%deliver_ok. by apply decision_authorized in H. Qed.

(** What an accepted approval has checked and stored. *)
Lemma approve_msg_spec msg s u s' :
  mem_wf (kv s) -> MsgServer_ApproveMemory msg s = (Ok u, s') ->
  let o := ma_OrgId msg in let h := ma_ContentHash msg in
  o <> "" /\ mem_step (kv s) (kv s') /\ IsLeader (peers s) o (ma_CommittingLeader msg) = Ok true /\
  kv s' !! pendingKey o h = None /\ is_Some (kv s !! pendingKey o h) /\
  exists pk c, GetApprovedMemory (kv s') o h = Ok c /\
    decode_pubkey (mc_Contributor c) = Some pk /\
    ed25519_Verify pk
      (buildSubmitMemoryCanonicalBody (mc_CiphertextHash c) (mc_Contributor c) (mc_Epoch c)
         (mc_MemoryType c) o (mc_PlaintextHash c) (mc_Salt c) h (mc_WrappedDekHash c))
      (mc_ContributorSig c) = true /\
    h = sha256 (mc_EncryptedBlob c +:+ mc_WrappedDekEnc c) /\
    mc_CiphertextHash c = sha256 (mc_EncryptedBlob c) /\
    mc_WrappedDekHash c = sha256 (mc_WrappedDekEnc c) /\
    mc_State c = MemoryState_MEMORY_STATE_COMMITTED /\
    mc_CommittingLeader c = ma_CommittingLeader msg.
Proof.
  intros Hwf H o h. unfold MsgServer_ApproveMemory, bytesEqual in H.
  apply M_bind_ok in H as (? & ? & Hv & H). mok Hv. unfold MsgApproveMemory_ValidateBasic in Hv. rok Hv.
  apply M_bind_ok in H as (? & ? & Hw & H). apply requireLeaderWallet_ok in Hw as (-> & _ & _).
  mok H. gok.
  match goal with H : ApproveMemory _ _ _ _ _ _ _ _ _ _ _ _ = _ |- _ =>
    apply ApproveMemory_step in H as (Hstep & HL & Hdel & p & c & Hp & Hc & Hf); [|done] end.
  assert (ma_EncryptedBlob msg <> "") as Hb by (intros Hb; by rewrite Hb in *). specialize (Hstep Hb).
  match goal with H : GetPendingCommitment _ _ _ = Ok ?q |- _ => assert (q = p) as -> by congruence end.
  destruct (GetPending_wf _ _ _ _ Hwf Hp) as (Hpend & _).
  destruct Hf as (? & ? & ? & ? & ? & ? & ? & ? & ? & ? & ? & ?).
  split; [done|]. split; [done|]. split; [done|].
  split; [unfold GetPendingCommitment in Hdel; by destruct (_ !! _) as [v|]; [destruct (decode_pending v)|]|].
  split; [by eexists|].
  eexists _, c. split; [exact Hc|]. subst. unfold o, h in *.
  repeat match goal with H : _ = ?f c |- _ => rewrite <- H | H : ?f c = _ |- _ => rewrite H end.
  apply from_option_err_ok in Hm1. rewrite <- Hm4 in Hm2. eauto 10.
Qed.

(** C29: an approval is backed by the contributor: the committed record carries a
    signature that verifies under the contributor's key over the canonical
    body naming org, epoch and all the hashes, the content hash is the hash of
    the stored blob and wrapped key, the ciphertext hash is the hash of the
    blob, the committing leader has the leader role, and the pending
    commitment is consumed. *)
Theorem approval_is_signed_by_contributor msg s s' :
  mem_inv (kv s) -> deliver (MsgServer_ApproveMemory msg) s = (Ok tt, s') ->
  let o := ma_OrgId msg in let h := ma_ContentHash msg in
  exists pk c, GetApprovedMemory (kv s') o h = Ok c /\
    decode_pubkey (mc_Contributor c) = Some pk /\
    ed25519_Verify pk
      (buildSubmitMemoryCanonicalBody (mc_CiphertextHash c) (mc_Contributor c) (mc_Epoch c)
         (mc_MemoryType c) o (mc_PlaintextHash c) (mc_Salt c) h (mc_WrappedDekHash c))
      (mc_ContributorSig c) = true /\
    h = sha256 (mc_EncryptedBlob c +:+ mc_WrappedDekEnc c) /\
    mc_CiphertextHash c = sha256 (mc_EncryptedBlob c) /\
    mc_WrappedDekHash c = sha256 (mc_WrappedDekEnc c) /\
    mc_State c = MemoryState_MEMORY_STATE_COMMITTED /\
    IsLeader (peers s) o (mc_CommittingLeader c) = Ok true /\
    GetPendingCommitment (kv s') o h = Err ErrCommitmentNotFound.
Proof.
  intros HI H%deliver_ok o h.
  destruct (approve_msg_spec _ _ _ _ (inv_wf _ HI) H)
    as (_ & _ & HL & Hdel & _ & pk & c & Hc & Hpk & Hv & Hh & Hct & Hdek & Hst & Hcl).
  exists pk, c. rewrite Hcl. unfold GetPendingCommitment, o, h. by rewrite Hdel.
Qed.

(** The signed body determines what is signed: two bodies with the same
    bytes (pubkeys and org ids without newlines) agree on every hash, the
    contributor, the epoch, the type and the org, so a signature cannot be
    reused for another memory, org or epoch. *)
Theorem canonical_body_binds ct pk e mt o ph salt sh dh ct' pk' e' mt' o' ph' salt' sh' dh' :
  free_of (ascii_of_N 10) pk -> free_of (ascii_of_N 10) pk' ->
  free_of (ascii_of_N 10) o -> free_of (ascii_of_N 10) o' ->
  buildSubmitMemoryCanonicalBody ct pk e mt o ph salt sh dh =
  buildSubmitMemoryCanonicalBody ct' pk' e' mt' o' ph' salt' sh' dh' ->
  ct = ct' /\ pk = pk' /\ e = e' /\ ValidMemoryType mt = ValidMemoryType mt' /\ o = o' /\
  ph = ph' /\ salt = salt' /\ sh = sh' /\ dh = dh'.
Proof.
  intros Hpk Hpk' Ho Ho' H. unfold buildSubmitMemoryCanonicalBody in H.
  apply Join_newline_inj in H; [|repeat (apply Forall_cons; split); [line_free..|constructor]..|done|done].
  injection H as H1 H2 H3 H4 H5 H6 H7 H8 H9.
  repeat match goal with
  | H : "" +:+ ?x = "" +:+ ?y |- _ => change (x = y) in H
  | H : hex_encode _ = hex_encode _ |- _ => apply hex_encode_inj in H
  | H : FormatUint _ = FormatUint _ |- _ => apply FormatUint_inj in H
  end. repeat split; try done.
  unfold CanonicalMemoryType, ValidMemoryType in *.
  by destruct (mt =? MemoryType_MEMORY_TYPE_MEMORY), (mt' =? MemoryType_MEMORY_TYPE_MEMORY).
Qed.

(** ** The pending cap *)

(** The number of pending commitments of an org. *)
Definition pending_count m (o : string) : N := N.of_nat (length (prefix_iter (pendingPrefix o) m)).

Lemma pendingPrefix_end o : is_Some (PrefixEndBytes (pendingPrefix o)).
Proof. unfold pendingPrefix. rewrite <- str_app_assoc. apply PrefixEndBytes_app. by eexists. Qed.

Lemma pending_count_insert m o c :
  m !! pendingKey o (sp_ContentHash c) = None ->
  pending_count (<[pendingKey o (sp_ContentHash c) := VPending c]> m) o = pending_count m o + 1.
Proof.
  intros Hn. unfold pending_count, prefix_iter. rewrite Iterator_length_insert_new; [lia| |done].
  rewrite prefix_iter_range by apply pendingPrefix_end. apply prefix_spec.
  exists (ContentHashToHex (sp_ContentHash c)). unfold pendingPrefix, pendingKey.
  by rewrite !str_app_assoc.
Qed.

(** The bounded scan is part of the unbounded one. *)
Lemma pending_count_le_scan m o :
  pending_count m o <= N.of_nat (length (from_iter (pendingPrefix o) m)).
Proof.
  unfold pending_count, prefix_iter, from_iter. rewrite !Iterator_length.
  enough (size (filter (fun kv => in_range (pendingPrefix o) (PrefixEndBytes (pendingPrefix o)) kv.1 = true) m)
    <= size (filter (fun kv => in_range (pendingPrefix o) None kv.1 = true) m))%nat by lia.
  apply map_subseteq_size, map_filter_subseteq_ext. intros k v _.
  unfold in_range. rewrite !andb_true_iff. tauto.
Qed.

(** An accepted submission stores a new pending commitment of the org, and
    the org's pending commitments stay within MaxPendingPerOrg; a submission
    that would exceed the cap is refused without effect. *)
Theorem pending_cap_enforced c s :
  (forall s', SubmitCommitment c s = (Ok tt, s') ->
     GetPendingCommitment (kv s') (pc_OrgID c) (pc_ContentHash c) = Ok c /\
     pending_count (kv s') (pc_OrgID c) = pending_count (kv s) (pc_OrgID c) + 1 /\
     exists params, GetParams (kv s) = Ok params /\
       pending_count (kv s') (pc_OrgID c) <= p_MaxPendingPerOrg params) /\
  (forall params, PendingCommitment_Validate c = Ok tt ->
     HasOrg (peers s) (pc_OrgID c) = Ok true ->
     kv s !! pendingKey (pc_OrgID c) (pc_ContentHash c) = None ->
     GetParams (kv s) = Ok params ->
     p_MaxPendingPerOrg params <= pending_count (kv s) (pc_OrgID c) ->
     SubmitCommitment c s = (Err ErrMaxPendingExceeded, s)).
Proof.
  split.
  - intros s' H. pose proof H as H'. unfold SubmitCommitment in H'. mok H'. gok.
    apply SubmitCommitment_step in H as (_ & _ & Hkv & params & Hp & Hlt). rewrite Hkv.
    pose proof (pending_count_insert (kv s) (pc_OrgID c) (pendingToStored c)) as Hins.
    cbn [sp_ContentHash pendingToStored] in Hins. rewrite Hins by done.
    pose proof (pending_count_le_scan (kv s) (pc_OrgID c)).
    split; [|split; [done|exists params; split; [done|lia]]].
    unfold GetPendingCommitment. rewrite lookup_insert_eq. by destruct c.
  - intros params Hv Ho Hn Hp Hmax. unfold SubmitCommitment, peer_read. mrun.
    rewrite Hv. cbn beta iota. rewrite Ho. cbn beta iota zeta delta [negb kv].
    rewrite Hn, bool_decide_false by apply is_Some_None. cbn beta iota. rewrite Hp. cbn beta iota.
    pose proof (pending_count_le_scan (kv s) (pc_OrgID c)).
    by rewrite (proj2 (N.leb_le _ _)) by lia.
Qed.

(** ** Contributor counts *)

(** The memories that count for contributor [c] in epoch [e]. *)
Definition counts_for (e : N) (c : string) (v : mem_val) : bool :=
  match v with
  | VMemory x => (sm_ApprovedAtEpoch x =? e) &&
      (sm_State x =? MemoryState_MEMORY_STATE_COMMITTED) && bool_decide (sm_ContributorPubkey x = c)
  | _ => false
  end.

Lemma bump_lookup c c' counts :
  default 0 (bump c' counts !! c) =
  if bool_decide (c' = c) then (default 0 (counts !! c) + 1)%u64 else default 0 (counts !! c).
Proof.
  unfold bump. case_bool_decide as E; [subst; by rewrite lookup_insert_eq|by rewrite lookup_insert_ne].
Qed.

Lemma counts_fold e c l acc :
  c <> "" -> is_u64 (default 0 (acc !! c)) ->
  Forall (fun kv => exists x, kv.2 = VMemory x) l ->
  default 0 (foldl (fun counts (kv : string * mem_val) => match decode_memory kv.2 with
    | Some stored =>
        if negb (sm_ApprovedAtEpoch stored =? e) then counts
        else if negb (sm_State stored =? MemoryState_MEMORY_STATE_COMMITTED) then counts
        else if bool_decide (sm_ContributorPubkey stored = "") then counts
        else bump (sm_ContributorPubkey stored) counts
    | None => counts
    end) acc l !! c) =
  (default 0 (acc !! c) + N.of_nat (length (List.filter (fun kv => counts_for e c kv.2) l))) mod two64.
Proof.
  intros Hc. revert acc. induction l as [|[k v] l IH]; intros acc Hu Hl.
  - simpl. rewrite N.add_0_r. symmetry. by apply N.mod_small.
  - apply Forall_cons in Hl as [[x Hx] Hl]. simpl in Hx. subst v. cbn [foldl].
    rewrite IH; [|clear IH|done].
    + cbn [List.filter counts_for snd decode_memory].
      destruct (sm_ApprovedAtEpoch x =? e); [|done].
      destruct (sm_State x =? _); [|done]. cbn [negb andb].
      case_bool_decide as E1; case_bool_decide as E2; try congruence.
      * rewrite bump_lookup, bool_decide_true by done. unfold u64_add. cbn [length].
        rewrite N.Div0.add_mod_idemp_l. f_equal. lia.
      * by rewrite bump_lookup, bool_decide_false.
    + cbn [snd decode_memory]. destruct (negb (sm_ApprovedAtEpoch x =? e)); [done|].
      destruct (negb (sm_State x =? _)); [done|]. case_bool_decide; [done|].
      rewrite bump_lookup. case_bool_decide; [apply u64_add_is|done].
Qed.

(** The counts handed to the emissions module are exact: for a well-formed
    store the count of a contributor in an epoch is the number of COMMITTED
    memories of that contributor approved under that epoch's label. *)
Theorem contributor_counts_exact m e c :
  mem_wf m -> c <> "" ->
  default 0 (GetContributorsWithApprovalsInEpoch m e !! c) =
  N.of_nat (size (filter (fun kv => counts_for e c kv.2 = true) m)) mod two64.
Proof.
  intros Hwf Hc. unfold GetContributorsWithApprovalsInEpoch. rewrite counts_fold; [|done|by vm_compute|].
  - rewrite lookup_empty. cbn [default]. rewrite N.add_0_l. f_equal. f_equal.
    unfold prefix_iter. rewrite Iterator_filter, Iterator_length. f_equal. apply map_eq. intros k.
    apply option_eq. intros v. rewrite !map_lookup_filter_Some. cbn [fst snd].
    split; [tauto|]. intros [Hv Hq]. split; [done|]. pose proof (Hwf _ _ Hv) as Hs.
    destruct v; try done. simpl in Hs. subst k. rewrite prefix_iter_range by by eexists.
    apply prefix_spec. by eexists.
  - apply Forall_forall. intros [k v] Hin. apply elem_of_prefix_iter in Hin as [Hv Hp]; [|by eexists].
    apply prefix_spec in Hp as [t ->]. pose proof (Hwf _ _ Hv) as Hs. destruct v; try done; eauto.
    destruct Hs as [[[[o H]|H] _]|H]; discriminate H.
Qed.

(** ** The Merkle roots *)

(** Records as the messages write them: epoch and height zero. *)
Definition epoch_zero (v : mem_val) : Prop :=
  match v with
  | VPending c => sp_Epoch c = 0 /\ sp_SubmittedAtHeight c = 0
  | VMemory c => sm_Epoch c = 0
  | _ => True
  end.

(** Whatever such a record is decoded as, its epoch reads zero. *)
Lemma decode_epoch_zero v c : epoch_zero v -> decode_memory v = Some c -> sm_Epoch c = 0.
Proof.
  intros Hz. destruct v as [p|p|x|r|v|r|r|b]; simpl in Hz |- *; try done; [..|by intros [= <-]| |];
    unfold unmarshal_memory, unmarshal; case_match; try done; intros [= <-]; cbn [sm_Epoch];
    unfold r_uint, marshal_params, marshal_pending, marshal_merkle, marshal_report;
    rewrite !occurrences_app, ?occ_uint, ?occ_bool, ?occ_bytes, ?occ_strings;
    cbn -[o_uint o_bytes last].
  - done.
  - destruct Hz as [_ ->]. done.
  - done.
  - rewrite !app_nil_r. unfold o_bytes. by case_bool_decide.
Qed.

Definition epochs_zero m : Prop := map_Forall (fun _ => epoch_zero) m.

Lemma epochs_zero_hashes m o e : epochs_zero m -> e <> 0 -> epoch_hashes m o e = [].
Proof.
  intros Hz He. unfold epoch_hashes.
  assert (forall kv, kv ∈ from_iter (approvedPrefix o) m -> epoch_zero kv.2) as Hl.
  { intros [k v] [Hv _]%elem_of_from_iter. by apply (Hz k). }
  induction (from_iter _ _) as [|[k v] l IH]; [done|]. cbn.
  rewrite IH by (intros; apply Hl; by right).
  destruct (decode_memory v) as [c|] eqn:E; [|done].
  rewrite (decode_epoch_zero v c); [|by apply (Hl (k, v)); left|done].
  by rewrite (proj2 (N.eqb_neq _ _)) by done.
Qed.

Lemma epochs_zero_msg m m' : epochs_zero m -> mem_step m m' -> epochs_zero m'.
Proof.
  intros Hz Hs. destruct Hs as [c _ He Hh|p c n Hp _ Ha _ _|r _ _|p];
    [by apply map_Forall_insert_2| |by apply map_Forall_insert_2..].
  apply map_Forall_insert_2; [done|]. apply map_Forall_delete, map_Forall_insert_2; [|done].
  destruct Ha as (_ & _ & _ & _ & _ & _ & _ & Hep & _). pose proof (Hz _ _ Hp) as [Hp0 _].
  simpl. by rewrite Hep.
Qed.

Lemma epochs_zero_epoch e m m' : epochs_zero m -> epoch_step e m m' -> epochs_zero m'.
Proof.
  intros Hz Hs. destruct Hs as [|c v Hc|o cid|r Hr];
    [by apply map_Forall_insert_2| |by apply map_Forall_delete|by apply map_Forall_insert_2].
  apply map_Forall_insert_2; [|done]. exact (Hz _ _ Hc).
Qed.

(** The published Merkle roots cover nothing.  The message server records
    every commitment under epoch zero while the hook looks for the memories of
    the epoch that ends: after any transactions on a new chain, the root
    stored at the end of any epoch is empty and counts no memory, whatever was
    approved. *)
Theorem merkle_roots_cover_nothing k l n s s' o :
  kv s = new_store -> u64_of_int64 n <> 0 ->
  AfterEpochEnd WeVibeEpochIdentifier n (run k l s) = (Ok tt, s') ->
  o ∈ getAllOrgsWithMemories (kv s') ->
  GetEpochMerkleRoot (kv s') o (u64_of_int64 n) = Ok (mkMerkleRoot o (u64_of_int64 n) "" 0).
Proof.
  intros Hs He H Ho.
  destruct (run_preserves epochs_zero k l s) as [HI Hz].
  - intros m m' _. apply epochs_zero_msg.
  - intros e m m' _ _. apply epochs_zero_epoch.
  - rewrite Hs. apply new_store_inv.
  - rewrite Hs. by apply map_Forall_singleton.
  - destruct (AfterEpochEnd_spec n (run k l s) He HI) as (s1 & Hrun & Hsteps & _ & _ & _ & Hm).
    assert (s1 = s') as -> by congruence. rewrite (Hm _ Ho).
    assert (epochs_zero (kv s')) as Hz'.
    { revert Hz. clear -Hsteps. induction Hsteps; eauto using epochs_zero_epoch. }
    by rewrite (epochs_zero_hashes _ _ _ Hz' He).
Qed.

(** ** The epoch hook *)
Lemma drop_prefix_app p t : drop_prefix p (p +:+ t) = t.
Proof.
  unfold drop_prefix. rewrite str_length_app.
  replace (String.length p + String.length t - String.length p)%nat with (String.length t) by lia.
  induction p as [|c p IH]; [|exact IH]. change ("" +:+ t) with t.
  induction t as [|c t IH]; [done|]. cbn in *. by rewrite IH.
Qed.

Lemma before_slash_app o t : free_of "/" o -> before_slash (o +:+ "/" +:+ t) = o.
Proof.
  induction o as [|c o IH]; [done|]. rewrite free_of_cons. intros [Hc Ho].
  change (before_slash (String c o +:+ "/" +:+ t)) with
    (if bool_decide (c = "/"%char) then "" else String c (before_slash (o +:+ "/" +:+ t))).
  rewrite bool_decide_false by done. f_equal. by apply IH.
Qed.

(** An org with an approved memory is one of those the hook visits. *)
Lemma org_with_memory m o h :
  o <> "" -> free_of "/" o -> is_Some (m !! approvedKey o h) -> o ∈ getAllOrgsWithMemories m.
Proof.
  intros Ho Hf [v Hv]. unfold getAllOrgsWithMemories.
  rewrite merge_sort_Permutation, elem_of_elements, elem_of_list_to_set.
  apply list_elem_of_In, List.filter_In. split.
  - apply list_elem_of_In, list_elem_of_fmap. exists (approvedKey o h, v). cbn [fst]. split.
    + unfold approvedKey. rewrite drop_prefix_app. by rewrite before_slash_app.
    + apply elem_of_prefix_iter; [by eexists|]. split; [done|]. apply (prefix_app "approved/").
  - by rewrite bool_decide_false.
Qed.

(** C39: the epoch hook is resilient.  After any transactions and epoch ends on a
    new chain, for every epoch but number zero, it returns without error and
    touches no other module; afterwards the epoch label is the ended epoch; every
    approved memory is still there, with nothing but its state changed, and that
    only to ARCHIVED; and every org with an approved memory (and a proper id: not
    empty, no slash) has for that epoch the root of the empty list with count
    zero, since no memory carries the number of an epoch. *)
Theorem epoch_hook_is_resilient k l n s :
  kv s = new_store -> u64_of_int64 n <> 0 ->
  let e := u64_of_int64 n in
  let s1 := run k l s in
  exists s', AfterEpochEnd WeVibeEpochIdentifier n s1 = (Ok tt, s') /\
    peers s' = peers s1 /\ getCurrentEpoch (kv s') = Ok e /\
    forall o h c, GetApprovedMemory (kv s1) o h = Ok c ->
      (exists st, GetApprovedMemory (kv s') o h = Ok (c <| mc_State := st |>) /\
         (st = mc_State c \/ st = MemoryState_MEMORY_STATE_ARCHIVED)) /\
      (o <> "" -> free_of "/" o -> GetEpochMerkleRoot (kv s') o e = Ok (mkMerkleRoot o e "" 0)).
Proof.
  intros Hs He e s1.
  destruct (run_preserves (fun _ => True) k l s) as [HI _]; [done..|rewrite Hs; apply new_store_inv|done|].
  fold s1 in HI. destruct (AfterEpochEnd_spec n s1 He HI) as (s' & Hrun & Hsteps & Hp & _ & Hc & _).
  exists s'. split; [done|]. split; [done|]. split; [done|]. intros o h c Hm.
  unfold GetApprovedMemory in Hm. rok Hm.
  destruct (wf_approved _ _ _ _ (inv_wf _ HI) E) as (x & -> & _). injection Hr as <-.
  assert (kept o h x (kv s')) as (st & Hst & Hor).
  { assert (kept o h x (kv s1)) as Hk by (exists (sm_State x); rewrite with_state_same; auto).
    revert Hk. clear -Hsteps. induction Hsteps; eauto using kept_epoch. }
  split.
  - exists st. unfold GetApprovedMemory. rewrite Hst. split; [done|]. by destruct x.
  - intros Ho Hf. apply (merkle_roots_cover_nothing k l n s s' o Hs He Hrun).
    apply (org_with_memory _ o h Ho Hf). eauto.
Qed.
End MemoryProps.

(** ** The stored form *)

Definition is_u32 (x : N) : Prop := x < 4294967296.

(** Encoding a memory commitment as protobuf fields and decoding it gives
    the record back (enums and the version are 32-bit). *)
Theorem memory_codec_roundtrip c :
  is_u32 (mc_State c) -> is_u32 (mc_MemoryType c) -> is_u32 (mc_McVersion c) ->
  storedToMemory <$> unmarshal_memory (marshal_memory (memoryToStored c)) = Some c.
Proof.
  intros H1 H2 H3. unfold unmarshal_memory, marshal_memory. wire_roundtrip.
  unfold is_u32 in *. cbn. rewrite !N.mod_small by done. by destruct c.
Qed.

(** ** Concrete executions *)
Module MemoryDemo.

(** One org "org-0" led by the wallet "boss" with the key "lead"; everyone may
    contribute; the reputation keeper accepts everything. *)
Definition member (o pk : string) : Org.MemberRecord :=
  Org.mkMember o pk (if bool_decide (pk = "lead") then "leader" else "member") "" true false.

#[export] Instance org_keeper : OrgKeeper unit := {|
  HasOrg _ _ := Ok true;
  IsLeader _ _ pk := Ok (bool_decide (pk = "lead"));
  GetMember _ o pk := Ok (Some (member o pk));
  GetLeaderWallet _ _ := Ok "boss";
  IncrementOrgCommittedMemories _ := mret tt;
  IncrementOrgUpheldReports _ := mret tt;
  SetOrgLastActivityEpoch _ _ := mret tt;
|}.
#[export] Instance reputation_keeper : ReputationKeeper unit := {|
  IncrementContribution _ _ _ := mret tt;
  IncrementModeratorUpheld _ _ := mret tt;
  IncrementLeaderChainCommit _ _ := mret tt;
  IncrementLeaderUpheldReport _ _ := mret tt;
|}.

(** A hash of 32 bytes and a signature scheme that accepts "sig". *)
Definition pad : string := "................................".
#[export] Instance crypto32 : Crypto := {|
  sha256 x := String.substring 0 32 (x +:+ pad);
  ed25519_Verify _ _ sig := bool_decide (sig = "sig");
|}.

Definition k : Keeper := mkKeeper "gov".
Definition ctx : BlockCtx := mkCtx 7 0.
Definition alice : string :=
  "0000000000000000000000000000000000000000000000000000000000000001".
Definition hash (blob : string) : string := sha256 (blob +:+ "dek").

Definition submit (o blob : string) : mem_msg :=
  SubmitCommitmentMsg (mkMsgSubmitCommitment "boss" o (hash blob) alice "" 1 [] "" "" 1).
Definition approve_msg (o blob : string) : MsgApproveMemory :=
  mkMsgApproveMemory "boss" o (hash blob) blob "lead" "dek" 1 "ph" "salt" (sha256 blob) "sig" 1.
Definition approve (o blob : string) : mem_msg := ApproveMemoryMsg (approve_msg o blob).
Definition epoch_end (n : Z) : mem_msg := EpochEnd WeVibeEpochIdentifier n.

Definition start : St mem_val unit := mkSt new_store tt [].
Definition go (l : list mem_msg) : St mem_val unit := run k ((fun m => (ctx, m)) <$> l) start.

Lemma start_inv : mem_inv (kv start).
Proof. apply new_store_inv. Qed.

Lemma go_inv l : mem_inv (kv (go l)).
Proof. by apply (run_preserves (fun _ => True)); [..|apply start_inv|]. Qed.

Lemma memory_runs_keep_invariant_witness :
  GetApprovedCount (kv (go [submit "org-0" "m1"; approve "org-0" "m1"])) "org-0" = Ok 1.
Proof.
  destruct (memory_runs_keep_invariant k
    ((fun m => (ctx, m)) <$> [submit "org-0" "m1"; approve "org-0" "m1"]) start "org-0" eq_refl)
    as (_ & H & _).
  vm_compute in H. exact H.
Defined.

Definition approved1 : St mem_val unit := go [submit "org-0" "m1"; approve "org-0" "m1"].
Definition memory1 : MemoryCommitment :=
  match GetApprovedMemory (kv approved1) "org-0" (hash "m1") with
  | Ok c => c | Err _ => mkMemory "" "" "" [] "" "" "" "" 0 0 "" 0 0 "" "" "" "" "" "" 0 0 0 end.

Lemma approved_memory_is_permanent_witness :
  exists st, GetApprovedMemory (kv (run k [(ctx, epoch_end 1)] approved1)) "org-0" (hash "m1")
    = Ok (memory1 <| mc_State := st |>) /\ (st = 4 \/ st = 6).
Proof.
  apply (approved_memory_is_permanent k [(ctx, epoch_end 1)] approved1 "org-0" (hash "m1") memory1).
  - apply go_inv.
  - vm_compute. reflexivity.
Defined.

Lemma memory_decisions_authorized_witness :
  GetLeaderWallet (peers start) "org-0" = Ok "boss" /\ "boss" <> "".
Proof.
  apply (memory_decisions_authorized k ctx (submit "org-0" "m1") start (go [submit "org-0" "m1"])).
  vm_compute. reflexivity.
Defined.

Lemma approval_is_signed_by_contributor_witness :
  exists pk c, GetApprovedMemory (kv approved1) "org-0" (hash "m1") = Ok c /\
    decode_pubkey (mc_Contributor c) = Some pk.
Proof.
  destruct (approval_is_signed_by_contributor (approve_msg "org-0" "m1")
    (go [submit "org-0" "m1"]) approved1) as (pk & c & Hc & Hpk & _).
  - apply go_inv.
  - vm_compute. reflexivity.
  - exists pk, c. split; [exact Hc|exact Hpk].
Defined.

Lemma canonical_body_binds_witness : "a" = "a".
Proof.
  apply (canonical_body_binds "a" "p" 1 1 "o" "h" "s" "x" "y" "a" "p" 1 1 "o" "h" "s" "x" "y");
    vm_compute; reflexivity.
Defined.

Lemma epoch_hook_is_resilient_witness :
  exists s', AfterEpochEnd WeVibeEpochIdentifier 1 approved1 = (Ok tt, s') /\
    getCurrentEpoch (kv s') = Ok 1 /\
    GetEpochMerkleRoot (kv s') "org-0" 1 = Ok (mkMerkleRoot "org-0" 1 "" 0).
Proof.
  destruct (epoch_hook_is_resilient k
    ((fun m => (ctx, m)) <$> [submit "org-0" "m1"; approve "org-0" "m1"]) 1 start)
    as (s' & H & _ & Hc & Hm).
  - reflexivity.
  - vm_compute. discriminate.
  - exists s'. split; [exact H|]. split; [exact Hc|].
    apply (Hm "org-0" (hash "m1") memory1); [vm_compute; reflexivity|discriminate|vm_compute; reflexivity].
Defined.

(** Where memories do carry the number of the epoch, as a genesis may have them,
    the scan for an org runs on into the orgs that sort after it: the root of
    org-0 covers the memory of org-1 too. *)
Definition imported (o : string) (h : string) : MemoryCommitment :=
  mkMemory o h "blob" [] alice "" "" "" 1 0 "lead" MemoryState_MEMORY_STATE_COMMITTED 0 "dek" "" "" "" "" "sig" 1 0 1.
Definition with_genesis : St mem_val unit :=
  (InitGenesis (mkGenesisState [] [imported "org-0" "h0"; imported "org-1" "h1"] [] [] [] DefaultParams) start).2.

Lemma merkle_root_mixes_orgs :
  let s' := (AfterEpochEnd WeVibeEpochIdentifier 1 with_genesis).2 in
  GetEpochMerkleRoot (kv s') "org-0" 1 = Ok (mkMerkleRoot "org-0" 1 (ComputeMerkleRoot ["h0"; "h1"]) 2) /\
  GetEpochMerkleRoot (kv s') "org-1" 1 = Ok (mkMerkleRoot "org-1" 1 (ComputeMerkleRoot ["h1"]) 1).
Proof. split; vm_compute; reflexivity. Qed.

Lemma contributor_counts_exact_witness :
  default 0 (GetContributorsWithApprovalsInEpoch (kv approved1) 0 !! alice) = 1.
Proof.
  rewrite (contributor_counts_exact (kv approved1) 0 alice); [vm_compute; reflexivity|..].
  - apply go_inv.
  - vm_compute. discriminate.
Defined.

Lemma merkle_roots_cover_nothing_witness :
  let s' := (AfterEpochEnd WeVibeEpochIdentifier 1 approved1).2 in
  GetEpochMerkleRoot (kv s') "org-0" 1 = Ok (mkMerkleRoot "org-0" 1 "" 0).
Proof.
  apply (merkle_roots_cover_nothing k
    ((fun m => (ctx, m)) <$> [submit "org-0" "m1"; approve "org-0" "m1"]) 1 start).
  - reflexivity.
  - vm_compute. discriminate.
  - vm_compute. reflexivity.
  - vm_compute. left.
Defined.

Lemma memory_codec_roundtrip_witness :
  storedToMemory <$> unmarshal_memory (marshal_memory (memoryToStored memory1)) = Some memory1.
Proof. apply memory_codec_roundtrip; vm_compute; reflexivity. Defined.

(** The cap on pending commitments is shared: with a cap of two, an org with
    no pending commitment at all is refused because orgs that sort after it
    have one and the genesis marker counts too. *)
Theorem pending_cap_counts_other_orgs :
  let s := go [UpdateParamsMsg (mkMsgUpdateParams "gov" (Some (mkParams 2 7 1048576 20 10)));
               submit "org-9" "m1"] in
  pending_count (kv s) "org-0" = 0 /\ pending_count (kv s) "org-9" = 1 /\
  (deliver (handle k ctx (submit "org-0" "m1")) s).1 = Err ErrMaxPendingExceeded.
Proof. vm_compute. auto. Qed.

(** A pending commitment can get stuck: resubmitting an approved memory is
    accepted, its approval is refused for ever, and nothing else removes it. *)
Theorem resubmitted_memory_stays_pending :
  let s := go [submit "org-0" "m1"; approve "org-0" "m1"; submit "org-0" "m1"] in
  pending_count (kv s) "org-0" = 1 /\
  (deliver (handle k ctx (approve "org-0" "m1")) s).1 = Err ErrMemoryExists /\
  pending_count (kv (run k [(ctx, epoch_end 1); (ctx, epoch_end 2); (ctx, epoch_end 9)] s)) "org-0" = 1.
Proof. vm_compute. auto. Qed.
End MemoryDemo.
