(* ===== verification/Serve.v ===== *)
(** * x/serve: serve receipts, denials, the event log and policy anchors

    Models x/serve/types (keys.go, canonical.go, msgs.go, params.go,
    genesis.go) and x/serve/keeper (keeper.go, msg_server.go).  The org,
    memory, bandwidth and reputation keepers are reached through the classes
    below, which mirror types/expected_keepers.go. *)

From S2P Require Import Prelude Bytes Store Wire Ifaces Org Memory.
From Stdlib Require Import Ascii.
Local Open Scope string_scope.
Local Open Scope N_scope.

(** ** Expected keepers (types/expected_keepers.go) *)
Class OrgKeeper (P : Type) := {
  HasOrg : P -> string -> result bool;
  GetServingAddress : P -> string -> result string;
}.

Class MemoryKeeper (P : Type) := {
  (** a nil pointer is [None] *)
  GetApprovedMemory : P -> string -> string -> result (option Memory.MemoryCommitment);
  IsValidInEpoch : P -> string -> string -> N -> result bool;
}.

Class BandwidthKeeper (P : Type) := {
  ConsumeServeBandwidth : string -> N -> N -> M P unit;
}.

Class ReputationKeeper (P : Type) := {
  RecordServe : string -> string -> N -> bool -> M P unit;
}.

(** ** Data *)
(** [types.ServeReceipt] (types/keys.go). *)
Record ServeReceipt := mkServeReceipt {
  r_OrgID : string; r_ContentHash : string; r_ServeKey : string; r_ServeKeyPubkey : string;
  r_ContributorID : string; r_Epoch : N; r_Fingerprint : string; r_IsSelfServe : bool;
  r_ModelID : string; r_TurnCount : N; r_EpisodeRef : string;
}.

(** [types.StoredServeReceipt] (types/state.pb.go). *)
Record StoredServeReceipt := mkStoredServeReceipt {
  sr_OrgId : string; sr_MemoryContentHash : string; sr_ContributorId : string;
  sr_Epoch : N; sr_IsSelfServe : bool; sr_ModelId : string; sr_TurnCount : N;
  sr_ServeKeyPubkey : string; sr_Fingerprint : string; sr_EpisodeRef : string;
}.

(** [types.StoredDenialReceipt]. *)
Record StoredDenialReceipt := mkStoredDenialReceipt {
  dr_OrgId : string; dr_MemoryHash : string; dr_DenyKey : string; dr_Reason : string;
  dr_Epoch : N; dr_ServeFingerprint : string; dr_ServeKeyPubkey : string;
  dr_NegAnchor : string;
}.
#[export] Instance StoredDenialReceipt_fields : Fields StoredDenialReceipt :=
  fun r => mkStoredDenialReceipt (dr_OrgId r) (dr_MemoryHash r) (dr_DenyKey r)
      (dr_Reason r) (dr_Epoch r) (dr_ServeFingerprint r) (dr_ServeKeyPubkey r)
      (dr_NegAnchor r).

(** [types.EpochServeStats] (types/keys.go); [StoredEpochServeStats] has the same fields. *)
Record EpochServeStats := mkEpochServeStats {
  es_OrgID : string; es_Epoch : N; es_TotalServes : N; es_TotalDenials : N;
  es_UniqueMemoriesServed : N; es_UniqueServeKeys : N; es_SelfServes : N;
  es_ModelBreakdown : gmap string N;
}.
#[export] Instance EpochServeStats_fields : Fields EpochServeStats :=
  fun r => mkEpochServeStats (es_OrgID r) (es_Epoch r) (es_TotalServes r)
    (es_TotalDenials r) (es_UniqueMemoriesServed r) (es_UniqueServeKeys r) (es_SelfServes r)
    (es_ModelBreakdown r).

(** [types.ContributorEpochServes] and its stored form. *)
Record ContributorEpochServes := mkContributorEpochServes {
  cs_ContributorID : string; cs_Epoch : N; cs_ServeCount : N; cs_SelfServeCount : N;
  cs_OrgIDs : list string; cs_TotalTurns : N;
}.
#[export] Instance ContributorEpochServes_fields : Fields ContributorEpochServes :=
  fun r => mkContributorEpochServes (cs_ContributorID r) (cs_Epoch r) (cs_ServeCount r)
    (cs_SelfServeCount r) (cs_OrgIDs r) (cs_TotalTurns r).

(** The bodies of the consumer-signed events (types/event.pb.go); enums are their
    numbers. *)
Inductive EventBody :=
  | EventEntry_Outcome (EpisodeRef EvidenceRef ServeRef : string) (Resolution Source : N)
  | EventEntry_ValidityPredicate (PredicateId : string) (Result : N) (EvidenceRef : string)
  | EventEntry_CostToDiscover (Cycles ToolCalls AttemptsToGreen : N) (EvidenceRef : string)
  | EventEntry_Convergence (ConvergenceRef : string).

(** [types.EventEntry]; the oneof body may be absent. *)
Record EventEntry := mkEventEntry {
  ee_EventType : N; ee_MemoryContentHash : string; ee_SignerPubkey : string;
  ee_Nonce : string; ee_Signature : string; ee_Body : option EventBody;
}.

(** [types.StoredEvent]. *)
Record StoredEvent := mkStoredEvent {
  ev_OrgId : string; ev_Epoch : N; ev_EventType : N; ev_MemoryContentHash : string;
  ev_SignerPubkey : string; ev_Nonce : string; ev_Signature : string;
  ev_Fingerprint : string; ev_Body : option EventBody;
}.
#[export] Instance StoredEvent_fields : Fields StoredEvent :=
  fun r => mkStoredEvent (ev_OrgId r) (ev_Epoch r) (ev_EventType r)
      (ev_MemoryContentHash r) (ev_SignerPubkey r) (ev_Nonce r) (ev_Signature r)
      (ev_Fingerprint r) (ev_Body r).

(** [types.StoredPolicyAnchor]. *)
Record StoredPolicyAnchor := mkPolicyAnchor {
  pa_PolicyVersion : string; pa_PolicyHash : string; pa_AnchoredAtEpoch : N;
  pa_AnchoredAtHeight : Z;
}.
#[export] Instance StoredPolicyAnchor_fields : Fields StoredPolicyAnchor :=
  fun r => mkPolicyAnchor (pa_PolicyVersion r) (pa_PolicyHash r)
      (pa_AnchoredAtEpoch r) (pa_AnchoredAtHeight r).

(** [types.Params] (types/params.pb.go). *)
Record Params := mkParams {
  p_MaxServesPerBatch : N; p_SelfServeDiscountPercent : N;
  p_MaxServesPerMemoryPerEpoch : N; p_MinOrgAgeEpochs : N;
  p_DiminishingReturnsThreshold : N;
}.

(** Messages (types/tx.pb.go). *)
Record ServeEntry := mkServeEntry {
  sv_MemoryContentHash : string; sv_ContributorId : string; sv_ModelId : string;
  sv_TurnCount : N; sv_ContributorWallet : string; sv_ServeKeyPubkey : string;
  sv_ServeSig : string; sv_Nonce : string; sv_EpisodeRef : string;
}.

Record DenialEntry := mkDenialEntry {
  dn_MemoryHash : string; dn_Reason : string; dn_ServeKeyPubkey : string;
  dn_ServeSig : string; dn_ServeFingerprint : string; dn_Nonce : string;
  dn_NegAnchor : string;
}.

Record MsgSubmitServeBatch := mkMsgSubmitServeBatch {
  mb_Signer : string; mb_OrgId : string; mb_Epoch : N; mb_Serves : list ServeEntry;
}.

Record MsgSubmitDenialBatch := mkMsgSubmitDenialBatch {
  md_Signer : string; md_OrgId : string; md_Epoch : N; md_Entries : list DenialEntry;
}.

Record MsgSubmitEventBatch := mkMsgSubmitEventBatch {
  me_Signer : string; me_OrgId : string; me_Epoch : N;
  me_Events : list (option EventEntry);
}.

Record MsgAnchorPolicyVersion := mkMsgAnchorPolicyVersion {
  ma_Authority : string; ma_PolicyVersion : string; ma_PolicyHash : string;
}.

Record MsgUpdateParams := mkMsgUpdateParams {
  mu_Authority : string; mu_Params : option Params;
}.

(** [types.GenesisState] (types/genesis.go). *)
Record GenesisState := mkGenesisState {
  g_ServeReceipts : list ServeReceipt;
  g_DenialReceipts : list (option StoredDenialReceipt);
  g_Events : list (option StoredEvent); g_PolicyAnchors : list (option StoredPolicyAnchor);
  g_EpochStats : list EpochServeStats; g_ContributorServes : list ContributorEpochServes;
}.

(** ** Errors (types/errors.go) *)
Definition ErrInvalidOrgID := Sentinel "serve" "invalid org ID".
Definition ErrInvalidContentHash := Sentinel "serve" "content hash must be 32 bytes".
Definition ErrInvalidServeKeyPubkey := Sentinel "serve" "serve key pubkey must be 32 bytes".
Definition ErrInvalidServeSignature := Sentinel "serve" "serve signature must be 64 bytes".
Definition ErrInvalidServeFingerprint := Sentinel "serve" "serve fingerprint must be 32 bytes".
Definition ErrInvalidContributor := Sentinel "serve" "invalid contributor ID".
Definition ErrBatchTooLarge := Sentinel "serve" "serve batch exceeds max size".
Definition ErrBatchEmpty := Sentinel "serve" "serve batch is empty".
Definition ErrOrgNotFound := Sentinel "serve" "org not found".
Definition ErrStatsNotFound := Sentinel "serve" "epoch serve stats not found".
Definition ErrContributorNotFound := Sentinel "serve" "contributor serves not found".
Definition ErrUnauthorized := Sentinel "serve" "unauthorized".
Definition ErrEventParked := Sentinel "serve" "event type parked".
Definition ErrInvalidEventType := Sentinel "serve" "invalid event type".
Definition ErrNegAnchorInert := Sentinel "serve" "neg_anchor must be empty".
Definition ErrInvalidServeEpisodeRef := Sentinel "serve" "serve episode_ref cannot be empty".
Definition ErrServeEpisodeRefTooLong :=
  Sentinel "serve" "serve episode_ref must be at most 64 bytes".

(** ** Constants *)
Definition ContentHashLen : N := 32.
Definition FingerprintLen : N := 32.
Definition ServePubKeyLen : N := 32.
Definition ServeSigLen : N := 64.

Definition EventType_EVENT_TYPE_SERVE : N := 1.
Definition EventType_EVENT_TYPE_BLOCK : N := 2.
Definition EventType_EVENT_TYPE_OUTCOME : N := 3.
Definition EventType_EVENT_TYPE_CONTEST : N := 4.
Definition EventType_EVENT_TYPE_SPONSORSHIP : N := 5.
Definition EventType_EVENT_TYPE_VALIDITY_PREDICATE : N := 6.
Definition EventType_EVENT_TYPE_COST_TO_DISCOVER : N := 7.
Definition EventType_EVENT_TYPE_CONVERGENCE : N := 8.

Definition DefaultParams : Params := mkParams 500 50 100 1 10.
Definition zero_Params : Params := mkParams 0 0 0 0 0.

(** ** Canonical bodies (types/canonical.go) *)
Definition CanonicalServeBody (orgID memoryHash : string) (epoch : N)
    (serveKeyPubkey nonce episodeRef : string) : string :=
  Join newline [
    "wevibe-serve-v3";
    orgID;
    hex_encode memoryHash;
    FormatUint epoch;
    hex_encode serveKeyPubkey;
    hex_encode nonce;
    hex_encode episodeRef].

Definition predicateResultToken (result : N) : Prelude.result string :=
  match result with
  | 1 => Ok "pass"
  | 2 => Ok "fail"
  | 3 => Ok "absent"
  | _ => Err (Errorf "predicate result must be pass, fail, or absent")
  end.

Definition outcomeResolutionToken (resolution : N) : result string :=
  match resolution with
  | 1 => Ok "worked"
  | 2 => Ok "didnt_work"
  | 3 => Ok "unobserved"
  | _ => Err (Errorf "outcome resolution must be worked, didnt_work, or unobserved")
  end.

Definition outcomeSourceToken (source : N) : result string :=
  match source with
  | 1 => Ok "harvested"
  | 2 => Ok "user"
  | _ => Err (Errorf "outcome source must be harvested or user")
  end.

Definition canonicalEventSpecificLines (eventType : N) (entry : EventEntry) :
    result (string * list string) :=
  if eventType =? EventType_EVENT_TYPE_OUTCOME then
    match ee_Body entry with
    | Some (EventEntry_Outcome episodeRef evidenceRef serveRef resolution source) =>
        res ← outcomeResolutionToken resolution;
        src ← outcomeSourceToken source;
        mret ("outcome", [hex_encode episodeRef; hex_encode evidenceRef; hex_encode serveRef;
                          "resolution=" +:+ res; "source=" +:+ src])
    | _ => Err (Errorf "outcome event body is required")
    end
  else if eventType =? EventType_EVENT_TYPE_VALIDITY_PREDICATE then
    match ee_Body entry with
    | Some (EventEntry_ValidityPredicate predicateId res evidenceRef) =>
        tok ← predicateResultToken res;
        mret ("validity_predicate", [hex_encode predicateId; "result=" +:+ tok;
                                     hex_encode evidenceRef])
    | _ => Err (Errorf "validity_predicate event body is required")
    end
  else if eventType =? EventType_EVENT_TYPE_COST_TO_DISCOVER then
    match ee_Body entry with
    | Some (EventEntry_CostToDiscover cycles toolCalls attempts evidenceRef) =>
        mret ("cost_to_discover", ["cycles=" +:+ FormatUint cycles;
                                   "tool_calls=" +:+ FormatUint toolCalls;
                                   "attempts_to_green=" +:+ FormatUint attempts;
                                   hex_encode evidenceRef])
    | _ => Err (Errorf "cost_to_discover event body is required")
    end
  else if eventType =? EventType_EVENT_TYPE_CONVERGENCE then
    match ee_Body entry with
    | Some (EventEntry_Convergence convergenceRef) =>
        mret ("convergence", [hex_encode convergenceRef])
    | _ => Err (Errorf "convergence event body is required")
    end
  else Err ErrInvalidEventType.

Definition CanonicalEventBody (eventType : N) (orgID memoryHash : string) (epoch : N)
    (signerPubkey nonce : string) (entry : EventEntry) : result string :=
  ts ← canonicalEventSpecificLines eventType entry;
  mret (Join newline (
    ["wevibe-event-v1"; ts.1; orgID; hex_encode memoryHash; FormatUint epoch;
     hex_encode signerPubkey] ++ ts.2 ++ [hex_encode nonce])%list).

Definition CanonicalDenialBody (orgID memoryHash : string) (epoch : N)
    (serveKeyPubkey serveFingerprint nonce : string) : string :=
  Join newline [
    "wevibe-denial-v1";
    orgID;
    hex_encode memoryHash;
    FormatUint epoch;
    hex_encode serveKeyPubkey;
    hex_encode serveFingerprint;
    hex_encode nonce].

Section Fingerprints.
Context {CRYPTO : Crypto}.

Definition ComputeServeFingerprint (memoryHash servePubkey : string) (epoch : N) : string :=
  sha256 (memoryHash +:+ servePubkey +:+ PutUint64 epoch).

Definition ComputeDenialFingerprint (orgID memoryHash : string) (epoch : N)
    (servePubkey serveFingerprint : string) : string :=
  sha256 (CanonicalDenialBody orgID memoryHash epoch servePubkey serveFingerprint "").

Definition ComputeEventFingerprint (body : string) : string := sha256 body.
End Fingerprints.

(** ** Stateless validation (types/msgs.go) *)
Definition validate_serve (serve : ServeEntry) : result unit :=
  err_if (negb (len (sv_MemoryContentHash serve) =? ContentHashLen)) ErrInvalidContentHash ;;
  err_if (negb (len (sv_ServeKeyPubkey serve) =? ServePubKeyLen)) ErrInvalidServeKeyPubkey ;;
  err_if (negb (len (sv_ServeSig serve) =? ServeSigLen)) ErrInvalidServeSignature ;;
  err_if (bool_decide (sv_ContributorId serve = "")) ErrInvalidContributor ;;
  err_if (len (sv_EpisodeRef serve) =? 0) ErrInvalidServeEpisodeRef ;;
  err_if (64 <? len (sv_EpisodeRef serve)) ErrServeEpisodeRefTooLong.

(** The first error of a list of checks. *)
Fixpoint first_error {A} (check : A -> result unit) (l : list A) : result unit :=
  match l with [] => mret tt | x :: l' => check x ;; first_error check l' end.

Definition MsgSubmitServeBatch_ValidateBasic (m : MsgSubmitServeBatch) : result unit :=
  err_if (bool_decide (mb_Signer m = "")) (Errorf "signer cannot be empty") ;;
  err_if (bool_decide (mb_OrgId m = "")) ErrInvalidOrgID ;;
  err_if (bool_decide (length (mb_Serves m) = 0%nat)) ErrBatchEmpty ;;
  first_error validate_serve (mb_Serves m).

Definition validate_denial (entry : DenialEntry) : result unit :=
  err_if (negb (len (dn_MemoryHash entry) =? ContentHashLen)) ErrInvalidContentHash ;;
  err_if (negb (len (dn_ServeKeyPubkey entry) =? ServePubKeyLen)) ErrInvalidServeKeyPubkey ;;
  err_if (negb (len (dn_ServeSig entry) =? ServeSigLen)) ErrInvalidServeSignature ;;
  err_if (negb (len (dn_ServeFingerprint entry) =? FingerprintLen)) ErrInvalidServeFingerprint ;;
  err_if (negb (len (dn_NegAnchor entry) =? 0)) ErrNegAnchorInert.

Definition MsgSubmitDenialBatch_ValidateBasic (m : MsgSubmitDenialBatch) : result unit :=
  err_if (bool_decide (md_Signer m = "")) (Errorf "signer cannot be empty") ;;
  err_if (bool_decide (md_OrgId m = "")) ErrInvalidOrgID ;;
  err_if (bool_decide (length (md_Entries m) = 0%nat)) ErrBatchEmpty ;;
  first_error validate_denial (md_Entries m).

Definition validateEventType (eventType : N) : result unit :=
  if (eventType =? EventType_EVENT_TYPE_OUTCOME) ||
     (eventType =? EventType_EVENT_TYPE_VALIDITY_PREDICATE) ||
     (eventType =? EventType_EVENT_TYPE_COST_TO_DISCOVER) ||
     (eventType =? EventType_EVENT_TYPE_CONVERGENCE) then Ok tt
  else if (eventType =? EventType_EVENT_TYPE_CONTEST) ||
          (eventType =? EventType_EVENT_TYPE_SPONSORSHIP) then Err ErrEventParked
  else if (eventType =? EventType_EVENT_TYPE_SERVE) ||
          (eventType =? EventType_EVENT_TYPE_BLOCK)
  then Err (Errorf "event type recorded via serve/denial receipts")
  else Err ErrInvalidEventType.

Definition validateRefCaps (refs : list string) : result unit :=
  first_error (fun ref => err_if (64 <? len ref) (Errorf "event refs must be at most 64 bytes")) refs.

Definition validateEventBody (entry : EventEntry) : result unit :=
  let eventType := ee_EventType entry in
  if eventType =? EventType_EVENT_TYPE_OUTCOME then
    match ee_Body entry with
    | Some (EventEntry_Outcome episodeRef evidenceRef serveRef resolution source) =>
        err_if (negb (len serveRef =? 32)) (Errorf "outcome serve_ref must be exactly 32 bytes") ;;
        outcomeResolutionToken resolution ;;
        outcomeSourceToken source ;;
        validateRefCaps [episodeRef; evidenceRef]
    | _ => Err (Errorf "outcome event body is required")
    end
  else if eventType =? EventType_EVENT_TYPE_VALIDITY_PREDICATE then
    match ee_Body entry with
    | Some (EventEntry_ValidityPredicate predicateId res evidenceRef) =>
        predicateResultToken res ;;
        validateRefCaps [predicateId; evidenceRef]
    | _ => Err (Errorf "validity_predicate event body is required")
    end
  else if eventType =? EventType_EVENT_TYPE_COST_TO_DISCOVER then
    match ee_Body entry with
    | Some (EventEntry_CostToDiscover _ _ _ evidenceRef) => validateRefCaps [evidenceRef]
    | _ => Err (Errorf "cost_to_discover event body is required")
    end
  else if eventType =? EventType_EVENT_TYPE_CONVERGENCE then
    match ee_Body entry with
    | Some (EventEntry_Convergence convergenceRef) => validateRefCaps [convergenceRef]
    | _ => Err (Errorf "convergence event body is required")
    end
  else Err ErrInvalidEventType.

Definition validateEventEntry (entry : option EventEntry) : result unit :=
  match entry with
  | None => Err (Errorf "event entry cannot be nil")
  | Some entry =>
      validateEventType (ee_EventType entry) ;;
      err_if (negb (len (ee_MemoryContentHash entry) =? ContentHashLen)) ErrInvalidContentHash ;;
      err_if (negb (len (ee_SignerPubkey entry) =? ServePubKeyLen)) ErrInvalidServeKeyPubkey ;;
      err_if (negb (len (ee_Signature entry) =? ServeSigLen)) ErrInvalidServeSignature ;;
      err_if (len (ee_Nonce entry) =? 0) (Errorf "event nonce cannot be empty") ;;
      err_if (64 <? len (ee_Nonce entry)) (Errorf "event nonce must be at most 64 bytes") ;;
      validateEventBody entry
  end.

Definition MsgSubmitEventBatch_ValidateBasic (m : MsgSubmitEventBatch) : result unit :=
  err_if (bool_decide (me_Signer m = "")) (Errorf "signer cannot be empty") ;;
  err_if (bool_decide (me_OrgId m = "")) ErrInvalidOrgID ;;
  err_if (bool_decide (length (me_Events m) = 0%nat)) ErrBatchEmpty ;;
  first_error validateEventEntry (me_Events m).

Definition MsgAnchorPolicyVersion_ValidateBasic (m : MsgAnchorPolicyVersion) : result unit :=
  err_if (bool_decide (ma_Authority m = "")) (Errorf "authority cannot be empty") ;;
  err_if (bool_decide (ma_PolicyVersion m = "")) (Errorf "policy_version cannot be empty") ;;
  err_if (128 <? len (ma_PolicyVersion m)) (Errorf "policy_version must be at most 128 chars") ;;
  err_if (negb (len (ma_PolicyHash m) =? 32)) (Errorf "policy_hash must be 32 bytes").

Definition MsgUpdateParams_ValidateBasic (m : MsgUpdateParams) : result unit :=
  err_if (bool_decide (mu_Authority m = "")) (Errorf "authority cannot be empty").

(** ** The store *)
Inductive serve_val :=
  | VParams (p : Params)
  | VReceipt (r : StoredServeReceipt)
  | VDenial (d : StoredDenialReceipt)
  | VStats (s : EpochServeStats)
  | VContributor (c : ContributorEpochServes)
  | VEvent (e : StoredEvent)
  | VAnchor (a : StoredPolicyAnchor)
  | VRaw (b : string).

Definition ContentHashToHex (hash : string) : string := hex_encode hash.

Definition serveFingerprintKey (fingerprint : string) : string :=
  "fingerprint/" +:+ ContentHashToHex fingerprint.
Definition denialFingerprintKey (fingerprint : string) : string :=
  "denyfingerprint/" +:+ ContentHashToHex fingerprint.
Definition receiptKey (orgID : string) (epoch : N) (fingerprint : string) : string :=
  "receipt/" +:+ orgID +:+ "/" +:+ FormatUint epoch +:+ "/" +:+ ContentHashToHex fingerprint.
Definition receiptPrefix (orgID : string) (epoch : N) : string :=
  "receipt/" +:+ orgID +:+ "/" +:+ FormatUint epoch +:+ "/".
Definition denialReceiptKey (orgID : string) (epoch : N) (fingerprint : string) : string :=
  "denial/" +:+ orgID +:+ "/" +:+ FormatUint epoch +:+ "/" +:+ ContentHashToHex fingerprint.
Definition EventPrefix := "event/".
Definition eventKey (orgID : string) (epoch : N) (fingerprint : string) : string :=
  EventPrefix +:+ orgID +:+ "/" +:+ FormatUint epoch +:+ "/" +:+ ContentHashToHex fingerprint.
Definition eventPrefix (orgID : string) (epoch : N) : string :=
  EventPrefix +:+ orgID +:+ "/" +:+ FormatUint epoch +:+ "/".
Definition eventFingerprintKey (fingerprint : string) : string :=
  "eventfp/" +:+ ContentHashToHex fingerprint.
Definition policyAnchorKey (policyVersion : string) : string := "policy_anchor/" +:+ policyVersion.
Definition LatestPolicyAnchorKey := "policy_anchor_latest".
Definition statsKey (orgID : string) (epoch : N) : string :=
  "stats/" +:+ orgID +:+ "/" +:+ FormatUint epoch.
Definition contributorKey (contributorID : string) (epoch : N) : string :=
  "contributor/" +:+ contributorID +:+ "/" +:+ FormatUint epoch.
Definition memCountKey (orgID contentHash : string) (epoch : N) : string :=
  "memcount/" +:+ orgID +:+ "/" +:+ ContentHashToHex contentHash +:+ "/" +:+ FormatUint epoch.
Definition denialCountKey (orgID contentHash : string) (epoch : N) : string :=
  "denycount/" +:+ orgID +:+ "/" +:+ ContentHashToHex contentHash +:+ "/" +:+ FormatUint epoch.
Definition memFirstKey (orgID contentHash : string) (epoch : N) : string :=
  "memfirst/" +:+ orgID +:+ "/" +:+ ContentHashToHex contentHash +:+ "/" +:+ FormatUint epoch.
Definition keyFirstKey (orgID serveKey : string) (epoch : N) : string :=
  "keyfirst/" +:+ orgID +:+ "/" +:+ serveKey +:+ "/" +:+ FormatUint epoch.
Definition ParamsKey := "params".

Definition present : serve_val := VRaw (String (ascii_of_N 1) "").

Definition ServeReceiptToStored (sr : ServeReceipt) : StoredServeReceipt := {|
  sr_OrgId := r_OrgID sr;
  sr_MemoryContentHash := r_ContentHash sr;
  sr_ContributorId := r_ContributorID sr;
  sr_Epoch := r_Epoch sr;
  sr_IsSelfServe := r_IsSelfServe sr;
  sr_ModelId := r_ModelID sr;
  sr_TurnCount := r_TurnCount sr;
  sr_ServeKeyPubkey := r_ServeKeyPubkey sr;
  sr_Fingerprint := r_Fingerprint sr;
  sr_EpisodeRef := r_EpisodeRef sr;
|}.

Definition StoredToServeReceipt (stored : StoredServeReceipt) : ServeReceipt := {|
  r_OrgID := sr_OrgId stored;
  r_ContentHash := sr_MemoryContentHash stored;
  r_ServeKey := hex_encode (sr_ServeKeyPubkey stored);
  r_ServeKeyPubkey := sr_ServeKeyPubkey stored;
  r_ContributorID := sr_ContributorId stored;
  r_Epoch := sr_Epoch stored;
  r_Fingerprint := sr_Fingerprint stored;
  r_IsSelfServe := sr_IsSelfServe stored;
  r_ModelID := sr_ModelId stored;
  r_TurnCount := sr_TurnCount stored;
  r_EpisodeRef := sr_EpisodeRef stored;
|}.

(** The wire form of the statistics (state.proto), with the iteration order of
    the model map. *)
Definition marshal_stats (order : list (string * N)) (s : EpochServeStats) : message :=
  (w_bytes 1 (es_OrgID s) ++ w_uint 2 (es_Epoch s) ++ w_uint 3 (es_TotalServes s) ++
   w_uint 4 (es_UniqueMemoriesServed s) ++ w_uint 5 (es_UniqueServeKeys s) ++
   w_uint 6 (es_SelfServes s) ++ w_map 7 order ++ w_uint 8 (es_TotalDenials s))%list.

Definition schema_receipt : schema :=
  [(1, KBytes); (2, KBytes); (4, KBytes); (5, KVarint); (7, KVarint); (8, KBytes);
   (9, KVarint); (11, KBytes); (12, KBytes); (13, KBytes)].
Definition unmarshal_receipt : message -> option StoredServeReceipt :=
  unmarshal schema_receipt (fun m => mkStoredServeReceipt
    (r_bytes 1 m) (r_bytes 2 m) (r_bytes 4 m) (r_uint 5 m) (r_bool 7 m) (r_bytes 8 m)
    (r_uint32 9 m) (r_bytes 11 m) (r_bytes 12 m) (r_bytes 13 m)).

(** [proto.Unmarshal] into a receipt.  The scans that decode receipts start at
    "receipt/" and meet receipts, statistics and the genesis marker only. *)
Definition decode_receipt (v : serve_val) : option StoredServeReceipt :=
  match v with
  | VReceipt r => Some r
  | VStats s => unmarshal_receipt (marshal_stats (map_to_list (es_ModelBreakdown s)) s)
  | _ => None
  end.

(** ** Reads *)
Section Reads.
Implicit Types m : gmap string serve_val.

Definition GetParams m : result Params :=
  match m !! ParamsKey with
  | None => Ok DefaultParams
  | Some (VParams p) => Ok p
  | Some _ => Err (Errorf "unmarshal params")
  end.

Definition HasServeFingerprint m (fingerprint : string) : bool :=
  bool_decide (is_Some (m !! serveFingerprintKey fingerprint)).
Definition HasDenialFingerprint m (fingerprint : string) : bool :=
  bool_decide (is_Some (m !! denialFingerprintKey fingerprint)).

(** The fingerprint entry holds the key of the receipt. *)
Definition GetServeReceiptByFingerprint m (fingerprint : string) :
    result (option StoredServeReceipt) :=
  match m !! serveFingerprintKey fingerprint with
  | Some (VRaw receiptStoreKey) =>
      if len receiptStoreKey =? 0 then Ok None else
      match m !! receiptStoreKey with
      | None => Ok None
      | Some v => stored ← from_option_err (Errorf "unmarshal serve receipt") (decode_receipt v);
                  mret (Some stored)
      end
  | _ => Ok None
  end.

Definition read_uint64 (key : string) m : result N :=
  match m !! key with
  | None => Ok 0
  | Some (VRaw b) => BigEndianUint64 b
  | Some _ => Err (Panic "index out of range")
  end.

Definition GetMemoryServeCount m (orgID contentHash : string) (epoch : N) : result N :=
  read_uint64 (memCountKey orgID contentHash epoch) m.
Definition GetMemoryDenialCount m (orgID contentHash : string) (epoch : N) : result N :=
  read_uint64 (denialCountKey orgID contentHash epoch) m.

Definition GetEpochServeStats m (orgID : string) (epoch : N) : result EpochServeStats :=
  match m !! statsKey orgID epoch with
  | None => Err ErrStatsNotFound
  | Some (VStats s) => Ok s
  | Some _ => Err (Errorf "unmarshal stats")
  end.

Definition GetContributorEpochServes m (contributorID : string) (epoch : N) :
    result ContributorEpochServes :=
  match m !! contributorKey contributorID epoch with
  | None => Err ErrContributorNotFound
  | Some (VContributor c) => Ok c
  | Some _ => Err (Errorf "unmarshal contributor serves")
  end.

(** total serves, unique memories, self serves, model breakdown *)
Definition GetEpochServeStatsRaw m (orgID : string) (epoch : N) :
    result (N * N * N * gmap string N) :=
  stats ← GetEpochServeStats m orgID epoch;
  mret (es_TotalServes stats, es_UniqueMemoriesServed stats, es_SelfServes stats,
        es_ModelBreakdown stats).

(** serve count, self-serve count, total turns, org ids *)
Definition GetContributorEpochServesRaw m (contributorID : string) (epoch : N) :
    result (N * N * N * list string) :=
  cs ← GetContributorEpochServes m contributorID epoch;
  mret (cs_ServeCount cs, cs_SelfServeCount cs, cs_TotalTurns cs, cs_OrgIDs cs).

Definition GetEventsForEpoch m (orgID : string) (epoch : N) : list StoredEvent :=
  omap (fun kv => match kv.2 with VEvent e => Some e | _ => None end)
    (prefix_iter (eventPrefix orgID epoch) m).

Definition GetPolicyAnchor m (policyVersion : string) : result (option StoredPolicyAnchor) :=
  match m !! policyAnchorKey policyVersion with
  | None => Ok None
  | Some (VAnchor a) => Ok (Some a)
  | Some _ => Err (Errorf "unmarshal policy anchor")
  end.

Definition GetLatestPolicyAnchor m : result (option StoredPolicyAnchor) :=
  match m !! LatestPolicyAnchorKey with
  | Some (VRaw version) => if len version =? 0 then Ok None else GetPolicyAnchor m version
  | _ => Ok None
  end.

(** The scan has no upper bound. *)
Definition GetServeReceipts m (orgID : string) (epoch : N) : list ServeReceipt :=
  omap (fun kv => StoredToServeReceipt <$> decode_receipt kv.2)
    (from_iter (receiptPrefix orgID epoch) m).
End Reads.

Definition NewEpochServeStats (orgID : string) (epoch : N) : EpochServeStats :=
  mkEpochServeStats orgID epoch 0 0 0 0 0 ∅.
Definition NewContributorEpochServes (contributorID : string) (epoch : N) :
    ContributorEpochServes :=
  mkContributorEpochServes contributorID epoch 0 0 [] 0.

Definition AddOrgID (orgID : string) (cs : ContributorEpochServes) : ContributorEpochServes :=
  if bool_decide (orgID ∈ cs_OrgIDs cs) then cs
  else cs <| cs_OrgIDs := (cs_OrgIDs cs ++ [orgID])%list |>.

Definition NewServeReceipt (orgID contentHash serveKey serveKeyPubkey contributorID : string)
    (epoch : N) (fingerprint : string) (isSelfServe : bool) (modelID : string) (turnCount : N)
    (episodeRef : string) : ServeReceipt :=
  mkServeReceipt orgID contentHash serveKey serveKeyPubkey contributorID epoch fingerprint
    isSelfServe modelID turnCount episodeRef.

Definition storedEventFromEntry (orgID : string) (epoch : N) (entry : EventEntry)
    (fingerprint : string) : StoredEvent := {|
  ev_OrgId := orgID;
  ev_Epoch := epoch;
  ev_EventType := ee_EventType entry;
  ev_MemoryContentHash := ee_MemoryContentHash entry;
  ev_SignerPubkey := ee_SignerPubkey entry;
  ev_Nonce := ee_Nonce entry;
  ev_Signature := ee_Signature entry;
  ev_Fingerprint := fingerprint;
  ev_Body := ee_Body entry;
|}.

(** What became of an entry of a batch. *)
Inductive verdict := Accepted | RejectedDuplicate | RejectedInvalid.

#[export] Instance verdict_eq_dec : EqDecision verdict.
Proof. solve_decision. Defined.

(** The counters of a batch: accepted, rejected as duplicate, rejected as
    invalid. *)
Definition tally (v : verdict) (c : N * N * N) : N * N * N :=
  let '(a, d, i) := c in
  match v with
  | Accepted => ((a + 1)%u64, d, i)
  | RejectedDuplicate => (a, (d + 1)%u64, i)
  | RejectedInvalid => (a, d, (i + 1)%u64)
  end.

Record Keeper := mkKeeper { authority : string }.

Section KeeperOps.
Context {P : Type} {CRYPTO : Crypto} {ORG : OrgKeeper P} {MEM : MemoryKeeper P}
  {BW : BandwidthKeeper P} {REP : ReputationKeeper P} (k : Keeper).
Notation S := (St serve_val P).

Definition SetParams (params : Params) : M S unit := kset ParamsKey (VParams params).

(** A loop over a batch, counting verdicts. *)
Fixpoint process {A} (body : A -> M S verdict) (c : N * N * N) (l : list A) : M S (N * N * N) :=
  match l with
  | [] => mret c
  | x :: l' => v ← body x; process body (tally v c) l'
  end.

Definition StoreDenialReceipt (orgID : string) (epoch : N) (denialFingerprint : string)
    (entry : DenialEntry) : M S unit :=
  kset (denialReceiptKey orgID epoch denialFingerprint) (VDenial {|
    dr_OrgId := orgID;
    dr_MemoryHash := dn_MemoryHash entry;
    dr_DenyKey := hex_encode (dn_ServeKeyPubkey entry);
    dr_Reason := dn_Reason entry;
    dr_Epoch := epoch;
    dr_ServeFingerprint := dn_ServeFingerprint entry;
    dr_ServeKeyPubkey := dn_ServeKeyPubkey entry;
    dr_NegAnchor := "";
  |}).

Definition incr_uint64 (key : string) : M S unit :=
  count ← kread (read_uint64 key);
  kset key (VRaw (PutUint64 (count + 1)%u64)).

Definition incrementMemoryServeCount (orgID contentHash : string) (epoch : N) : M S unit :=
  incr_uint64 (memCountKey orgID contentHash epoch).
Definition IncrementDenialCount (orgID contentHash : string) (epoch : N) : M S unit :=
  incr_uint64 (denialCountKey orgID contentHash epoch).

(** [GetEpochServeStats] with its error dropped and a fresh record for nil, then
    written back changed. *)
Definition modify_stats (orgID : string) (epoch : N) (f : EpochServeStats -> EpochServeStats) :
    M S unit :=
  stats ← kread (fun m => Ok match GetEpochServeStats m orgID epoch with
                             | Ok s => s
                             | Err _ => NewEpochServeStats orgID epoch
                             end);
  kset (statsKey orgID epoch) (VStats (f stats)).

(** The first time a key is met it is marked and the statistics are changed. *)
Definition first_time (key orgID : string) (epoch : N) (f : EpochServeStats -> EpochServeStats) :
    M S unit :=
  has ← khas key;
  if (has : bool) then mret tt else kset key present ;; modify_stats orgID epoch f.

Definition count_serve (isSelfServe : bool) (modelID : string) (stats : EpochServeStats) :
    EpochServeStats :=
  let stats := stats <| es_TotalServes := (es_TotalServes stats + 1)%u64 |> in
  let stats := if isSelfServe then stats <| es_SelfServes := (es_SelfServes stats + 1)%u64 |>
               else stats in
  if bool_decide (modelID = "") then stats
  else stats <| es_ModelBreakdown :=
         <[modelID := (default 0 (es_ModelBreakdown stats !! modelID) + 1)%u64]>
           (es_ModelBreakdown stats) |>.

Definition updateEpochStats (orgID : string) (epoch : N) (contentHash serveKey : string)
    (isSelfServe : bool) (modelID : string) : M S unit :=
  first_time (memFirstKey orgID contentHash epoch) orgID epoch
    (fun stats => stats <| es_UniqueMemoriesServed := (es_UniqueMemoriesServed stats + 1)%u64 |>) ;;
  first_time (keyFirstKey orgID serveKey epoch) orgID epoch
    (fun stats => stats <| es_UniqueServeKeys := (es_UniqueServeKeys stats + 1)%u64 |>) ;;
  modify_stats orgID epoch (count_serve isSelfServe modelID).

Definition updateEpochDenialStats (orgID : string) (epoch : N) : M S unit :=
  modify_stats orgID epoch
    (fun stats => stats <| es_TotalDenials := (es_TotalDenials stats + 1)%u64 |>).

Definition updateContributorServes (contributorID : string) (epoch : N) (orgID : string)
    (isSelfServe : bool) (turnCount : N) : M S unit :=
  let key := contributorKey contributorID epoch in
  cs ← kread (fun m => Ok match m !! key with
                          | Some (VContributor c) => c
                          | Some _ => mkContributorEpochServes "" 0 0 0 [] 0
                          | None => NewContributorEpochServes contributorID epoch
                          end);
  let cs := cs <| cs_ServeCount := (cs_ServeCount cs + 1)%u64 |> in
  let cs := if isSelfServe then cs <| cs_SelfServeCount := (cs_SelfServeCount cs + 1)%u64 |>
            else cs in
  let cs := AddOrgID orgID cs in
  kset key (VContributor (cs <| cs_TotalTurns := (cs_TotalTurns cs + turnCount)%u64 |>)).

(** The writes for an accepted serve. *)
Definition record_serve (orgID : string) (epoch : N) (serve : ServeEntry)
    (serveFingerprint serveKeyID : string) (isSelfServe : bool) : M S unit :=
  let receipt := NewServeReceipt orgID (sv_MemoryContentHash serve) serveKeyID
    (sv_ServeKeyPubkey serve) (sv_ContributorId serve) epoch serveFingerprint isSelfServe
    (sv_ModelId serve) (sv_TurnCount serve) (sv_EpisodeRef serve) in
  let receiptStoreKey := receiptKey orgID epoch serveFingerprint in
  kset receiptStoreKey (VReceipt (ServeReceiptToStored receipt)) ;;
  kset (serveFingerprintKey serveFingerprint) (VRaw receiptStoreKey) ;;
  incrementMemoryServeCount orgID (sv_MemoryContentHash serve) epoch ;;
  updateEpochStats orgID epoch (sv_MemoryContentHash serve) serveKeyID isSelfServe
    (sv_ModelId serve) ;;
  updateContributorServes (sv_ContributorId serve) epoch orgID isSelfServe (sv_TurnCount serve).

(** Reputation goes to the contributor of the stored memory; failures are logged. *)
Definition attribute_serve (orgID : string) (epoch : N) (contentHash : string)
    (isSelfServe : bool) : M S unit :=
  mem ← attempt (peer_read (fun p => GetApprovedMemory p orgID contentHash));
  match mem with
  | Ok (Some mem) =>
      if bool_decide (Memory.mc_Contributor mem = "") then mret tt
      else attempt (on_peers (RecordServe (Memory.mc_Contributor mem) orgID epoch isSelfServe)) ;;
           mret tt
  | _ => mret tt
  end.

Definition process_serve (params : Params) (orgID : string) (epoch : N) (serve : ServeEntry) :
    M S verdict :=
  if negb (len (sv_ServeKeyPubkey serve) =? 32) || negb (len (sv_ServeSig serve) =? 64)
  then mret RejectedInvalid else
  if negb (ed25519_Verify (sv_ServeKeyPubkey serve)
             (CanonicalServeBody orgID (sv_MemoryContentHash serve) epoch
                (sv_ServeKeyPubkey serve) (sv_Nonce serve) (sv_EpisodeRef serve))
             (sv_ServeSig serve))
  then mret RejectedInvalid else
  let serveFingerprint :=
    ComputeServeFingerprint (sv_MemoryContentHash serve) (sv_ServeKeyPubkey serve) epoch in
  dup ← kread (A := bool) (fun m => Ok (HasServeFingerprint m serveFingerprint));
  if (dup : bool) then mret RejectedDuplicate else
  mem ← attempt (peer_read (fun p => GetApprovedMemory p orgID (sv_MemoryContentHash serve)));
  match mem with
  | Err _ => mret RejectedInvalid
  | Ok _ =>
      let canonicalCID := ContentHashToHex (sv_MemoryContentHash serve) in
      valid ← peer_read (fun p => IsValidInEpoch p orgID canonicalCID epoch);
      if negb valid then mret RejectedInvalid else
      let serveKeyID := hex_encode (sv_ServeKeyPubkey serve) in
      let isSelfServe := bool_decide (serveKeyID = sv_ContributorId serve) in
      currentCount ← kread (fun m => GetMemoryServeCount m orgID (sv_MemoryContentHash serve) epoch);
      if p_MaxServesPerMemoryPerEpoch params <=? currentCount then mret RejectedInvalid else
      record_serve orgID epoch serve serveFingerprint serveKeyID isSelfServe ;;
      attribute_serve orgID epoch (sv_MemoryContentHash serve) isSelfServe ;;
      mret Accepted
  end.

(** The error of [GetParams] is dropped, leaving the zero parameters. *)
Definition ProcessServeBatch (orgID : string) (epoch : N) (serves : list ServeEntry) :
    M S (N * N * N) :=
  params ← kread (fun m => Ok match GetParams m with Ok p => p | Err _ => zero_Params end);
  fail_if (p_MaxServesPerBatch params <? N.of_nat (length serves)) ErrBatchTooLarge ;;
  on_peers (ConsumeServeBandwidth orgID epoch (N.of_nat (length serves))) ;;
  process (process_serve params orgID epoch) (0, 0, 0) serves.

Definition process_event (orgID : string) (epoch : N) (entry : option EventEntry) : M S verdict :=
  match entry with
  | None => fail (Panic "nil event entry")
  | Some entry =>
      match CanonicalEventBody (ee_EventType entry) orgID (ee_MemoryContentHash entry) epoch
              (ee_SignerPubkey entry) (ee_Nonce entry) entry with
      | Err _ => mret RejectedInvalid
      | Ok body =>
          fail_if (negb (len (ee_SignerPubkey entry) =? 32)) (Panic "ed25519: bad public key length") ;;
          if negb (ed25519_Verify (ee_SignerPubkey entry) body (ee_Signature entry))
          then mret RejectedInvalid else
          let fingerprint := ComputeEventFingerprint body in
          has ← khas (eventFingerprintKey fingerprint);
          if (has : bool) then mret RejectedDuplicate else
          mem ← attempt (peer_read (fun p => GetApprovedMemory p orgID (ee_MemoryContentHash entry)));
          match mem with
          | Err _ => mret RejectedInvalid
          | Ok _ =>
              kset (eventKey orgID epoch fingerprint)
                (VEvent (storedEventFromEntry orgID epoch entry fingerprint)) ;;
              kset (eventFingerprintKey fingerprint) present ;;
              mret Accepted
          end
      end
  end.

Definition ProcessEventBatch (orgID : string) (epoch : N) (events : list (option EventEntry)) :
    M S (N * N * N) :=
  process (process_event orgID epoch) (0, 0, 0) events.

Definition SetPolicyAnchor (ctx : BlockCtx) (policyVersion policyHash : string) : M S unit :=
  existing ← kread (fun m => GetPolicyAnchor m policyVersion);
  match existing with
  | Some a => fail_if (negb (bool_decide (pa_PolicyHash a = policyHash)))
                (Errorf "policy anchor already exists with different hash")
  | None =>
      kset (policyAnchorKey policyVersion)
        (VAnchor (mkPolicyAnchor policyVersion policyHash 0 (BlockHeight ctx))) ;;
      kset LatestPolicyAnchorKey (VRaw policyVersion)
  end.

Definition InitGenesis (state : GenesisState) : M S unit :=
  for_each (g_ServeReceipts state) (fun receipt =>
    let receiptStoreKey := receiptKey (r_OrgID receipt) (r_Epoch receipt) (r_Fingerprint receipt) in
    kset receiptStoreKey (VReceipt (ServeReceiptToStored receipt)) ;;
    kset (serveFingerprintKey (r_Fingerprint receipt)) (VRaw receiptStoreKey)) ;;
  for_each (g_DenialReceipts state) (fun denial =>
    match denial with
    | None => mret tt
    | Some d =>
        let fp := ComputeDenialFingerprint (dr_OrgId d) (dr_MemoryHash d) (dr_Epoch d)
                    (dr_ServeKeyPubkey d) (dr_ServeFingerprint d) in
        kset (denialFingerprintKey fp) present ;;
        kset (denialReceiptKey (dr_OrgId d) (dr_Epoch d) fp) (VDenial d) ;;
        IncrementDenialCount (dr_OrgId d) (dr_MemoryHash d) (dr_Epoch d) ;;
        updateEpochDenialStats (dr_OrgId d) (dr_Epoch d)
    end) ;;
  for_each (g_Events state) (fun event =>
    match event with
    | None => mret tt
    | Some e =>
        kset (eventKey (ev_OrgId e) (ev_Epoch e) (ev_Fingerprint e)) (VEvent e) ;;
        kset (eventFingerprintKey (ev_Fingerprint e)) present
    end) ;;
  for_each (g_PolicyAnchors state) (fun anchor =>
    match anchor with
    | None => mret tt
    | Some a =>
        kset (policyAnchorKey (pa_PolicyVersion a)) (VAnchor a) ;;
        kset LatestPolicyAnchorKey (VRaw (pa_PolicyVersion a))
    end) ;;
  for_each (g_EpochStats state) (fun es =>
    kset (statsKey (es_OrgID es) (es_Epoch es)) (VStats es)) ;;
  for_each (g_ContributorServes state) (fun cs =>
    kset (contributorKey (cs_ContributorID cs) (cs_Epoch cs)) (VContributor cs)).

(** ** Message server (msg_server.go) *)
Definition requireServingKeySigner (orgID signer : string) : M S unit :=
  servingAddr ← peer_read (fun p => GetServingAddress p orgID);
  fail_if (bool_decide (servingAddr = "") || negb (bool_decide (signer = servingAddr)))
    ErrUnauthorized.

Definition require_org (orgID : string) : M S unit :=
  hasOrg ← peer_read (fun p => HasOrg p orgID);
  fail_if (negb hasOrg) ErrOrgNotFound.

(** Returns accepted, rejected as duplicate, rejected as invalid. *)
Definition MsgServer_SubmitServeBatch (msg : MsgSubmitServeBatch) : M S (N * N * N) :=
  lift (MsgSubmitServeBatch_ValidateBasic msg) ;;
  require_org (mb_OrgId msg) ;;
  requireServingKeySigner (mb_OrgId msg) (mb_Signer msg) ;;
  ProcessServeBatch (mb_OrgId msg) (mb_Epoch msg) (mb_Serves msg).

(** One denial; the verdict [RejectedInvalid] stands for every reason other
    than a duplicate. *)
Definition process_denial (orgID : string) (epoch : N) (entry : DenialEntry) : M S verdict :=
  if negb (len (dn_ServeKeyPubkey entry) =? 32) || negb (len (dn_ServeSig entry) =? 64)
  then mret RejectedInvalid else
  if negb (ed25519_Verify (dn_ServeKeyPubkey entry)
             (CanonicalDenialBody orgID (dn_MemoryHash entry) epoch (dn_ServeKeyPubkey entry)
                (dn_ServeFingerprint entry) (dn_Nonce entry))
             (dn_ServeSig entry))
  then mret RejectedInvalid else
  let denialFingerprint := ComputeDenialFingerprint orgID (dn_MemoryHash entry) epoch
    (dn_ServeKeyPubkey entry) (dn_ServeFingerprint entry) in
  dup ← kread (A := bool) (fun m => Ok (HasDenialFingerprint m denialFingerprint));
  if (dup : bool) then mret RejectedDuplicate else
  originating ← kread (fun m => GetServeReceiptByFingerprint m (dn_ServeFingerprint entry));
  match originating with
  | None => mret RejectedInvalid
  | Some originatingReceipt =>
      if negb (bool_decide (dn_MemoryHash entry = sr_MemoryContentHash originatingReceipt))
      then mret RejectedInvalid else
      if negb (bool_decide (dn_ServeKeyPubkey entry = sr_ServeKeyPubkey originatingReceipt))
      then mret RejectedInvalid else
      mem ← attempt (peer_read (fun p => GetApprovedMemory p orgID (dn_MemoryHash entry)));
      match mem with
      | Err _ => mret RejectedInvalid
      | Ok _ =>
          kset (denialFingerprintKey denialFingerprint) present ;;
          IncrementDenialCount orgID (sr_MemoryContentHash originatingReceipt) epoch ;;
          updateEpochDenialStats orgID epoch ;;
          StoreDenialReceipt orgID epoch denialFingerprint entry ;;
          mret Accepted
      end
  end.

(** Returns accepted and rejected. *)
Definition MsgServer_SubmitDenialBatch (ctx : BlockCtx) (msg : MsgSubmitDenialBatch) :
    M S (N * N) :=
  lift (MsgSubmitDenialBatch_ValidateBasic msg) ;;
  require_org (md_OrgId msg) ;;
  requireServingKeySigner (md_OrgId msg) (md_Signer msg) ;;
  params ← kread GetParams;
  fail_if (p_MaxServesPerBatch params <? N.of_nat (length (md_Entries msg))) ErrBatchTooLarge ;;
  counts ← process (process_denial (md_OrgId msg) (md_Epoch msg)) (0, 0, 0) (md_Entries msg);
  let '(accepted, duplicate, invalid) := counts in
  let rejected := (duplicate + invalid)%u64 in
  emit (mkEvent "denial_batch_submitted" [
    ("org_id", md_OrgId msg);
    ("submitter", md_Signer msg);
    ("epoch", FormatUint (md_Epoch msg));
    ("accepted_count", FormatUint accepted);
    ("rejected_count", FormatUint rejected);
    ("block_height", FormatInt (BlockHeight ctx))]) ;;
  mret (accepted, rejected).

Definition MsgServer_SubmitEventBatch (ctx : BlockCtx) (msg : MsgSubmitEventBatch) :
    M S (N * N * N) :=
  lift (MsgSubmitEventBatch_ValidateBasic msg) ;;
  require_org (me_OrgId msg) ;;
  requireServingKeySigner (me_OrgId msg) (me_Signer msg) ;;
  params ← kread GetParams;
  fail_if (p_MaxServesPerBatch params <? N.of_nat (length (me_Events msg))) ErrBatchTooLarge ;;
  counts ← ProcessEventBatch (me_OrgId msg) (me_Epoch msg) (me_Events msg);
  let '(accepted, duplicate, invalid) := counts in
  emit (mkEvent "event_batch_submitted" [
    ("org_id", me_OrgId msg);
    ("submitter", me_Signer msg);
    ("epoch", FormatUint (me_Epoch msg));
    ("accepted_count", FormatUint accepted);
    ("rejected_duplicate_count", FormatUint duplicate);
    ("rejected_invalid_count", FormatUint invalid);
    ("block_height", FormatInt (BlockHeight ctx))]) ;;
  mret (accepted, duplicate, invalid).

Definition MsgServer_AnchorPolicyVersion (ctx : BlockCtx) (msg : MsgAnchorPolicyVersion) :
    M S unit :=
  lift (MsgAnchorPolicyVersion_ValidateBasic msg) ;;
  fail_if (negb (bool_decide (ma_Authority msg = authority k))) ErrUnauthorized ;;
  SetPolicyAnchor ctx (ma_PolicyVersion msg) (ma_PolicyHash msg) ;;
  emit (mkEvent "policy_version_anchored" [
    ("policy_version", ma_PolicyVersion msg);
    ("policy_hash", hex_encode (ma_PolicyHash msg));
    ("block_height", FormatInt (BlockHeight ctx))]).

Definition MsgServer_UpdateParams (msg : MsgUpdateParams) : M S unit :=
  lift (MsgUpdateParams_ValidateBasic msg) ;;
  fail_if (negb (bool_decide (mu_Authority msg = authority k))) ErrUnauthorized ;;
  match mu_Params msg with
  | None => fail (Panic "nil params")
  | Some p => SetParams p
  end.
End KeeperOps.

(** The messages of the module. *)
Inductive serve_msg :=
  | ServeBatchMsg (msg : MsgSubmitServeBatch)
  | DenialBatchMsg (msg : MsgSubmitDenialBatch)
  | EventBatchMsg (msg : MsgSubmitEventBatch)
  | AnchorPolicyMsg (msg : MsgAnchorPolicyVersion)
  | UpdateParamsMsg (msg : MsgUpdateParams).

Definition handle {P} {CRYPTO : Crypto} {ORG : OrgKeeper P} {MEM : MemoryKeeper P}
    {BW : BandwidthKeeper P} {REP : ReputationKeeper P} (k : Keeper) (ctx : BlockCtx)
    (m : serve_msg) : M (St serve_val P) unit :=
  match m with
  | ServeBatchMsg msg => MsgServer_SubmitServeBatch msg ;; mret tt
  | DenialBatchMsg msg => MsgServer_SubmitDenialBatch ctx msg ;; mret tt
  | EventBatchMsg msg => MsgServer_SubmitEventBatch ctx msg ;; mret tt
  | AnchorPolicyMsg msg => MsgServer_AnchorPolicyVersion k ctx msg
  | UpdateParamsMsg msg => MsgServer_UpdateParams k msg
  end.
