(* ===== verification/ServeFacts.v ===== *)
(** * The logs and counters of x/serve

    The invariant that ties receipts, fingerprints, counters and statistics
    together, and the append-only order on stores, kept by every message. *)

From S2P Require Import Prelude Bytes Store Wire Ifaces Org Memory Serve.
From Stdlib Require Import Ascii.
Local Open Scope string_scope.
Local Open Scope N_scope.

Implicit Types m : gmap string serve_val.

(** ** Keys *)

(** Keys of the form prefix, org, decimal epoch, hex. *)
Lemma org_epoch_hex_inj p o e f o' e' f' :
  p +:+ o +:+ "/" +:+ FormatUint e +:+ "/" +:+ hex_encode f =
  p +:+ o' +:+ "/" +:+ FormatUint e' +:+ "/" +:+ hex_encode f' -> o = o' /\ e = e' /\ f = f'.
Proof.
  intros H%str_app_inj_l.
  rewrite <- (str_app_assoc "/" (FormatUint e)), <- (str_app_assoc "/" (FormatUint e')) in H.
  rewrite <- (str_app_assoc o), <- (str_app_assoc o') in H.
  apply sep_split_last in H as [H Hf]; try apply hex_encode_no_slash.
  apply sep_split_last in H as [-> He]; try apply FormatUint_no_slash.
  by apply hex_encode_inj in Hf; apply FormatUint_inj in He.
Qed.

Lemma receiptKey_inj o e f o' e' f' :
  receiptKey o e f = receiptKey o' e' f' -> o = o' /\ e = e' /\ f = f'.
Proof. apply org_epoch_hex_inj. Qed.
Lemma denialReceiptKey_inj o e f o' e' f' :
  denialReceiptKey o e f = denialReceiptKey o' e' f' -> o = o' /\ e = e' /\ f = f'.
Proof. apply org_epoch_hex_inj. Qed.
Lemma eventKey_inj o e f o' e' f' :
  eventKey o e f = eventKey o' e' f' -> o = o' /\ e = e' /\ f = f'.
Proof. apply org_epoch_hex_inj. Qed.

Lemma statsKey_inj o e o' e' : statsKey o e = statsKey o' e' -> o = o' /\ e = e'.
Proof.
  unfold statsKey. intros H%str_app_inj_l.
  apply sep_split_last in H as [-> He]; try apply FormatUint_no_slash. by apply FormatUint_inj in He.
Qed.

Lemma memCountKey_inj o h e o' h' e' :
  memCountKey o h e = memCountKey o' h' e' -> o = o' /\ h = h' /\ e = e'.
Proof.
  unfold memCountKey. intros H%str_app_inj_l.
  rewrite <- (str_app_assoc "/" (ContentHashToHex h)), <- (str_app_assoc "/" (ContentHashToHex h')) in H.
  rewrite <- (str_app_assoc o), <- (str_app_assoc o') in H.
  apply sep_split_last in H as [H He]; try apply FormatUint_no_slash.
  apply sep_split_last in H as [-> Hf]; try apply hex_encode_no_slash.
  by apply hex_encode_inj in Hf; apply FormatUint_inj in He.
Qed.

Lemma fingerprintKey_inj f f' : serveFingerprintKey f = serveFingerprintKey f' -> f = f'.
Proof. by intros H%str_app_inj_l%hex_encode_inj. Qed.

(** ** Counting receipts *)
Definition receipts_total (q : StoredServeReceipt -> bool) : gmap string serve_val -> N :=
  sum_values (fun _ v => match v with VReceipt r => if q r then 1 else 0 | _ => 0 end).

Definition of_memory (o h : string) (e : N) (r : StoredServeReceipt) : bool :=
  bool_decide (sr_OrgId r = o) && bool_decide (sr_MemoryContentHash r = h) && (sr_Epoch r =? e).
Definition of_org (o : string) (e : N) (r : StoredServeReceipt) : bool :=
  bool_decide (sr_OrgId r = o) && (sr_Epoch r =? e).

Definition is_receipt (v : serve_val) : bool := match v with VReceipt _ => true | _ => false end.

Lemma receipts_insert_other q m k v :
  is_receipt v = false -> (forall w, m !! k = Some w -> is_receipt w = false) ->
  receipts_total q (<[k:=v]> m) = receipts_total q m.
Proof.
  intros Hv Hk. pose proof (sum_insert (fun _ v => match v with
    | VReceipt r => if q r then 1 else 0 | _ => 0 end) m k v) as H.
  unfold receipts_total. destruct (m !! k) as [w|]; simpl in H.
  - specialize (Hk _ eq_refl). destruct v, w; try done; lia.
  - destruct v; try done; lia.
Qed.

Lemma receipts_insert_new q m k r :
  m !! k = None ->
  receipts_total q (<[k:=VReceipt r]> m) = receipts_total q m + if q r then 1 else 0.
Proof. intros Hk. unfold receipts_total. rewrite sum_insert_new by done. lia. Qed.

#[export] Instance StoredServeReceipt_eq_dec : EqDecision StoredServeReceipt.
Proof. solve_decision. Defined.

Lemma total_of_receipt m k r :
  m !! k = Some (VReceipt r) -> receipts_total (fun r' => bool_decide (r' = r)) m <> 0.
Proof.
  intros Hk. pose proof (sum_elem (fun _ v => match v with
    | VReceipt r' => if bool_decide (r' = r) then 1 else 0 | _ => 0 end) m k _ Hk) as H.
  simpl in H. rewrite bool_decide_true in H by done. unfold receipts_total. lia.
Qed.

Lemma receipt_of_total m r :
  receipts_total (fun r' => bool_decide (r' = r)) m <> 0 -> exists k, m !! k = Some (VReceipt r).
Proof.
  intros (k & v & Hk & Hv)%sum_positive. destruct v; try done. exists k.
  case_bool_decide; congruence.
Qed.

(** ** The invariant *)
Definition total_serves m (o : string) (e : N) : N :=
  match GetEpochServeStats m o e with Ok s => es_TotalServes s | Err _ => 0 end.

(** [pend] is the org and epoch of a serve whose receipt is written and which
    the statistics do not count yet: the state in the middle of recording it. *)
Record serve_inv_at (pend : option (string * N)) m : Prop := {
  (** every receipt is under its own key and its fingerprint points to it *)
  inv_receipt k r : m !! k = Some (VReceipt r) ->
    k = receiptKey (sr_OrgId r) (sr_Epoch r) (sr_Fingerprint r) /\
    m !! serveFingerprintKey (sr_Fingerprint r) = Some (VRaw k);
  inv_receipt_val o e f v : m !! receiptKey o e f = Some v -> is_receipt v = true;
  inv_pointer f v : m !! serveFingerprintKey f = Some v ->
    exists k r, v = VRaw k /\ m !! k = Some (VReceipt r) /\ sr_Fingerprint r = f;
  (** denials and events have their fingerprints marked *)
  inv_denial o e f : is_Some (m !! denialReceiptKey o e f) -> is_Some (m !! denialFingerprintKey f);
  inv_event o e f : is_Some (m !! eventKey o e f) -> is_Some (m !! eventFingerprintKey f);
  (** the counters count the receipts *)
  inv_memcount o h e :
    GetMemoryServeCount m o h e = Ok (receipts_total (of_memory o h e) m mod two64);
  inv_stats o e v : m !! statsKey o e = Some v ->
    exists s, v = VStats s /\ is_u64 (es_TotalServes s);
  inv_total o e :
    (total_serves m o e + if decide (pend = Some (o, e)) then 1 else 0)%u64 =
    receipts_total (of_org o e) m mod two64;
}.

Notation serve_inv := (serve_inv_at None).

Lemma total_serves_u64 pend m o e : serve_inv_at pend m -> is_u64 (total_serves m o e).
Proof.
  intros HI. unfold total_serves, GetEpochServeStats. destruct (m !! statsKey o e) as [v|] eqn:E; [|done].
  by destruct (inv_stats _ _ HI _ _ _ E) as (s & -> & ?).
Qed.

Lemma total_serves_exact m o e :
  serve_inv m -> total_serves m o e = receipts_total (of_org o e) m mod two64.
Proof.
  intros HI. pose proof (inv_total _ _ HI o e) as H. rewrite decide_False in H by done.
  rewrite <- H. symmetry. rewrite u64_add_small; rewrite N.add_0_r; [done|].
  by eapply total_serves_u64.
Qed.

(** Keys outside the receipts, pointers, counters and statistics. *)
Definition unprotected (k : string) : bool :=
  negb (existsb (fun p => String.prefix p k)
    ["receipt/"; "fingerprint/"; "memcount/"; "stats/"]).

Lemma unprotected_ne k p t :
  unprotected k = true ->
  In p ["receipt/"; "fingerprint/"; "memcount/"; "stats/"] -> k <> p +:+ t.
Proof.
  intros Hk Hp ->. unfold unprotected in Hk. apply negb_true_iff in Hk.
  rewrite <- not_true_iff_false in Hk. apply Hk. apply existsb_exists.
  exists p. split; [done|]. apply prefix_app.
Qed.

Ltac prot := first
  [ eapply unprotected_ne; [eassumption|simpl; tauto]
  | apply not_eq_sym; eapply unprotected_ne; [eassumption|simpl; tauto]
  | key_ne ].

Lemma serve_inv_other pend m k v :
  serve_inv_at pend m -> unprotected k = true -> is_receipt v = false ->
  (forall o e f, k = denialReceiptKey o e f -> is_Some (m !! denialFingerprintKey f)) ->
  (forall o e f, k = eventKey o e f -> is_Some (m !! eventFingerprintKey f)) ->
  serve_inv_at pend (<[k:=v]> m).
Proof.
  intros HI Hk Hv Hd He. destruct HI as [H1 H2 H3 H4 H5 H6 H7 H8].
  assert (forall w, m !! k = Some w -> is_receipt w = false) as Hold.
  { intros w Hw. destruct w; try done. destruct (H1 _ _ Hw) as [E _].
    exfalso. revert E. prot. }
  split.
  - intros k' r Hr. rewrite lookup_insert_Some in Hr. destruct Hr as [[_ ->]|[Hne Hr]]; [done|].
    destruct (H1 _ _ Hr) as [-> Hp]. split; [done|]. rewrite lookup_insert_ne; [done|prot].
  - intros o e f w. rewrite lookup_insert_ne; [apply H2|prot].
  - intros f w. rewrite lookup_insert_ne by prot. intros Hw.
    destruct (H3 _ _ Hw) as (k' & r & -> & Hr & Hf). exists k', r. split; [done|]. split; [|done].
    destruct (H1 _ _ Hr) as [-> _]. rewrite lookup_insert_ne; [done|prot].
  - intros o e f. rewrite !lookup_insert_is_Some. intros [E|[_ Hin]];
      destruct (decide (k = denialFingerprintKey f)); eauto.
  - intros o e f. rewrite !lookup_insert_is_Some. intros [E|[_ Hin]];
      destruct (decide (k = eventFingerprintKey f)); eauto.
  - intros o h e. unfold GetMemoryServeCount, read_uint64. rewrite lookup_insert_ne by prot.
    rewrite receipts_insert_other by done. apply H6.
  - intros o e w. rewrite lookup_insert_ne by prot. apply H7.
  - intros o e. unfold total_serves, GetEpochServeStats. rewrite lookup_insert_ne by prot.
    rewrite receipts_insert_other by done. apply H8.
Qed.

Definition uncounted (pend : option (string * N)) (o : string) (e : N) : N :=
  if decide (pend = Some (o, e)) then 1 else 0.

(** Writing the statistics of an org and epoch. *)
Lemma inv_write_stats pend pend' m o e s :
  serve_inv_at pend m -> is_u64 (es_TotalServes s) ->
  (es_TotalServes s + uncounted pend' o e)%u64 = (total_serves m o e + uncounted pend o e)%u64 ->
  (forall o' e', (o', e') <> (o, e) -> uncounted pend' o' e' = uncounted pend o' e') ->
  serve_inv_at pend' (<[statsKey o e := VStats s]> m).
Proof.
  intros HI Hu Hs Hp. destruct HI as [H1 H2 H3 H4 H5 H6 H7 H8].
  assert (forall w, m !! statsKey o e = Some w -> is_receipt w = false) as Hold
    by (intros w (s' & -> & _)%H7; done).
  split.
  - intros k r. rewrite lookup_insert_Some. intros [[_ ?]|[_ Hr]]; [done|].
    destruct (H1 _ _ Hr) as [-> ?]. split; [done|]. by rewrite lookup_insert_ne.
  - intros o' e' f w. rewrite lookup_insert_ne by done. apply H2.
  - intros f w. rewrite lookup_insert_ne by done. intros Hw.
    destruct (H3 _ _ Hw) as (k & r & -> & Hr & Hf). exists k, r. split; [done|]. split; [|done].
    destruct (H1 _ _ Hr) as [-> _]. by rewrite lookup_insert_ne.
  - intros o' e' f. rewrite !lookup_insert_ne by done. apply H4.
  - intros o' e' f. rewrite !lookup_insert_ne by done. apply H5.
  - intros o' h e'. unfold GetMemoryServeCount, read_uint64. rewrite lookup_insert_ne by done.
    rewrite receipts_insert_other by done. apply H6.
  - intros o' e' w. rewrite lookup_insert_Some. intros [[_ <-]|[_ Hw]]; [by exists s|by eapply H7].
  - intros o' e'. rewrite receipts_insert_other by done. rewrite <- H8.
    fold (uncounted pend o' e'). fold (uncounted pend' o' e').
    unfold total_serves at 1, GetEpochServeStats.
    destruct (decide (statsKey o e = statsKey o' e')) as [E|E].
    + apply statsKey_inj in E as [<- <-]. by rewrite lookup_insert_eq.
    + rewrite lookup_insert_ne by done. rewrite Hp; [done|]. congruence.
Qed.

(** Changing statistics other than the number of serves. *)
Lemma inv_insert_stats pend m o e s :
  serve_inv_at pend m -> es_TotalServes s = total_serves m o e ->
  serve_inv_at pend (<[statsKey o e := VStats s]> m).
Proof.
  intros HI Hs. eapply inv_write_stats; [done| |by rewrite Hs|done].
  rewrite Hs. by eapply total_serves_u64.
Qed.

(** Counting the serve that was left to count. *)
Lemma inv_count_serve m o e s :
  serve_inv_at (Some (o, e)) m -> es_TotalServes s = (total_serves m o e + 1)%u64 ->
  serve_inv (<[statsKey o e := VStats s]> m).
Proof.
  intros HI Hs. eapply inv_write_stats; [done|rewrite Hs; apply u64_add_is| |].
  - rewrite Hs. unfold uncounted. rewrite decide_False, decide_True by done.
    rewrite (u64_add_small (u64_add _ _) 0); rewrite N.add_0_r; [done|]. apply u64_add_is.
  - intros o' e' Hne. unfold uncounted. rewrite !decide_False; congruence.
Qed.

(** ** Append-only stores

    What is logged stays: receipts, denials, events, policy anchors and the
    fingerprints of all of them. *)
Definition logged (k : string) : bool :=
  existsb (fun p => String.prefix p k)
    ["receipt/"; "fingerprint/"; "denial/"; "denyfingerprint/"; "event/"; "eventfp/";
     "policy_anchor/"].

Lemma logged_app p t :
  In p ["receipt/"; "fingerprint/"; "denial/"; "denyfingerprint/"; "event/"; "eventfp/";
        "policy_anchor/"] -> logged (p +:+ t) = true.
Proof. intros Hp. apply existsb_exists. exists p. split; [done|apply prefix_app]. Qed.

Definition grows m m' : Prop :=
  forall k v, logged k = true -> m !! k = Some v -> m' !! k = Some v.

#[export] Instance grows_preorder : PreOrder grows.
Proof. split; [by intros m k v|]. intros m1 m2 m3 H1 H2 k v Hk Hv. eauto. Qed.

Lemma grows_other m k v : logged k = false -> grows m (<[k:=v]> m).
Proof. intros Hk k' v' Hl Hv. rewrite lookup_insert_ne; [done|]. intros ->. congruence. Qed.

Lemma grows_new m k v : m !! k = None -> grows m (<[k:=v]> m).
Proof. intros Hk k' v' _ Hv. rewrite lookup_insert_ne; [done|]. intros ->. congruence. Qed.

(** What a computation on the store keeps. *)
Definition good m m' : Prop := serve_inv m' /\ grows m m'.

Lemma good_trans m m1 m2 : good m m1 -> (serve_inv m1 -> good m1 m2) -> good m m2.
Proof. intros [H1 G1] H. destruct (H H1) as [H2 G2]. split; [done|]. by etrans. Qed.

(** ** Recording a serve *)

Lemma counter_read n : n < two64 -> BigEndianUint64 (PutUint64 n) = Ok n.
Proof. apply BigEndianUint64_Put. Qed.

Lemma of_memory_key r o h e :
  of_memory o h e r = true <-> memCountKey (sr_OrgId r) (sr_MemoryContentHash r) (sr_Epoch r) =
                               memCountKey o h e.
Proof.
  unfold of_memory. rewrite !andb_true_iff, !bool_decide_eq_true, N.eqb_eq. split.
  - by intros [[-> ->] ->].
  - by intros (-> & -> & ->)%memCountKey_inj.
Qed.

(** With a new fingerprint the receipt is new, and recording it adds one to
    what it counts for. *)
Lemma fresh_receipt m r :
  serve_inv m -> m !! serveFingerprintKey (sr_Fingerprint r) = None ->
  m !! receiptKey (sr_OrgId r) (sr_Epoch r) (sr_Fingerprint r) = None.
Proof.
  intros [H1 H2 _ _ _ _ _ _] Hf. destruct (m !! receiptKey _ _ _) as [v|] eqn:E; [|done].
  pose proof (H2 _ _ _ _ E) as Hv. destruct v; try done. destruct (H1 _ _ E) as [E2 Hp].
  apply receiptKey_inj in E2 as (_ & _ & E2). congruence.
Qed.

Lemma recorded_total m r c q :
  serve_inv m -> m !! serveFingerprintKey (sr_Fingerprint r) = None ->
  let k := receiptKey (sr_OrgId r) (sr_Epoch r) (sr_Fingerprint r) in
  receipts_total q (<[memCountKey (sr_OrgId r) (sr_MemoryContentHash r) (sr_Epoch r) := VRaw c]>
    (<[serveFingerprintKey (sr_Fingerprint r) := VRaw k]> (<[k := VReceipt r]> m))) =
  receipts_total q m + if q r then 1 else 0.
Proof.
  intros HI Hf k. pose proof (fresh_receipt _ _ HI Hf) as Hk. fold k in Hk.
  rewrite receipts_insert_other;
    [rewrite receipts_insert_other; [by apply receipts_insert_new|done|]|done|].
  - intros w. rewrite lookup_insert_ne by done. congruence.
  - intros w. rewrite !lookup_insert_ne by done. intros Hw.
    destruct w; try done. by destruct (inv_receipt _ _ HI _ _ Hw).
Qed.

(** A receipt, its pointer and the memory's counter: the statistics are one
    serve behind. *)
Lemma inv_record m r n :
  serve_inv m -> m !! serveFingerprintKey (sr_Fingerprint r) = None ->
  GetMemoryServeCount m (sr_OrgId r) (sr_MemoryContentHash r) (sr_Epoch r) = Ok n ->
  let k := receiptKey (sr_OrgId r) (sr_Epoch r) (sr_Fingerprint r) in
  let m' := <[memCountKey (sr_OrgId r) (sr_MemoryContentHash r) (sr_Epoch r) :=
                VRaw (PutUint64 (n + 1)%u64)]>
              (<[serveFingerprintKey (sr_Fingerprint r) := VRaw k]> (<[k := VReceipt r]> m)) in
  serve_inv_at (Some (sr_OrgId r, sr_Epoch r)) m' /\ grows m m' /\
  m' !! k = Some (VReceipt r) /\
  forall q, receipts_total q m' = receipts_total q m + if q r then 1 else 0.
Proof.
  intros HI Hf Hn. rewrite (inv_memcount _ _ HI) in Hn. injection Hn as <-.
  rewrite u64_succ_mod. intros k m'. pose proof HI as [H1 H2 H3 H4 H5 H6 H7 H8].
  pose proof (fresh_receipt _ _ HI Hf) as Hk. fold k in Hk.
  assert (forall q, receipts_total q m' = receipts_total q m + if q r then 1 else 0) as Hq
    by (intros q; by apply recorded_total).
  assert (m' !! k = Some (VReceipt r)) as Hr.
  { unfold m'. rewrite !lookup_insert_ne by done. apply lookup_insert_eq. }
  assert (grows m m') as Hg.
  { unfold m'. etrans; [by apply grows_new|]. etrans; [apply grows_new|by apply grows_other].
    rewrite lookup_insert_ne by done. exact Hf. }
  split; [|done].
  split.
  - intros k' r'. unfold m' at 1. rewrite lookup_insert_Some. intros [[_ ?]|[_ Hw]]; [done|].
    rewrite lookup_insert_Some in Hw. destruct Hw as [[_ ?]|[_ Hw]]; [done|].
    rewrite lookup_insert_Some in Hw. destruct Hw as [[<- [= <-]]|[_ Hw]].
    + split; [done|]. unfold m'. rewrite lookup_insert_ne by done. apply lookup_insert_eq.
    + destruct (H1 _ _ Hw) as [E Hp]. split; [done|]. apply Hg; [|done].
      apply logged_app. simpl; tauto.
  - intros o e f v. unfold m'. rewrite !lookup_insert_ne by done. rewrite lookup_insert_Some.
    intros [[_ <-]|[_ Hw]]; [done|]. by eapply H2.
  - intros f v. unfold m' at 1. rewrite lookup_insert_ne by done. rewrite lookup_insert_Some.
    intros [[Ef <-]|[_ Hw]].
    + apply fingerprintKey_inj in Ef as <-. eauto.
    + rewrite lookup_insert_ne in Hw by done. destruct (H3 _ _ Hw) as (k' & r' & -> & Hr' & Hfr).
      exists k', r'. split; [done|]. split; [|done]. apply Hg; [|done].
      destruct (H1 _ _ Hr') as [-> _]. apply logged_app. simpl; tauto.
  - intros o e f. unfold m'. rewrite !lookup_insert_ne by done. apply H4.
  - intros o e f. unfold m'. rewrite !lookup_insert_ne by done. apply H5.
  - intros o h e. rewrite Hq. unfold GetMemoryServeCount, read_uint64, m'.
    destruct (of_memory o h e r) eqn:E.
    + apply of_memory_key in E as E'. rewrite E', lookup_insert_eq.
      unfold of_memory in E. gok. subst. apply counter_read. by apply N.mod_lt.
    + rewrite N.add_0_r, !lookup_insert_ne; [apply H6|done..|].
      intros E'. rewrite <- of_memory_key in E'. congruence.
  - intros o e v. unfold m'. rewrite !lookup_insert_ne by done. apply H7.
  - intros o e. rewrite Hq. unfold total_serves, GetEpochServeStats, m'.
    rewrite !lookup_insert_ne by done. fold (GetEpochServeStats m o e). fold (total_serves m o e).
    specialize (H8 o e). rewrite decide_False in H8 by done. unfold u64_add in *.
    rewrite N.add_0_r in H8. rewrite <- N.Div0.add_mod_idemp_l, H8, N.Div0.add_mod_idemp_l.
    unfold of_org. case_decide as E.
    + injection E as <- <-. by rewrite bool_decide_true, N.eqb_refl.
    + destruct (bool_decide _ && _) eqn:E'; [|done]. gok. by subst.
Qed.

Section Records.
Context {P : Type} {CRYPTO : Crypto} {ORG : OrgKeeper P} {MEM : MemoryKeeper P}
  {BW : BandwidthKeeper P} {REP : ReputationKeeper P}.
Implicit Types s : St serve_val P.

(** The statistics that [modify_stats] starts from. *)
Definition current_stats m (o : string) (e : N) : EpochServeStats :=
  match GetEpochServeStats m o e with Ok s => s | Err _ => NewEpochServeStats o e end.

Lemma current_stats_total m o e : es_TotalServes (current_stats m o e) = total_serves m o e.
Proof. unfold current_stats, total_serves. by destruct (GetEpochServeStats m o e). Qed.

(** Writes that keep the invariant at a point of recording a serve, and touch
    no log, no receipt and no memory counter. *)
Definition quiet (pend pend' : option (string * N)) m m' : Prop :=
  serve_inv_at pend' m' /\ grows m m' /\ (forall q, receipts_total q m' = receipts_total q m).

Lemma quiet_trans p1 p2 p3 m1 m2 m3 :
  quiet p1 p2 m1 m2 -> (serve_inv_at p2 m2 -> quiet p2 p3 m2 m3) -> quiet p1 p3 m1 m3.
Proof.
  intros (I1 & G1 & Q1) H. destruct (H I1) as (I2 & G2 & Q2).
  split; [done|]. split; [by etrans|]. intros q. by rewrite Q2.
Qed.

Lemma quiet_stats pend pend' m o e x :
  serve_inv_at pend m -> serve_inv_at pend' (<[statsKey o e := VStats x]> m) ->
  quiet pend pend' m (<[statsKey o e := VStats x]> m).
Proof.
  intros HI HI'. split; [done|]. split; [by apply grows_other|].
  intros q. apply receipts_insert_other; [done|]. intros w Hw.
  by destruct (inv_stats _ _ HI _ _ _ Hw) as (s' & -> & _).
Qed.

(** A key that no log uses. *)
Lemma quiet_mark pend m k v :
  serve_inv_at pend m -> unprotected k = true -> logged k = false -> is_receipt v = false ->
  quiet pend pend m (<[k:=v]> m).
Proof.
  intros HI Hk Hl Hv. split; [|split; [by apply grows_other|]].
  - apply serve_inv_other; try done; intros o e f ->; exfalso; revert Hl;
      unfold denialReceiptKey, eventKey, EventPrefix; rewrite logged_app; done || (simpl; tauto).
  - intros q. apply receipts_insert_other; [done|]. intros w Hw. destruct w; try done.
    destruct (inv_receipt _ _ HI _ _ Hw) as [-> _]. exfalso. revert Hl.
    unfold receiptKey. rewrite logged_app; done || (simpl; tauto).
Qed.

Lemma modify_stats_run o e f s :
  modify_stats o e f s =
  (Ok tt, mkSt (<[statsKey o e := VStats (f (current_stats (kv s) o e))]> (kv s)) (peers s) (evs s)).
Proof. done. Qed.

Lemma modify_stats_quiet pend o e f s u s' :
  (forall x, es_TotalServes (f x) = es_TotalServes x) ->
  serve_inv_at pend (kv s) -> modify_stats o e f s = (Ok u, s') ->
  quiet pend pend (kv s) (kv s') /\ peers s' = peers s.
Proof.
  intros Hf HI H. rewrite modify_stats_run in H. injection H as _ <-. split; [|done].
  apply quiet_stats; [done|]. apply inv_insert_stats; [done|]. by rewrite Hf, current_stats_total.
Qed.

Lemma first_time_quiet pend key o e f s u s' :
  (forall x, es_TotalServes (f x) = es_TotalServes x) ->
  unprotected key = true -> logged key = false ->
  serve_inv_at pend (kv s) -> first_time key o e f s = (Ok u, s') ->
  quiet pend pend (kv s) (kv s') /\ peers s' = peers s.
Proof.
  intros Hf Hk Hl HI H. unfold first_time in H. mok H.
  - split; [|done]. split; [done|]. split; [by intros|done].
  - assert (quiet pend pend (kv s) (<[key := present]> (kv s))) as Hq by by apply quiet_mark.
    destruct Hq as (I1 & Hq). apply (modify_stats_quiet pend) in H as [H2 Hp]; [|done|done].
    split; [|done]. by eapply quiet_trans; [split|].
Qed.

Lemma count_serve_total b model x :
  es_TotalServes (count_serve b model x) = (es_TotalServes x + 1)%u64.
Proof. unfold count_serve. by destruct b, (bool_decide _). Qed.

Lemma updateEpochStats_quiet o e h key b model s u s' :
  serve_inv_at (Some (o, e)) (kv s) -> updateEpochStats o e h key b model s = (Ok u, s') ->
  quiet (Some (o, e)) None (kv s) (kv s') /\ peers s' = peers s.
Proof.
  intros HI H. unfold updateEpochStats in H.
  apply M_bind_ok in H as ([] & s1 & H1 & H). apply M_bind_ok in H as ([] & s2 & H2 & H).
  apply (first_time_quiet (Some (o, e))) in H1 as [Q1 P1]; [|done..].
  apply (first_time_quiet (Some (o, e))) in H2 as [Q2 P2]; [|done..|apply Q1].
  rewrite modify_stats_run in H. injection H as _ <-. cbn [kv peers].
  split; [|congruence].
  eapply quiet_trans; [exact Q1|]. intros _. eapply quiet_trans; [exact Q2|]. intros HI2.
  apply quiet_stats; [done|]. apply inv_count_serve; [done|].
  by rewrite count_serve_total, current_stats_total.
Qed.

Lemma updateContributorServes_quiet c e o b t s u s' :
  serve_inv (kv s) -> updateContributorServes c e o b t s = (Ok u, s') ->
  quiet None None (kv s) (kv s') /\ peers s' = peers s.
Proof.
  intros HI H. unfold updateContributorServes in H. mok H. split; [|done].
  by apply quiet_mark.
Qed.

(** The receipt of an accepted serve. *)
Definition receipt_of (o : string) (e : N) (sv : ServeEntry) (b : bool) : StoredServeReceipt :=
  ServeReceiptToStored (NewServeReceipt o (sv_MemoryContentHash sv)
    (hex_encode (sv_ServeKeyPubkey sv)) (sv_ServeKeyPubkey sv) (sv_ContributorId sv) e
    (ComputeServeFingerprint (sv_MemoryContentHash sv) (sv_ServeKeyPubkey sv) e) b
    (sv_ModelId sv) (sv_TurnCount sv) (sv_EpisodeRef sv)).

(** [m'] is [m] with one more receipt. *)
Definition one_more m m' (r : StoredServeReceipt) : Prop :=
  serve_inv m' /\ grows m m' /\
  m' !! receiptKey (sr_OrgId r) (sr_Epoch r) (sr_Fingerprint r) = Some (VReceipt r) /\
  forall q, receipts_total q m' = receipts_total q m + if q r then 1 else 0.

(** No other receipt appears. *)
Lemma one_more_old m m' r k r' :
  serve_inv m -> one_more m m' r -> m' !! k = Some (VReceipt r') ->
  m !! k = Some (VReceipt r') \/ r' = r.
Proof.
  intros HI (HI' & _ & _ & Hq) Hk. destruct (decide (r = r')) as [|Hne]; [by right|left].
  destruct (inv_receipt _ _ HI' _ _ Hk) as [-> _].
  destruct (receipt_of_total m r') as [k' Hk'].
  { apply total_of_receipt in Hk. rewrite Hq, bool_decide_false, N.add_0_r in Hk; [done|congruence]. }
  by destruct (inv_receipt _ _ HI _ _ Hk') as [<- _].
Qed.

Lemma record_serve_spec o e sv fp b s u s' :
  fp = ComputeServeFingerprint (sv_MemoryContentHash sv) (sv_ServeKeyPubkey sv) e ->
  serve_inv (kv s) -> kv s !! serveFingerprintKey fp = None ->
  record_serve o e sv fp (hex_encode (sv_ServeKeyPubkey sv)) b s = (Ok u, s') ->
  one_more (kv s) (kv s') (receipt_of o e sv b) /\ peers s' = peers s.
Proof.
  intros -> HI Hf H. unfold record_serve, incrementMemoryServeCount, incr_uint64 in H.
  do 2 (apply M_bind_ok in H as ([] & ? & Hm & H); mok Hm).
  apply M_bind_ok in H as ([] & s1 & Hm & H). mok Hm.
  apply M_bind_ok in H as ([] & s2 & H1 & H).
  cbn [kv] in *. unfold read_uint64 in Hm0. rewrite !lookup_insert_ne in Hm0 by done.
  destruct (inv_record (kv s) (receipt_of o e sv b) a HI Hf Hm0) as (I1 & G1 & R1 & Q1).
  apply updateEpochStats_quiet in H1 as [(I2 & G2 & Q2) P2]; [|exact I1].
  apply updateContributorServes_quiet in H as [(I3 & G3 & Q3) P3]; [|exact I2].
  cbn [kv peers] in *. split; [|by rewrite P3, P2]. split; [done|]. split; [|split].
  - etrans; [exact G1|]. by etrans.
  - apply G3; [|apply G2; [|exact R1]]; apply logged_app; simpl; tauto.
  - intros q. by rewrite Q3, Q2, Q1.
Qed.

(** Reputation is credited through the peers only. *)
Lemma attribute_serve_kv o e h b s r s' : attribute_serve o e h b s = (r, s') -> kv s' = kv s.
Proof.
  unfold attribute_serve, mbind, M_bind, attempt, peer_read, on_peers, mret, M_ret.
  destruct (GetApprovedMemory _ _ _) as [[mem|]|]; [|by intros [= _ <-]..].
  case_bool_decide; [by intros [= _ <-]|]. destruct (RecordServe _ _ _ _ _). by intros [= _ <-].
Qed.

(** What the loop body of a serve batch does with an entry, by verdict. *)
Lemma process_serve_spec params o e sv s v s' :
  let fp := ComputeServeFingerprint (sv_MemoryContentHash sv) (sv_ServeKeyPubkey sv) e in
  serve_inv (kv s) -> process_serve params o e sv s = (Ok v, s') ->
  match v with
  | Accepted =>
      ed25519_Verify (sv_ServeKeyPubkey sv)
        (CanonicalServeBody o (sv_MemoryContentHash sv) e (sv_ServeKeyPubkey sv) (sv_Nonce sv)
           (sv_EpisodeRef sv)) (sv_ServeSig sv) = true /\
      kv s !! serveFingerprintKey fp = None /\
      is_ok (GetApprovedMemory (peers s) o (sv_MemoryContentHash sv)) = true /\
      IsValidInEpoch (peers s) o (ContentHashToHex (sv_MemoryContentHash sv)) e = Ok true /\
      (exists n, GetMemoryServeCount (kv s) o (sv_MemoryContentHash sv) e = Ok n /\
         n < p_MaxServesPerMemoryPerEpoch params) /\
      exists b, one_more (kv s) (kv s') (receipt_of o e sv b)
  | RejectedDuplicate => s' = s /\ is_Some (kv s !! serveFingerprintKey fp)
  | RejectedInvalid => s' = s
  end.
Proof.
  intros fp HI H. unfold process_serve in H. fold fp in H.
  destruct (_ || _); [by mok H|]. destruct (ed25519_Verify _ _ _) eqn:Hsig; [|by mok H].
  cbn [negb] in H. unfold HasServeFingerprint in H.
  apply M_bind_ok in H as (dup & s1 & Hm & H). mok Hm. gok.
  destruct (bool_decide _) eqn:Hd; gok; [by mok H|].
  apply M_bind_ok in H as (mem & s1 & Hm1 & H). unfold attempt, peer_read in Hm1. mok Hm1.
  destruct (GetApprovedMemory _ _ _) as [mem|] eqn:Hmem; [|by mok H].
  apply M_bind_ok in H as (valid & s1 & Hm1 & H). mok Hm1. destruct valid; [|by mok H].
  cbn [negb] in H. apply M_bind_ok in H as (n & s1 & Hn & H). mok Hn.
  destruct (_ <=? _) eqn:Hcap; gok; [by mok H|].
  apply M_bind_ok in H as ([] & s1 & Hrec & H). apply M_bind_ok in H as ([] & s2 & Hatt & H). mok H.
  apply record_serve_spec in Hrec as [Hone _]; [|done..]. apply attribute_serve_kv in Hatt.
  repeat split; eauto. rewrite Hatt. eauto.
Qed.

Lemma process_serve_good params o e sv s v s' :
  serve_inv (kv s) -> process_serve params o e sv s = (Ok v, s') -> good (kv s) (kv s').
Proof.
  intros HI H. apply process_serve_spec in H; [|done]. destruct v.
  - destruct H as (_ & _ & _ & _ & _ & b & I' & G' & _). by split.
  - destruct H as [-> _]. by split.
  - subst. by split.
Qed.

(** ** Batches *)

Lemma process_keeps {A} (I : St serve_val P -> Prop) (body : A -> M (St serve_val P) verdict) l :
  (forall x s v s', x ∈ l -> I s -> body x s = (Ok v, s') -> I s') ->
  forall c s c' s', I s -> process body c l s = (Ok c', s') -> I s'.
Proof.
  induction l as [|x l IH]; simpl; intros Hb c s c' s' HI H; [by mok H|].
  apply M_bind_ok in H as (v & s1 & H1 & H). eapply IH; [|eapply Hb; [by left|..]|exact H]; try done.
  intros y s2 v2 s3 Hy. apply Hb. by right.
Qed.

(** The counters add up to the number of entries; [f] counts the accepted ones. *)
Lemma process_counts {A} (I : St serve_val P -> Prop) (f : St serve_val P -> N)
    (body : A -> M (St serve_val P) verdict) l :
  (forall x s v s', I s -> body x s = (Ok v, s') ->
     I s' /\ f s' = f s + if decide (v = Accepted) then 1 else 0) ->
  forall a0 d0 i0 s c' s', a0 + d0 + i0 + N.of_nat (length l) < two64 -> I s ->
    process body (a0, d0, i0) l s = (Ok c', s') ->
    exists a d i, c' = (a0 + a, d0 + d, i0 + i) /\ a + d + i = N.of_nat (length l) /\
      f s' = f s + a.
Proof.
  intros Hb. induction l as [|x l IH]; simpl; intros a0 d0 i0 s c' s' Hlt HI H.
  - mok H. exists 0, 0, 0. by rewrite !N.add_0_r.
  - apply M_bind_ok in H as (v & s1 & H1 & H). destruct (Hb _ _ _ _ HI H1) as [HI1 Hf].
    destruct v; cbn [tally] in H; rewrite u64_add_small in H by lia;
      apply IH in H as (a & d & i & -> & Hsum & Hf'); try done; try lia.
    + exists (1 + a), d, i. rewrite decide_True in Hf by done. split; [do 2 f_equal; lia|]. split; lia.
    + exists a, (1 + d), i. rewrite decide_False in Hf by done. split; [do 2 f_equal; lia|]. split; lia.
    + exists a, d, (1 + i). rewrite decide_False in Hf by done. split; [f_equal; lia|]. split; lia.
Qed.

Lemma process_good {A} (body : A -> M (St serve_val P) verdict) l c s c' s' :
  (forall x s v s', serve_inv (kv s) -> body x s = (Ok v, s') -> good (kv s) (kv s')) ->
  serve_inv (kv s) -> process body c l s = (Ok c', s') -> good (kv s) (kv s').
Proof.
  intros Hb HI H. eapply (process_keeps (fun x => good (kv s) (kv x))); [|by split|exact H].
  intros x s1 v s2 _ HG H1. eapply good_trans; [exact HG|]. intros HI1. by eapply Hb.
Qed.

(** ** Denials, events, anchors *)

(** A new denial. *)
Lemma inv_denied m o e fp d h n st :
  serve_inv m -> m !! denialFingerprintKey fp = None -> es_TotalServes st = total_serves m o e ->
  let m' := <[denialReceiptKey o e fp := VDenial d]> (<[statsKey o e := VStats st]>
    (<[denialCountKey o h e := VRaw n]> (<[denialFingerprintKey fp := present]> m))) in
  good m m' /\ (forall q, receipts_total q m' = receipts_total q m).
Proof.
  intros HI Hf Hs m'.
  set (m1 := <[denialFingerprintKey fp := present]> m).
  assert (m !! denialReceiptKey o e fp = None) as Hd.
  { apply eq_None_not_Some. intros H%(inv_denial _ _ HI). rewrite Hf in H. by destruct H. }
  assert (serve_inv m1) as I1.
  { by apply serve_inv_other. }
  assert (grows m m1) as G1 by by apply grows_new.
  assert (forall q, receipts_total q m1 = receipts_total q m) as Q1.
  { intros q. apply receipts_insert_other; [done|]. congruence. }
  set (m2 := <[denialCountKey o h e := VRaw n]> m1).
  destruct (quiet_mark None m1 (denialCountKey o h e) (VRaw n)) as (I2 & G2 & Q2); try done.
  fold m2 in I2, G2, Q2.
  destruct (quiet_stats None None m2 o e st) as (I3 & G3 & Q3); [done| |].
  { apply inv_insert_stats; [done|]. unfold total_serves, GetEpochServeStats, m2, m1.
    by rewrite !lookup_insert_ne. }
  set (m3 := <[statsKey o e := VStats st]> m2) in *.
  assert (m3 !! denialReceiptKey o e fp = None) as Hd3.
  { unfold m3, m2, m1. by rewrite !lookup_insert_ne. }
  split; [split|].
  - apply serve_inv_other; [done..| |by intros].
    intros o' e' f (_ & _ & <-)%denialReceiptKey_inj. unfold m3, m2, m1.
    rewrite !lookup_insert_ne, lookup_insert_eq by done. eauto.
  - etrans; [exact G1|]. etrans; [exact G2|]. etrans; [exact G3|]. by apply grows_new.
  - intros q. unfold m'. fold m1 m2 m3. rewrite receipts_insert_other; [|done|congruence].
    by rewrite Q3, Q2, Q1.
Qed.

Lemma process_denial_spec o e en s v s' :
  let fp := ComputeDenialFingerprint o (dn_MemoryHash en) e (dn_ServeKeyPubkey en)
              (dn_ServeFingerprint en) in
  serve_inv (kv s) -> process_denial o e en s = (Ok v, s') ->
  match v with
  | Accepted =>
      ed25519_Verify (dn_ServeKeyPubkey en)
        (CanonicalDenialBody o (dn_MemoryHash en) e (dn_ServeKeyPubkey en)
           (dn_ServeFingerprint en) (dn_Nonce en)) (dn_ServeSig en) = true /\
      kv s !! denialFingerprintKey fp = None /\
      (exists r, GetServeReceiptByFingerprint (kv s) (dn_ServeFingerprint en) = Ok (Some r) /\
         sr_MemoryContentHash r = dn_MemoryHash en /\
         sr_ServeKeyPubkey r = dn_ServeKeyPubkey en) /\
      is_ok (GetApprovedMemory (peers s) o (dn_MemoryHash en)) = true /\
      good (kv s) (kv s') /\ (forall q, receipts_total q (kv s') = receipts_total q (kv s)) /\
      is_Some (kv s' !! denialReceiptKey o e fp)
  | RejectedDuplicate => s' = s /\ is_Some (kv s !! denialFingerprintKey fp)
  | RejectedInvalid => s' = s
  end.
Proof.
  intros fp HI H. unfold process_denial in H. fold fp in H.
  destruct (_ || _); [by mok H|]. destruct (ed25519_Verify _ _ _) eqn:Hsig; [|by mok H].
  cbn [negb] in H. unfold HasDenialFingerprint in H.
  apply M_bind_ok in H as (dup & s1 & Hm & H). mok Hm. gok.
  destruct (bool_decide _) eqn:Hd; gok; [by mok H|].
  apply M_bind_ok in H as ([r|] & s1 & Hr & H); mok Hr; [|by mok H].
  destruct (negb _) eqn:Hh; [by mok H|]. destruct (negb _) eqn:Hk in H; [by mok H|]. gok.
  apply M_bind_ok in H as (mem & s1 & Hm1 & H). unfold attempt, peer_read in Hm1. mok Hm1.
  destruct (GetApprovedMemory _ _ _) as [mem|] eqn:Hmem; [|by mok H].
  unfold IncrementDenialCount, incr_uint64, updateEpochDenialStats, StoreDenialReceipt in H.
  apply M_bind_ok in H as ([] & s1 & H1 & H). mok H1.
  apply M_bind_ok in H as ([] & s1 & H1 & H). mok H1.
  apply M_bind_ok in H as ([] & s1 & H1' & H). rewrite modify_stats_run in H1'. injection H1' as <-.
  mok H. cbn [kv peers] in *.
  match goal with |- context [<[denialReceiptKey o e fp := VDenial ?d]> (<[statsKey o e := VStats ?st]>
      (<[denialCountKey o ?h e := VRaw ?n]> (<[denialFingerprintKey fp := present]> (kv s))))] =>
    destruct (inv_denied (kv s) o e fp d h n st HI Hd) as [HG HQ] end.
  { cbn. rewrite current_stats_total. unfold total_serves, GetEpochServeStats.
    by rewrite !lookup_insert_ne. }
  split_and!; try done; eauto. rewrite lookup_insert_eq. eauto.
Qed.

Lemma process_event_spec o e en s v s' :
  serve_inv (kv s) -> process_event o e en s = (Ok v, s') ->
  match v with
  | Accepted =>
      exists en' body, en = Some en' /\
        CanonicalEventBody (ee_EventType en') o (ee_MemoryContentHash en') e
          (ee_SignerPubkey en') (ee_Nonce en') en' = Ok body /\
        ed25519_Verify (ee_SignerPubkey en') body (ee_Signature en') = true /\
        is_ok (GetApprovedMemory (peers s) o (ee_MemoryContentHash en')) = true /\
        kv s !! eventFingerprintKey (sha256 body) = None /\
        kv s' !! eventKey o e (sha256 body) =
          Some (VEvent (storedEventFromEntry o e en' (sha256 body))) /\
        good (kv s) (kv s') /\ (forall q, receipts_total q (kv s') = receipts_total q (kv s))
  | _ => s' = s
  end.
Proof.
  intros HI H. unfold process_event in H. destruct en as [en|]; [|done].
  destruct (CanonicalEventBody _ _ _ _ _ _ _) as [body|] eqn:Hbody; [|by mok H].
  apply M_bind_ok in H as ([] & s1 & H1 & H). mok H1.
  destruct (ed25519_Verify _ _ _) eqn:Hsig; [|by mok H]. cbn [negb] in H.
  apply M_bind_ok in H as (has & s1 & Hm1 & H). mok Hm1.
  destruct (bool_decide _) eqn:Hd; gok; [by mok H|].
  apply M_bind_ok in H as (mem & s1 & Hm1 & H). unfold attempt, peer_read in Hm1. mok Hm1.
  destruct (GetApprovedMemory _ _ _) as [mem|] eqn:Hmem; [|by mok H].
  mok H. cbn [kv peers]. unfold ComputeEventFingerprint in *. set (fp := sha256 body) in *.
  assert (kv s !! eventKey o e fp = None) as Hk.
  { apply eq_None_not_Some. intros Hx%(inv_event _ _ HI). rewrite Hd in Hx. by destruct Hx. }
  exists en, body. fold fp. split_and!; try done.
  - by rewrite Hmem.
  - rewrite lookup_insert_ne by done. apply lookup_insert_eq.
  - split; [|etrans; [apply grows_new; exact Hk|apply grows_new; by rewrite lookup_insert_ne]].
    rewrite insert_insert_ne by done. apply serve_inv_other; [|done..|].
    + by apply serve_inv_other.
    + intros o' e' f (_ & _ & <-)%eventKey_inj. rewrite lookup_insert_eq. eauto.
  - intros q. rewrite receipts_insert_other; [|done|].
    + rewrite receipts_insert_other; [done|done|congruence].
    + intros w. rewrite lookup_insert_ne by done. congruence.
Qed.

Lemma SetPolicyAnchor_good ctx v h s u s' :
  serve_inv (kv s) -> SetPolicyAnchor ctx v h s = (Ok u, s') -> good (kv s) (kv s').
Proof.
  intros HI H. unfold SetPolicyAnchor in H. mok H; [by split|]. cbn [kv].
  assert (kv s !! policyAnchorKey v = None) as Hk.
  { unfold GetPolicyAnchor in Hm. destruct (kv s !! _) as [[]|]; done. }
  split; [|etrans; [by apply grows_new|by apply grows_other]].
  apply serve_inv_other; [|done..]. by apply serve_inv_other.
Qed.

(** Every delivered message keeps the invariant and only adds to the logs. *)
Lemma deliver_serve_good k ctx msg s r s' :
  serve_inv (kv s) -> deliver (handle k ctx msg) s = (r, s') -> good (kv s) (kv s').
Proof.
  intros HI H. destruct r as [u|err]; [|by apply deliver_err in H as ->].
  apply deliver_ok in H. destruct msg; cbn [handle] in H.
  - unfold MsgServer_SubmitServeBatch, require_org, requireServingKeySigner, ProcessServeBatch in H.
    mok H. cbn [kv peers] in *.
    match goal with H : process _ _ _ (mkSt _ _ _) = _ |- _ =>
      apply process_good in H; [exact H| |exact HI] end.
    intros. by eapply process_serve_good.
  - unfold MsgServer_SubmitDenialBatch, require_org, requireServingKeySigner in H. mok H. cbn [kv] in *.
    match goal with H : process _ _ _ _ = _ |- _ => apply process_good in H; [exact H| |exact HI] end.
    intros x sa v sb HI1 H1. apply process_denial_spec in H1; [|done].
    destruct v; [apply H1|destruct H1 as [-> _]; by split|subst; by split].
  - unfold MsgServer_SubmitEventBatch, require_org, requireServingKeySigner, ProcessEventBatch in H.
    mok H. cbn [kv] in *.
    match goal with H : process _ _ _ _ = _ |- _ => apply process_good in H; [exact H| |exact HI] end.
    intros x sa v sb HI1 H1. apply process_event_spec in H1; [|done].
    destruct v; [|subst; by split..]. by destruct H1 as (? & ? & _ & _ & _ & _ & _ & _ & HG & _).
  - unfold MsgServer_AnchorPolicyVersion in H. mok H. cbn [kv].
    match goal with H : SetPolicyAnchor _ _ _ _ = _ |- _ => by apply SetPolicyAnchor_good in H end.
  - unfold MsgServer_UpdateParams, SetParams in H. mok H. cbn [kv].
    split; [by apply serve_inv_other|by apply grows_other].
Qed.
End Records.

(** A sequence of transactions. *)
Definition run {P} {CRYPTO : Crypto} {ORG : OrgKeeper P} {MEM : MemoryKeeper P}
    {BW : BandwidthKeeper P} {REP : ReputationKeeper P}
    (k : Keeper) (l : list (BlockCtx * serve_msg)) (s : St serve_val P) : St serve_val P :=
  foldl (fun s cm => (deliver (handle k cm.1 cm.2) s).2) s l.

Lemma serve_run_good {P} {CRYPTO : Crypto} {ORG : OrgKeeper P} {MEM : MemoryKeeper P}
    {BW : BandwidthKeeper P} {REP : ReputationKeeper P} k l (s : St serve_val P) :
  serve_inv (kv s) -> good (kv s) (kv (run k l s)).
Proof.
  revert s. induction l as [|[ctx msg] l IH]; intros s HI; [by split|].
  change (run k ((ctx, msg) :: l) s) with (run k l (deliver (handle k ctx msg) s).2).
  destruct (deliver (handle k ctx msg) s) as [r s'] eqn:E. cbn [snd].
  eapply good_trans; [by eapply deliver_serve_good|]. apply IH.
Qed.
