(* ===== verification/ServeProps.v ===== *)
(** * Correctness of x/serve

    What an accepted serve, denial or event guarantees, the exactness of the
    counters, the permanence of the logs, the caps, and what the signed bodies
    bind. *)

From S2P Require Import Prelude Bytes Store Wire Ifaces Org Memory Serve ServeFacts.
From Stdlib Require Import Ascii.
Local Open Scope string_scope.
Local Open Scope N_scope.

Section ServeProps.
Context {P : Type} {CRYPTO : Crypto} {ORG : OrgKeeper P} {MEM : MemoryKeeper P}
  {BW : BandwidthKeeper P} {REP : ReputationKeeper P}.
Implicit Types (s : St serve_val P) (m : gmap string serve_val).

(** The store of a new chain: the genesis marker only. *)
Definition new_chain : gmap string serve_val :=
  {[ genesisInitMarkerKey := VRaw genesisInitMarkerValue ]}.

Lemma new_chain_inv : serve_inv new_chain.
Proof.
  unfold new_chain. split; intros *; unfold GetMemoryServeCount, read_uint64, total_serves,
    GetEpochServeStats; rewrite ?lookup_singleton_Some, ?lookup_singleton_ne by done;
    try (by intros [_ ?]); try (by intros [? ?]); try by vm_compute.
Qed.

(** C3: on every run of transactions from a new chain the serve counter of each
    memory, org and epoch is the number of stored receipts for it, and the
    total of an org's epoch statistics is the number of its receipts in that
    epoch (both as 64-bit integers). *)
Theorem serve_counts_exact k l p o h e :
  let m := kv (run k l (mkSt new_chain p [])) in
  GetMemoryServeCount m o h e = Ok (receipts_total (of_memory o h e) m mod two64) /\
  total_serves m o e = receipts_total (of_org o e) m mod two64.
Proof.
  destruct (serve_run_good k l (mkSt new_chain p [])) as [HI _]; [apply new_chain_inv|].
  split; [apply (inv_memcount _ _ HI)|by apply total_serves_exact].
Qed.

(** C11: the logs are append-only: after any run, a receipt, denial, event or
    policy anchor (or one of their fingerprints) that is stored is stored
    unchanged after any further run. *)
Theorem serve_logs_append_only k l l' p key v :
  let s := run k l (mkSt new_chain p []) in
  logged key = true -> kv s !! key = Some v -> kv (run k l' s) !! key = Some v.
Proof.
  intros s Hk Hv. destruct (serve_run_good k l (mkSt new_chain p [])) as [HI _]; [apply new_chain_inv|].
  by apply (serve_run_good k l' s HI).
Qed.

(** A serve entry signed by its serve key for an org and epoch. *)
Definition signed_serve (o : string) (e : N) (sv : ServeEntry) : Prop :=
  ed25519_Verify (sv_ServeKeyPubkey sv)
    (CanonicalServeBody o (sv_MemoryContentHash sv) e (sv_ServeKeyPubkey sv) (sv_Nonce sv)
       (sv_EpisodeRef sv)) (sv_ServeSig sv) = true.

Lemma serve_batch_start msg s c s' :
  MsgServer_SubmitServeBatch msg s = (Ok c, s') ->
  GetServingAddress (peers s) (mb_OrgId msg) = Ok (mb_Signer msg) /\ mb_Signer msg <> "" /\
  exists p params,
    params = match GetParams (kv s) with Ok p => p | Err _ => zero_Params end /\
    N.of_nat (length (mb_Serves msg)) <= p_MaxServesPerBatch params /\
    process (process_serve params (mb_OrgId msg) (mb_Epoch msg)) (0, 0, 0) (mb_Serves msg)
      (mkSt (kv s) p (evs s)) = (Ok c, s').
Proof.
  intros H. unfold MsgServer_SubmitServeBatch, require_org, requireServingKeySigner,
    ProcessServeBatch in H. mok H. gok. subst. split; [done|]. split; [done|]. eauto.
Qed.

(** C30: an accepted serve batch was sent by the org's registered serving
    address and is within the batch size; the three counters it returns add up
    to its length; exactly [accepted] receipts are added; and every added
    receipt is that of an entry of the batch signed by its serve key over this
    org, memory and epoch. *)
Theorem serve_batch_accounting msg s a d i s' :
  serve_inv (kv s) -> N.of_nat (length (mb_Serves msg)) < two64 ->
  MsgServer_SubmitServeBatch msg s = (Ok (a, d, i), s') ->
  GetServingAddress (peers s) (mb_OrgId msg) = Ok (mb_Signer msg) /\
  a + d + i = N.of_nat (length (mb_Serves msg)) /\
  receipts_total (fun _ => true) (kv s') = receipts_total (fun _ => true) (kv s) + a /\
  forall k r, kv s' !! k = Some (VReceipt r) -> kv s !! k = Some (VReceipt r) \/
    exists sv b, sv ∈ mb_Serves msg /\ signed_serve (mb_OrgId msg) (mb_Epoch msg) sv /\
      r = receipt_of (mb_OrgId msg) (mb_Epoch msg) sv b.
Proof.
  intros HI Hlen H. apply serve_batch_start in H as (Hsrv & _ & p & params & _ & _ & H).
  split; [done|].
  pose proof H as Hc. apply (process_counts (fun x => serve_inv (kv x))
    (fun x => receipts_total (fun _ => true) (kv x))) in Hc as (a' & d' & i' & E & Hsum & Htot);
    [|clear - CRYPTO|lia|done].
  2: { intros sv s1 v s2 HI1 H1. pose proof (process_serve_good _ _ _ _ _ _ _ HI1 H1) as [HI2 _].
       split; [done|]. apply process_serve_spec in H1; [|done]. destruct v.
       - destruct H1 as (_ & _ & _ & _ & _ & b & _ & _ & _ & ->). by rewrite decide_True.
       - destruct H1 as [-> _]. rewrite decide_False by done. lia.
       - subst. rewrite decide_False by done. lia. }
  injection E as -> -> ->. split; [lia|]. split; [cbn [kv] in Htot; lia|].
  apply (process_keeps (fun x => serve_inv (kv x) /\ forall k r,
    kv x !! k = Some (VReceipt r) -> kv s !! k = Some (VReceipt r) \/
    exists sv b, sv ∈ mb_Serves msg /\ signed_serve (mb_OrgId msg) (mb_Epoch msg) sv /\
      r = receipt_of (mb_OrgId msg) (mb_Epoch msg) sv b)) in H;
    [exact (proj2 H)| |split; [exact HI|by left]].
  intros sv s1 v s2 Hin [HI1 Hold] H1.
  split; [by apply (process_serve_good _ _ _ _ _ _ _ HI1 H1)|].
  apply process_serve_spec in H1; [|done]. destruct v; [|by destruct H1 as [-> _]|by subst].
  destruct H1 as (Hsig & _ & _ & _ & _ & b & Hone). intros k r Hk.
  destruct (one_more_old _ _ _ _ _ HI1 Hone Hk) as [Hk1| ->]; eauto 10.
Qed.

(** C24: an entry is accepted only if its memory is approved in the org and
    valid in the epoch, its signature verifies, its fingerprint is new and the
    memory is below its cap for the epoch; the accepted entry leaves its
    receipt under its fingerprint. *)
Theorem accepted_serve_is_genuine params o e sv s s' :
  serve_inv (kv s) -> process_serve params o e sv s = (Ok Accepted, s') ->
  let fp := ComputeServeFingerprint (sv_MemoryContentHash sv) (sv_ServeKeyPubkey sv) e in
  signed_serve o e sv /\
  is_ok (GetApprovedMemory (peers s) o (sv_MemoryContentHash sv)) = true /\
  IsValidInEpoch (peers s) o (ContentHashToHex (sv_MemoryContentHash sv)) e = Ok true /\
  HasServeFingerprint (kv s) fp = false /\
  receipts_total (of_memory o (sv_MemoryContentHash sv) e) (kv s) mod two64
    < p_MaxServesPerMemoryPerEpoch params /\
  exists b, GetServeReceiptByFingerprint (kv s') fp = Ok (Some (receipt_of o e sv b)).
Proof.
  intros HI H fp. apply process_serve_spec in H; [|done].
  destruct H as (Hsig & Hfp & Hmem & Hval & (n & Hn & Hlt) & b & Hone).
  split; [done|]. split; [done|]. split; [done|]. split.
  { unfold HasServeFingerprint. fold fp in Hfp. by rewrite Hfp. }
  rewrite (inv_memcount _ _ HI) in Hn. injection Hn as <-. split; [done|]. exists b.
  destruct Hone as (HI' & _ & Hr & _).
  destruct (inv_receipt _ _ HI' _ _ Hr) as [_ Hp]. unfold GetServeReceiptByFingerprint.
  change (sr_Fingerprint (receipt_of o e sv b)) with fp in Hp, Hr. rewrite Hp.
  assert ((len (receiptKey (sr_OrgId (receipt_of o e sv b)) (sr_Epoch (receipt_of o e sv b)) fp)
    =? 0) = false) as -> by done. by rewrite Hr.
Qed.

(** The per-memory cap holds across a batch: if the counters are below
    2^64 before it, no memory of the org ends with more receipts for the epoch
    than the cap, unless it had them before. *)
Theorem serve_cap_enforced params o e l c s c' s' h :
  serve_inv (kv s) -> is_u64 (p_MaxServesPerMemoryPerEpoch params) ->
  receipts_total (of_memory o h e) (kv s) < two64 ->
  process (process_serve params o e) c l s = (Ok c', s') ->
  receipts_total (of_memory o h e) (kv s') <=
    N.max (receipts_total (of_memory o h e) (kv s)) (p_MaxServesPerMemoryPerEpoch params).
Proof.
  intros HI Hcap Hlt H. eapply (process_keeps (fun x => serve_inv (kv x) /\
    receipts_total (of_memory o h e) (kv x) <= N.max (receipts_total (of_memory o h e) (kv s))
      (p_MaxServesPerMemoryPerEpoch params))); [|split; [done|lia]|exact H].
  intros sv s1 v s2 _ [HI1 Hle] H1.
  split; [by apply (process_serve_good _ _ _ _ _ _ _ HI1 H1)|].
  apply process_serve_spec in H1; [|done]. destruct v; [|by destruct H1 as [-> _]|by subst].
  destruct H1 as (_ & _ & _ & _ & (n & Hn & Hnlt) & b & _ & _ & _ & ->).
  destruct (of_memory o h e (receipt_of o e sv b)) eqn:E; [|lia].
  unfold of_memory in E. gok. subst h. rewrite (inv_memcount _ _ HI1) in Hn.
  injection Hn as <-.
  change (sr_MemoryContentHash (receipt_of o e sv b)) with (sv_MemoryContentHash sv) in *. rewrite N.mod_small in Hnlt by (unfold is_u64 in *; lia). lia.
Qed.

(** C31: a serve is counted once: when an entry was accepted, any later entry
    (in any org, with any nonce) for the same memory, serve key and epoch is
    not accepted, after any run of transactions. *)
Theorem serve_replay_rejected params params' o o' e sv sv' k l s s1 s2 v s3 :
  serve_inv (kv s) -> process_serve params o e sv s = (Ok Accepted, s1) ->
  s2 = run k l s1 ->
  sv_MemoryContentHash sv' = sv_MemoryContentHash sv ->
  sv_ServeKeyPubkey sv' = sv_ServeKeyPubkey sv ->
  process_serve params' o' e sv' s2 = (Ok v, s3) -> v <> Accepted /\ s3 = s2.
Proof.
  intros HI H1 -> Hh Hk H2.
  pose proof (process_serve_good _ _ _ _ _ _ _ HI H1) as [HI1 _].
  destruct (serve_run_good k l s1 HI1) as [HI2 HG].
  apply process_serve_spec in H1 as (_ & _ & _ & _ & _ & b & HI' & _ & Hr & _); [|done].
  destruct (inv_receipt _ _ HI' _ _ Hr) as [_ Hp].
  assert (is_Some (kv (run k l s1) !! serveFingerprintKey
    (ComputeServeFingerprint (sv_MemoryContentHash sv') (sv_ServeKeyPubkey sv') e))) as [w Hw].
  { rewrite Hh, Hk. eexists. apply HG; [|exact Hp]. apply logged_app. simpl; tauto. }
  apply process_serve_spec in H2; [|done]. destruct v.
  - destruct H2 as (_ & Hn & _). congruence.
  - by destruct H2 as [-> _].
  - by subst.
Qed.

(** C32: an accepted denial is signed by the serve key that received the memory,
    over this org, memory, epoch and serve, and it refers to a stored receipt
    of that memory for that key; it is recorded under its fingerprint, changes
    no receipt count and cannot be accepted twice. *)
Theorem denial_needs_receipt o e en s s' :
  serve_inv (kv s) -> process_denial o e en s = (Ok Accepted, s') ->
  ed25519_Verify (dn_ServeKeyPubkey en)
    (CanonicalDenialBody o (dn_MemoryHash en) e (dn_ServeKeyPubkey en)
       (dn_ServeFingerprint en) (dn_Nonce en)) (dn_ServeSig en) = true /\
  (exists k r, kv s !! k = Some (VReceipt r) /\ sr_Fingerprint r = dn_ServeFingerprint en /\
     sr_MemoryContentHash r = dn_MemoryHash en /\ sr_ServeKeyPubkey r = dn_ServeKeyPubkey en) /\
  (forall q, receipts_total q (kv s') = receipts_total q (kv s)) /\
  forall k l v s2, process_denial o e en (run k l s') = (Ok v, s2) -> v <> Accepted.
Proof.
  intros HI H. apply process_denial_spec in H; [|done].
  destruct H as (Hsig & Hn & (r & Hr & Hh & Hk) & _ & [HI' HG] & Hq & Hd).
  split; [done|]. split; [|split; [done|]].
  - unfold GetServeReceiptByFingerprint in Hr.
    destruct (kv s !! serveFingerprintKey _) as [v|] eqn:E; [|done].
    destruct (inv_pointer _ _ HI _ _ E) as (k & r' & -> & Hr' & Hf).
    destruct (len k =? 0); [done|]. rewrite Hr' in Hr. injection Hr as ->. eauto 10.
  - intros k l v s2 H2. destruct (serve_run_good k l s' HI') as [HI2 HG2].
    apply process_denial_spec in H2; [|done]. destruct v; [|done..].
    destruct H2 as (_ & Hn2 & _). pose proof (inv_denial _ _ HI' _ _ _ Hd) as [w Hw].
    apply HG2 in Hw; [congruence|]. apply logged_app. simpl; tauto.
Qed.

(** The signed texts bind what they name, whatever bytes the org id holds:
    equal serve bodies have equal org, memory, epoch, key, nonce and episode,
    equal denial bodies equal org, memory, epoch, key, serve and nonce, and a
    serve body is never a denial body. *)
Theorem serve_bodies_bind o h e pk n x o' h' e' pk' n' x' :
  (CanonicalServeBody o h e pk n x = CanonicalServeBody o' h' e' pk' n' x' ->
   o = o' /\ h = h' /\ e = e' /\ pk = pk' /\ n = n' /\ x = x') /\
  (CanonicalDenialBody o h e pk n x = CanonicalDenialBody o' h' e' pk' n' x' ->
   o = o' /\ h = h' /\ e = e' /\ pk = pk' /\ n = n' /\ x = x') /\
  CanonicalServeBody o h e pk n x <> CanonicalDenialBody o' h' e' pk' n' x'.
Proof.
  split; [|split].
  1,2: unfold CanonicalServeBody, CanonicalDenialBody; intros H; rewrite !(Join_cons2 newline _ o _),
    !(Join_cons2 newline _ o' _) in H; do 2 apply str_app_inj_l in H;
    apply Join_newline_tail_inj in H as [-> H];
    [|done|repeat (apply Forall_cons; split); eauto with wv..];
    injection H as H1%hex_encode_inj H2%FormatUint_inj H3%hex_encode_inj H4%hex_encode_inj H5%hex_encode_inj;
    by subst.
  unfold CanonicalServeBody, CanonicalDenialBody. discriminate.
Qed.
End ServeProps.

(** ** Concrete runs and divergences *)
Module ServeDemo.

(** Every org exists and is served by "server"; every memory is approved, by
    the contributor "carol"; the other keepers accept everything. *)
Definition memory (o h : string) : Memory.MemoryCommitment :=
  Memory.mkMemory o h "blob" [] "carol" "" "" "" 0 7 "lead"
    Memory.MemoryState_MEMORY_STATE_COMMITTED 0 "dek" "" "" "" "" "sig" 1 0 1.

#[export] Instance org_keeper : OrgKeeper unit := {|
  HasOrg _ _ := Ok true;
  GetServingAddress _ _ := Ok "server";
|}.
#[export] Instance memory_keeper : MemoryKeeper unit := {|
  GetApprovedMemory _ o h := Ok (Some (memory o h));
  IsValidInEpoch _ _ _ _ := Ok true;
|}.
#[export] Instance bandwidth_keeper : BandwidthKeeper unit := {|
  ConsumeServeBandwidth _ _ _ := mret tt;
|}.
#[export] Instance reputation_keeper : ReputationKeeper unit := {|
  RecordServe _ _ _ _ := mret tt;
|}.

Definition bytes32 : string := "................................".
Definition sig64 : string := bytes32 +:+ bytes32.
(** The identity as hash, and a scheme that accepts one signature. *)
#[export] Instance crypto : Crypto := {|
  sha256 x := x;
  ed25519_Verify _ _ sig := bool_decide (sig = sig64);
|}.

Definition k : Keeper := mkKeeper "gov".
Definition ctx : BlockCtx := mkCtx 7 0.
Definition hash (c : ascii) : string := String c "...............................".
Definition serve (c : ascii) (contributor key nonce : string) : ServeEntry :=
  mkServeEntry (hash c) contributor "model-a" 3 "" key sig64 nonce "episode".
Definition key1 : string := "key1............................".
Definition key2 : string := "key2............................".

Definition batch (o : string) : MsgSubmitServeBatch :=
  mkMsgSubmitServeBatch "server" o 5
    [serve "a" "carol" key1 "n1"; serve "a" "carol" key1 "n2"; serve "b" "carol" key2 "n3"].

Definition start : St serve_val unit := mkSt new_chain tt [].
Definition after : St serve_val unit := (MsgServer_SubmitServeBatch (batch "org-0") start).2.

Lemma serve_start_inv : serve_inv (kv start).
Proof. apply new_chain_inv. Qed.

Lemma batch_run : MsgServer_SubmitServeBatch (batch "org-0") start = (Ok (2, 1, 0), after).
Proof. unfold after. apply run_outcome. vm_compute. reflexivity. Qed.

Lemma serve_batch_accounting_witness :
  receipts_total (fun _ => true) (kv after) = receipts_total (fun _ => true) (kv start) + 2.
Proof.
  destruct (serve_batch_accounting (batch "org-0") start 2 1 0 after serve_start_inv) as (_ & _ & Ht & _);
    [reflexivity|exact batch_run|exact Ht].
Defined.

Lemma serve_logs_append_only_witness :
  let s := run k [(ctx, ServeBatchMsg (batch "org-0"))] start in
  let key := receiptKey "org-0" 5 (ComputeServeFingerprint (hash "a") key1 5) in
  kv (run k [(ctx, ServeBatchMsg (batch "org-1"))] s) !! key = kv s !! key /\
  is_Some (kv s !! key).
Proof.
  intros s key.
  destruct (kv s !! key) as [v|] eqn:Hv; [|exfalso; revert Hv; vm_compute; discriminate].
  split; [|by eexists].
  apply (serve_logs_append_only k [(ctx, ServeBatchMsg (batch "org-0"))]
    [(ctx, ServeBatchMsg (batch "org-1"))] tt key v); [apply logged_app; simpl; tauto|exact Hv].
Defined.

Definition one : ServeEntry := serve "a" "carol" key1 "n1".
Definition after_one : St serve_val unit := (process_serve DefaultParams "org-0" 5 one start).2.
Lemma one_accepted : process_serve DefaultParams "org-0" 5 one start = (Ok Accepted, after_one).
Proof. unfold after_one. apply run_outcome. vm_compute. reflexivity. Qed.

Lemma accepted_serve_is_genuine_witness :
  exists b, GetServeReceiptByFingerprint (kv after_one) (ComputeServeFingerprint (hash "a") key1 5) =
    Ok (Some (receipt_of "org-0" 5 one b)).
Proof.
  destruct (accepted_serve_is_genuine DefaultParams "org-0" 5 one start after_one serve_start_inv one_accepted)
    as (_ & _ & _ & _ & _ & H). exact H.
Defined.

(** A cap of one serve per memory and epoch. *)
Definition tight : Params := mkParams 500 50 1 1 10.
Definition two_keys : list ServeEntry := [serve "a" "carol" key1 "n1"; serve "a" "carol" key2 "n2"].

Definition capped : St serve_val unit :=
  (process (process_serve tight "org-0" 5) (0, 0, 0) two_keys start).2.
Lemma capped_run :
  process (process_serve tight "org-0" 5) (0, 0, 0) two_keys start = (Ok (1, 0, 1), capped).
Proof. unfold capped. apply run_outcome. vm_compute. reflexivity. Qed.

Lemma serve_cap_enforced_witness :
  receipts_total (of_memory "org-0" (hash "a") 5) (kv capped) <=
  N.max (receipts_total (of_memory "org-0" (hash "a") 5) (kv start)) 1.
Proof.
  apply (serve_cap_enforced tight "org-0" 5 two_keys (0, 0, 0) start (1, 0, 1) capped (hash "a")
    serve_start_inv); [reflexivity|vm_compute; reflexivity|exact capped_run].
Defined.

Definition replayed : St serve_val unit :=
  (process_serve DefaultParams "org-1" 5 (serve "a" "mallory" key1 "n9") after_one).2.
Lemma replay_run :
  process_serve DefaultParams "org-1" 5 (serve "a" "mallory" key1 "n9") after_one =
  (Ok RejectedDuplicate, replayed).
Proof. unfold replayed. apply run_outcome. vm_compute. reflexivity. Qed.

Lemma serve_replay_rejected_witness : replayed = after_one.
Proof.
  apply (serve_replay_rejected DefaultParams DefaultParams "org-0" "org-1" 5 one
    (serve "a" "mallory" key1 "n9") k [] start after_one after_one RejectedDuplicate replayed
    serve_start_inv one_accepted eq_refl eq_refl eq_refl replay_run).
Defined.

Definition denial : DenialEntry :=
  mkDenialEntry (hash "a") "stale" key1 sig64 (ComputeServeFingerprint (hash "a") key1 5) "n" "".
Definition after_denial : St serve_val unit := (process_denial "org-0" 5 denial after_one).2.

Lemma after_one_inv : serve_inv (kv after_one).
Proof.
  exact (proj1 (process_serve_good DefaultParams "org-0" 5 one start Accepted after_one
    serve_start_inv one_accepted)).
Qed.
Lemma denial_accepted : process_denial "org-0" 5 denial after_one = (Ok Accepted, after_denial).
Proof. unfold after_denial. apply run_outcome. vm_compute. reflexivity. Qed.

Lemma denial_needs_receipt_witness :
  receipts_total (fun _ => true) (kv after_denial) = receipts_total (fun _ => true) (kv after_one).
Proof.
  destruct (denial_needs_receipt "org-0" 5 denial after_one after_denial after_one_inv denial_accepted)
    as (_ & _ & Hq & _).
  exact (Hq _).
Defined.

(** The serve fingerprint leaves out the org: a memory that is approved in two
    orgs and served with the same key in the same epoch counts for the first
    org only. *)
Lemma serve_in_second_org_is_duplicate :
  (process_serve DefaultParams "org-1" 5 one after_one).1 = Ok RejectedDuplicate /\
  total_serves (kv after_one) "org-1" 5 = 0.
Proof. split; vm_compute; reflexivity. Qed.

(** The self-serve flag compares the serve key with the contributor id of the
    payload: the same serve of the same memory is a self serve or not as the
    submitter writes it. *)
Lemma self_serve_flag_is_chosen_by_submitter :
  let flag c := match GetServeReceiptByFingerprint
      (kv (process_serve DefaultParams "org-0" 5 (serve "a" c key1 "n1") start).2)
      (ComputeServeFingerprint (hash "a") key1 5) with
    | Ok (Some r) => Some (sr_IsSelfServe r) | _ => None end in
  flag (hex_encode key1) = Some true /\ flag "carol" = Some false.
Proof. split; vm_compute; reflexivity. Qed.

(** The stored bytes of the statistics depend on the order in which the
    model map is written. *)
Definition two_models : EpochServeStats :=
  mkEpochServeStats "o" 1 2 0 1 1 0 (<["m1":=1]> (<["m2":=1]> ∅)).

Lemma stats_bytes_depend_on_map_order :
  exists order order', order ≡ₚ map_to_list (es_ModelBreakdown two_models) /\
    order' ≡ₚ map_to_list (es_ModelBreakdown two_models) /\
    marshal_stats order two_models <> marshal_stats order' two_models.
Proof.
  exists [("m1", 1); ("m2", 1)], [("m2", 1); ("m1", 1)].
  assert (map_to_list (es_ModelBreakdown two_models) ≡ₚ [("m1", 1); ("m2", 1)]) as H.
  { unfold two_models. cbn [es_ModelBreakdown].
    rewrite !map_to_list_insert, map_to_list_empty by (by vm_compute). done. }
  rewrite H. split; [done|]. split; [by constructor|]. vm_compute. discriminate.
Qed.
End ServeDemo.
