(* ===== verification/ServeGenesis.v ===== *)
(** * x/serve: the genesis export

    [Keeper.ExportGenesis] (x/serve/keeper/keeper.go) runs six scans.  Each
    starts at the prefix of a record type and has no upper bound: it visits
    every later key of the store and keeps whatever the decoder of that record
    type accepts.  The wire formats of all stored records (state.proto,
    event.proto, params.proto) are therefore part of its behaviour.  This file
    models them, the export, and the remaining conversions and checks of
    x/serve/types/keys.go. *)

From S2P Require Import Prelude Bytes Store Wire Proto Keeps Ifaces Org Memory Serve ServeFacts ServeProps.
From Stdlib Require Import Ascii.
Local Open Scope string_scope.
Local Open Scope N_scope.

(** ** Keys and conversions (keeper.go, types/keys.go) *)
Definition denialReceiptPrefix (orgID : string) (epoch : N) : string :=
  "denial/" +:+ orgID +:+ "/" +:+ FormatUint epoch +:+ "/".

Definition ErrInvalidServeKey := Sentinel "serve" "invalid serve key".

Definition ServeReceipt_Validate (sr : ServeReceipt) : result unit :=
  err_if (bool_decide (r_OrgID sr = "")) ErrInvalidOrgID ;;
  err_if (negb (len (r_ContentHash sr) =? ContentHashLen)) ErrInvalidContentHash ;;
  err_if (bool_decide (r_ServeKey sr = "")) ErrInvalidServeKey ;;
  err_if (bool_decide (r_ContributorID sr = "")) ErrInvalidContributor ;;
  err_if (negb (len (r_ServeKeyPubkey sr) =? ServePubKeyLen)) ErrInvalidServeKeyPubkey ;;
  err_if (negb (len (r_Fingerprint sr) =? FingerprintLen)) ErrInvalidServeFingerprint.

(** The stored statistics and contributor records have the fields of the
    records they store. *)
Definition EpochServeStatsToStored (es : EpochServeStats) : EpochServeStats :=
  mkEpochServeStats (es_OrgID es) (es_Epoch es) (es_TotalServes es) (es_TotalDenials es)
    (es_UniqueMemoriesServed es) (es_UniqueServeKeys es) (es_SelfServes es) (es_ModelBreakdown es).
Definition StoredToEpochServeStats (stored : EpochServeStats) : EpochServeStats :=
  mkEpochServeStats (es_OrgID stored) (es_Epoch stored) (es_TotalServes stored)
    (es_TotalDenials stored) (es_UniqueMemoriesServed stored) (es_UniqueServeKeys stored)
    (es_SelfServes stored) (es_ModelBreakdown stored).
Definition ContributorEpochServesToStored (cs : ContributorEpochServes) : ContributorEpochServes :=
  mkContributorEpochServes (cs_ContributorID cs) (cs_Epoch cs) (cs_ServeCount cs)
    (cs_SelfServeCount cs) (cs_OrgIDs cs) (cs_TotalTurns cs).
Definition StoredToContributorEpochServes (stored : ContributorEpochServes) : ContributorEpochServes :=
  mkContributorEpochServes (cs_ContributorID stored) (cs_Epoch stored) (cs_ServeCount stored)
    (cs_SelfServeCount stored) (cs_OrgIDs stored) (cs_TotalTurns stored).

(** ** Wire formats *)
Definition marshal_receipt (r : StoredServeReceipt) : message :=
  (w_bytes 1 (sr_OrgId r) ++ w_bytes 2 (sr_MemoryContentHash r) ++ w_bytes 4 (sr_ContributorId r) ++
   w_uint 5 (sr_Epoch r) ++ w_bool 7 (sr_IsSelfServe r) ++ w_bytes 8 (sr_ModelId r) ++
   w_uint 9 (sr_TurnCount r) ++ w_bytes 11 (sr_ServeKeyPubkey r) ++
   w_bytes 12 (sr_Fingerprint r) ++ w_bytes 13 (sr_EpisodeRef r))%list.

Definition marshal_denial (d : StoredDenialReceipt) : message :=
  (w_bytes 1 (dr_OrgId d) ++ w_bytes 2 (dr_MemoryHash d) ++ w_bytes 3 (dr_DenyKey d) ++
   w_bytes 4 (dr_Reason d) ++ w_uint 5 (dr_Epoch d) ++ w_bytes 7 (dr_ServeFingerprint d) ++
   w_bytes 8 (dr_ServeKeyPubkey d) ++ w_bytes 9 (dr_NegAnchor d))%list.
Definition schema_denial : schema :=
  [(1, KBytes); (2, KBytes); (3, KBytes); (4, KBytes); (5, KVarint); (7, KBytes); (8, KBytes);
   (9, KBytes)].
Definition unmarshal_denial : message -> option StoredDenialReceipt :=
  unmarshal schema_denial (fun m => mkStoredDenialReceipt
    (r_bytes 1 m) (r_bytes 2 m) (r_bytes 3 m) (r_bytes 4 m) (r_uint 5 m) (r_bytes 7 m)
    (r_bytes 8 m) (r_bytes 9 m)).

Definition marshal_contributor (c : ContributorEpochServes) : message :=
  (w_bytes 1 (cs_ContributorID c) ++ w_uint 2 (cs_Epoch c) ++ w_uint 3 (cs_ServeCount c) ++
   w_uint 4 (cs_SelfServeCount c) ++ w_strings 5 (cs_OrgIDs c) ++ w_uint 6 (cs_TotalTurns c))%list.
Definition schema_contributor : schema :=
  [(1, KBytes); (2, KVarint); (3, KVarint); (4, KVarint); (5, KBytes); (6, KVarint)].
Definition unmarshal_contributor : message -> option ContributorEpochServes :=
  unmarshal schema_contributor (fun m => mkContributorEpochServes
    (r_bytes 1 m) (r_uint 2 m) (r_uint 3 m) (r_uint 4 m) (r_strings 5 m) (r_uint 6 m)).

Definition marshal_anchor (a : StoredPolicyAnchor) : message :=
  (w_bytes 1 (pa_PolicyVersion a) ++ w_bytes 2 (pa_PolicyHash a) ++
   w_uint 3 (pa_AnchoredAtEpoch a) ++ w_uint 4 (u64_of_int64 (pa_AnchoredAtHeight a)))%list.
Definition schema_anchor : schema := [(1, KBytes); (2, KBytes); (3, KVarint); (4, KVarint)].
Definition unmarshal_anchor : message -> option StoredPolicyAnchor :=
  unmarshal schema_anchor (fun m => mkPolicyAnchor
    (r_bytes 1 m) (r_bytes 2 m) (r_uint 3 m) (int64_of_u64 (r_uint 4 m))).

Definition marshal_serve_params (p : Params) : message :=
  (w_uint 1 (p_MaxServesPerBatch p) ++ w_uint 2 (p_SelfServeDiscountPercent p) ++
   w_uint 3 (p_MaxServesPerMemoryPerEpoch p) ++ w_uint 4 (p_MinOrgAgeEpochs p) ++
   w_uint 5 (p_DiminishingReturnsThreshold p))%list.

(** The bodies of events are nested messages. *)
Definition marshal_body (b : EventBody) : N * message :=
  match b with
  | EventEntry_Outcome episode evidence serve resolution source =>
      (10, w_bytes 1 episode ++ w_bytes 3 evidence ++ w_bytes 4 serve ++ w_uint 5 resolution ++
           w_uint 6 source)%list
  | EventEntry_ValidityPredicate predicate result evidence =>
      (11, w_bytes 1 predicate ++ w_uint 2 result ++ w_bytes 3 evidence)%list
  | EventEntry_CostToDiscover cycles calls attempts evidence =>
      (12, w_uint 1 cycles ++ w_uint 2 calls ++ w_uint 3 attempts ++ w_bytes 4 evidence)%list
  | EventEntry_Convergence ref => (13, w_bytes 1 ref)
  end.

Definition unmarshal_body (field : N) (m : message) : option EventBody :=
  if field =? 10 then
    unmarshal [(1, KBytes); (3, KBytes); (4, KBytes); (5, KVarint); (6, KVarint)]
      (fun m => EventEntry_Outcome (r_bytes 1 m) (r_bytes 3 m) (r_bytes 4 m) (r_uint32 5 m)
                  (r_uint32 6 m)) m
  else if field =? 11 then
    unmarshal [(1, KBytes); (2, KVarint); (3, KBytes)]
      (fun m => EventEntry_ValidityPredicate (r_bytes 1 m) (r_uint32 2 m) (r_bytes 3 m)) m
  else if field =? 12 then
    unmarshal [(1, KVarint); (2, KVarint); (3, KVarint); (4, KBytes)]
      (fun m => EventEntry_CostToDiscover (r_uint 1 m) (r_uint 2 m) (r_uint32 3 m) (r_bytes 4 m)) m
  else unmarshal [(1, KBytes)] (fun m => EventEntry_Convergence (r_bytes 1 m)) m.

Definition marshal_event (e : StoredEvent) : message :=
  (w_bytes 1 (ev_OrgId e) ++ w_uint 2 (ev_Epoch e) ++ w_uint 3 (ev_EventType e) ++
   w_bytes 4 (ev_MemoryContentHash e) ++ w_bytes 5 (ev_SignerPubkey e) ++ w_bytes 6 (ev_Nonce e) ++
   w_bytes 7 (ev_Signature e) ++ w_bytes 8 (ev_Fingerprint e) ++
   match ev_Body e with
   | None => []
   | Some b => [((marshal_body b).1, WBytes (encode_message (marshal_body b).2))]
   end)%list.

(** The occurrences of the body fields in their order; each must decode, and the
    last one stays. *)
Definition unmarshal_bodies (m : message) : option (option EventBody) :=
  foldl (fun acc fw => acc ≫= fun body =>
    if (10 <=? fw.1) && (fw.1 <=? 13) then
      match fw.2 with
      | WBytes b => Some <$> (parse_message b ≫= unmarshal_body fw.1)
      | _ => None
      end
    else Some body) (Some None) m.

Definition schema_event : schema :=
  [(1, KBytes); (2, KVarint); (3, KVarint); (4, KBytes); (5, KBytes); (6, KBytes); (7, KBytes);
   (8, KBytes); (10, KBytes); (11, KBytes); (12, KBytes); (13, KBytes)].
Definition unmarshal_event (m : message) : option StoredEvent :=
  body ← unmarshal_bodies m;
  unmarshal schema_event (fun m => mkStoredEvent
    (r_bytes 1 m) (r_uint 2 m) (r_uint32 3 m) (r_bytes 4 m) (r_bytes 5 m) (r_bytes 6 m)
    (r_bytes 7 m) (r_bytes 8 m) body) m.

Section Exporting.
(** The order in which a Go map was iterated when its record was marshalled. *)
Context (order : gmap string N -> list (string * N)).

(** The fields of a stored value as a decoder of any type sees them. *)
Definition wire_of (v : serve_val) : option message :=
  match v with
  | VParams p => Some (marshal_serve_params p)
  | VReceipt r => Some (marshal_receipt r)
  | VDenial d => Some (marshal_denial d)
  | VStats s => Some (marshal_stats (order (es_ModelBreakdown s)) s)
  | VContributor c => Some (marshal_contributor c)
  | VEvent e => Some (marshal_event e)
  | VAnchor a => Some (marshal_anchor a)
  | VRaw b => parse_message b
  end.

(** [proto.Unmarshal] of a stored value; its own type decodes to itself. *)
Definition export_receipt (v : serve_val) : option StoredServeReceipt :=
  match v with VReceipt r => Some r | _ => wire_of v ≫= unmarshal_receipt end.
Definition export_denial (v : serve_val) : option StoredDenialReceipt :=
  match v with VDenial d => Some d | _ => wire_of v ≫= unmarshal_denial end.
Definition export_event (v : serve_val) : option StoredEvent :=
  match v with VEvent e => Some e | _ => wire_of v ≫= unmarshal_event end.
Definition export_anchor (v : serve_val) : option StoredPolicyAnchor :=
  match v with VAnchor a => Some a | _ => wire_of v ≫= unmarshal_anchor end.
Definition export_contributor (v : serve_val) : option ContributorEpochServes :=
  match v with VContributor c => Some c | _ => wire_of v ≫= unmarshal_contributor end.

(** The scan of the statistics starts at the last prefix of the store: it meets
    statistics and raw values (the genesis marker) only. *)
Definition export_stats (v : serve_val) : option EpochServeStats :=
  match v with VStats s => Some s | _ => None end.

Definition ExportGenesis (m : gmap string serve_val) : GenesisState := {|
  g_ServeReceipts :=
    omap (fun kv => StoredToServeReceipt <$> export_receipt kv.2) (from_iter "receipt/" m);
  g_DenialReceipts := omap (fun kv => Some <$> export_denial kv.2) (from_iter "denial/" m);
  g_Events := omap (fun kv => Some <$> export_event kv.2) (from_iter EventPrefix m);
  g_PolicyAnchors := omap (fun kv => Some <$> export_anchor kv.2) (from_iter "policy_anchor/" m);
  g_EpochStats :=
    omap (fun kv => StoredToEpochServeStats <$> export_stats kv.2) (from_iter "stats/" m);
  g_ContributorServes :=
    omap (fun kv => StoredToContributorEpochServes <$> export_contributor kv.2)
      (from_iter "contributor/" m);
|}.
End Exporting.

(** ** Every entry of the store lies under the key of its own fields *)
Lemma contributorKey_inj c e c' e' : contributorKey c e = contributorKey c' e' -> c = c' /\ e = e'.
Proof.
  unfold contributorKey. intros H%str_app_inj_l.
  apply sep_split_last in H as [-> He]; try apply FormatUint_no_slash. by apply FormatUint_inj in He.
Qed.

(** The keys of the values that are no records. *)
Definition raw_prefixes : list string :=
  ["fingerprint/"; "denyfingerprint/"; "eventfp/"; "memcount/"; "denycount/"; "memfirst/";
   "keyfirst/"; LatestPolicyAnchorKey; genesisInitMarkerKey].
Definition raw_key (k : string) : bool := existsb (fun p => String.prefix p k) raw_prefixes.

Lemma raw_key_app p k : p ∈ raw_prefixes -> raw_key (p +:+ k) = true.
Proof.
  intros Hp. apply existsb_exists. exists p. split; [by apply list_elem_of_In|apply prefix_app].
Qed.

Section Placement.
Context {P : Type} {CRYPTO : Crypto} {ORG : OrgKeeper P} {MEM : MemoryKeeper P}
  {BW : BandwidthKeeper P} {REP : ReputationKeeper P}.
Implicit Types (s : St serve_val P) (m : gmap string serve_val).

Definition denial_fingerprint (d : StoredDenialReceipt) : string :=
  ComputeDenialFingerprint (dr_OrgId d) (dr_MemoryHash d) (dr_Epoch d) (dr_ServeKeyPubkey d)
    (dr_ServeFingerprint d).

Definition placed (k : string) (v : serve_val) : Prop :=
  match v with
  | VParams _ => k = ParamsKey
  | VReceipt r => k = receiptKey (sr_OrgId r) (sr_Epoch r) (sr_Fingerprint r) /\
      exists x, sr_Fingerprint r = sha256 x
  | VDenial d => k = denialReceiptKey (dr_OrgId d) (dr_Epoch d) (denial_fingerprint d)
  | VStats s => k = statsKey (es_OrgID s) (es_Epoch s)
  | VContributor c => k = contributorKey (cs_ContributorID c) (cs_Epoch c)
  | VEvent e => k = eventKey (ev_OrgId e) (ev_Epoch e) (ev_Fingerprint e)
  | VAnchor a => k = policyAnchorKey (pa_PolicyVersion a)
  | VRaw b => raw_key k = true /\ (String.leb "receipt/" k = true -> b = genesisInitMarkerValue)
  end.
Notation placed_store := (map_Forall placed).

Lemma placed_insert k v : placed k v -> forall m, placed_store m -> placed_store (<[k := v]> m).
Proof. intros Hv m Hm. by apply map_Forall_insert_2. Qed.

Lemma keeps_placed k v : placed k v -> keeps (P := P) placed_store (kset k v).
Proof. intros Hv. apply keeps_kset. by apply placed_insert. Qed.

Lemma stats_at m o e v :
  placed_store m -> m !! statsKey o e = Some v ->
  exists st, v = VStats st /\ es_OrgID st = o /\ es_Epoch st = e.
Proof.
  intros Hm Hv. pose proof (Hm _ _ Hv) as Hp. destruct v; cbn in Hp; try done; try by destruct Hp.
  apply statsKey_inj in Hp as [-> ->]. eauto.
Qed.

Lemma contributor_at m c e v :
  placed_store m -> m !! contributorKey c e = Some v ->
  exists x, v = VContributor x /\ cs_ContributorID x = c /\ cs_Epoch x = e.
Proof.
  intros Hm Hv. pose proof (Hm _ _ Hv) as Hp. destruct v; cbn in Hp; try done; try by destruct Hp.
  apply contributorKey_inj in Hp as [-> ->]. eauto.
Qed.

Lemma anchor_at m w v :
  placed_store m -> m !! policyAnchorKey w = Some v -> exists x, v = VAnchor x /\ pa_PolicyVersion x = w.
Proof.
  intros Hm Hv. pose proof (Hm _ _ Hv) as Hp. destruct v; cbn in Hp; try done; try by destruct Hp.
  apply str_app_inj_l in Hp as ->. eauto.
Qed.

Lemma current_stats_at m o e :
  placed_store m -> es_OrgID (current_stats m o e) = o /\ es_Epoch (current_stats m o e) = e.
Proof.
  intros Hm. unfold current_stats, GetEpochServeStats.
  destruct (m !! statsKey o e) as [v|] eqn:E; [|done].
  by destruct (stats_at _ _ _ _ Hm E) as (s & -> & ? & ?).
Qed.

Lemma keeps_modify_stats o e f :
  (forall x, es_OrgID (f x) = es_OrgID x /\ es_Epoch (f x) = es_Epoch x) ->
  keeps (P := P) placed_store (modify_stats o e f).
Proof.
  intros Hf s r s' HI H. rewrite modify_stats_run in H. simplify_eq. cbn [kv].
  apply placed_insert; [|done]. cbn. destruct (Hf (current_stats (kv s) o e)) as [-> ->].
  by destruct (current_stats_at _ o e HI) as [-> ->].
Qed.

Lemma keeps_mark p k : p ∈ raw_prefixes -> String.leb "receipt/" (p +:+ k) = false ->
  forall b, keeps (P := P) placed_store (kset (p +:+ k) (VRaw b)).
Proof.
  intros Hp Hk b. apply keeps_placed. cbn. split; [by apply raw_key_app|]. by rewrite Hk.
Qed.

Lemma keeps_count p k :
  p ∈ raw_prefixes -> String.leb "receipt/" (p +:+ k) = false ->
  keeps (P := P) placed_store (incr_uint64 (p +:+ k)).
Proof. intros Hp Hk. unfold incr_uint64. keep. by apply keeps_mark. Qed.

Lemma keeps_first_time p k o e f :
  p ∈ raw_prefixes -> String.leb "receipt/" (p +:+ k) = false ->
  (forall x, es_OrgID (f x) = es_OrgID x /\ es_Epoch (f x) = es_Epoch x) ->
  keeps (P := P) placed_store (first_time (p +:+ k) o e f).
Proof.
  intros Hp Hk Hf. unfold first_time. keep; [by apply keeps_mark|by apply keeps_modify_stats].
Qed.

Lemma keeps_updateContributorServes c e o b t :
  keeps (P := P) placed_store (updateContributorServes c e o b t).
Proof.
  unfold updateContributorServes. apply keeps_kread_bind.
  intros s a r s' HI Ha H. unfold kset in H. injection H as <- <-. injection Ha as Ha. cbn [kv].
  apply placed_insert; [|done]. cbn.
  assert (cs_ContributorID a = c /\ cs_Epoch a = e) as [Hc He].
  { destruct (kv s !! contributorKey c e) as [v|] eqn:E; [|by subst].
    destruct (contributor_at _ _ _ _ HI E) as (x & -> & ? & ?). by subst. }
  unfold AddOrgID. destruct b; case_bool_decide; cbn; by rewrite Hc, He.
Qed.

Lemma keeps_record_serve o e sv b fp id :
  (exists x, fp = sha256 x) -> keeps (P := P) placed_store (record_serve o e sv fp id b).
Proof.
  intros Hfp. unfold record_serve, incrementMemoryServeCount, updateEpochStats. keep.
  - by apply keeps_placed.
  - apply (keeps_mark "fingerprint/"); [set_solver|done].
  - apply (keeps_count "memcount/"); [set_solver|done].
  - apply (keeps_first_time "memfirst/"); [set_solver|done|done].
  - apply (keeps_first_time "keyfirst/"); [set_solver|done|done].
  - apply keeps_modify_stats. intros x. unfold count_serve. by destruct b, (bool_decide _).
  - apply keeps_updateContributorServes.
Qed.

Lemma keeps_process {A} (I : gmap string serve_val -> Prop) (body : A -> M (St serve_val P) verdict) c l :
  (forall x, keeps I (body x)) -> keeps I (process body c l).
Proof. intros Hb. revert c. induction l as [|x l IH]; intros c; cbn [process]; keep; apply Hb || apply IH. Qed.

Lemma keeps_process_serve params o e sv : keeps (P := P) placed_store (process_serve params o e sv).
Proof.
  unfold process_serve, attribute_serve. keep. apply keeps_record_serve. by eexists.
Qed.

Lemma keeps_process_denial o e en : keeps (P := P) placed_store (process_denial o e en).
Proof.
  unfold process_denial, IncrementDenialCount, updateEpochDenialStats, StoreDenialReceipt. keep.
  - apply (keeps_mark "denyfingerprint/"); [set_solver|done].
  - apply (keeps_count "denycount/"); [set_solver|done].
  - by apply keeps_modify_stats.
  - by apply keeps_placed.
Qed.

Lemma keeps_process_event o e en : keeps (P := P) placed_store (process_event o e en).
Proof.
  unfold process_event. keep; [by apply keeps_placed|].
  apply (keeps_mark "eventfp/"); [set_solver|done].
Qed.

Lemma keeps_SetPolicyAnchor ctx v h : keeps (P := P) placed_store (SetPolicyAnchor ctx v h).
Proof.
  unfold SetPolicyAnchor. keep; [by apply keeps_placed|].
  apply (keeps_mark LatestPolicyAnchorKey ""); [set_solver|done].
Qed.

Lemma keeps_handle k ctx msg : keeps (P := P) placed_store (handle k ctx msg).
Proof.
  destruct msg; cbn [handle]; unfold MsgServer_SubmitServeBatch, MsgServer_SubmitDenialBatch,
    MsgServer_SubmitEventBatch, MsgServer_AnchorPolicyVersion, MsgServer_UpdateParams,
    ProcessServeBatch, ProcessEventBatch, require_org, requireServingKeySigner; keep.
  - apply keeps_process. intros. apply keeps_process_serve.
  - apply keeps_process. intros. apply keeps_process_denial.
  - apply keeps_process. intros. apply keeps_process_event.
  - apply keeps_SetPolicyAnchor.
  - by apply keeps_placed.
Qed.

Lemma new_chain_placed : placed_store new_chain.
Proof. apply map_Forall_singleton. split; [done|by intros]. Qed.

Lemma run_placed k l p : placed_store (kv (run k l (mkSt new_chain p []))).
Proof.
  pose proof new_chain_placed as H0. revert H0. change new_chain with (kv (mkSt new_chain p [])) at 1.
  generalize (mkSt new_chain p []). induction l as [|[ctx msg] l IH]; intros s Hs; [done|].
  apply (IH (deliver (handle k ctx msg) s).2).
  destruct (deliver (handle k ctx msg) s) as [r s'] eqn:E.
  eapply keeps_deliver; [apply keeps_handle|exact Hs|exact E].
Qed.
End Placement.

(** ** Restarting from the export *)
Section Restart.
Context {P : Type} {CRYPTO : Crypto} {LAWS : CryptoLaws} {ORG : OrgKeeper P} {MEM : MemoryKeeper P}
  {BW : BandwidthKeeper P} {REP : ReputationKeeper P} (order : gmap string N -> list (string * N)).
Implicit Types (s : St serve_val P) (m : gmap string serve_val).
Notation placed_store := (map_Forall placed).

(** The denial counters written by the import are eight bytes long. *)
Definition counts_ok m : Prop :=
  forall k v, String.prefix "denycount/" k = true -> m !! k = Some v ->
    exists n, is_u64 n /\ v = VRaw (PutUint64 n).

Lemma counts_other k v : String.prefix "denycount/" k = false ->
  forall m, counts_ok m -> counts_ok (<[k := v]> m).
Proof.
  intros Hk m Hm k' v' Hk' [[-> <-]|[_ H]]%lookup_insert_Some; [congruence|by eapply Hm].
Qed.

Lemma runs_set k v : String.prefix "denycount/" k = false -> runs (P := P) counts_ok (kset k v).
Proof. intros Hk. apply runs_kset. by apply counts_other. Qed.

Lemma runs_denial_count o h e : runs (P := P) counts_ok (IncrementDenialCount o h e).
Proof.
  intros s HI. unfold IncrementDenialCount, incr_uint64.
  assert (exists n, is_u64 n /\ read_uint64 (denialCountKey o h e) (kv s) = Ok n) as (n & Hn & Hr).
  { unfold read_uint64. destruct (kv s !! denialCountKey o h e) as [v|] eqn:E; [|by exists 0].
    apply HI in E as (n & Hn & ->); [|apply (prefix_app "denycount/")].
    exists n. split; [done|]. by apply BigEndianUint64_Put. }
  unfold kread, mbind, M_bind. rewrite Hr. eexists. split_and!; [done| |done]. cbn [kv].
  intros k v Hk [[<- <-]|[_ H]]%lookup_insert_Some; [|by eapply HI].
  exists (n + 1)%u64. split; [apply u64_add_is|done].
Qed.

Lemma runs_modify_stats o e f : runs (P := P) counts_ok (modify_stats o e f).
Proof.
  intros s HI. rewrite modify_stats_run. eexists. split_and!; [done| |done]. by apply counts_other.
Qed.

Lemma InitGenesis_runs g p :
  exists s', InitGenesis g (mkSt ∅ p []) = (Ok tt, s') /\ peers s' = p.
Proof.
  assert (runs (P := P) counts_ok (InitGenesis g)) as Hr.
  { unfold InitGenesis. repeat apply runs_bind; apply runs_for_each; intros x; try destruct x;
      repeat apply runs_bind;
      first [by apply runs_set|apply runs_ret|apply runs_denial_count|apply runs_modify_stats]. }
  destruct (Hr (mkSt ∅ p [])) as (s' & E & _ & Hp); [|by eauto].
  intros k v _. cbn. by rewrite lookup_empty.
Qed.

(** Every entry of a store of the right type under its prefix is exported. *)
Lemma exported {A} (f : serve_val -> option A) p m k v x :
  m !! (p +:+ k) = Some v -> f v = Some x -> x ∈ omap (fun kv => f kv.2) (from_iter p m).
Proof.
  intros Hk Hf. apply list_elem_of_omap. exists (p +:+ k, v). split; [|done].
  apply elem_of_from_iter. split; [done|apply leb_app].
Qed.

(** What the scan for receipts can find besides receipts has no fingerprint. *)
Lemma exported_receipts m x :
  placed_store m -> x ∈ g_ServeReceipts (ExportGenesis order m) ->
  r_Fingerprint x = "" \/
  exists r, x = StoredToServeReceipt r /\
    m !! receiptKey (sr_OrgId r) (sr_Epoch r) (sr_Fingerprint r) = Some (VReceipt r).
Proof.
  intros Hm. cbn. intros ([k v] & Hk & Hx)%list_elem_of_omap. cbn in Hx.
  apply elem_of_from_iter in Hk as [Hk Hle]. pose proof (Hm _ _ Hk) as Hp.
  destruct v; cbn in Hp; try (subst k; discriminate Hle).
  - destruct Hp as [-> _]. cbn in Hx. simplify_eq. eauto.
  - left. cbn in Hx. unfold unmarshal_receipt, unmarshal in Hx.
    destruct (well_typed _ _); [|done]. cbn in Hx. simplify_eq. cbn.
    unfold r_bytes, marshal_stats. rewrite !occurrences_app, !occ_bytes, !occ_uint.
    cbn -[last]. rewrite app_nil_r.
    assert (occurrences 12 (w_map 7 (order (es_ModelBreakdown s))) = []) as ->; [|done].
    unfold w_map, occurrences. by induction (order _) as [|? l IH].
  - destruct Hp as [_ Hb]. rewrite (Hb Hle) in Hx. discriminate Hx.
Qed.

Definition restored (key : string) (v : serve_val) (m : gmap string serve_val) : Prop :=
  m !! key = Some v.

Lemma restored_set key v k w : (k = key -> w = v) -> keeps (P := P) (restored key v) (kset k w).
Proof.
  intros Hk. apply keeps_kset. intros m Hm. unfold restored in *.
  destruct (decide (k = key)) as [->|]; [rewrite lookup_insert_eq; f_equal; auto|by rewrite lookup_insert_ne].
Qed.

Lemma kept_set key k w : keeps (P := P) (fun m => is_Some (m !! key)) (kset k w).
Proof. apply keeps_kset. intros m. apply present_insert. Qed.

Lemma after_set key k w : k = key -> after (P := P) (fun m => is_Some (m !! key)) (kset k w).
Proof. intros -> s a s' H. unfold kset in H. simplify_eq. cbn. rewrite lookup_insert_eq. eauto. Qed.

Lemma after_restored key v : after (P := P) (restored key v) (kset key v).
Proof. intros s a s' H. unfold kset in H. simplify_eq. apply lookup_insert_eq. Qed.

(** The loops of the import that write under other prefixes. *)
Ltac other_loops :=
  unfold IncrementDenialCount, updateEpochDenialStats, incr_uint64, modify_stats;
  repeat first
    [ progress keep
    | apply keeps_for_each; intros ? ?
    | apply kept_set
    | apply restored_set; let H := fresh in intros H; discriminate H ].

(** The keys the import files the records under, and that no other value met by
    a scan from [from] is read as a record of the key [key]. *)
Definition denial_key (d : StoredDenialReceipt) : string :=
  denialReceiptKey (dr_OrgId d) (dr_Epoch d) (denial_fingerprint d).
Definition event_key (e : StoredEvent) : string := eventKey (ev_OrgId e) (ev_Epoch e) (ev_Fingerprint e).
Definition anchor_key (a : StoredPolicyAnchor) : string := policyAnchorKey (pa_PolicyVersion a).
Definition contributor_key (c : ContributorEpochServes) : string :=
  contributorKey (cs_ContributorID c) (cs_Epoch c).
Definition sole {A} (read : serve_val -> option A) (key_of : A -> string) (from key : string) m : Prop :=
  Forall (fun kv => kv.1 = key \/ key_of <$> read kv.2 <> Some key) (from_iter from m).

Lemma in_omap_some {A B} (f : B -> option A) (l : list B) (x : A) :
  x ∈ omap f l -> Some x ∈ omap (fun y => Some <$> f y) l.
Proof.
  intros (y & Hy & Hx)%list_elem_of_omap. apply list_elem_of_omap. exists y. by rewrite Hx.
Qed.
Lemma omap_some {A B} (f : B -> option A) (l : list B) (o : option A) :
  o ∈ omap (fun y => Some <$> f y) l -> exists x, o = Some x /\ x ∈ omap f l.
Proof.
  intros (y & Hy & Hx)%list_elem_of_omap. destruct (f y) as [x|] eqn:E; simplify_eq/=.
  exists x. split; [done|]. apply list_elem_of_omap. eauto.
Qed.

Section Import.
Context m (HI : serve_inv m) (Hm : placed_store m).
Local Notation g := (ExportGenesis order m).

(** Two exported receipts with the same non-empty fingerprint are the same. *)
Lemma receipt_unique r x :
  m !! receiptKey (sr_OrgId r) (sr_Epoch r) (sr_Fingerprint r) = Some (VReceipt r) ->
  x ∈ g_ServeReceipts g -> r_Fingerprint x = sr_Fingerprint r -> x = StoredToServeReceipt r.
Proof.
  intros Hr Hx Hf. destruct (exported_receipts m x Hm Hx) as [Hx'|(r' & -> & Hr')].
  - destruct (Hm _ _ Hr) as [_ [y Hy]]. pose proof (sha256_size y) as Hs.
    rewrite <- Hy, <- Hf, Hx' in Hs. discriminate Hs.
  - destruct (inv_receipt _ _ HI _ _ Hr) as [_ H1]. destruct (inv_receipt _ _ HI _ _ Hr') as [_ H2].
    cbn [StoredToServeReceipt r_Fingerprint] in Hf. rewrite Hf, H1 in H2.
    assert (receiptKey (sr_OrgId r) (sr_Epoch r) (sr_Fingerprint r) =
      receiptKey (sr_OrgId r') (sr_Epoch r') (sr_Fingerprint r')) as E by (rewrite Hf; congruence).
    rewrite E in Hr. congruence.
Qed.

Lemma receipt_restored r :
  m !! receiptKey (sr_OrgId r) (sr_Epoch r) (sr_Fingerprint r) = Some (VReceipt r) ->
  let key := receiptKey (sr_OrgId r) (sr_Epoch r) (sr_Fingerprint r) in
  after (P := P) (restored key (VReceipt r)) (InitGenesis g) /\
  after (P := P) (restored (serveFingerprintKey (sr_Fingerprint r)) (VRaw key)) (InitGenesis g).
Proof.
  intros Hr key.
  assert (StoredToServeReceipt r ∈ g_ServeReceipts g) as Hin.
  { by eapply (exported (fun v => StoredToServeReceipt <$> export_receipt order v) "receipt/"). }
  split; (apply after_bind_l; [|intros _; other_loops]);
    apply (after_for_each _ (StoredToServeReceipt r)); try done.
  - apply after_bind_l; [|intros _; by apply restored_set].
    assert (VReceipt r = VReceipt (ServeReceiptToStored (StoredToServeReceipt r))) as E by by destruct r.
    rewrite E. apply after_restored.
  - intros x Hx. keep; apply restored_set; [|done]. intros (_ & _ & Hf)%receiptKey_inj.
    rewrite (receipt_unique r x Hr Hx Hf). by destruct r.
  - apply after_bind_r. intros _. apply after_restored.
  - intros x Hx. keep; apply restored_set; [done|]. intros Hf%fingerprintKey_inj.
    by rewrite (receipt_unique r x Hr Hx Hf).
Qed.

Lemma stats_restored o e st :
  m !! statsKey o e = Some (VStats st) -> after (P := P) (restored (statsKey o e) (VStats st)) (InitGenesis g).
Proof.
  intros Hs. pose proof (Hm _ _ Hs) as Hp. cbn in Hp. apply statsKey_inj in Hp as [Ho He].
  do 4 (apply after_bind_r; intros _). apply after_bind_l; [|intros _; other_loops].
  apply (after_for_each _ st).
  - apply (exported (fun v => StoredToEpochServeStats <$> export_stats v) "stats/"
             m (o +:+ "/" +:+ FormatUint e) (VStats st)); [done|]. by destruct st.
  - rewrite Ho, He. apply after_restored.
  - intros x Hx. apply restored_set. intros [Ho' He']%statsKey_inj.
    apply list_elem_of_omap in Hx as ([k v] & Hk & Hx). apply elem_of_from_iter in Hk as [Hk _].
    cbn in Hx. destruct v as [| | |st'| | | |]; try done. cbn in Hx.
    assert (x = st') as -> by (destruct st'; by simplify_eq/=).
    pose proof (Hm _ _ Hk) as Hp. cbn in Hp. subst k. rewrite Ho', He' in Hk. congruence.
Qed.

(** Denials, events, anchors and contributor records: kept unless another value
    is read as a record of the same key. *)
Lemma sole_unique {A} (f : serve_val -> option A) key_of from key v x x0 :
  sole f key_of from key m -> m !! key = Some v -> f v = Some x0 ->
  x ∈ omap (fun kv => f kv.2) (from_iter from m) -> key_of x = key -> x = x0.
Proof.
  intros Hs Hv H0 ([k w] & Hin & Hx)%list_elem_of_omap <-. unfold sole in Hs.
  rewrite Forall_forall in Hs. destruct (Hs _ Hin) as [Hk|Hk]; cbn in Hk, Hx.
  - apply elem_of_from_iter in Hin as [Hw _]. cbn in Hw. subst k. congruence.
  - by rewrite Hx in Hk.
Qed.

Lemma denial_restored k d :
  m !! k = Some (VDenial d) ->
  (sole (export_denial order) denial_key "denial/" k m ->
   after (P := P) (restored k (VDenial d)) (InitGenesis g)) /\
  after (P := P) (fun m' => is_Some (m' !! denialFingerprintKey (denial_fingerprint d))) (InitGenesis g).
Proof.
  intros Hd. pose proof (Hm _ _ Hd) as Hp. cbn in Hp. subst k.
  assert (d ∈ omap (fun kv => export_denial order kv.2) (from_iter "denial/" m)) as Hin.
  { by eapply (exported (export_denial order) "denial/"). }
  split; [intros Hs|]; apply after_bind_r; intros _; (apply after_bind_l; [|intros _; other_loops]);
    apply (after_for_each _ (Some d)); try (by apply in_omap_some).
  - apply after_bind_r. intros _. apply after_bind_l; [apply after_restored|intros _; other_loops].
  - intros x (y & -> & Hy)%omap_some. other_loops. apply restored_set. intros Hk.
    by rewrite (sole_unique _ _ _ _ _ _ d Hs Hd eq_refl Hy Hk).
  - apply after_bind_l; [by apply after_set|intros _; other_loops].
  - intros [] _; other_loops.
Qed.

Lemma event_restored k e :
  m !! k = Some (VEvent e) ->
  (sole (export_event order) event_key EventPrefix k m ->
   after (P := P) (restored k (VEvent e)) (InitGenesis g)) /\
  after (P := P) (fun m' => is_Some (m' !! eventFingerprintKey (ev_Fingerprint e))) (InitGenesis g).
Proof.
  intros He. pose proof (Hm _ _ He) as Hp. cbn in Hp. subst k.
  assert (e ∈ omap (fun kv => export_event order kv.2) (from_iter EventPrefix m)) as Hin.
  { by eapply (exported (export_event order) EventPrefix). }
  split; [intros Hs|]; do 2 (apply after_bind_r; intros _); (apply after_bind_l; [|intros _; other_loops]);
    apply (after_for_each _ (Some e)); try (by apply in_omap_some).
  - apply after_bind_l; [apply after_restored|intros _; other_loops].
  - intros x (y & -> & Hy)%omap_some. other_loops. apply restored_set. intros Hk.
    by rewrite (sole_unique _ _ _ _ _ _ e Hs He eq_refl Hy Hk).
  - apply after_bind_r. intros _. by apply after_set.
  - intros [] _; other_loops.
Qed.

Lemma anchor_restored k x :
  m !! k = Some (VAnchor x) -> sole (export_anchor order) anchor_key "policy_anchor/" k m ->
  after (P := P) (restored k (VAnchor x)) (InitGenesis g).
Proof.
  intros Ha Hs. pose proof (Hm _ _ Ha) as Hp. cbn in Hp. subst k.
  do 3 (apply after_bind_r; intros _). apply after_bind_l; [|intros _; other_loops].
  apply (after_for_each _ (Some x)).
  - apply in_omap_some. by eapply (exported (export_anchor order) "policy_anchor/").
  - apply after_bind_l; [apply after_restored|intros _; other_loops].
  - intros y (z & -> & Hz)%omap_some. other_loops. apply restored_set. intros Hk.
    by rewrite (sole_unique _ _ _ _ _ _ x Hs Ha eq_refl Hz Hk).
Qed.

Lemma contributor_restored k c :
  m !! k = Some (VContributor c) -> sole (export_contributor order) contributor_key "contributor/" k m ->
  after (P := P) (restored k (VContributor c)) (InitGenesis g).
Proof.
  intros Hc Hs. pose proof (Hm _ _ Hc) as Hp. cbn in Hp. subst k.
  do 5 (apply after_bind_r; intros _). apply (after_for_each _ c).
  - eapply (exported (fun v => StoredToContributorEpochServes <$> export_contributor order v) "contributor/");
      [exact Hc|]. by destruct c.
  - apply after_restored.
  - intros x Hx. apply restored_set. intros Hk. f_equal.
    apply (sole_unique _ _ _ _ _ x c Hs Hc eq_refl); [|exact Hk].
    apply list_elem_of_omap in Hx as (kv & Hin & Hx). apply list_elem_of_omap. exists kv.
    split; [done|]. cbn in *. destruct (export_contributor order kv.2) as [[]|]; by simplify_eq/=.
Qed.
End Import.

(** C18: the genesis of x/serve keeps its logs.  After any run from a new chain
    the keeper's import of the keeper's export succeeds, and: every serve
    fingerprint leads to the same receipt as before; every org's epoch statistics
    are the same; the fingerprint of every stored denial and event is marked, so
    that none can be accepted a second time; and every denial, event, policy
    anchor and contributor record is the same under its key, unless the scan of
    the export, which has no upper bound, reads another value of the store as a
    record of that very key.  For every order in which the maps of the statistics
    were written. *)
Theorem serve_restart_keeps_logs k l p p' :
  let m := kv (run k l (mkSt new_chain p [])) in
  exists s', InitGenesis (ExportGenesis order m) (mkSt ∅ p' []) = (Ok tt, s') /\
    (forall fp, HasServeFingerprint m fp = true ->
       HasServeFingerprint (kv s') fp = true /\
       GetServeReceiptByFingerprint (kv s') fp = GetServeReceiptByFingerprint m fp) /\
    (forall o e st, GetEpochServeStats m o e = Ok st -> GetEpochServeStats (kv s') o e = Ok st) /\
    (forall key d, m !! key = Some (VDenial d) ->
       HasDenialFingerprint (kv s') (denial_fingerprint d) = true /\
       (sole (export_denial order) denial_key "denial/" key m -> kv s' !! key = Some (VDenial d))) /\
    (forall key e, m !! key = Some (VEvent e) ->
       is_Some (kv s' !! eventFingerprintKey (ev_Fingerprint e)) /\
       (sole (export_event order) event_key EventPrefix key m -> kv s' !! key = Some (VEvent e))) /\
    (forall key a, m !! key = Some (VAnchor a) ->
       sole (export_anchor order) anchor_key "policy_anchor/" key m -> kv s' !! key = Some (VAnchor a)) /\
    (forall key c, m !! key = Some (VContributor c) ->
       sole (export_contributor order) contributor_key "contributor/" key m ->
       kv s' !! key = Some (VContributor c)).
Proof.
  intros m. pose proof (run_placed k l p) as Hm. fold m in Hm.
  destruct (serve_run_good k l (mkSt new_chain p [])) as [HI _]; [apply new_chain_inv|]. fold m in HI.
  destruct (InitGenesis_runs (ExportGenesis order m) p') as (s' & E & _). exists s'.
  split; [exact E|]. split_and!.
  - intros fp Hfp. apply bool_decide_eq_true in Hfp as [v Hv].
    destruct (inv_pointer _ _ HI _ _ Hv) as (key & r & -> & Hr & <-).
    destruct (inv_receipt _ _ HI _ _ Hr) as [-> _].
    destruct (receipt_restored m HI Hm r Hr) as [H1 H2]. apply H1 in E as H1'. apply H2 in E as H2'.
    unfold restored in *. unfold HasServeFingerprint, GetServeReceiptByFingerprint.
    rewrite H2', Hv. split; [by apply bool_decide_eq_true|]. by rewrite H1', Hr.
  - intros o e st Hs. unfold GetEpochServeStats in *.
    destruct (m !! statsKey o e) as [[]|] eqn:Hst; try done. simplify_eq.
    apply (stats_restored m Hm) in Hst. apply Hst in E. unfold restored in E. by rewrite E.
  - intros key d Hd. destruct (denial_restored m Hm key d Hd) as [H1 H2].
    split; [apply bool_decide_eq_true; by eapply H2|]. intros Hs. by eapply (H1 Hs).
  - intros key e He. destruct (event_restored m Hm key e He) as [H1 H2].
    split; [by eapply H2|]. intros Hs. by eapply (H1 Hs).
  - intros key a Ha Hs. by eapply (anchor_restored m Hm key a Ha Hs).
  - intros key c Hc Hs. by eapply (contributor_restored m Hm key c Hc Hs).
Qed.
End Restart.

(** ** Concrete restarts *)
Module ServeGenesisDemo.
Import ServeDemo.

(** A digest of 32 characters. *)
Definition checksum (x : string) : N :=
  (fix go (x : string) (acc : N) : N :=
     match x with "" => acc | String c x' => go x' ((acc * 31 + N_of_ascii c) mod two64) end) x 7.
Definition digest (x : string) : string :=
  let d := FormatUint (checksum x) in String.substring 0 32 (d +:+ bytes32).
Local Instance digest_crypto : Crypto := {|
  sha256 := digest;
  ed25519_Verify _ _ sig := bool_decide (sig = sig64);
|}.

Lemma digest_size x : len (digest x) = 32.
Proof.
  unfold digest, len.
  enough (forall n y, (n <= String.length y)%nat -> String.length (String.substring 0 n y) = n) as H.
  { rewrite H; [done|]. rewrite str_length_app. cbn. lia. }
  induction n as [|n IH]; intros [|c y] Hy; cbn in *; try done; [lia|]. f_equal. apply IH. lia.
Qed.

Local Instance digest_laws : CryptoLaws.
Proof.
  split; [apply digest_size|]. intros pk msg sig. cbn. rewrite bool_decide_eq_true. by intros ->.
Qed.

Local Notation state_of l := (kv (run k l (mkSt new_chain tt []))).
Local Notation exported_of l := (ExportGenesis map_to_list (state_of l)).
Local Notation restarted l := (kv (InitGenesis (exported_of l) (mkSt ∅ tt [])).2).

Definition serve_once (epoch turns : N) : list (BlockCtx * serve_msg) :=
  [(ctx, ServeBatchMsg (mkMsgSubmitServeBatch "server" "org-0" epoch
      [mkServeEntry (hash "a") "carol" "model-a" turns "" key1 sig64 "n1" "episode"]))].
Definition fingerprint : string := ComputeServeFingerprint (hash "a") key1 5.

Lemma serve_restart_keeps_logs_witness :
  exists s', InitGenesis (exported_of (serve_once 5 3)) (mkSt ∅ tt []) = (Ok tt, s') /\
    HasServeFingerprint (kv s') fingerprint = true /\
    kv s' !! contributorKey "carol" 5 = state_of (serve_once 5 3) !! contributorKey "carol" 5 /\
    is_Some (kv s' !! contributorKey "carol" 5).
Proof.
  destruct (serve_restart_keeps_logs map_to_list k (serve_once 5 3) tt tt)
    as (s' & E & Hf & _ & _ & _ & _ & Hc).
  exists s'. split; [exact E|]. split; [apply Hf; vm_compute; reflexivity|].
  rewrite (Hc (contributorKey "carol" 5) (mkContributorEpochServes "carol" 5 1 0 ["org-0"] 3)).
  - split; [symmetry; vm_compute; reflexivity|by eexists].
  - vm_compute. reflexivity.
  - unfold sole. apply (bool_decide_unpack _). vm_compute. exact I.
Defined.

(** The counters of the memories are not exported: after a restart a memory may
    be served up to its cap again in the same epoch. *)
Lemma restart_resets_serve_counts :
  GetMemoryServeCount (state_of (serve_once 5 3)) "org-0" (hash "a") 5 = Ok 1 /\
  GetMemoryServeCount (restarted (serve_once 5 3)) "org-0" (hash "a") 5 = Ok 0 /\
  length (GetServeReceipts (restarted (serve_once 5 3)) "org-0" 5) = 1%nat.
Proof. split_and!; vm_compute; reflexivity. Qed.

(** A receipt without turns reads as a denial: the export invents a denial of
    the served memory, and the import counts it. *)
Lemma export_invents_denials :
  length (g_DenialReceipts (exported_of (serve_once 5 0))) = 1%nat /\
  GetMemoryDenialCount (state_of (serve_once 5 0)) "org-0" (hash "a") 5 = Ok 0 /\
  GetMemoryDenialCount (restarted (serve_once 5 0)) "org-0" (hash "a") 5 = Ok 1.
Proof. split_and!; vm_compute; reflexivity. Qed.

(** The statistics of an org that only denied in an epoch read as the record of a
    contributor named like the org: the import empties the contributor's own. *)
Definition deny_as (o : string) : list (BlockCtx * serve_msg) :=
  [(ctx, DenialBatchMsg (mkMsgSubmitDenialBatch "server" o 5
      [mkDenialEntry (hash "a") "stale" key1 sig64 fingerprint "n2" ""]))].
Definition contributor_of (m : gmap string serve_val) : option (N * N) :=
  match GetContributorEpochServes m "carol" 5 with
  | Ok c => Some (cs_ServeCount c, cs_TotalTurns c)
  | Err _ => None
  end.

Lemma restart_empties_contributors :
  let l := (serve_once 5 3 ++ deny_as "carol")%list in
  contributor_of (state_of l) = Some (1, 3) /\ contributor_of (restarted l) = Some (0, 0).
Proof. split; vm_compute; reflexivity. Qed.

Definition anchored (l : list string) : list (BlockCtx * serve_msg) :=
  (fun v => (ctx, AnchorPolicyMsg (mkMsgAnchorPolicyVersion "gov" v bytes32))) <$> l.
Definition latest (m : gmap string serve_val) : option string :=
  match GetLatestPolicyAnchor m with Ok (Some a) => Some (pa_PolicyVersion a) | _ => None end.

(** The import takes the last anchor in key order for the latest one. *)
Lemma restart_changes_latest_anchor :
  latest (state_of (anchored ["v9"; "v10"])) = Some "v10" /\
  latest (restarted (anchored ["v9"; "v10"])) = Some "v9".
Proof. split; vm_compute; reflexivity. Qed.

(** The statistics of epoch 0 read as a policy anchor named after the org, which
    the import makes the latest anchor, with an empty policy hash. *)
Lemma export_invents_anchors :
  let l := (anchored ["v1"] ++ serve_once 0 3)%list in
  latest (state_of l) = Some "v1" /\ latest (restarted l) = Some "org-0".
Proof. split; vm_compute; reflexivity. Qed.
End ServeGenesisDemo.
