(* ===== verification/Reputation.v ===== *)
(** * x/reputation: developer statistics and role profiles

    Models x/reputation/types (keys.go, params.go, msgs.go, genesis.go) and
    x/reputation/keeper (keeper.go, leader_profile.go, moderator_profile.go,
    msg_server.go).  The keeper calls no other keeper: its peers are the unit. *)

From S2P Require Import Prelude Bytes Store.
From Stdlib Require Import Ascii.
Local Open Scope string_scope.
Local Open Scope N_scope.

(** ** Data *)
(** [types.ReputationStats] (types/keys.go).  A Go map may be nil, which is
    [None]; the array of eleven buckets is a list of that length. *)
Record ReputationStats := mkStats {
  rs_DeveloperID : string; rs_MemoryCount : N; rs_DifficultyBucket : list N;
  rs_DomainTags : option (gmap string N); rs_ProvenanceBreakdown : option (gmap string N);
  rs_XP : N; rs_ServeCount : N; rs_SelfServeCount : N; rs_OrgBreadth : N;
  rs_FirstSeenEpoch : N; rs_ServeXP : N;
}.
#[export] Instance ReputationStats_fields : Fields ReputationStats :=
  fun r => mkStats (rs_DeveloperID r) (rs_MemoryCount r) (rs_DifficultyBucket r)
    (rs_DomainTags r) (rs_ProvenanceBreakdown r) (rs_XP r) (rs_ServeCount r)
    (rs_SelfServeCount r) (rs_OrgBreadth r) (rs_FirstSeenEpoch r) (rs_ServeXP r).

(** [types.StoredReputationStats] (types/state.pb.go), as a decoded value: a map
    field without entries does not distinguish nil from empty. *)
Record StoredReputationStats := mkStoredStats {
  ss_DeveloperId : string; ss_MemoryCount : N; ss_DifficultyBucket : list N;
  ss_DomainTags : gmap string N; ss_ProvenanceBreakdown : gmap string N;
  ss_Xp : N; ss_ServeCount : N; ss_SelfServeCount : N; ss_OrgBreadth : N;
  ss_FirstSeenEpoch : N; ss_ServeXp : N;
}.

(** [types.AttestedMemory] (types/keys.go); grades are 8-bit. *)
Record AttestedMemory := mkAttested {
  am_Developer : string; am_MemoryCID : string; am_Difficulty : N; am_Quality : N;
  am_DomainTags : list string; am_Provenance : string;
}.

(** [types.StoredAttestedMemory]; grades are 32-bit. *)
Record StoredAttestedMemory := mkStoredAttested {
  sa_Developer : string; sa_MemoryCid : string; sa_Difficulty : N; sa_Quality : N;
  sa_DomainTags : list string; sa_Provenance : string;
}.

Record StoredContributorOrgSet := mkOrgSet { os_ContributorId : string; os_OrgIds : list string }.
#[export] Instance StoredContributorOrgSet_fields : Fields StoredContributorOrgSet :=
  fun r => mkOrgSet (os_ContributorId r) (os_OrgIds r).

Record OrgMembership := mkMembership {
  om_OrgId : string; om_Role : string; om_JoinedEpoch : N; om_Active : bool;
}.
#[export] Instance OrgMembership_fields : Fields OrgMembership :=
  fun r => mkMembership (om_OrgId r) (om_Role r) (om_JoinedEpoch r) (om_Active r).

Record StoredContributorProfile := mkProfile {
  cp_ContributorId : string; cp_TotalApprovedMemories : N; cp_TotalServesReceived : N;
  cp_TotalDenialsReceived : N; cp_TotalReportsFiledAgainst : N;
  cp_TotalReportsUpheldAgainst : N; cp_Memberships : list OrgMembership;
  cp_FirstContributionEpoch : N; cp_LastContributionEpoch : N;
}.
#[export] Instance StoredContributorProfile_fields : Fields StoredContributorProfile :=
  fun r => mkProfile (cp_ContributorId r) (cp_TotalApprovedMemories r) (cp_TotalServesReceived r)
    (cp_TotalDenialsReceived r) (cp_TotalReportsFiledAgainst r) (cp_TotalReportsUpheldAgainst r)
    (cp_Memberships r) (cp_FirstContributionEpoch r) (cp_LastContributionEpoch r).

Record StoredModeratorProfile := mkModerator {
  mp_ModeratorPubkey : string; mp_OrgId : string; mp_TotalApprovals : N;
  mp_ApprovalsLaterUpheldCount : N; mp_ApprovedMemoryHashes : list string;
  mp_FirstApprovalEpoch : N; mp_LastApprovalEpoch : N;
}.
#[export] Instance StoredModeratorProfile_fields : Fields StoredModeratorProfile :=
  fun r => mkModerator (mp_ModeratorPubkey r) (mp_OrgId r) (mp_TotalApprovals r)
    (mp_ApprovalsLaterUpheldCount r) (mp_ApprovedMemoryHashes r) (mp_FirstApprovalEpoch r)
    (mp_LastApprovalEpoch r).

Record StoredLeaderProfile := mkLeader {
  lp_LeaderPubkey : string; lp_OrgId : string; lp_TotalChainCommitsSigned : N;
  lp_TotalUpheldReportsCommitted : N; lp_FirstLeadershipEpoch : N; lp_CurrentLeader : bool;
}.
#[export] Instance StoredLeaderProfile_fields : Fields StoredLeaderProfile :=
  fun r => mkLeader (lp_LeaderPubkey r) (lp_OrgId r) (lp_TotalChainCommitsSigned r)
    (lp_TotalUpheldReportsCommitted r) (lp_FirstLeadershipEpoch r) (lp_CurrentLeader r).

Record Params := mkParams {
  p_Active : bool; p_MaxDifficulty : N; p_MaxQuality : N; p_ServeXpPerServe : N;
  p_SelfServeXpPerServe : N;
}.

Record MsgUpdateReputation := mkMsgUpdateReputation {
  mr_Signer : string; mr_Developer : string; mr_MemoryCid : string; mr_Difficulty : N;
  mr_Quality : N; mr_DomainTags : list string; mr_Provenance : string;
}.
Record MsgUpdateParams := mkMsgUpdateParams { mp_Authority : string; mp_Params : option Params }.
Record MsgIncrementContribution := mkMsgIncrementContribution {
  ic_Authority : string; ic_ContributorId : string; ic_OrgId : string; ic_MemoryCid : string;
}.
Record MsgIncrementServe := mkMsgIncrementServe {
  is_Authority : string; is_ContributorId : string; is_OrgId : string; is_MemoryCid : string;
  is_ServeCount : N;
}.
Record MsgRecordBan := mkMsgRecordBan {
  rb_Authority : string; rb_ContributorId : string; rb_OrgId : string; rb_MemoryCid : string;
}.

(** [types.GenesisState] (types/keys.go). *)
Record GenesisState := mkGenesis {
  g_Active : bool; g_Stats : list ReputationStats;
  g_ContributorOrgSets : list StoredContributorOrgSet;
}.

Definition ErrInvalidDeveloper := Sentinel "reputation" "invalid developer".
Definition ErrReputationNotActive := Sentinel "reputation" "reputation module not active".
Definition ErrInvalidMemory := Sentinel "reputation" "invalid memory".
Definition ErrInvalidDifficulty := Sentinel "reputation" "invalid difficulty grade".
Definition ErrInvalidQuality := Sentinel "reputation" "invalid quality grade".
Definition ErrNoStats := Sentinel "reputation" "no stats found for developer".
Definition ErrUnauthorized := Sentinel "reputation" "unauthorized".

(** ** Statistics (types/keys.go) *)
Definition NewReputationStats (developerID : string) : ReputationStats :=
  mkStats developerID 0 (replicate 11 0) (Some ∅) (Some ∅) 0 0 0 0 0 0.

Definition ReputationStats_Validate (r : ReputationStats) : result unit :=
  err_if (bool_decide (rs_DeveloperID r = "")) ErrInvalidDeveloper.

(** [m[tag]++] on a Go map: a panic on a nil map. *)
Definition map_incr (tag : string) (m : option (gmap string N)) : result (option (gmap string N)) :=
  match m with
  | None => Err (Panic "assignment to entry in nil map")
  | Some m => Ok (Some (<[tag := (default 0 (m !! tag) + 1)%u64]> m))
  end.

Fixpoint add_tags (tags : list string) (m : option (gmap string N)) :
    result (option (gmap string N)) :=
  match tags with
  | [] => mret m
  | tag :: tags' =>
      if bool_decide (tag = "") then add_tags tags' m
      else m' ← map_incr tag m; add_tags tags' m'
  end.

Definition add_bucket (difficulty : N) (buckets : list N) : list N :=
  if difficulty <=? 10 then alter (fun n => (n + 1)%u64) (N.to_nat difficulty) buckets
  else buckets.

Definition ReputationStats_AddMemory (difficulty quality : N) (domainTags : list string)
    (provenance : string) (r : ReputationStats) : result ReputationStats :=
  let r := r <| rs_MemoryCount := (rs_MemoryCount r + 1)%u64 |> in
  let r := r <| rs_DifficultyBucket := add_bucket difficulty (rs_DifficultyBucket r) |> in
  tags ← add_tags domainTags (rs_DomainTags r);
  prov ← (if bool_decide (provenance = "") then mret (rs_ProvenanceBreakdown r)
          else map_incr provenance (rs_ProvenanceBreakdown r));
  let r := r <| rs_DomainTags := tags |> in
  let r := r <| rs_ProvenanceBreakdown := prov |> in
  mret (r <| rs_XP := (rs_XP r + difficulty * quality)%u64 |>).

Definition AttestedMemory_Validate (a : AttestedMemory) : result unit :=
  err_if (len (am_Developer a) =? 0) ErrInvalidDeveloper ;;
  err_if (bool_decide (am_MemoryCID a = "")) ErrInvalidMemory ;;
  err_if (10 <? am_Difficulty a) ErrInvalidDifficulty ;;
  err_if (10 <? am_Quality a) ErrInvalidQuality.

Definition AttestedMemory_GetXP (a : AttestedMemory) : N :=
  (am_Difficulty a * am_Quality a)%u64.

Definition DefaultParams : Params := mkParams true 10 10 5 2.
Definition Params_Validate (p : Params) : result unit :=
  err_if (p_MaxDifficulty p =? 0) (Errorf "max_difficulty must be non-zero") ;;
  err_if (p_MaxQuality p =? 0) (Errorf "max_quality must be non-zero").

Definition MsgUpdateReputation_ValidateBasic (m : MsgUpdateReputation) : result unit :=
  err_if (bool_decide (mr_Signer m = "")) (Errorf "signer cannot be empty") ;;
  err_if (len (mr_Developer m) =? 0) ErrInvalidDeveloper ;;
  err_if (bool_decide (mr_MemoryCid m = "")) ErrInvalidMemory ;;
  err_if (10 <? mr_Difficulty m) ErrInvalidDifficulty ;;
  err_if (10 <? mr_Quality m) ErrInvalidQuality.

Definition validate_subject (authority contributorID : string) : result unit :=
  err_if (bool_decide (authority = "")) (Errorf "authority cannot be empty") ;;
  err_if (bool_decide (contributorID = "")) (Errorf "contributor_id cannot be empty").
Definition MsgIncrementContribution_ValidateBasic (m : MsgIncrementContribution) : result unit :=
  validate_subject (ic_Authority m) (ic_ContributorId m).
Definition MsgIncrementServe_ValidateBasic (m : MsgIncrementServe) : result unit :=
  validate_subject (is_Authority m) (is_ContributorId m).
Definition MsgRecordBan_ValidateBasic (m : MsgRecordBan) : result unit :=
  validate_subject (rb_Authority m) (rb_ContributorId m).

(** ** Keys and conversions (keeper.go) *)
Definition activeKey : string := "active/".
Definition statsKey (developer : string) : string := "stats/" +:+ developer.
Definition memoryKey (developer memoryCID : string) : string :=
  "memory/" +:+ developer +:+ "/" +:+ memoryCID.
Definition memoryPrefix (developer : string) : string := "memory/" +:+ developer.
Definition contributorOrgSetKey (developer : string) : string := "orgset/" +:+ developer.
Definition contributorProfileKey (contributorID orgID : string) : string :=
  "profile/" +:+ contributorID +:+ "/" +:+ orgID.
Definition ParamsKey := "params".
Definition leaderProfilePrefix := "leaderprofile/".
Definition leaderProfileKey (leaderPubkey orgID : string) : string :=
  leaderProfilePrefix +:+ "/" +:+ leaderPubkey +:+ "/" +:+ orgID.
Definition modProfilePrefix := "modprofile/".
Definition MaxApprovedHashIndex : nat := 1000.
Definition moderatorProfileKey (modPubkey orgID : string) : string :=
  modProfilePrefix +:+ "/" +:+ modPubkey +:+ "/" +:+ orgID.

Definition reputationStatsToStored (stats : ReputationStats) : StoredReputationStats := {|
  ss_DeveloperId := rs_DeveloperID stats;
  ss_MemoryCount := rs_MemoryCount stats;
  ss_DifficultyBucket := rs_DifficultyBucket stats;
  ss_DomainTags := default ∅ (rs_DomainTags stats);
  ss_ProvenanceBreakdown := default ∅ (rs_ProvenanceBreakdown stats);
  ss_Xp := rs_XP stats;
  ss_ServeCount := rs_ServeCount stats;
  ss_SelfServeCount := rs_SelfServeCount stats;
  ss_OrgBreadth := rs_OrgBreadth stats;
  ss_FirstSeenEpoch := rs_FirstSeenEpoch stats;
  ss_ServeXp := rs_ServeXP stats;
|}.

(** [Unmarshal] allocates a map at its first entry only. *)
Definition decoded_map (m : gmap string N) : option (gmap string N) :=
  if bool_decide (m = ∅) then None else Some m.

(** [copy(bucket[:], l)] into a zero array of eleven. *)
Definition copy_buckets (l : list N) : list N := take 11 (l ++ replicate 11 0)%list.

Definition storedToReputationStats (stored : StoredReputationStats) : ReputationStats := {|
  rs_DeveloperID := ss_DeveloperId stored;
  rs_MemoryCount := ss_MemoryCount stored;
  rs_DifficultyBucket := copy_buckets (ss_DifficultyBucket stored);
  rs_DomainTags := decoded_map (ss_DomainTags stored);
  rs_ProvenanceBreakdown := decoded_map (ss_ProvenanceBreakdown stored);
  rs_XP := ss_Xp stored;
  rs_ServeCount := ss_ServeCount stored;
  rs_SelfServeCount := ss_SelfServeCount stored;
  rs_OrgBreadth := ss_OrgBreadth stored;
  rs_FirstSeenEpoch := ss_FirstSeenEpoch stored;
  rs_ServeXP := ss_ServeXp stored;
|}.

Definition attestedMemoryToStored (memory : AttestedMemory) : StoredAttestedMemory :=
  mkStoredAttested (am_Developer memory) (am_MemoryCID memory) (am_Difficulty memory)
    (am_Quality memory) (am_DomainTags memory) (am_Provenance memory).

Definition storedToAttestedMemory (stored : StoredAttestedMemory) : AttestedMemory :=
  mkAttested (sa_Developer stored) (sa_MemoryCid stored) (sa_Difficulty stored mod 256)
    (sa_Quality stored mod 256) (sa_DomainTags stored) (sa_Provenance stored).

(** ** The store *)
Inductive rep_val :=
  | VParams (p : Params)
  | VStats (s : StoredReputationStats)
  | VAttested (a : StoredAttestedMemory)
  | VOrgSet (s : StoredContributorOrgSet)
  | VProfile (p : StoredContributorProfile)
  | VModerator (p : StoredModeratorProfile)
  | VLeader (p : StoredLeaderProfile)
  | VRaw (b : string).

Section Reads.
Implicit Types m : gmap string rep_val.

Definition GetParams m : result Params :=
  match m !! ParamsKey with
  | None => Ok DefaultParams
  | Some (VParams p) => Ok p
  | Some _ => Err (Errorf "unmarshal params")
  end.

Definition IsActive m : bool :=
  match m !! activeKey with
  | Some (VRaw (String c _)) => bool_decide (c = ascii_of_N 1)
  | _ => false
  end.

Definition GetReputation m (developer : string) : result ReputationStats :=
  match m !! statsKey developer with
  | None => Err ErrNoStats
  | Some (VStats stored) => Ok (storedToReputationStats stored)
  | Some _ => Err (Errorf "unmarshal stats")
  end.

(** The statistics an update starts from. *)
Definition load_stats m (developer : string) : result ReputationStats :=
  match m !! statsKey developer with
  | None => Ok (NewReputationStats developer)
  | Some (VStats stored) => Ok (storedToReputationStats stored)
  | Some _ => Err (Errorf "unmarshal stats")
  end.

Definition GetXP m (developer : string) : result N :=
  stats ← GetReputation m developer; mret (rs_XP stats).
Definition GetMemoryCount m (developer : string) : result N :=
  stats ← GetReputation m developer; mret (rs_MemoryCount stats).
Definition GetServeStats m (developer : string) : result ReputationStats :=
  stats ← GetReputation m developer; mret stats.

Definition sum_u64 (l : list N) : N := foldl u64_add 0 l.

(** [NewDifficultyHistogram]: buckets and their total. *)
Definition GetDifficultyHistogram m (developer : string) : result (list N * N) :=
  stats ← GetReputation m developer;
  mret (rs_DifficultyBucket stats, sum_u64 (rs_DifficultyBucket stats)).

Definition HasDeveloper m (developer : string) : bool :=
  bool_decide (is_Some (m !! statsKey developer)).

Definition GetDeveloperMemories m (developer : string) : list AttestedMemory :=
  omap (fun kv => match kv.2 with VAttested a => Some (storedToAttestedMemory a) | _ => None end)
    (prefix_iter (memoryPrefix developer) m).

Definition ValidateAttestedMemory m (memory : AttestedMemory) : result unit :=
  if IsActive m then AttestedMemory_Validate memory else Err ErrReputationNotActive.

Definition GetContributorOrgSet m (developer : string) : result StoredContributorOrgSet :=
  match m !! contributorOrgSetKey developer with
  | None => Ok (mkOrgSet developer [])
  | Some (VOrgSet s) => Ok s
  | Some _ => Err (Errorf "unmarshal org set")
  end.

Definition empty_profile (contributorID : string) : StoredContributorProfile :=
  mkProfile contributorID 0 0 0 0 0 [] 0 0.

Definition GetContributorProfile m (contributorID orgID : string) :
    result StoredContributorProfile :=
  match m !! contributorProfileKey contributorID orgID with
  | None => Ok (empty_profile contributorID)
  | Some (VProfile p) => Ok p
  | Some _ => Err (Errorf "unmarshal profile")
  end.

Definition GetLeaderProfile m (leaderPubkey orgID : string) : result StoredLeaderProfile :=
  match m !! leaderProfileKey leaderPubkey orgID with
  | None => Ok (mkLeader leaderPubkey orgID 0 0 0 false)
  | Some (VLeader p) => Ok p
  | Some _ => Err (Errorf "unmarshal leader profile")
  end.

Definition GetModeratorProfile m (modPubkey orgID : string) : result StoredModeratorProfile :=
  match m !! moderatorProfileKey modPubkey orgID with
  | None => Ok (mkModerator modPubkey orgID 0 0 [] 0 0)
  | Some (VModerator p) => Ok p
  | Some _ => Err (Errorf "unmarshal moderator profile")
  end.

(** One pass of the exchange sort: the element at position i against the
    positions after it, exchanged with every larger one met. *)
Fixpoint sel_pass (x : string * N) (rest : list (string * N)) :
    (string * N) * list (string * N) :=
  match rest with
  | [] => (x, [])
  | y :: rest' =>
      if x.2 <? y.2 then let '(top, r) := sel_pass y rest' in (top, x :: r)
      else let '(top, r) := sel_pass x rest' in (top, y :: r)
  end.

(** The passes for i = 0, 1, ...; the fuel is the number of elements. *)
Fixpoint sel_sort (fuel : nat) (l : list (string * N)) : list (string * N) :=
  match fuel, l with
  | Datatypes.S fuel', x :: rest => let '(top, r) := sel_pass x rest in top :: sel_sort fuel' r
  | _, _ => l
  end.

(** [order] is the iteration order of the tag map of the statistics. *)
Definition GetTopDomains m (developer : string) (limit : Z)
    (order : gmap string N -> list (string * N)) : result (list string) :=
  stats ← GetReputation m developer;
  let domains := order (default ∅ (rs_DomainTags stats)) in
  if (Z.of_nat (length domains) <=? limit)%Z then mret domains.*1
  else if (limit <? 0)%Z then Err (Panic "makeslice: len out of range")
  else mret (take (Z.to_nat limit) (sel_sort (length domains) domains)).*1.

Definition stats_in (kv : string * rep_val) : option ReputationStats :=
  match kv.2 with VStats s => Some (storedToReputationStats s) | _ => None end.

(** [GetReputationStatsMap]: by the developer id inside the record. *)
Definition GetReputationStatsMap m : gmap string ReputationStats :=
  foldl (fun acc stats => <[rs_DeveloperID stats := stats]> acc) ∅
    (omap stats_in (prefix_iter "stats/" m)).

(** The statistics come out in the iteration order of a Go map: any order of
    the values of [GetReputationStatsMap]. *)
Definition ExportGenesisState m (g : GenesisState) : Prop :=
  g_Active g = IsActive m /\
  g_Stats g ≡ₚ (map_to_list (GetReputationStatsMap m)).*2 /\
  g_ContributorOrgSets g = omap (fun kv => match kv.2 with VOrgSet s => Some s | _ => None end)
    (prefix_iter "orgset/" m).
End Reads.

(** ** Keeper operations *)
Record Keeper := mkKeeper { authority : string }.
Local Notation S := (St rep_val unit).

Definition SetParams (params : Params) : M S unit := kset ParamsKey (VParams params).
Definition Activate : M S unit := kset activeKey (VRaw (String (ascii_of_N 1) "")).
Definition Deactivate : M S unit := kset activeKey (VRaw (String (ascii_of_N 0) "")).

Definition require_active : M S unit :=
  active ← kread (A := bool) (fun m => Ok (IsActive m));
  fail_if (negb active) ErrReputationNotActive.

Definition UpdateReputation (developer : string) (memory : AttestedMemory) : M S unit :=
  require_active ;;
  lift (AttestedMemory_Validate memory) ;;
  stats ← kread (fun m => load_stats m developer);
  stats ← lift (ReputationStats_AddMemory (am_Difficulty memory) (am_Quality memory)
                  (am_DomainTags memory) (am_Provenance memory) stats);
  kset (statsKey developer) (VStats (reputationStatsToStored stats)) ;;
  kset (memoryKey developer (am_MemoryCID memory)) (VAttested (attestedMemoryToStored memory)).

Definition AddMemory (developer : string) (memory : AttestedMemory) : M S unit :=
  UpdateReputation developer memory.

Definition RecordServe (contributorWallet orgID : string) (epoch : N) (isSelfServe : bool) :
    M S unit :=
  require_active ;;
  stats ← kread (fun m => load_stats m contributorWallet);
  let stats := stats <| rs_ServeCount := (rs_ServeCount stats + 1)%u64 |> in
  let stats := if isSelfServe
    then stats <| rs_SelfServeCount := (rs_SelfServeCount stats + 1)%u64 |> else stats in
  params ← kread GetParams;
  let stats := stats <| rs_ServeXP := (rs_ServeXP stats +
    (if isSelfServe then p_SelfServeXpPerServe params else p_ServeXpPerServe params))%u64 |> in
  let stats := if rs_FirstSeenEpoch stats =? 0 then stats <| rs_FirstSeenEpoch := epoch |>
               else stats in
  orgSet ← kread (fun m => GetContributorOrgSet m contributorWallet);
  let orgFound := bool_decide (orgID ∈ os_OrgIds orgSet) in
  let orgSet := if orgFound then orgSet
    else mkOrgSet (os_ContributorId orgSet) (os_OrgIds orgSet ++ [orgID])%list in
  let stats := if orgFound then stats
    else stats <| rs_OrgBreadth := (rs_OrgBreadth stats + 1)%u64 |> in
  kset (contributorOrgSetKey contributorWallet) (VOrgSet orgSet) ;;
  kset (statsKey contributorWallet) (VStats (reputationStatsToStored stats)).

(** Load a profile, name it, change it, write it back. *)
Definition load_profile (m : gmap string rep_val) (key contributorID : string) : result StoredContributorProfile :=
  match m !! key with
  | None => Ok (empty_profile contributorID)
  | Some (VProfile p) =>
      Ok (if bool_decide (cp_ContributorId p = "") then p <| cp_ContributorId := contributorID |>
          else p)
  | Some _ => Err (Errorf "unmarshal profile")
  end.

Definition modify_profile (contributorID orgID : string)
    (f : StoredContributorProfile -> StoredContributorProfile) : M S unit :=
  let key := contributorProfileKey contributorID orgID in
  profile ← kread (fun m => load_profile m key contributorID);
  kset key (VProfile (f profile)).

Definition IncrementContribution (contributorID orgID memoryCID : string) : M S unit :=
  modify_profile contributorID orgID (fun p =>
    p <| cp_TotalApprovedMemories := (cp_TotalApprovedMemories p + 1)%u64 |>).

Definition IncrementServe (contributorID orgID memoryCID : string) (count : N) : M S unit :=
  modify_profile contributorID orgID (fun p =>
    p <| cp_TotalServesReceived := (cp_TotalServesReceived p + count)%u64 |>).

Definition RecordBan (contributorID orgID memoryCID : string) : M S unit :=
  modify_profile contributorID orgID (fun p =>
    p <| cp_TotalReportsUpheldAgainst := (cp_TotalReportsUpheldAgainst p + 1)%u64 |>).

Record ContributorDelta := mkDelta {
  ApprovedMemories : Z; ServesReceived : Z; DenialsReceived : Z; ReportsFiledAgainst : Z;
  ReportsUpheldAgainst : Z;
}.

(** [uint64(int64(x) + d)]. *)
Definition add_delta (x : N) (d : Z) : N := u64_of_int64 (int64_of_u64 x + d)%Z.

Definition apply_delta (delta : ContributorDelta) (p : StoredContributorProfile) :
    StoredContributorProfile :=
  mkProfile (cp_ContributorId p)
    (add_delta (cp_TotalApprovedMemories p) (ApprovedMemories delta))
    (add_delta (cp_TotalServesReceived p) (ServesReceived delta))
    (add_delta (cp_TotalDenialsReceived p) (DenialsReceived delta))
    (add_delta (cp_TotalReportsFiledAgainst p) (ReportsFiledAgainst delta))
    (add_delta (cp_TotalReportsUpheldAgainst p) (ReportsUpheldAgainst delta))
    (cp_Memberships p) (cp_FirstContributionEpoch p) (cp_LastContributionEpoch p).

Definition UpdateContributorAggregate (contributorID : string) (delta : ContributorDelta) :
    M S unit :=
  modify_profile contributorID "" (apply_delta delta).

(** The first membership of an org is changed in place; [None] when there is none. *)
Fixpoint modify_membership (orgID : string) (f : OrgMembership -> OrgMembership)
    (l : list OrgMembership) : option (list OrgMembership) :=
  match l with
  | [] => None
  | x :: l' => if bool_decide (om_OrgId x = orgID) then Some (f x :: l')
               else l'' ← modify_membership orgID f l'; Some (x :: l'')
  end.

Definition AddContributorOrgMembership (contributorID orgID role : string) (joinedEpoch : N) :
    M S unit :=
  modify_profile contributorID "" (fun p =>
    match modify_membership orgID (fun x => x <| om_Role := role |> <| om_Active := true |>)
            (cp_Memberships p) with
    | Some l => p <| cp_Memberships := l |>
    | None => p <| cp_Memberships :=
                (cp_Memberships p ++ [mkMembership orgID role joinedEpoch true])%list |>
    end).

(** Changing a membership that must exist. *)
Definition update_membership (contributorID orgID : string) (f : OrgMembership -> OrgMembership) :
    M S unit :=
  let key := contributorProfileKey contributorID "" in
  bz ← kget key;
  match bz with
  | None => fail (Errorf "contributor profile not found")
  | Some (VProfile p) =>
      match modify_membership orgID f (cp_Memberships p) with
      | Some l => kset key (VProfile (p <| cp_Memberships := l |>))
      | None => fail (Errorf "membership not found for org")
      end
  | Some _ => fail (Errorf "unmarshal profile")
  end.

Definition UpdateContributorOrgRole (contributorID orgID newRole : string) : M S unit :=
  update_membership contributorID orgID (fun x => x <| om_Role := newRole |>).
Definition MarkContributorOrgInactive (contributorID orgID : string) : M S unit :=
  update_membership contributorID orgID (fun x => x <| om_Active := false |>).

Definition RecordContributorActivity (contributorID : string) (epoch : N) : M S unit :=
  modify_profile contributorID "" (fun p =>
    let p := if cp_FirstContributionEpoch p =? 0 then p <| cp_FirstContributionEpoch := epoch |>
             else p in
    p <| cp_LastContributionEpoch := epoch |>).

Definition SetLeaderProfile (profile : StoredLeaderProfile) : M S unit :=
  kset (leaderProfileKey (lp_LeaderPubkey profile) (lp_OrgId profile)) (VLeader profile).

Definition modify_leader (leaderPubkey orgID : string)
    (f : StoredLeaderProfile -> StoredLeaderProfile) : M S unit :=
  profile ← kread (fun m => GetLeaderProfile m leaderPubkey orgID);
  SetLeaderProfile (f profile).

Definition IncrementLeaderChainCommit (leaderPubkey orgID : string) : M S unit :=
  modify_leader leaderPubkey orgID (fun p =>
    p <| lp_TotalChainCommitsSigned := (lp_TotalChainCommitsSigned p + 1)%u64 |>).
Definition IncrementLeaderUpheldReport (leaderPubkey orgID : string) : M S unit :=
  modify_leader leaderPubkey orgID (fun p =>
    p <| lp_TotalUpheldReportsCommitted := (lp_TotalUpheldReportsCommitted p + 1)%u64 |>).
Definition SetLeaderCurrent (leaderPubkey orgID : string) (current : bool) : M S unit :=
  modify_leader leaderPubkey orgID (fun p => p <| lp_CurrentLeader := current |>).

Definition SetModeratorProfile (profile : StoredModeratorProfile) : M S unit :=
  kset (moderatorProfileKey (mp_ModeratorPubkey profile) (mp_OrgId profile)) (VModerator profile).

(** The oldest hash is dropped once the index is full. *)
Definition index_hash (memoryHash : string) (l : list string) : list string :=
  ((if bool_decide (MaxApprovedHashIndex <= length l)%nat then tail l else l) ++ [memoryHash])%list.

Definition IncrementModeratorApproval (modPubkey orgID memoryHash : string) (epoch : N) :
    M S unit :=
  profile ← kread (fun m => GetModeratorProfile m modPubkey orgID);
  let profile := profile <| mp_TotalApprovals := (mp_TotalApprovals profile + 1)%u64 |> in
  let profile := profile <| mp_ApprovedMemoryHashes :=
                   index_hash memoryHash (mp_ApprovedMemoryHashes profile) |> in
  let profile := if mp_FirstApprovalEpoch profile =? 0
    then profile <| mp_FirstApprovalEpoch := epoch |> else profile in
  SetModeratorProfile (profile <| mp_LastApprovalEpoch := epoch |>).

Definition IncrementModeratorUpheld (modPubkey orgID : string) : M S unit :=
  profile ← kread (fun m => GetModeratorProfile m modPubkey orgID);
  SetModeratorProfile (profile <| mp_ApprovalsLaterUpheldCount :=
    (mp_ApprovalsLaterUpheldCount profile + 1)%u64 |>).

Definition InitGenesisState (state : GenesisState) : M S unit :=
  (if g_Active state then kset activeKey (VRaw (String (ascii_of_N 1) "")) ;; Activate
   else mret tt) ;;
  for_each (g_Stats state) (fun stats =>
    kset (statsKey (rs_DeveloperID stats)) (VStats (reputationStatsToStored stats))) ;;
  for_each (g_ContributorOrgSets state) (fun orgSet =>
    kset (contributorOrgSetKey (os_ContributorId orgSet)) (VOrgSet orgSet)).

(** The map is given in its iteration order. *)
Definition InitFromMap (statsMap : list (string * ReputationStats)) : M S unit :=
  for_each statsMap (fun ds =>
    lift (ReputationStats_Validate ds.2) ;;
    kset (statsKey ds.1) (VStats (reputationStatsToStored ds.2))).

(** module/module.go; [None] is an empty genesis message. *)
Definition DefaultGenesis : GenesisState := mkGenesis true [] [].
Definition Module_InitGenesis (supplied : option GenesisState) : M S unit :=
  SetParams DefaultParams ;;
  InitGenesisState (default DefaultGenesis supplied).

(** ** Message server (msg_server.go) *)
Section MsgServer.
Context (k : Keeper).

Definition MsgServer_UpdateReputation (msg : MsgUpdateReputation) : M S N :=
  lift (MsgUpdateReputation_ValidateBasic msg) ;;
  let memory := mkAttested (mr_Developer msg) (mr_MemoryCid msg) (mr_Difficulty msg mod 256)
    (mr_Quality msg mod 256) (mr_DomainTags msg) (mr_Provenance msg) in
  UpdateReputation (mr_Developer msg) memory ;;
  kread (fun m => GetXP m (mr_Developer msg)).

Definition require_authority (signer : string) : M S unit :=
  fail_if (negb (bool_decide (signer = authority k))) ErrUnauthorized.

Definition MsgServer_UpdateParams (msg : MsgUpdateParams) : M S unit :=
  require_authority (mp_Authority msg) ;;
  match mp_Params msg with
  | None => fail (Panic "nil params")
  | Some params => lift (Params_Validate params) ;; SetParams params
  end.

Definition MsgServer_IncrementContribution (msg : MsgIncrementContribution) : M S unit :=
  lift (MsgIncrementContribution_ValidateBasic msg) ;;
  require_authority (ic_Authority msg) ;;
  IncrementContribution (ic_ContributorId msg) (ic_OrgId msg) (ic_MemoryCid msg).

Definition MsgServer_IncrementServe (msg : MsgIncrementServe) : M S unit :=
  lift (MsgIncrementServe_ValidateBasic msg) ;;
  require_authority (is_Authority msg) ;;
  IncrementServe (is_ContributorId msg) (is_OrgId msg) (is_MemoryCid msg) (is_ServeCount msg).

Definition MsgServer_RecordBan (msg : MsgRecordBan) : M S unit :=
  lift (MsgRecordBan_ValidateBasic msg) ;;
  require_authority (rb_Authority msg) ;;
  RecordBan (rb_ContributorId msg) (rb_OrgId msg) (rb_MemoryCid msg).
End MsgServer.

(** The messages, and the calls the memory and serve keepers make. *)
Inductive rep_call :=
  | UpdateReputationMsg (msg : MsgUpdateReputation)
  | UpdateParamsMsg (msg : MsgUpdateParams)
  | IncrementContributionMsg (msg : MsgIncrementContribution)
  | IncrementServeMsg (msg : MsgIncrementServe)
  | RecordBanMsg (msg : MsgRecordBan)
  | RecordServeCall (contributor orgID : string) (epoch : N) (isSelfServe : bool)
  | IncrementContributionCall (contributor orgID cid : string)
  | ModeratorUpheldCall (moderator orgID : string)
  | LeaderCommitCall (leader orgID : string)
  | LeaderUpheldCall (leader orgID : string).

Definition handle (k : Keeper) (c : rep_call) : M S unit :=
  match c with
  | UpdateReputationMsg msg => MsgServer_UpdateReputation msg ;; mret tt
  | UpdateParamsMsg msg => MsgServer_UpdateParams k msg
  | IncrementContributionMsg msg => MsgServer_IncrementContribution k msg
  | IncrementServeMsg msg => MsgServer_IncrementServe k msg
  | RecordBanMsg msg => MsgServer_RecordBan k msg
  | RecordServeCall c o e b => RecordServe c o e b
  | IncrementContributionCall c o cid => IncrementContribution c o cid
  | ModeratorUpheldCall p o => IncrementModeratorUpheld p o
  | LeaderCommitCall p o => IncrementLeaderChainCommit p o
  | LeaderUpheldCall p o => IncrementLeaderUpheldReport p o
  end.
