(* ===== verification/ReputationProps.v ===== *)
(** * Correctness of x/reputation

    The statistics of a developer stay consistent with the memories and serves
    recorded for them, what one update does, who may trigger it, and what the
    genesis export keeps. *)

From S2P Require Import Prelude Bytes Store Reputation.
From Stdlib Require Import Ascii.
Local Open Scope string_scope.
Local Open Scope N_scope.

Implicit Types (m : gmap string rep_val) (s : St rep_val unit).

(** ** Buckets and tags *)
Definition bucket_sum (l : list N) : N := foldr N.add 0 l.

Lemma bucket_sum_alter (i : nat) (l : list N) :
  (i < length l)%nat ->
  bucket_sum (alter (fun n => (n + 1)%u64) i l) mod two64 = (bucket_sum l + 1) mod two64.
Proof.
  revert i. induction l as [|x l IH]; intros i Hi; [simpl in Hi; lia|].
  destruct i as [|i]; cbn [alter list_alter bucket_sum foldr].
  - unfold u64_add. fold (bucket_sum l). rewrite N.Div0.add_mod_idemp_l. f_equal. lia.
  - fold (bucket_sum (list_alter (fun n => (n + 1)%u64) i l)). fold (bucket_sum l).
    change (list_alter ?f i l) with (alter f i l).
    rewrite <- N.Div0.add_mod_idemp_r, IH, N.Div0.add_mod_idemp_r by (simpl in Hi; lia).
    f_equal. lia.
Qed.

Lemma add_bucket_sum d l :
  d <= 10 -> length l = 11%nat ->
  length (add_bucket d l) = 11%nat /\
  bucket_sum (add_bucket d l) mod two64 = (bucket_sum l + 1) mod two64.
Proof.
  intros Hd Hl. unfold add_bucket. rewrite (proj2 (N.leb_le _ _)) by done.
  rewrite length_alter. split; [done|]. apply bucket_sum_alter. lia.
Qed.

Lemma copy_buckets_id l : length l = 11%nat -> copy_buckets l = l.
Proof. intros H. unfold copy_buckets. rewrite take_app_le by lia. apply take_ge. lia. Qed.

(** The count of a key in a Go map, nil or not. *)
Definition count_in (t : string) (o : option (gmap string N)) : N := default 0 (default ∅ o !! t).

Lemma count_in_decoded t (x : gmap string N) : count_in t (decoded_map x) = default 0 (x !! t).
Proof. unfold count_in, decoded_map. case_bool_decide; by subst. Qed.

Lemma map_incr_count t t' o o' :
  map_incr t o = Ok o' ->
  count_in t' o' = (if decide (t = t') then (count_in t' o + 1)%u64 else count_in t' o).
Proof.
  unfold map_incr, count_in. destruct o as [x|]; [|done]. intros [= <-]. simpl.
  case_decide as E; [subst; by rewrite lookup_insert_eq|by rewrite lookup_insert_ne].
Qed.

(** The occurrences of a tag, empty tags not counting. *)
Definition occurs (t : string) (tags : list string) : N :=
  N.of_nat (length (List.filter (fun x => bool_decide (x = t)) tags)).

Lemma add_tags_count t tags o o' :
  t <> "" -> add_tags tags o = Ok o' -> count_in t o < two64 ->
  count_in t o' = (count_in t o + occurs t tags)%u64.
Proof.
  intros Ht. revert o. induction tags as [|x tags IH]; intros o H Hlt; cbn [add_tags] in H.
  - rok H. unfold occurs. simpl. rewrite u64_add_small; lia.
  - unfold occurs in *. cbn [List.filter]. case_bool_decide as E; [subst x|].
    + rewrite bool_decide_false by congruence. by apply IH.
    + rok H. rewrite (IH _ H).
      * rewrite (map_incr_count _ _ _ _ Hr). case_decide as Et; [subst x|].
        -- rewrite bool_decide_true by done. cbn [length]. unfold u64_add.
           rewrite N.Div0.add_mod_idemp_l. f_equal. lia.
        -- by rewrite bool_decide_false by congruence.
      * rewrite (map_incr_count _ _ _ _ Hr). case_decide; [apply u64_add_is|done].
Qed.

(** A nil map takes no entry. *)
Lemma add_tags_nil tags :
  existsb (fun t => negb (bool_decide (t = ""))) tags = true ->
  add_tags tags None = Err (Panic "assignment to entry in nil map").
Proof.
  induction tags as [|t tags IH]; [done|]. cbn [existsb add_tags].
  case_bool_decide; cbn [negb orb]; [apply IH|done].
Qed.

(** ** The invariant *)
Definition breadth m (d : string) : N :=
  match m !! statsKey d with Some (VStats s) => ss_OrgBreadth s | _ => 0 end.
Definition orgs_of m (d : string) : list string :=
  match m !! contributorOrgSetKey d with Some (VOrgSet o) => os_OrgIds o | _ => [] end.

Definition stats_ok (d : string) (x : StoredReputationStats) : Prop :=
  ss_DeveloperId x = d /\ length (ss_DifficultyBucket x) = 11%nat /\
  ss_MemoryCount x = bucket_sum (ss_DifficultyBucket x) mod two64.
Definition orgset_ok (d : string) (o : StoredContributorOrgSet) : Prop :=
  os_ContributorId o = d /\ NoDup (os_OrgIds o).

Record rep_inv m : Prop := {
  inv_stats d v : m !! statsKey d = Some v -> exists x, v = VStats x /\ stats_ok d x;
  inv_orgset d v : m !! contributorOrgSetKey d = Some v -> exists o, v = VOrgSet o /\ orgset_ok d o;
  inv_breadth d : breadth m d = N.of_nat (length (orgs_of m d)) mod two64;
}.

Lemma repStatsKey_inj d d' : statsKey d = statsKey d' -> d = d'.
Proof. apply str_app_inj_l. Qed.
Lemma orgSetKey_inj d d' : contributorOrgSetKey d = contributorOrgSetKey d' -> d = d'.
Proof. apply str_app_inj_l. Qed.

Lemma rep_inv_other m k v :
  (forall d, k <> statsKey d) -> (forall d, k <> contributorOrgSetKey d) ->
  rep_inv m -> rep_inv (<[k:=v]> m).
Proof.
  intros Hs Ho [H1 H2 H3]. split.
  - intros d w. rewrite lookup_insert_ne by done. apply H1.
  - intros d w. rewrite lookup_insert_ne by done. apply H2.
  - intros d. unfold breadth, orgs_of. rewrite !lookup_insert_ne by done. apply H3.
Qed.

(** New statistics and org set of one developer. *)
Lemma rep_inv_record m d x o :
  rep_inv m -> stats_ok d x -> orgset_ok d o ->
  ss_OrgBreadth x = N.of_nat (length (os_OrgIds o)) mod two64 ->
  rep_inv (<[statsKey d := VStats x]> (<[contributorOrgSetKey d := VOrgSet o]> m)).
Proof.
  intros [H1 H2 H3] Hx Ho Hb. split.
  - intros d' w. rewrite lookup_insert_Some. intros [[<-%repStatsKey_inj <-]|[_ Hw]]; [eauto|].
    rewrite lookup_insert_ne in Hw by done. by apply H1.
  - intros d' w. rewrite lookup_insert_ne by done. rewrite lookup_insert_Some.
    intros [[<-%orgSetKey_inj <-]|[_ Hw]]; eauto.
  - intros d'. destruct (decide (d = d')) as [<-|Hne].
    + unfold breadth, orgs_of. rewrite lookup_insert_eq, lookup_insert_ne by done.
      by rewrite lookup_insert_eq.
    + unfold breadth, orgs_of.
      rewrite (lookup_insert_ne _ (statsKey d) (statsKey d')) by by intros ?%repStatsKey_inj.
      rewrite !lookup_insert_ne by (done || by intros ?%orgSetKey_inj). apply H3.
Qed.

Lemma rep_inv_stats m d x :
  rep_inv m -> stats_ok d x -> ss_OrgBreadth x = breadth m d ->
  rep_inv (<[statsKey d := VStats x]> m).
Proof.
  intros [H1 H2 H3] Hx Hb. split.
  - intros d' w. rewrite lookup_insert_Some. intros [[<-%repStatsKey_inj <-]|[_ Hw]]; [eauto|].
    by apply H1.
  - intros d' w. rewrite lookup_insert_ne by done. apply H2.
  - intros d'. assert (orgs_of (<[statsKey d := VStats x]> m) d' = orgs_of m d') as ->
      by (unfold orgs_of; by rewrite lookup_insert_ne).
    rewrite <- H3. unfold breadth at 1. destruct (decide (d = d')) as [<-|Hne].
    + by rewrite lookup_insert_eq.
    + rewrite lookup_insert_ne; [done|]. by intros ?%repStatsKey_inj.
Qed.

(** What an update starts from. *)
Lemma load_stats_ok m d x :
  rep_inv m -> load_stats m d = Ok x ->
  rs_DeveloperID x = d /\ length (rs_DifficultyBucket x) = 11%nat /\
  rs_MemoryCount x = bucket_sum (rs_DifficultyBucket x) mod two64 /\ rs_OrgBreadth x = breadth m d.
Proof.
  intros HI H. unfold load_stats, breadth in *. destruct (m !! statsKey d) as [v|] eqn:E.
  - destruct (inv_stats _ HI _ _ E) as (y & -> & Hd & Hl & Hc). injection H as <-. simpl.
    by rewrite copy_buckets_id.
  - injection H as <-. by vm_compute.
Qed.

Lemma AddMemory_ok df q tags p x y :
  df <= 10 -> length (rs_DifficultyBucket x) = 11%nat ->
  rs_MemoryCount x = bucket_sum (rs_DifficultyBucket x) mod two64 ->
  ReputationStats_AddMemory df q tags p x = Ok y ->
  rs_DeveloperID y = rs_DeveloperID x /\ rs_OrgBreadth y = rs_OrgBreadth x /\
  rs_MemoryCount y = (rs_MemoryCount x + 1)%u64 /\
  rs_XP y = (rs_XP x + df * q)%u64 /\
  add_tags tags (rs_DomainTags x) = Ok (rs_DomainTags y) /\
  length (rs_DifficultyBucket y) = 11%nat /\
  rs_MemoryCount y = bucket_sum (rs_DifficultyBucket y) mod two64.
Proof.
  intros Hd Hl Hc H. destruct (add_bucket_sum df _ Hd Hl) as [Hl' Hs'].
  assert ((rs_MemoryCount x + 1)%u64 =
    bucket_sum (add_bucket df (rs_DifficultyBucket x)) mod two64) as Hcount
    by by rewrite Hs', Hc, u64_succ_mod.
  unfold ReputationStats_AddMemory in H. by rok H.
Qed.

Lemma require_active_ok s u s' : require_active s = (Ok u, s') -> s' = s /\ IsActive (kv s) = true.
Proof. unfold require_active. intros H. mok H. by gok. Qed.

Lemma UpdateReputation_run d mem s u s' :
  UpdateReputation d mem s = (Ok u, s') ->
  IsActive (kv s) = true /\ AttestedMemory_Validate mem = Ok tt /\
  exists x y, load_stats (kv s) d = Ok x /\
    ReputationStats_AddMemory (am_Difficulty mem) (am_Quality mem) (am_DomainTags mem)
      (am_Provenance mem) x = Ok y /\
    s' = mkSt (<[memoryKey d (am_MemoryCID mem) := VAttested (attestedMemoryToStored mem)]>
                (<[statsKey d := VStats (reputationStatsToStored y)]> (kv s))) (peers s) (evs s).
Proof.
  unfold UpdateReputation. intros H. apply M_bind_ok in H as ([] & s1 & H1 & H).
  apply require_active_ok in H1 as [-> Ha]. mok H. split; [done|].
  split; [by match goal with u : unit |- _ => destruct u end|]. eauto 10.
Qed.

Lemma validated_grade mem : AttestedMemory_Validate mem = Ok tt -> am_Difficulty mem <= 10.
Proof. unfold AttestedMemory_Validate. intros H. rok H. by gok. Qed.

Lemma UpdateReputation_inv d mem s u s' :
  rep_inv (kv s) -> UpdateReputation d mem s = (Ok u, s') -> rep_inv (kv s').
Proof.
  intros HI H. apply UpdateReputation_run in H as (_ & Hv & x & y & Hx & Hy & ->). cbn [kv].
  destruct (load_stats_ok _ _ _ HI Hx) as (Hd & Hl & Hc & Hb).
  apply AddMemory_ok in Hy as (Hd' & Hb' & Hc' & _ & _ & Hl' & Hs'); [|by apply validated_grade|done..].
  apply rep_inv_other; [done..|]. apply rep_inv_stats; [done| |by rewrite <- Hb, <- Hb'].
  split; [by rewrite <- Hd, <- Hd'|]. by split.
Qed.

(** The statistics after a serve. *)
Definition served (p : Params) (e : N) (self : bool) (x : ReputationStats) : ReputationStats :=
  let x := x <| rs_ServeCount := (rs_ServeCount x + 1)%u64 |> in
  let x := if self then x <| rs_SelfServeCount := (rs_SelfServeCount x + 1)%u64 |> else x in
  let x := x <| rs_ServeXP := (rs_ServeXP x +
    (if self then p_SelfServeXpPerServe p else p_ServeXpPerServe p))%u64 |> in
  if rs_FirstSeenEpoch x =? 0 then x <| rs_FirstSeenEpoch := e |> else x.

Lemma RecordServe_run d o e b s u s' :
  RecordServe d o e b s = (Ok u, s') ->
  IsActive (kv s) = true /\ exists x p os, load_stats (kv s) d = Ok x /\ GetParams (kv s) = Ok p /\
    GetContributorOrgSet (kv s) d = Ok os /\
    let found := bool_decide (o ∈ os_OrgIds os) in
    let os' := if found then os else mkOrgSet (os_ContributorId os) (os_OrgIds os ++ [o])%list in
    let y := served p e b x in
    let y := if found then y else y <| rs_OrgBreadth := (rs_OrgBreadth y + 1)%u64 |> in
    s' = mkSt (<[statsKey d := VStats (reputationStatsToStored y)]>
                (<[contributorOrgSetKey d := VOrgSet os']> (kv s))) (peers s) (evs s).
Proof.
  unfold RecordServe. intros H. apply M_bind_ok in H as ([] & s1 & H1 & H).
  apply require_active_ok in H1 as [-> Ha].
  apply M_bind_ok in H as (x & s1 & Hx & H). mok Hx.
  apply M_bind_ok in H as (p & s1 & Hp & H). mok Hp.
  apply M_bind_ok in H as (os & s1 & Ho & H). mok Ho.
  unfold mbind, M_bind, kset in H. cbn [kv peers evs] in H. injection H as _ <-.
  split; [done|]. exists x, p, os. done.
Qed.

Lemma served_keeps p e b x :
  rs_DeveloperID (served p e b x) = rs_DeveloperID x /\
  rs_DifficultyBucket (served p e b x) = rs_DifficultyBucket x /\
  rs_MemoryCount (served p e b x) = rs_MemoryCount x /\
  rs_OrgBreadth (served p e b x) = rs_OrgBreadth x.
Proof. unfold served. destruct b; cbn; by destruct (_ =? 0). Qed.

Lemma GetContributorOrgSet_ok m d os :
  rep_inv m -> GetContributorOrgSet m d = Ok os -> orgset_ok d os /\ os_OrgIds os = orgs_of m d.
Proof.
  intros HI H. unfold GetContributorOrgSet, orgs_of in *.
  destruct (m !! contributorOrgSetKey d) as [v|] eqn:E.
  - destruct (inv_orgset _ HI _ _ E) as (o & -> & ?). by injection H as <-.
  - injection H as <-. split; [|done]. split; [done|apply NoDup_nil_2].
Qed.

Lemma RecordServe_inv d o e b s u s' :
  rep_inv (kv s) -> RecordServe d o e b s = (Ok u, s') -> rep_inv (kv s').
Proof.
  intros HI H. apply RecordServe_run in H as (_ & x & p & os & Hx & _ & Ho & ->). cbn [kv].
  destruct (load_stats_ok _ _ _ HI Hx) as (Hd & Hl & Hc & Hb).
  destruct (GetContributorOrgSet_ok _ _ _ HI Ho) as [[Hid Hnd] Hos].
  destruct (served_keeps p e b x) as (Kd & Kb & Km & Ko).
  assert (rs_OrgBreadth x = N.of_nat (length (os_OrgIds os)) mod two64) as Hlen
    by by rewrite Hb, (inv_breadth _ HI), Hos.
  apply rep_inv_record; [done| | |].
  - case_bool_decide; (split; [cbn; congruence|]); cbn; rewrite Kb, Km; done.
  - case_bool_decide as Hin; [done|]. split; [done|]. cbn. apply NoDup_app. split; [done|].
    split; [|apply NoDup_singleton]. intros z Hz ->%list_elem_of_singleton. done.
  - case_bool_decide; cbn; rewrite Ko, Hlen; [done|].
    rewrite u64_succ_mod, length_app. cbn. f_equal. lia.
Qed.

Lemma modify_profile_inv c o f s u s' :
  rep_inv (kv s) -> modify_profile c o f s = (Ok u, s') -> rep_inv (kv s').
Proof. unfold modify_profile. intros HI H. mok H. by apply rep_inv_other. Qed.

Lemma modify_leader_inv p o f s u s' :
  rep_inv (kv s) -> modify_leader p o f s = (Ok u, s') -> rep_inv (kv s').
Proof. unfold modify_leader, SetLeaderProfile. intros HI H. mok H. by apply rep_inv_other. Qed.

Lemma deliver_rep_inv k c s r s' :
  rep_inv (kv s) -> deliver (handle k c) s = (r, s') -> rep_inv (kv s').
Proof.
  intros HI H. destruct r as [u|e]; [|by apply deliver_err in H as ->].
  apply deliver_ok in H. destruct c; cbn [handle] in H;
    unfold MsgServer_UpdateReputation, MsgServer_UpdateParams, MsgServer_IncrementContribution,
      MsgServer_IncrementServe, MsgServer_RecordBan, require_authority, IncrementContribution,
      IncrementServe, RecordBan, IncrementLeaderChainCommit, IncrementLeaderUpheldReport in H;
    eauto using RecordServe_inv, modify_profile_inv, modify_leader_inv.
  - mok H. eauto using UpdateReputation_inv.
  - unfold SetParams in H. mok H. by apply rep_inv_other.
  - mok H. eauto using modify_profile_inv.
  - mok H. eauto using modify_profile_inv.
  - mok H. eauto using modify_profile_inv.
  - unfold IncrementModeratorUpheld, SetModeratorProfile in H. mok H. by apply rep_inv_other.
Qed.

(** ** Profiles are stored under their own prefixes *)
Definition rep_shape (key : string) (v : rep_val) : Prop :=
  match v with
  | VProfile _ => exists t, key = "profile/" +:+ t
  | VLeader _ => exists t, key = leaderProfilePrefix +:+ t
  | VModerator _ => exists t, key = modProfilePrefix +:+ t
  | _ => forall t, key <> "profile/" +:+ t /\ key <> leaderProfilePrefix +:+ t /\
           key <> modProfilePrefix +:+ t
  end.
Definition rep_typed m : Prop := map_Forall rep_shape m.

Lemma rep_typed_insert m k v : rep_typed m -> rep_shape k v -> rep_typed (<[k:=v]> m).
Proof. intros. by apply map_Forall_insert_2. Qed.

Ltac shape_ok :=
  first [by eexists | by intros t; split_and!].

Lemma deliver_rep_typed k c s r s' :
  rep_typed (kv s) -> deliver (handle k c) s = (r, s') -> rep_typed (kv s').
Proof.
  intros HI H. destruct r as [u|e]; [|by apply deliver_err in H as ->].
  apply deliver_ok in H. destruct c; cbn [handle] in H;
    unfold MsgServer_UpdateReputation, UpdateReputation, MsgServer_UpdateParams, SetParams,
      MsgServer_IncrementContribution, MsgServer_IncrementServe, MsgServer_RecordBan,
      require_authority, require_active, RecordServe, IncrementContribution, IncrementServe,
      RecordBan, IncrementLeaderChainCommit, IncrementLeaderUpheldReport, modify_profile,
      modify_leader, SetLeaderProfile, IncrementModeratorUpheld, SetModeratorProfile in H;
    mok H; cbn [kv] in *; repeat (apply rep_typed_insert; [|shape_ok]); try done;
    match goal with H : require_active _ = _ |- _ => by apply require_active_ok in H as [-> _] end.
Qed.

(** The whole invariant of the store. *)
Definition rep_good m : Prop := rep_inv m /\ rep_typed m.

Lemma deliver_rep_good k c s r s' :
  rep_good (kv s) -> deliver (handle k c) s = (r, s') -> rep_good (kv s').
Proof. intros [HI HT] H. split; [by eapply deliver_rep_inv|by eapply deliver_rep_typed]. Qed.

Lemma typed_profile m c o : rep_typed m -> is_ok (load_profile m (contributorProfileKey c o) c) = true.
Proof.
  intros HT. unfold load_profile. destruct (m !! contributorProfileKey c o) as [v|] eqn:E; [|done].
  pose proof (HT _ _ E) as Hs. destruct v; try done;
    try (by destruct (Hs (c +:+ "/" +:+ o)) as (? & _)); by destruct Hs as [? ?].
Qed.
Lemma typed_leader m p o : rep_typed m -> is_ok (GetLeaderProfile m p o) = true.
Proof.
  intros HT. unfold GetLeaderProfile. destruct (m !! leaderProfileKey p o) as [v|] eqn:E; [|done].
  pose proof (HT _ _ E) as Hs. destruct v; try done;
    try (by destruct (Hs ("/" +:+ p +:+ "/" +:+ o)) as (_ & ? & _)); by destruct Hs as [? ?].
Qed.

(** ** Runs from genesis *)
Definition run (k : Keeper) (l : list rep_call) s : St rep_val unit :=
  foldl (fun s c => (deliver (handle k c) s).2) s l.

(** A new chain: the default genesis and the genesis marker. *)
Definition genesis : St rep_val unit :=
  (Module_InitGenesis None
     (mkSt {[ genesisInitMarkerKey := VRaw genesisInitMarkerValue ]} tt [])).2.

Lemma genesis_inv : rep_inv (kv genesis).
Proof.
  unfold genesis. cbn. repeat (apply rep_inv_other; [done..|]).
  split; intros d; unfold breadth, orgs_of; rewrite ?lookup_singleton_ne by done; done.
Qed.

Lemma rep_run_inv k l s : rep_inv (kv s) -> rep_inv (kv (run k l s)).
Proof.
  revert s. induction l as [|c l IH]; intros s HI; [done|].
  change (run k (c :: l) s) with (run k l (deliver (handle k c) s).2). apply IH.
  destruct (deliver (handle k c) s) as [r s'] eqn:E. by eapply deliver_rep_inv.
Qed.

(** C38: on every run from genesis the statistics of a developer carry the
    developer's own id, the difficulty buckets add up to the memory count and
    the org breadth is the number of distinct orgs recorded for the developer
    (as 64-bit integers). *)
Theorem reputation_stats_consistent k l d x :
  let m := kv (run k l genesis) in
  GetReputation m d = Ok x ->
  rs_DeveloperID x = d /\
  rs_MemoryCount x = bucket_sum (rs_DifficultyBucket x) mod two64 /\
  rs_OrgBreadth x = N.of_nat (length (orgs_of m d)) mod two64 /\ NoDup (orgs_of m d).
Proof.
  intros m H. assert (rep_inv m) as HI by (apply rep_run_inv, genesis_inv).
  assert (load_stats m d = Ok x) as Hx.
  { unfold GetReputation in H. unfold load_stats. by destruct (m !! statsKey d). }
  destruct (load_stats_ok _ _ _ HI Hx) as (Hd & Hl & Hc & Hb).
  split; [done|]. split; [done|]. split; [by rewrite Hb, (inv_breadth _ HI)|].
  unfold orgs_of. destruct (m !! contributorOrgSetKey d) as [v|] eqn:E; [|apply NoDup_nil_2].
  by destruct (inv_orgset _ HI _ _ E) as (o & -> & _ & ?).
Qed.

(** The statistics of a developer, zero when there are none. *)
Definition stats_of m (d : string) : ReputationStats :=
  match load_stats m d with Ok x => x | Err _ => NewReputationStats d end.

Lemma GetReputation_insert m d x :
  GetReputation (<[statsKey d := VStats x]> m) d = Ok (storedToReputationStats x).
Proof. unfold GetReputation. by rewrite lookup_insert_eq. Qed.

(** An accepted reputation update adds one memory and difficulty times
    quality XP to the named developer, returns the new XP, raises every tag by
    its number of occurrences, records the memory and leaves the statistics of
    everyone else alone. *)
Theorem update_reputation_spec msg s xp s' :
  rep_inv (kv s) -> MsgServer_UpdateReputation msg s = (Ok xp, s') ->
  let d := mr_Developer msg in
  IsActive (kv s) = true /\
  xp = (rs_XP (stats_of (kv s) d) + mr_Difficulty msg * mr_Quality msg)%u64 /\
  rs_XP (stats_of (kv s') d) = xp /\
  rs_MemoryCount (stats_of (kv s') d) = (rs_MemoryCount (stats_of (kv s) d) + 1)%u64 /\
  (forall t, t <> "" -> count_in t (rs_DomainTags (stats_of (kv s) d)) < two64 ->
     count_in t (rs_DomainTags (stats_of (kv s') d)) =
     (count_in t (rs_DomainTags (stats_of (kv s) d)) + occurs t (mr_DomainTags msg))%u64) /\
  is_Some (kv s' !! memoryKey d (mr_MemoryCid msg)) /\
  (forall d', d' <> d -> GetReputation (kv s') d' = GetReputation (kv s) d').
Proof.
  intros HI H d. unfold MsgServer_UpdateReputation in H.
  apply M_bind_ok in H as ([] & s1 & Hv & H). mok Hv.
  apply M_bind_ok in H as ([] & s1 & Hu & H). fold d in Hu, H.
  apply UpdateReputation_run in Hu as (Ha & Hval & x & y & Hx & Hy & ->). mok H. cbn [kv] in *.
  assert (mr_Difficulty msg <= 10 /\ mr_Quality msg <= 10) as [Hd Hq].
  { unfold MsgUpdateReputation_ValidateBasic in Hv. rok Hv. by gok. }
  cbn [am_Difficulty am_Quality am_DomainTags am_Provenance am_MemoryCID] in *.
  rewrite !N.mod_small in Hy by lia.
  destruct (load_stats_ok _ _ _ HI Hx) as (Hid & Hl & Hc & _).
  apply AddMemory_ok in Hy as (_ & _ & Hcnt & Hxp & Htags & _); [|done..].
  assert (stats_of (kv s) d = x) as -> by (unfold stats_of; by rewrite Hx).
  match goal with |- context [stats_of ?m' d] =>
    assert (stats_of m' d = storedToReputationStats (reputationStatsToStored y)) as ->
      by (unfold stats_of, load_stats; by rewrite lookup_insert_ne, lookup_insert_eq) end.
  unfold GetXP in H. unfold GetReputation in H. rewrite lookup_insert_ne, lookup_insert_eq in H by done.
  rok H. split; [done|]. cbn [rs_XP rs_MemoryCount rs_DomainTags storedToReputationStats
    reputationStatsToStored ss_Xp ss_MemoryCount ss_DomainTags].
  split; [by rewrite Hxp|]. split; [done|]. split; [done|]. split; [|split].
  - intros t Ht Hlt. rewrite count_in_decoded. by apply (add_tags_count t).
  - rewrite lookup_insert_eq. eauto.
  - intros d' Hne. unfold GetReputation. rewrite !lookup_insert_ne; [done| |done].
    intros ?%repStatsKey_inj. congruence.
Qed.

(** A developer first seen through a serve can never again be credited with
    a tagged memory: the statistics stored by the serve have no tags, decode to
    a nil map, and every later valid update with a non-empty tag panics. *)
Theorem tagged_memory_rejected_after_serve d o e b s u s1 msg :
  kv s !! statsKey d = None -> RecordServe d o e b s = (Ok u, s1) ->
  MsgUpdateReputation_ValidateBasic msg = Ok tt -> mr_Developer msg = d ->
  existsb (fun t => negb (bool_decide (t = ""))) (mr_DomainTags msg) = true ->
  MsgServer_UpdateReputation msg s1 = (Err (Panic "assignment to entry in nil map"), s1).
Proof.
  intros Hn H Hv Hd Ht. apply RecordServe_run in H as (Ha & x & p & os & Hx & _ & _ & ->).
  unfold load_stats in Hx. rewrite Hn in Hx. injection Hx as <-.
  match goal with |- MsgServer_UpdateReputation msg ?s1 = _ => set (s2 := s1) end.
  assert (IsActive (kv s2) = true) as Ha2.
  { unfold IsActive, s2. cbn [kv]. by rewrite !lookup_insert_ne. }
  assert (exists y, load_stats (kv s2) d = Ok y /\ rs_DomainTags y = None) as (y & Hy & Hnil).
  { unfold load_stats, s2. cbn [kv]. rewrite lookup_insert_eq. eexists. split; [done|].
    unfold served, storedToReputationStats. cbn.
    destruct b; case_bool_decide; cbn; by destruct (e =? 0) || reflexivity. }
  unfold MsgServer_UpdateReputation, UpdateReputation, require_active.
  assert (AttestedMemory_Validate (mkAttested (mr_Developer msg) (mr_MemoryCid msg)
    (mr_Difficulty msg mod 256) (mr_Quality msg mod 256) (mr_DomainTags msg) (mr_Provenance msg))
    = Ok tt) as Hval.
  { unfold MsgUpdateReputation_ValidateBasic in Hv. rok Hv. gok. unfold AttestedMemory_Validate.
    cbn [am_Developer am_MemoryCID am_Difficulty am_Quality]. rewrite !N.mod_small by lia.
    rewrite (proj2 (N.eqb_neq _ _)), bool_decide_false by done.
    rewrite !(proj2 (N.ltb_ge _ _)) by done. done. }
  unfold mbind, M_bind, lift, kread. rewrite Hv, Ha2. cbn [negb fail_if mret M_ret].
  unfold fail_if, mret, M_ret. rewrite Hval, Hd, Hy.
  unfold ReputationStats_AddMemory. cbn [am_DomainTags rs_DomainTags set_field field_setter].
  assert (forall z, rs_DomainTags (z : ReputationStats) = None ->
    add_tags (mr_DomainTags msg) (rs_DomainTags z) = Err (Panic "assignment to entry in nil map"))
    as Hadd by (intros z ->; by apply add_tags_nil).
  rewrite Hadd; [done|]. exact Hnil.
Qed.

(** ** Genesis *)
Lemma stored_roundtrip d x :
  stats_ok d x -> reputationStatsToStored (storedToReputationStats x) = x.
Proof.
  intros (_ & Hl & _). destruct x. unfold reputationStatsToStored, storedToReputationStats.
  cbn -[copy_buckets decoded_map] in *. rewrite copy_buckets_id by done. unfold decoded_map. f_equal; by case_bool_decide.
Qed.

(** Records found by a scan of the statistics or of the org sets. *)
Lemma elem_of_stats_scan m y :
  rep_inv m ->
  y ∈ omap stats_in (prefix_iter "stats/" m) <->
  exists d x, m !! statsKey d = Some (VStats x) /\ y = storedToReputationStats x.
Proof.
  intros HI. rewrite list_elem_of_omap. split.
  - intros ([k v] & Hin & Hy). apply elem_of_prefix_iter in Hin as [Hk [t ->]%prefix_spec]; [|by eexists].
    destruct (inv_stats _ HI t v Hk) as (x & -> & _). injection Hy as <-. eauto.
  - intros (d & x & Hk & ->). exists (statsKey d, VStats x). split; [|done].
    apply elem_of_prefix_iter; [by eexists|]. split; [done|apply prefix_app].
Qed.

Lemma elem_of_orgset_scan m o :
  rep_inv m ->
  o ∈ omap (fun kv => match kv.2 with VOrgSet s => Some s | _ => None end)
        (prefix_iter "orgset/" m) <->
  m !! contributorOrgSetKey (os_ContributorId o) = Some (VOrgSet o).
Proof.
  intros HI. rewrite list_elem_of_omap. split.
  - intros ([k v] & Hin & Hy). apply elem_of_prefix_iter in Hin as [Hk [t ->]%prefix_spec]; [|by eexists].
    destruct (inv_orgset _ HI t v Hk) as (x & -> & Hid & _). injection Hy as <-. by rewrite Hid.
  - intros Hk. exists (contributorOrgSetKey (os_ContributorId o), VOrgSet o). split; [|done].
    apply elem_of_prefix_iter; [by eexists|]. split; [exact Hk|apply prefix_app].
Qed.

Lemma GetReputationStatsMap_lookup m d y :
  rep_inv m ->
  GetReputationStatsMap m !! d = Some y <->
  exists x, m !! statsKey d = Some (VStats x) /\ y = storedToReputationStats x.
Proof.
  intros HI.
  assert (forall d x, m !! statsKey d = Some (VStats x) -> ss_DeveloperId x = d) as Hid.
  { intros d' x Hx. by destruct (inv_stats _ HI _ _ Hx) as (? & [= <-] & ? & _). }
  change (GetReputationStatsMap m) with
    (write_all rs_DeveloperID (fun x => x) ∅ (omap stats_in (prefix_iter "stats/" m))).
  rewrite lookup_write_all.
  - pose proof (fun y => elem_of_stats_scan m y HI) as Hscan. setoid_rewrite Hscan. split.
    + intros [(a & (d' & x & Hx & ->) & <- & <-)|[_ ?]]; [|done]. cbn. rewrite (Hid _ _ Hx). eauto.
    + intros (x & Hx & ->). left. eexists. split; [eauto|]. split; [|done]. by apply Hid.
  - intros a b. rewrite !elem_of_stats_scan by done.
    intros (d1 & x1 & H1 & ->) (d2 & x2 & H2 & ->) E. cbn in E.
    rewrite (Hid _ _ H1), (Hid _ _ H2) in E. subst. congruence.
Qed.

Lemma elem_of_exported m g y :
  rep_inv m -> ExportGenesisState m g ->
  y ∈ g_Stats g <->
  exists x, m !! statsKey (rs_DeveloperID y) = Some (VStats x) /\ y = storedToReputationStats x.
Proof.
  intros HI (_ & Hst & _). rewrite Hst, list_elem_of_fmap. split.
  - intros ([d z] & -> & Hz). apply elem_of_map_to_list, GetReputationStatsMap_lookup in Hz as (x & Hx & ->);
      [|done]. cbn. destruct (inv_stats _ HI _ _ Hx) as (? & [= <-] & -> & _). eauto.
  - intros (x & Hx & ->). exists (ss_DeveloperId x, storedToReputationStats x). split; [done|].
    apply elem_of_map_to_list, GetReputationStatsMap_lookup; [done|]. eauto.
Qed.

(** The store an import builds, in its three steps. *)
Definition import_active (g : GenesisState) : gmap string rep_val :=
  if g_Active g then {[ activeKey := VRaw (String (ascii_of_N 1) "") ]} else ∅.
Definition import_stats (g : GenesisState) : gmap string rep_val :=
  write_all (fun x => statsKey (rs_DeveloperID x)) (fun x => VStats (reputationStatsToStored x))
    (import_active g) (g_Stats g).
Definition imported (g : GenesisState) : gmap string rep_val :=
  write_all (fun o => contributorOrgSetKey (os_ContributorId o)) VOrgSet (import_stats g)
    (g_ContributorOrgSets g).

Lemma InitGenesisState_kv g : kv (InitGenesisState g (mkSt ∅ tt [])).2 = imported g.
Proof.
  unfold InitGenesisState, imported, import_stats, import_active.
  destruct (g_Active g).
  - rewrite (M_bind_run _ _ _ tt (mkSt {[ activeKey := VRaw (String (ascii_of_N 1) "") ]} tt [])) by done.
    rewrite (M_bind_run _ _ _ tt _ (for_each_kset _ _ _ _)). by rewrite for_each_kset.
  - rewrite (M_bind_run _ _ _ tt (mkSt ∅ tt [])) by done.
    rewrite (M_bind_run _ _ _ tt _ (for_each_kset _ _ _ _)). by rewrite for_each_kset.
Qed.

Section RoundTrip.
Context m (g : GenesisState) (HI : rep_inv m) (Hg : ExportGenesisState m g).

Lemma own_stats d x :
  m !! statsKey d = Some (VStats x) ->
  ss_DeveloperId x = d /\ reputationStatsToStored (storedToReputationStats x) = x.
Proof.
  intros Hx. destruct (inv_stats _ HI _ _ Hx) as (? & [= <-] & Hok).
  split; [apply Hok|by eapply stored_roundtrip].
Qed.

Lemma import_stats_lookup k v :
  import_stats g !! k = Some v <->
  (exists d x, k = statsKey d /\ m !! statsKey d = Some (VStats x) /\ v = VStats x) \/
  ((forall a, a ∈ g_Stats g -> statsKey (rs_DeveloperID a) <> k) /\ import_active g !! k = Some v).
Proof.
  pose proof (fun y => elem_of_exported m g y HI Hg) as Hscan.
  unfold import_stats. rewrite lookup_write_all.
  - apply or_iff_compat_r. setoid_rewrite Hscan. split.
    + intros (a & (x & Hx & ->) & <- & <-). eexists _, x. split; [done|]. split; [exact Hx|].
      by rewrite (proj2 (own_stats _ _ Hx)).
    + intros (d & x & -> & Hx & ->). destruct (own_stats _ _ Hx) as [Hid Hrt].
      exists (storedToReputationStats x). rewrite Hrt.
      change (rs_DeveloperID (storedToReputationStats x)) with (ss_DeveloperId x). rewrite Hid.
      eauto 10.
  - intros a b. rewrite !Hscan. intros (x & Hx & Ex) (y & Hy & Ey) E%repStatsKey_inj.
    rewrite E in Hx. congruence.
Qed.

Lemma imported_lookup k v :
  imported g !! k = Some v <->
  (exists o, k = contributorOrgSetKey (os_ContributorId o) /\ m !! k = Some (VOrgSet o) /\
     v = VOrgSet o) \/
  ((forall o, o ∈ g_ContributorOrgSets g -> contributorOrgSetKey (os_ContributorId o) <> k) /\
   import_stats g !! k = Some v).
Proof.
  pose proof (fun y => elem_of_orgset_scan m y HI) as Hscan.
  pose proof Hg as (_ & _ & Ho). rewrite <- Ho in Hscan.
  unfold imported. rewrite lookup_write_all.
  - apply or_iff_compat_r. setoid_rewrite Hscan. split.
    + intros (o & Hin & <- & <-). eauto.
    + intros (o & -> & Hin & ->). eauto.
  - intros a b. rewrite !Hscan. intros Hx Hy E. rewrite E in Hx. congruence.
Qed.

(** Neither step touches the keys of the other. *)
Lemma imported_active : imported g !! activeKey = import_active g !! activeKey.
Proof.
  apply option_eq. intros v. rewrite imported_lookup, import_stats_lookup. split.
  - intros [(o & E & _)|[_ [(d & x & E & _)|[_ ?]]]]; [discriminate E..|done].
  - intros Hv. right. split; [done|]. by right.
Qed.

Lemma import_active_other k : k <> activeKey -> import_active g !! k = None.
Proof. intros Hk. unfold import_active. destruct (g_Active g); [by apply lookup_singleton_ne|done]. Qed.

Lemma imported_statsKey d : imported g !! statsKey d = m !! statsKey d.
Proof.
  apply option_eq. intros v. rewrite imported_lookup, import_stats_lookup. split.
  - intros [(o & E & _)|[_ [(d' & x & E & Hx & ->)|[_ Hv]]]]; [discriminate E|by rewrite E|].
    by rewrite import_active_other in Hv.
  - intros Hv. right. split; [done|]. left.
    destruct (inv_stats _ HI _ _ Hv) as (x & -> & _). eauto.
Qed.

Lemma imported_orgSetKey d :
  imported g !! contributorOrgSetKey d = m !! contributorOrgSetKey d.
Proof.
  apply option_eq. intros v. rewrite imported_lookup, import_stats_lookup. split.
  - intros [(o & E & Hx & ->)|[_ [(d' & x & E & _)|[_ Hv]]]]; [done|discriminate E|].
    by rewrite import_active_other in Hv.
  - intros Hv. left. destruct (inv_orgset _ HI _ _ Hv) as (o & -> & Hid & _).
    exists o. rewrite Hid. eauto.
Qed.
End RoundTrip.

(** Exporting the reputation state, in whatever order the Go map yields the
    statistics, and importing it into an empty store restores the active flag,
    the statistics of every developer and every org set. *)
Theorem reputation_genesis_roundtrip m g d :
  rep_inv m -> ExportGenesisState m g ->
  let m' := kv (InitGenesisState g (mkSt ∅ tt [])).2 in
  IsActive m' = IsActive m /\ GetReputation m' d = GetReputation m d /\
  GetContributorOrgSet m' d = GetContributorOrgSet m d.
Proof.
  intros HI Hg. rewrite InitGenesisState_kv. cbv zeta. split; [|split].
  - unfold IsActive at 1. rewrite (imported_active m g HI Hg), <- (proj1 Hg).
    unfold import_active. by destruct (g_Active g).
  - unfold GetReputation. by rewrite (imported_statsKey m g HI Hg).
  - unfold GetContributorOrgSet. by rewrite (imported_orgSetKey m g HI Hg).
Qed.

(** ** The top domains *)
Definition ge_count (x y : string * N) : Prop := y.2 <= x.2.

Lemma sel_pass_spec x rest top r :
  sel_pass x rest = (top, r) -> top :: r ≡ₚ x :: rest /\ Forall (ge_count top) r /\ ge_count top x.
Proof.
  revert x top r. induction rest as [|y rest IH]; intros x top r H; cbn in H.
  - injection H as <- <-. split; [done|]. split; [constructor|]. unfold ge_count. lia.
  - destruct (x.2 <? y.2) eqn:E; destruct (sel_pass _ rest) as [t r'] eqn:Hp;
      injection H as <- <-; apply IH in Hp as (Hperm & Hall & Hge); unfold ge_count in *; gok.
    + split; [by rewrite Permutation_swap, Hperm, Permutation_swap|].
      split; [constructor; [lia|done]|]. lia.
    + split; [by rewrite Permutation_swap, Hperm, Permutation_swap|].
      split; [|done]. constructor; [lia|done].
Qed.

Lemma sel_sort_spec fuel l :
  (length l <= fuel)%nat -> sel_sort fuel l ≡ₚ l /\ StronglySorted ge_count (sel_sort fuel l).
Proof.
  revert l. induction fuel as [|fuel IH]; intros l Hl; [by destruct l; [split; constructor|simpl in Hl; lia]|].
  destruct l as [|x rest]; [split; constructor|]. cbn.
  destruct (sel_pass x rest) as [top r] eqn:Hp. apply sel_pass_spec in Hp as (Hperm & Hall & _).
  assert (length r = length rest) as Hlen by (apply Permutation_length in Hperm; simpl in Hperm; lia).
  destruct (IH r) as [Hr Hs]; [simpl in Hl; lia|].
  split; [by rewrite Hr|]. constructor; [done|]. by rewrite Hr.
Qed.

(** The top domains of a developer, for every iteration order of the Go map
    and every limit that is not negative: as many distinct tags as the limit
    and the number of tags allow, each a tag of the developer, and no omitted
    tag counts more than a returned one. *)
Theorem top_domains_spec m d x limit order l :
  GetReputation m d = Ok x -> (0 <= limit)%Z ->
  let tags := default ∅ (rs_DomainTags x) in
  order tags ≡ₚ map_to_list tags ->
  GetTopDomains m d limit order = Ok l ->
  length l = min (Z.to_nat limit) (size tags) /\ NoDup l /\
  (forall t, t ∈ l -> is_Some (tags !! t)) /\
  (forall t u n n', t ∈ l -> u ∉ l -> tags !! t = Some n -> tags !! u = Some n' -> n' <= n).
Proof.
  intros Hx Hlim tags Hord H. unfold GetTopDomains in H. rewrite Hx in H. cbn in H. fold tags in H.
  assert (length (order tags) = size tags) as Hlen by by rewrite Hord, length_map_to_list.
  assert (exists pre suf, pre ++ suf ≡ₚ map_to_list tags /\ l = pre.*1 /\
    length pre = min (Z.to_nat limit) (size tags) /\
    (forall a b, a ∈ pre -> b ∈ suf -> ge_count a b))%list as (pre & suf & Hperm & -> & Hl & Hge).
  { destruct (Z.leb_spec (Z.of_nat (length (order tags))) limit) as [Hle|Hgt].
    - injection H as <-. exists (order tags), []. rewrite app_nil_r. split; [done|]. split; [done|].
      split; [lia|]. intros a b _ Hb. by apply elem_of_nil in Hb.
    - rewrite (proj2 (Z.ltb_ge _ _)) in H by done. injection H as <-.
      destruct (sel_sort_spec (length (order tags)) (order tags)) as [Hp Hs]; [done|].
      set (sorted := sel_sort _ _) in *.
      exists (take (Z.to_nat limit) sorted), (drop (Z.to_nat limit) sorted).
      rewrite take_drop. split; [by rewrite Hp|]. split; [done|].
      split; [rewrite length_take, Hp; lia|].
      rewrite <- (take_drop (Z.to_nat limit) sorted) in Hs. intros a b Ha Hb.
      by eapply StronglySorted_app_1_elem_of. }
  assert (NoDup (pre ++ suf).*1)%list as Hnd by (rewrite Hperm; apply NoDup_fst_map_to_list).
  assert (forall t n, (t, n) ∈ pre \/ (t, n) ∈ suf <-> tags !! t = Some n) as Hin.
  { intros t n. by rewrite <- elem_of_map_to_list, <- Hperm, elem_of_app. }
  rewrite fmap_app in Hnd. apply NoDup_app in Hnd as (Hnd & _ & _).
  split; [by rewrite length_fmap|]. split; [done|]. split.
  - intros t ([t' n] & -> & Ht)%list_elem_of_fmap. exists n. apply Hin. by left.
  - intros t u n n' ([t' n1] & -> & Ht)%list_elem_of_fmap Hu Htn Hun. cbn in Htn.
    apply Hin in Hun as [Hun|Hun].
    { destruct Hu. apply list_elem_of_fmap. by exists (u, n'). }
    pose proof (proj1 (Hin _ _) (or_introl Ht)) as Ht'. rewrite Ht' in Htn. injection Htn as ->.
    exact (Hge _ _ Ht Hun).
Qed.

(** The moderator's index of approved hashes is a bounded queue: recording
    an approval keeps it within its maximum, ends with the new hash, and drops
    at most the oldest entry. *)
Theorem moderator_index_bounded p o h e s u s' q :
  GetModeratorProfile (kv s) p o = Ok q ->
  mp_ModeratorPubkey q = p -> mp_OrgId q = o ->
  (length (mp_ApprovedMemoryHashes q) <= MaxApprovedHashIndex)%nat ->
  IncrementModeratorApproval p o h e s = (Ok u, s') ->
  exists q', GetModeratorProfile (kv s') p o = Ok q' /\
    mp_TotalApprovals q' = (mp_TotalApprovals q + 1)%u64 /\
    (length (mp_ApprovedMemoryHashes q') <= MaxApprovedHashIndex)%nat /\
    last (mp_ApprovedMemoryHashes q') = Some h /\
    (length (mp_ApprovedMemoryHashes q') = min MaxApprovedHashIndex
       (length (mp_ApprovedMemoryHashes q) + 1))%nat /\
    (forall x, x ∈ mp_ApprovedMemoryHashes q ->
       x ∈ mp_ApprovedMemoryHashes q' \/ head (mp_ApprovedMemoryHashes q) = Some x).
Proof.
  intros Hq Hp Ho Hlen H. unfold IncrementModeratorApproval in H.
  apply M_bind_ok in H as (q1 & s1 & H1 & H). mok H1. rewrite Hq in H1. injection H1 as <-.
  unfold SetModeratorProfile in H. mok H. cbn [kv].
  eexists. split.
  - unfold GetModeratorProfile.
    match goal with |- context [<[moderatorProfileKey ?a ?b := _]> _] =>
      assert (a = p /\ b = o) as [-> ->] by (cbn; destruct (_ =? 0); cbn; done) end.
    rewrite lookup_insert_eq. reflexivity.
  - cbn -[MaxApprovedHashIndex]. destruct (_ =? 0); cbn -[MaxApprovedHashIndex].
    all: split; [done|]; unfold index_hash; rewrite last_snoc, length_app; cbn [length].
    all: case_bool_decide as Hfull.
    all: destruct (mp_ApprovedMemoryHashes q) as [|y l]; cbn [tail length head] in *.
    all: try (unfold MaxApprovedHashIndex in *; lia).
    all: repeat split; try done; try (unfold MaxApprovedHashIndex in *; lia).
    all: intros x Hx; rewrite elem_of_app; try (left; by left).
    all: apply elem_of_cons in Hx as [->|Hx]; [by right|left; by left].
Qed.

(** ** Concrete runs and divergences *)
Module ReputationDemo.
Definition k : Keeper := mkKeeper "gov".
Definition grade (signer dev cid : string) (tags : list string) (prov : string) : MsgUpdateReputation :=
  mkMsgUpdateReputation signer dev cid 7 9 tags prov.
Definition calls : list rep_call :=
  [UpdateReputationMsg (grade "anyone" "dev" "m1" ["go"; "rust"; "go"] "commitllm");
   RecordServeCall "dev" "org-0" 3 false; RecordServeCall "dev" "org-1" 3 true;
   RecordServeCall "dev" "org-0" 4 false].
Definition now : St rep_val unit := run k calls genesis.
Definition dev_stats : ReputationStats := stats_of (kv now) "dev".

Lemma dev_read : GetReputation (kv now) "dev" = Ok dev_stats.
Proof. vm_compute. reflexivity. Qed.
Lemma now_inv : rep_inv (kv now).
Proof. apply rep_run_inv, genesis_inv. Qed.

Lemma reputation_stats_consistent_witness :
  rs_MemoryCount dev_stats = 1 /\ rs_OrgBreadth dev_stats = 2 /\
  NoDup (orgs_of (kv now) "dev").
Proof.
  destruct (reputation_stats_consistent k calls "dev" dev_stats dev_read) as (_ & _ & _ & H).
  split; [vm_compute; reflexivity|]. split; [vm_compute; reflexivity|exact H].
Defined.

Definition second : MsgUpdateReputation := grade "anyone" "dev" "m2" ["go"] "commitllm".
Definition later : St rep_val unit := (MsgServer_UpdateReputation second now).2.
Lemma second_run : MsgServer_UpdateReputation second now = (Ok 126, later).
Proof. unfold later. apply run_outcome. vm_compute. reflexivity. Qed.

Lemma update_reputation_spec_witness :
  count_in "go" (rs_DomainTags (stats_of (kv now) "dev")) = 2 /\
  count_in "go" (rs_DomainTags (stats_of (kv later) "dev")) = 3.
Proof.
  destruct (update_reputation_spec second now 126 later now_inv second_run)
    as (_ & _ & _ & _ & Ht & _).
  split; [vm_compute; reflexivity|].
  etransitivity; [apply (Ht "go"); [discriminate|vm_compute; reflexivity]|vm_compute; reflexivity].
Defined.

Definition after_serve : St rep_val unit := (RecordServe "newdev" "org-0" 3 false genesis).2.
Lemma first_serve_run : RecordServe "newdev" "org-0" 3 false genesis = (Ok tt, after_serve).
Proof. unfold after_serve. apply run_outcome. vm_compute. reflexivity. Qed.

Lemma tagged_memory_rejected_after_serve_witness :
  (MsgServer_UpdateReputation (grade "anyone" "newdev" "m1" ["go"] "") after_serve).1 =
  Err (Panic "assignment to entry in nil map").
Proof.
  rewrite (tagged_memory_rejected_after_serve "newdev" "org-0" 3 false genesis tt after_serve
    (grade "anyone" "newdev" "m1" ["go"] "") eq_refl first_serve_run eq_refl eq_refl eq_refl).
  reflexivity.
Defined.

Definition exported : GenesisState :=
  mkGenesis true [dev_stats] [mkOrgSet "dev" ["org-0"; "org-1"]].
Lemma exported_ok : ExportGenesisState (kv now) exported.
Proof. split; [vm_compute; reflexivity|]. split; [|vm_compute; reflexivity].
  assert ((map_to_list (GetReputationStatsMap (kv now))).*2 = [dev_stats]) as ->
    by (vm_compute; reflexivity). done.
Qed.

Lemma reputation_genesis_roundtrip_witness :
  GetReputation (kv (InitGenesisState exported (mkSt ∅ tt [])).2) "dev" =
  GetReputation (kv now) "dev".
Proof.
  destruct (reputation_genesis_roundtrip (kv now) exported "dev" now_inv exported_ok) as (_ & H & _).
  exact H.
Defined.

Lemma top_domains_spec_witness :
  exists l, GetTopDomains (kv now) "dev" 1 map_to_list = Ok l /\ length l = 1%nat.
Proof.
  exists ["go"]. assert (GetTopDomains (kv now) "dev" 1 map_to_list = Ok ["go"]) as H
    by (vm_compute; reflexivity).
  split; [exact H|].
  destruct (top_domains_spec (kv now) "dev" dev_stats 1 map_to_list ["go"] dev_read) as (Hl & _);
    [lia|reflexivity|exact H|]. rewrite Hl. vm_compute. reflexivity.
Defined.

Definition empty_moderator : StoredModeratorProfile := mkModerator "mod" "org-0" 0 0 [] 0 0.
Definition after_approval : St rep_val unit :=
  (IncrementModeratorApproval "mod" "org-0" "h" 5 genesis).2.
Lemma approval_run :
  IncrementModeratorApproval "mod" "org-0" "h" 5 genesis = (Ok tt, after_approval).
Proof. unfold after_approval. apply run_outcome. vm_compute. reflexivity. Qed.

Lemma moderator_index_bounded_witness :
  exists q, GetModeratorProfile (kv after_approval) "mod" "org-0" = Ok q /\
    last (mp_ApprovedMemoryHashes q) = Some "h".
Proof.
  destruct (moderator_index_bounded "mod" "org-0" "h" 5 genesis tt after_approval empty_moderator)
    as (q & Hq & _ & _ & Hl & _).
  - vm_compute. reflexivity.
  - reflexivity.
  - reflexivity.
  - unfold MaxApprovedHashIndex. simpl. lia.
  - exact approval_run.
  - exists q. split; [exact Hq|exact Hl].
Defined.

(** The message that grants reputation checks no authority: any signer names
    any developer, difficulty and quality. *)
Lemma anyone_grants_reputation :
  (MsgServer_UpdateReputation (mkMsgUpdateReputation "mallory" "mallory" "x" 10 10 [] "") genesis).1
    = Ok 100.
Proof. vm_compute. reflexivity. Qed.

(** The memories of developer "de" listed by prefix include those of "dev". *)
Lemma memories_of_longer_names_included :
  am_Developer <$> GetDeveloperMemories (kv now) "de" = ["dev"].
Proof. vm_compute. reflexivity. Qed.

(** Profiles, attested memories and changed parameters are not exported. *)
Lemma genesis_drops_profiles :
  let s := run k [IncrementContributionCall "dev" "org-0" "m1"] genesis in
  GetContributorProfile (kv s) "dev" "org-0" = Ok (mkProfile "dev" 1 0 0 0 0 [] 0 0) /\
  ExportGenesisState (kv s) (mkGenesis true [] []) /\
  GetContributorProfile (kv (Module_InitGenesis (Some (mkGenesis true [] [])) (mkSt ∅ tt [])).2)
    "dev" "org-0" = Ok (empty_profile "dev").
Proof.
  split; [vm_compute; reflexivity|]. split; [|vm_compute; reflexivity].
  split; [vm_compute; reflexivity|]. split; [|vm_compute; reflexivity].
  match goal with |- _ ≡ₚ ?l => assert (l = []) as -> by (vm_compute; reflexivity) end. done.
Qed.
End ReputationDemo.
