(* ===== verification/ReputationLists.v ===== *)
(** * Listings of the reputation module

    The read functions of x/reputation/keeper that no query uses: the lists of
    developers, domains and provenances, and the lists of leader and moderator
    profiles.  The profile lists scan the store from a key to its end and decode
    every value they meet as a profile ([as_leader], [as_moderator]); records of
    other types decode too when their fields fit. *)

From S2P Require Import Prelude Bytes Store Wire Proto Reputation ReputationProps.
From Stdlib Require Import Ascii.
Local Open Scope string_scope.
Local Open Scope N_scope.

(** ** Wire formats (types/state.pb.go, params.pb.go) *)
Definition marshal_leader (p : StoredLeaderProfile) : message :=
  (w_bytes 1 (lp_LeaderPubkey p) ++ w_bytes 2 (lp_OrgId p) ++ w_uint 3 (lp_TotalChainCommitsSigned p) ++
   w_uint 4 (lp_TotalUpheldReportsCommitted p) ++ w_uint 6 (lp_FirstLeadershipEpoch p) ++
   w_bool 7 (lp_CurrentLeader p))%list.
Definition schema_leader : schema :=
  [(1, KBytes); (2, KBytes); (3, KVarint); (4, KVarint); (6, KVarint); (7, KVarint)].
Definition unmarshal_leader : message -> option StoredLeaderProfile :=
  unmarshal schema_leader (fun m => mkLeader (r_bytes 1 m) (r_bytes 2 m) (r_uint 3 m) (r_uint 4 m)
    (r_uint 6 m) (r_bool 7 m)).

Definition marshal_moderator (p : StoredModeratorProfile) : message :=
  (w_bytes 1 (mp_ModeratorPubkey p) ++ w_bytes 2 (mp_OrgId p) ++ w_uint 3 (mp_TotalApprovals p) ++
   w_uint 4 (mp_ApprovalsLaterUpheldCount p) ++ w_strings 5 (mp_ApprovedMemoryHashes p) ++
   w_uint 6 (mp_FirstApprovalEpoch p) ++ w_uint 7 (mp_LastApprovalEpoch p))%list.
Definition schema_moderator : schema :=
  [(1, KBytes); (2, KBytes); (3, KVarint); (4, KVarint); (5, KBytes); (6, KVarint); (7, KVarint)].
Definition unmarshal_moderator : message -> option StoredModeratorProfile :=
  unmarshal schema_moderator (fun m => mkModerator (r_bytes 1 m) (r_bytes 2 m) (r_uint 3 m) (r_uint 4 m)
    (r_strings 5 m) (r_uint 6 m) (r_uint 7 m)).

Definition marshal_membership (x : OrgMembership) : message :=
  (w_bytes 1 (om_OrgId x) ++ w_bytes 2 (om_Role x) ++ w_uint 3 (om_JoinedEpoch x) ++
   w_bool 4 (om_Active x))%list.
Definition marshal_profile (p : StoredContributorProfile) : message :=
  (w_bytes 1 (cp_ContributorId p) ++ w_uint 2 (cp_TotalApprovedMemories p) ++
   w_uint 3 (cp_TotalServesReceived p) ++ w_uint 4 (cp_TotalDenialsReceived p) ++
   w_uint 5 (cp_TotalReportsFiledAgainst p) ++ w_uint 6 (cp_TotalReportsUpheldAgainst p) ++
   ((fun x => (7, WBytes (encode_message (marshal_membership x)))) <$> cp_Memberships p) ++
   w_uint 8 (cp_FirstContributionEpoch p) ++ w_uint 9 (cp_LastContributionEpoch p))%list.
Definition marshal_org_set (s : StoredContributorOrgSet) : message :=
  (w_bytes 1 (os_ContributorId s) ++ w_strings 2 (os_OrgIds s))%list.
Definition marshal_attested (a : StoredAttestedMemory) : message :=
  (w_bytes 1 (sa_Developer a) ++ w_bytes 2 (sa_MemoryCid a) ++ w_uint 3 (sa_Difficulty a) ++
   w_uint 4 (sa_Quality a) ++ w_strings 5 (sa_DomainTags a) ++ w_bytes 6 (sa_Provenance a))%list.
Definition marshal_rep_params (p : Params) : message :=
  (w_bool 1 (p_Active p) ++ w_uint 2 (p_MaxDifficulty p) ++ w_uint 3 (p_MaxQuality p) ++
   w_uint 4 (p_ServeXpPerServe p) ++ w_uint 5 (p_SelfServeXpPerServe p))%list.

(** A packed list of numbers: the varints in one field, left out when empty. *)
Definition w_packed (f : N) (l : list N) : message :=
  match l with [] => [] | _ => [(f, WBytes (foldr (fun n s => varint n +:+ s) "" l))] end.

Section Lists.
(** The order in which the maps of a record were iterated when it was marshalled. *)
Context (order : gmap string N -> list (string * N)).

Definition marshal_rep_stats (s : StoredReputationStats) : message :=
  (w_bytes 1 (ss_DeveloperId s) ++ w_uint 2 (ss_MemoryCount s) ++ w_packed 3 (ss_DifficultyBucket s) ++
   w_map 4 (order (ss_DomainTags s)) ++ w_map 5 (order (ss_ProvenanceBreakdown s)) ++ w_uint 6 (ss_Xp s) ++
   w_uint 7 (ss_ServeCount s) ++ w_uint 8 (ss_SelfServeCount s) ++ w_uint 9 (ss_OrgBreadth s) ++
   w_uint 10 (ss_FirstSeenEpoch s) ++ w_uint 11 (ss_ServeXp s))%list.

(** The fields of a stored value as a decoder of any type sees them. *)
Definition rep_wire_of (v : rep_val) : option message :=
  match v with
  | VParams p => Some (marshal_rep_params p)
  | VStats s => Some (marshal_rep_stats s)
  | VAttested a => Some (marshal_attested a)
  | VOrgSet s => Some (marshal_org_set s)
  | VProfile p => Some (marshal_profile p)
  | VModerator p => Some (marshal_moderator p)
  | VLeader p => Some (marshal_leader p)
  | VRaw b => parse_message b
  end.

(** [proto.Unmarshal] of a stored value; its own type decodes to itself. *)
Definition as_leader (v : rep_val) : option StoredLeaderProfile :=
  match v with VLeader p => Some p | _ => rep_wire_of v ≫= unmarshal_leader end.
Definition as_moderator (v : rep_val) : option StoredModeratorProfile :=
  match v with VModerator p => Some p | _ => rep_wire_of v ≫= unmarshal_moderator end.

Implicit Types m : gmap string rep_val.

(** ** Profiles (leader_profile.go, moderator_profile.go)

    [fmt.Sprintf] turns the doubled percent sign into one: it is no wildcard. *)
Definition ListLeaderProfilesByOrg m (orgID : string) : list StoredLeaderProfile :=
  omap (fun kv => as_leader kv.2) (from_iter ("leaderprofile/%/" +:+ orgID) m).
Definition ListLeaderProfilesByPubkey m (leaderPubkey : string) : list StoredLeaderProfile :=
  omap (fun kv => as_leader kv.2) (from_iter ("leaderprofile/" +:+ leaderPubkey +:+ "/%") m).
Definition ListModeratorProfilesByOrg m (orgID : string) : list StoredModeratorProfile :=
  omap (fun kv => as_moderator kv.2) (from_iter ("modprofile/%/" +:+ orgID) m).
Definition ListModeratorProfilesByPubkey m (modPubkey : string) : list StoredModeratorProfile :=
  omap (fun kv => as_moderator kv.2) (from_iter ("modprofile/" +:+ modPubkey +:+ "/%") m).

(** ** Developers (keeper.go) *)
Definition IsActivated m : bool := IsActive m.

(** [key[len(prefixStats):]]. *)
Definition GetAllDevelopers m : list string :=
  (fun kv => String.substring 6 (String.length kv.1 - 6) kv.1) <$> prefix_iter "stats/" m.

Record DomainExpertise := mkExpertise {
  dx_Developer : string; dx_DomainTags : gmap string N; dx_TotalTags : N;
}.
(** The sum does not depend on the order of the map. *)
Definition NewDomainExpertise (developer : string) (domainTags : gmap string N) : DomainExpertise :=
  mkExpertise developer domainTags (foldl u64_add 0 (order domainTags).*2).
Definition GetDomainExpertise m (developer : string) : result DomainExpertise :=
  stats ← GetReputation m developer;
  mret (NewDomainExpertise developer (default ∅ (rs_DomainTags stats))).

Record ProvenanceStats := mkProvenance {
  pv_Developer : string; pv_Tier1Count : N; pv_Tier2Count : N; pv_UnattestedCount : N;
  pv_TotalCount : N;
}.
#[export] Instance ProvenanceStats_fields : Fields ProvenanceStats :=
  fun r => mkProvenance (pv_Developer r) (pv_Tier1Count r) (pv_Tier2Count r) (pv_UnattestedCount r)
    (pv_TotalCount r).

Definition count_provenance (stats : ProvenanceStats) (pc : string * N) : ProvenanceStats :=
  let '(provenance, count) := pc in
  let stats :=
    if bool_decide (provenance = "commitllm") then stats <| pv_Tier1Count := count |>
    else if bool_decide (provenance = "proxy-attested") then stats <| pv_Tier2Count := count |>
    else if bool_decide (provenance = "unattested") then stats <| pv_UnattestedCount := count |>
    else stats in
  stats <| pv_TotalCount := (pv_TotalCount stats + count)%u64 |>.
Definition NewProvenanceStats (developer : string) (breakdown : gmap string N) : ProvenanceStats :=
  foldl count_provenance (mkProvenance developer 0 0 0 0) (order breakdown).
Definition GetProvenanceStats m (developer : string) : result ProvenanceStats :=
  stats ← GetReputation m developer;
  mret (NewProvenanceStats developer (default ∅ (rs_ProvenanceBreakdown stats))).

Definition GetCrossOrgProfile m (developer : string) : result StoredContributorOrgSet :=
  GetContributorOrgSet m developer.
End Lists.

(** ** Properties *)
Section Facts.
Context (order : gmap string N -> list (string * N)).
Implicit Types m : gmap string rep_val.

Lemma developer_of_key dev :
  String.substring 6 (String.length (statsKey dev) - 6) (statsKey dev) = dev.
Proof.
  change (statsKey dev) with
    (String "s" (String "t" (String "a" (String "t" (String "s" (String "/" dev)))))).
  cbn [String.length].
  replace (S (S (S (S (S (S (String.length dev)))))) - 6)%nat with (String.length dev) by lia.
  cbn [String.substring]. apply substring_all.
Qed.

(** The developers listed are those with statistics. *)
Lemma elem_of_GetAllDevelopers m dev : dev ∈ GetAllDevelopers m <-> HasDeveloper m dev = true.
Proof.
  unfold GetAllDevelopers, HasDeveloper. rewrite bool_decide_eq_true, list_elem_of_fmap. split.
  - intros ([k v] & -> & Hk). apply elem_of_prefix_iter in Hk as [Hk Hp]; [|by eexists].
    apply prefix_spec in Hp as [d ->]. cbn [fst]. change ("stats/" +:+ d) with (statsKey d) in *.
    rewrite developer_of_key. by eexists.
  - intros [v Hv]. exists (statsKey dev, v). cbn [fst]. rewrite developer_of_key. split; [done|].
    apply elem_of_prefix_iter; [by eexists|]. split; [done|]. apply prefix_app.
Qed.

(** The list of the leaders of one organization holds the leaders of all. *)
Lemma leaders_of_every_org m pk o p o' :
  m !! leaderProfileKey pk o = Some (VLeader p) -> p ∈ ListLeaderProfilesByOrg order m o'.
Proof.
  intros Hp. apply list_elem_of_omap. exists (leaderProfileKey pk o, VLeader p). split; [|done].
  by apply elem_of_from_iter.
Qed.

Lemma moderators_of_every_org m pk o p o' :
  m !! moderatorProfileKey pk o = Some (VModerator p) -> p ∈ ListModeratorProfilesByOrg order m o'.
Proof.
  intros Hp. apply list_elem_of_omap. exists (moderatorProfileKey pk o, VModerator p). split; [|done].
  by apply elem_of_from_iter.
Qed.

(** The list by public key starts after every profile: the keys have a second
    slash where the list expects the public key. *)
Lemma after_slash c s t : 47 < N_of_ascii c -> String.compare (String c s) (String "/" t) = Gt.
Proof.
  intros Hc. cbn [String.compare]. enough (Ascii.compare c "/" = Gt) as -> by done.
  unfold Ascii.compare. by apply N.compare_gt_iff.
Qed.

Lemma leaders_by_pubkey_skipped c pk pk' o v m :
  47 < N_of_ascii c ->
  (leaderProfileKey pk' o, v) ∉ from_iter ("leaderprofile/" +:+ String c pk +:+ "/%") m.
Proof.
  intros Hc [_ H]%elem_of_from_iter. unfold String.leb in H.
  change (String.compare _ _) with
    (String.compare (String c (pk +:+ "/%")) (String "/" (pk' +:+ "/" +:+ o))) in H.
  by rewrite after_slash in H.
Qed.

Lemma moderators_by_pubkey_skipped c pk pk' o v m :
  47 < N_of_ascii c ->
  (moderatorProfileKey pk' o, v) ∉ from_iter ("modprofile/" +:+ String c pk +:+ "/%") m.
Proof.
  intros Hc [_ H]%elem_of_from_iter. unfold String.leb in H.
  change (String.compare _ _) with
    (String.compare (String c (pk +:+ "/%")) (String "/" (pk' +:+ "/" +:+ o))) in H.
  by rewrite after_slash in H.
Qed.

(** The sums do not depend on the order in which Go iterates a map. *)
Lemma foldl_u64_add a l : is_u64 a -> foldl u64_add a l = (a + foldr N.add 0 l) mod two64.
Proof.
  revert a. induction l as [|x l IH]; intros a Ha; cbn.
  - rewrite N.add_0_r. symmetry. by apply N.mod_small.
  - rewrite IH by apply u64_add_is. unfold u64_add. rewrite N.Div0.add_mod_idemp_l. f_equal. lia.
Qed.

Lemma sum_perm (l l' : list N) : l ≡ₚ l' -> foldr N.add 0 l = foldr N.add 0 l'.
Proof. induction 1; cbn; lia. Qed.

Lemma NewDomainExpertise_spec dev tags :
  order tags ≡ₚ map_to_list tags ->
  dx_TotalTags (NewDomainExpertise order dev tags) = foldr N.add 0 (map_to_list tags).*2 mod two64.
Proof.
  intros Ho. cbn. rewrite foldl_u64_add by done. by rewrite (sum_perm _ (map_to_list tags).*2) by by rewrite Ho.
Qed.

Definition tier (pc : string * N) (name : string) (old : N) : N :=
  if bool_decide (pc.1 = name) then pc.2 else old.

Lemma count_provenance_spec st pc :
  count_provenance st pc =
  mkProvenance (pv_Developer st) (tier pc "commitllm" (pv_Tier1Count st))
    (tier pc "proxy-attested" (pv_Tier2Count st)) (tier pc "unattested" (pv_UnattestedCount st))
    (pv_TotalCount st + pc.2)%u64.
Proof.
  destruct pc as [p n], st. unfold count_provenance, tier. cbn.
  destruct (decide (p = "commitllm")) as [->|]; [done|].
  destruct (decide (p = "proxy-attested")) as [->|]; [done|].
  destruct (decide (p = "unattested")) as [->|]; [done|].
  by repeat case_bool_decide.
Qed.

Definition fold_tier (name : string) (old : N) (l : list (string * N)) : N :=
  foldl (fun n pc => tier pc name n) old l.

Lemma fold_tier_lookup name old (l : list (string * N)) :
  NoDup l.*1 -> fold_tier name old l = default old ((list_to_map l : gmap string N) !! name).
Proof.
  unfold fold_tier. revert old. induction l as [|[p n] l IH]; intros old; cbn; [done|].
  intros [Hp Hl]%NoDup_cons. rewrite IH by done. unfold tier. cbn. case_bool_decide as E.
  - subst. rewrite lookup_insert_eq. by rewrite not_elem_of_list_to_map_1.
  - by rewrite lookup_insert_ne.
Qed.

Lemma fold_provenance l st :
  foldl count_provenance st l =
  mkProvenance (pv_Developer st) (fold_tier "commitllm" (pv_Tier1Count st) l)
    (fold_tier "proxy-attested" (pv_Tier2Count st) l) (fold_tier "unattested" (pv_UnattestedCount st) l)
    (foldl u64_add (pv_TotalCount st) l.*2).
Proof.
  revert st. induction l as [|pc l IH]; intros st; cbn; [by destruct st|].
  by rewrite IH, count_provenance_spec.
Qed.

Lemma NewProvenanceStats_spec dev b :
  order b ≡ₚ map_to_list b ->
  NewProvenanceStats order dev b =
  mkProvenance dev (default 0 (b !! "commitllm")) (default 0 (b !! "proxy-attested"))
    (default 0 (b !! "unattested")) (foldr N.add 0 (map_to_list b).*2 mod two64).
Proof.
  intros Ho. unfold NewProvenanceStats. rewrite fold_provenance. cbn.
  assert (NoDup (order b).*1) as Hd by (rewrite Ho; apply NoDup_fst_map_to_list).
  rewrite !fold_tier_lookup, foldl_u64_add, (sum_perm _ (map_to_list b).*2) by (done || by rewrite Ho).
  assert (list_to_map (order b) = b) as ->; [|done].
  rewrite (list_to_map_proper _ (map_to_list b)) by done. apply list_to_map_to_list.
Qed.
End Facts.

Module ReputationListsDemo.
Definition store : gmap string rep_val :=
  <[leaderProfileKey "aa" "o1" := VLeader (mkLeader "aa" "o1" 3 1 5 true)]>
  (<[moderatorProfileKey "bb" "o1" := VModerator (mkModerator "bb" "o1" 7 0 [] 6 9)]> ∅).

(** No leader of [o2] and no public key [aa]: one list has the leader and the
    moderator of [o1], the other the moderator only. *)
Example profile_lists :
  ListLeaderProfilesByOrg map_to_list store "o2" =
    [mkLeader "aa" "o1" 3 1 5 true; mkLeader "bb" "o1" 7 0 6 true] /\
  ListLeaderProfilesByPubkey map_to_list store "aa" = [mkLeader "bb" "o1" 7 0 6 true].
Proof. vm_compute. done. Qed.
End ReputationListsDemo.
