(* ===== verification/Floating.v ===== *)
(** * Floating-point reads

    The two functions with [float64] values: the average difficulty of a
    developer (x/reputation) and the rarity multiplier of an org (x/emissions).
    A [float64] is an IEEE binary64 number, here Rocq's [spec_float] with 53 bits
    of precision and exponents below 1024, rounded to nearest even after every
    operation (no operation is fused with the next, as on amd64). *)

From S2P Require Import Prelude Reputation.
From Stdlib Require Import ZArith SpecFloat.
Local Open Scope N_scope.

Definition float64 := spec_float.
Definition prec : Z := 53.
Definition emax : Z := 1024.

(** [float64(n)] of an unsigned integer. *)
Definition of_uint64 (n : N) : float64 := binary_normalize prec emax (Z.of_N n) 0 false.
Definition f_add : float64 -> float64 -> float64 := SFadd prec emax.
Definition f_sub : float64 -> float64 -> float64 := SFsub prec emax.
Definition f_mul : float64 -> float64 -> float64 := SFmul prec emax.
Definition f_div : float64 -> float64 -> float64 := SFdiv prec emax.

Definition zero := of_uint64 0.
Definition one := of_uint64 1.
Definition three := of_uint64 3.
Definition half : float64 := f_div one (of_uint64 2).

(** ** x/reputation *)
Definition weigh (weightedSum : float64) (ic : nat * N) : float64 :=
  f_add weightedSum (f_mul (of_uint64 (N.of_nat ic.1)) (of_uint64 ic.2)).
Definition GetAverageDifficulty (m : gmap string rep_val) (developer : string) : result float64 :=
  stats ← GetReputation m developer;
  if rs_MemoryCount stats =? 0 then mret zero
  else
    let weightedSum := foldl weigh zero (imap pair (rs_DifficultyBucket stats)) in
    mret (f_div weightedSum (of_uint64 (rs_MemoryCount stats))).

(** ** x/emissions *)
Definition ComputeRarityMultiplier (orgID : string) (totalOperators activeOperators : N) : float64 :=
  if totalOperators =? 0 then one
  else
    let ratio := f_div (of_uint64 totalOperators) (of_uint64 activeOperators) in
    let ratio := if SFltb ratio one then one else ratio in
    let multiplier := f_add one (f_mul (f_sub ratio one) half) in
    if SFltb three multiplier then three else multiplier.

(** ** Facts *)

(** No input, not even zero active operators, gives a multiplier above three. *)
Lemma rarity_at_most_three orgID total active :
  SFltb three (ComputeRarityMultiplier orgID total active) = false.
Proof.
  unfold ComputeRarityMultiplier. destruct (total =? 0); [reflexivity|]. cbv zeta.
  set (r := f_add one _). destruct (SFltb three r) eqn:E; [reflexivity|exact E].
Qed.

(** Unknown developers are an error, developers without memories average zero. *)
Lemma average_without_memories m developer s :
  m !! statsKey developer = Some (VStats s) -> ss_MemoryCount s = 0 ->
  GetAverageDifficulty m developer = Ok zero.
Proof. intros Hs Hc. unfold GetAverageDifficulty, GetReputation. rewrite Hs. cbn. by rewrite Hc. Qed.

Example rarity_values :
  ComputeRarityMultiplier "o" 0 0 = one /\ ComputeRarityMultiplier "o" 4 8 = one /\
  ComputeRarityMultiplier "o" 2 1 = f_add one half /\ ComputeRarityMultiplier "o" 3 0 = three.
Proof. vm_compute. done. Qed.

(** Two memories of difficulty 3 and one of difficulty 6. *)
Example average_value :
  let stats := NewReputationStats "d" in
  let stats := stats <| rs_MemoryCount := 3 |>
                     <| rs_DifficultyBucket := [0; 0; 0; 2; 0; 0; 1; 0; 0; 0; 0] |> in
  GetAverageDifficulty {[ statsKey "d" := VStats (reputationStatsToStored stats) ]} "d" =
  Ok (of_uint64 4).
Proof. vm_compute. done. Qed.
