(* ===== verification/PbState.v ===== *)
(** * The stored records as bytes

    The message types of the records the keepers store (types/state.pb.go,
    params.pb.go and event.pb.go of the eight modules): field numbers and types
    from the generated code, each with its law, so that every record is read back
    from its bytes.  The last section lifts this to the stores: what a keeper
    reads from a store of bytes is what the model reads from its store of
    records. *)

From S2P Require Import Prelude Bytes Store Ifaces Wire Proto Pb.
From S2P Require Org Serve Emissions Identity Reputation Memory Bandwidth Attestation.
Local Open Scope N_scope.

(** ** x/org *)
#[export] Existing Instance Org.Params_fields.
Definition Org_Params_pb : pb_message Org.Params :=
  mkMessage (Org.mkParams (pb_zero p_uint64) (pb_zero p_uint64) (pb_zero p_uint64) (pb_zero
    p_uint64) (pb_zero p_uint64) (pb_zero p_uint64) (pb_zero p_uint64) (pb_zero p_uint64) (pb_zero
    p_uint64)) [
   fld 1 p_uint64 Org.p_MinRegistrationFee;
   fld 2 p_uint64 Org.p_AnnualRenewalFee;
   fld 3 p_uint64 Org.p_DefaultStorageQuota;
   fld 4 p_uint64 Org.p_DefaultRetrievalBudget;
   fld 5 p_uint64 Org.p_GracePeriodEpochs;
   fld 6 p_uint64 Org.p_BurnPriceDecayEpochs;
   fld 7 p_uint64 Org.p_BaseBurnPrice;
   fld 8 p_uint64 Org.p_BurnPriceIncreasePercent;
   fld 9 p_uint64 Org.p_SlotCap].
#[export] Instance Org_Params_pb_law : MessageLaw Org_Params_pb.
Proof. message_law. Qed.
#[global] Opaque Org_Params_pb.
(** The slot registry is stored as its one number. *)
Record slot_registry := mkSlotRegistry { reg_NextSlot : N }.
#[export] Instance slot_registry_fields : Fields slot_registry := fun r => mkSlotRegistry
    (reg_NextSlot r).
Definition Org_StoredSlotRegistry_pb : pb_message slot_registry :=
  mkMessage (mkSlotRegistry (pb_zero p_uint64)) [fld 1 p_uint64 reg_NextSlot].
#[export] Instance Org_StoredSlotRegistry_pb_law : MessageLaw Org_StoredSlotRegistry_pb.
Proof. message_law. Qed.
#[global] Opaque Org_StoredSlotRegistry_pb.
#[export] Existing Instance Org.StoredOrg_fields.
Definition Org_StoredOrg_pb : pb_message Org.StoredOrg :=
  mkMessage (Org.mkStoredOrg (pb_zero p_bytes) (pb_zero p_bytes) (pb_zero p_uint64) (pb_zero
    p_uint64) (pb_zero p_uint64) (pb_zero p_uint64) (pb_zero p_int32) (pb_zero p_bytes) (pb_zero
    p_uint64) (pb_zero p_uint64) (pb_zero p_uint64) (pb_zero p_uint64) (pb_zero p_bytes) (pb_zero
    p_bytes) (pb_zero p_uint64) (pb_zero p_bytes) (pb_zero p_strings) (pb_zero p_bytes) (pb_zero
    p_bytes) (pb_zero p_bytes) (pb_zero p_bytes) (pb_zero p_bytes)) [
   fld 1 p_bytes Org.so_OrgId;
   fld 2 p_bytes Org.so_Leader;
   fld 3 p_uint64 Org.so_CreatedAt;
   fld 4 p_uint64 Org.so_RenewalHeight;
   fld 5 p_uint64 Org.so_StorageQuota;
   fld 6 p_uint64 Org.so_RetrievalBudget;
   fld 7 p_int32 Org.so_Status;
   fld 8 p_bytes Org.so_Domain;
   fld 9 p_uint64 Org.so_TotalCommittedMemories;
   fld 10 p_uint64 Org.so_TotalActiveMembers;
   fld 12 p_uint64 Org.so_TotalUpheldReports;
   fld 13 p_uint64 Org.so_LastActivityEpoch;
   fld 14 p_bytes Org.so_HubServingAddress;
   fld 15 p_bytes Org.so_LeaderWalletAddress;
   fld 16 p_uint64 Org.so_Slot;
   fld 17 p_bytes Org.so_AccountAddress;
   fld 18 p_strings Org.so_HubEndpoints;
   fld 19 p_bytes Org.so_HubResponsePubkey;
   fld 20 p_bytes Org.so_Description;
   fld 21 p_bytes Org.so_TechStack;
   fld 22 p_bytes Org.so_FocusAreas;
   fld 23 p_bytes Org.so_Name].
#[export] Instance Org_StoredOrg_pb_law : MessageLaw Org_StoredOrg_pb.
Proof. message_law. Qed.
#[global] Opaque Org_StoredOrg_pb.
#[export] Existing Instance Org.StoredMemberRecord_fields.
Definition Org_StoredMemberRecord_pb : pb_message Org.StoredMemberRecord :=
  mkMessage (Org.mkStoredMember (pb_zero p_bytes) (pb_zero p_bytes) (pb_zero p_bytes) (pb_zero
    p_bytes) (pb_zero p_bool) (pb_zero p_bool)) [
   fld 1 p_bytes Org.sm_OrgId;
   fld 2 p_bytes Org.sm_Pubkey;
   fld 3 p_bytes Org.sm_Role;
   fld 4 p_bytes Org.sm_X25519Pubkey;
   fld 5 p_bool Org.sm_CanContribute;
   fld 6 p_bool Org.sm_CanModerate].
#[export] Instance Org_StoredMemberRecord_pb_law : MessageLaw Org_StoredMemberRecord_pb.
Proof. message_law. Qed.
#[global] Opaque Org_StoredMemberRecord_pb.
#[export] Instance Org_StoredOrgConfig_fields : Fields Org.StoredOrgConfig := fun r =>
    Org.mkStoredOrgConfig (Org.sc_OrgId r) (Org.sc_ServeReceiptRequired r) (Org.sc_ContestStakeVibe
    r) (Org.sc_VocabHash r) (Org.sc_EmbeddingModelId r) (Org.sc_MinContributionsPerEpoch r).
Definition Org_StoredOrgConfig_pb : pb_message Org.StoredOrgConfig :=
  mkMessage (Org.mkStoredOrgConfig (pb_zero p_bytes) (pb_zero p_bool) (pb_zero p_uint64) (pb_zero
    p_bytes) (pb_zero p_bytes) (pb_zero p_uint64)) [
   fld 1 p_bytes Org.sc_OrgId;
   fld 2 p_bool Org.sc_ServeReceiptRequired;
   fld 4 p_uint64 Org.sc_ContestStakeVibe;
   fld 5 p_bytes Org.sc_VocabHash;
   fld 6 p_bytes Org.sc_EmbeddingModelId;
   fld 10 p_uint64 Org.sc_MinContributionsPerEpoch].
#[export] Instance Org_StoredOrgConfig_pb_law : MessageLaw Org_StoredOrgConfig_pb.
Proof. message_law. Qed.
#[global] Opaque Org_StoredOrgConfig_pb.
(** ** x/memory *)
#[export] Existing Instance Memory.Params_fields.
Definition Memory_Params_pb : pb_message Memory.Params :=
  mkMessage (Memory.mkParams (pb_zero p_uint64) (pb_zero p_uint64) (pb_zero p_uint64) (pb_zero
    p_uint32) (pb_zero p_uint64)) [
   fld 1 p_uint64 Memory.p_MaxPendingPerOrg;
   fld 2 p_uint64 Memory.p_PendingRetentionEpochs;
   fld 3 p_uint64 Memory.p_MaxBlobSizeBytes;
   fld 4 p_uint32 Memory.p_MaxKeywordsPerMemory;
   fld 10 p_uint64 Memory.p_ContestWindowEpochs].
#[export] Instance Memory_Params_pb_law : MessageLaw Memory_Params_pb.
Proof. message_law. Qed.
#[global] Opaque Memory_Params_pb.
#[export] Instance Memory_StoredPendingCommitment_fields : Fields Memory.StoredPendingCommitment :=
    fun r => Memory.mkStoredPending (Memory.sp_OrgId r) (Memory.sp_ContentHash r)
    (Memory.sp_ContributorId r) (Memory.sp_Epoch r) (Memory.sp_SubmittedAtHeight r)
    (Memory.sp_MemoryType r) (Memory.sp_ContributorAddress r) (Memory.sp_Keywords r)
    (Memory.sp_ProducerModelId r) (Memory.sp_AttestationSessionHash r) (Memory.sp_McVersion r).
Definition Memory_StoredPendingCommitment_pb : pb_message Memory.StoredPendingCommitment :=
  mkMessage (Memory.mkStoredPending (pb_zero p_bytes) (pb_zero p_bytes) (pb_zero p_bytes) (pb_zero
    p_uint64) (pb_zero p_uint64) (pb_zero p_enum) (pb_zero p_bytes) (pb_zero p_strings) (pb_zero
    p_bytes) (pb_zero p_bytes) (pb_zero p_uint32)) [
   fld 1 p_bytes Memory.sp_OrgId;
   fld 2 p_bytes Memory.sp_ContentHash;
   fld 4 p_bytes Memory.sp_ContributorId;
   fld 5 p_uint64 Memory.sp_Epoch;
   fld 6 p_uint64 Memory.sp_SubmittedAtHeight;
   fld 7 p_enum Memory.sp_MemoryType;
   fld 8 p_bytes Memory.sp_ContributorAddress;
   fld 9 p_strings Memory.sp_Keywords;
   fld 11 p_uint32 Memory.sp_McVersion;
   fld 24 p_bytes Memory.sp_ProducerModelId;
   fld 25 p_bytes Memory.sp_AttestationSessionHash].
#[export] Instance Memory_StoredPendingCommitment_pb_law : MessageLaw Memory_StoredPendingCommitment_pb.
Proof. message_law. Qed.
#[global] Opaque Memory_StoredPendingCommitment_pb.
#[export] Instance Memory_StoredMemoryCommitment_fields : Fields Memory.StoredMemoryCommitment :=
    fun r => Memory.mkStoredMemory (Memory.sm_OrgId r) (Memory.sm_ContentHash r)
    (Memory.sm_EncryptedBlob r) (Memory.sm_ContributorPubkey r) (Memory.sm_Epoch r)
    (Memory.sm_CommittedAtHeight r) (Memory.sm_CommittingLeaderPubkey r) (Memory.sm_State r)
    (Memory.sm_LastActiveEpoch r) (Memory.sm_WrappedDekEnc r) (Memory.sm_MemoryType r)
    (Memory.sm_ApprovedAtEpoch r) (Memory.sm_PlaintextHash r) (Memory.sm_Salt r)
    (Memory.sm_CiphertextHash r) (Memory.sm_WrappedDekHash r) (Memory.sm_ContributorSig r)
    (Memory.sm_ContributorAddress r) (Memory.sm_ProducerModelId r) (Memory.sm_AttestationSessionHash
    r) (Memory.sm_McVersion r) (Memory.sm_Keywords r).
Definition Memory_StoredMemoryCommitment_pb : pb_message Memory.StoredMemoryCommitment :=
  mkMessage (Memory.mkStoredMemory (pb_zero p_bytes) (pb_zero p_bytes) (pb_zero p_bytes) (pb_zero
    p_bytes) (pb_zero p_uint64) (pb_zero p_uint64) (pb_zero p_bytes) (pb_zero p_enum) (pb_zero
    p_uint64) (pb_zero p_bytes) (pb_zero p_enum) (pb_zero p_uint64) (pb_zero p_bytes) (pb_zero
    p_bytes) (pb_zero p_bytes) (pb_zero p_bytes) (pb_zero p_bytes) (pb_zero p_bytes) (pb_zero
    p_bytes) (pb_zero p_bytes) (pb_zero p_uint32) (pb_zero p_strings)) [
   fld 1 p_bytes Memory.sm_OrgId;
   fld 2 p_bytes Memory.sm_ContentHash;
   fld 3 p_bytes Memory.sm_EncryptedBlob;
   fld 5 p_bytes Memory.sm_ContributorPubkey;
   fld 6 p_uint64 Memory.sm_Epoch;
   fld 7 p_uint64 Memory.sm_CommittedAtHeight;
   fld 9 p_bytes Memory.sm_CommittingLeaderPubkey;
   fld 10 p_enum Memory.sm_State;
   fld 11 p_uint64 Memory.sm_LastActiveEpoch;
   fld 12 p_bytes Memory.sm_WrappedDekEnc;
   fld 13 p_enum Memory.sm_MemoryType;
   fld 14 p_uint64 Memory.sm_ApprovedAtEpoch;
   fld 15 p_bytes Memory.sm_PlaintextHash;
   fld 16 p_bytes Memory.sm_Salt;
   fld 17 p_bytes Memory.sm_CiphertextHash;
   fld 18 p_bytes Memory.sm_WrappedDekHash;
   fld 19 p_bytes Memory.sm_ContributorSig;
   fld 23 p_bytes Memory.sm_ContributorAddress;
   fld 24 p_bytes Memory.sm_ProducerModelId;
   fld 25 p_bytes Memory.sm_AttestationSessionHash;
   fld 26 p_uint32 Memory.sm_McVersion;
   fld 27 p_strings Memory.sm_Keywords].
#[export] Instance Memory_StoredMemoryCommitment_pb_law : MessageLaw Memory_StoredMemoryCommitment_pb.
Proof. message_law. Qed.
#[global] Opaque Memory_StoredMemoryCommitment_pb.
#[export] Existing Instance Memory.StoredMemoryRelationship_fields.
Definition Memory_StoredMemoryRelationship_pb : pb_message Memory.StoredMemoryRelationship :=
  mkMessage (Memory.mkStoredRelationship (pb_zero p_bytes) (pb_zero p_bytes) (pb_zero p_bytes)
    (pb_zero p_enum) (pb_zero p_bytes) (pb_zero p_bool) (pb_zero p_uint64)) [
   fld 1 p_bytes Memory.sr_OrgId;
   fld 2 p_bytes Memory.sr_SourceCid;
   fld 3 p_bytes Memory.sr_TargetCid;
   fld 4 p_enum Memory.sr_RelationType;
   fld 5 p_bytes Memory.sr_Proposer;
   fld 6 p_bool Memory.sr_Approved;
   fld 7 p_uint64 Memory.sr_Epoch].
#[export] Instance Memory_StoredMemoryRelationship_pb_law : MessageLaw
    Memory_StoredMemoryRelationship_pb.
Proof. message_law. Qed.
#[global] Opaque Memory_StoredMemoryRelationship_pb.
#[export] Existing Instance Memory.StoredValidityMetadata_fields.
Definition Memory_StoredValidityMetadata_pb : pb_message Memory.StoredValidityMetadata :=
  mkMessage (Memory.mkStoredValidity (pb_zero p_bytes) (pb_zero p_bytes) (pb_zero p_uint64) (pb_zero
    p_uint64) (pb_zero p_bytes)) [
   fld 1 p_bytes Memory.sv_OrgId;
   fld 2 p_bytes Memory.sv_MemoryCid;
   fld 3 p_uint64 Memory.sv_ValidAfterEpoch;
   fld 4 p_uint64 Memory.sv_ValidUntilEpoch;
   fld 5 p_bytes Memory.sv_ScopeTagsBz].
#[export] Instance Memory_StoredValidityMetadata_pb_law : MessageLaw Memory_StoredValidityMetadata_pb.
Proof. message_law. Qed.
#[global] Opaque Memory_StoredValidityMetadata_pb.
#[export] Instance Memory_StoredEpochMerkleRoot_fields : Fields Memory.StoredEpochMerkleRoot := fun
    r => Memory.mkStoredMerkleRoot (Memory.se_OrgId r) (Memory.se_Epoch r) (Memory.se_MerkleRoot r)
    (Memory.se_MemoryCount r).
Definition Memory_StoredEpochMerkleRoot_pb : pb_message Memory.StoredEpochMerkleRoot :=
  mkMessage (Memory.mkStoredMerkleRoot (pb_zero p_bytes) (pb_zero p_uint64) (pb_zero p_bytes)
    (pb_zero p_uint64)) [
   fld 1 p_bytes Memory.se_OrgId;
   fld 2 p_uint64 Memory.se_Epoch;
   fld 3 p_bytes Memory.se_MerkleRoot;
   fld 4 p_uint64 Memory.se_MemoryCount].
#[export] Instance Memory_StoredEpochMerkleRoot_pb_law : MessageLaw Memory_StoredEpochMerkleRoot_pb.
Proof. message_law. Qed.
#[global] Opaque Memory_StoredEpochMerkleRoot_pb.
#[export] Instance Memory_StoredMemoryReport_fields : Fields Memory.StoredMemoryReport := fun r =>
    Memory.mkReport (Memory.rp_OrgId r) (Memory.rp_ContentHash r) (Memory.rp_ContributorPubkey r)
    (Memory.rp_ApprovingModerators r) (Memory.rp_UpholdingModerators r) (Memory.rp_ReporterPubkey r)
    (Memory.rp_CommittingLeaderPubkey r) (Memory.rp_Reason r) (Memory.rp_Plaintext r)
    (Memory.rp_Ciphertext r) (Memory.rp_Capsule r) (Memory.rp_PlaintextHash r)
    (Memory.rp_PlaintextOversized r) (Memory.rp_UpheldAtEpoch r) (Memory.rp_UpheldAtTimestamp r).
Definition Memory_StoredMemoryReport_pb : pb_message Memory.StoredMemoryReport :=
  mkMessage (Memory.mkReport (pb_zero p_bytes) (pb_zero p_bytes) (pb_zero p_bytes) (pb_zero
    p_strings) (pb_zero p_strings) (pb_zero p_bytes) (pb_zero p_bytes) (pb_zero p_bytes) (pb_zero
    p_bytes) (pb_zero p_bytes) (pb_zero p_bytes) (pb_zero p_bytes) (pb_zero p_bool) (pb_zero
    p_uint64) (pb_zero p_time)) [
   fld 1 p_bytes Memory.rp_OrgId;
   fld 2 p_bytes Memory.rp_ContentHash;
   fld 3 p_bytes Memory.rp_ContributorPubkey;
   fld 4 p_strings Memory.rp_ApprovingModerators;
   fld 5 p_strings Memory.rp_UpholdingModerators;
   fld 6 p_bytes Memory.rp_ReporterPubkey;
   fld 7 p_bytes Memory.rp_CommittingLeaderPubkey;
   fld 8 p_bytes Memory.rp_Reason;
   fld 9 p_bytes Memory.rp_Plaintext;
   fld 10 p_bytes Memory.rp_Ciphertext;
   fld 11 p_bytes Memory.rp_Capsule;
   fld 12 p_bytes Memory.rp_PlaintextHash;
   fld 13 p_bool Memory.rp_PlaintextOversized;
   fld 14 p_uint64 Memory.rp_UpheldAtEpoch;
   fld 15 p_time Memory.rp_UpheldAtTimestamp].
#[export] Instance Memory_StoredMemoryReport_pb_law : MessageLaw Memory_StoredMemoryReport_pb.
Proof. message_law. Qed.
#[global] Opaque Memory_StoredMemoryReport_pb.
(** ** x/serve *)
(** The bodies of events: the oneof alternatives as records of their own. *)
Record OutcomeEventBody := mkOutcomeEventBody { ob_EpisodeRef : string; ob_EvidenceRef : string;
    ob_ServeRef : string; ob_Resolution : N; ob_Source : N }.
#[export] Instance OutcomeEventBody_fields : Fields OutcomeEventBody := fun r => mkOutcomeEventBody
    (ob_EpisodeRef r) (ob_EvidenceRef r) (ob_ServeRef r) (ob_Resolution r) (ob_Source r).
Definition Serve_OutcomeEventBody_pb : pb_message OutcomeEventBody :=
  mkMessage (mkOutcomeEventBody (pb_zero p_bytes) (pb_zero p_bytes) (pb_zero p_bytes) (pb_zero
    p_enum) (pb_zero p_enum)) [
   fld 1 p_bytes ob_EpisodeRef;
   fld 3 p_bytes ob_EvidenceRef;
   fld 4 p_bytes ob_ServeRef;
   fld 5 p_enum ob_Resolution;
   fld 6 p_enum ob_Source].
#[export] Instance Serve_OutcomeEventBody_pb_law : MessageLaw Serve_OutcomeEventBody_pb.
Proof. message_law. Qed.
#[global] Opaque Serve_OutcomeEventBody_pb.
Definition Outcome_body (r : OutcomeEventBody) : Serve.EventBody := Serve.EventEntry_Outcome
    (ob_EpisodeRef r) (ob_EvidenceRef r) (ob_ServeRef r) (ob_Resolution r) (ob_Source r).
Definition Outcome_of (b : Serve.EventBody) : option OutcomeEventBody :=
  match b with Serve.EventEntry_Outcome x0 x1 x2 x3 x4 => Some (mkOutcomeEventBody x0 x1 x2 x3 x4) |
    _ => None end.
Record ValidityPredicateEventBody := mkValidityPredicateEventBody { vb_PredicateId : string;
    vb_Result : N; vb_EvidenceRef : string }.
#[export] Instance ValidityPredicateEventBody_fields : Fields ValidityPredicateEventBody := fun r =>
    mkValidityPredicateEventBody (vb_PredicateId r) (vb_Result r) (vb_EvidenceRef r).
Definition Serve_ValidityPredicateEventBody_pb : pb_message ValidityPredicateEventBody :=
  mkMessage (mkValidityPredicateEventBody (pb_zero p_bytes) (pb_zero p_enum) (pb_zero p_bytes)) [
   fld 1 p_bytes vb_PredicateId;
   fld 2 p_enum vb_Result;
   fld 3 p_bytes vb_EvidenceRef].
#[export] Instance Serve_ValidityPredicateEventBody_pb_law : MessageLaw
    Serve_ValidityPredicateEventBody_pb.
Proof. message_law. Qed.
#[global] Opaque Serve_ValidityPredicateEventBody_pb.
Definition ValidityPredicate_body (r : ValidityPredicateEventBody) : Serve.EventBody :=
    Serve.EventEntry_ValidityPredicate (vb_PredicateId r) (vb_Result r) (vb_EvidenceRef r).
Definition ValidityPredicate_of (b : Serve.EventBody) : option ValidityPredicateEventBody :=
  match b with Serve.EventEntry_ValidityPredicate x0 x1 x2 => Some (mkValidityPredicateEventBody x0
    x1 x2) | _ => None end.
Record CostToDiscoverEventBody := mkCostToDiscoverEventBody { cb_Cycles : N; cb_ToolCalls : N;
    cb_AttemptsToGreen : N; cb_EvidenceRef : string }.
#[export] Instance CostToDiscoverEventBody_fields : Fields CostToDiscoverEventBody := fun r =>
    mkCostToDiscoverEventBody (cb_Cycles r) (cb_ToolCalls r) (cb_AttemptsToGreen r) (cb_EvidenceRef
    r).
Definition Serve_CostToDiscoverEventBody_pb : pb_message CostToDiscoverEventBody :=
  mkMessage (mkCostToDiscoverEventBody (pb_zero p_uint64) (pb_zero p_uint64) (pb_zero p_uint32)
    (pb_zero p_bytes)) [
   fld 1 p_uint64 cb_Cycles;
   fld 2 p_uint64 cb_ToolCalls;
   fld 3 p_uint32 cb_AttemptsToGreen;
   fld 4 p_bytes cb_EvidenceRef].
#[export] Instance Serve_CostToDiscoverEventBody_pb_law : MessageLaw Serve_CostToDiscoverEventBody_pb.
Proof. message_law. Qed.
#[global] Opaque Serve_CostToDiscoverEventBody_pb.
Definition CostToDiscover_body (r : CostToDiscoverEventBody) : Serve.EventBody :=
    Serve.EventEntry_CostToDiscover (cb_Cycles r) (cb_ToolCalls r) (cb_AttemptsToGreen r)
    (cb_EvidenceRef r).
Definition CostToDiscover_of (b : Serve.EventBody) : option CostToDiscoverEventBody :=
  match b with Serve.EventEntry_CostToDiscover x0 x1 x2 x3 => Some (mkCostToDiscoverEventBody x0 x1
    x2 x3) | _ => None end.
Record ConvergenceEventBody := mkConvergenceEventBody { cb_ConvergenceRef : string }.
#[export] Instance ConvergenceEventBody_fields : Fields ConvergenceEventBody := fun r =>
    mkConvergenceEventBody (cb_ConvergenceRef r).
Definition Serve_ConvergenceEventBody_pb : pb_message ConvergenceEventBody :=
  mkMessage (mkConvergenceEventBody (pb_zero p_bytes)) [
   fld 1 p_bytes cb_ConvergenceRef].
#[export] Instance Serve_ConvergenceEventBody_pb_law : MessageLaw Serve_ConvergenceEventBody_pb.
Proof. message_law. Qed.
#[global] Opaque Serve_ConvergenceEventBody_pb.
Definition Convergence_body (r : ConvergenceEventBody) : Serve.EventBody :=
    Serve.EventEntry_Convergence (cb_ConvergenceRef r).
Definition Convergence_of (b : Serve.EventBody) : option ConvergenceEventBody :=
  match b with Serve.EventEntry_Convergence x0 => Some (mkConvergenceEventBody x0) | _ => None end.
#[export] Instance Serve_Params_fields : Fields Serve.Params := fun r => Serve.mkParams
    (Serve.p_MaxServesPerBatch r) (Serve.p_SelfServeDiscountPercent r)
    (Serve.p_MaxServesPerMemoryPerEpoch r) (Serve.p_MinOrgAgeEpochs r)
    (Serve.p_DiminishingReturnsThreshold r).
Definition Serve_Params_pb : pb_message Serve.Params :=
  mkMessage (Serve.mkParams (pb_zero p_uint32) (pb_zero p_uint32) (pb_zero p_uint32) (pb_zero
    p_uint64) (pb_zero p_uint64)) [
   fld 1 p_uint32 Serve.p_MaxServesPerBatch;
   fld 2 p_uint32 Serve.p_SelfServeDiscountPercent;
   fld 3 p_uint32 Serve.p_MaxServesPerMemoryPerEpoch;
   fld 4 p_uint64 Serve.p_MinOrgAgeEpochs;
   fld 5 p_uint64 Serve.p_DiminishingReturnsThreshold].
#[export] Instance Serve_Params_pb_law : MessageLaw Serve_Params_pb.
Proof. message_law. Qed.
#[global] Opaque Serve_Params_pb.
#[export] Instance Serve_StoredServeReceipt_fields : Fields Serve.StoredServeReceipt := fun r =>
    Serve.mkStoredServeReceipt (Serve.sr_OrgId r) (Serve.sr_MemoryContentHash r)
    (Serve.sr_ContributorId r) (Serve.sr_Epoch r) (Serve.sr_IsSelfServe r) (Serve.sr_ModelId r)
    (Serve.sr_TurnCount r) (Serve.sr_ServeKeyPubkey r) (Serve.sr_Fingerprint r) (Serve.sr_EpisodeRef
    r).
Definition Serve_StoredServeReceipt_pb : pb_message Serve.StoredServeReceipt :=
  mkMessage (Serve.mkStoredServeReceipt (pb_zero p_bytes) (pb_zero p_bytes) (pb_zero p_bytes)
    (pb_zero p_uint64) (pb_zero p_bool) (pb_zero p_bytes) (pb_zero p_uint32) (pb_zero p_bytes)
    (pb_zero p_bytes) (pb_zero p_bytes)) [
   fld 1 p_bytes Serve.sr_OrgId;
   fld 2 p_bytes Serve.sr_MemoryContentHash;
   fld 4 p_bytes Serve.sr_ContributorId;
   fld 5 p_uint64 Serve.sr_Epoch;
   fld 7 p_bool Serve.sr_IsSelfServe;
   fld 8 p_bytes Serve.sr_ModelId;
   fld 9 p_uint32 Serve.sr_TurnCount;
   fld 11 p_bytes Serve.sr_ServeKeyPubkey;
   fld 12 p_bytes Serve.sr_Fingerprint;
   fld 13 p_bytes Serve.sr_EpisodeRef].
#[export] Instance Serve_StoredServeReceipt_pb_law : MessageLaw Serve_StoredServeReceipt_pb.
Proof. message_law. Qed.
#[global] Opaque Serve_StoredServeReceipt_pb.
#[export] Existing Instance Serve.StoredDenialReceipt_fields.
Definition Serve_StoredDenialReceipt_pb : pb_message Serve.StoredDenialReceipt :=
  mkMessage (Serve.mkStoredDenialReceipt (pb_zero p_bytes) (pb_zero p_bytes) (pb_zero p_bytes)
    (pb_zero p_bytes) (pb_zero p_uint64) (pb_zero p_bytes) (pb_zero p_bytes) (pb_zero p_bytes)) [
   fld 1 p_bytes Serve.dr_OrgId;
   fld 2 p_bytes Serve.dr_MemoryHash;
   fld 3 p_bytes Serve.dr_DenyKey;
   fld 4 p_bytes Serve.dr_Reason;
   fld 5 p_uint64 Serve.dr_Epoch;
   fld 7 p_bytes Serve.dr_ServeFingerprint;
   fld 8 p_bytes Serve.dr_ServeKeyPubkey;
   fld 9 p_bytes Serve.dr_NegAnchor].
#[export] Instance Serve_StoredDenialReceipt_pb_law : MessageLaw Serve_StoredDenialReceipt_pb.
Proof. message_law. Qed.
#[global] Opaque Serve_StoredDenialReceipt_pb.
#[export] Existing Instance Serve.ContributorEpochServes_fields.
Definition Serve_StoredContributorEpochServes_pb : pb_message Serve.ContributorEpochServes :=
  mkMessage (Serve.mkContributorEpochServes (pb_zero p_bytes) (pb_zero p_uint64) (pb_zero p_uint64)
    (pb_zero p_uint64) (pb_zero p_strings) (pb_zero p_uint64)) [
   fld 1 p_bytes Serve.cs_ContributorID;
   fld 2 p_uint64 Serve.cs_Epoch;
   fld 3 p_uint64 Serve.cs_ServeCount;
   fld 4 p_uint64 Serve.cs_SelfServeCount;
   fld 5 p_strings Serve.cs_OrgIDs;
   fld 6 p_uint64 Serve.cs_TotalTurns].
#[export] Instance Serve_StoredContributorEpochServes_pb_law : MessageLaw
    Serve_StoredContributorEpochServes_pb.
Proof. message_law. Qed.
#[global] Opaque Serve_StoredContributorEpochServes_pb.
#[export] Existing Instance Serve.StoredPolicyAnchor_fields.
Definition Serve_StoredPolicyAnchor_pb : pb_message Serve.StoredPolicyAnchor :=
  mkMessage (Serve.mkPolicyAnchor (pb_zero p_bytes) (pb_zero p_bytes) (pb_zero p_uint64) (pb_zero
    p_int64)) [
   fld 1 p_bytes Serve.pa_PolicyVersion;
   fld 2 p_bytes Serve.pa_PolicyHash;
   fld 3 p_uint64 Serve.pa_AnchoredAtEpoch;
   fld 4 p_int64 Serve.pa_AnchoredAtHeight].
#[export] Instance Serve_StoredPolicyAnchor_pb_law : MessageLaw Serve_StoredPolicyAnchor_pb.
Proof. message_law. Qed.
#[global] Opaque Serve_StoredPolicyAnchor_pb.
Ltac oneof_law := message_law_with ltac:(fun r H =>
  rewrite opened_fits in H; rewrite opened_merge; destruct r as [];
  match goal with b : option Serve.EventBody |- _ => destruct b as [[]|] end;
  open_message; open_message_in H; repeat rewrite andb_true_iff in H; destruct_and? H;
  f_equal; apply merge_zero; assumption).
#[export] Existing Instance Serve.StoredEvent_fields.
Definition Serve_StoredEvent_pb : pb_message Serve.StoredEvent :=
  mkMessage (Serve.mkStoredEvent (pb_zero p_bytes) (pb_zero p_uint64) (pb_zero p_enum) (pb_zero
    p_bytes) (pb_zero p_bytes) (pb_zero p_bytes) (pb_zero p_bytes) (pb_zero p_bytes) None) [
   fld 1 p_bytes Serve.ev_OrgId;
   fld 2 p_uint64 Serve.ev_Epoch;
   fld 3 p_enum Serve.ev_EventType;
   fld 4 p_bytes Serve.ev_MemoryContentHash;
   fld 5 p_bytes Serve.ev_SignerPubkey;
   fld 6 p_bytes Serve.ev_Nonce;
   fld 7 p_bytes Serve.ev_Signature;
   fld 8 p_bytes Serve.ev_Fingerprint;
   fld_oneof 10 Serve_OutcomeEventBody_pb Outcome_body Outcome_of Serve.ev_Body;
   fld_oneof 11 Serve_ValidityPredicateEventBody_pb ValidityPredicate_body ValidityPredicate_of
    Serve.ev_Body;
   fld_oneof 12 Serve_CostToDiscoverEventBody_pb CostToDiscover_body CostToDiscover_of Serve.ev_Body;
   fld_oneof 13 Serve_ConvergenceEventBody_pb Convergence_body Convergence_of Serve.ev_Body].
#[export] Instance Serve_StoredEvent_pb_law : MessageLaw Serve_StoredEvent_pb.
Proof. oneof_law. Qed.
#[global] Opaque Serve_StoredEvent_pb.
Section ServeStats.
Context (order : gmap string N -> list (string * N)) `{!MapOrder order}.
#[export] Existing Instance Serve.EpochServeStats_fields.
Definition Serve_StoredEpochServeStats_pb : pb_message Serve.EpochServeStats :=
  mkMessage (Serve.mkEpochServeStats (pb_zero p_bytes) (pb_zero p_uint64) (pb_zero p_uint64)
    (pb_zero p_uint64) (pb_zero p_uint64) (pb_zero p_uint64) (pb_zero p_uint64) (pb_zero (p_map
    order))) [
   fld 1 p_bytes Serve.es_OrgID;
   fld 2 p_uint64 Serve.es_Epoch;
   fld 3 p_uint64 Serve.es_TotalServes;
   fld 4 p_uint64 Serve.es_UniqueMemoriesServed;
   fld 5 p_uint64 Serve.es_UniqueServeKeys;
   fld 6 p_uint64 Serve.es_SelfServes;
   fld 7 (p_map order) Serve.es_ModelBreakdown;
   fld 8 p_uint64 Serve.es_TotalDenials].
#[export] Instance Serve_StoredEpochServeStats_pb_law : MessageLaw Serve_StoredEpochServeStats_pb.
Proof. message_law. Qed.
End ServeStats.
#[global] Opaque Serve_StoredEpochServeStats_pb.
(** ** x/emissions *)
#[export] Existing Instance Emissions.Params_fields.
Definition Emissions_Params_pb : pb_message Emissions.Params :=
  mkMessage (Emissions.mkParams (pb_zero p_uint64) (pb_zero p_uint64) (pb_zero p_uint64) (pb_zero
    p_uint64) (pb_zero p_uint64) (pb_zero p_bytes) (pb_zero p_uint64) (pb_zero p_uint64) (pb_zero
    p_uint64) (pb_zero p_uint64) (pb_zero p_uint64) (pb_zero p_uint64)) [
   fld 1 p_uint64 Emissions.p_DailyMintAmount;
   fld 2 p_uint64 Emissions.p_OperatorSharePercent;
   fld 3 p_uint64 Emissions.p_ValidatorSharePercent;
   fld 4 p_uint64 Emissions.p_StorageWeightPercent;
   fld 5 p_uint64 Emissions.p_RetrievalWeightPercent;
   fld 6 p_bytes Emissions.p_RarityMultiplierCap;
   fld 7 p_uint64 Emissions.p_BootstrapDurationEpochs;
   fld 8 p_uint64 Emissions.p_TotalSupplyUvibe;
   fld 9 p_uint64 Emissions.p_ValidatorEmissionPoolUvibe;
   fld 10 p_uint64 Emissions.p_ContributorAnnualCapUvibe;
   fld 11 p_uint64 Emissions.p_ScheduleDurationDays;
   fld 12 p_uint64 Emissions.p_ContributorQualifyThreshold].
#[export] Instance Emissions_Params_pb_law : MessageLaw Emissions_Params_pb.
Proof. message_law. Qed.
#[global] Opaque Emissions_Params_pb.
#[export] Existing Instance Emissions.EmissionPool_fields.
Definition Emissions_StoredEmissionPool_pb : pb_message Emissions.EmissionPool :=
  mkMessage (Emissions.mkEmissionPool (pb_zero p_uint64) (pb_zero p_uint64) (pb_zero p_uint64)
    (pb_zero p_uint64) (pb_zero p_uint64) (pb_zero p_uint64) (pb_zero p_uint64) (pb_zero p_uint64)
    (pb_zero p_uint64) (pb_zero p_uint64)) [
   fld 1 p_uint64 Emissions.ep_TotalSupply;
   fld 2 p_uint64 Emissions.ep_DailyMint;
   fld 3 p_uint64 Emissions.ep_OperatorShare;
   fld 4 p_uint64 Emissions.ep_ValidatorShare;
   fld 5 p_uint64 Emissions.ep_Epoch;
   fld 6 p_uint64 Emissions.ep_ValidatorPoolRemainingUvibe;
   fld 7 p_uint64 Emissions.ep_ContributorPoolRemainingUvibe;
   fld 8 p_uint64 Emissions.ep_ContributorRolloverUvibe;
   fld 9 p_uint64 Emissions.ep_StartEpoch;
   fld 10 p_uint64 Emissions.ep_TotalEpochsElapsed].
#[export] Instance Emissions_StoredEmissionPool_pb_law : MessageLaw Emissions_StoredEmissionPool_pb.
Proof. message_law. Qed.
#[global] Opaque Emissions_StoredEmissionPool_pb.
#[export] Existing Instance Emissions.DailyEmission_fields.
Definition Emissions_StoredDailyEmission_pb : pb_message Emissions.DailyEmission :=
  mkMessage (Emissions.mkDailyEmission (pb_zero p_uint64) (pb_zero p_uint64) (pb_zero p_uint64)) [
   fld 1 p_uint64 Emissions.de_Epoch;
   fld 2 p_uint64 Emissions.de_TotalEmitted;
   fld 4 p_uint64 Emissions.de_ValidatorShare].
#[export] Instance Emissions_StoredDailyEmission_pb_law : MessageLaw Emissions_StoredDailyEmission_pb.
Proof. message_law. Qed.
#[global] Opaque Emissions_StoredDailyEmission_pb.
#[export] Existing Instance Emissions.BootstrapCredit_fields.
Definition Emissions_StoredBootstrapCredit_pb : pb_message Emissions.BootstrapCredit :=
  mkMessage (Emissions.mkBootstrapCredit (pb_zero p_bytes) (pb_zero p_uint64) (pb_zero p_uint64)) [
   fld 1 p_bytes Emissions.bc_OperatorID;
   fld 2 p_uint64 Emissions.bc_Credits;
   fld 3 p_uint64 Emissions.bc_Redeemed].
#[export] Instance Emissions_StoredBootstrapCredit_pb_law : MessageLaw
    Emissions_StoredBootstrapCredit_pb.
Proof. message_law. Qed.
#[global] Opaque Emissions_StoredBootstrapCredit_pb.
#[export] Existing Instance Emissions.AsymmetricGate_fields.
Definition Emissions_StoredAsymmetricGate_pb : pb_message Emissions.AsymmetricGate :=
  mkMessage (Emissions.mkAsymmetricGate (pb_zero p_bytes) (pb_zero p_bytes) (pb_zero p_bool)
    (pb_zero p_bool) (pb_zero p_uint64)) [
   fld 1 p_bytes Emissions.ag_OperatorID;
   fld 2 p_bytes Emissions.ag_OrgID;
   fld 3 p_bool Emissions.ag_StoragePassed;
   fld 4 p_bool Emissions.ag_RetrievalAllowed;
   fld 5 p_uint64 Emissions.ag_Epoch].
#[export] Instance Emissions_StoredAsymmetricGate_pb_law : MessageLaw Emissions_StoredAsymmetricGate_pb.
Proof. message_law. Qed.
#[global] Opaque Emissions_StoredAsymmetricGate_pb.
(** ** x/bandwidth *)
#[export] Instance Bandwidth_Params_fields : Fields Bandwidth.Params := fun r => Bandwidth.mkParams
    (Bandwidth.p_DefaultMemoryCapPerEpoch r) (Bandwidth.p_DefaultServeCapPerEpoch r).
Definition Bandwidth_Params_pb : pb_message Bandwidth.Params :=
  mkMessage (Bandwidth.mkParams (pb_zero p_uint64) (pb_zero p_uint64)) [
   fld 1 p_uint64 Bandwidth.p_DefaultMemoryCapPerEpoch;
   fld 2 p_uint64 Bandwidth.p_DefaultServeCapPerEpoch].
#[export] Instance Bandwidth_Params_pb_law : MessageLaw Bandwidth_Params_pb.
Proof. message_law. Qed.
#[global] Opaque Bandwidth_Params_pb.
#[export] Instance Bandwidth_StoredBandwidthState_fields : Fields Bandwidth.StoredBandwidthState :=
    fun r => Bandwidth.mkStoredBandwidthState (Bandwidth.ss_OrgId r) (Bandwidth.ss_Epoch r)
    (Bandwidth.ss_MemoryUsed r) (Bandwidth.ss_MemoryCap r) (Bandwidth.ss_ServeUsed r)
    (Bandwidth.ss_ServeCap r).
Definition Bandwidth_StoredBandwidthState_pb : pb_message Bandwidth.StoredBandwidthState :=
  mkMessage (Bandwidth.mkStoredBandwidthState (pb_zero p_bytes) (pb_zero p_uint64) (pb_zero
    p_uint64) (pb_zero p_uint64) (pb_zero p_uint64) (pb_zero p_uint64)) [
   fld 1 p_bytes Bandwidth.ss_OrgId;
   fld 2 p_uint64 Bandwidth.ss_Epoch;
   fld 3 p_uint64 Bandwidth.ss_MemoryUsed;
   fld 4 p_uint64 Bandwidth.ss_MemoryCap;
   fld 5 p_uint64 Bandwidth.ss_ServeUsed;
   fld 6 p_uint64 Bandwidth.ss_ServeCap].
#[export] Instance Bandwidth_StoredBandwidthState_pb_law : MessageLaw Bandwidth_StoredBandwidthState_pb.
Proof. message_law. Qed.
#[global] Opaque Bandwidth_StoredBandwidthState_pb.
#[export] Instance Bandwidth_StoredBandwidthOverride_fields : Fields
    Bandwidth.StoredBandwidthOverride := fun r => Bandwidth.mkStoredBandwidthOverride
    (Bandwidth.so_OrgId r) (Bandwidth.so_MemoryCap r) (Bandwidth.so_ServeCap r).
Definition Bandwidth_StoredBandwidthOverride_pb : pb_message Bandwidth.StoredBandwidthOverride :=
  mkMessage (Bandwidth.mkStoredBandwidthOverride (pb_zero p_bytes) (pb_zero p_uint64) (pb_zero
    p_uint64)) [
   fld 1 p_bytes Bandwidth.so_OrgId;
   fld 2 p_uint64 Bandwidth.so_MemoryCap;
   fld 3 p_uint64 Bandwidth.so_ServeCap].
#[export] Instance Bandwidth_StoredBandwidthOverride_pb_law : MessageLaw
    Bandwidth_StoredBandwidthOverride_pb.
Proof. message_law. Qed.
#[global] Opaque Bandwidth_StoredBandwidthOverride_pb.
(** ** x/identity *)
#[export] Existing Instance Identity.Params_fields.
Definition Identity_Params_pb : pb_message Identity.Params :=
  mkMessage (Identity.mkParams (pb_zero p_bool)) [
   fld 1 p_bool Identity.p_Active].
#[export] Instance Identity_Params_pb_law : MessageLaw Identity_Params_pb.
Proof. message_law. Qed.
#[global] Opaque Identity_Params_pb.
#[export] Existing Instance Identity.StoredIdentityAlias_fields.
Definition Identity_StoredIdentityAlias_pb : pb_message Identity.StoredIdentityAlias :=
  mkMessage (Identity.mkAlias (pb_zero p_bytes) (pb_zero p_bytes) (pb_zero p_bool) (pb_zero p_uint64)) [
   fld 1 p_bytes Identity.a_PasskeyPubkey;
   fld 2 p_bytes Identity.a_WalletAddress;
   fld 3 p_bool Identity.a_IsMigrated;
   fld 4 p_uint64 Identity.a_MigratedAtEpoch].
#[export] Instance Identity_StoredIdentityAlias_pb_law : MessageLaw Identity_StoredIdentityAlias_pb.
Proof. message_law. Qed.
#[global] Opaque Identity_StoredIdentityAlias_pb.
(** ** x/reputation *)
#[export] Instance Reputation_Params_fields : Fields Reputation.Params := fun r =>
    Reputation.mkParams (Reputation.p_Active r) (Reputation.p_MaxDifficulty r)
    (Reputation.p_MaxQuality r) (Reputation.p_ServeXpPerServe r) (Reputation.p_SelfServeXpPerServe
    r).
Definition Reputation_Params_pb : pb_message Reputation.Params :=
  mkMessage (Reputation.mkParams (pb_zero p_bool) (pb_zero p_uint32) (pb_zero p_uint32) (pb_zero
    p_uint64) (pb_zero p_uint64)) [
   fld 1 p_bool Reputation.p_Active;
   fld 2 p_uint32 Reputation.p_MaxDifficulty;
   fld 3 p_uint32 Reputation.p_MaxQuality;
   fld 4 p_uint64 Reputation.p_ServeXpPerServe;
   fld 5 p_uint64 Reputation.p_SelfServeXpPerServe].
#[export] Instance Reputation_Params_pb_law : MessageLaw Reputation_Params_pb.
Proof. message_law. Qed.
#[global] Opaque Reputation_Params_pb.
#[export] Instance Reputation_StoredAttestedMemory_fields : Fields Reputation.StoredAttestedMemory
    := fun r => Reputation.mkStoredAttested (Reputation.sa_Developer r) (Reputation.sa_MemoryCid r)
    (Reputation.sa_Difficulty r) (Reputation.sa_Quality r) (Reputation.sa_DomainTags r)
    (Reputation.sa_Provenance r).
Definition Reputation_StoredAttestedMemory_pb : pb_message Reputation.StoredAttestedMemory :=
  mkMessage (Reputation.mkStoredAttested (pb_zero p_bytes) (pb_zero p_bytes) (pb_zero p_uint32)
    (pb_zero p_uint32) (pb_zero p_strings) (pb_zero p_bytes)) [
   fld 1 p_bytes Reputation.sa_Developer;
   fld 2 p_bytes Reputation.sa_MemoryCid;
   fld 3 p_uint32 Reputation.sa_Difficulty;
   fld 4 p_uint32 Reputation.sa_Quality;
   fld 5 p_strings Reputation.sa_DomainTags;
   fld 6 p_bytes Reputation.sa_Provenance].
#[export] Instance Reputation_StoredAttestedMemory_pb_law : MessageLaw
    Reputation_StoredAttestedMemory_pb.
Proof. message_law. Qed.
#[global] Opaque Reputation_StoredAttestedMemory_pb.
#[export] Existing Instance Reputation.StoredContributorOrgSet_fields.
Definition Reputation_StoredContributorOrgSet_pb : pb_message Reputation.StoredContributorOrgSet :=
  mkMessage (Reputation.mkOrgSet (pb_zero p_bytes) (pb_zero p_strings)) [
   fld 1 p_bytes Reputation.os_ContributorId;
   fld 2 p_strings Reputation.os_OrgIds].
#[export] Instance Reputation_StoredContributorOrgSet_pb_law : MessageLaw
    Reputation_StoredContributorOrgSet_pb.
Proof. message_law. Qed.
#[global] Opaque Reputation_StoredContributorOrgSet_pb.
#[export] Existing Instance Reputation.OrgMembership_fields.
Definition Reputation_OrgMembership_pb : pb_message Reputation.OrgMembership :=
  mkMessage (Reputation.mkMembership (pb_zero p_bytes) (pb_zero p_bytes) (pb_zero p_uint64) (pb_zero
    p_bool)) [
   fld 1 p_bytes Reputation.om_OrgId;
   fld 2 p_bytes Reputation.om_Role;
   fld 3 p_uint64 Reputation.om_JoinedEpoch;
   fld 4 p_bool Reputation.om_Active].
#[export] Instance Reputation_OrgMembership_pb_law : MessageLaw Reputation_OrgMembership_pb.
Proof. message_law. Qed.
#[global] Opaque Reputation_OrgMembership_pb.
#[export] Existing Instance Reputation.StoredContributorProfile_fields.
Definition Reputation_StoredContributorProfile_pb : pb_message Reputation.StoredContributorProfile :=
  mkMessage (Reputation.mkProfile (pb_zero p_bytes) (pb_zero p_uint64) (pb_zero p_uint64) (pb_zero
    p_uint64) (pb_zero p_uint64) (pb_zero p_uint64) (pb_zero (p_messages
    Reputation_OrgMembership_pb)) (pb_zero p_uint64) (pb_zero p_uint64)) [
   fld 1 p_bytes Reputation.cp_ContributorId;
   fld 2 p_uint64 Reputation.cp_TotalApprovedMemories;
   fld 3 p_uint64 Reputation.cp_TotalServesReceived;
   fld 4 p_uint64 Reputation.cp_TotalDenialsReceived;
   fld 5 p_uint64 Reputation.cp_TotalReportsFiledAgainst;
   fld 6 p_uint64 Reputation.cp_TotalReportsUpheldAgainst;
   fld 7 (p_messages Reputation_OrgMembership_pb) Reputation.cp_Memberships;
   fld 8 p_uint64 Reputation.cp_FirstContributionEpoch;
   fld 9 p_uint64 Reputation.cp_LastContributionEpoch].
#[export] Instance Reputation_StoredContributorProfile_pb_law : MessageLaw
    Reputation_StoredContributorProfile_pb.
Proof. message_law. Qed.
#[global] Opaque Reputation_StoredContributorProfile_pb.
#[export] Existing Instance Reputation.StoredModeratorProfile_fields.
Definition Reputation_StoredModeratorProfile_pb : pb_message Reputation.StoredModeratorProfile :=
  mkMessage (Reputation.mkModerator (pb_zero p_bytes) (pb_zero p_bytes) (pb_zero p_uint64) (pb_zero
    p_uint64) (pb_zero p_strings) (pb_zero p_uint64) (pb_zero p_uint64)) [
   fld 1 p_bytes Reputation.mp_ModeratorPubkey;
   fld 2 p_bytes Reputation.mp_OrgId;
   fld 3 p_uint64 Reputation.mp_TotalApprovals;
   fld 4 p_uint64 Reputation.mp_ApprovalsLaterUpheldCount;
   fld 5 p_strings Reputation.mp_ApprovedMemoryHashes;
   fld 6 p_uint64 Reputation.mp_FirstApprovalEpoch;
   fld 7 p_uint64 Reputation.mp_LastApprovalEpoch].
#[export] Instance Reputation_StoredModeratorProfile_pb_law : MessageLaw
    Reputation_StoredModeratorProfile_pb.
Proof. message_law. Qed.
#[global] Opaque Reputation_StoredModeratorProfile_pb.
#[export] Existing Instance Reputation.StoredLeaderProfile_fields.
Definition Reputation_StoredLeaderProfile_pb : pb_message Reputation.StoredLeaderProfile :=
  mkMessage (Reputation.mkLeader (pb_zero p_bytes) (pb_zero p_bytes) (pb_zero p_uint64) (pb_zero
    p_uint64) (pb_zero p_uint64) (pb_zero p_bool)) [
   fld 1 p_bytes Reputation.lp_LeaderPubkey;
   fld 2 p_bytes Reputation.lp_OrgId;
   fld 3 p_uint64 Reputation.lp_TotalChainCommitsSigned;
   fld 4 p_uint64 Reputation.lp_TotalUpheldReportsCommitted;
   fld 6 p_uint64 Reputation.lp_FirstLeadershipEpoch;
   fld 7 p_bool Reputation.lp_CurrentLeader].
#[export] Instance Reputation_StoredLeaderProfile_pb_law : MessageLaw Reputation_StoredLeaderProfile_pb.
Proof. message_law. Qed.
#[global] Opaque Reputation_StoredLeaderProfile_pb.
Section ReputationStats.
Context (order : gmap string N -> list (string * N)) `{!MapOrder order}.
#[export] Instance Reputation_StoredReputationStats_fields : Fields Reputation.StoredReputationStats
    := fun r => Reputation.mkStoredStats (Reputation.ss_DeveloperId r) (Reputation.ss_MemoryCount r)
    (Reputation.ss_DifficultyBucket r) (Reputation.ss_DomainTags r)
    (Reputation.ss_ProvenanceBreakdown r) (Reputation.ss_Xp r) (Reputation.ss_ServeCount r)
    (Reputation.ss_SelfServeCount r) (Reputation.ss_OrgBreadth r) (Reputation.ss_FirstSeenEpoch r)
    (Reputation.ss_ServeXp r).
Definition Reputation_StoredReputationStats_pb : pb_message Reputation.StoredReputationStats :=
  mkMessage (Reputation.mkStoredStats (pb_zero p_bytes) (pb_zero p_uint64) (pb_zero p_packed)
    (pb_zero (p_map order)) (pb_zero (p_map order)) (pb_zero p_uint64) (pb_zero p_uint64) (pb_zero
    p_uint64) (pb_zero p_uint64) (pb_zero p_uint64) (pb_zero p_uint64)) [
   fld 1 p_bytes Reputation.ss_DeveloperId;
   fld 2 p_uint64 Reputation.ss_MemoryCount;
   fld 3 p_packed Reputation.ss_DifficultyBucket;
   fld 4 (p_map order) Reputation.ss_DomainTags;
   fld 5 (p_map order) Reputation.ss_ProvenanceBreakdown;
   fld 6 p_uint64 Reputation.ss_Xp;
   fld 7 p_uint64 Reputation.ss_ServeCount;
   fld 8 p_uint64 Reputation.ss_SelfServeCount;
   fld 9 p_uint64 Reputation.ss_OrgBreadth;
   fld 10 p_uint64 Reputation.ss_FirstSeenEpoch;
   fld 11 p_uint64 Reputation.ss_ServeXp].
#[export] Instance Reputation_StoredReputationStats_pb_law : MessageLaw
    Reputation_StoredReputationStats_pb.
Proof. message_law. Qed.
End ReputationStats.
#[global] Opaque Reputation_StoredReputationStats_pb.
(** ** x/attestation *)
#[export] Instance Attestation_Params_fields : Fields Attestation.Params := fun r =>
    Attestation.mkParams (Attestation.p_MaxAttestationsPerEpoch r)
    (Attestation.p_RequireAttestationForServe r).
Definition Attestation_Params_pb : pb_message Attestation.Params :=
  mkMessage (Attestation.mkParams (pb_zero p_uint64) (pb_zero p_bool)) [
   fld 1 p_uint64 Attestation.p_MaxAttestationsPerEpoch;
   fld 2 p_bool Attestation.p_RequireAttestationForServe].
#[export] Instance Attestation_Params_pb_law : MessageLaw Attestation_Params_pb.
Proof. message_law. Qed.
#[global] Opaque Attestation_Params_pb.
#[export] Existing Instance Attestation.StoredSessionAttestation_fields.
Definition Attestation_StoredSessionAttestation_pb : pb_message Attestation.StoredSessionAttestation :=
  mkMessage (Attestation.mkAttestation (pb_zero p_bytes) (pb_zero p_bytes) (pb_zero p_bytes)
    (pb_zero p_uint32) (pb_zero p_uint32) (pb_zero p_enum) (pb_zero p_bytes) (pb_zero p_bytes)
    (pb_zero p_bytes) (pb_zero p_uint64) (pb_zero p_uint64)) [
   fld 1 p_bytes Attestation.sa_OrgId;
   fld 2 p_bytes Attestation.sa_SessionHash;
   fld 3 p_bytes Attestation.sa_ModelId;
   fld 4 p_uint32 Attestation.sa_TurnCount;
   fld 5 p_uint32 Attestation.sa_TokenCount;
   fld 6 p_enum Attestation.sa_ProviderType;
   fld 7 p_bytes Attestation.sa_CommitllmReceiptHash;
   fld 8 p_bytes Attestation.sa_ProviderSignatureHash;
   fld 9 p_bytes Attestation.sa_ContributorId;
   fld 10 p_uint64 Attestation.sa_Epoch;
   fld 11 p_uint64 Attestation.sa_SubmittedAtHeight].
#[export] Instance Attestation_StoredSessionAttestation_pb_law : MessageLaw
    Attestation_StoredSessionAttestation_pb.
Proof. message_law. Qed.
#[global] Opaque Attestation_StoredSessionAttestation_pb.

(** ** Values of a store

    A stored value is a record of some message type or plain bytes; [inj] is the
    constructor of the model's value type. *)
Inductive shaped (V : Type) : Type :=
  | Rec {R} (c : pb_message R) (law : MessageLaw c) (x : R) (inj : R -> V)
  | Raw (b : string) (inj : string -> V).
Arguments Rec {_ _} _ {_} _ _.
Arguments Raw {_} _ _.

Definition unshape {V} (s : shaped V) : V := match s with Rec _ x inj => inj x | Raw b inj => inj b end.

Class Stored (V : Type) := { shape : V -> shaped V; shape_of v : unshape (shape v) = v }.

Section Bytes.
Context {V : Type} `{!Stored V}.

Definition value_to_bytes (v : V) : string :=
  match shape v with Rec c x _ => Marshal c x | Raw b _ => b end.

(** What a read of the type of [v] makes of some bytes. *)
Definition value_from_bytes (v : V) (b : string) : option V :=
  match shape v with Rec c _ inj => inj <$> Unmarshal c b | Raw _ inj => Some (inj b) end.

Definition value_fits (v : V) : bool :=
  match shape v with Rec c x _ => message_fits c x | Raw _ _ => true end.

Lemma value_roundtrip v : value_fits v = true -> value_from_bytes v (value_to_bytes v) = Some v.
Proof.
  unfold value_fits, value_from_bytes, value_to_bytes. pose proof (shape_of v) as Hs.
  destruct (shape v) as [R c law x inj|b inj]; cbn in *; [|by rewrite Hs].
  intros Hx. rewrite Unmarshal_Marshal by (done || apply _). cbn. by rewrite Hs.
Qed.

(** *** The store on disk *)
Definition disk (m : gmap string V) : gmap string string := value_to_bytes <$> m.

Lemma disk_get m k : disk m !! k = value_to_bytes <$> (m !! k).
Proof. apply lookup_fmap. Qed.
Lemma disk_set m k v : disk (<[k := v]> m) = <[k := value_to_bytes v]> (disk m).
Proof. apply fmap_insert. Qed.
Lemma disk_delete m k : disk (delete k m) = delete k (disk m).
Proof. apply fmap_delete. Qed.

(** A scan of the bytes visits what the scan of the records visits. *)
Lemma disk_scan start stop m :
  Iterator start stop (disk m) = prod_map id value_to_bytes <$> Iterator start stop m.
Proof.
  apply (StronglySorted_unique_strong key_le).
  - intros [k1 b1] [k2 b2] H1 H2 L1 L2.
    assert (k1 = k2) as <- by (apply (anti_symm String.le); done).
    apply elem_of_Iterator in H1 as [H1 _]. apply list_elem_of_fmap in H2 as ([k v] & E & H2).
    cbn in E. injection E as -> ->. apply elem_of_Iterator in H2 as [H2 _].
    rewrite disk_get, H2 in H1. by injection H1 as ->.
  - apply Iterator_sorted.
  - induction (Iterator_sorted start stop m) as [|x l Hs IH Hx]; [constructor|]. cbn.
    constructor; [done|]. apply Forall_fmap. eapply Forall_impl; [exact Hx|]. intros [k v]. done.
  - apply NoDup_Permutation.
    + eapply NoDup_fmap_1, Iterator_NoDup.
    + eapply (NoDup_fmap_1 fst). rewrite <- list_fmap_compose. eapply (eq_ind _ NoDup).
      * apply (Iterator_NoDup start stop m).
      * apply list_fmap_ext. by intros i [k v].
    + intros [k b]. rewrite elem_of_Iterator, disk_get, list_elem_of_fmap. split.
      * intros [(v & Hv & ->)%fmap_Some Hr]. exists (k, v). split; [done|]. by apply elem_of_Iterator.
      * intros ([k' v] & E & [Hv Hr]%elem_of_Iterator). cbn in E. injection E as -> ->. by rewrite Hv.
Qed.

(** What the keeper gets back from the bytes of its store. *)
Definition reads_back (m : gmap string V) : Prop :=
  forall k v, m !! k = Some v -> exists b, disk m !! k = Some b /\ value_from_bytes v b = Some v.

Lemma disk_reads_back m : map_Forall (fun _ v => value_fits v = true) m -> reads_back m.
Proof.
  intros Hm k v Hv. exists (value_to_bytes v). rewrite disk_get, Hv. split; [done|].
  by apply value_roundtrip, (Hm k).
Qed.
End Bytes.

(** ** The values of the eight stores *)
Definition org_shape (v : Org.org_val) : shaped Org.org_val :=
  match v with
  | Org.VParams p => Rec Org_Params_pb p Org.VParams
  | Org.VSlotRegistry n => Rec Org_StoredSlotRegistry_pb (mkSlotRegistry n) (fun r => Org.VSlotRegistry (reg_NextSlot r))
  | Org.VOrg o => Rec Org_StoredOrg_pb o Org.VOrg
  | Org.VMember m => Rec Org_StoredMemberRecord_pb m Org.VMember
  | Org.VConfig c => Rec Org_StoredOrgConfig_pb c Org.VConfig
  | Org.VRaw b => Raw b Org.VRaw
  end.
Lemma org_shape_of v : unshape (org_shape v) = v.
Proof. by destruct v. Qed.
#[export] Instance org_stored : Stored Org.org_val := {| shape := org_shape; shape_of := org_shape_of |}.

Definition memory_shape (v : Memory.mem_val) : shaped Memory.mem_val :=
  match v with
  | Memory.VParams p => Rec Memory_Params_pb p Memory.VParams
  | Memory.VPending c => Rec Memory_StoredPendingCommitment_pb c Memory.VPending
  | Memory.VMemory c => Rec Memory_StoredMemoryCommitment_pb c Memory.VMemory
  | Memory.VRelationship r => Rec Memory_StoredMemoryRelationship_pb r Memory.VRelationship
  | Memory.VValidity x => Rec Memory_StoredValidityMetadata_pb x Memory.VValidity
  | Memory.VMerkle r => Rec Memory_StoredEpochMerkleRoot_pb r Memory.VMerkle
  | Memory.VReport r => Rec Memory_StoredMemoryReport_pb r Memory.VReport
  | Memory.VRaw b => Raw b Memory.VRaw
  end.
Lemma memory_shape_of v : unshape (memory_shape v) = v.
Proof. by destruct v. Qed.
#[export] Instance memory_stored : Stored Memory.mem_val := {| shape := memory_shape; shape_of := memory_shape_of |}.

Section ServeValues.
Context (order : gmap string N -> list (string * N)) `{!MapOrder order}.
Definition serve_shape (v : Serve.serve_val) : shaped Serve.serve_val :=
  match v with
  | Serve.VParams p => Rec Serve_Params_pb p Serve.VParams
  | Serve.VReceipt r => Rec Serve_StoredServeReceipt_pb r Serve.VReceipt
  | Serve.VDenial d => Rec Serve_StoredDenialReceipt_pb d Serve.VDenial
  | Serve.VStats x => Rec (Serve_StoredEpochServeStats_pb order) x Serve.VStats
  | Serve.VContributor c => Rec Serve_StoredContributorEpochServes_pb c Serve.VContributor
  | Serve.VEvent e => Rec Serve_StoredEvent_pb e Serve.VEvent
  | Serve.VAnchor a => Rec Serve_StoredPolicyAnchor_pb a Serve.VAnchor
  | Serve.VRaw b => Raw b Serve.VRaw
  end.
Lemma serve_shape_of v : unshape (serve_shape v) = v.
Proof. by destruct v. Qed.
#[export] Instance serve_stored : Stored Serve.serve_val := {| shape := serve_shape; shape_of := serve_shape_of |}.
End ServeValues.

Definition emissions_shape (v : Emissions.emi_val) : shaped Emissions.emi_val :=
  match v with
  | Emissions.VParams p => Rec Emissions_Params_pb p Emissions.VParams
  | Emissions.VPool p => Rec Emissions_StoredEmissionPool_pb p Emissions.VPool
  | Emissions.VEmission e => Rec Emissions_StoredDailyEmission_pb e Emissions.VEmission
  | Emissions.VCredit c => Rec Emissions_StoredBootstrapCredit_pb c Emissions.VCredit
  | Emissions.VGate g => Rec Emissions_StoredAsymmetricGate_pb g Emissions.VGate
  | Emissions.VRaw b => Raw b Emissions.VRaw
  end.
Lemma emissions_shape_of v : unshape (emissions_shape v) = v.
Proof. by destruct v. Qed.
#[export] Instance emissions_stored : Stored Emissions.emi_val := {| shape := emissions_shape; shape_of := emissions_shape_of |}.

Definition bandwidth_shape (v : Bandwidth.bw_val) : shaped Bandwidth.bw_val :=
  match v with
  | Bandwidth.VParams p => Rec Bandwidth_Params_pb p Bandwidth.VParams
  | Bandwidth.VState x => Rec Bandwidth_StoredBandwidthState_pb x Bandwidth.VState
  | Bandwidth.VOverride x => Rec Bandwidth_StoredBandwidthOverride_pb x Bandwidth.VOverride
  | Bandwidth.VRaw b => Raw b Bandwidth.VRaw
  end.
Lemma bandwidth_shape_of v : unshape (bandwidth_shape v) = v.
Proof. by destruct v. Qed.
#[export] Instance bandwidth_stored : Stored Bandwidth.bw_val := {| shape := bandwidth_shape; shape_of := bandwidth_shape_of |}.

Definition identity_shape (v : Identity.id_val) : shaped Identity.id_val :=
  match v with
  | Identity.VParams p => Rec Identity_Params_pb p Identity.VParams
  | Identity.VAlias a => Rec Identity_StoredIdentityAlias_pb a Identity.VAlias
  | Identity.VRaw b => Raw b Identity.VRaw
  end.
Lemma identity_shape_of v : unshape (identity_shape v) = v.
Proof. by destruct v. Qed.
#[export] Instance identity_stored : Stored Identity.id_val := {| shape := identity_shape; shape_of := identity_shape_of |}.

Section ReputationValues.
Context (order : gmap string N -> list (string * N)) `{!MapOrder order}.
Definition reputation_shape (v : Reputation.rep_val) : shaped Reputation.rep_val :=
  match v with
  | Reputation.VParams p => Rec Reputation_Params_pb p Reputation.VParams
  | Reputation.VStats x => Rec (Reputation_StoredReputationStats_pb order) x Reputation.VStats
  | Reputation.VAttested a => Rec Reputation_StoredAttestedMemory_pb a Reputation.VAttested
  | Reputation.VOrgSet x => Rec Reputation_StoredContributorOrgSet_pb x Reputation.VOrgSet
  | Reputation.VProfile p => Rec Reputation_StoredContributorProfile_pb p Reputation.VProfile
  | Reputation.VModerator p => Rec Reputation_StoredModeratorProfile_pb p Reputation.VModerator
  | Reputation.VLeader p => Rec Reputation_StoredLeaderProfile_pb p Reputation.VLeader
  | Reputation.VRaw b => Raw b Reputation.VRaw
  end.
Lemma reputation_shape_of v : unshape (reputation_shape v) = v.
Proof. by destruct v. Qed.
#[export] Instance reputation_stored : Stored Reputation.rep_val := {| shape := reputation_shape; shape_of := reputation_shape_of |}.
End ReputationValues.

Definition attestation_shape (v : Attestation.att_val) : shaped Attestation.att_val :=
  match v with
  | Attestation.VParams p => Rec Attestation_Params_pb p Attestation.VParams
  | Attestation.VAtt a => Rec Attestation_StoredSessionAttestation_pb a Attestation.VAtt
  | Attestation.VRaw b => Raw b Attestation.VRaw
  end.
Lemma attestation_shape_of v : unshape (attestation_shape v) = v.
Proof. by destruct v. Qed.
#[export] Instance attestation_stored : Stored Attestation.att_val := {| shape := attestation_shape; shape_of := attestation_shape_of |}.

