(* ===== verification/EmissionsStored.v ===== *)
(** * The stored forms of x/emissions

    The emissions keeper converts its records to the generated types
    [StoredEmissionPool], [StoredDailyEmission], [StoredBootstrapCredit] and
    [StoredAsymmetricGate] before writing them and back after reading
    (types/keys.go).  Emissions.v and PbState.v speak of one record for both; the
    lemmas here justify that: the conversions lose nothing and the bytes of the
    stored form are the bytes PbState.v writes. *)

From S2P Require Import Prelude Bytes Wire Proto Pb PbState Emissions.
Local Open Scope N_scope.

(** ** The generated types *)
Record StoredEmissionPool := mkStoredEmissionPool {
  sp_TotalSupply : N; sp_DailyMint : N; sp_OperatorShare : N; sp_ValidatorShare : N;
  sp_Epoch : N; sp_ValidatorPoolRemainingUvibe : N; sp_ContributorPoolRemainingUvibe : N;
  sp_ContributorRolloverUvibe : N; sp_StartEpoch : N; sp_TotalEpochsElapsed : N;
}.
#[export] Instance StoredEmissionPool_fields : Fields StoredEmissionPool :=
  fun r => mkStoredEmissionPool (sp_TotalSupply r) (sp_DailyMint r) (sp_OperatorShare r)
    (sp_ValidatorShare r) (sp_Epoch r) (sp_ValidatorPoolRemainingUvibe r)
    (sp_ContributorPoolRemainingUvibe r) (sp_ContributorRolloverUvibe r) (sp_StartEpoch r)
    (sp_TotalEpochsElapsed r).
Record StoredDailyEmission := mkStoredDailyEmission {
  sd_Epoch : N; sd_TotalEmitted : N; sd_ValidatorShare : N;
}.
#[export] Instance StoredDailyEmission_fields : Fields StoredDailyEmission :=
  fun r => mkStoredDailyEmission (sd_Epoch r) (sd_TotalEmitted r) (sd_ValidatorShare r).
Record StoredBootstrapCredit := mkStoredBootstrapCredit {
  sb_OperatorId : string; sb_Credits : N; sb_Redeemed : N;
}.
#[export] Instance StoredBootstrapCredit_fields : Fields StoredBootstrapCredit :=
  fun r => mkStoredBootstrapCredit (sb_OperatorId r) (sb_Credits r) (sb_Redeemed r).
Record StoredAsymmetricGate := mkStoredAsymmetricGate {
  sg_OperatorId : string; sg_OrgId : string; sg_StoragePassed : bool;
  sg_RetrievalAllowed : bool; sg_Epoch : N;
}.
#[export] Instance StoredAsymmetricGate_fields : Fields StoredAsymmetricGate :=
  fun r => mkStoredAsymmetricGate (sg_OperatorId r) (sg_OrgId r) (sg_StoragePassed r)
    (sg_RetrievalAllowed r) (sg_Epoch r).

(** ** The conversions; a nil pointer gives a nil pointer *)
Definition EmissionPoolToStored (p : option EmissionPool) : option StoredEmissionPool :=
  match p with
  | None => None
  | Some p => Some {|
      sp_TotalSupply := ep_TotalSupply p;
      sp_DailyMint := ep_DailyMint p;
      sp_OperatorShare := ep_OperatorShare p;
      sp_ValidatorShare := ep_ValidatorShare p;
      sp_Epoch := ep_Epoch p;
      sp_ValidatorPoolRemainingUvibe := ep_ValidatorPoolRemainingUvibe p;
      sp_ContributorPoolRemainingUvibe := ep_ContributorPoolRemainingUvibe p;
      sp_ContributorRolloverUvibe := ep_ContributorRolloverUvibe p;
      sp_StartEpoch := ep_StartEpoch p;
      sp_TotalEpochsElapsed := ep_TotalEpochsElapsed p;
    |}
  end.
Definition StoredToEmissionPool (s : option StoredEmissionPool) : option EmissionPool :=
  match s with
  | None => None
  | Some s => Some {|
      ep_TotalSupply := sp_TotalSupply s;
      ep_DailyMint := sp_DailyMint s;
      ep_OperatorShare := sp_OperatorShare s;
      ep_ValidatorShare := sp_ValidatorShare s;
      ep_Epoch := sp_Epoch s;
      ep_ValidatorPoolRemainingUvibe := sp_ValidatorPoolRemainingUvibe s;
      ep_ContributorPoolRemainingUvibe := sp_ContributorPoolRemainingUvibe s;
      ep_ContributorRolloverUvibe := sp_ContributorRolloverUvibe s;
      ep_StartEpoch := sp_StartEpoch s;
      ep_TotalEpochsElapsed := sp_TotalEpochsElapsed s;
    |}
  end.
Definition DailyEmissionToStored (e : option DailyEmission) : option StoredDailyEmission :=
  match e with
  | None => None
  | Some e => Some {|
      sd_Epoch := de_Epoch e;
      sd_TotalEmitted := de_TotalEmitted e;
      sd_ValidatorShare := de_ValidatorShare e;
    |}
  end.
Definition StoredToDailyEmission (s : option StoredDailyEmission) : option DailyEmission :=
  match s with
  | None => None
  | Some s => Some {|
      de_Epoch := sd_Epoch s;
      de_TotalEmitted := sd_TotalEmitted s;
      de_ValidatorShare := sd_ValidatorShare s;
    |}
  end.
Definition BootstrapCreditToStored (b : option BootstrapCredit) : option StoredBootstrapCredit :=
  match b with
  | None => None
  | Some b => Some {|
      sb_OperatorId := bc_OperatorID b;
      sb_Credits := bc_Credits b;
      sb_Redeemed := bc_Redeemed b;
    |}
  end.
Definition StoredToBootstrapCredit (s : option StoredBootstrapCredit) : option BootstrapCredit :=
  match s with
  | None => None
  | Some s => Some {|
      bc_OperatorID := sb_OperatorId s;
      bc_Credits := sb_Credits s;
      bc_Redeemed := sb_Redeemed s;
    |}
  end.
Definition AsymmetricGateToStored (g : option AsymmetricGate) : option StoredAsymmetricGate :=
  match g with
  | None => None
  | Some g => Some {|
      sg_OperatorId := ag_OperatorID g;
      sg_OrgId := ag_OrgID g;
      sg_StoragePassed := ag_StoragePassed g;
      sg_RetrievalAllowed := ag_RetrievalAllowed g;
      sg_Epoch := ag_Epoch g;
    |}
  end.
Definition StoredToAsymmetricGate (s : option StoredAsymmetricGate) : option AsymmetricGate :=
  match s with
  | None => None
  | Some s => Some {|
      ag_OperatorID := sg_OperatorId s;
      ag_OrgID := sg_OrgId s;
      ag_StoragePassed := sg_StoragePassed s;
      ag_RetrievalAllowed := sg_RetrievalAllowed s;
      ag_Epoch := sg_Epoch s;
    |}
  end.

(** ** The generated codecs of the stored types *)
Definition StoredEmissionPool_pb : pb_message StoredEmissionPool :=
  mkMessage (mkStoredEmissionPool 0 0 0 0 0 0 0 0 0 0) [
    fld 1 p_uint64 sp_TotalSupply; fld 2 p_uint64 sp_DailyMint; fld 3 p_uint64 sp_OperatorShare;
    fld 4 p_uint64 sp_ValidatorShare; fld 5 p_uint64 sp_Epoch;
    fld 6 p_uint64 sp_ValidatorPoolRemainingUvibe; fld 7 p_uint64 sp_ContributorPoolRemainingUvibe;
    fld 8 p_uint64 sp_ContributorRolloverUvibe; fld 9 p_uint64 sp_StartEpoch;
    fld 10 p_uint64 sp_TotalEpochsElapsed].
Definition StoredDailyEmission_pb : pb_message StoredDailyEmission :=
  mkMessage (mkStoredDailyEmission 0 0 0) [
    fld 1 p_uint64 sd_Epoch; fld 2 p_uint64 sd_TotalEmitted; fld 4 p_uint64 sd_ValidatorShare].
Definition StoredBootstrapCredit_pb : pb_message StoredBootstrapCredit :=
  mkMessage (mkStoredBootstrapCredit "" 0 0) [
    fld 1 p_bytes sb_OperatorId; fld 2 p_uint64 sb_Credits; fld 3 p_uint64 sb_Redeemed].
Definition StoredAsymmetricGate_pb : pb_message StoredAsymmetricGate :=
  mkMessage (mkStoredAsymmetricGate "" "" false false 0) [
    fld 1 p_bytes sg_OperatorId; fld 2 p_bytes sg_OrgId; fld 3 p_bool sg_StoragePassed;
    fld 4 p_bool sg_RetrievalAllowed; fld 5 p_uint64 sg_Epoch].

(** ** One record for both

    A codec [c] of records and a codec [d] of their stored forms, with the
    conversions between them. *)
Record stored_form {A S} (c : pb_message A) (d : pb_message S)
    (to : option A -> option S) (from : option S -> option A) : Prop := {
  sf_nil : to None = None /\ from None = None;
  sf_back r : from (to (Some r)) = Some r;
  sf_bytes r : Marshal d <$> to (Some r) = Some (Marshal c r);
  sf_read b : from (Unmarshal d b) = Unmarshal c b;
}.

(** Reading the stored form and converting is reading the record: both loops
    make the same updates and go on with the same bytes. *)
Lemma unmarshal_converts {A S} (c : pb_message A) (d : pb_message S) (f : S -> A) :
  f (m_empty d) = m_empty c ->
  (forall n s w rest, match find_num d n, find_num c n with
     | Some g, Some h => (fun sr => (f sr.1, sr.2)) <$> f_in g s w rest = f_in h (f s) w rest
     | None, None => True
     | _, _ => False
     end) ->
  forall b, f <$> Unmarshal d b = Unmarshal c b.
Proof.
  intros H0 Hf b. unfold Unmarshal, UnmarshalInto. rewrite <- H0. generalize (m_empty d).
  generalize (String.length b) as fuel. intros fuel. revert b.
  induction fuel as [|fuel IH]; intros [|a b] s; try done. cbn [unmarshal_into].
  destruct (read_field (String a b)) as [[[n w] rest]|]; [|done]. cbn [mbind option_bind].
  specialize (Hf n s w rest). destruct (find_num d n), (find_num c n); try done.
  rewrite <- Hf. destruct (f_in p s w rest) as [[s' rest']|]; [apply IH|done].
Qed.

(** The number of a field is one of those listed. *)
Ltac by_number c d :=
  intros n s w rest; unfold find_num, c, d; cbn [m_fields List.find fld f_num];
  repeat match goal with |- context [?k =? n] => destruct (k =? n) end;
  try exact I; destruct w; reflexivity.

Transparent Emissions_StoredEmissionPool_pb Emissions_StoredDailyEmission_pb
  Emissions_StoredBootstrapCredit_pb Emissions_StoredAsymmetricGate_pb.

Lemma pool_stored :
  stored_form Emissions_StoredEmissionPool_pb StoredEmissionPool_pb EmissionPoolToStored StoredToEmissionPool.
Proof.
  split; [done|by intros []|done|]. intros b.
  rewrite <- (unmarshal_converts _ StoredEmissionPool_pb (fun s => mkEmissionPool (sp_TotalSupply s)
    (sp_DailyMint s) (sp_OperatorShare s) (sp_ValidatorShare s) (sp_Epoch s)
    (sp_ValidatorPoolRemainingUvibe s) (sp_ContributorPoolRemainingUvibe s)
    (sp_ContributorRolloverUvibe s) (sp_StartEpoch s) (sp_TotalEpochsElapsed s)));
    [by destruct (Unmarshal _ b)|done|by_number Emissions_StoredEmissionPool_pb StoredEmissionPool_pb].
Qed.
Lemma emission_stored :
  stored_form Emissions_StoredDailyEmission_pb StoredDailyEmission_pb DailyEmissionToStored StoredToDailyEmission.
Proof.
  split; [done|by intros []|done|]. intros b.
  rewrite <- (unmarshal_converts _ StoredDailyEmission_pb (fun s => mkDailyEmission (sd_Epoch s)
    (sd_TotalEmitted s) (sd_ValidatorShare s))); [by destruct (Unmarshal _ b)|done|by_number Emissions_StoredDailyEmission_pb StoredDailyEmission_pb].
Qed.
Lemma credit_stored :
  stored_form Emissions_StoredBootstrapCredit_pb StoredBootstrapCredit_pb
    BootstrapCreditToStored StoredToBootstrapCredit.
Proof.
  split; [done|by intros []|done|]. intros b.
  rewrite <- (unmarshal_converts _ StoredBootstrapCredit_pb (fun s => mkBootstrapCredit (sb_OperatorId s)
    (sb_Credits s) (sb_Redeemed s))); [by destruct (Unmarshal _ b)|done|by_number Emissions_StoredBootstrapCredit_pb StoredBootstrapCredit_pb].
Qed.
Lemma gate_stored :
  stored_form Emissions_StoredAsymmetricGate_pb StoredAsymmetricGate_pb
    AsymmetricGateToStored StoredToAsymmetricGate.
Proof.
  split; [done|by intros []|done|]. intros b.
  rewrite <- (unmarshal_converts _ StoredAsymmetricGate_pb (fun s => mkAsymmetricGate (sg_OperatorId s)
    (sg_OrgId s) (sg_StoragePassed s) (sg_RetrievalAllowed s) (sg_Epoch s)));
    [by destruct (Unmarshal _ b)|done|by_number Emissions_StoredAsymmetricGate_pb StoredAsymmetricGate_pb].
Qed.
Opaque Emissions_StoredEmissionPool_pb Emissions_StoredDailyEmission_pb
  Emissions_StoredBootstrapCredit_pb Emissions_StoredAsymmetricGate_pb.
