(* ===== verification/PbWire.v ===== *)
(** * Two readings of the generated decoders

    The scans of x/memory, x/serve and x/reputation that decode one record type
    as another are modelled on whole messages (Wire.v): a decoder checks the wire
    types of all fields and takes the last value of each.  The generated code
    reads field by field (Pb.v).  Both give the same answer for every message,
    also for those no record writes, and both writers write the same fields. *)

From S2P Require Import Prelude Bytes Store Ifaces Wire Proto Pb PbState.
From S2P Require Memory Serve ServeGenesis Reputation ReputationLists.
Local Open Scope N_scope.

Lemma occurrences_snoc f m n w :
  occurrences f (m ++ [(n, w)]) = if n =? f then (occurrences f m ++ [w])%list else occurrences f m.
Proof.
  rewrite occurrences_app. unfold occurrences at 2. cbn. destruct (n =? f); [done|]. apply app_nil_r.
Qed.
Lemma r_uint_snoc f m n w :
  r_uint f (m ++ [(n, w)]) =
  if n =? f then match w with WVarint x => x | _ => 0 end else r_uint f m.
Proof. unfold r_uint. rewrite occurrences_snoc. destruct (n =? f); [by rewrite last_snoc|done]. Qed.
Lemma r_bytes_snoc f m n w :
  r_bytes f (m ++ [(n, w)]) =
  if n =? f then match w with WBytes x => x | _ => "" end else r_bytes f m.
Proof. unfold r_bytes. rewrite occurrences_snoc. destruct (n =? f); [by rewrite last_snoc|done]. Qed.
Lemma r_strings_snoc f m n w :
  r_strings f (m ++ [(n, w)]) =
  if n =? f then (r_strings f m ++ match w with WBytes x => [x] | _ => [] end)%list else r_strings f m.
Proof.
  unfold r_strings. rewrite occurrences_snoc. destruct (n =? f); [|done]. rewrite omap_app. by destruct w.
Qed.

(** A message type all of whose fields leave the bytes behind them alone is read
    from its list of fields. *)
Definition plain {R} (f : pb_field R) : Prop :=
  forall r w rest, f_in f r w rest = r' ← fst <$> f_in f r w ""; Some (r', rest).

Fixpoint update_all {R} (c : pb_message R) (r : R) (m : message) : option R :=
  match m with
  | [] => Some r
  | (n, w) :: m' =>
      match find_num c n with
      | Some f => r' ← fst <$> f_in f r w ""; update_all c r' m'
      | None => update_all c r m'
      end
  end.

Lemma update_all_app {R} (c : pb_message R) r m m' :
  update_all c r (m ++ m') = (r' ← update_all c r m; update_all c r' m').
Proof.
  revert r. induction m as [|[n w] m IH]; intros r; [done|]. cbn. destruct (find_num c n); [|apply IH].
  destruct (f_in p r w ""); [|done]. cbn. apply IH.
Qed.

Lemma unmarshal_plain {R} (c : pb_message R) b :
  Forall plain (m_fields c) -> Unmarshal c b = parse_message b ≫= update_all c (m_empty c).
Proof.
  intros Hp. unfold Unmarshal, UnmarshalInto, parse_message. generalize (m_empty c).
  generalize (String.length b) as fuel. intros fuel. revert b.
  induction fuel as [|fuel IH]; intros [|a b] r; try done. cbn [unmarshal_into read_fields].
  destruct (read_field (String a b)) as [[[n w] rest]|]; [|done]. cbn [mbind option_bind].
  destruct (find_num c n) as [f|] eqn:Ef.
  - pose proof Ef as Hf%find_num_in. rewrite Forall_forall in Hp. rewrite (Hp f Hf).
    destruct (f_in f r w "") as [[r' t]|] eqn:Ei; cbn.
    + rewrite IH. destruct (read_fields fuel rest) as [m|]; [|done]. cbn. by rewrite Ef, Ei.
    + destruct (read_fields fuel rest) as [m|]; [|done]. cbn. by rewrite Ef, Ei.
  - rewrite IH. destruct (read_fields fuel rest) as [m|]; [|done]. cbn. by rewrite Ef.
Qed.

(** ** Writing *)
Lemma w_uint_o f n : w_uint f n = (pair f <$> o_uint n).
Proof. unfold w_uint, o_uint. by destruct (n =? 0). Qed.
Lemma w_bool_o f b : w_bool f b = (pair f <$> o_bool b).
Proof. by destruct b. Qed.
Lemma w_bytes_o f b : w_bytes f b = (pair f <$> o_bytes b).
Proof. unfold w_bytes, o_bytes. by case_bool_decide. Qed.
Lemma w_strings_o f l : w_strings f l = (pair f <$> (WBytes <$> l)).
Proof. unfold w_strings. by rewrite <- list_fmap_compose. Qed.

(** ** Reading, field number by field number *)
Ltac by_number n sch leaf :=
  lazymatch sch with
  | (?k, _) :: ?sch' =>
      destruct (N.eqb_spec n k) as [->|?];
      [ leaf
      | let H1 := fresh "Hne" in let H2 := fresh "Hne" in
        assert ((n =? k) = false) as H1 by (by apply N.eqb_neq);
        assert ((k =? n) = false) as H2 by (by apply N.eqb_neq);
        by_number n sch' leaf ]
  | _ => idtac
  end.

Ltac read_numbers :=
  rewrite ?r_uint_snoc, ?r_bytes_snoc, ?r_strings_snoc.

Ltac decoders_agree dec sch c :=
  let m := fresh "m" in let n := fresh "n" in let w := fresh "w" in let IH := fresh "IH" in
  intros m; induction m as [|[n w] m IH] using rev_ind; [reflexivity|];
  unfold dec, unmarshal in *; rewrite well_typed_app, update_all_app, <- IH; clear IH;
  destruct (well_typed sch m); [|done]; cbn [andb mbind option_bind];
  unfold r_uint32, r_bool; read_numbers;
  let s := eval cbv [sch] in sch in
  by_number n s ltac:(destruct w; reflexivity);
  unfold sch, c, update_all, find_num; cbn -[N.eqb];
  repeat match goal with H : (_ =? _) = false |- _ => rewrite H end; reflexivity.

#[local] Transparent Memory_StoredPendingCommitment_pb
  Memory_StoredMemoryCommitment_pb
  Memory_StoredEpochMerkleRoot_pb
  Memory_StoredMemoryReport_pb
  Memory_Params_pb
  Serve_StoredServeReceipt_pb
  Serve_StoredDenialReceipt_pb
  Serve_StoredContributorEpochServes_pb
  Reputation_StoredLeaderProfile_pb
  Reputation_StoredModeratorProfile_pb.

Ltac writers_agree w c :=
  intros; unfold w, marshal, c; rewrite ?w_uint_o, ?w_bool_o, ?w_bytes_o, ?w_strings_o;
  cbn [m_fields map fmap list_fmap concat fld f_num f_out put p_uint64 p_uint32 p_enum p_time p_bool p_bytes
       p_strings scalar];
  rewrite ?app_nil_r; reflexivity.

Lemma pending_agrees m :
  Memory.unmarshal_pending m = update_all Memory_StoredPendingCommitment_pb (m_empty Memory_StoredPendingCommitment_pb) m.
Proof.
  revert m. decoders_agree Memory.unmarshal_pending Memory.schema_pending Memory_StoredPendingCommitment_pb.
Qed.
Lemma pending_written r : Memory.marshal_pending r = marshal Memory_StoredPendingCommitment_pb r.
Proof. writers_agree Memory.marshal_pending Memory_StoredPendingCommitment_pb. Qed.
Lemma memory_agrees m :
  Memory.unmarshal_memory m = update_all Memory_StoredMemoryCommitment_pb (m_empty Memory_StoredMemoryCommitment_pb) m.
Proof.
  revert m. decoders_agree Memory.unmarshal_memory Memory.schema_memory Memory_StoredMemoryCommitment_pb.
Qed.
Lemma memory_written r : Memory.marshal_memory r = marshal Memory_StoredMemoryCommitment_pb r.
Proof. writers_agree Memory.marshal_memory Memory_StoredMemoryCommitment_pb. Qed.
Lemma merkle_agrees m :
  Memory.unmarshal_merkle m = update_all Memory_StoredEpochMerkleRoot_pb (m_empty Memory_StoredEpochMerkleRoot_pb) m.
Proof.
  revert m. decoders_agree Memory.unmarshal_merkle Memory.schema_merkle Memory_StoredEpochMerkleRoot_pb.
Qed.
Lemma merkle_written r : Memory.marshal_merkle r = marshal Memory_StoredEpochMerkleRoot_pb r.
Proof. writers_agree Memory.marshal_merkle Memory_StoredEpochMerkleRoot_pb. Qed.
Lemma report_agrees m :
  Memory.unmarshal_report m = update_all Memory_StoredMemoryReport_pb (m_empty Memory_StoredMemoryReport_pb) m.
Proof.
  revert m. decoders_agree Memory.unmarshal_report Memory.schema_report Memory_StoredMemoryReport_pb.
Qed.
Lemma report_written r : Memory.marshal_report r = marshal Memory_StoredMemoryReport_pb r.
Proof. writers_agree Memory.marshal_report Memory_StoredMemoryReport_pb. Qed.
Lemma params_agrees m :
  Memory.unmarshal_params m = update_all Memory_Params_pb (m_empty Memory_Params_pb) m.
Proof.
  revert m. decoders_agree Memory.unmarshal_params Memory.schema_params Memory_Params_pb.
Qed.
Lemma params_written r : Memory.marshal_params r = marshal Memory_Params_pb r.
Proof. writers_agree Memory.marshal_params Memory_Params_pb. Qed.
Lemma receipt_agrees m :
  Serve.unmarshal_receipt m = update_all Serve_StoredServeReceipt_pb (m_empty Serve_StoredServeReceipt_pb) m.
Proof.
  revert m. decoders_agree Serve.unmarshal_receipt Serve.schema_receipt Serve_StoredServeReceipt_pb.
Qed.
Lemma receipt_written r : ServeGenesis.marshal_receipt r = marshal Serve_StoredServeReceipt_pb r.
Proof. writers_agree ServeGenesis.marshal_receipt Serve_StoredServeReceipt_pb. Qed.
Lemma denial_agrees m :
  ServeGenesis.unmarshal_denial m = update_all Serve_StoredDenialReceipt_pb (m_empty Serve_StoredDenialReceipt_pb) m.
Proof.
  revert m. decoders_agree ServeGenesis.unmarshal_denial ServeGenesis.schema_denial Serve_StoredDenialReceipt_pb.
Qed.
Lemma denial_written r : ServeGenesis.marshal_denial r = marshal Serve_StoredDenialReceipt_pb r.
Proof. writers_agree ServeGenesis.marshal_denial Serve_StoredDenialReceipt_pb. Qed.
Lemma contributor_agrees m :
  ServeGenesis.unmarshal_contributor m = update_all Serve_StoredContributorEpochServes_pb (m_empty Serve_StoredContributorEpochServes_pb) m.
Proof.
  revert m. decoders_agree ServeGenesis.unmarshal_contributor ServeGenesis.schema_contributor Serve_StoredContributorEpochServes_pb.
Qed.
Lemma contributor_written r : ServeGenesis.marshal_contributor r = marshal Serve_StoredContributorEpochServes_pb r.
Proof. writers_agree ServeGenesis.marshal_contributor Serve_StoredContributorEpochServes_pb. Qed.
Lemma leader_agrees m :
  ReputationLists.unmarshal_leader m = update_all Reputation_StoredLeaderProfile_pb (m_empty Reputation_StoredLeaderProfile_pb) m.
Proof.
  revert m. decoders_agree ReputationLists.unmarshal_leader ReputationLists.schema_leader Reputation_StoredLeaderProfile_pb.
Qed.
Lemma leader_written r : ReputationLists.marshal_leader r = marshal Reputation_StoredLeaderProfile_pb r.
Proof. writers_agree ReputationLists.marshal_leader Reputation_StoredLeaderProfile_pb. Qed.
Lemma moderator_agrees m :
  ReputationLists.unmarshal_moderator m = update_all Reputation_StoredModeratorProfile_pb (m_empty Reputation_StoredModeratorProfile_pb) m.
Proof.
  revert m. decoders_agree ReputationLists.unmarshal_moderator ReputationLists.schema_moderator Reputation_StoredModeratorProfile_pb.
Qed.
Lemma moderator_written r : ReputationLists.marshal_moderator r = marshal Reputation_StoredModeratorProfile_pb r.
Proof. writers_agree ReputationLists.marshal_moderator Reputation_StoredModeratorProfile_pb. Qed.

(** The stored bytes are parsed and handed to the decoder. *)
Definition decode {R} (dec : message -> option R) (b : string) : option R := parse_message b ≫= dec.

Lemma decode_agrees {R} (dec : message -> option R) (c : pb_message R) :
  Forall plain (m_fields c) -> (forall m, dec m = update_all c (m_empty c) m) ->
  forall b, decode dec b = Unmarshal c b.
Proof.
  intros Hp H b. rewrite unmarshal_plain by done. unfold decode. destruct (parse_message b); [apply H|done].
Qed.

Ltac plain_fields :=
  repeat (apply Forall_cons; split); [..|apply Forall_nil; exact I]; intros ? [] ?; reflexivity.

(** The two readings of an [Unmarshal] method, on whole messages (wire types
    checked, last value of a field taken, unknown fields skipped) and field by
    field, agree on every byte string: they refuse the same ones and give the same
    record on the others.  So the scans of Memory.v, Serve.v and
    ReputationLists.v and the codecs of PbState.v speak of the same code. *)
Lemma readings_agree b :
  decode Memory.unmarshal_pending b = Unmarshal Memory_StoredPendingCommitment_pb b /\
  decode Memory.unmarshal_memory b = Unmarshal Memory_StoredMemoryCommitment_pb b /\
  decode Memory.unmarshal_merkle b = Unmarshal Memory_StoredEpochMerkleRoot_pb b /\
  decode Memory.unmarshal_report b = Unmarshal Memory_StoredMemoryReport_pb b /\
  decode Memory.unmarshal_params b = Unmarshal Memory_Params_pb b /\
  decode Serve.unmarshal_receipt b = Unmarshal Serve_StoredServeReceipt_pb b /\
  decode ServeGenesis.unmarshal_denial b = Unmarshal Serve_StoredDenialReceipt_pb b /\
  decode ServeGenesis.unmarshal_contributor b = Unmarshal Serve_StoredContributorEpochServes_pb b /\
  decode ReputationLists.unmarshal_leader b = Unmarshal Reputation_StoredLeaderProfile_pb b /\
  decode ReputationLists.unmarshal_moderator b = Unmarshal Reputation_StoredModeratorProfile_pb b.
Proof.
  split_and!; (apply decode_agrees; [plain_fields|intros]);
  [apply pending_agrees|apply memory_agrees|apply merkle_agrees|apply report_agrees|apply params_agrees
  |apply receipt_agrees|apply denial_agrees|apply contributor_agrees|apply leader_agrees|apply moderator_agrees].
Qed.
