(* ===== verification/App.v ===== *)
(** * The application (app/app.go)

    The eight modules wired together.  The state of the application has one
    KV store per module, the SDK's bank and feegrant state and the events; a
    module's handler runs on its own store with the whole application as its
    peers.  The expected-keeper interfaces of the modules are instantiated by
    the operations of the modules behind them, the way [NewWeVibeApp] passes
    the keepers to each other; no keeper calls back into a module that is
    running, and the operations called through the interfaces emit no events.

    A transaction is a list of messages executed atomically; the ante handler
    (fees, account signatures) is the SDK's.  At the end of an epoch [x/epochs]
    calls the hooks of the emissions and of the memory keeper, in this order,
    and ignores their errors. *)

From S2P Require Import Prelude Bytes Store Wire Ifaces.
From S2P Require Org Emissions Identity Bandwidth Attestation Memory Serve Reputation.
Local Open Scope string_scope.
Local Open Scope N_scope.

Section App.
Context {B F : Type}.

Record App := mkApp {
  a_org : gmap string Org.org_val;
  a_bandwidth : gmap string Bandwidth.bw_val;
  a_identity : gmap string Identity.id_val;
  a_reputation : gmap string Reputation.rep_val;
  a_memory : gmap string Memory.mem_val;
  a_serve : gmap string Serve.serve_val;
  a_emissions : gmap string Emissions.emi_val;
  a_attestation : gmap string Attestation.att_val;
  a_bank : B;
  a_feegrant : F;
  a_evs : list Event;
}.

#[export] Instance App_fields : Fields App :=
  fun a => mkApp (a_org a) (a_bandwidth a) (a_identity a) (a_reputation a) (a_memory a)
             (a_serve a) (a_emissions a) (a_attestation a) (a_bank a) (a_feegrant a) (a_evs a).

Definition set_org v a : App := a <| a_org := v |>.
Definition set_bandwidth v a : App := a <| a_bandwidth := v |>.
Definition set_identity v a : App := a <| a_identity := v |>.
Definition set_reputation v a : App := a <| a_reputation := v |>.
Definition set_memory v a : App := a <| a_memory := v |>.
Definition set_serve v a : App := a <| a_serve := v |>.
Definition set_emissions v a : App := a <| a_emissions := v |>.
Definition set_attestation v a : App := a <| a_attestation := v |>.
Definition set_bank v a : App := a <| a_bank := v |>.
Definition set_evs v a : App := a <| a_evs := v |>.

(** A module's handler on the application: its own store is taken out, the
    application is its peers, and the store is put back. *)
Definition in_store {V A} (get : App -> gmap string V) (put : gmap string V -> App -> App)
    (m : M (St V App) A) : M App A :=
  fun a => match m (mkSt (get a) a (a_evs a)) with
           | (r, s) => (r, set_evs (evs s) (put (kv s) (peers s)))
           end.

(** The org keeper's peers are the bank and the feegrant keeper only. *)
Definition in_org {A} (m : M (St Org.org_val (B * F)) A) : M App A :=
  fun a => match m (mkSt (a_org a) (a_bank a, a_feegrant a) (a_evs a)) with
           | (r, s) => (r, a <| a_org := kv s |> <| a_bank := (peers s).1 |>
                             <| a_feegrant := (peers s).2 |> <| a_evs := evs s |>)
           end.

(** The reputation keeper calls nobody when it changes its state. *)
Definition in_reputation {A} (m : M (St Reputation.rep_val unit) A) : M App A :=
  fun a => match m (mkSt (a_reputation a) tt (a_evs a)) with
           | (r, s) => (r, a <| a_reputation := kv s |> <| a_evs := evs s |>)
           end.

Definition in_bandwidth {A} : M (St Bandwidth.bw_val App) A -> M App A :=
  in_store a_bandwidth set_bandwidth.
Definition in_identity {A} : M (St Identity.id_val App) A -> M App A :=
  in_store a_identity set_identity.
Definition in_memory {A} : M (St Memory.mem_val App) A -> M App A :=
  in_store a_memory set_memory.
Definition in_serve {A} : M (St Serve.serve_val App) A -> M App A :=
  in_store a_serve set_serve.
Definition in_emissions {A} : M (St Emissions.emi_val App) A -> M App A :=
  in_store a_emissions set_emissions.
Definition in_attestation {A} : M (St Attestation.att_val App) A -> M App A :=
  in_store a_attestation set_attestation.

(** [ctx.KVStore(key).Set(genesisInitMarkerKey, genesisInitMarkerValue)]. *)
Definition mark {V} (get : App -> gmap string V) (put : gmap string V -> App -> App)
    (raw : string -> V) (a : App) : App :=
  put (<[genesisInitMarkerKey := raw genesisInitMarkerValue]> (get a)) a.
End App.
Arguments App : clear implicits.

(** ** The wiring: who stands behind each expected keeper *)
Section Wiring.
Context {B F : Type} {ADDR : Addresses} {BANK : BankKeeper B} {FEEGRANT : FeegrantKeeper F}
  {URL : UrlParser} {CRYPTO : Crypto} {JSON : Memory.JsonTags}.
Notation app := (App B F).

#[export] Instance bandwidth_org : Bandwidth.OrgKeeper app := {|
  Bandwidth.HasOrg a id := Ok (Org.HasOrg (a_org a) id);
  Bandwidth.IsLeader a id pk := Org.IsLeader (a_org a) id pk;
|}.

#[export] Instance memory_org : Memory.OrgKeeper app := {|
  Memory.HasOrg a id := Ok (Org.HasOrg (a_org a) id);
  Memory.IsLeader a id pk := Org.IsLeader (a_org a) id pk;
  Memory.GetMember a id pk := x ← Org.GetMember (a_org a) id pk; mret (Some x);
  Memory.GetLeaderWallet a id := Org.GetLeaderWallet (a_org a) id;
  Memory.IncrementOrgCommittedMemories id := in_org (Org.IncrementOrgCommittedMemories id);
  Memory.IncrementOrgUpheldReports id := in_org (Org.IncrementOrgUpheldReports id);
  Memory.SetOrgLastActivityEpoch id e := in_org (Org.SetOrgLastActivityEpoch id e);
|}.

#[export] Instance memory_reputation : Memory.ReputationKeeper app := {|
  Memory.IncrementContribution c id cid := in_reputation (Reputation.IncrementContribution c id cid);
  Memory.IncrementModeratorUpheld pk id := in_reputation (Reputation.IncrementModeratorUpheld pk id);
  Memory.IncrementLeaderChainCommit pk id :=
    in_reputation (Reputation.IncrementLeaderChainCommit pk id);
  Memory.IncrementLeaderUpheldReport pk id :=
    in_reputation (Reputation.IncrementLeaderUpheldReport pk id);
|}.

#[export] Instance serve_org : Serve.OrgKeeper app := {|
  Serve.HasOrg a id := Ok (Org.HasOrg (a_org a) id);
  Serve.GetServingAddress a id := Org.GetServingAddress (a_org a) id;
|}.

#[export] Instance serve_memory : Serve.MemoryKeeper app := {|
  Serve.GetApprovedMemory a id h := x ← Memory.GetApprovedMemory (a_memory a) id h; mret (Some x);
  Serve.IsValidInEpoch a id cid e := Memory.IsValidInEpoch (a_memory a) id cid e;
|}.

#[export] Instance serve_bandwidth : Serve.BandwidthKeeper app := {|
  Serve.ConsumeServeBandwidth id e n := in_bandwidth (Bandwidth.ConsumeServeBandwidth id e n);
|}.

#[export] Instance serve_reputation : Serve.ReputationKeeper app := {|
  Serve.RecordServe c id e self := in_reputation (Reputation.RecordServe c id e self);
|}.

#[export] Instance emissions_memory : Emissions.MemoryKeeper app := {|
  Emissions.GetContributorsWithApprovalsInEpoch a e :=
    Ok (Memory.GetContributorsWithApprovalsInEpoch (a_memory a) e);
|}.

#[export] Instance emissions_identity : Emissions.IdentityKeeper app := {|
  Emissions.ResolveIdentity a pk := Identity.ResolveIdentity (a_identity a) pk;
|}.

#[export] Instance app_bank : BankKeeper app := lens_bank a_bank set_bank.

(** All keepers share the governance authority; the feegrant keeper is always
    configured. *)
Definition govAuthority : string := AccAddress_String (NewModuleAddress "gov").
Definition org_keeper := Org.mkKeeper govAuthority true.
Definition bandwidth_keeper := Bandwidth.mkKeeper govAuthority.
Definition reputation_keeper := Reputation.mkKeeper govAuthority.
Definition memory_keeper := Memory.mkKeeper govAuthority.
Definition serve_keeper := Serve.mkKeeper govAuthority.
Definition emissions_keeper := Emissions.mkKeeper govAuthority.

(** ** The messages of the registered Msg services *)
Inductive app_msg :=
  | OrgMsg (m : Org.msg)
  | SubmitCommitment (m : Memory.MsgSubmitCommitment)
  | ApproveMemory (m : Memory.MsgApproveMemory)
  | ReportMemory (m : Memory.MsgReportMemory)
  | UpdateMemoryParams (m : Memory.MsgUpdateParams)
  | ServeMsg (m : Serve.serve_msg)
  | MintDailyEmission (m : Emissions.MsgMintDailyEmission)
  | UpdateEmissionsParams (m : Emissions.MsgUpdateParams)
  | ClaimContributorReward (m : Emissions.MsgClaimContributorReward)
  | SetBandwidthOverride (m : Bandwidth.MsgSetBandwidthOverride)
  | UpdateBandwidthParams (m : Bandwidth.MsgUpdateParams)
  | MigrateIdentity (m : Identity.MsgMigrateIdentity)
  | UpdateReputation (m : Reputation.MsgUpdateReputation)
  | UpdateReputationParams (m : Reputation.MsgUpdateParams)
  | IncrementContribution (m : Reputation.MsgIncrementContribution)
  | IncrementServe (m : Reputation.MsgIncrementServe)
  | RecordBan (m : Reputation.MsgRecordBan)
  | SubmitSessionAttestation (m : Attestation.MsgSubmitSessionAttestation)
  | UpdateAttestationParams (m : Attestation.MsgUpdateParams).

Definition reputation_call (m : app_msg) : option Reputation.rep_call :=
  match m with
  | UpdateReputation m => Some (Reputation.UpdateReputationMsg m)
  | UpdateReputationParams m => Some (Reputation.UpdateParamsMsg m)
  | IncrementContribution m => Some (Reputation.IncrementContributionMsg m)
  | IncrementServe m => Some (Reputation.IncrementServeMsg m)
  | RecordBan m => Some (Reputation.RecordBanMsg m)
  | _ => None
  end.

Definition memory_call (m : app_msg) : option Memory.mem_msg :=
  match m with
  | SubmitCommitment m => Some (Memory.SubmitCommitmentMsg m)
  | ApproveMemory m => Some (Memory.ApproveMemoryMsg m)
  | ReportMemory m => Some (Memory.ReportMemoryMsg m)
  | UpdateMemoryParams m => Some (Memory.UpdateParamsMsg m)
  | _ => None
  end.

(** The service router. *)
Definition route (ctx : BlockCtx) (m : app_msg) : M app unit :=
  match memory_call m, reputation_call m with
  | Some c, _ => in_memory (Memory.handle memory_keeper ctx c)
  | _, Some c => in_reputation (Reputation.handle reputation_keeper c)
  | None, None =>
      match m with
      | OrgMsg m => in_org (Org.handle org_keeper ctx m)
      | ServeMsg m => in_serve (Serve.handle serve_keeper ctx m)
      | MintDailyEmission m =>
          in_emissions (Emissions.MsgServer_MintDailyEmission emissions_keeper m) ;; mret tt
      | UpdateEmissionsParams m =>
          in_emissions (Emissions.MsgServer_UpdateParams emissions_keeper m)
      | ClaimContributorReward m =>
          in_emissions (Emissions.MsgServer_ClaimContributorReward m) ;; mret tt
      | SetBandwidthOverride m => in_bandwidth (Bandwidth.MsgServer_SetBandwidthOverride m)
      | UpdateBandwidthParams m =>
          in_bandwidth (Bandwidth.MsgServer_UpdateParams bandwidth_keeper m)
      | MigrateIdentity m => in_identity (Identity.MigrateIdentity ctx m)
      | SubmitSessionAttestation m =>
          in_attestation (Attestation.MsgServer_SubmitSessionAttestation m)
      | UpdateAttestationParams m =>
          in_attestation (Attestation.MsgServer_UpdateParams govAuthority m)
      | _ => mret tt
      end
  end.

(** ** Epoch ends: [NewMultiEpochHooks(EmissionsKeeper, MemoryKeeper)] *)
Definition AfterEpochEnd (identifier : string) (n : Z) : M app unit :=
  attempt (in_emissions (Emissions.AfterEpochEnd identifier n)) ;;
  attempt (in_memory (Memory.AfterEpochEnd identifier n)) ;;
  mret tt.

(** ** Genesis

    The module manager calls the [InitGenesis] of the modules that implement
    its genesis interface, for the genesis entries present.  The methods of the
    memory, bandwidth and attestation modules have another signature, so their
    stores start empty. *)
Record Genesis := mkGenesis {
  gs_org : option Org.GenesisState;
  gs_serve : option Serve.GenesisState;
  gs_emissions : option Emissions.GenesisState;
  gs_identity : option Identity.GenesisState;
  gs_reputation : option Reputation.GenesisState;
}.

Definition DefaultGenesis : Genesis := {|
  gs_org := Some Org.DefaultGenesis;
  gs_serve := Some (Serve.mkGenesisState [] [] [] [] [] []);
  gs_emissions := Some Emissions.DefaultGenesis;
  gs_identity := Some Identity.DefaultGenesis;
  gs_reputation := Some Reputation.DefaultGenesis;
|}.

Definition when_some {A} (o : option A) (f : A -> M app unit) : M app unit :=
  match o with None => mret tt | Some x => f x end.

Definition panics {S A} (m : M S A) : M S A := map_err (fun _ => Panic "init genesis") m.

(** The marker in every store. *)
Definition write_markers : M app unit := fun a =>
  (Ok tt,
   mark a_org set_org Org.VRaw (mark a_bandwidth set_bandwidth Bandwidth.VRaw
     (mark a_identity set_identity Identity.VRaw (mark a_reputation set_reputation Reputation.VRaw
       (mark a_memory set_memory Memory.VRaw (mark a_serve set_serve Serve.VRaw
         (mark a_emissions set_emissions Emissions.VRaw
           (mark a_attestation set_attestation Attestation.VRaw a)))))))).

Definition InitChainer (g : Genesis) : M app unit :=
  when_some (gs_org g) (fun state => panics
    (lift (Org.GenesisState_Validate state) ;; in_org (Org.InitGenesis state))) ;;
  when_some (gs_serve g) (fun state => panics (in_serve (Serve.InitGenesis state))) ;;
  when_some (gs_emissions g) (fun state => panics
    (in_emissions (Emissions.Module_InitGenesis (Some state)))) ;;
  when_some (gs_identity g) (fun state => panics
    (in_identity (Identity.InitGenesisState (Some state)))) ;;
  when_some (gs_reputation g) (fun state => panics
    (in_reputation (Reputation.Module_InitGenesis (Some state)))) ;;
  write_markers.

(** The stores before [InitChain]. *)
Definition empty_app (bank : B) (grants : F) : app := mkApp ∅ ∅ ∅ ∅ ∅ ∅ ∅ ∅ bank grants [].

Definition new_app (bank : B) (grants : F) : app := (InitChainer DefaultGenesis (empty_app bank grants)).2.

(** ** Runs *)
Inductive block_step :=
  | Tx (ctx : BlockCtx) (msgs : list app_msg)
  | EpochEnd (identifier : string) (number : Z).

Definition exec (x : block_step) : M app unit :=
  match x with
  | Tx ctx msgs => deliver (for_each msgs (route ctx))
  | EpochEnd i n => AfterEpochEnd i n
  end.

Definition run_app (l : list block_step) (a : app) : app := foldl (fun a x => (exec x a).2) a l.
End Wiring.
