(* ===== verification/PbTx.v ===== *)
(** * Messages as bytes

    The message types of the transactions (types/tx.pb.go of the eight modules)
    with their laws, and the registration of the messages and of their handlers
    under their type URLs (types/codec.go, the service descriptions of tx.pb.go).
    The decoding of a transaction around them is the SDK's. *)

From S2P Require Import Prelude Bytes Store Ifaces Wire Proto Pb PbState.
From S2P Require Org Serve Emissions Identity Reputation Memory Bandwidth Attestation.
From S2P Require Import App.
Local Open Scope N_scope.

(** ** x/org *)
#[export] Instance Org_MsgRegisterOrg_fields : Fields Org.MsgRegisterOrg := fun r =>
    Org.mkMsgRegisterOrg (Org.mr_Signer r) (Org.mr_Leader r) (Org.mr_StorageQuota r)
    (Org.mr_RetrievalBudget r) (Org.mr_Domain r) (Org.mr_HubServingKey r) (Org.mr_LeaderWallet r)
    (Org.mr_Description r) (Org.mr_TechStack r) (Org.mr_FocusAreas r) (Org.mr_Name r).
Definition Org_MsgRegisterOrg_pb : pb_message Org.MsgRegisterOrg :=
  mkMessage (Org.mkMsgRegisterOrg (pb_zero p_bytes) (pb_zero p_bytes) (pb_zero p_uint64) (pb_zero
    p_uint64) (pb_zero p_bytes) (pb_zero p_bytes) (pb_zero p_bytes) (pb_zero p_bytes) (pb_zero
    p_bytes) (pb_zero p_bytes) (pb_zero p_bytes)) [
   fld 1 p_bytes Org.mr_Signer;
   fld 3 p_bytes Org.mr_Leader;
   fld 4 p_uint64 Org.mr_StorageQuota;
   fld 5 p_uint64 Org.mr_RetrievalBudget;
   fld 6 p_bytes Org.mr_Domain;
   fld 7 p_bytes Org.mr_HubServingKey;
   fld 8 p_bytes Org.mr_LeaderWallet;
   fld 9 p_bytes Org.mr_Description;
   fld 10 p_bytes Org.mr_TechStack;
   fld 11 p_bytes Org.mr_FocusAreas;
   fld 12 p_bytes Org.mr_Name].
#[export] Instance Org_MsgRegisterOrg_pb_law : MessageLaw Org_MsgRegisterOrg_pb.
Proof. message_law. Qed.
#[global] Opaque Org_MsgRegisterOrg_pb.
#[export] Instance Org_MsgSetServingKey_fields : Fields Org.MsgSetServingKey := fun r =>
    Org.mkMsgSetServingKey (Org.mk_Signer r) (Org.mk_OrgId r) (Org.mk_NewServingKey r).
Definition Org_MsgSetServingKey_pb : pb_message Org.MsgSetServingKey :=
  mkMessage (Org.mkMsgSetServingKey (pb_zero p_bytes) (pb_zero p_bytes) (pb_zero p_bytes)) [
   fld 1 p_bytes Org.mk_Signer;
   fld 2 p_bytes Org.mk_OrgId;
   fld 3 p_bytes Org.mk_NewServingKey].
#[export] Instance Org_MsgSetServingKey_pb_law : MessageLaw Org_MsgSetServingKey_pb.
Proof. message_law. Qed.
#[global] Opaque Org_MsgSetServingKey_pb.
#[export] Instance Org_MsgSetServingInfo_fields : Fields Org.MsgSetServingInfo := fun r =>
    Org.mkMsgSetServingInfo (Org.mi_Signer r) (Org.mi_OrgId r) (Org.mi_HubEndpoints r)
    (Org.mi_HubResponsePubkey r).
Definition Org_MsgSetServingInfo_pb : pb_message Org.MsgSetServingInfo :=
  mkMessage (Org.mkMsgSetServingInfo (pb_zero p_bytes) (pb_zero p_bytes) (pb_zero p_strings)
    (pb_zero p_bytes)) [
   fld 1 p_bytes Org.mi_Signer;
   fld 2 p_bytes Org.mi_OrgId;
   fld 3 p_strings Org.mi_HubEndpoints;
   fld 4 p_bytes Org.mi_HubResponsePubkey].
#[export] Instance Org_MsgSetServingInfo_pb_law : MessageLaw Org_MsgSetServingInfo_pb.
Proof. message_law. Qed.
#[global] Opaque Org_MsgSetServingInfo_pb.
#[export] Instance Org_MsgAddMember_fields : Fields Org.MsgAddMember := fun r => Org.mkMsgAddMember
    (Org.ma_Signer r) (Org.ma_OrgId r) (Org.ma_Pubkey r) (Org.ma_Role r) (Org.ma_X25519Pubkey r)
    (Org.ma_CanContribute r) (Org.ma_CanModerate r).
Definition Org_MsgAddMember_pb : pb_message Org.MsgAddMember :=
  mkMessage (Org.mkMsgAddMember (pb_zero p_bytes) (pb_zero p_bytes) (pb_zero p_bytes) (pb_zero
    p_bytes) (pb_zero p_bytes) (pb_zero p_bool) (pb_zero p_bool)) [
   fld 1 p_bytes Org.ma_Signer;
   fld 2 p_bytes Org.ma_OrgId;
   fld 3 p_bytes Org.ma_Pubkey;
   fld 4 p_bytes Org.ma_Role;
   fld 5 p_bytes Org.ma_X25519Pubkey;
   fld 6 p_bool Org.ma_CanContribute;
   fld 7 p_bool Org.ma_CanModerate].
#[export] Instance Org_MsgAddMember_pb_law : MessageLaw Org_MsgAddMember_pb.
Proof. message_law. Qed.
#[global] Opaque Org_MsgAddMember_pb.
#[export] Instance Org_MsgRemoveMember_fields : Fields Org.MsgRemoveMember := fun r =>
    Org.mkMsgRemoveMember (Org.md_Signer r) (Org.md_OrgId r) (Org.md_Pubkey r).
Definition Org_MsgRemoveMember_pb : pb_message Org.MsgRemoveMember :=
  mkMessage (Org.mkMsgRemoveMember (pb_zero p_bytes) (pb_zero p_bytes) (pb_zero p_bytes)) [
   fld 1 p_bytes Org.md_Signer;
   fld 2 p_bytes Org.md_OrgId;
   fld 3 p_bytes Org.md_Pubkey].
#[export] Instance Org_MsgRemoveMember_pb_law : MessageLaw Org_MsgRemoveMember_pb.
Proof. message_law. Qed.
#[global] Opaque Org_MsgRemoveMember_pb.
#[export] Instance Org_MsgUpdateParams_fields : Fields Org.MsgUpdateParams := fun r =>
    Org.mkMsgUpdateParams (Org.mu_Authority r) (Org.mu_Params r).
Definition Org_MsgUpdateParams_pb : pb_message Org.MsgUpdateParams :=
  mkMessage (Org.mkMsgUpdateParams (pb_zero p_bytes) (pb_zero (p_message Org_Params_pb))) [
   fld 1 p_bytes Org.mu_Authority;
   fld 2 (p_message Org_Params_pb) Org.mu_Params].
#[export] Instance Org_MsgUpdateParams_pb_law : MessageLaw Org_MsgUpdateParams_pb.
Proof. message_law. Qed.
#[global] Opaque Org_MsgUpdateParams_pb.
#[export] Instance Org_MsgSetOrgConfig_fields : Fields Org.MsgSetOrgConfig := fun r =>
    Org.mkMsgSetOrgConfig (Org.mc_Signer r) (Org.mc_OrgId r) (Org.mc_ServeReceiptRequired r)
    (Org.mc_MinContributionsPerEpoch r) (Org.mc_ContestStakeVibe r) (Org.mc_VocabHash r)
    (Org.mc_EmbeddingModelId r).
Definition Org_MsgSetOrgConfig_pb : pb_message Org.MsgSetOrgConfig :=
  mkMessage (Org.mkMsgSetOrgConfig (pb_zero p_bytes) (pb_zero p_bytes) (pb_zero p_bool) (pb_zero
    p_uint64) (pb_zero p_uint64) (pb_zero p_bytes) (pb_zero p_bytes)) [
   fld 1 p_bytes Org.mc_Signer;
   fld 2 p_bytes Org.mc_OrgId;
   fld 3 p_bool Org.mc_ServeReceiptRequired;
   fld 4 p_uint64 Org.mc_MinContributionsPerEpoch;
   fld 5 p_uint64 Org.mc_ContestStakeVibe;
   fld 6 p_bytes Org.mc_VocabHash;
   fld 7 p_bytes Org.mc_EmbeddingModelId].
#[export] Instance Org_MsgSetOrgConfig_pb_law : MessageLaw Org_MsgSetOrgConfig_pb.
Proof. message_law. Qed.
#[global] Opaque Org_MsgSetOrgConfig_pb.
#[export] Instance Org_MsgGrantTrialAllowance_fields : Fields Org.MsgGrantTrialAllowance := fun r =>
    Org.mkMsgGrantTrialAllowance (Org.mg_Signer r) (Org.mg_OrgId r) (Org.mg_Grantee r)
    (Org.mg_DailySubmissions r) (Org.mg_TrialDays r).
Definition Org_MsgGrantTrialAllowance_pb : pb_message Org.MsgGrantTrialAllowance :=
  mkMessage (Org.mkMsgGrantTrialAllowance (pb_zero p_bytes) (pb_zero p_bytes) (pb_zero p_bytes)
    (pb_zero p_uint64) (pb_zero p_uint64)) [
   fld 1 p_bytes Org.mg_Signer;
   fld 2 p_bytes Org.mg_OrgId;
   fld 3 p_bytes Org.mg_Grantee;
   fld 4 p_uint64 Org.mg_DailySubmissions;
   fld 5 p_uint64 Org.mg_TrialDays].
#[export] Instance Org_MsgGrantTrialAllowance_pb_law : MessageLaw Org_MsgGrantTrialAllowance_pb.
Proof. message_law. Qed.
#[global] Opaque Org_MsgGrantTrialAllowance_pb.
#[export] Instance Org_MsgSetMemberCapabilities_fields : Fields Org.MsgSetMemberCapabilities := fun
    r => Org.mkMsgSetMemberCapabilities (Org.ms_Signer r) (Org.ms_OrgId r) (Org.ms_Pubkey r)
    (Org.ms_CanContribute r) (Org.ms_CanModerate r).
Definition Org_MsgSetMemberCapabilities_pb : pb_message Org.MsgSetMemberCapabilities :=
  mkMessage (Org.mkMsgSetMemberCapabilities (pb_zero p_bytes) (pb_zero p_bytes) (pb_zero p_bytes)
    (pb_zero p_bool) (pb_zero p_bool)) [
   fld 1 p_bytes Org.ms_Signer;
   fld 2 p_bytes Org.ms_OrgId;
   fld 3 p_bytes Org.ms_Pubkey;
   fld 4 p_bool Org.ms_CanContribute;
   fld 5 p_bool Org.ms_CanModerate].
#[export] Instance Org_MsgSetMemberCapabilities_pb_law : MessageLaw Org_MsgSetMemberCapabilities_pb.
Proof. message_law. Qed.
#[global] Opaque Org_MsgSetMemberCapabilities_pb.
#[export] Instance Org_MsgTransferLeadership_fields : Fields Org.MsgTransferLeadership := fun r =>
    Org.mkMsgTransferLeadership (Org.mt_Signer r) (Org.mt_OrgId r) (Org.mt_NewLeader r)
    (Org.mt_NewLeaderWallet r).
Definition Org_MsgTransferLeadership_pb : pb_message Org.MsgTransferLeadership :=
  mkMessage (Org.mkMsgTransferLeadership (pb_zero p_bytes) (pb_zero p_bytes) (pb_zero p_bytes)
    (pb_zero p_bytes)) [
   fld 1 p_bytes Org.mt_Signer;
   fld 2 p_bytes Org.mt_OrgId;
   fld 3 p_bytes Org.mt_NewLeader;
   fld 4 p_bytes Org.mt_NewLeaderWallet].
#[export] Instance Org_MsgTransferLeadership_pb_law : MessageLaw Org_MsgTransferLeadership_pb.
Proof. message_law. Qed.
#[global] Opaque Org_MsgTransferLeadership_pb.
#[export] Instance Org_MsgCloseOrg_fields : Fields Org.MsgCloseOrg := fun r => Org.mkMsgCloseOrg
    (Org.mx_Signer r) (Org.mx_OrgId r).
Definition Org_MsgCloseOrg_pb : pb_message Org.MsgCloseOrg :=
  mkMessage (Org.mkMsgCloseOrg (pb_zero p_bytes) (pb_zero p_bytes)) [
   fld 1 p_bytes Org.mx_Signer;
   fld 2 p_bytes Org.mx_OrgId].
#[export] Instance Org_MsgCloseOrg_pb_law : MessageLaw Org_MsgCloseOrg_pb.
Proof. message_law. Qed.
#[global] Opaque Org_MsgCloseOrg_pb.
(** ** x/memory *)
#[export] Instance Memory_MsgSubmitCommitment_fields : Fields Memory.MsgSubmitCommitment := fun r =>
    Memory.mkMsgSubmitCommitment (Memory.ms_Signer r) (Memory.ms_OrgId r) (Memory.ms_ContentHash r)
    (Memory.ms_ContributorId r) (Memory.ms_ContributorWallet r) (Memory.ms_MemoryType r)
    (Memory.ms_Keywords r) (Memory.ms_ProducerModelId r) (Memory.ms_AttestationSessionHash r)
    (Memory.ms_McVersion r).
Definition Memory_MsgSubmitCommitment_pb : pb_message Memory.MsgSubmitCommitment :=
  mkMessage (Memory.mkMsgSubmitCommitment (pb_zero p_bytes) (pb_zero p_bytes) (pb_zero p_bytes)
    (pb_zero p_bytes) (pb_zero p_bytes) (pb_zero p_enum) (pb_zero p_strings) (pb_zero p_bytes)
    (pb_zero p_bytes) (pb_zero p_uint32)) [
   fld 1 p_bytes Memory.ms_Signer;
   fld 2 p_bytes Memory.ms_OrgId;
   fld 3 p_bytes Memory.ms_ContentHash;
   fld 5 p_bytes Memory.ms_ContributorId;
   fld 6 p_bytes Memory.ms_ContributorWallet;
   fld 7 p_enum Memory.ms_MemoryType;
   fld 8 p_strings Memory.ms_Keywords;
   fld 10 p_uint32 Memory.ms_McVersion;
   fld 16 p_bytes Memory.ms_ProducerModelId;
   fld 17 p_bytes Memory.ms_AttestationSessionHash].
#[export] Instance Memory_MsgSubmitCommitment_pb_law : MessageLaw Memory_MsgSubmitCommitment_pb.
Proof. message_law. Qed.
#[global] Opaque Memory_MsgSubmitCommitment_pb.
#[export] Instance Memory_MsgApproveMemory_fields : Fields Memory.MsgApproveMemory := fun r =>
    Memory.mkMsgApproveMemory (Memory.ma_Signer r) (Memory.ma_OrgId r) (Memory.ma_ContentHash r)
    (Memory.ma_EncryptedBlob r) (Memory.ma_CommittingLeader r) (Memory.ma_WrappedDekEnc r)
    (Memory.ma_MemoryType r) (Memory.ma_PlaintextHash r) (Memory.ma_Salt r)
    (Memory.ma_CiphertextHash r) (Memory.ma_ContributorSig r) (Memory.ma_McVersion r).
Definition Memory_MsgApproveMemory_pb : pb_message Memory.MsgApproveMemory :=
  mkMessage (Memory.mkMsgApproveMemory (pb_zero p_bytes) (pb_zero p_bytes) (pb_zero p_bytes)
    (pb_zero p_bytes) (pb_zero p_bytes) (pb_zero p_bytes) (pb_zero p_enum) (pb_zero p_bytes)
    (pb_zero p_bytes) (pb_zero p_bytes) (pb_zero p_bytes) (pb_zero p_uint32)) [
   fld 1 p_bytes Memory.ma_Signer;
   fld 2 p_bytes Memory.ma_OrgId;
   fld 3 p_bytes Memory.ma_ContentHash;
   fld 4 p_bytes Memory.ma_EncryptedBlob;
   fld 6 p_bytes Memory.ma_CommittingLeader;
   fld 7 p_bytes Memory.ma_WrappedDekEnc;
   fld 8 p_enum Memory.ma_MemoryType;
   fld 9 p_bytes Memory.ma_PlaintextHash;
   fld 10 p_bytes Memory.ma_Salt;
   fld 11 p_bytes Memory.ma_CiphertextHash;
   fld 12 p_bytes Memory.ma_ContributorSig;
   fld 15 p_uint32 Memory.ma_McVersion].
#[export] Instance Memory_MsgApproveMemory_pb_law : MessageLaw Memory_MsgApproveMemory_pb.
Proof. message_law. Qed.
#[global] Opaque Memory_MsgApproveMemory_pb.
#[export] Instance Memory_MsgUpdateParams_fields : Fields Memory.MsgUpdateParams := fun r =>
    Memory.mkMsgUpdateParams (Memory.mu_Authority r) (Memory.mu_Params r).
Definition Memory_MsgUpdateParams_pb : pb_message Memory.MsgUpdateParams :=
  mkMessage (Memory.mkMsgUpdateParams (pb_zero p_bytes) (pb_zero (p_message Memory_Params_pb))) [
   fld 1 p_bytes Memory.mu_Authority;
   fld 2 (p_message Memory_Params_pb) Memory.mu_Params].
#[export] Instance Memory_MsgUpdateParams_pb_law : MessageLaw Memory_MsgUpdateParams_pb.
Proof. message_law. Qed.
#[global] Opaque Memory_MsgUpdateParams_pb.
#[export] Instance Memory_MsgReportMemory_fields : Fields Memory.MsgReportMemory := fun r =>
    Memory.mkMsgReportMemory (Memory.mp_Signer r) (Memory.mp_OrgId r) (Memory.mp_ContentHash r)
    (Memory.mp_ContributorPubkey r) (Memory.mp_ApprovingModerators r) (Memory.mp_UpholdingModerators
    r) (Memory.mp_ReporterPubkey r) (Memory.mp_Reason r) (Memory.mp_Plaintext r)
    (Memory.mp_Ciphertext r) (Memory.mp_Capsule r) (Memory.mp_PlaintextHash r)
    (Memory.mp_PlaintextOversized r).
Definition Memory_MsgReportMemory_pb : pb_message Memory.MsgReportMemory :=
  mkMessage (Memory.mkMsgReportMemory (pb_zero p_bytes) (pb_zero p_bytes) (pb_zero p_bytes) (pb_zero
    p_bytes) (pb_zero p_strings) (pb_zero p_strings) (pb_zero p_bytes) (pb_zero p_bytes) (pb_zero
    p_bytes) (pb_zero p_bytes) (pb_zero p_bytes) (pb_zero p_bytes) (pb_zero p_bool)) [
   fld 1 p_bytes Memory.mp_Signer;
   fld 2 p_bytes Memory.mp_OrgId;
   fld 3 p_bytes Memory.mp_ContentHash;
   fld 4 p_bytes Memory.mp_ContributorPubkey;
   fld 5 p_strings Memory.mp_ApprovingModerators;
   fld 6 p_strings Memory.mp_UpholdingModerators;
   fld 7 p_bytes Memory.mp_ReporterPubkey;
   fld 8 p_bytes Memory.mp_Reason;
   fld 9 p_bytes Memory.mp_Plaintext;
   fld 10 p_bytes Memory.mp_Ciphertext;
   fld 11 p_bytes Memory.mp_Capsule;
   fld 12 p_bytes Memory.mp_PlaintextHash;
   fld 13 p_bool Memory.mp_PlaintextOversized].
#[export] Instance Memory_MsgReportMemory_pb_law : MessageLaw Memory_MsgReportMemory_pb.
Proof. message_law. Qed.
#[global] Opaque Memory_MsgReportMemory_pb.
(** ** x/serve *)
#[export] Instance Serve_ServeEntry_fields : Fields Serve.ServeEntry := fun r => Serve.mkServeEntry
    (Serve.sv_MemoryContentHash r) (Serve.sv_ContributorId r) (Serve.sv_ModelId r)
    (Serve.sv_TurnCount r) (Serve.sv_ContributorWallet r) (Serve.sv_ServeKeyPubkey r)
    (Serve.sv_ServeSig r) (Serve.sv_Nonce r) (Serve.sv_EpisodeRef r).
Definition Serve_ServeEntry_pb : pb_message Serve.ServeEntry :=
  mkMessage (Serve.mkServeEntry (pb_zero p_bytes) (pb_zero p_bytes) (pb_zero p_bytes) (pb_zero
    p_uint32) (pb_zero p_bytes) (pb_zero p_bytes) (pb_zero p_bytes) (pb_zero p_bytes) (pb_zero
    p_bytes)) [
   fld 1 p_bytes Serve.sv_MemoryContentHash;
   fld 3 p_bytes Serve.sv_ContributorId;
   fld 5 p_bytes Serve.sv_ModelId;
   fld 6 p_uint32 Serve.sv_TurnCount;
   fld 7 p_bytes Serve.sv_ContributorWallet;
   fld 9 p_bytes Serve.sv_ServeKeyPubkey;
   fld 10 p_bytes Serve.sv_ServeSig;
   fld 11 p_bytes Serve.sv_Nonce;
   fld 12 p_bytes Serve.sv_EpisodeRef].
#[export] Instance Serve_ServeEntry_pb_law : MessageLaw Serve_ServeEntry_pb.
Proof. message_law. Qed.
#[global] Opaque Serve_ServeEntry_pb.
#[export] Instance Serve_MsgSubmitServeBatch_fields : Fields Serve.MsgSubmitServeBatch := fun r =>
    Serve.mkMsgSubmitServeBatch (Serve.mb_Signer r) (Serve.mb_OrgId r) (Serve.mb_Epoch r)
    (Serve.mb_Serves r).
Definition Serve_MsgSubmitServeBatch_pb : pb_message Serve.MsgSubmitServeBatch :=
  mkMessage (Serve.mkMsgSubmitServeBatch (pb_zero p_bytes) (pb_zero p_bytes) (pb_zero p_uint64)
    (pb_zero (p_messages Serve_ServeEntry_pb))) [
   fld 1 p_bytes Serve.mb_Signer;
   fld 2 p_bytes Serve.mb_OrgId;
   fld 3 p_uint64 Serve.mb_Epoch;
   fld 4 (p_messages Serve_ServeEntry_pb) Serve.mb_Serves].
#[export] Instance Serve_MsgSubmitServeBatch_pb_law : MessageLaw Serve_MsgSubmitServeBatch_pb.
Proof. message_law. Qed.
#[global] Opaque Serve_MsgSubmitServeBatch_pb.
#[export] Instance Serve_DenialEntry_fields : Fields Serve.DenialEntry := fun r =>
    Serve.mkDenialEntry (Serve.dn_MemoryHash r) (Serve.dn_Reason r) (Serve.dn_ServeKeyPubkey r)
    (Serve.dn_ServeSig r) (Serve.dn_ServeFingerprint r) (Serve.dn_Nonce r) (Serve.dn_NegAnchor r).
Definition Serve_DenialEntry_pb : pb_message Serve.DenialEntry :=
  mkMessage (Serve.mkDenialEntry (pb_zero p_bytes) (pb_zero p_bytes) (pb_zero p_bytes) (pb_zero
    p_bytes) (pb_zero p_bytes) (pb_zero p_bytes) (pb_zero p_bytes)) [
   fld 1 p_bytes Serve.dn_MemoryHash;
   fld 4 p_bytes Serve.dn_Reason;
   fld 5 p_bytes Serve.dn_ServeKeyPubkey;
   fld 6 p_bytes Serve.dn_ServeSig;
   fld 7 p_bytes Serve.dn_ServeFingerprint;
   fld 8 p_bytes Serve.dn_Nonce;
   fld 9 p_bytes Serve.dn_NegAnchor].
#[export] Instance Serve_DenialEntry_pb_law : MessageLaw Serve_DenialEntry_pb.
Proof. message_law. Qed.
#[global] Opaque Serve_DenialEntry_pb.
#[export] Instance Serve_MsgSubmitDenialBatch_fields : Fields Serve.MsgSubmitDenialBatch := fun r =>
    Serve.mkMsgSubmitDenialBatch (Serve.md_Signer r) (Serve.md_OrgId r) (Serve.md_Epoch r)
    (Serve.md_Entries r).
Definition Serve_MsgSubmitDenialBatch_pb : pb_message Serve.MsgSubmitDenialBatch :=
  mkMessage (Serve.mkMsgSubmitDenialBatch (pb_zero p_bytes) (pb_zero p_bytes) (pb_zero p_uint64)
    (pb_zero (p_messages Serve_DenialEntry_pb))) [
   fld 1 p_bytes Serve.md_Signer;
   fld 2 p_bytes Serve.md_OrgId;
   fld 3 p_uint64 Serve.md_Epoch;
   fld 4 (p_messages Serve_DenialEntry_pb) Serve.md_Entries].
#[export] Instance Serve_MsgSubmitDenialBatch_pb_law : MessageLaw Serve_MsgSubmitDenialBatch_pb.
Proof. message_law. Qed.
#[global] Opaque Serve_MsgSubmitDenialBatch_pb.
#[export] Instance Serve_EventEntry_fields : Fields Serve.EventEntry := fun r => Serve.mkEventEntry
    (Serve.ee_EventType r) (Serve.ee_MemoryContentHash r) (Serve.ee_SignerPubkey r) (Serve.ee_Nonce
    r) (Serve.ee_Signature r) (Serve.ee_Body r).
Definition Serve_EventEntry_pb : pb_message Serve.EventEntry :=
  mkMessage (Serve.mkEventEntry (pb_zero p_enum) (pb_zero p_bytes) (pb_zero p_bytes) (pb_zero
    p_bytes) (pb_zero p_bytes) None) [
   fld 1 p_enum Serve.ee_EventType;
   fld 2 p_bytes Serve.ee_MemoryContentHash;
   fld 3 p_bytes Serve.ee_SignerPubkey;
   fld 4 p_bytes Serve.ee_Nonce;
   fld 5 p_bytes Serve.ee_Signature;
   fld_oneof 10 Serve_OutcomeEventBody_pb Outcome_body Outcome_of Serve.ee_Body;
   fld_oneof 11 Serve_ValidityPredicateEventBody_pb ValidityPredicate_body ValidityPredicate_of
    Serve.ee_Body;
   fld_oneof 12 Serve_CostToDiscoverEventBody_pb CostToDiscover_body CostToDiscover_of Serve.ee_Body;
   fld_oneof 13 Serve_ConvergenceEventBody_pb Convergence_body Convergence_of Serve.ee_Body].
#[export] Instance Serve_EventEntry_pb_law : MessageLaw Serve_EventEntry_pb.
Proof. oneof_law. Qed.
#[global] Opaque Serve_EventEntry_pb.
#[export] Instance Serve_MsgSubmitEventBatch_fields : Fields Serve.MsgSubmitEventBatch := fun r =>
    Serve.mkMsgSubmitEventBatch (Serve.me_Signer r) (Serve.me_OrgId r) (Serve.me_Epoch r)
    (Serve.me_Events r).
Definition Serve_MsgSubmitEventBatch_pb : pb_message Serve.MsgSubmitEventBatch :=
  mkMessage (Serve.mkMsgSubmitEventBatch (pb_zero p_bytes) (pb_zero p_bytes) (pb_zero p_uint64)
    (pb_zero (p_pointers Serve_EventEntry_pb))) [
   fld 1 p_bytes Serve.me_Signer;
   fld 2 p_bytes Serve.me_OrgId;
   fld 3 p_uint64 Serve.me_Epoch;
   fld 4 (p_pointers Serve_EventEntry_pb) Serve.me_Events].
#[export] Instance Serve_MsgSubmitEventBatch_pb_law : MessageLaw Serve_MsgSubmitEventBatch_pb.
Proof. message_law. Qed.
#[global] Opaque Serve_MsgSubmitEventBatch_pb.
#[export] Instance Serve_MsgAnchorPolicyVersion_fields : Fields Serve.MsgAnchorPolicyVersion := fun
    r => Serve.mkMsgAnchorPolicyVersion (Serve.ma_Authority r) (Serve.ma_PolicyVersion r)
    (Serve.ma_PolicyHash r).
Definition Serve_MsgAnchorPolicyVersion_pb : pb_message Serve.MsgAnchorPolicyVersion :=
  mkMessage (Serve.mkMsgAnchorPolicyVersion (pb_zero p_bytes) (pb_zero p_bytes) (pb_zero p_bytes)) [
   fld 1 p_bytes Serve.ma_Authority;
   fld 2 p_bytes Serve.ma_PolicyVersion;
   fld 3 p_bytes Serve.ma_PolicyHash].
#[export] Instance Serve_MsgAnchorPolicyVersion_pb_law : MessageLaw Serve_MsgAnchorPolicyVersion_pb.
Proof. message_law. Qed.
#[global] Opaque Serve_MsgAnchorPolicyVersion_pb.
#[export] Instance Serve_MsgUpdateParams_fields : Fields Serve.MsgUpdateParams := fun r =>
    Serve.mkMsgUpdateParams (Serve.mu_Authority r) (Serve.mu_Params r).
Definition Serve_MsgUpdateParams_pb : pb_message Serve.MsgUpdateParams :=
  mkMessage (Serve.mkMsgUpdateParams (pb_zero p_bytes) (pb_zero (p_message Serve_Params_pb))) [
   fld 1 p_bytes Serve.mu_Authority;
   fld 2 (p_message Serve_Params_pb) Serve.mu_Params].
#[export] Instance Serve_MsgUpdateParams_pb_law : MessageLaw Serve_MsgUpdateParams_pb.
Proof. message_law. Qed.
#[global] Opaque Serve_MsgUpdateParams_pb.
(** ** x/emissions *)
#[export] Instance Emissions_MsgMintDailyEmission_fields : Fields Emissions.MsgMintDailyEmission :=
    fun r => Emissions.mkMsgMintDailyEmission (Emissions.mm_Authority r) (Emissions.mm_Epoch r).
Definition Emissions_MsgMintDailyEmission_pb : pb_message Emissions.MsgMintDailyEmission :=
  mkMessage (Emissions.mkMsgMintDailyEmission (pb_zero p_bytes) (pb_zero p_uint64)) [
   fld 1 p_bytes Emissions.mm_Authority;
   fld 2 p_uint64 Emissions.mm_Epoch].
#[export] Instance Emissions_MsgMintDailyEmission_pb_law : MessageLaw Emissions_MsgMintDailyEmission_pb.
Proof. message_law. Qed.
#[global] Opaque Emissions_MsgMintDailyEmission_pb.
#[export] Instance Emissions_MsgUpdateParams_fields : Fields Emissions.MsgUpdateParams := fun r =>
    Emissions.mkMsgUpdateParams (Emissions.mu_Authority r) (Emissions.mu_Params r).
Definition Emissions_MsgUpdateParams_pb : pb_message Emissions.MsgUpdateParams :=
  mkMessage (Emissions.mkMsgUpdateParams (pb_zero p_bytes) (pb_zero (p_message Emissions_Params_pb))) [
   fld 1 p_bytes Emissions.mu_Authority;
   fld 2 (p_message Emissions_Params_pb) Emissions.mu_Params].
#[export] Instance Emissions_MsgUpdateParams_pb_law : MessageLaw Emissions_MsgUpdateParams_pb.
Proof. message_law. Qed.
#[global] Opaque Emissions_MsgUpdateParams_pb.
#[export] Instance Emissions_MsgClaimContributorReward_fields : Fields
    Emissions.MsgClaimContributorReward := fun r => Emissions.mkMsgClaimContributorReward
    (Emissions.mc_Signer r) (Emissions.mc_PasskeyPubkey r).
Definition Emissions_MsgClaimContributorReward_pb : pb_message Emissions.MsgClaimContributorReward :=
  mkMessage (Emissions.mkMsgClaimContributorReward (pb_zero p_bytes) (pb_zero p_bytes)) [
   fld 1 p_bytes Emissions.mc_Signer;
   fld 2 p_bytes Emissions.mc_PasskeyPubkey].
#[export] Instance Emissions_MsgClaimContributorReward_pb_law : MessageLaw
    Emissions_MsgClaimContributorReward_pb.
Proof. message_law. Qed.
#[global] Opaque Emissions_MsgClaimContributorReward_pb.
(** ** x/bandwidth *)
#[export] Instance Bandwidth_MsgSetBandwidthOverride_fields : Fields
    Bandwidth.MsgSetBandwidthOverride := fun r => Bandwidth.mkMsgSetBandwidthOverride
    (Bandwidth.mo_Signer r) (Bandwidth.mo_OrgId r) (Bandwidth.mo_MemoryCap r) (Bandwidth.mo_ServeCap
    r).
Definition Bandwidth_MsgSetBandwidthOverride_pb : pb_message Bandwidth.MsgSetBandwidthOverride :=
  mkMessage (Bandwidth.mkMsgSetBandwidthOverride (pb_zero p_bytes) (pb_zero p_bytes) (pb_zero
    p_uint64) (pb_zero p_uint64)) [
   fld 1 p_bytes Bandwidth.mo_Signer;
   fld 2 p_bytes Bandwidth.mo_OrgId;
   fld 3 p_uint64 Bandwidth.mo_MemoryCap;
   fld 4 p_uint64 Bandwidth.mo_ServeCap].
#[export] Instance Bandwidth_MsgSetBandwidthOverride_pb_law : MessageLaw
    Bandwidth_MsgSetBandwidthOverride_pb.
Proof. message_law. Qed.
#[global] Opaque Bandwidth_MsgSetBandwidthOverride_pb.
#[export] Instance Bandwidth_MsgUpdateParams_fields : Fields Bandwidth.MsgUpdateParams := fun r =>
    Bandwidth.mkMsgUpdateParams (Bandwidth.mu_Authority r) (Bandwidth.mu_Params r).
Definition Bandwidth_MsgUpdateParams_pb : pb_message Bandwidth.MsgUpdateParams :=
  mkMessage (Bandwidth.mkMsgUpdateParams (pb_zero p_bytes) (pb_zero (p_message Bandwidth_Params_pb))) [
   fld 1 p_bytes Bandwidth.mu_Authority;
   fld 2 (p_message Bandwidth_Params_pb) Bandwidth.mu_Params].
#[export] Instance Bandwidth_MsgUpdateParams_pb_law : MessageLaw Bandwidth_MsgUpdateParams_pb.
Proof. message_law. Qed.
#[global] Opaque Bandwidth_MsgUpdateParams_pb.
(** ** x/identity *)
#[export] Instance Identity_MsgMigrateIdentity_fields : Fields Identity.MsgMigrateIdentity := fun r
    => Identity.mkMsgMigrateIdentity (Identity.mm_Signer r) (Identity.mm_PasskeyPubkey r)
    (Identity.mm_PasskeySignature r) (Identity.mm_Nonce r).
Definition Identity_MsgMigrateIdentity_pb : pb_message Identity.MsgMigrateIdentity :=
  mkMessage (Identity.mkMsgMigrateIdentity (pb_zero p_bytes) (pb_zero p_bytes) (pb_zero p_bytes)
    (pb_zero p_uint64)) [
   fld 1 p_bytes Identity.mm_Signer;
   fld 2 p_bytes Identity.mm_PasskeyPubkey;
   fld 3 p_bytes Identity.mm_PasskeySignature;
   fld 4 p_uint64 Identity.mm_Nonce].
#[export] Instance Identity_MsgMigrateIdentity_pb_law : MessageLaw Identity_MsgMigrateIdentity_pb.
Proof. message_law. Qed.
#[global] Opaque Identity_MsgMigrateIdentity_pb.
(** ** x/reputation *)
#[export] Instance Reputation_MsgUpdateReputation_fields : Fields Reputation.MsgUpdateReputation :=
    fun r => Reputation.mkMsgUpdateReputation (Reputation.mr_Signer r) (Reputation.mr_Developer r)
    (Reputation.mr_MemoryCid r) (Reputation.mr_Difficulty r) (Reputation.mr_Quality r)
    (Reputation.mr_DomainTags r) (Reputation.mr_Provenance r).
Definition Reputation_MsgUpdateReputation_pb : pb_message Reputation.MsgUpdateReputation :=
  mkMessage (Reputation.mkMsgUpdateReputation (pb_zero p_bytes) (pb_zero p_bytes) (pb_zero p_bytes)
    (pb_zero p_uint32) (pb_zero p_uint32) (pb_zero p_strings) (pb_zero p_bytes)) [
   fld 1 p_bytes Reputation.mr_Signer;
   fld 2 p_bytes Reputation.mr_Developer;
   fld 3 p_bytes Reputation.mr_MemoryCid;
   fld 4 p_uint32 Reputation.mr_Difficulty;
   fld 5 p_uint32 Reputation.mr_Quality;
   fld 6 p_strings Reputation.mr_DomainTags;
   fld 7 p_bytes Reputation.mr_Provenance].
#[export] Instance Reputation_MsgUpdateReputation_pb_law : MessageLaw Reputation_MsgUpdateReputation_pb.
Proof. message_law. Qed.
#[global] Opaque Reputation_MsgUpdateReputation_pb.
#[export] Instance Reputation_MsgIncrementContribution_fields : Fields
    Reputation.MsgIncrementContribution := fun r => Reputation.mkMsgIncrementContribution
    (Reputation.ic_Authority r) (Reputation.ic_ContributorId r) (Reputation.ic_OrgId r)
    (Reputation.ic_MemoryCid r).
Definition Reputation_MsgIncrementContribution_pb : pb_message Reputation.MsgIncrementContribution :=
  mkMessage (Reputation.mkMsgIncrementContribution (pb_zero p_bytes) (pb_zero p_bytes) (pb_zero
    p_bytes) (pb_zero p_bytes)) [
   fld 1 p_bytes Reputation.ic_Authority;
   fld 2 p_bytes Reputation.ic_ContributorId;
   fld 3 p_bytes Reputation.ic_OrgId;
   fld 4 p_bytes Reputation.ic_MemoryCid].
#[export] Instance Reputation_MsgIncrementContribution_pb_law : MessageLaw
    Reputation_MsgIncrementContribution_pb.
Proof. message_law. Qed.
#[global] Opaque Reputation_MsgIncrementContribution_pb.
#[export] Instance Reputation_MsgIncrementServe_fields : Fields Reputation.MsgIncrementServe := fun
    r => Reputation.mkMsgIncrementServe (Reputation.is_Authority r) (Reputation.is_ContributorId r)
    (Reputation.is_OrgId r) (Reputation.is_MemoryCid r) (Reputation.is_ServeCount r).
Definition Reputation_MsgIncrementServe_pb : pb_message Reputation.MsgIncrementServe :=
  mkMessage (Reputation.mkMsgIncrementServe (pb_zero p_bytes) (pb_zero p_bytes) (pb_zero p_bytes)
    (pb_zero p_bytes) (pb_zero p_uint64)) [
   fld 1 p_bytes Reputation.is_Authority;
   fld 2 p_bytes Reputation.is_ContributorId;
   fld 3 p_bytes Reputation.is_OrgId;
   fld 4 p_bytes Reputation.is_MemoryCid;
   fld 5 p_uint64 Reputation.is_ServeCount].
#[export] Instance Reputation_MsgIncrementServe_pb_law : MessageLaw Reputation_MsgIncrementServe_pb.
Proof. message_law. Qed.
#[global] Opaque Reputation_MsgIncrementServe_pb.
#[export] Instance Reputation_MsgRecordBan_fields : Fields Reputation.MsgRecordBan := fun r =>
    Reputation.mkMsgRecordBan (Reputation.rb_Authority r) (Reputation.rb_ContributorId r)
    (Reputation.rb_OrgId r) (Reputation.rb_MemoryCid r).
Definition Reputation_MsgRecordBan_pb : pb_message Reputation.MsgRecordBan :=
  mkMessage (Reputation.mkMsgRecordBan (pb_zero p_bytes) (pb_zero p_bytes) (pb_zero p_bytes)
    (pb_zero p_bytes)) [
   fld 1 p_bytes Reputation.rb_Authority;
   fld 2 p_bytes Reputation.rb_ContributorId;
   fld 3 p_bytes Reputation.rb_OrgId;
   fld 4 p_bytes Reputation.rb_MemoryCid].
#[export] Instance Reputation_MsgRecordBan_pb_law : MessageLaw Reputation_MsgRecordBan_pb.
Proof. message_law. Qed.
#[global] Opaque Reputation_MsgRecordBan_pb.
#[export] Instance Reputation_MsgUpdateParams_fields : Fields Reputation.MsgUpdateParams := fun r =>
    Reputation.mkMsgUpdateParams (Reputation.mp_Authority r) (Reputation.mp_Params r).
Definition Reputation_MsgUpdateParams_pb : pb_message Reputation.MsgUpdateParams :=
  mkMessage (Reputation.mkMsgUpdateParams (pb_zero p_bytes) (pb_zero (p_message Reputation_Params_pb))) [
   fld 1 p_bytes Reputation.mp_Authority;
   fld 2 (p_message Reputation_Params_pb) Reputation.mp_Params].
#[export] Instance Reputation_MsgUpdateParams_pb_law : MessageLaw Reputation_MsgUpdateParams_pb.
Proof. message_law. Qed.
#[global] Opaque Reputation_MsgUpdateParams_pb.
(** ** x/attestation *)
#[export] Instance Attestation_MsgSubmitSessionAttestation_fields : Fields
    Attestation.MsgSubmitSessionAttestation := fun r => Attestation.mkMsgSubmit
    (Attestation.ms_Signer r) (Attestation.ms_OrgId r) (Attestation.ms_SessionHash r)
    (Attestation.ms_ModelId r) (Attestation.ms_TurnCount r) (Attestation.ms_TokenCount r)
    (Attestation.ms_ProviderType r) (Attestation.ms_CommitllmReceiptHash r)
    (Attestation.ms_ProviderSignatureHash r) (Attestation.ms_ContributorId r) (Attestation.ms_Epoch
    r).
Definition Attestation_MsgSubmitSessionAttestation_pb : pb_message
    Attestation.MsgSubmitSessionAttestation :=
  mkMessage (Attestation.mkMsgSubmit (pb_zero p_bytes) (pb_zero p_bytes) (pb_zero p_bytes) (pb_zero
    p_bytes) (pb_zero p_uint32) (pb_zero p_uint32) (pb_zero p_enum) (pb_zero p_bytes) (pb_zero
    p_bytes) (pb_zero p_bytes) (pb_zero p_uint64)) [
   fld 1 p_bytes Attestation.ms_Signer;
   fld 2 p_bytes Attestation.ms_OrgId;
   fld 3 p_bytes Attestation.ms_SessionHash;
   fld 4 p_bytes Attestation.ms_ModelId;
   fld 5 p_uint32 Attestation.ms_TurnCount;
   fld 6 p_uint32 Attestation.ms_TokenCount;
   fld 7 p_enum Attestation.ms_ProviderType;
   fld 8 p_bytes Attestation.ms_CommitllmReceiptHash;
   fld 9 p_bytes Attestation.ms_ProviderSignatureHash;
   fld 10 p_bytes Attestation.ms_ContributorId;
   fld 11 p_uint64 Attestation.ms_Epoch].
#[export] Instance Attestation_MsgSubmitSessionAttestation_pb_law : MessageLaw
    Attestation_MsgSubmitSessionAttestation_pb.
Proof. message_law. Qed.
#[global] Opaque Attestation_MsgSubmitSessionAttestation_pb.
#[export] Instance Attestation_MsgUpdateParams_fields : Fields Attestation.MsgUpdateParams := fun r
    => Attestation.mkMsgUpdateParams (Attestation.mu_Authority r) (Attestation.mu_Params r).
Definition Attestation_MsgUpdateParams_pb : pb_message Attestation.MsgUpdateParams :=
  mkMessage (Attestation.mkMsgUpdateParams (pb_zero p_bytes) (pb_zero (p_message
    Attestation_Params_pb))) [
   fld 1 p_bytes Attestation.mu_Authority;
   fld 2 (p_message Attestation_Params_pb) Attestation.mu_Params].
#[export] Instance Attestation_MsgUpdateParams_pb_law : MessageLaw Attestation_MsgUpdateParams_pb.
Proof. message_law. Qed.
#[global] Opaque Attestation_MsgUpdateParams_pb.

(** ** Services (the Msg service descriptions of tx.pb.go)

    A method with the type of its request. *)
Record Service := mkService { ServiceName : string; Methods : list (string * string) }.

Definition Msg_serviceDesc_emissions : Service := mkService "wevibe.emissions.v1.Msg" [
  ("MintDailyEmission", "MsgMintDailyEmission");
  ("UpdateParams", "MsgUpdateParams");
  ("ClaimContributorReward", "MsgClaimContributorReward")].
Definition Msg_serviceDesc_bandwidth : Service := mkService "wevibe.bandwidth.v1.Msg" [
  ("SetBandwidthOverride", "MsgSetBandwidthOverride");
  ("UpdateParams", "MsgUpdateParams")].
Definition Msg_serviceDesc_memory : Service := mkService "wevibe.memory.v1.Msg" [
  ("SubmitCommitment", "MsgSubmitCommitment");
  ("ApproveMemory", "MsgApproveMemory");
  ("UpdateParams", "MsgUpdateParams");
  ("ReportMemory", "MsgReportMemory")].
Definition Msg_serviceDesc_org : Service := mkService "wevibe.org.v1.Msg" [
  ("RegisterOrg", "MsgRegisterOrg");
  ("AddMember", "MsgAddMember");
  ("RemoveMember", "MsgRemoveMember");
  ("UpdateParams", "MsgUpdateParams");
  ("SetOrgConfig", "MsgSetOrgConfig");
  ("GrantTrialAllowance", "MsgGrantTrialAllowance");
  ("SetMemberCapabilities", "MsgSetMemberCapabilities");
  ("TransferLeadership", "MsgTransferLeadership");
  ("CloseOrg", "MsgCloseOrg");
  ("SetServingKey", "MsgSetServingKey");
  ("SetServingInfo", "MsgSetServingInfo")].
Definition Msg_serviceDesc_identity : Service := mkService "wevibe.identity.v1.Msg" [
  ("MigrateIdentity", "MsgMigrateIdentity")].
Definition Msg_serviceDesc_reputation : Service := mkService "wevibe.reputation.v1.Msg" [
  ("UpdateReputation", "MsgUpdateReputation");
  ("IncrementContribution", "MsgIncrementContribution");
  ("IncrementServe", "MsgIncrementServe");
  ("RecordBan", "MsgRecordBan");
  ("UpdateParams", "MsgUpdateParams")].
Definition Msg_serviceDesc_serve : Service := mkService "wevibe.serve.v1.Msg" [
  ("SubmitServeBatch", "MsgSubmitServeBatch");
  ("SubmitDenialBatch", "MsgSubmitDenialBatch");
  ("SubmitEventBatch", "MsgSubmitEventBatch");
  ("AnchorPolicyVersion", "MsgAnchorPolicyVersion");
  ("UpdateParams", "MsgUpdateParams")].
Definition Msg_serviceDesc_attestation : Service := mkService "wevibe.attestation.v1.Msg" [
  ("SubmitSessionAttestation", "MsgSubmitSessionAttestation");
  ("UpdateParams", "MsgUpdateParams")].

(** ** Registration (types/codec.go, app.go) *)
Definition msg_url (module msg : string) : string := "/wevibe." +:+ module +:+ ".v1." +:+ msg.

(** [RegisterMsgServiceDesc] registers the requests of a service under their
    type URLs. *)
Definition RegisterMsgServiceDesc (module : string) (s : Service) : list string :=
  (fun nm => msg_url module nm.2) <$> Methods s.

Definition RegisterInterfaces_emissions : list string :=
  ((msg_url "emissions" <$> ["MsgMintDailyEmission"; "MsgUpdateParams"; "MsgClaimContributorReward"]) ++
   RegisterMsgServiceDesc "emissions" Msg_serviceDesc_emissions)%list.
Definition RegisterInterfaces_bandwidth : list string :=
  ((msg_url "bandwidth" <$> ["MsgSetBandwidthOverride"; "MsgUpdateParams"]) ++
   RegisterMsgServiceDesc "bandwidth" Msg_serviceDesc_bandwidth)%list.
Definition RegisterInterfaces_memory : list string :=
  ((msg_url "memory" <$> ["MsgSubmitCommitment"; "MsgApproveMemory"; "MsgUpdateParams"; "MsgReportMemory"]) ++
   RegisterMsgServiceDesc "memory" Msg_serviceDesc_memory)%list.
Definition RegisterInterfaces_org : list string :=
  ((msg_url "org" <$> ["MsgRegisterOrg"; "MsgSetServingInfo"; "MsgAddMember"; "MsgRemoveMember"; "MsgUpdateParams"; "MsgSetOrgConfig"; "MsgGrantTrialAllowance"; "MsgSetMemberCapabilities"; "MsgTransferLeadership"; "MsgCloseOrg"]) ++
   RegisterMsgServiceDesc "org" Msg_serviceDesc_org)%list.
Definition RegisterInterfaces_identity : list string :=
  ((msg_url "identity" <$> ["MsgMigrateIdentity"]) ++
   RegisterMsgServiceDesc "identity" Msg_serviceDesc_identity)%list.
Definition RegisterInterfaces_reputation : list string :=
  ((msg_url "reputation" <$> ["MsgUpdateReputation"; "MsgUpdateParams"]) ++
   RegisterMsgServiceDesc "reputation" Msg_serviceDesc_reputation)%list.
Definition RegisterInterfaces_serve : list string :=
  ((msg_url "serve" <$> ["MsgSubmitServeBatch"; "MsgSubmitDenialBatch"; "MsgSubmitEventBatch"; "MsgAnchorPolicyVersion"; "MsgUpdateParams"]) ++
   RegisterMsgServiceDesc "serve" Msg_serviceDesc_serve)%list.
Definition RegisterInterfaces_attestation : list string :=
  ((msg_url "attestation" <$> ["MsgSubmitSessionAttestation"; "MsgUpdateParams"]) ++
   RegisterMsgServiceDesc "attestation" Msg_serviceDesc_attestation)%list.
(** The interface registry of the application, less the messages of the SDK. *)
Definition RegisterInterfaces : list string :=
  (RegisterInterfaces_emissions ++
   RegisterInterfaces_bandwidth ++
   RegisterInterfaces_memory ++
   RegisterInterfaces_org ++
   RegisterInterfaces_identity ++
   RegisterInterfaces_reputation ++
   RegisterInterfaces_serve ++
   RegisterInterfaces_attestation)%list.

(** ** Messages in a transaction: type URL and bytes ([Any]) *)
Definition type_url (x : app_msg) : string :=
  match x with
  | OrgMsg (Org.RegisterOrgMsg _) => msg_url "org" "MsgRegisterOrg"
  | OrgMsg (Org.AddMemberMsg _) => msg_url "org" "MsgAddMember"
  | OrgMsg (Org.RemoveMemberMsg _) => msg_url "org" "MsgRemoveMember"
  | OrgMsg (Org.UpdateParamsMsg _) => msg_url "org" "MsgUpdateParams"
  | OrgMsg (Org.SetOrgConfigMsg _) => msg_url "org" "MsgSetOrgConfig"
  | OrgMsg (Org.GrantTrialAllowanceMsg _) => msg_url "org" "MsgGrantTrialAllowance"
  | OrgMsg (Org.SetMemberCapabilitiesMsg _) => msg_url "org" "MsgSetMemberCapabilities"
  | OrgMsg (Org.TransferLeadershipMsg _) => msg_url "org" "MsgTransferLeadership"
  | OrgMsg (Org.CloseOrgMsg _) => msg_url "org" "MsgCloseOrg"
  | OrgMsg (Org.SetServingKeyMsg _) => msg_url "org" "MsgSetServingKey"
  | OrgMsg (Org.SetServingInfoMsg _) => msg_url "org" "MsgSetServingInfo"
  | SubmitCommitment _ => msg_url "memory" "MsgSubmitCommitment"
  | ApproveMemory _ => msg_url "memory" "MsgApproveMemory"
  | UpdateMemoryParams _ => msg_url "memory" "MsgUpdateParams"
  | ReportMemory _ => msg_url "memory" "MsgReportMemory"
  | ServeMsg (Serve.ServeBatchMsg _) => msg_url "serve" "MsgSubmitServeBatch"
  | ServeMsg (Serve.DenialBatchMsg _) => msg_url "serve" "MsgSubmitDenialBatch"
  | ServeMsg (Serve.EventBatchMsg _) => msg_url "serve" "MsgSubmitEventBatch"
  | ServeMsg (Serve.AnchorPolicyMsg _) => msg_url "serve" "MsgAnchorPolicyVersion"
  | ServeMsg (Serve.UpdateParamsMsg _) => msg_url "serve" "MsgUpdateParams"
  | MintDailyEmission _ => msg_url "emissions" "MsgMintDailyEmission"
  | UpdateEmissionsParams _ => msg_url "emissions" "MsgUpdateParams"
  | ClaimContributorReward _ => msg_url "emissions" "MsgClaimContributorReward"
  | SetBandwidthOverride _ => msg_url "bandwidth" "MsgSetBandwidthOverride"
  | UpdateBandwidthParams _ => msg_url "bandwidth" "MsgUpdateParams"
  | MigrateIdentity _ => msg_url "identity" "MsgMigrateIdentity"
  | UpdateReputation _ => msg_url "reputation" "MsgUpdateReputation"
  | IncrementContribution _ => msg_url "reputation" "MsgIncrementContribution"
  | IncrementServe _ => msg_url "reputation" "MsgIncrementServe"
  | RecordBan _ => msg_url "reputation" "MsgRecordBan"
  | UpdateReputationParams _ => msg_url "reputation" "MsgUpdateParams"
  | SubmitSessionAttestation _ => msg_url "attestation" "MsgSubmitSessionAttestation"
  | UpdateAttestationParams _ => msg_url "attestation" "MsgUpdateParams"
  end.
Definition value_bytes (x : app_msg) : string :=
  match x with
  | OrgMsg (Org.RegisterOrgMsg m) => Marshal Org_MsgRegisterOrg_pb m
  | OrgMsg (Org.AddMemberMsg m) => Marshal Org_MsgAddMember_pb m
  | OrgMsg (Org.RemoveMemberMsg m) => Marshal Org_MsgRemoveMember_pb m
  | OrgMsg (Org.UpdateParamsMsg m) => Marshal Org_MsgUpdateParams_pb m
  | OrgMsg (Org.SetOrgConfigMsg m) => Marshal Org_MsgSetOrgConfig_pb m
  | OrgMsg (Org.GrantTrialAllowanceMsg m) => Marshal Org_MsgGrantTrialAllowance_pb m
  | OrgMsg (Org.SetMemberCapabilitiesMsg m) => Marshal Org_MsgSetMemberCapabilities_pb m
  | OrgMsg (Org.TransferLeadershipMsg m) => Marshal Org_MsgTransferLeadership_pb m
  | OrgMsg (Org.CloseOrgMsg m) => Marshal Org_MsgCloseOrg_pb m
  | OrgMsg (Org.SetServingKeyMsg m) => Marshal Org_MsgSetServingKey_pb m
  | OrgMsg (Org.SetServingInfoMsg m) => Marshal Org_MsgSetServingInfo_pb m
  | SubmitCommitment m => Marshal Memory_MsgSubmitCommitment_pb m
  | ApproveMemory m => Marshal Memory_MsgApproveMemory_pb m
  | UpdateMemoryParams m => Marshal Memory_MsgUpdateParams_pb m
  | ReportMemory m => Marshal Memory_MsgReportMemory_pb m
  | ServeMsg (Serve.ServeBatchMsg m) => Marshal Serve_MsgSubmitServeBatch_pb m
  | ServeMsg (Serve.DenialBatchMsg m) => Marshal Serve_MsgSubmitDenialBatch_pb m
  | ServeMsg (Serve.EventBatchMsg m) => Marshal Serve_MsgSubmitEventBatch_pb m
  | ServeMsg (Serve.AnchorPolicyMsg m) => Marshal Serve_MsgAnchorPolicyVersion_pb m
  | ServeMsg (Serve.UpdateParamsMsg m) => Marshal Serve_MsgUpdateParams_pb m
  | MintDailyEmission m => Marshal Emissions_MsgMintDailyEmission_pb m
  | UpdateEmissionsParams m => Marshal Emissions_MsgUpdateParams_pb m
  | ClaimContributorReward m => Marshal Emissions_MsgClaimContributorReward_pb m
  | SetBandwidthOverride m => Marshal Bandwidth_MsgSetBandwidthOverride_pb m
  | UpdateBandwidthParams m => Marshal Bandwidth_MsgUpdateParams_pb m
  | MigrateIdentity m => Marshal Identity_MsgMigrateIdentity_pb m
  | UpdateReputation m => Marshal Reputation_MsgUpdateReputation_pb m
  | IncrementContribution m => Marshal Reputation_MsgIncrementContribution_pb m
  | IncrementServe m => Marshal Reputation_MsgIncrementServe_pb m
  | RecordBan m => Marshal Reputation_MsgRecordBan_pb m
  | UpdateReputationParams m => Marshal Reputation_MsgUpdateParams_pb m
  | SubmitSessionAttestation m => Marshal Attestation_MsgSubmitSessionAttestation_pb m
  | UpdateAttestationParams m => Marshal Attestation_MsgUpdateParams_pb m
  end.
Definition msg_fits (x : app_msg) : bool :=
  match x with
  | OrgMsg (Org.RegisterOrgMsg m) => message_fits Org_MsgRegisterOrg_pb m
  | OrgMsg (Org.AddMemberMsg m) => message_fits Org_MsgAddMember_pb m
  | OrgMsg (Org.RemoveMemberMsg m) => message_fits Org_MsgRemoveMember_pb m
  | OrgMsg (Org.UpdateParamsMsg m) => message_fits Org_MsgUpdateParams_pb m
  | OrgMsg (Org.SetOrgConfigMsg m) => message_fits Org_MsgSetOrgConfig_pb m
  | OrgMsg (Org.GrantTrialAllowanceMsg m) => message_fits Org_MsgGrantTrialAllowance_pb m
  | OrgMsg (Org.SetMemberCapabilitiesMsg m) => message_fits Org_MsgSetMemberCapabilities_pb m
  | OrgMsg (Org.TransferLeadershipMsg m) => message_fits Org_MsgTransferLeadership_pb m
  | OrgMsg (Org.CloseOrgMsg m) => message_fits Org_MsgCloseOrg_pb m
  | OrgMsg (Org.SetServingKeyMsg m) => message_fits Org_MsgSetServingKey_pb m
  | OrgMsg (Org.SetServingInfoMsg m) => message_fits Org_MsgSetServingInfo_pb m
  | SubmitCommitment m => message_fits Memory_MsgSubmitCommitment_pb m
  | ApproveMemory m => message_fits Memory_MsgApproveMemory_pb m
  | UpdateMemoryParams m => message_fits Memory_MsgUpdateParams_pb m
  | ReportMemory m => message_fits Memory_MsgReportMemory_pb m
  | ServeMsg (Serve.ServeBatchMsg m) => message_fits Serve_MsgSubmitServeBatch_pb m
  | ServeMsg (Serve.DenialBatchMsg m) => message_fits Serve_MsgSubmitDenialBatch_pb m
  | ServeMsg (Serve.EventBatchMsg m) => message_fits Serve_MsgSubmitEventBatch_pb m
  | ServeMsg (Serve.AnchorPolicyMsg m) => message_fits Serve_MsgAnchorPolicyVersion_pb m
  | ServeMsg (Serve.UpdateParamsMsg m) => message_fits Serve_MsgUpdateParams_pb m
  | MintDailyEmission m => message_fits Emissions_MsgMintDailyEmission_pb m
  | UpdateEmissionsParams m => message_fits Emissions_MsgUpdateParams_pb m
  | ClaimContributorReward m => message_fits Emissions_MsgClaimContributorReward_pb m
  | SetBandwidthOverride m => message_fits Bandwidth_MsgSetBandwidthOverride_pb m
  | UpdateBandwidthParams m => message_fits Bandwidth_MsgUpdateParams_pb m
  | MigrateIdentity m => message_fits Identity_MsgMigrateIdentity_pb m
  | UpdateReputation m => message_fits Reputation_MsgUpdateReputation_pb m
  | IncrementContribution m => message_fits Reputation_MsgIncrementContribution_pb m
  | IncrementServe m => message_fits Reputation_MsgIncrementServe_pb m
  | RecordBan m => message_fits Reputation_MsgRecordBan_pb m
  | UpdateReputationParams m => message_fits Reputation_MsgUpdateParams_pb m
  | SubmitSessionAttestation m => message_fits Attestation_MsgSubmitSessionAttestation_pb m
  | UpdateAttestationParams m => message_fits Attestation_MsgUpdateParams_pb m
  end.

(** The Go types registered under the type URLs ([proto.RegisterType] in tx.pb.go)
    and their [Unmarshal]. *)
Definition decoders : list (string * (string -> option app_msg)) := [
  (msg_url "org" "MsgRegisterOrg", fun b => (fun m => OrgMsg (Org.RegisterOrgMsg m)) <$> Unmarshal Org_MsgRegisterOrg_pb b);
  (msg_url "org" "MsgAddMember", fun b => (fun m => OrgMsg (Org.AddMemberMsg m)) <$> Unmarshal Org_MsgAddMember_pb b);
  (msg_url "org" "MsgRemoveMember", fun b => (fun m => OrgMsg (Org.RemoveMemberMsg m)) <$> Unmarshal Org_MsgRemoveMember_pb b);
  (msg_url "org" "MsgUpdateParams", fun b => (fun m => OrgMsg (Org.UpdateParamsMsg m)) <$> Unmarshal Org_MsgUpdateParams_pb b);
  (msg_url "org" "MsgSetOrgConfig", fun b => (fun m => OrgMsg (Org.SetOrgConfigMsg m)) <$> Unmarshal Org_MsgSetOrgConfig_pb b);
  (msg_url "org" "MsgGrantTrialAllowance", fun b => (fun m => OrgMsg (Org.GrantTrialAllowanceMsg m)) <$> Unmarshal Org_MsgGrantTrialAllowance_pb b);
  (msg_url "org" "MsgSetMemberCapabilities", fun b => (fun m => OrgMsg (Org.SetMemberCapabilitiesMsg m)) <$> Unmarshal Org_MsgSetMemberCapabilities_pb b);
  (msg_url "org" "MsgTransferLeadership", fun b => (fun m => OrgMsg (Org.TransferLeadershipMsg m)) <$> Unmarshal Org_MsgTransferLeadership_pb b);
  (msg_url "org" "MsgCloseOrg", fun b => (fun m => OrgMsg (Org.CloseOrgMsg m)) <$> Unmarshal Org_MsgCloseOrg_pb b);
  (msg_url "org" "MsgSetServingKey", fun b => (fun m => OrgMsg (Org.SetServingKeyMsg m)) <$> Unmarshal Org_MsgSetServingKey_pb b);
  (msg_url "org" "MsgSetServingInfo", fun b => (fun m => OrgMsg (Org.SetServingInfoMsg m)) <$> Unmarshal Org_MsgSetServingInfo_pb b);
  (msg_url "memory" "MsgSubmitCommitment", fun b => (fun m => SubmitCommitment m) <$> Unmarshal Memory_MsgSubmitCommitment_pb b);
  (msg_url "memory" "MsgApproveMemory", fun b => (fun m => ApproveMemory m) <$> Unmarshal Memory_MsgApproveMemory_pb b);
  (msg_url "memory" "MsgUpdateParams", fun b => (fun m => UpdateMemoryParams m) <$> Unmarshal Memory_MsgUpdateParams_pb b);
  (msg_url "memory" "MsgReportMemory", fun b => (fun m => ReportMemory m) <$> Unmarshal Memory_MsgReportMemory_pb b);
  (msg_url "serve" "MsgSubmitServeBatch", fun b => (fun m => ServeMsg (Serve.ServeBatchMsg m)) <$> Unmarshal Serve_MsgSubmitServeBatch_pb b);
  (msg_url "serve" "MsgSubmitDenialBatch", fun b => (fun m => ServeMsg (Serve.DenialBatchMsg m)) <$> Unmarshal Serve_MsgSubmitDenialBatch_pb b);
  (msg_url "serve" "MsgSubmitEventBatch", fun b => (fun m => ServeMsg (Serve.EventBatchMsg m)) <$> Unmarshal Serve_MsgSubmitEventBatch_pb b);
  (msg_url "serve" "MsgAnchorPolicyVersion", fun b => (fun m => ServeMsg (Serve.AnchorPolicyMsg m)) <$> Unmarshal Serve_MsgAnchorPolicyVersion_pb b);
  (msg_url "serve" "MsgUpdateParams", fun b => (fun m => ServeMsg (Serve.UpdateParamsMsg m)) <$> Unmarshal Serve_MsgUpdateParams_pb b);
  (msg_url "emissions" "MsgMintDailyEmission", fun b => (fun m => MintDailyEmission m) <$> Unmarshal Emissions_MsgMintDailyEmission_pb b);
  (msg_url "emissions" "MsgUpdateParams", fun b => (fun m => UpdateEmissionsParams m) <$> Unmarshal Emissions_MsgUpdateParams_pb b);
  (msg_url "emissions" "MsgClaimContributorReward", fun b => (fun m => ClaimContributorReward m) <$> Unmarshal Emissions_MsgClaimContributorReward_pb b);
  (msg_url "bandwidth" "MsgSetBandwidthOverride", fun b => (fun m => SetBandwidthOverride m) <$> Unmarshal Bandwidth_MsgSetBandwidthOverride_pb b);
  (msg_url "bandwidth" "MsgUpdateParams", fun b => (fun m => UpdateBandwidthParams m) <$> Unmarshal Bandwidth_MsgUpdateParams_pb b);
  (msg_url "identity" "MsgMigrateIdentity", fun b => (fun m => MigrateIdentity m) <$> Unmarshal Identity_MsgMigrateIdentity_pb b);
  (msg_url "reputation" "MsgUpdateReputation", fun b => (fun m => UpdateReputation m) <$> Unmarshal Reputation_MsgUpdateReputation_pb b);
  (msg_url "reputation" "MsgIncrementContribution", fun b => (fun m => IncrementContribution m) <$> Unmarshal Reputation_MsgIncrementContribution_pb b);
  (msg_url "reputation" "MsgIncrementServe", fun b => (fun m => IncrementServe m) <$> Unmarshal Reputation_MsgIncrementServe_pb b);
  (msg_url "reputation" "MsgRecordBan", fun b => (fun m => RecordBan m) <$> Unmarshal Reputation_MsgRecordBan_pb b);
  (msg_url "reputation" "MsgUpdateParams", fun b => (fun m => UpdateReputationParams m) <$> Unmarshal Reputation_MsgUpdateParams_pb b);
  (msg_url "attestation" "MsgSubmitSessionAttestation", fun b => (fun m => SubmitSessionAttestation m) <$> Unmarshal Attestation_MsgSubmitSessionAttestation_pb b);
  (msg_url "attestation" "MsgUpdateParams", fun b => (fun m => UpdateAttestationParams m) <$> Unmarshal Attestation_MsgUpdateParams_pb b)].

(** ** Facts *)
Lemma url_registered x : bool_decide (type_url x ∈ RegisterInterfaces) = true.
Proof. destruct x as [[]| | | | |[]| | | | | | | | | | | | |]; vm_compute; reflexivity. Qed.

Lemma urls_distinct : NoDup decoders.*1.
Proof. unfold decoders. cbn [fmap list_fmap fst]. apply (bool_decide_unpack _). vm_compute. exact I. Qed.

Lemma find_decoder u dec :
  (u, dec) ∈ decoders -> List.find (fun d => bool_decide (d.1 = u)) decoders = Some (u, dec).
Proof.
  pose proof urls_distinct as Hd. induction decoders as [|[v d] l IH]; intros Hu; [by apply elem_of_nil in Hu|].
  cbn in *. apply NoDup_cons in Hd as [Hv Hd]. apply elem_of_cons in Hu as [[= <- <-]|Hu].
  - by rewrite bool_decide_eq_true_2.
  - rewrite bool_decide_eq_false_2; [by apply IH|]. intros ->. apply Hv.
    by apply (list_elem_of_fmap_2 fst) in Hu.
Qed.

(** A message has a decoder under its URL, which reads it back from its bytes. *)
Lemma decoder_of x :
  exists dec, (type_url x, dec) ∈ decoders /\ (msg_fits x = true -> dec (value_bytes x) = Some x).
Proof.
  destruct x as [[]| | | | |[]| | | | | | | | | | | | |]; eexists;
    (split; [cbn [type_url]; unfold decoders; repeat first [left|right]|]);
    cbn [msg_fits value_bytes]; intros H; cbv beta; by rewrite Unmarshal_Marshal by (exact H || apply _).
Qed.

(** Under one URL there is one decoder. *)
Lemma decoder_unique u dec dec' : (u, dec) ∈ decoders -> (u, dec') ∈ decoders -> dec = dec'.
Proof. intros H%find_decoder H'%find_decoder. rewrite H in H'. by injection H'. Qed.

(** Every message with a decoder has a handler registered for it, and every
    handler a decoder. *)
Definition handled : list string :=
  (RegisterMsgServiceDesc "org" Msg_serviceDesc_org ++ RegisterMsgServiceDesc "memory" Msg_serviceDesc_memory ++
   RegisterMsgServiceDesc "serve" Msg_serviceDesc_serve ++
   RegisterMsgServiceDesc "emissions" Msg_serviceDesc_emissions ++
   RegisterMsgServiceDesc "bandwidth" Msg_serviceDesc_bandwidth ++
   RegisterMsgServiceDesc "identity" Msg_serviceDesc_identity ++
   RegisterMsgServiceDesc "reputation" Msg_serviceDesc_reputation ++
   RegisterMsgServiceDesc "attestation" Msg_serviceDesc_attestation)%list.
Lemma decoded_is_handled : decoders.*1 = handled.
Proof. reflexivity. Qed.
Lemma handled_is_registered u : u ∈ handled <-> u ∈ RegisterInterfaces.
Proof.
  split.
  - revert u. apply Forall_forall, (bool_decide_unpack _). vm_compute. exact I.
  - revert u. apply Forall_forall, (bool_decide_unpack _). vm_compute. exact I.
Qed.
