(* ===== verification/AppFacts.v ===== *)
(** * Facts about the wired application

    What a handler can do to the other modules: a module changes the state of
    its peers only through the operations of its expected keepers ([moves]).
    From this follow, for every message and epoch end, the stores that stay as
    they are and the steps the others make. *)

From S2P Require Import Prelude Bytes Store Wire Ifaces Org OrgFacts App.
From S2P Require Emissions EmissionsFacts Identity Bandwidth Attestation Memory MemoryFacts MemoryProps.
From S2P Require Serve ServeFacts ServeProps Reputation ReputationProps.
Local Open Scope string_scope.
Local Open Scope N_scope.

(** ** Frames *)

(** However a computation ends, its peers move along [R]. *)
Definition moves {V P A} (R : relation P) (m : M (St V P) A) : Prop :=
  forall s r s', m s = (r, s') -> R (peers s) (peers s').

Create HintDb frame.

Section Frame.
Context {V P : Type} (R : relation P) {PRE : PreOrder R}.

Lemma moves_read_only {A} (m : M (St V P) A) : read_only m -> moves R m.
Proof. intros Hm s r s' ->%Hm. done. Qed.

Lemma moves_bind {A C} (m : M (St V P) A) (f : A -> M (St V P) C) :
  moves R m -> (forall a, moves R (f a)) -> moves R (m ≫= f).
Proof.
  intros Hm Hf s r s'. unfold mbind, M_bind. destruct (m s) as [[a|e] s1] eqn:E; intros H.
  - etrans; [by eapply Hm|by eapply Hf].
  - simplify_eq. by eapply Hm.
Qed.

Lemma moves_map_err {A} w (m : M (St V P) A) : moves R m -> moves R (map_err w m).
Proof.
  intros Hm s r s'. unfold map_err. destruct (m s) as [[a|e] s1] eqn:E; intros H;
    simplify_eq; by eapply Hm.
Qed.

Lemma moves_attempt {A} (m : M (St V P) A) : moves R m -> moves R (attempt m).
Proof.
  intros Hm s r s'. unfold attempt. destruct (m s) as [r1 s1] eqn:E. intros H.
  simplify_eq. by eapply Hm.
Qed.

Lemma moves_for_each {A} (l : list A) (body : A -> M (St V P) unit) :
  (forall x, moves R (body x)) -> moves R (for_each l body).
Proof.
  intros Hb s r s'. eapply (for_each_preserves (fun s1 => R (peers s) (peers s1))); [|done].
  intros x s0 r0 s1 _ H0 H1. etrans; [exact H0|by eapply Hb].
Qed.

Lemma moves_kset k v : moves R (kset (V := V) k v).
Proof. intros s r s'. unfold kset. by intros [= <- <-]. Qed.
Lemma moves_kdel k : moves R (kdel (V := V) k).
Proof. intros s r s'. unfold kdel. by intros [= <- <-]. Qed.
Lemma moves_emit e : moves R (emit (V := V) e).
Proof. intros s r s'. unfold emit. by intros [= <- <-]. Qed.
Lemma moves_on_peers {A} (m : M P A) :
  (forall p r p', m p = (r, p') -> R p p') -> moves R (on_peers (V := V) m).
Proof.
  intros Hm s r s'. unfold on_peers. destruct (m (peers s)) as [r1 p] eqn:E.
  intros [= <- <-]. by eapply Hm.
Qed.
End Frame.

(** Splits a handler into its calls; the calls of peers are left to [frame]. *)
Ltac frame_step :=
  lazymatch goal with
  | |- moves ?R ?m =>
      lazymatch m with
      | _ ≫= _ => apply (moves_bind R); [|intros ?]
      | map_err _ _ => apply (moves_map_err R)
      | attempt _ => apply (moves_attempt R)
      | for_each _ _ => apply (moves_for_each R); intros ?
      | kset _ _ => apply (moves_kset R)
      | kdel _ => apply (moves_kdel R)
      | emit _ => apply (moves_emit R)
      | match ?x with _ => _ end => destruct x
      | _ => first
          [ progress cbv zeta
          | solve [eauto with frame]
          | apply (moves_read_only R); solve [eauto with ro] ]
      end
  end.
Ltac frame := repeat frame_step.

(** ** Aggregates of the org store *)

(** The records stay those of the same orgs: id, slot, leader, wallets, status
    and member count are kept. *)
Definition agg_step (m m' : gmap string org_val) : Prop :=
  exists id o o', m !! orgKey id = Some (VOrg o) /\ m' = <[orgKey id := VOrg o']> m /\
    so_OrgId o' = so_OrgId o /\ so_Slot o' = so_Slot o /\ so_Leader o' = so_Leader o /\
    so_LeaderWalletAddress o' = so_LeaderWalletAddress o /\ so_Status o' = so_Status o /\
    so_TotalActiveMembers o' = so_TotalActiveMembers o.

Lemma agg_step_count m m' id : agg_step m m' -> member_count id m' = member_count id m.
Proof. intros (id' & o & o' & _ & -> & _). by apply member_count_insert_out. Qed.

Lemma agg_step_inv m m' : org_inv m -> agg_step m m' -> org_inv m'.
Proof. intros HI (id & o & o' & Ho & -> & ? & ? & ? & _ & _ & ?). by eapply inv_update. Qed.

Lemma agg_step_epoch m m' : agg_step m m' -> m' !! "epoch/current" = m !! "epoch/current".
Proof. intros (id & o & o' & _ & -> & _). by apply lookup_insert_ne. Qed.

(** No operation of the org module writes the epoch it reads. *)
Lemma org_step_epoch m m' : org_step m m' -> m' !! "epoch/current" = m !! "epoch/current".
Proof. intros H. destruct H; subst; by rewrite ?lookup_insert_ne, ?lookup_delete_ne by done. Qed.

Lemma agg_step_roles m m' : roles_ok m -> agg_step m m' -> roles_ok m'.
Proof. intros HR (id & o & o' & Ho & -> & _). by apply roles_insert_other. Qed.

(** ** What the operations behind the interfaces do *)
Section Peers.
Context {B F : Type} {ADDR : Addresses} {BANK : BankKeeper B} {FEEGRANT : FeegrantKeeper F}
  {URL : UrlParser} {CRYPTO : Crypto} {JSON : Memory.JsonTags}.
Notation app := (App B F).
Implicit Types (a : app).

(** The effect of the memory and serve modules on their peers. *)
Record peer_rel a a' : Prop := {
  pr_org : rtc agg_step (a_org a) (a_org a');
  pr_reputation : ReputationProps.rep_good (a_reputation a) ->
    ReputationProps.rep_good (a_reputation a');
  pr_identity : a_identity a' = a_identity a;
  pr_memory : a_memory a' = a_memory a;
  pr_serve : a_serve a' = a_serve a;
  pr_emissions : a_emissions a' = a_emissions a;
  pr_attestation : a_attestation a' = a_attestation a;
  pr_bank : a_bank a' = a_bank a;
}.

#[export] Instance peer_rel_preorder : PreOrder peer_rel.
Proof.
  split.
  - intros a. by split.
  - intros a b c [] []. split; try congruence; [by etrans|auto].
Qed.

(** The effect of the emissions module. *)
Definition bank_rel a a' : Prop := exists b, a' = set_bank b a.

#[export] Instance bank_rel_preorder : PreOrder bank_rel.
Proof.
  split.
  - intros a. exists (a_bank a). by destruct a.
  - intros a b c [x ->] [y ->]. by exists y.
Qed.

(** The effect of the other modules: none. *)
#[export] Instance eq_preorder : PreOrder (@eq app).
Proof. split; [done|]. intros ? ? ? -> ->. done. Qed.

Lemma ro_getStoredOrg id : read_only (getStoredOrg (B := B) (F := F) id).
Proof. unfold getStoredOrg. apply ro_bind; [eauto with ro|]. intros [v|]; eauto with ro. Qed.

Lemma in_org_aggregate id fn a r a' :
  (forall o e, so_OrgId (fn o e) = so_OrgId o /\ so_Slot (fn o e) = so_Slot o /\
     so_Leader (fn o e) = so_Leader o /\
     so_LeaderWalletAddress (fn o e) = so_LeaderWalletAddress o /\
     so_Status (fn o e) = so_Status o /\
     so_TotalActiveMembers (fn o e) = so_TotalActiveMembers o) ->
  in_org (modifyOrgAggregate id fn) a = (r, a') -> peer_rel a a'.
Proof.
  intros Hfn H. unfold in_org in H. destruct (modifyOrgAggregate id fn _) as [r1 s1] eqn:E.
  injection H as <- <-. unfold modifyOrgAggregate in E.
  assert (peers s1 = (a_bank a, a_feegrant a) /\ rtc agg_step (a_org a) (kv s1)) as [Hp Hs].
  { destruct r1 as [u|e].
    - unfold getStoredOrg in E. mok E; try discriminate. cbn in *. split; [done|].
      match goal with H : match ?v with _ => _ end = Ok _ |- _ => destruct v; simplify_eq end.
      apply rtc_once. eexists id, _, _. split; [done|]. split; [done|]. apply Hfn.
    - apply ro_bind_err in E as [->|(o & _ & E)]; [done| |apply ro_getStoredOrg].
      ro_err E. discriminate E. }
  destruct s1 as [m1 p1 e1]. cbn in Hp, Hs. subst p1. by destruct a; split.
Qed.

(** A failed keeper operation of the reputation module has written nothing. *)
Definition fails_clean {A} (m : M (St Reputation.rep_val unit) A) : Prop :=
  forall s e s', m s = (Err e, s') -> s' = s.

Lemma in_reputation_rel c a r a' :
  fails_clean (Reputation.handle reputation_keeper c) ->
  in_reputation (Reputation.handle reputation_keeper c) a = (r, a') -> peer_rel a a'.
Proof.
  intros Hc H. unfold in_reputation in H.
  destruct (Reputation.handle reputation_keeper c _) as [r1 s1] eqn:E. injection H as <- <-.
  split; try (by destruct a). intros HI. cbn in HI |- *. destruct r1 as [u|e].
  - eapply ReputationProps.deliver_rep_good; [|by apply deliver_run in E]. done.
  - apply Hc in E as ->. done.
Qed.

Lemma RecordServe_clean c o e b : fails_clean (Reputation.RecordServe c o e b).
Proof.
  intros s er s' H. unfold Reputation.RecordServe, Reputation.require_active in H.
  ro_err H. discriminate H.
Qed.
Lemma profile_clean c o f : fails_clean (Reputation.modify_profile c o f).
Proof. intros s er s' H. unfold Reputation.modify_profile in H. ro_err H. discriminate H. Qed.
Lemma leader_clean p o f : fails_clean (Reputation.modify_leader p o f).
Proof.
  intros s er s' H. unfold Reputation.modify_leader, Reputation.SetLeaderProfile in H.
  ro_err H. discriminate H.
Qed.
Lemma moderator_clean p o : fails_clean (Reputation.IncrementModeratorUpheld p o).
Proof.
  intros s er s' H.
  unfold Reputation.IncrementModeratorUpheld, Reputation.SetModeratorProfile in H.
  ro_err H. discriminate H.
Qed.

(** The operations the memory and serve keepers call. *)
Definition keeper_call (c : Reputation.rep_call) : bool :=
  match c with
  | Reputation.RecordServeCall _ _ _ _ | Reputation.IncrementContributionCall _ _ _
  | Reputation.ModeratorUpheldCall _ _ | Reputation.LeaderCommitCall _ _
  | Reputation.LeaderUpheldCall _ _ => true
  | _ => false
  end.

Lemma keeper_call_clean c :
  keeper_call c = true -> fails_clean (Reputation.handle reputation_keeper c).
Proof.
  destruct c; try done; intros _; cbn [Reputation.handle].
  - apply RecordServe_clean.
  - unfold Reputation.IncrementContribution. apply profile_clean.
  - apply moderator_clean.
  - unfold Reputation.IncrementLeaderChainCommit. apply leader_clean.
  - unfold Reputation.IncrementLeaderUpheldReport. apply leader_clean.
Qed.

Lemma in_bandwidth_rel {A} (m : M (St Bandwidth.bw_val app) A) a r a' :
  moves eq m -> in_bandwidth m a = (r, a') -> peer_rel a a'.
Proof.
  intros Hm H. unfold in_bandwidth, in_store in H. destruct (m _) as [r1 s1] eqn:E.
  injection H as <- <-. apply Hm in E. destruct s1 as [m1 p1 e1]. cbn in E. subst p1.
  by destruct a; split.
Qed.

Lemma frame_aggregate {V} id fn :
  (forall o e, so_OrgId (fn o e) = so_OrgId o /\ so_Slot (fn o e) = so_Slot o /\
     so_Leader (fn o e) = so_Leader o /\
     so_LeaderWalletAddress (fn o e) = so_LeaderWalletAddress o /\
     so_Status (fn o e) = so_Status o /\
     so_TotalActiveMembers (fn o e) = so_TotalActiveMembers o) ->
  moves (V := V) peer_rel (on_peers (in_org (modifyOrgAggregate id fn))).
Proof. intros Hfn. apply moves_on_peers. intros *. by apply in_org_aggregate. Qed.

Lemma frame_reputation {V} c :
  keeper_call c = true ->
  moves (V := V) peer_rel (on_peers (in_reputation (Reputation.handle reputation_keeper c))).
Proof. intros Hc. apply moves_on_peers. intros *. apply in_reputation_rel. by apply keeper_call_clean. Qed.

(** *** The memory module *)

(** The peers move along any preorder that the calls of the org keeper about
    the org of the message, and those of the reputation keeper, move along. *)
Section MemoryMoves.
Context (R : relation app) {PRE : PreOrder R} (id : string).
Hypothesis Hcommitted : forall V,
  moves (V := V) R (on_peers (Memory.IncrementOrgCommittedMemories (P := app) id)).
Hypothesis Hupheld : forall V,
  moves (V := V) R (on_peers (Memory.IncrementOrgUpheldReports (P := app) id)).
Hypothesis Hactivity : forall V e,
  moves (V := V) R (on_peers (Memory.SetOrgLastActivityEpoch (P := app) id e)).
Hypothesis Hreputation : forall V c, keeper_call c = true ->
  moves (V := V) R (on_peers (in_reputation (Reputation.handle reputation_keeper c))).

Lemma memory_moves ctx m :
  (forall o sg, MemoryProps.decision m = Some (o, sg) -> o = id) ->
  moves R (Memory.handle (P := app) memory_keeper ctx m).
Proof.
  intros Hid.
  assert (forall V c o cid, moves (V := V) R (on_peers (Memory.IncrementContribution (P := app) c o cid))) as H4
    by (intros; by apply (Hreputation _ (Reputation.IncrementContributionCall c o cid))).
  assert (forall V p o, moves (V := V) R (on_peers (Memory.IncrementModeratorUpheld (P := app) p o))) as H5
    by (intros; by apply (Hreputation _ (Reputation.ModeratorUpheldCall p o))).
  assert (forall V p o, moves (V := V) R (on_peers (Memory.IncrementLeaderChainCommit (P := app) p o))) as H6
    by (intros; by apply (Hreputation _ (Reputation.LeaderCommitCall p o))).
  assert (forall V p o, moves (V := V) R (on_peers (Memory.IncrementLeaderUpheldReport (P := app) p o))) as H7
    by (intros; by apply (Hreputation _ (Reputation.LeaderUpheldCall p o))).
  destruct m; cbn [Memory.handle]; try specialize (Hid _ _ eq_refl);
    unfold Memory.MsgServer_SubmitCommitment, Memory.MsgServer_ApproveMemory,
      Memory.MsgServer_ReportMemory, Memory.MsgServer_UpdateParams, Memory.AfterEpochEnd,
      Memory.requireLeaderWallet, Memory.SubmitCommitment, Memory.ApproveMemory,
      Memory.ReportMemory, Memory.SetParams, Memory.setCurrentEpoch, Memory.CheckEpochExpiry,
      Memory.expire_entry, Memory.saveMemoryCommitment, Memory.ComputeAndStoreEpochMerkleRoot;
    try (cbn in Hid; rewrite Hid); frame.
Qed.
End MemoryMoves.

Lemma memory_frame ctx m : moves peer_rel (Memory.handle (P := app) memory_keeper ctx m).
Proof.
  apply (memory_moves peer_rel (default "" (fst <$> MemoryProps.decision m)));
    [intros V|intros V|intros V e|intros; by apply frame_reputation|by intros o sg ->];
    cbn [Memory.IncrementOrgCommittedMemories Memory.IncrementOrgUpheldReports
      Memory.SetOrgLastActivityEpoch memory_org];
    unfold IncrementOrgCommittedMemories, IncrementOrgUpheldReports, SetOrgLastActivityEpoch;
    apply frame_aggregate; intros; split_and!; reflexivity.
Qed.

(** *** The serve module *)
Section ServeMoves.
Context (R : relation app) {PRE : PreOrder R}.
Hypothesis Hrecord : forall V c o e b,
  moves (V := V) R (on_peers (Serve.RecordServe (P := app) c o e b)).
Hypothesis Hconsume : forall V o e n,
  moves (V := V) R (on_peers (Serve.ConsumeServeBandwidth (P := app) o e n)).
#[local] Hint Resolve Hrecord Hconsume : frame.

Lemma moves_process {X} (body : X -> M (St Serve.serve_val app) Serve.verdict) c l :
  (forall x, moves R (body x)) -> moves R (Serve.process body c l).
Proof.
  intros Hb. revert c. induction l as [|x l IH]; intros c; cbn [Serve.process]; frame; auto.
Qed.

Lemma process_serve_moves params o e sv : moves R (Serve.process_serve (P := app) params o e sv).
Proof.
  unfold Serve.process_serve, Serve.attribute_serve, Serve.record_serve,
    Serve.incrementMemoryServeCount, Serve.updateEpochStats, Serve.first_time,
    Serve.modify_stats, Serve.incr_uint64, Serve.updateContributorServes. frame.
Qed.
Lemma process_denial_moves o e en : moves R (Serve.process_denial (P := app) o e en).
Proof.
  unfold Serve.process_denial, Serve.IncrementDenialCount, Serve.updateEpochDenialStats,
    Serve.StoreDenialReceipt, Serve.modify_stats, Serve.incr_uint64. frame.
Qed.
Lemma process_event_moves o e en : moves R (Serve.process_event (P := app) o e en).
Proof. unfold Serve.process_event. frame. Qed.

Lemma serve_moves ctx m : moves R (Serve.handle (P := app) serve_keeper ctx m).
Proof.
  destruct m; cbn [Serve.handle];
    unfold Serve.MsgServer_SubmitServeBatch, Serve.MsgServer_SubmitDenialBatch,
      Serve.MsgServer_SubmitEventBatch, Serve.MsgServer_AnchorPolicyVersion,
      Serve.MsgServer_UpdateParams, Serve.ProcessServeBatch, Serve.ProcessEventBatch,
      Serve.SetPolicyAnchor, Serve.require_org, Serve.requireServingKeySigner, Serve.SetParams;
    frame; apply moves_process; intros x;
    eauto using process_serve_moves, process_denial_moves, process_event_moves.
Qed.
End ServeMoves.

Lemma frame_record_serve V c o e b :
  moves (V := V) peer_rel (on_peers (Serve.RecordServe (P := app) c o e b)).
Proof. by apply (frame_reputation (Reputation.RecordServeCall c o e b)). Qed.
Lemma consume_apart o e n :
  moves (P := app) eq (Bandwidth.ConsumeServeBandwidth o e n).
Proof. unfold Bandwidth.ConsumeServeBandwidth, Bandwidth.GetOrInitBandwidthState. frame. Qed.
Lemma consume_rel o e n (a : app) r a' :
  Serve.ConsumeServeBandwidth o e n a = (r, a') -> peer_rel a a'.
Proof. apply in_bandwidth_rel, consume_apart. Qed.
Lemma consume_memory o e n (a : app) r a' :
  Serve.ConsumeServeBandwidth o e n a = (r, a') -> a_memory a' = a_memory a.
Proof. intros H. by apply consume_rel, pr_memory in H. Qed.
Lemma frame_consume V o e n :
  moves (V := V) peer_rel (on_peers (Serve.ConsumeServeBandwidth (P := app) o e n)).
Proof. apply moves_on_peers. apply consume_rel. Qed.
#[local] Hint Resolve frame_record_serve frame_consume : frame.

Lemma process_serve_frame params o e sv :
  moves peer_rel (Serve.process_serve (P := app) params o e sv).
Proof. apply (process_serve_moves peer_rel frame_record_serve). Qed.
Lemma process_denial_frame o e en : moves peer_rel (Serve.process_denial (P := app) o e en).
Proof. apply (process_denial_moves peer_rel). Qed.
Lemma process_event_frame o e en : moves peer_rel (Serve.process_event (P := app) o e en).
Proof. apply (process_event_moves peer_rel). Qed.
Lemma serve_frame ctx m : moves peer_rel (Serve.handle (P := app) serve_keeper ctx m).
Proof. apply (serve_moves peer_rel frame_record_serve frame_consume). Qed.

(** Every receipt is for an approved memory. *)
Definition linked (mem : gmap string Memory.mem_val) (m : gmap string Serve.serve_val) : Prop :=
  forall key r, m !! key = Some (Serve.VReceipt r) ->
    is_ok (Memory.GetApprovedMemory mem (Serve.sr_OrgId r) (Serve.sr_MemoryContentHash r)) = true.

Lemma linked_same mem m m' :
  ServeFacts.serve_inv m -> ServeFacts.serve_inv m' ->
  (forall q, ServeFacts.receipts_total q m' = ServeFacts.receipts_total q m) ->
  linked mem m -> linked mem m'.
Proof.
  intros HI HI' Hq HL key r Hr. destruct (ServeFacts.receipt_of_total m r) as [key' Hk].
  { rewrite <- Hq. by eapply ServeFacts.total_of_receipt. }
  by eapply HL.
Qed.

Lemma linked_one_more mem m m' r :
  ServeFacts.serve_inv m -> ServeFacts.one_more m m' r ->
  is_ok (Memory.GetApprovedMemory mem (Serve.sr_OrgId r) (Serve.sr_MemoryContentHash r)) = true ->
  linked mem m -> linked mem m'.
Proof.
  intros HI H1 Hr HL key r' Hr'. destruct (ServeFacts.one_more_old _ _ _ _ _ HI H1 Hr') as [?| ->]; eauto.
Qed.

Lemma linked_other mem m k v :
  (forall r, v <> Serve.VReceipt r) -> linked mem m -> linked mem (<[k:=v]> m).
Proof. intros Hv HL key r [[_ Hr]|[_ Hr]]%lookup_insert_Some; [by destruct (Hv r)|eauto]. Qed.

(** The loops over a batch. *)
Definition serve_ok (a : app) (s : St Serve.serve_val app) : Prop :=
  ServeFacts.serve_inv (kv s) /\ a_memory (peers s) = a_memory a /\ linked (a_memory a) (kv s).

Lemma process_serve_ok a params o e sv s v s' :
  serve_ok a s -> Serve.process_serve params o e sv s = (Ok v, s') -> serve_ok a s'.
Proof.
  intros (HI & Hm & HL) H. pose proof (pr_memory _ _ (process_serve_frame _ _ _ _ _ _ _ H)) as Hp.
  pose proof (ServeFacts.process_serve_good _ _ _ _ _ _ _ HI H) as [HI' _].
  split; [done|]. split; [congruence|].
  apply ServeFacts.process_serve_spec in H; [|done]. destruct v; [|by destruct H as [-> _]|by subst].
  destruct H as (_ & _ & Hok & _ & _ & b & H1). eapply linked_one_more; [exact HI|exact H1| |done].
  cbn. rewrite <- Hm. cbn in Hok. by destruct (Memory.GetApprovedMemory _ _ _).
Qed.

Lemma process_denial_ok a o e en s v s' :
  serve_ok a s -> Serve.process_denial o e en s = (Ok v, s') -> serve_ok a s'.
Proof.
  intros (HI & Hm & HL) H. pose proof (pr_memory _ _ (process_denial_frame _ _ _ _ _ _ H)) as Hp.
  apply ServeFacts.process_denial_spec in H; [|done].
  destruct v; [|by destruct H as [-> _]|by subst].
  destruct H as (_ & _ & _ & _ & [HI' _] & Hq & _). split; [done|]. split; [congruence|].
  by apply (linked_same _ (kv s)); auto.
Qed.

Lemma process_event_ok a o e en s v s' :
  serve_ok a s -> Serve.process_event o e en s = (Ok v, s') -> serve_ok a s'.
Proof.
  intros (HI & Hm & HL) H. pose proof (pr_memory _ _ (process_event_frame _ _ _ _ _ _ H)) as Hp.
  apply ServeFacts.process_event_spec in H; [|done]. destruct v; [|by subst..].
  destruct H as (? & ? & _ & _ & _ & _ & _ & _ & [HI' _] & Hq). split; [done|]. split; [congruence|].
  by apply (linked_same _ (kv s)); auto.
Qed.

Lemma serve_linked ctx msg s u s' :
  ServeFacts.serve_inv (kv s) -> linked (a_memory (peers s)) (kv s) ->
  Serve.handle (P := app) serve_keeper ctx msg s = (Ok u, s') ->
  linked (a_memory (peers s)) (kv s').
Proof.
  intros HI HL H.
  assert (forall s0, kv s0 = kv s -> a_memory (peers s0) = a_memory (peers s) -> serve_ok (peers s) s0) as H0.
  { intros s0 Hk Hp. unfold serve_ok. by rewrite Hk, Hp. }
  destruct msg; cbn [Serve.handle] in H.
  - unfold Serve.MsgServer_SubmitServeBatch, Serve.require_org, Serve.requireServingKeySigner,
      Serve.ProcessServeBatch in H. mok H. cbn [kv peers] in *.
    match goal with H : Serve.ConsumeServeBandwidth _ _ _ _ = _ |- _ =>
      apply consume_memory in H end.
    match goal with H : Serve.process _ _ _ _ = _ |- _ =>
      eapply (ServeFacts.process_keeps (serve_ok (peers s))) in H; [apply H|..] end.
    + intros. by eapply process_serve_ok.
    + by apply H0.
  - unfold Serve.MsgServer_SubmitDenialBatch, Serve.require_org, Serve.requireServingKeySigner in H.
    mok H. cbn [kv peers] in *.
    match goal with H : Serve.process _ _ _ _ = _ |- _ =>
      eapply (ServeFacts.process_keeps (serve_ok (peers s))) in H; [apply H|..] end.
    + intros. by eapply process_denial_ok.
    + by apply H0.
  - unfold Serve.MsgServer_SubmitEventBatch, Serve.require_org, Serve.requireServingKeySigner,
      Serve.ProcessEventBatch in H. mok H. cbn [kv peers] in *.
    match goal with H : Serve.process _ _ _ _ = _ |- _ =>
      eapply (ServeFacts.process_keeps (serve_ok (peers s))) in H; [apply H|..] end.
    + intros. by eapply process_event_ok.
    + by apply H0.
  - unfold Serve.MsgServer_AnchorPolicyVersion, Serve.SetPolicyAnchor in H. mok H; [done|].
    cbn [kv]. by do 2 (apply linked_other; [done|]).
  - unfold Serve.MsgServer_UpdateParams, Serve.SetParams in H. mok H. cbn [kv].
    by apply linked_other.
Qed.

(** *** The emissions module *)
Lemma frame_bank {V A} (m : M B A) :
  moves (V := V) bank_rel (on_peers (via_bank (S := app) a_bank set_bank m)).
Proof.
  apply moves_on_peers. intros p r p'. unfold via_bank. destruct (m (a_bank p)) as [r1 b].
  intros [= <- <-]. by exists b.
Qed.

Lemma mint_frame e : moves bank_rel (Emissions.MintDailyEmission (P := app) e).
Proof.
  unfold Emissions.MintDailyEmission, Emissions.distribute, Emissions.AddContributorReward,
    Emissions.SetEmissionPool. frame. apply frame_bank.
Qed.

Lemma emissions_hook_frame i n : moves bank_rel (Emissions.AfterEpochEnd (P := app) i n).
Proof. unfold Emissions.AfterEpochEnd. frame. apply mint_frame. Qed.

Lemma mint_msg_frame k m : moves bank_rel (Emissions.MsgServer_MintDailyEmission (P := app) k m).
Proof. unfold Emissions.MsgServer_MintDailyEmission. frame. apply mint_frame. Qed.

Lemma claim_frame m : moves bank_rel (Emissions.MsgServer_ClaimContributorReward (P := app) m).
Proof.
  unfold Emissions.MsgServer_ClaimContributorReward, Emissions.SetContributorReward.
  frame. apply frame_bank.
Qed.
Lemma moves_eq_bank {V A} (m : M (St V app) A) : moves eq m -> moves bank_rel m.
Proof. intros Hm s r s' H. apply Hm in H as <-. reflexivity. Qed.

End Peers.

(** The messages that touch their own store and the bank only. *)
Ltac bank_frame :=
  first [ apply mint_msg_frame | apply claim_frame
        | apply moves_eq_bank;
          unfold Emissions.MsgServer_UpdateParams, Emissions.SetParams,
            Bandwidth.MsgServer_SetBandwidthOverride, Bandwidth.SetBandwidthOverride,
            Bandwidth.MsgServer_UpdateParams, Bandwidth.SetParams,
            Identity.MigrateIdentity, Identity.SetAlias,
            Attestation.MsgServer_SubmitSessionAttestation,
            Attestation.MsgServer_UpdateParams, Attestation.SetParams; frame ].
