(* ===== verification/AppProps.v ===== *)
(** * Properties of the application

    What holds of the eight modules together, on every run of transactions and
    epoch ends from genesis: all the module invariants at once, and the
    properties that need several modules. *)

From S2P Require Import Prelude Bytes Store Wire Ifaces Org OrgFacts App AppFacts.
From S2P Require OrgProps Emissions EmissionsFacts EmissionsProps Identity Bandwidth Attestation.
From S2P Require Memory MemoryFacts MemoryProps Serve ServeFacts ServeProps ServeGenesis Reputation ReputationProps.
Local Open Scope string_scope.
Local Open Scope N_scope.

Section AppProps.
Context {B F : Type} {ADDR : Addresses} {BANK : BankKeeper B} {FEEGRANT : FeegrantKeeper F}
  {URL : UrlParser} {CRYPTO : Crypto} {JSON : Memory.JsonTags}.
Notation app := (App B F).
Implicit Types (a : app).

(** ** The invariant

    [n] bounds the number of members of an org: every message adds at most
    one. *)
Record app_inv (n : N) a : Prop := {
  ai_org : org_inv (a_org a);
  ai_roles : roles_ok (a_org a);
  ai_count id : member_count id (a_org a) <= n;
  ai_memory : MemoryFacts.mem_inv (a_memory a);
  ai_serve : ServeFacts.serve_inv (a_serve a);
  ai_epoch : a_org a !! "epoch/current" = None;
  ai_reputation : ReputationProps.rep_good (a_reputation a);
  ai_linked : linked (a_memory a) (a_serve a);
  ai_placed : map_Forall ServeGenesis.placed (a_serve a);
}.

Lemma app_inv_le n n' a : n <= n' -> app_inv n a -> app_inv n' a.
Proof. intros Hn []. split; try done. intros id. specialize (ai_count0 id). lia. Qed.

Lemma aggs_keep m m' :
  rtc agg_step m m' -> org_inv m -> roles_ok m ->
  org_inv m' /\ roles_ok m' /\ (forall id, member_count id m' = member_count id m) /\
  m' !! "epoch/current" = m !! "epoch/current".
Proof.
  induction 1 as [m|m m1 m' H1 _ IH]; intros HI HR; [done|].
  destruct IH as (? & ? & Hc & He); eauto using agg_step_inv, agg_step_roles.
  split_and!; try done; [intros id; rewrite Hc; by apply agg_step_count|].
  rewrite He. by apply agg_step_epoch.
Qed.

(** An approved memory stays approved along the steps of the memory store. *)
Lemma approved_mono m m' o h :
  MemoryFacts.mem_inv m ->
  (forall c, MemoryProps.kept o h c m -> MemoryProps.kept o h c m') ->
  is_ok (Memory.GetApprovedMemory m o h) = true -> is_ok (Memory.GetApprovedMemory m' o h) = true.
Proof.
  intros HI Hk H. unfold Memory.GetApprovedMemory in *.
  destruct (m !! Memory.approvedKey o h) as [v|] eqn:E; [|done].
  destruct (MemoryFacts.wf_approved _ _ _ _ (MemoryFacts.inv_wf _ HI) E) as (c & -> & _).
  destruct (Hk c) as (st & -> & _); [|done].
  exists (Memory.sm_State c). rewrite MemoryProps.with_state_same. auto.
Qed.

Lemma kept_epochs o h c e m m' :
  MemoryProps.kept o h c m -> rtc (MemoryFacts.epoch_step e) m m' -> MemoryProps.kept o h c m'.
Proof. intros Hk H. induction H; eauto using MemoryProps.kept_epoch. Qed.

Lemma linked_mono mem mem' m :
  MemoryFacts.mem_inv mem ->
  (forall o h c, MemoryProps.kept o h c mem -> MemoryProps.kept o h c mem') ->
  linked mem m -> linked mem' m.
Proof. intros HI Hk HL key r Hr. eapply approved_mono; eauto. Qed.

(** After the memory store has moved, with peers moved along [peer_rel]. *)
Lemma app_inv_memory n a p mem' es :
  app_inv n a -> peer_rel a p -> MemoryFacts.mem_inv mem' ->
  (forall o h c, MemoryProps.kept o h c (a_memory a) -> MemoryProps.kept o h c mem') ->
  app_inv n (set_evs es (set_memory mem' p)).
Proof.
  intros [HO HR HC HM HS HE HP HL HQ] [Horg Hrep _ Hmem Hsrv _ _ _] HM' Hk.
  destruct (aggs_keep _ _ Horg HO HR) as (? & ? & Hc & He).
  split; cbn; rewrite ?Hsrv, ?He; auto.
  - intros id. by rewrite Hc.
  - exact (linked_mono _ _ _ HM Hk HL).
Qed.

Lemma app_inv_serve n a p m' es :
  app_inv n a -> peer_rel a p -> ServeFacts.serve_inv m' -> linked (a_memory a) m' ->
  map_Forall ServeGenesis.placed m' -> app_inv n (set_evs es (set_serve m' p)).
Proof.
  intros [HO HR HC HM HS HE HP HL HQ] [Horg Hrep _ Hmem Hsrv _ _ _] HS' HL' HQ'.
  destruct (aggs_keep _ _ Horg HO HR) as (? & ? & Hc & He).
  split; cbn; rewrite ?Hmem, ?He; auto. intros id. by rewrite Hc.
Qed.

(** The stores of the other modules do not matter. *)
Lemma app_inv_other n a a' :
  app_inv n a -> a_org a' = a_org a -> a_memory a' = a_memory a -> a_serve a' = a_serve a ->
  a_reputation a' = a_reputation a -> app_inv n a'.
Proof. intros [] H1 H2 H3 H4. by split; rewrite ?H1, ?H2, ?H3, ?H4. Qed.

(** ** Handlers on the application *)
Lemma in_store_run {V A} get put (m : M (St V app) A) a r a' :
  in_store get put m a = (r, a') ->
  exists s', m (mkSt (get a) a (a_evs a)) = (r, s') /\
    a' = set_evs (evs s') (put (kv s') (peers s')).
Proof. unfold in_store. destruct (m _) as [r1 s']. intros [= <- <-]. eauto. Qed.

(** A handler that only moves the bank, on a store no invariant is about. *)
Lemma app_inv_bank {V A} get (put : gmap string V -> app -> app) (m : M (St V app) A) n a r a' :
  moves bank_rel m ->
  (forall v a, a_org (put v a) = a_org a /\ a_memory (put v a) = a_memory a /\
     a_serve (put v a) = a_serve a /\ a_reputation (put v a) = a_reputation a) ->
  app_inv n a -> in_store get put m a = (r, a') -> app_inv n a'.
Proof.
  intros Hm Hput HI (s' & [b Hb]%Hm & ->)%in_store_run. cbn in Hb.
  destruct (Hput (kv s') (peers s')) as (H1 & H2 & H3 & H4).
  by eapply app_inv_other; [exact HI|..]; cbn; rewrite ?H1, ?H2, ?H3, ?H4, Hb.
Qed.

(** Integers of a decoded message are in range. *)
Definition app_msg_wf (m : app_msg) : Prop :=
  match m with OrgMsg x => msg_wf x | _ => True end.

Lemma org_msg_inv ctx x n a u a' :
  msg_wf x -> n + 1 < two64 -> app_inv n a ->
  in_org (Org.handle org_keeper ctx x) a = (Ok u, a') -> app_inv (n + 1) a'.
Proof.
  intros Hwf Hn HA H. unfold in_org in H.
  destruct (Org.handle _ _ _ _) as [r s'] eqn:E. injection H as -> <-.
  apply handle_step in E; [|done]. cbn [kv] in E. destruct HA as [HO HR HC HM HS HE HP HL].
  split; cbn; try done.
  - eapply org_step_inv; [done| |done]. intros id. specialize (HC id). lia.
  - by eapply org_step_roles.
  - intros id. etrans; [by eapply org_step_count|]. specialize (HC id). lia.
  - by rewrite (org_step_epoch _ _ E).
Qed.

Lemma memory_msg_inv ctx c n a u a' :
  (forall i k, c <> Memory.EpochEnd i k) -> app_inv n a ->
  in_memory (Memory.handle memory_keeper ctx c) a = (Ok u, a') -> app_inv n a'.
Proof.
  intros Hc HA (s' & H & ->)%in_store_run. pose proof (ai_memory _ _ HA) as HM.
  pose proof (memory_frame _ _ _ _ _ H) as Hp.
  apply deliver_run, MemoryFacts.deliver_msg_step in H; [|done]. cbn [kv peers] in *.
  assert (kv s' = a_memory a \/ MemoryFacts.mem_step (a_memory a) (kv s')) as [->|Hs].
  { destruct c; try done. by destruct (Hc identifier number). }
  - by eapply app_inv_memory.
  - eapply app_inv_memory; eauto using MemoryFacts.mem_step_inv, MemoryProps.kept_msg.
Qed.

Lemma serve_msg_inv ctx x n a u a' :
  app_inv n a -> in_serve (Serve.handle serve_keeper ctx x) a = (Ok u, a') -> app_inv n a'.
Proof.
  intros HA (s' & H & ->)%in_store_run. pose proof (serve_frame _ _ _ _ _ H) as Hp.
  pose proof (serve_linked _ _ (mkSt _ _ _) _ _ (ai_serve _ _ HA) (ai_linked _ _ HA) H) as HL.
  pose proof (ServeGenesis.keeps_handle _ _ _ (mkSt _ _ _) _ _ (ai_placed _ _ HA) H) as HQ.
  apply deliver_run, ServeFacts.deliver_serve_good in H as [HS _]; [|apply HA].
  by eapply app_inv_serve.
Qed.

Lemma reputation_msg_inv c n a u a' :
  app_inv n a -> in_reputation (Reputation.handle reputation_keeper c) a = (Ok u, a') ->
  app_inv n a'.
Proof.
  intros HA H. unfold in_reputation in H.
  destruct (Reputation.handle _ _ _) as [r s'] eqn:E. injection H as -> <-.
  apply deliver_run, ReputationProps.deliver_rep_good in E; [|apply HA].
  destruct HA. by split.
Qed.

Lemma route_inv ctx m n a u a' :
  app_msg_wf m -> n + 1 < two64 -> app_inv n a -> route ctx m a = (Ok u, a') ->
  app_inv (n + 1) a'.
Proof.
  intros Hwf Hn HA H. assert (forall a', app_inv n a' -> app_inv (n + 1) a') as Hle.
  { intros. eapply app_inv_le; [|done]. lia. }
  unfold route in H. destruct (memory_call m) as [c|] eqn:Ec.
  { eapply Hle, memory_msg_inv; [|exact HA|exact H]. by destruct m; simplify_eq/=. }
  destruct (reputation_call m) as [c|] eqn:Er; [by eapply Hle, reputation_msg_inv|].
  destruct m; try done; [by eapply org_msg_inv|by eapply Hle, serve_msg_inv|..]; mok H; apply Hle;
    (eapply app_inv_bank; [ | |exact HA|eassumption]; [|done]);
    bank_frame.
Qed.

Lemma tx_inv ctx msgs n a u a' :
  Forall app_msg_wf msgs -> n + N.of_nat (length msgs) < two64 -> app_inv n a ->
  for_each msgs (route ctx) a = (Ok u, a') -> app_inv (n + N.of_nat (length msgs)) a'.
Proof.
  revert n a. induction msgs as [|m msgs IH]; intros n a Hwf Hn HA H; cbn [for_each length] in *.
  - mok H. by rewrite N.add_0_r.
  - apply M_bind_ok in H as (u1 & a1 & H1 & H). apply Forall_cons in Hwf as [Hm Hwf].
    replace (n + N.of_nat (S (length msgs))) with (n + 1 + N.of_nat (length msgs)) by lia.
    eapply IH; [done|lia| |exact H]. eapply route_inv; [done|lia|done|exact H1].
Qed.

(** The two hooks at the end of an epoch, whatever the epoch's name. *)
Lemma hooks_run i k a r a' :
  AfterEpochEnd i k a = (r, a') ->
  exists r1 a1 r2, in_emissions (Emissions.AfterEpochEnd i k) a = (r1, a1) /\
    in_memory (Memory.AfterEpochEnd i k) a1 = (r2, a') /\ r = Ok tt.
Proof.
  unfold AfterEpochEnd. mrun. unfold attempt.
  destruct (in_emissions _ a) as [r1 a1] eqn:E1. destruct (in_memory _ a1) as [r2 a2] eqn:E2.
  intros [= <- <-]. by exists r1, a1, r2.
Qed.

Lemma emissions_hook_inv i k n a r a' :
  app_inv n a -> in_emissions (Emissions.AfterEpochEnd i k) a = (r, a') -> app_inv n a'.
Proof. intros HA H. eapply app_inv_bank; [| |exact HA|exact H]; [apply emissions_hook_frame|done]. Qed.

Lemma memory_hook_steps i k n a r a' :
  app_inv n a -> in_memory (Memory.AfterEpochEnd i k) a = (r, a') ->
  app_inv n a' /\ r = Ok tt /\
  rtc (MemoryFacts.epoch_step (u64_of_int64 k)) (a_memory a) (a_memory a') /\
  a_emissions a' = a_emissions a.
Proof.
  intros HA (s' & H & ->)%in_store_run.
  pose proof (memory_frame (mkCtx 0 0) (Memory.EpochEnd i k) _ _ _ H) as Hp.
  apply MemoryFacts.AfterEpochEnd_steps in H as [-> Hs]; [|apply HA]. cbn [kv] in Hs.
  split_and!; [|done|done|by apply pr_emissions in Hp].
  eapply app_inv_memory; [exact HA|exact Hp| |].
  - eapply MemoryFacts.epoch_steps_inv; [apply u64_of_int64_is|apply HA|exact Hs].
  - intros o h c Hk. by eapply kept_epochs.
Qed.

Lemma epoch_end_inv i k n a r a' :
  app_inv n a -> AfterEpochEnd i k a = (r, a') -> app_inv n a'.
Proof.
  intros HA (r1 & a1 & r2 & H1 & H2 & _)%hooks_run.
  eapply memory_hook_steps; [by eapply emissions_hook_inv|exact H2].
Qed.

(** ** Runs *)
Definition step_msgs (x : block_step) : list app_msg :=
  match x with Tx _ msgs => msgs | EpochEnd _ _ => [] end.
Definition all_msgs (l : list block_step) : list app_msg := concat (step_msgs <$> l).

Lemma exec_inv x n a r a' :
  Forall app_msg_wf (step_msgs x) -> n + N.of_nat (length (step_msgs x)) < two64 -> app_inv n a ->
  exec x a = (r, a') -> app_inv (n + N.of_nat (length (step_msgs x))) a'.
Proof.
  intros Hwf Hn HA H. destruct x as [ctx msgs|i k]; cbn [exec step_msgs] in *.
  - destruct r as [u|e].
    + apply deliver_ok in H. by eapply tx_inv.
    + apply deliver_err in H as ->. eapply app_inv_le; [|exact HA]. lia.
  - rewrite N.add_0_r. by eapply epoch_end_inv.
Qed.

Lemma run_inv l n a :
  Forall app_msg_wf (all_msgs l) -> n + N.of_nat (length (all_msgs l)) < two64 -> app_inv n a ->
  app_inv (n + N.of_nat (length (all_msgs l))) (run_app l a).
Proof.
  revert n a. induction l as [|x l IH]; intros n a Hwf Hn HA.
  { unfold all_msgs. cbn. by rewrite N.add_0_r. }
  unfold all_msgs in *. cbn [fmap list_fmap concat] in *. rewrite length_app in *.
  apply Forall_app in Hwf as [Hx Hwf].
  change (run_app (x :: l) a) with (run_app l (exec x a).2).
  destruct (exec x a) as [r a'] eqn:E. cbn [snd].
  rewrite Nat2N.inj_add, N.add_assoc. apply IH; [done|lia|].
  eapply exec_inv; [done|lia|done|exact E].
Qed.

Lemma new_app_inv bank grants : app_inv 0 (new_app bank grants).
Proof.
  destruct (OrgProps.org_genesis_inv (bank, grants)) as (HO & HR & HC).
  split; [exact HO|exact HR|intros id|exact MemoryProps.new_store_inv|
    exact ServeProps.new_chain_inv|done| | |].
  - change (member_count id (kv (OrgProps.org_genesis (bank, grants))) <= 0). by rewrite HC.
  - change (a_reputation (new_app bank grants)) with
      (<[genesisInitMarkerKey := Reputation.VRaw genesisInitMarkerValue]>
        (kv (Reputation.Module_InitGenesis (Some Reputation.DefaultGenesis) (mkSt ∅ tt [])).2)).
    cbn. split.
    + repeat (apply ReputationProps.rep_inv_other; [done..|]).
      split; intros d; unfold ReputationProps.breadth, ReputationProps.orgs_of;
        by rewrite ?lookup_empty.
    + repeat (apply ReputationProps.rep_typed_insert; [|ReputationProps.shape_ok]).
      apply map_Forall_empty.
  - intros key r Hr. change (ServeProps.new_chain !! key = Some (Serve.VReceipt r)) in Hr.
    unfold ServeProps.new_chain in Hr. apply lookup_singleton_Some in Hr as [_ Hr]. discriminate Hr.
  - exact ServeGenesis.new_chain_placed.
Qed.

Lemma new_app_run_inv bank grants l :
  Forall app_msg_wf (all_msgs l) -> N.of_nat (length (all_msgs l)) < two64 ->
  app_inv (N.of_nat (length (all_msgs l))) (run_app l (new_app bank grants)).
Proof. intros Hwf Hn. by apply (run_inv l 0); [..|apply new_app_inv]. Qed.

(** ** Properties of the whole application *)

(** C5: on every run of transactions and epoch ends from the default genesis
    all the module invariants hold together, although the memory and serve
    modules write to the stores of the org, bandwidth and reputation modules:
    org records, roles and member counters, approved-memory records and
    counters, receipts and serve counters, reputation statistics. *)
Theorem app_runs_keep_invariants bank grants l :
  Forall app_msg_wf (all_msgs l) -> N.of_nat (length (all_msgs l)) < two64 ->
  let a := run_app l (new_app bank grants) in
  org_inv (a_org a) /\ roles_ok (a_org a) /\ MemoryFacts.mem_inv (a_memory a) /\
  ServeFacts.serve_inv (a_serve a) /\ ReputationProps.rep_inv (a_reputation a).
Proof. intros Hwf Hn a. by destruct (new_app_run_inv bank grants l Hwf Hn) as [? ? ? ? ? ? [? ?] ?]. Qed.

(** C7: every serve receipt of the chain is for a memory that the memory
    module has approved for the same org and hash, on every run: the two
    modules agree although approvals and serves are interleaved at will. *)
Theorem served_memory_is_approved bank grants l fp r :
  Forall app_msg_wf (all_msgs l) -> N.of_nat (length (all_msgs l)) < two64 ->
  let a := run_app l (new_app bank grants) in
  Serve.GetServeReceiptByFingerprint (a_serve a) fp = Ok (Some r) ->
  Serve.sr_Fingerprint r = fp /\
  exists c, Memory.GetApprovedMemory (a_memory a) (Serve.sr_OrgId r)
              (Serve.sr_MemoryContentHash r) = Ok c /\
    Memory.mc_OrgID c = Serve.sr_OrgId r /\
    Memory.mc_ContentHash c = Serve.sr_MemoryContentHash r.
Proof.
  intros Hwf Hn a H. destruct (new_app_run_inv bank grants l Hwf Hn) as [_ _ _ HM HS _ _ HL].
  fold a in HM, HS, HL. unfold Serve.GetServeReceiptByFingerprint in H.
  destruct (a_serve a !! _) as [v|] eqn:Hv; [|done].
  destruct (ServeFacts.inv_pointer _ _ HS _ _ Hv) as (key & r' & -> & Hr & Hf).
  destruct (_ =? 0); [done|]. rewrite Hr in H. cbn in H. injection H as <-.
  split; [done|]. specialize (HL _ _ Hr).
  destruct (Memory.GetApprovedMemory _ _ _) as [c|] eqn:Hc; [|done]. exists c. split; [done|].
  unfold Memory.GetApprovedMemory in Hc. rok Hc.
  destruct (MemoryFacts.wf_approved _ _ _ _ (MemoryFacts.inv_wf _ HM) E) as (x & -> & ? & ?).
  by injection Hr0 as <-.
Qed.

(** A read that is either not found or returns a record with the key's fields. *)
Definition found_or {A} (notFound : error) (own : A -> Prop) (r : result A) : Prop :=
  r = Err notFound \/ exists x, r = Ok x /\ own x.

(** C12: the stores are well typed on every run.  Each of these keeper lookups
    answers the module's not-found value or a record that carries the ids it was
    looked up with: an org by its id; a member of a registered org by org id and
    key; an approved memory and a pending commitment by org id and content hash;
    the serve statistics by org id and epoch; a contributor's serves by id and
    epoch; a policy anchor by version; the reputation of a developer by id.  None
    of them ever meets a record of another type or of other ids, although all the
    records of a module share one byte store. *)
Theorem reads_are_well_typed bank grants l :
  Forall app_msg_wf (all_msgs l) -> N.of_nat (length (all_msgs l)) < two64 ->
  let a := run_app l (new_app bank grants) in
  (forall id, found_or ErrOrgNotFound (fun o => o_OrgID o = id) (GetOrg (a_org a) id)) /\
  (forall id pk, is_ok (GetOrg (a_org a) id) = true ->
     found_or ErrMemberNotFound (fun x => m_OrgID x = id /\ m_Pubkey x = pk)
       (GetMember (a_org a) id pk)) /\
  (forall o h, found_or Memory.ErrMemoryNotFound
     (fun c => Memory.mc_OrgID c = o /\ Memory.mc_ContentHash c = h)
     (Memory.GetApprovedMemory (a_memory a) o h)) /\
  (forall o h, found_or Memory.ErrCommitmentNotFound
     (fun c => Memory.pc_OrgID c = o /\ Memory.pc_ContentHash c = h)
     (Memory.GetPendingCommitment (a_memory a) o h)) /\
  (forall o e, found_or Serve.ErrStatsNotFound
     (fun x => Serve.es_OrgID x = o /\ Serve.es_Epoch x = e)
     (Serve.GetEpochServeStats (a_serve a) o e)) /\
  (forall c e, found_or Serve.ErrContributorNotFound
     (fun x => Serve.cs_ContributorID x = c /\ Serve.cs_Epoch x = e)
     (Serve.GetContributorEpochServes (a_serve a) c e)) /\
  (forall v, Serve.GetPolicyAnchor (a_serve a) v = Ok None \/
     exists x, Serve.GetPolicyAnchor (a_serve a) v = Ok (Some x) /\ Serve.pa_PolicyVersion x = v) /\
  (forall d, found_or Reputation.ErrNoStats (fun x => Reputation.rs_DeveloperID x = d)
     (Reputation.GetReputation (a_reputation a) d)).
Proof.
  intros Hwf Hn a. destruct (new_app_run_inv bank grants l Hwf Hn) as [HO _ _ [HM _] _ _ [HP HT] _ HQ].
  fold a in HO, HM, HP, HT, HQ. unfold found_or. split_and!.
  - intros id. unfold GetOrg. destruct (a_org a !! orgKey id) as [v|] eqn:E; [right|by left].
    destruct (inv_org _ HO _ _ E) as (o & -> & Hid & _). by eexists.
  - intros id pk Hok. unfold GetOrg in Hok. destruct (a_org a !! orgKey id) as [v|] eqn:E; [|done].
    destruct (inv_org _ HO _ _ E) as (o & -> & _). pose proof (inv_org_slash _ _ _ HO E) as Hf.
    unfold GetMember. destruct (a_org a !! memberKey id pk) as [w|] eqn:Ew; [right|by left].
    destruct (inv_member _ HO _ _ _ Hf Ew) as (x & o' & -> & ? & ? & _). by eexists.
  - intros o h. unfold Memory.GetApprovedMemory.
    destruct (a_memory a !! Memory.approvedKey o h) as [v|] eqn:E; [right|by left].
    destruct (MemoryFacts.wf_approved _ _ _ _ HM E) as (x & -> & ? & ?). by eexists.
  - intros o h. unfold Memory.GetPendingCommitment.
    destruct (a_memory a !! Memory.pendingKey o h) as [v|] eqn:E; [right|by left].
    destruct (MemoryFacts.wf_pending _ _ _ _ HM E) as (x & -> & ? & ?). by eexists.
  - intros o e. unfold Serve.GetEpochServeStats.
    destruct (a_serve a !! Serve.statsKey o e) as [v|] eqn:E; [right|by left].
    destruct (ServeGenesis.stats_at _ _ _ _ HQ E) as (x & -> & ? & ?). by eexists.
  - intros c e. unfold Serve.GetContributorEpochServes.
    destruct (a_serve a !! Serve.contributorKey c e) as [v|] eqn:E; [right|by left].
    destruct (ServeGenesis.contributor_at _ _ _ _ HQ E) as (x & -> & ? & ?). by eexists.
  - intros w. unfold Serve.GetPolicyAnchor.
    destruct (a_serve a !! Serve.policyAnchorKey w) as [v|] eqn:E; [right|by left].
    destruct (ServeGenesis.anchor_at _ _ _ HQ E) as (x & -> & ?). by eexists.
  - intros d. unfold Reputation.GetReputation.
    destruct (a_reputation a !! Reputation.statsKey d) as [v|] eqn:E; [right|by left].
    destruct (ReputationProps.inv_stats _ HP _ _ E) as (x & -> & ? & _). by eexists.
Qed.

(** ** Approvals go through *)

(** The peers an approval writes to accept its calls. *)
Definition accepts (id : string) a : Prop :=
  (exists o, a_org a !! orgKey id = Some (VOrg o)) /\ a_org a !! "epoch/current" = None /\
  ReputationProps.rep_typed (a_reputation a).

Lemma aggregate_runs id fn a :
  accepts id a -> exists a', in_org (modifyOrgAggregate id fn) a = (Ok tt, a') /\ accepts id a'.
Proof.
  intros ((o & Ho) & He & HT). unfold in_org.
  assert (modifyOrgAggregate id fn (mkSt (a_org a) (a_bank a, a_feegrant a) (a_evs a)) =
    (Ok tt, mkSt (<[orgKey id := VOrg (fn o 0)]> (a_org a)) (a_bank a, a_feegrant a) (a_evs a))) as ->.
  { unfold modifyOrgAggregate, getStoredOrg, getCurrentEpoch. mrun. cbn [kv]. rewrite Ho.
    cbn [unmarshalOrg kv]. by rewrite He. }
  eexists. split; [done|]. split_and!; cbn; [rewrite lookup_insert_eq; eauto| |done].
  by rewrite lookup_insert_ne.
Qed.

Lemma reputation_runs c id a :
  accepts id a ->
  (exists x y z, c = Reputation.IncrementContributionCall x y z) \/
  (exists x y, c = Reputation.LeaderCommitCall x y) ->
  exists a', in_reputation (Reputation.handle reputation_keeper c) a = (Ok tt, a') /\ accepts id a'.
Proof.
  intros (Ho & He & HT) Hc. unfold in_reputation.
  destruct (Reputation.handle reputation_keeper c _) as [r s'] eqn:E.
  assert (r = Ok tt) as ->.
  { destruct Hc as [(x & y & z & ->)|(x & y & ->)]; cbn [Reputation.handle] in E.
    - unfold Reputation.IncrementContribution, Reputation.modify_profile in E.
      pose proof (ReputationProps.typed_profile (a_reputation a) x y HT) as Hok. revert E. mrun. cbn [kv].
      destruct (Reputation.load_profile _ _ _); [|done]. by intros [= <- _].
    - unfold Reputation.IncrementLeaderChainCommit, Reputation.modify_leader in E.
      pose proof (ReputationProps.typed_leader (a_reputation a) x y HT) as Hok. revert E. mrun. cbn [kv].
      destruct (Reputation.GetLeaderProfile _ _ _); [|done]. by intros [= <- _]. }
  eexists. split; [done|]. split_and!; [done..|]. cbn.
  apply deliver_run, ReputationProps.deliver_rep_typed in E; done.
Qed.

(** A step of a run that goes on. *)
Lemma bind_goes_on {S A C} (m : M S A) (f : A -> M S C) s x s1 c :
  m s = (Ok x, s1) -> (exists s', f x s1 = (Ok c, s')) -> exists s', (m ≫= f) s = (Ok c, s').
Proof. intros H [s' Hf]. exists s'. by rewrite (M_bind_run _ _ _ _ _ H). Qed.

(** A call of a peer that succeeds. *)
Lemma peer_goes_on {V A C} w (m : M app A) (f : A -> M (St V app) C) s x p c :
  m (peers s) = (Ok x, p) -> (exists s', f x (mkSt (kv s) p (evs s)) = (Ok c, s')) ->
  exists s', (map_err w (on_peers m) ≫= f) s = (Ok c, s').
Proof.
  intros H. apply bind_goes_on. unfold map_err, on_peers. by rewrite H.
Qed.

(** What the approval message [x] is checked for. *)
Record approvable a (x : Memory.MsgApproveMemory) : Prop := {
  ap_valid : Memory.MsgApproveMemory_ValidateBasic x = Ok tt;
  ap_signer : GetLeaderWallet (a_org a) (Memory.ma_OrgId x) = Ok (Memory.ma_Signer x);
  ap_signs : Memory.ma_Signer x <> "";
  ap_leader : IsLeader (a_org a) (Memory.ma_OrgId x) (Memory.ma_CommittingLeader x) = Ok true;
  ap_type : Memory.ValidMemoryType (Memory.ma_MemoryType x) = true;
  ap_pending : exists p pk,
    Memory.GetPendingCommitment (a_memory a) (Memory.ma_OrgId x) (Memory.ma_ContentHash x) = Ok p /\
    Memory.decode_pubkey (Memory.pc_Contributor p) = Some pk /\
    ed25519_Verify pk (Memory.buildSubmitMemoryCanonicalBody (Memory.ma_CiphertextHash x)
      (Memory.pc_Contributor p) (Memory.pc_Epoch p) (Memory.ma_MemoryType x) (Memory.ma_OrgId x)
      (Memory.ma_PlaintextHash x) (Memory.ma_Salt x)
      (sha256 (Memory.ma_EncryptedBlob x +:+ Memory.ma_WrappedDekEnc x))
      (sha256 (Memory.ma_WrappedDekEnc x))) (Memory.ma_ContributorSig x) = true;
  ap_blob : Memory.ma_CiphertextHash x = sha256 (Memory.ma_EncryptedBlob x);
  ap_content : Memory.ma_ContentHash x =
    sha256 (Memory.ma_EncryptedBlob x +:+ Memory.ma_WrappedDekEnc x);
  ap_size : exists params, Memory.GetParams (a_memory a) = Ok params /\
    (Z.of_N (len (Memory.ma_EncryptedBlob x)) <= int64_of_u64 (Memory.p_MaxBlobSizeBytes params))%Z;
  ap_new : a_memory a !! Memory.approvedKey (Memory.ma_OrgId x) (Memory.ma_ContentHash x) = None;
}.

(** The keeper call behind an approval. *)
Lemma ApproveMemory_runs a x p params es :
  MemoryFacts.mem_inv (a_memory a) -> accepts (Memory.ma_OrgId x) a -> approvable a x ->
  Memory.GetPendingCommitment (a_memory a) (Memory.ma_OrgId x) (Memory.ma_ContentHash x) = Ok p ->
  Memory.GetParams (a_memory a) = Ok params ->
  (Z.of_N (len (Memory.ma_EncryptedBlob x)) <= int64_of_u64 (Memory.p_MaxBlobSizeBytes params))%Z ->
  exists s', Memory.ApproveMemory (P := app) (Memory.ma_OrgId x) (Memory.ma_ContentHash x)
    (Memory.ma_EncryptedBlob x) (Memory.ma_CommittingLeader x) (Memory.ma_WrappedDekEnc x)
    (Memory.ma_PlaintextHash x) (Memory.ma_Salt x) (Memory.ma_CiphertextHash x)
    (sha256 (Memory.ma_WrappedDekEnc x)) (Memory.ma_ContributorSig x) (Memory.ma_MemoryType x)
    (mkSt (a_memory a) a es) = (Ok tt, s').
Proof.
  intros HM Hacc HX Hp Hpar Hsize. destruct HX. unfold Memory.ApproveMemory. cbv zeta.
  eapply bind_goes_on; [unfold fail_if; by rewrite ap_type0|].
  eapply bind_goes_on; [done|]. cbn [kv].
  eapply bind_goes_on.
  { rewrite bool_decide_true; [done|]. unfold Memory.GetPendingCommitment in Hp.
    destruct (_ !! Memory.pendingKey _ _); [by eexists|done]. }
  eapply bind_goes_on; [unfold peer_read; cbn; by rewrite ap_leader0|].
  eapply bind_goes_on; [done|].
  eapply bind_goes_on; [unfold kread; cbn [kv]; by rewrite Hpar|].
  eapply bind_goes_on.
  { rewrite (proj2 (Z.ltb_ge _ _)); [done|exact Hsize]. }
  eapply bind_goes_on; [unfold kread; cbn [kv]; by rewrite Hp|].
  eapply bind_goes_on; [done|]. cbn [kv].
  eapply bind_goes_on; [rewrite ap_new0; done|].
  destruct (MemoryFacts.wf_epoch _ (MemoryFacts.inv_wf _ HM)) as (e & He & _).
  eapply bind_goes_on; [unfold kread; cbn [kv]; by rewrite He|].
  eapply bind_goes_on; [done|]. eapply bind_goes_on; [done|]. cbn [kv peers evs].
  eapply bind_goes_on.
  { unfold kread. cbn [kv]. rewrite MemoryFacts.count_delete_ne, MemoryFacts.count_insert_ne by done.
    by rewrite (MemoryFacts.inv_count _ HM). }
  eapply bind_goes_on; [done|]. cbn [kv peers evs].
  destruct (aggregate_runs _ (fun stored currentEpoch =>
    stored <| so_TotalCommittedMemories := (so_TotalCommittedMemories stored + 1)%u64 |>
           <| so_LastActivityEpoch := currentEpoch |>) _ Hacc) as (a1 & H1 & Hacc1).
  eapply peer_goes_on; [exact H1|].
  destruct (aggregate_runs _ (fun stored _ => stored <| so_LastActivityEpoch := Memory.pc_Epoch p |>)
    _ Hacc1) as (a2 & H2 & Hacc2).
  eapply peer_goes_on; [exact H2|].
  destruct (reputation_runs (Reputation.IncrementContributionCall (Memory.pc_Contributor p)
    (Memory.ma_OrgId x) (Memory.ContentHashToHex (Memory.ma_ContentHash x))) _ _ Hacc2)
    as (a3 & H3 & Hacc3); [by left; eauto|].
  eapply peer_goes_on; [exact H3|].
  destruct (reputation_runs (Reputation.LeaderCommitCall (Memory.ma_CommittingLeader x)
    (Memory.ma_OrgId x)) _ _ Hacc3) as (a4 & H4 & _); [by right; eauto|].
  unfold map_err, on_peers. cbn [peers]. cbn in H4 |- *. rewrite H4. eauto.
Qed.

(** A message that passes the checks reaches the keeper. *)
Lemma MsgServer_ApproveMemory_runs a x es :
  approvable a x ->
  Memory.MsgServer_ApproveMemory (P := app) x (mkSt (a_memory a) a es) =
  Memory.ApproveMemory (Memory.ma_OrgId x) (Memory.ma_ContentHash x)
    (Memory.ma_EncryptedBlob x) (Memory.ma_CommittingLeader x) (Memory.ma_WrappedDekEnc x)
    (Memory.ma_PlaintextHash x) (Memory.ma_Salt x) (Memory.ma_CiphertextHash x)
    (sha256 (Memory.ma_WrappedDekEnc x)) (Memory.ma_ContributorSig x) (Memory.ma_MemoryType x)
    (mkSt (a_memory a) a es).
Proof.
  intros []. destruct ap_pending0 as (p & pk & Hp & Hpk & Hv).
  unfold Memory.MsgServer_ApproveMemory. cbv zeta.
  etrans; [apply M_bind_run; unfold lift; by rewrite ap_valid0|].
  etrans; [apply M_bind_run|].
  { unfold Memory.requireLeaderWallet. etrans; [apply M_bind_run; unfold peer_read; cbn; by rewrite ap_signer0|].
    by rewrite bool_decide_false, bool_decide_true. }
  etrans; [apply M_bind_run; unfold fail_if; by rewrite ap_type0|].
  etrans; [apply M_bind_run; unfold kread; cbn [kv]; by rewrite Hp|].
  etrans; [apply M_bind_run; unfold lift; by rewrite Hpk|].
  etrans; [apply M_bind_run; by rewrite Hv|].
  etrans; [apply M_bind_run; unfold Memory.bytesEqual; by rewrite bool_decide_true|].
  etrans; [apply M_bind_run; unfold Memory.bytesEqual; by rewrite bool_decide_true|].
  done.
Qed.

Lemma approvable_accepts n a x :
  app_inv n a -> approvable a x -> accepts (Memory.ma_OrgId x) a.
Proof.
  intros HA HX. split_and!; [|apply HA|apply (ai_reputation _ _ HA)].
  pose proof (ap_signer _ _ HX) as Hs. unfold GetLeaderWallet, GetOrg in Hs.
  destruct (a_org a !! orgKey (Memory.ma_OrgId x)) as [v|] eqn:E; [|done].
  destruct (inv_org _ (ai_org _ _ HA) _ _ E) as (o & -> & _). eauto.
Qed.

(** C9: approvals go through: on every reachable state of the application, an
    approval that passes the stated checks (leader wallet, leader role, pending
    commitment signed by its contributor, hashes, size, not yet approved) is
    executed: the calls into the org and reputation modules cannot fail, the
    transaction succeeds, the memory is approved with the submitted blob and
    the contributor of the commitment, and the commitment is consumed. *)
Theorem approval_goes_through bank grants l ctx x :
  Forall app_msg_wf (all_msgs l) -> N.of_nat (length (all_msgs l)) < two64 ->
  let a := run_app l (new_app bank grants) in
  approvable a x ->
  exists a' p c, exec (Tx ctx [ApproveMemory x]) a = (Ok tt, a') /\
    Memory.GetPendingCommitment (a_memory a) (Memory.ma_OrgId x) (Memory.ma_ContentHash x) = Ok p /\
    Memory.GetApprovedMemory (a_memory a') (Memory.ma_OrgId x) (Memory.ma_ContentHash x) = Ok c /\
    Memory.mc_EncryptedBlob c = Memory.ma_EncryptedBlob x /\
    Memory.mc_Contributor c = Memory.pc_Contributor p /\
    Memory.GetPendingCommitment (a_memory a') (Memory.ma_OrgId x) (Memory.ma_ContentHash x) =
      Err Memory.ErrCommitmentNotFound.
Proof.
  intros Hwf Hn a HX. pose proof (new_app_run_inv bank grants l Hwf Hn) as HA. fold a in HA.
  destruct (ap_pending _ _ HX) as (p & pk & Hp & _). destruct (ap_size _ _ HX) as (params & Hpar & Hsz).
  destruct (ApproveMemory_runs a x p params (a_evs a)) as (s' & Hrun);
    [apply HA|by eapply approvable_accepts|done..|].
  pose proof (MsgServer_ApproveMemory_runs a x (a_evs a) HX) as Hmsg. rewrite Hrun in Hmsg.
  apply MemoryFacts.ApproveMemory_step in Hrun as (_ & _ & Hgone & p' & c & Hp' & Hc & Hblob & Hrest);
    [|apply HA]. cbn [kv] in Hp'. rewrite Hp in Hp'. injection Hp' as <-.
  exists (set_evs (evs s') (set_memory (kv s') (peers s'))), p, c. split_and!; try done; [|apply Hrest].
  cbn [exec]. apply deliver_run. cbn [for_each].
  etrans; [apply M_bind_run|done]. unfold route. cbn [memory_call Memory.handle].
  unfold in_memory, in_store. by rewrite Hmsg.
Qed.
End AppProps.
