(* ===== verification/AppRewards.v ===== *)
(** * Contributor rewards in the wired application

    The emissions hook runs before the memory hook: at the end of epoch [n] it
    pays for the memories approved under label [n], while every approval so far
    carries at most the label [n - 1].  The epochs the hook asks for are always
    ahead of the labels, so the contributor pool is never paid out. *)

From S2P Require Import Prelude Bytes Store Wire Ifaces App AppFacts AppProps.
From S2P Require Emissions EmissionsFacts Identity Bandwidth Attestation.
From S2P Require Memory MemoryFacts MemoryProps Serve Reputation.
Local Open Scope string_scope.
Local Open Scope N_scope.

(** Every label given so far is at most [n]. *)
Definition labels_le (n : N) (m : gmap string Memory.mem_val) : Prop :=
  (exists e, Memory.getCurrentEpoch m = Ok e /\ e <= n) /\
  forall key c, m !! key = Some (Memory.VMemory c) -> Memory.sm_ApprovedAtEpoch c <= n.

Lemma labels_le_mono n n' m : n <= n' -> labels_le n m -> labels_le n' m.
Proof. intros Hn [(e & He & Hle) Hc]. split; [exists e; split; [done|lia]|]. intros key c H%Hc. lia. Qed.

Lemma label_insert_ne m k v :
  k <> Memory.currentEpochKey -> Memory.getCurrentEpoch (<[k:=v]> m) = Memory.getCurrentEpoch m.
Proof. intros Hk. unfold Memory.getCurrentEpoch, Memory.read_uint64. by rewrite lookup_insert_ne. Qed.
Lemma label_delete_ne m k :
  k <> Memory.currentEpochKey -> Memory.getCurrentEpoch (delete k m) = Memory.getCurrentEpoch m.
Proof. intros Hk. unfold Memory.getCurrentEpoch, Memory.read_uint64. by rewrite lookup_delete_ne. Qed.

Lemma labels_insert n m k v :
  labels_le n m -> k <> Memory.currentEpochKey ->
  (forall c, v = Memory.VMemory c -> Memory.sm_ApprovedAtEpoch c <= n) -> labels_le n (<[k:=v]> m).
Proof.
  intros [He Hc] Hk Hv. split; [by rewrite label_insert_ne|].
  intros key c [[_ H]|[_ H]]%lookup_insert_Some; eauto.
Qed.
Lemma labels_delete n m k :
  labels_le n m -> k <> Memory.currentEpochKey -> labels_le n (delete k m).
Proof.
  intros [He Hc] Hk. split; [by rewrite label_delete_ne|].
  intros key c [_ H]%lookup_delete_Some. eauto.
Qed.

Lemma labels_msg n m m' : labels_le n m -> MemoryFacts.mem_step m m' -> labels_le n m'.
Proof.
  intros HL H. destruct H as [x _ _ _|p c k _ _ _ He _|r _ _|p].
  - by apply labels_insert.
  - apply labels_insert; [|done..]. apply labels_delete; [|done]. apply labels_insert; [done..|].
    intros c' [= <-]. destruct HL as [(e & He' & Hle) _]. congruence.
  - by apply labels_insert.
  - by apply labels_insert.
Qed.

Lemma labels_epoch n e m m' :
  is_u64 e -> e <= n -> labels_le n m -> MemoryFacts.epoch_step e m m' -> labels_le n m'.
Proof.
  intros Hu He HL H. destruct H as [|c v Hc _ _ _ _ _ _|o cid|r _].
  - destruct HL as [_ Hc]. split; [exists e; split; [by apply MemoryFacts.epoch_current|done]|].
    intros key c [[_ H]|[_ H]]%lookup_insert_Some; [done|eauto].
  - apply labels_insert; [done..|]. intros c' [= <-]. destruct HL as [_ Hm]. exact (Hm _ _ Hc).
  - by apply labels_delete.
  - by apply labels_insert.
Qed.

Lemma labels_epochs n e m m' :
  is_u64 e -> e <= n -> labels_le n m -> rtc (MemoryFacts.epoch_step e) m m' -> labels_le n m'.
Proof. intros Hu He HL H. induction H; eauto using labels_epoch. Qed.

(** Nobody has approvals in an epoch after the labels. *)
Lemma no_approvals_ahead n e m :
  MemoryFacts.mem_wf m -> labels_le n m -> n < e ->
  Memory.GetContributorsWithApprovalsInEpoch m e = ∅.
Proof.
  intros Hwf [_ Hc] Hlt. unfold Memory.GetContributorsWithApprovalsInEpoch.
  assert (Forall (fun kv : string * Memory.mem_val => exists c, kv.2 = Memory.VMemory c /\
    Memory.sm_ApprovedAtEpoch c <= n) (prefix_iter "approved/" m)) as Hall.
  { apply Forall_forall. intros [k v] Hin. apply elem_of_prefix_iter in Hin as [Hv Hp]; [|by eexists].
    apply prefix_spec in Hp as [t ->]. pose proof (Hwf _ _ Hv) as Hs. cbn [snd].
    destruct v; try done; eauto. destruct Hs as [[[[o H]|H] _]|H]; discriminate H. }
  induction Hall as [|[k v] l (c & Hv & Hle) _ IH]; [done|]. cbn in Hv. subst v. cbn [foldl snd].
  cbn [Memory.decode_memory]. destruct (N.eqb_spec (Memory.sm_ApprovedAtEpoch c) e); [lia|done].
Qed.

(** ** The emissions store without rewards *)
Definition no_rewards (m : gmap string Emissions.emi_val) : Prop :=
  forall addr, m !! Emissions.contribRewardKey addr = None.

Lemma no_rewards_insert m k v :
  no_rewards m -> (forall addr, k <> Emissions.contribRewardKey addr) -> no_rewards (<[k:=v]> m).
Proof. intros Hm Hk addr. by rewrite lookup_insert_ne. Qed.

(** A step of a sequence: it failed there, or went on. *)
Lemma bind_cases {S A C} (m : M S A) (f : A -> M S C) s r s' :
  (m ≫= f) s = (r, s') ->
  (exists e, m s = (Err e, s')) \/ exists x s1, m s = (Ok x, s1) /\ f x s1 = (r, s').
Proof. unfold mbind, M_bind. destruct (m s) as [[x|e] s1] eqn:E; naive_solver. Qed.

Section Rewards.
Context {B F : Type} {ADDR : Addresses} {BANK : BankKeeper B} {FEEGRANT : FeegrantKeeper F}
  {URL : UrlParser} {CRYPTO : Crypto} {JSON : Memory.JsonTags}.
Notation app := (App B F).
Implicit Types (a : app).

Lemma read_case {A C} (m : M (St Emissions.emi_val app) A) (f : A -> M (St Emissions.emi_val app) C) s r s' :
  read_only m -> (m ≫= f) s = (r, s') -> s' = s \/ exists x, m s = (Ok x, s) /\ f x s = (r, s').
Proof.
  intros Hm [(e & H)|(x & s1 & H & Hf)]%bind_cases.
  - left. by eapply Hm.
  - right. pose proof (Hm _ _ _ H) as ->. eauto.
Qed.

(** Minting for an epoch in which nobody qualifies credits nobody, however the
    call ends. *)
Lemma mint_without_approvals e (s : St Emissions.emi_val app) r s' :
  Memory.GetContributorsWithApprovalsInEpoch (a_memory (peers s)) e = ∅ ->
  no_rewards (kv s) -> Emissions.MintDailyEmission e s = (r, s') -> no_rewards (kv s').
Proof.
  intros Hnone HR H. unfold Emissions.MintDailyEmission in H.
  apply read_case in H as [->|(pool & _ & H)]; [done| |eauto with ro].
  apply read_case in H as [->|(_ & _ & H)]; [done| |eauto with ro].
  apply read_case in H as [->|(params & _ & H)]; [done| |eauto with ro].
  destruct (Emissions.take_validator _ _) as [v pool1].
  destruct (Emissions.take_contributor _ _ _) as [b pool2].
  apply bind_cases in H as [(? & H)|(c & s1 & Hc & H)]; [done|].
  unfold attempt, peer_read in Hc. injection Hc as <- <-. cbn in H. rewrite Hnone in H.
  assert (Emissions.qualifying (Emissions.p_ContributorQualifyThreshold params) ∅ = []) as Hq.
  { unfold Emissions.qualifying. rewrite map_filter_empty, map_to_list_empty. done. }
  rewrite Hq in H. unfold Emissions.distribute in H. rewrite bool_decide_true in H by done.
  apply bind_cases in H as [(? & H)|(dr & s1 & Hd & H)]; [done|].
  injection Hd as <- <-. cbn -[Emissions.SetEmissionPool] in H.
  unfold Emissions.SetEmissionPool, mbind, M_bind, kset, lift, mret, M_ret in H.
  destruct (Emissions.EmissionPool_Validate _); simplify_eq; cbn [kv];
    repeat (apply no_rewards_insert; [|done]); done.
Qed.

(** ** Messages *)
Definition is_mint (m : app_msg) : bool :=
  match m with MintDailyEmission _ => true | _ => false end.

(** A module other than emissions that moves only the bank. *)
Lemma bank_only {V A} get (put : gmap string V -> app -> app) (m : M (St V app) A) a r a' :
  moves bank_rel m -> in_store get put m a = (r, a') ->
  (forall v a, a_memory (put v a) = a_memory a) ->
  a_memory a' = a_memory a /\
  ((forall v a, a_emissions (put v a) = a_emissions a) -> a_emissions a' = a_emissions a).
Proof.
  intros Hm (s' & [b Hb]%Hm & ->)%in_store_run Hput. cbn in Hb |- *. rewrite Hput, Hb.
  split; [done|]. intros Hp. by rewrite Hp.
Qed.

(** A claim pays somebody with a positive balance. *)
Lemma claim_needs_balance m a u a' :
  in_emissions (Emissions.MsgServer_ClaimContributorReward m) a = (Ok u, a') ->
  Emissions.GetContributorReward (a_emissions a) (Emissions.mc_PasskeyPubkey m) <> Ok 0.
Proof.
  intros (s' & H & _)%in_store_run Hz. unfold Emissions.MsgServer_ClaimContributorReward in H.
  mok H. cbn [kv] in *. gok.
  match goal with H : a4 <> 0 |- _ => apply H end. congruence.
Qed.

Lemma no_rewards_zero m addr : no_rewards m -> Emissions.GetContributorReward m addr = Ok 0.
Proof. intros Hm. unfold Emissions.GetContributorReward, Emissions.read_counter. by rewrite Hm. Qed.

Definition unpaid (n : N) a : Prop := labels_le n (a_memory a) /\ no_rewards (a_emissions a).

Lemma unpaid_same n a a' :
  unpaid n a -> a_memory a' = a_memory a -> a_emissions a' = a_emissions a -> unpaid n a'.
Proof. intros [] H1 H2. by split; rewrite ?H1, ?H2. Qed.

Lemma memory_msg_unpaid ctx c k n a u a' :
  (forall i j, c <> Memory.EpochEnd i j) -> app_inv k a -> unpaid n a ->
  in_memory (Memory.handle memory_keeper ctx c) a = (Ok u, a') -> unpaid n a'.
Proof.
  intros Hc HA [HL HR] (s' & H & ->)%in_store_run. pose proof (memory_frame _ _ _ _ _ H) as Hp.
  apply deliver_run, MemoryFacts.deliver_msg_step in H; [|apply HA]. cbn [kv peers] in *.
  split; cbn; [|by rewrite (pr_emissions _ _ Hp)].
  assert (kv s' = a_memory a \/ MemoryFacts.mem_step (a_memory a) (kv s')) as [->|Hs]; [|done|].
  - destruct c; try done. by destruct (Hc identifier number).
  - by eapply labels_msg.
Qed.

Lemma route_unpaid ctx m k n a u a' :
  is_mint m = false -> app_inv k a -> unpaid n a -> route ctx m a = (Ok u, a') -> unpaid n a'.
Proof.
  intros Hm HA HU H. unfold route in H. destruct (memory_call m) as [c|] eqn:Ec.
  { eapply memory_msg_unpaid; [|exact HA|exact HU|exact H]. by destruct m; simplify_eq/=. }
  destruct (reputation_call m) as [c|] eqn:Er.
  { unfold in_reputation in H. destruct (Reputation.handle _ _ _). simplify_eq. by eapply unpaid_same. }
  destruct m; try done; mok H.
  all: try (apply bank_only in H as [? He]; [by eapply unpaid_same; eauto|solve [bank_frame]|done]).
  - unfold in_org in H. destruct (Org.handle _ _ _ _). simplify_eq. by eapply unpaid_same.
  - apply in_store_run in H as (s' & H & ->). apply serve_frame in H. cbn [peers] in H.
    destruct H. by eapply unpaid_same.
  - apply in_store_run in H as (s' & H & ->). unfold Emissions.MsgServer_UpdateParams, Emissions.SetParams in H.
    mok H. destruct HU as [HL HR]. split; [done|]. cbn. by apply no_rewards_insert.
  - exfalso. eapply claim_needs_balance; [eassumption|]. by apply no_rewards_zero, HU.
Qed.

Lemma tx_unpaid ctx msgs k n a u a' :
  Forall app_msg_wf msgs -> k + N.of_nat (length msgs) < two64 ->
  forallb (fun m => negb (is_mint m)) msgs = true -> app_inv k a -> unpaid n a ->
  for_each msgs (route ctx) a = (Ok u, a') -> unpaid n a'.
Proof.
  revert k a. induction msgs as [|m msgs IH]; intros k a Hwf Hk Hm HA HU H; cbn in *; [by mok H|].
  apply M_bind_ok in H as (u1 & a1 & H1 & H). apply Forall_cons in Hwf as [? Hwf]. gok.
  eapply (IH (k + 1)); [done|lia|done| | |exact H].
  - eapply route_inv; [done|lia|exact HA|exact H1].
  - by eapply route_unpaid.
Qed.

(** ** Epoch ends *)
Lemma hooks_unpaid k n a r a' :
  app_inv k a -> unpaid n a -> n + 1 < two63 ->
  AfterEpochEnd Memory.WeVibeEpochIdentifier (Z.of_N (n + 1)) a = (r, a') -> unpaid (n + 1) a'.
Proof.
  intros HA [HL HR] Hn (r1 & a1 & r2 & H1 & H2 & _)%hooks_run.
  assert (u64_of_int64 (Z.of_N (n + 1)) = n + 1) as He.
  { unfold u64_of_int64, two64, two63 in *. rewrite Z.mod_small by lia. lia. }
  pose proof (emissions_hook_inv _ _ _ _ _ _ HA H1) as HA1.
  assert (a_memory a1 = a_memory a /\ no_rewards (a_emissions a1)) as [Hm HR1].
  { apply in_store_run in H1 as (s' & H1 & ->). pose proof (emissions_hook_frame _ _ _ _ _ H1) as [b Hb].
    cbn in Hb. cbn. rewrite Hb. split; [done|].
    unfold Emissions.AfterEpochEnd in H1. rewrite bool_decide_true in H1 by done. cbn [negb] in H1.
    unfold mbind, M_bind, attempt in H1. rewrite He in H1.
    destruct (Emissions.MintDailyEmission _ _) as [r3 s3] eqn:E. injection H1 as _ <-.
    eapply (mint_without_approvals _ (mkSt _ _ _)); [|exact HR|exact E]. cbn.
    eapply no_approvals_ahead; [apply HA|exact HL|lia]. }
  destruct (memory_hook_steps _ _ _ _ _ _ HA1 H2) as (_ & _ & Hs & Hem). rewrite He, Hm in Hs.
  split; [|by rewrite Hem]. eapply labels_epochs; [| |by eapply labels_le_mono; [|exact HL]; lia|exact Hs].
  - unfold is_u64, two64, two63 in *. lia.
  - lia.
Qed.

Lemma other_epoch_same i k a r a' :
  i <> Memory.WeVibeEpochIdentifier -> AfterEpochEnd i k a = (r, a') ->
  a_memory a' = a_memory a /\ a_emissions a' = a_emissions a.
Proof.
  intros Hi (r1 & a1 & r2 & H1 & H2 & _)%hooks_run.
  apply in_store_run in H1 as (s1 & H1 & ->). apply in_store_run in H2 as (s2 & H2 & ->).
  unfold Emissions.AfterEpochEnd in H1. rewrite bool_decide_false in H1 by done.
  unfold Memory.AfterEpochEnd in H2. rewrite bool_decide_false in H2 by done.
  cbn in H1, H2. unfold mret, M_ret in *. by simplify_eq.
Qed.

(** ** Runs *)

(** Epochs end in order, [n + 1] first, and no epoch is minted by hand. *)
Fixpoint numbered (n : N) (l : list block_step) : bool :=
  match l with
  | [] => true
  | Tx _ msgs :: l' => forallb (fun m => negb (is_mint m)) msgs && numbered n l'
  | EpochEnd i k :: l' =>
      if bool_decide (i = Memory.WeVibeEpochIdentifier)
      then bool_decide (k = Z.of_N (n + 1)) && numbered (n + 1) l'
      else numbered n l'
  end.

Lemma run_unpaid l k n a :
  Forall app_msg_wf (all_msgs l) -> k + N.of_nat (length (all_msgs l)) < two64 ->
  numbered n l = true -> n + N.of_nat (length l) < two63 -> app_inv k a -> unpaid n a ->
  exists n', unpaid n' (run_app l a).
Proof.
  revert k n a. induction l as [|x l IH]; intros k n a Hwf Hk Hl Hn HA HU; [by exists n|].
  change (run_app (x :: l) a) with (run_app l (exec x a).2).
  unfold all_msgs in *. cbn [fmap list_fmap concat] in *. rewrite length_app in Hk.
  apply Forall_app in Hwf as [Hx Hwf]. destruct (exec x a) as [r a'] eqn:E. cbn [snd].
  assert (app_inv (k + N.of_nat (length (step_msgs x))) a') as HA'.
  { eapply exec_inv; [done|lia|exact HA|exact E]. }
  assert (exists n1, unpaid n1 a' /\ numbered n1 l = true /\ n1 <= n + 1) as (n1 & HU' & Hl' & Hn1).
  { destruct x as [ctx msgs|i j]; cbn [numbered exec step_msgs] in *.
    - gok. exists n. split; [|split; [done|lia]]. destruct r as [u|e].
      + apply deliver_ok in E. eapply tx_unpaid; [exact Hx| |done|exact HA|done|exact E]. lia.
      + by apply deliver_err in E as ->.
    - case_bool_decide as Hi.
      + gok. subst. exists (n + 1). split; [|split; [done|lia]].
        eapply hooks_unpaid; [exact HA|exact HU|cbn [length] in Hn; lia|exact E].
      + exists n. split; [|split; [done|lia]].
        apply other_epoch_same in E as [? ?]; [|done]. by eapply unpaid_same. }
  eapply IH; [done| |exact Hl'|cbn [length] in Hn; lia|exact HA'|exact HU']. lia.
Qed.

Lemma new_app_unpaid bank grants : unpaid 0 (new_app bank grants).
Proof.
  split.
  - split; [by exists 0|]. intros key c H.
    change (MemoryProps.new_store !! key = Some (Memory.VMemory c)) in H.
    unfold MemoryProps.new_store in H. apply lookup_singleton_Some in H as [_ H]. discriminate H.
  - unfold new_app. intros addr.
    change (a_emissions (InitChainer DefaultGenesis (empty_app bank grants)).2) with
      (<[genesisInitMarkerKey := Emissions.VRaw genesisInitMarkerValue]>
        (kv (Emissions.Module_InitGenesis (P := app) (Some Emissions.DefaultGenesis)
          (mkSt ∅ (empty_app bank grants) [])).2)).
    cbn. by rewrite !lookup_insert_ne by done.
Qed.

(** C6: contributors are never paid by the epoch hooks: as long as epochs end
    in order and nobody mints by hand, on every run from genesis the pending
    reward of everybody is zero and every claim fails without effect, however
    many memories were approved.  The emissions hook of epoch [n] asks for
    approvals under label [n]; the memory hook, which runs after it, writes
    that label, so an approval always carries the label of an epoch whose
    emission is over. *)
Theorem contributors_never_credited bank grants l addr ctx m :
  Forall app_msg_wf (all_msgs l) -> N.of_nat (length (all_msgs l)) < two64 ->
  numbered 0 l = true -> N.of_nat (length l) < two63 ->
  let a := run_app l (new_app bank grants) in
  Emissions.GetContributorReward (a_emissions a) addr = Ok 0 /\
  exists e, exec (Tx ctx [ClaimContributorReward m]) a = (Err e, a).
Proof.
  intros Hwf Hk Hl Hn a.
  destruct (run_unpaid l 0 0 (new_app bank grants)) as (n & _ & HR);
    [done|lia|done|lia|apply new_app_inv|apply new_app_unpaid|]. fold a in HR.
  split; [by apply no_rewards_zero|].
  destruct (exec (Tx ctx [ClaimContributorReward m]) a) as [[u|e] a'] eqn:E; cbn [exec] in E.
  - apply deliver_ok in E. cbn [for_each] in E. unfold route in E. cbn [memory_call reputation_call] in E.
    apply M_bind_ok in E as (? & ? & E & _). apply M_bind_ok in E as (? & ? & E & _).
    exfalso. eapply claim_needs_balance; [exact E|]. by apply no_rewards_zero.
  - exists e. by apply deliver_err in E as ->.
Qed.
End Rewards.
