(* ===== verification/AppDemo.v ===== *)
(** * An execution of the application

    One org registers, its leader submits and approves a memory, the memory is
    served and two epochs end; the properties of the application at this run. *)

From S2P Require Import Prelude Bytes Store Wire Ifaces App AppFacts AppProps AppRewards.
From S2P Require Org OrgProps Emissions Identity Bandwidth Attestation Memory Serve Reputation.
From S2P Require OrgFacts MemoryFacts ServeFacts ReputationProps.
Local Open Scope string_scope.
Local Open Scope N_scope.

Module AppDemo.
Import Simple.

Definition pad : string := "................................".
Definition sig64 : string := pad +:+ pad.

(** A hash of 32 bytes and a scheme that accepts one signature. *)
#[export] Instance crypto32 : Crypto := {|
  sha256 x := String.substring 0 32 (x +:+ pad);
  ed25519_Verify _ _ sig := bool_decide (sig = sig64);
|}.
#[export] Instance no_json : Memory.JsonTags := {| Memory.json_Unmarshal_tags _ := None |}.

Definition ctx : BlockCtx := mkCtx 7 0.
Definition bank0 : bank := mkBank {["alice" := 50000000]} 50000000.
Definition grants0 : list (string * string * FeeAllowance) := [].
Definition lead : string :=
  "0000000000000000000000000000000000000000000000000000000000000001".
Definition org0 : string := "wevibe-org-0".
Definition blob : string := "blob".
Definition hash : string := sha256 (blob +:+ "dek").

Definition register : app_msg := OrgMsg (Org.RegisterOrgMsg
  (Org.mkMsgRegisterOrg "alice" lead 100 100 "dev" "server" "wallet" "d" "go" "f" "n")).
Definition submit : app_msg := SubmitCommitment
  (Memory.mkMsgSubmitCommitment "wallet" org0 hash lead "" 1 [] "" "" 1).
Definition approval : Memory.MsgApproveMemory :=
  Memory.mkMsgApproveMemory "wallet" org0 hash blob lead "dek" 1 "ph" "salt" (sha256 blob) sig64 1.
Definition serve : app_msg := ServeMsg (Serve.ServeBatchMsg (Serve.mkMsgSubmitServeBatch "server" org0 1
  [Serve.mkServeEntry hash lead "model-a" 3 "" pad sig64 "n1" "episode"])).
Definition epoch_end (n : Z) : block_step := EpochEnd Memory.WeVibeEpochIdentifier n.

Definition submitted : list block_step := [Tx ctx [register]; Tx ctx [submit]].
Definition history : list block_step :=
  (submitted ++ [Tx ctx [ApproveMemory approval]; epoch_end 1; Tx ctx [serve]; epoch_end 2])%list.

Local Notation after_submit := (run_app submitted (new_app bank0 grants0)).
Local Notation final := (run_app history (new_app bank0 grants0)).

(** The transactions are executed, not rejected. *)
Example history_runs :
  Memory.GetApprovedCount (a_memory final) org0 = Ok 1 /\
  Serve.GetMemoryServeCount (a_serve final) org0 hash 1 = Ok 1 /\
  Memory.getCurrentEpoch (a_memory final) = Ok 2 /\
  (Emissions.ep_Epoch <$> (match Emissions.GetEmissionPool (a_emissions final) with
                           | Ok p => Some p | Err _ => None end)) = Some 2.
Proof. vm_compute. done. Qed.

Lemma history_wf : Forall app_msg_wf (all_msgs history).
Proof. repeat constructor. Qed.
Lemma submitted_wf : Forall app_msg_wf (all_msgs submitted).
Proof. repeat constructor. Qed.

Lemma app_runs_keep_invariants_witness :
  OrgFacts.org_inv (a_org final) /\ ServeFacts.serve_inv (a_serve final).
Proof.
  destruct (app_runs_keep_invariants bank0 grants0 history history_wf eq_refl) as (HO & _ & _ & HS & _).
  exact (conj HO HS).
Defined.

Definition fingerprint : string := Serve.ComputeServeFingerprint hash pad 1.
Definition receipt : Serve.StoredServeReceipt :=
  match Serve.GetServeReceiptByFingerprint (a_serve final) fingerprint with
  | Ok (Some r) => r
  | _ => Serve.mkStoredServeReceipt "" "" "" 0 false "" 0 "" "" ""
  end.
Lemma receipt_found :
  Serve.GetServeReceiptByFingerprint (a_serve final) fingerprint = Ok (Some receipt).
Proof. vm_compute. reflexivity. Qed.

Lemma served_memory_is_approved_witness :
  exists c, Memory.GetApprovedMemory (a_memory final) (Serve.sr_OrgId receipt)
              (Serve.sr_MemoryContentHash receipt) = Ok c.
Proof.
  pose proof (served_memory_is_approved bank0 grants0 history fingerprint receipt history_wf eq_refl) as H.
  destruct (H receipt_found) as (_ & c & Hc & _).
  exact (ex_intro _ c Hc).
Defined.

Lemma reads_are_well_typed_witness :
  Org.GetOrg (a_org final) org0 = Err Org.ErrOrgNotFound \/
  exists o, Org.GetOrg (a_org final) org0 = Ok o /\ Org.o_OrgID o = org0.
Proof.
  destruct (reads_are_well_typed bank0 grants0 history history_wf eq_refl) as (H & _). exact (H org0).
Defined.

(** The approved memory of epoch 1 is never paid for. *)
Definition claim : Emissions.MsgClaimContributorReward :=
  Emissions.mkMsgClaimContributorReward "wallet" lead.
Lemma contributors_never_credited_witness :
  Emissions.GetContributorReward (a_emissions final) lead = Ok 0.
Proof.
  destruct (contributors_never_credited bank0 grants0 history lead ctx claim history_wf eq_refl eq_refl eq_refl)
    as [H _]. exact H.
Defined.

Definition commitment : Memory.PendingCommitment :=
  match Memory.GetPendingCommitment (a_memory after_submit) org0 hash with
  | Ok p => p
  | Err _ => Memory.NewPendingCommitment "" "" [] "" 0 0 0
  end.
Lemma commitment_found :
  Memory.GetPendingCommitment (a_memory after_submit) org0 hash = Ok commitment.
Proof. vm_compute. reflexivity. Qed.

Lemma approval_approvable : approvable after_submit approval.
Proof.
  split.
  - vm_compute. reflexivity.
  - vm_compute. reflexivity.
  - discriminate.
  - vm_compute. reflexivity.
  - vm_compute. reflexivity.
  - exists commitment. eexists. split; [exact commitment_found|]. split; vm_compute; reflexivity.
  - vm_compute. reflexivity.
  - vm_compute. reflexivity.
  - exists Memory.DefaultParams. split; [vm_compute; reflexivity|]. vm_compute. discriminate.
  - vm_compute. reflexivity.
Qed.

Lemma approval_goes_through_witness :
  exists a', exec (Tx ctx [ApproveMemory approval]) after_submit = (Ok tt, a').
Proof.
  pose proof (approval_goes_through bank0 grants0 submitted ctx approval submitted_wf eq_refl) as H.
  destruct (H approval_approvable) as (a' & _ & _ & Ha & _).
  exact (ex_intro _ a' Ha).
Defined.
End AppDemo.
