(* ===== verification/Isolation.v ===== *)
(** * Organisations are isolated from each other

    The records of an organisation change only by its own leader: whatever a
    transaction holds, when it changes the record, the configuration or a member
    of an existing org, one of its pending or approved memories or a report about
    one, one of its messages carries the leader wallet of that org as its
    signer.  The signer of a message is the account whose signature the SDK's
    ante handler asks for ([GetSigners]). *)

From S2P Require Import Prelude Bytes Store Wire Keeps Ifaces Org OrgFacts OrgProps App AppFacts AppProps AppDemo.
From S2P Require Emissions Identity Bandwidth Attestation Memory MemoryFacts MemoryProps Serve Reputation.
From Stdlib Require Import Ascii.
Local Open Scope string_scope.
Local Open Scope N_scope.

(** ** Signers

    The field named by the [cosmos.msg.v1.signer] option of each message, which
    [GetSigners] decodes. *)
Definition memory_signer (m : Memory.mem_msg) : string :=
  match m with
  | Memory.SubmitCommitmentMsg m => Memory.ms_Signer m
  | Memory.ApproveMemoryMsg m => Memory.ma_Signer m
  | Memory.ReportMemoryMsg m => Memory.mp_Signer m
  | Memory.UpdateParamsMsg m => Memory.mu_Authority m
  | Memory.EpochEnd _ _ => ""
  end.
Definition serve_signer (m : Serve.serve_msg) : string :=
  match m with
  | Serve.ServeBatchMsg m => Serve.mb_Signer m
  | Serve.DenialBatchMsg m => Serve.md_Signer m
  | Serve.EventBatchMsg m => Serve.me_Signer m
  | Serve.AnchorPolicyMsg m => Serve.ma_Authority m
  | Serve.UpdateParamsMsg m => Serve.mu_Authority m
  end.
Definition org_signer (m : Org.msg) : string :=
  match m with
  | RegisterOrgMsg m => mr_Signer m
  | UpdateParamsMsg m => mu_Authority m
  | m => default "" (snd <$> msg_signer m)
  end.

Definition signer (m : app_msg) : string :=
  match m with
  | OrgMsg m => org_signer m
  | SubmitCommitment m => memory_signer (Memory.SubmitCommitmentMsg m)
  | ApproveMemory m => memory_signer (Memory.ApproveMemoryMsg m)
  | ReportMemory m => memory_signer (Memory.ReportMemoryMsg m)
  | UpdateMemoryParams m => memory_signer (Memory.UpdateParamsMsg m)
  | ServeMsg m => serve_signer m
  | MintDailyEmission m => Emissions.mm_Authority m
  | UpdateEmissionsParams m => Emissions.mu_Authority m
  | ClaimContributorReward m => Emissions.mc_Signer m
  | SetBandwidthOverride m => Bandwidth.mo_Signer m
  | UpdateBandwidthParams m => Bandwidth.mu_Authority m
  | MigrateIdentity m => Identity.mm_Signer m
  | UpdateReputation m => Reputation.mr_Signer m
  | UpdateReputationParams m => Reputation.mp_Authority m
  | IncrementContribution m => Reputation.ic_Authority m
  | IncrementServe m => Reputation.is_Authority m
  | RecordBan m => Reputation.rb_Authority m
  | SubmitSessionAttestation m => Attestation.ms_Signer m
  | UpdateAttestationParams m => Attestation.mu_Authority m
  end.

(** ** Keys of one org *)
Definition org_owned (o key : string) : Prop :=
  key = orgKey o \/ key = orgConfigKey o \/ exists pk, key = memberKey o pk.
Definition memory_owned (o key : string) : Prop :=
  exists h, key = Memory.approvedKey o h \/ key = Memory.pendingKey o h \/
    exists rp, key = Memory.reportKey o h rp.

(** A write under the key of another org keeps every entry of this one. *)
Definition entry_is {V} (key : string) (v : option V) (m : gmap string V) : Prop := m !! key = v.

Lemma keeps_other_set {V P} key (v0 : option V) k v :
  k <> key -> keeps (P := P) (entry_is key v0) (kset k v).
Proof. intros Hk. apply keeps_kset. intros m. unfold entry_is. by rewrite lookup_insert_ne. Qed.
Lemma keeps_other_del {V P} key (v0 : option V) k :
  k <> key -> keeps (P := P) (entry_is key v0) (kdel k).
Proof. intros Hk. apply keeps_kdel. intros m. unfold entry_is. by rewrite lookup_delete_ne. Qed.

Section OrgFrame.
Context {B F : Type} {ADDR : Addresses} {BANK : BankKeeper B} {FEEGRANT : FeegrantKeeper F}
  {URL : UrlParser}.
Context (k : Keeper) (id key : string) (v0 : option org_val).
Hypothesis Horg : orgKey id <> key.
Hypothesis Hconfig : orgConfigKey id <> key.
Hypothesis Hmember : forall pk, memberKey id pk <> key.

Notation framed := (keeps (P := B * F) (entry_is key v0)).
#[local] Hint Resolve keeps_other_set keeps_other_del : keeps.

Lemma framed_message ctx x :
  (exists sg, msg_signer x = Some (id, sg)) -> framed (handle k ctx x).
Proof.
  intros [sg Hsg]. destruct x; cbn in Hsg; simplify_eq; cbn [handle];
  unfold MsgServer_AddMember, MsgServer_SetServingKey, MsgServer_SetServingInfo, MsgServer_RemoveMember,
    MsgServer_SetOrgConfig, MsgServer_GrantTrialAllowance, MsgServer_SetMemberCapabilities,
    MsgServer_TransferLeadership, MsgServer_CloseOrg, require_org, require_leader, AddMember, RemoveMember,
    SetServingKey, SetServingInfo, SetOrgConfig, SetMemberCapabilities, TransferLeadership, CloseOrg,
    getStoredOrg, grantServingFeegrant, grantLeaderFeegrant, grantFeegrant; keep.
Qed.
End OrgFrame.

Section Isolation.
Context {B F : Type} {ADDR : Addresses} {BANK : BankKeeper B} {FEEGRANT : FeegrantKeeper F}
  {URL : UrlParser} {CRYPTO : Crypto} {JSON : Memory.JsonTags}.
Notation app := (App B F).
Implicit Types (a : app).

(** Nothing of the org has changed. *)
Record unchanged (o : string) a a' : Prop := {
  un_org key : org_owned o key -> a_org a' !! key = a_org a !! key;
  un_memory key : memory_owned o key -> a_memory a' !! key = a_memory a !! key;
}.

#[export] Instance unchanged_preorder o : PreOrder (unchanged o).
Proof.
  split; [by intros a; split|]. intros a b c [H1 H2] [H3 H4].
  split; intros key Hkey; [rewrite H3, H1|rewrite H4, H2]; done.
Qed.

Lemma unchanged_eq o a a' : a_org a' = a_org a -> a_memory a' = a_memory a -> unchanged o a a'.
Proof. intros H1 H2. split; intros; by rewrite ?H1, ?H2. Qed.

(** The leader wallet of the org, and whether the org exists, are read from its
    record. *)
Lemma unchanged_wallet o a a' :
  unchanged o a a' -> GetLeaderWallet (a_org a') o = GetLeaderWallet (a_org a) o.
Proof. intros H. unfold GetLeaderWallet, GetOrg. rewrite (un_org _ _ _ H); [done|by left]. Qed.

(** ** The org module *)
Lemma owned_other o id key :
  free_of "/" o -> free_of "/" id -> id <> o -> org_owned o key ->
  orgKey id <> key /\ orgConfigKey id <> key /\ forall pk, memberKey id pk <> key.
Proof.
  intros Ho Hid Hne [->|[->|[pk ->]]]; split_and!; try (intros; other_key).
  - by intros ?%orgKey_inj.
  - by intros ?%str_app_inj_l.
  - intros pk' Hk. by apply memberKey_eq in Hk as [? _].
Qed.

Lemma wallet_slash m id w : org_inv m -> GetLeaderWallet m id = Ok w -> free_of "/" id.
Proof.
  intros HI H. unfold GetLeaderWallet, GetOrg in H. destruct (m !! orgKey id) as [v|] eqn:E; [|done].
  destruct (inv_org _ HI _ _ E) as (x & -> & _). by eapply inv_org_slash.
Qed.

Lemma org_isolated ctx x o a u a' w :
  org_inv (a_org a) -> GetLeaderWallet (a_org a) o = Ok w ->
  in_org (Org.handle org_keeper ctx x) a = (Ok u, a') ->
  unchanged o a a' \/ msg_signer x = Some (o, w) /\ w <> "".
Proof.
  intros HI Hw H. unfold in_org in H. destruct (Org.handle _ _ _ _) as [r s'] eqn:E.
  injection H as -> <-. pose proof (org_decisions_authorized _ _ _ _ _ _ E) as Hauth. cbn [kv] in Hauth.
  pose proof (wallet_slash _ _ _ HI Hw) as Hfo.
  destruct (msg_signer x) as [[id sg]|] eqn:Es.
  - destruct Hauth as [Hsg Hne]. destruct (decide (id = o)) as [->|Hio]; [right; split; congruence|].
    left. split; [|done]. intros key Hkey. cbn.
    destruct (owned_other o id key) as (H1 & H2 & H3); [done|by eapply wallet_slash|done..|].
    by eapply (framed_message org_keeper id key _ H1 H2 H3 ctx x (ex_intro _ sg Es)) in E.
  - left. split; [|done]. intros key Hkey. cbn. destruct x; try discriminate Es; cbn [handle] in E.
    + unfold MsgServer_RegisterOrg in E. mok E. cbn [kv] in *.
      match goal with H : RegisterOrg _ _ _ _ = _ |- _ =>
        apply RegisterOrg_ok in H as (n & p & s1 & _ & _ & _ & _ & _ & Hnone & _ & _ & _ & _ & ->) end.
      cbn [kv] in *. assert (FormatOrgID n <> o) as Hn.
      { intros <-. unfold GetLeaderWallet, GetOrg in Hw. by rewrite Hnone in Hw. }
      destruct (owned_other o (FormatOrgID n) key) as (H1 & H2 & H3);
        [done|apply FormatOrgID_no_slash|done..|].
      rewrite !lookup_insert_ne; try done. by destruct Hkey as [->|[->|[pk ->]]].
    + unfold MsgServer_UpdateParams, SetParams in E. mok E. cbn.
      rewrite lookup_insert_ne; [done|]. by destruct Hkey as [->|[->|[pk ->]]].
Qed.

(** ** The memory module *)
Lemma aggregate_isolated {V} o id fn :
  id <> o -> moves (V := V) (unchanged o) (on_peers (in_org (modifyOrgAggregate id fn))).
Proof.
  intros Hne. apply moves_on_peers. intros a r a' H. unfold in_org in H.
  destruct (modifyOrgAggregate id fn _) as [r1 s1] eqn:E. injection H as <- <-.
  split; [|done]. intros key Hkey. cbn.
  assert (keeps (P := B * F) (entry_is key (a_org a !! key)) (modifyOrgAggregate id fn)) as Hk.
  { unfold modifyOrgAggregate, getStoredOrg. keep. apply keeps_other_set.
    destruct Hkey as [->|[->|[pk ->]]]; [by intros ?%orgKey_inj|done..]. }
  by eapply Hk in E.
Qed.

Lemma reputation_isolated {V A} o (c : M (St Reputation.rep_val unit) A) :
  moves (V := V) (unchanged o) (on_peers (in_reputation c)).
Proof.
  apply moves_on_peers. intros a r a' H. unfold in_reputation in H.
  destruct (c _) as [r1 s1]. injection H as <- <-. by apply unchanged_eq.
Qed.

Lemma framed_memory ctx c o id key v0 :
  (forall o' sg, MemoryProps.decision c = Some (o', sg) -> o' = id) ->
  (forall i n, c <> Memory.EpochEnd i n) -> free_of "/" id -> free_of "/" o -> id <> o ->
  memory_owned o key ->
  keeps (P := app) (entry_is key v0) (Memory.handle memory_keeper ctx c).
Proof.
  intros Hid Hc Hfi Hfo Hne (h & Hkey).
  assert (forall h', Memory.approvedKey id h' <> key) as Ha.
  { intros h'. by destruct Hkey as [->|[->|[rp ->]]]; [intros [? _]%MemoryFacts.approvedKey_inj|..]. }
  assert (forall h', Memory.pendingKey id h' <> key) as Hp.
  { intros h'. by destruct Hkey as [->|[->|[rp ->]]]; [|intros [? _]%MemoryFacts.pendingKey_inj|]. }
  assert (forall h' rp', Memory.reportKey id h' rp' <> key) as Hr.
  { intros h' rp'. destruct Hkey as [->|[->|[rp ->]]]; [done..|]. intros Hk%str_app_inj_l.
    by apply (sep_split "/"%char) in Hk as [? _]. }
  assert (forall k v, k = Memory.ParamsKey \/ k = Memory.countKey id ->
    keeps (P := app) (entry_is key v0) (kset k v)) as Ho.
  { intros k v Hk. apply keeps_other_set. by destruct Hkey as [->|[->|[rp ->]]], Hk as [->| ->]. }
  destruct c; cbn [Memory.handle]; try specialize (Hid _ _ eq_refl);
    [..|by destruct (Hc identifier number)];
    unfold Memory.MsgServer_SubmitCommitment, Memory.MsgServer_ApproveMemory,
      Memory.MsgServer_ReportMemory, Memory.MsgServer_UpdateParams,
      Memory.requireLeaderWallet, Memory.SubmitCommitment, Memory.ApproveMemory,
      Memory.ReportMemory, Memory.SetParams;
    try (cbn in Hid; rewrite Hid); keep;
    first [ solve [apply Ho; eauto] | apply keeps_other_set; eauto | apply keeps_other_del; eauto
          | apply keeps_for_each; intros; keep ].
Qed.

Lemma memory_isolated ctx c o a u a' w :
  org_inv (a_org a) -> (forall i n, c <> Memory.EpochEnd i n) ->
  GetLeaderWallet (a_org a) o = Ok w ->
  in_memory (Memory.handle memory_keeper ctx c) a = (Ok u, a') ->
  unchanged o a a' \/ MemoryProps.decision c = Some (o, w) /\ w <> "".
Proof.
  intros HI Hc Hw (s' & H & ->)%in_store_run. destruct u. pose proof (wallet_slash _ _ _ HI Hw) as Hfo.
  pose proof (MemoryProps.decision_authorized _ _ _ _ _ H) as Hauth. cbn [peers] in Hauth.
  set (id := match MemoryProps.decision c with Some (o', _) => o' | None => o +:+ "x" end).
  assert (forall o' sg, MemoryProps.decision c = Some (o', sg) -> o' = id) as Hid
    by (unfold id; by intros o' sg ->).
  assert (free_of "/" id) as Hfi.
  { unfold id. destruct (MemoryProps.decision c) as [[o' sg]|]; [|by apply free_of_app].
    eapply wallet_slash; [exact HI|apply Hauth]. }
  destruct (decide (id = o)) as [Ho|Hne].
  - right. unfold id in Ho. destruct (MemoryProps.decision c) as [[o' sg]|].
    + subst o'. destruct Hauth as [Hsg ?]. cbn in Hsg. split; congruence.
    + apply (f_equal String.length) in Ho. rewrite str_length_app in Ho. cbn in Ho. lia.
  - left. assert (moves (unchanged o) (Memory.handle (P := app) memory_keeper ctx c)) as Hm.
    { apply (memory_moves _ id); try done; intros; try by apply reputation_isolated.
      all: by apply aggregate_isolated. }
    apply Hm in H as Hp. cbn [peers] in Hp. split; [apply Hp|]. intros key Hkey.
    by eapply (framed_memory ctx c o id key _ Hid Hc Hfi Hfo Hne Hkey) in H.
Qed.

(** ** The other modules *)
Lemma serve_isolated ctx x o a u a' :
  in_serve (Serve.handle serve_keeper ctx x) a = (Ok u, a') -> unchanged o a a'.
Proof.
  intros (s' & H & ->)%in_store_run.
  assert (moves (unchanged o) (Serve.handle (P := app) serve_keeper ctx x)) as Hm.
  { apply (serve_moves (unchanged o)); [intros; apply reputation_isolated|].
    intros V id e n. apply moves_on_peers. intros p r p' Hc.
    apply in_store_run in Hc as (s1 & Hc & ->). apply consume_apart in Hc as <-. by apply unchanged_eq. }
  apply Hm in H as [H1 H2]. by split.
Qed.

Lemma bank_isolated {V A} get (put : gmap string V -> app -> app) (m : M (St V app) A) o a r a' :
  moves bank_rel m ->
  (forall v a, a_org (put v a) = a_org a /\ a_memory (put v a) = a_memory a) ->
  in_store get put m a = (r, a') -> unchanged o a a'.
Proof.
  intros Hm Hput (s' & [b Hb]%Hm & ->)%in_store_run. cbn in Hb.
  destruct (Hput (kv s') (peers s')) as [H1 H2].
  by apply unchanged_eq; cbn; rewrite ?H1, ?H2, Hb.
Qed.

Lemma route_isolated ctx m o a u a' w :
  org_inv (a_org a) -> GetLeaderWallet (a_org a) o = Ok w -> route ctx m a = (Ok u, a') ->
  unchanged o a a' \/ signer m = w /\ w <> "".
Proof.
  intros HI Hw H. unfold route in H. destruct (memory_call m) as [c|] eqn:Ec.
  { destruct (memory_isolated ctx c o a u a' w) as [?|[Hd ?]]; try done; [..|by left|right; split; [|done]].
    - by destruct m; simplify_eq/=.
    - by destruct m; simplify_eq/=. }
  destruct (reputation_call m) as [c|] eqn:Er.
  { left. unfold in_reputation in H. destruct (Reputation.handle _ _ _) as [r s'].
    injection H as _ <-. by apply unchanged_eq. }
  destruct m; try discriminate Ec; try discriminate Er; [| |left..].
  3-10: mok H; eapply bank_isolated; [ | |eassumption]; [bank_frame|done].
  - destruct (org_isolated ctx m o a u a' w) as [?|[Hd ?]]; try done; [by left|right; split; [|done]].
    by destruct m; simplify_eq/=.
  - left. by eapply serve_isolated.
Qed.

(** ** Transactions *)
Lemma tx_isolated ctx msgs n o a u a' w :
  Forall app_msg_wf msgs -> n + N.of_nat (length msgs) < two64 -> app_inv n a ->
  GetLeaderWallet (a_org a) o = Ok w -> for_each msgs (route ctx) a = (Ok u, a') ->
  unchanged o a a' \/ w <> "" /\ exists m, m ∈ msgs /\ signer m = w.
Proof.
  revert n a. induction msgs as [|m msgs IH]; intros n a Hwf Hn HA Hw H; cbn [for_each length] in *.
  { mok H. by left. }
  apply M_bind_ok in H as (u1 & a1 & H1 & H). apply Forall_cons in Hwf as [Hm Hwf].
  destruct (route_isolated _ _ o _ _ _ w (ai_org _ _ HA) Hw H1) as [Hu|[Hs Hne]].
  2: { right. split; [done|]. exists m. split; [left|done]. }
  destruct (IH (n + 1) a1) as [Hu'|(Hne & m' & Hin & Hs)]; try done.
  - lia.
  - eapply route_inv; [done|lia|done|exact H1].
  - by rewrite (unchanged_wallet _ _ _ Hu).
  - left. by etrans.
  - right. split; [done|]. exists m'. split; [by right|done].
Qed.

(** C8: the records of an org change only with its leader's signature: on
    every run from genesis, when a transaction - whatever messages of the eight
    modules it holds - changes the record, the configuration or a member of an
    existing org, one of its pending or approved memories or a report about one,
    one of its messages is signed by the non-empty leader wallet that the org had
    before the transaction.  Messages signed by others - the leader of another
    org, a member, the module authority - cannot do it. *)
Theorem leader_signs_every_change bank grants l ctx msgs o w key :
  Forall app_msg_wf (all_msgs l ++ msgs) ->
  N.of_nat (length (all_msgs l ++ msgs)) < two64 ->
  let a := run_app l (new_app bank grants) in
  let a' := (exec (Tx ctx msgs) a).2 in
  GetLeaderWallet (a_org a) o = Ok w ->
  (org_owned o key /\ a_org a' !! key <> a_org a !! key \/
   memory_owned o key /\ a_memory a' !! key <> a_memory a !! key) ->
  w <> "" /\ exists m, m ∈ msgs /\ signer m = w.
Proof.
  intros [Hl Hm]%Forall_app Hn a a' Hw Hch. rewrite length_app in Hn.
  assert (app_inv (N.of_nat (length (all_msgs l))) a) as HA by (apply new_app_run_inv; [done|lia]).
  destruct (exec (Tx ctx msgs) a) as [r a1] eqn:E. cbn [exec snd] in *. unfold a' in *. clear a'.
  destruct r as [u|e].
  - apply deliver_ok in E. edestruct tx_isolated as [Hu|Hs]; [exact Hm| |exact HA|exact Hw|exact E| |exact Hs].
    + lia.
    + destruct Hch as [[Ho []]|[Ho []]]; [by apply (un_org _ _ _ Hu)|by apply (un_memory _ _ _ Hu)].
  - apply deliver_err in E as ->. by destruct Hch as [[_ []]|[_ []]].
Qed.
End Isolation.

(** ** An execution: the approval of a pending memory *)
Module IsolationDemo.
Import Simple AppDemo.

Local Notation before := (run_app submitted (new_app bank0 grants0)).

Lemma leader_signs_every_change_witness :
  exists m, m ∈ [ApproveMemory approval; serve] /\ signer m = "wallet".
Proof.
  refine (proj2 (leader_signs_every_change bank0 grants0 submitted ctx [ApproveMemory approval; serve]
    org0 "wallet" (Memory.approvedKey org0 hash) _ eq_refl _ _)).
  - repeat constructor.
  - vm_compute. reflexivity.
  - right. split; [exists hash; left; reflexivity|]. vm_compute. discriminate.
Defined.
End IsolationDemo.
