(* ===== verification/PbApp.v ===== *)
(** * Records and messages as bytes

    A node keeps the records of the modules as bytes and receives messages as
    bytes.  The theorems say that nothing is lost between these bytes and the
    records and messages the other files speak of.  How the SDK finds the messages
    inside the bytes of a transaction is not modelled. *)

From S2P Require Import Prelude Bytes Store Ifaces Wire Proto Pb PbState PbTx App AppDemo.
From S2P Require Org Serve Emissions Identity Reputation Memory Bandwidth Attestation.
Local Open Scope string_scope.
Local Open Scope N_scope.

(** ** Stores *)
Section Disk.
Context {B F : Type} (order : gmap string N -> list (string * N)) `{!MapOrder order}.
Notation app := (App B F).

Definition store_fits {V} `{!Stored V} (m : gmap string V) : bool :=
  bool_decide (map_Forall (fun _ v => value_fits v = true) m).

(** The values fit their Go types: numbers their widths, byte slices and
    strings the address space. *)
Definition app_fits (a : app) : bool :=
  store_fits (a_org a) && store_fits (a_memory a) && store_fits (a_serve a) && store_fits (a_emissions a) &&
  store_fits (a_bandwidth a) && store_fits (a_identity a) && store_fits (a_reputation a) &&
  store_fits (a_attestation a).

Lemma store_fits_reads {V} `{!Stored V} (m : gmap string V) : store_fits m = true -> reads_back m.
Proof. intros H%bool_decide_eq_true. by apply disk_reads_back. Qed.

(** C23: what a keeper writes it reads.  In every state of the application whose
    values fit their Go types, each record of each of the eight stores is read
    back from its protobuf bytes, whatever the order in which the Go maps inside
    records were written. *)
Theorem records_survive_storage (a : app) :
  app_fits a = true ->
  reads_back (a_org a) /\ reads_back (a_memory a) /\ reads_back (a_serve a) /\
  reads_back (a_emissions a) /\ reads_back (a_bandwidth a) /\ reads_back (a_identity a) /\
  reads_back (a_reputation a) /\ reads_back (a_attestation a).
Proof. unfold app_fits. rewrite !andb_true_iff. intros H. split_and!; apply store_fits_reads; apply H. Qed.
End Disk.

(** ** Messages *)

(** C22: the messages of the eight modules survive their encoding.  The generated
    [Unmarshal] that belongs to the type URL of a message is unique and reads the
    message back from its bytes, whatever its numbers and byte strings, as far as
    they fit their Go types; so two different messages never have the same URL and
    bytes; and the URLs that RegisterInterfaces of the modules registers are
    exactly the ones the service descriptions have a handler for, the URL of every
    message among them. *)
Theorem message_bytes_roundtrip :
  (forall x, type_url x ∈ RegisterInterfaces /\
     exists dec, (type_url x, dec) ∈ decoders /\
       (forall dec', (type_url x, dec') ∈ decoders -> dec' = dec) /\
       (msg_fits x = true -> dec (value_bytes x) = Some x)) /\
  (forall x y, msg_fits x = true -> msg_fits y = true ->
     type_url x = type_url y -> value_bytes x = value_bytes y -> x = y) /\
  (forall u, u ∈ RegisterInterfaces <-> u ∈ handled).
Proof.
  split_and!.
  - intros x. split; [by apply (bool_decide_eq_true (type_url x ∈ RegisterInterfaces)), url_registered|].
    destruct (decoder_of x) as (dec & Hd & Hb). exists dec. split; [done|]. split; [|done].
    intros dec' Hd'. by eapply decoder_unique.
  - intros x y Hx Hy Hu Hb. destruct (decoder_of x) as (d & Hd & Hbx), (decoder_of y) as (d' & Hd' & Hby).
    rewrite Hu in Hd. rewrite (decoder_unique _ _ _ Hd Hd') in Hbx. specialize (Hbx Hx). specialize (Hby Hy).
    rewrite Hb, Hby in Hbx. by injection Hbx.
  - intros u. symmetry. apply handled_is_registered.
Qed.

Module PbAppDemo.
Import Simple AppDemo.

#[export] Instance plain_order : MapOrder map_to_list.
Proof. by intros m. Qed.

Local Notation final := (run_app history (new_app bank0 grants0)).

Lemma records_survive_storage_witness :
  app_fits map_to_list final = true /\ reads_back (a_memory final).
Proof.
  assert (app_fits map_to_list final = true) as H by (vm_compute; reflexivity).
  split; [exact H|]. apply (records_survive_storage map_to_list final H).
Defined.

(** The approval of the run, read back from its bytes. *)
Lemma message_bytes_roundtrip_witness :
  msg_fits (ApproveMemory approval) = true /\
  exists dec, (type_url (ApproveMemory approval), dec) ∈ decoders /\
    dec (value_bytes (ApproveMemory approval)) = Some (ApproveMemory approval).
Proof.
  assert (msg_fits (ApproveMemory approval) = true) as H by (vm_compute; reflexivity).
  split; [exact H|]. destruct message_bytes_roundtrip as [Hr _].
  destruct (Hr (ApproveMemory approval)) as (_ & dec & Hd & _ & Hb).
  exists dec. split; [exact Hd|exact (Hb H)].
Defined.
End PbAppDemo.
