(* ===== verification/AppConfig.v ===== *)
(** * Configuration of the application (app/app.go, app/upgrades/v2)

    The tables [NewWeVibeApp] passes to the Cosmos SDK: address prefixes, the
    permissions of the module accounts, the store keys, the modules of the
    module manager and the orders in which it calls them, and the choice of the
    store loader at start-up.

    The names of the SDK's own modules, accounts and permissions are constants
    of the SDK ([SdkNames]).  What its bank does with the permissions is stated
    by [PermissionLaws]: with the permission a call needs, and a recipient that
    is not blocked, the checks change nothing.  The theorem of this file says
    that [maccPerms] grants what the modules need: no step of the application is
    refused by the checks, but for a claim paid to a blocked address, which
    fails without an effect. *)

From S2P Require Import Prelude Bytes Store Wire Ifaces.
From S2P Require Org Emissions Identity Bandwidth Attestation Memory Serve Reputation.
From S2P Require Import App AppDemo.
Local Open Scope string_scope.
Local Open Scope N_scope.

(** ** Constants *)
Definition AppName : string := "wevibed".
Definition BondDenom : string := "uvibe".
Definition Bech32Prefix : string := "wevibe".
Definition Bech32PrefixVal : string := "wevibevaloper".
Definition Bech32PrefixCons : string := "wevibevalcons".

(** [func init()]: what it sets in the sealed SDK configuration. *)
Record SdkConfig := mkSdkConfig {
  DefaultBondDenom : string;
  AccountPrefixes : string * string;
  ValidatorPrefixes : string * string;
  ConsensusNodePrefixes : string * string;
}.

Definition init : SdkConfig := {|
  DefaultBondDenom := BondDenom;
  AccountPrefixes := (Bech32Prefix, Bech32Prefix +:+ "pub");
  ValidatorPrefixes := (Bech32PrefixVal, Bech32PrefixVal +:+ "pub");
  ConsensusNodePrefixes := (Bech32PrefixCons, Bech32PrefixCons +:+ "pub");
|}.

(** ** Names declared by the SDK *)
Class SdkNames := {
  auth_ModuleName : string; bank_ModuleName : string; staking_ModuleName : string;
  distr_ModuleName : string; slashing_ModuleName : string; mint_ModuleName : string;
  consensus_ModuleName : string; genutil_ModuleName : string; epochs_ModuleName : string;
  gov_ModuleName : string; feegrant_ModuleName : string; authz_ModuleName : string;
  upgrade_ModuleName : string;
  auth_StoreKey : string; bank_StoreKey : string; staking_StoreKey : string;
  mint_StoreKey : string; distr_StoreKey : string; slashing_StoreKey : string;
  consensus_StoreKey : string; epochs_StoreKey : string; gov_StoreKey : string;
  feegrant_StoreKey : string; authz_StoreKey : string; upgrade_StoreKey : string;
  FeeCollectorName : string; BondedPoolName : string; NotBondedPoolName : string;
  Minter : string; Burner : string; Staking : string;
}.

Definition wevibe_modules : list string :=
  ["bandwidth"; "emissions"; "memory"; "org"; "identity"; "reputation"; "serve"; "attestation"].

Section Config.
Context {SDK : SdkNames}.

Definition sdk_modules : list string :=
  [auth_ModuleName; bank_ModuleName; staking_ModuleName; distr_ModuleName; slashing_ModuleName;
   mint_ModuleName; consensus_ModuleName; genutil_ModuleName; epochs_ModuleName; gov_ModuleName;
   feegrant_ModuleName; authz_ModuleName; upgrade_ModuleName].

Definition sdk_accounts : list string :=
  [FeeCollectorName; distr_ModuleName; mint_ModuleName; BondedPoolName; NotBondedPoolName;
   gov_ModuleName].

(** ** Module accounts *)
Definition maccPerms : gmap string (list string) := list_to_map [
  (FeeCollectorName, []);
  (distr_ModuleName, []);
  (mint_ModuleName, [Minter]);
  (Emissions.EmissionsModuleName, [Minter]);
  (BondedPoolName, [Burner; Staking]);
  (NotBondedPoolName, [Burner; Staking]);
  (gov_ModuleName, [Burner]);
  ("org", [Burner])].

Definition BlockedAddresses {ADDR : Addresses} : gset string :=
  set_map (fun acc => AccAddress_String (NewModuleAddress acc)) (dom maccPerms).

(** ** Stores *)
Definition keys : list string :=
  [auth_StoreKey; bank_StoreKey; staking_StoreKey; mint_StoreKey; distr_StoreKey;
   slashing_StoreKey; consensus_StoreKey; epochs_StoreKey; gov_StoreKey; feegrant_StoreKey;
   authz_StoreKey; upgrade_StoreKey; "bandwidth"; "emissions"; "memory"; "org"; "identity";
   "reputation"; "serve"; "attestation"].

(** A missing key is Go's [nil]. *)
Definition GetKey (storeKey : string) : option string :=
  if decide (storeKey ∈ keys) then Some storeKey else None.

Definition wevibeKeys : gmap string (option string) :=
  list_to_map ((fun name => (name, GetKey name)) <$> wevibe_modules).

(** ** The module manager *)
Record Manager := mkManager {
  Modules : list string;
  OrderInitGenesis : list string;
  OrderBeginBlockers : list string;
  OrderEndBlockers : list string;
  OrderPreBlockers : list string;
}.

Definition ModuleManager : Manager := {|
  Modules :=
    [auth_ModuleName; bank_ModuleName; staking_ModuleName; distr_ModuleName; slashing_ModuleName;
     mint_ModuleName; consensus_ModuleName; genutil_ModuleName; epochs_ModuleName;
     gov_ModuleName; feegrant_ModuleName; authz_ModuleName; upgrade_ModuleName;
     "bandwidth"; "emissions"; "memory"; "org"; "identity"; "reputation"; "serve"; "attestation"];
  OrderInitGenesis :=
    [auth_ModuleName; authz_ModuleName; bank_ModuleName; distr_ModuleName; staking_ModuleName;
     slashing_ModuleName; upgrade_ModuleName; gov_ModuleName; feegrant_ModuleName;
     mint_ModuleName; genutil_ModuleName; consensus_ModuleName; epochs_ModuleName;
     "org"; "bandwidth"; "memory"; "serve"; "attestation"; "emissions"; "identity"; "reputation"];
  OrderBeginBlockers :=
    [epochs_ModuleName; mint_ModuleName; distr_ModuleName; slashing_ModuleName;
     staking_ModuleName; auth_ModuleName; authz_ModuleName; consensus_ModuleName];
  OrderEndBlockers := [staking_ModuleName; bank_ModuleName; gov_ModuleName; feegrant_ModuleName];
  OrderPreBlockers := [upgrade_ModuleName; auth_ModuleName];
|}.

(** [ModuleBasics] (app/encoding.go): the modules whose default genesis
    [wevibed init] writes. *)
Definition ModuleBasics : list string :=
  [auth_ModuleName; bank_ModuleName; staking_ModuleName; distr_ModuleName; slashing_ModuleName;
   mint_ModuleName; consensus_ModuleName; feegrant_ModuleName; gov_ModuleName; upgrade_ModuleName;
   genutil_ModuleName].

(** [assertNoForgottenModules]: a [SetOrder] method panics on a module that
    implements the interface and is not listed. *)
Definition no_forgotten (implements : string -> bool) (order : list string) : bool :=
  forallb (fun m => bool_decide (m ∈ order) || negb (implements m)) (Modules ModuleManager).

(** ** Upgrades *)
Definition UpgradeName : string := "v2".

Record UpgradeInfo := mkUpgradeInfo { ui_Name : string; ui_Height : Z }.

(** Renamed, added and deleted stores. *)
Record StoreUpgrades := mkStoreUpgrades {
  su_Added : list string; su_Renamed : list (string * string); su_Deleted : list string;
}.

Inductive StoreLoader :=
  | DefaultStoreLoader
  | UpgradeStoreLoader (height : Z) (upgrades : StoreUpgrades).

(** [--unsafe-skip-upgrades]. *)
Definition skipUpgradeHeights (flag : list Z) : gset Z := list_to_set flag.
Definition IsSkipHeight (skip : gset Z) (height : Z) : bool := bool_decide (height ∈ skip).

(** [homePath]: the [--home] flag or the default. *)
Definition homePath (flag DefaultNodeHome : string) : string :=
  if bool_decide (flag = "") then DefaultNodeHome else flag.

(** The end of [NewWeVibeApp]: the loader is chosen by the upgrade file the old
    binary left; a file that cannot be read is a panic. *)
Definition store_loader (skip : list Z) (upgradeInfo : result UpgradeInfo) : result StoreLoader :=
  match upgradeInfo with
  | Err _ => Err (Panic "failed to read upgrade info from disk")
  | Ok info =>
      if bool_decide (ui_Name info = UpgradeName) &&
         negb (IsSkipHeight (skipUpgradeHeights skip) (ui_Height info))
      then Ok (UpgradeStoreLoader (ui_Height info) (mkStoreUpgrades [] [] []))
      else Ok DefaultStoreLoader
  end.

(** [v2.CreateUpgradeHandler]: the version map goes through the migrations of
    the module manager; the plan is ignored. *)
Definition CreateUpgradeHandler {S Plan VersionMap} (RunMigrations : VersionMap -> M S VersionMap)
    (plan : Plan) (fromVM : VersionMap) : M S VersionMap :=
  RunMigrations fromVM.
End Config.

(** ** Permissions of the module accounts *)

(** The names are distinct, as far as it matters here: the accounts of the two
    WeVibe modules are not also accounts of the SDK. *)
Class SdkNamesLaws `{SdkNames} := {
  modules_distinct : NoDup (sdk_modules ++ wevibe_modules);
  accounts_distinct : NoDup (sdk_accounts ++ ["emissions"; "org"]);
  store_keys_distinct : NoDup keys;
}.

(** [checked] is the bank with the checks of [maccPerms] and
    [BlockedAddresses], [plain] the bank without. *)
Class PermissionLaws `{SdkNames} {B : Type} {ADDR : Addresses} (checked plain : BankKeeper B) := {
  mint_permitted m perms c s :
    maccPerms !! m = Some perms -> Minter ∈ perms ->
    @MintCoins B checked m c s = @MintCoins B plain m c s;
  burn_permitted m perms c s :
    maccPerms !! m = Some perms -> Burner ∈ perms ->
    @BurnCoins B checked m c s = @BurnCoins B plain m c s;
  to_module_permitted a m c s :
    is_Some (maccPerms !! m) ->
    @SendCoinsFromAccountToModule B checked a m c s = @SendCoinsFromAccountToModule B plain a m c s;
  from_module_permitted m b c s :
    is_Some (maccPerms !! m) -> AccAddress_String b ∉ BlockedAddresses ->
    @SendCoinsFromModuleToAccount B checked m b c s = @SendCoinsFromModuleToAccount B plain m b c s;
  from_module_blocked m b c s :
    is_Some (maccPerms !! m) -> AccAddress_String b ∈ BlockedAddresses ->
    exists t, @SendCoinsFromModuleToAccount B checked m b c s = (Err (Sentinel "sdk" t), s);
  send_unchecked a b c s : @SendCoins B checked a b c s = @SendCoins B plain a b c s;
}.

(** [m1] does what [m2] does, or fails with an error of [Q]. *)
Definition narrows {S A} (Q : error -> Prop) (m1 m2 : M S A) : Prop :=
  forall s, m1 s = m2 s \/ exists e s', m1 s = (Err e, s') /\ Q e.
Notation same := (narrows (fun _ => False)).

Section Narrows.
Context {S : Type}.
Implicit Types Q : error -> Prop.

Lemma narrows_refl {A} Q (m : M S A) : narrows Q m m.
Proof. by left. Qed.

Lemma same_eq {A} (m1 m2 : M S A) : same m1 m2 -> forall s, m1 s = m2 s.
Proof. intros H s. by destruct (H s) as [?|(? & ? & ? & [])]. Qed.

Lemma same_of {A} (m1 m2 : M S A) : (forall s, m1 s = m2 s) -> same m1 m2.
Proof. intros H s. by left. Qed.

Lemma same_narrows {A} Q (m1 m2 : M S A) : same m1 m2 -> narrows Q m1 m2.
Proof. intros H s. left. by apply same_eq. Qed.

Lemma narrows_bind {A C} Q (m1 m2 : M S A) (f1 f2 : A -> M S C) :
  narrows Q m1 m2 -> (forall x, narrows Q (f1 x) (f2 x)) -> narrows Q (m1 ≫= f1) (m2 ≫= f2).
Proof.
  intros Hm Hf s. unfold mbind, M_bind. destruct (Hm s) as [->|(e & s' & -> & He)]; [|by eauto].
  destruct (m2 s) as [[x|e] s']; [apply Hf|by left].
Qed.

(** The continuation is only entered with a value of [m2]. *)
Lemma narrows_bind_ok {A C} Q (m1 m2 : M S A) (f1 f2 : A -> M S C) :
  narrows Q m1 m2 -> (forall x s s', m2 s = (Ok x, s') -> narrows Q (f1 x) (f2 x)) ->
  narrows Q (m1 ≫= f1) (m2 ≫= f2).
Proof.
  intros Hm Hf s. unfold mbind, M_bind. destruct (Hm s) as [->|(e & s' & -> & He)]; [|by eauto].
  destruct (m2 s) as [[x|e] s'] eqn:E; [by eapply Hf|by left].
Qed.

Lemma narrows_mono {A} Q Q' (m1 m2 : M S A) :
  (forall e, Q e -> Q' e) -> narrows Q m1 m2 -> narrows Q' m1 m2.
Proof. intros HQ Hm s. destruct (Hm s) as [?|(e & s' & ? & ?)]; [by left|right]. eauto. Qed.

Lemma narrows_for_each {A} Q (l : list A) (f1 f2 : A -> M S unit) :
  (forall x, x ∈ l -> narrows Q (f1 x) (f2 x)) -> narrows Q (for_each l f1) (for_each l f2).
Proof.
  induction l as [|x l IH]; intros Hf; cbn; [apply narrows_refl|].
  apply narrows_bind; [apply Hf; left|]. intros _. apply IH. intros y Hy. apply Hf. by right.
Qed.

Lemma same_attempt {A} (m1 m2 : M S A) : same m1 m2 -> same (attempt m1) (attempt m2).
Proof. intros H. apply same_of. intros s. unfold attempt. by rewrite (same_eq _ _ H). Qed.

Lemma same_map_err {A} w (m1 m2 : M S A) : same m1 m2 -> same (map_err w m1) (map_err w m2).
Proof. intros H. apply same_of. intros s. unfold map_err. by rewrite (same_eq _ _ H). Qed.
End Narrows.

Lemma narrows_on_peers {V P A} Q (m1 m2 : M P A) :
  narrows Q m1 m2 -> narrows Q (on_peers (V := V) m1) (on_peers m2).
Proof.
  intros H s. unfold on_peers. destruct (H (peers s)) as [->|(e & p & -> & He)]; [by left|]. eauto.
Qed.

Lemma same_on_fst {A B T} (m1 m2 : M A T) : same m1 m2 -> same (on_fst (B := B) m1) (on_fst m2).
Proof. intros H. apply same_of. intros s. unfold on_fst. by rewrite (same_eq _ _ H). Qed.

Lemma narrows_in_store {B F V A} Q (get : App B F -> gmap string V) put (m1 m2 : M (St V (App B F)) A) :
  narrows Q m1 m2 -> narrows Q (in_store get put m1) (in_store get put m2).
Proof.
  intros H a. unfold in_store. destruct (H (mkSt (get a) a (a_evs a))) as [->|(e & s & -> & He)];
    [by left|]. eauto.
Qed.

Lemma same_in_org {B F A} (m1 m2 : M (St Org.org_val (B * F)) A) :
  same m1 m2 -> same (in_org m1) (in_org m2).
Proof. intros H. apply same_of. intros a. unfold in_org. by rewrite (same_eq _ _ H). Qed.

Create HintDb narrows.
#[export] Hint Resolve narrows_refl narrows_bind narrows_for_each narrows_on_peers narrows_in_store
  same_attempt same_map_err same_on_fst same_in_org : narrows.
(** Steps both sides in parallel. *)
Ltac narrow := intros; repeat first
  [ apply narrows_refl | apply narrows_bind; [|intros] | case_match | progress eauto with narrows ].

Section Permissions.
Context {B F : Type} {SDK : SdkNames} {NAMES : SdkNamesLaws} {ADDR : Addresses}
  {checked plain : BankKeeper B} {PERM : PermissionLaws checked plain}
  {FEEGRANT : FeegrantKeeper F} {URL : UrlParser} {CRYPTO : Crypto} {JSON : Memory.JsonTags}.
Notation app := (App B F).
Notation checked_app := (@app_bank B F checked).
Notation plain_app := (@app_bank B F plain).

(** The account [b] is the account of a module. *)
Definition module_account (b : string) : Prop :=
  exists acc, acc ∈ (sdk_accounts ++ ["emissions"; "org"])%list /\
    AccAddress_String b = AccAddress_String (NewModuleAddress acc).

Lemma blocked_module_account b : AccAddress_String b ∈ BlockedAddresses -> module_account b.
Proof.
  unfold BlockedAddresses. intros (acc & Hb & [p Hp]%elem_of_dom)%elem_of_map. exists acc.
  split; [|done]. apply elem_of_list_to_map_2 in Hp. unfold sdk_accounts, Emissions.EmissionsModuleName in *.
  set_solver.
Qed.

Lemma perms_of m p :
  (m, p) ∈ [(FeeCollectorName, []); (distr_ModuleName, []); (mint_ModuleName, [Minter]);
    (Emissions.EmissionsModuleName, [Minter]); (BondedPoolName, [Burner; Staking]);
    (NotBondedPoolName, [Burner; Staking]); (gov_ModuleName, [Burner]); ("org", [Burner])] ->
  maccPerms !! m = Some p.
Proof.
  apply elem_of_list_to_map_1.
  enough (forall l, l ≡ₚ sdk_accounts ++ ["emissions"; "org"] -> NoDup l) as H by (apply H; cbn; solve_Permutation).
  intros l ->. apply accounts_distinct.
Qed.
Lemma perms_org : maccPerms !! Org.ModuleName = Some [Burner].
Proof. apply perms_of. set_solver. Qed.
Lemma perms_emissions : maccPerms !! Emissions.EmissionsModuleName = Some [Minter].
Proof. apply perms_of. set_solver. Qed.

Lemma same_burn c : same (@BurnCoins B checked Org.ModuleName c) (@BurnCoins B plain Org.ModuleName c).
Proof. apply same_of. intros s. by eapply burn_permitted; [apply perms_org|left]. Qed.
Lemma same_to_org a c : same (@SendCoinsFromAccountToModule B checked a Org.ModuleName c)
  (@SendCoinsFromAccountToModule B plain a Org.ModuleName c).
Proof. apply same_of. intros s. apply to_module_permitted. rewrite perms_org. eauto. Qed.
Lemma same_send a b c : same (@SendCoins B checked a b c) (@SendCoins B plain a b c).
Proof. apply same_of. intros s. apply send_unchecked. Qed.
Lemma same_mint c : same (@MintCoins app checked_app Emissions.EmissionsModuleName c)
  (@MintCoins app plain_app Emissions.EmissionsModuleName c).
Proof.
  apply same_of. intros a. cbn. unfold via_bank. erewrite mint_permitted; [done|apply perms_emissions|].
  by left.
Qed.
Lemma narrows_pay b c :
  narrows (fun _ => module_account b)
    (@SendCoinsFromModuleToAccount app checked_app Emissions.EmissionsModuleName b c)
    (@SendCoinsFromModuleToAccount app plain_app Emissions.EmissionsModuleName b c).
Proof.
  intros a. cbn. unfold via_bank.
  assert (is_Some (maccPerms !! Emissions.EmissionsModuleName)) as Hp by (rewrite perms_emissions; eauto).
  destruct (decide (AccAddress_String b ∈ BlockedAddresses)) as [Hb|Hb].
  - right. destruct (from_module_blocked _ b c (a_bank a) Hp Hb) as (t & ->).
    do 2 eexists. split; [done|by apply blocked_module_account].
  - left. by rewrite (from_module_permitted _ _ _ _ Hp Hb).
Qed.
#[local] Hint Resolve same_burn same_to_org same_send same_mint : narrows.

Lemma pay_same price creator orgID :
  same (Org.paySlotPrice (F := F) (BANK := checked) price creator orgID)
       (Org.paySlotPrice (BANK := plain) price creator orgID).
Proof. unfold Org.paySlotPrice. narrow. Qed.
#[local] Hint Resolve pay_same : narrows.

Lemma register_same org creator :
  same (Org.RegisterOrg (F := F) (BANK := checked) org_keeper org creator)
       (Org.RegisterOrg (BANK := plain) org_keeper org creator).
Proof. unfold Org.RegisterOrg. narrow. Qed.
#[local] Hint Resolve register_same : narrows.

Lemma org_handle_same ctx m :
  same (Org.handle (F := F) (BANK := checked) org_keeper ctx m)
       (Org.handle (BANK := plain) org_keeper ctx m).
Proof.
  destruct m; cbn [Org.handle]; [|apply narrows_refl ..]. unfold Org.MsgServer_RegisterOrg.
  apply narrows_bind; [|intros; apply narrows_refl].
  do 2 (apply narrows_bind; [apply narrows_refl|intros]).
  apply narrows_bind; [apply register_same|intros; apply narrows_refl].
Qed.
#[local] Hint Resolve org_handle_same : narrows.

Lemma mint_daily_same epoch :
  same (Emissions.MintDailyEmission (P := app) (BANK := checked_app) epoch)
       (Emissions.MintDailyEmission (BANK := plain_app) epoch).
Proof. unfold Emissions.MintDailyEmission. narrow. Qed.
#[local] Hint Resolve mint_daily_same : narrows.

(** A claim is paid to its signer. *)
Definition claims_to_module (msg : Emissions.MsgClaimContributorReward) : Prop :=
  exists b, AccAddressFromBech32 (Emissions.mc_Signer msg) = Ok b /\ module_account b.

Lemma claim_narrows msg :
  narrows (fun _ => claims_to_module msg)
    (Emissions.MsgServer_ClaimContributorReward (P := app) (BANK := checked_app) msg)
    (Emissions.MsgServer_ClaimContributorReward (BANK := plain_app) msg).
Proof.
  unfold Emissions.MsgServer_ClaimContributorReward.
  do 2 (apply narrows_bind; [apply narrows_refl|intros]). case_match. case_match.
  do 4 (apply narrows_bind; [apply narrows_refl|intros]).
  apply narrows_bind_ok; [apply narrows_refl|]. intros addr t t' Hb.
  assert (AccAddressFromBech32 (Emissions.mc_Signer msg) = Ok addr) as Ha.
  { unfold map_err, lift in Hb. destruct (AccAddressFromBech32 _); by simplify_eq. }
  apply narrows_bind; [|intros; apply narrows_refl]. apply narrows_on_peers.
  apply (narrows_mono (fun _ => module_account addr)); [|apply narrows_pay]. intros _ ?. by exists addr.
Qed.

Lemma hooks_same identifier n :
  same (AfterEpochEnd (B := B) (F := F) (BANK := checked) identifier n)
       (AfterEpochEnd (BANK := plain) identifier n).
Proof.
  unfold AfterEpochEnd. apply narrows_bind; [|narrow]. apply same_attempt, narrows_in_store.
  unfold Emissions.AfterEpochEnd. narrow.
Qed.

Definition is_claim (m : app_msg) : Prop := exists c, m = ClaimContributorReward c.
#[local] Instance is_claim_dec m : Decision (is_claim m).
Proof. destruct m; first [by left; eexists | by right; intros [? [=]]]. Defined.

Lemma route_same ctx m :
  ~ is_claim m ->
  same (route (B := B) (F := F) (BANK := checked) ctx m) (route (BANK := plain) ctx m).
Proof.
  intros Hc. unfold route. destruct (memory_call m); [apply narrows_refl|].
  destruct (reputation_call m); [apply narrows_refl|].
  destruct m; cbv beta iota; lazymatch goal with
  | |- context [Org.handle] => apply same_in_org, org_handle_same
  | |- context [Emissions.MsgServer_ClaimContributorReward] => destruct Hc; by eexists
  | |- context [Emissions.MsgServer_MintDailyEmission] => idtac
  | |- _ => apply narrows_refl
  end.
  apply narrows_bind; [|intros; apply narrows_refl]. apply narrows_in_store.
  unfold Emissions.MsgServer_MintDailyEmission.
  do 2 (apply narrows_bind; [apply narrows_refl|intros]).
  apply narrows_bind; [apply mint_daily_same|intros; apply narrows_refl].
Qed.

Lemma route_narrows ctx m :
  narrows (fun _ => exists c, m = ClaimContributorReward c /\ claims_to_module c)
    (route (B := B) (F := F) (BANK := checked) ctx m) (route (BANK := plain) ctx m).
Proof.
  destruct (decide (is_claim m)) as [[c ->]|Hc]; [|by apply same_narrows, route_same].
  apply narrows_bind; [|narrow]. apply narrows_in_store.
  apply (narrows_mono (fun _ => claims_to_module c)); [eauto|apply claim_narrows].
Qed.

(** C17: the permissions of the module accounts suffice.  With the bank that
    checks [maccPerms] and [BlockedAddresses], every step of the application,
    from any state, does exactly what it does with a bank that checks nothing;
    the one exception is a transaction with a claim whose signer, to whom the
    reward is paid, is the account of one of the eight modules that have one
    (fee collector, distribution, mint, the bonded and not bonded pools, gov,
    emissions and org): it fails and changes nothing. *)
Theorem permissions_suffice (x : block_step) (a : app) :
  exec (BANK := checked) x a = exec (BANK := plain) x a \/
  exists ctx msgs c b acc e, x = Tx ctx msgs /\ ClaimContributorReward c ∈ msgs /\
    AccAddressFromBech32 (Emissions.mc_Signer c) = Ok b /\
    acc ∈ (sdk_accounts ++ ["emissions"; "org"])%list /\
    AccAddress_String b = AccAddress_String (NewModuleAddress acc) /\
    exec (BANK := checked) x a = (Err e, a).
Proof.
  destruct x as [ctx msgs|i n]; [|left; by apply same_eq, hooks_same].
  cbn. unfold deliver.
  destruct (narrows_for_each (fun _ => exists c, ClaimContributorReward c ∈ msgs /\ claims_to_module c)
    msgs (route (BANK := checked) ctx) (route (BANK := plain) ctx)) with a
    as [->|(e & a' & -> & c & Hc & b & Hb & acc & Hacc & Eb)]; [|by left|].
  - intros m Hm. eapply narrows_mono; [|apply route_narrows]. intros e (c & -> & Hc). eauto.
  - right. by exists ctx, msgs, c, b, acc, e.
Qed.
End Permissions.

(** ** The tables are complete *)
Section Orders.
Context {SDK : SdkNames} {NAMES : SdkNamesLaws} {ADDR : Addresses}.

(** Every module has its place in the genesis order, so [SetOrderInitGenesis]
    accepts it whatever the modules implement. *)
Lemma genesis_order_complete :
  OrderInitGenesis ModuleManager ≡ₚ Modules ModuleManager /\
  forall implements, no_forgotten implements (OrderInitGenesis ModuleManager) = true.
Proof.
  assert (OrderInitGenesis ModuleManager ≡ₚ Modules ModuleManager) as Hp by (cbn; solve_Permutation).
  split; [done|]. intros implements. apply forallb_forall. intros m Hm%list_elem_of_In.
  rewrite bool_decide_eq_true_2; [done|]. by rewrite Hp.
Qed.

(** None of the [SetOrder] methods for blocks can complain about a WeVibe
    module: none of them has code to run there. *)
Lemma block_orders_are_sdk :
  Forall (fun m => m ∈ sdk_modules)
    (OrderBeginBlockers ModuleManager ++ OrderEndBlockers ModuleManager ++
     OrderPreBlockers ModuleManager).
Proof. cbn. repeat constructor; set_solver. Qed.

(** Every WeVibe keeper gets a mounted store, each its own. *)
Lemma wevibe_stores_mounted name : name ∈ wevibe_modules -> wevibeKeys !! name = Some (Some name).
Proof.
  intros Hn. apply elem_of_list_to_map_1.
  { apply (bool_decide_unpack _). vm_compute. done. }
  apply list_elem_of_fmap. exists name. split; [|done]. unfold GetKey.
  rewrite decide_True; [done|]. unfold keys, wevibe_modules in *. set_solver.
Qed.

(** No module account can receive coins from a module, and nobody else is
    blocked. *)
Lemma blocked_iff a :
  a ∈ BlockedAddresses <-> exists acc, is_Some (maccPerms !! acc) /\
    a = AccAddress_String (NewModuleAddress acc).
Proof. unfold BlockedAddresses. rewrite elem_of_map. setoid_rewrite elem_of_dom. naive_solver. Qed.

(** The upgrade loader runs at the height of the pending v2 upgrade and nowhere
    else, and it changes no store. *)
Lemma store_loader_upgrades skip info h u :
  store_loader skip (Ok info) = Ok (UpgradeStoreLoader h u) <->
  ui_Name info = "v2" /\ h = ui_Height info /\ (h ∉ skip) /\ u = mkStoreUpgrades [] [] [].
Proof.
  unfold store_loader, IsSkipHeight, skipUpgradeHeights, UpgradeName.
  repeat case_bool_decide; rewrite ?elem_of_list_to_set in *; cbn; naive_solver.
Qed.
End Orders.

(** ** The names of SDK v0.53 and a bank with the checks *)
Module AppConfigDemo.
Import Simple AppDemo.

#[export] Instance names : SdkNames := {|
  auth_ModuleName := "auth"; bank_ModuleName := "bank"; staking_ModuleName := "staking";
  distr_ModuleName := "distribution"; slashing_ModuleName := "slashing"; mint_ModuleName := "mint";
  consensus_ModuleName := "consensus"; genutil_ModuleName := "genutil"; epochs_ModuleName := "epochs";
  gov_ModuleName := "gov"; feegrant_ModuleName := "feegrant"; authz_ModuleName := "authz";
  upgrade_ModuleName := "upgrade";
  auth_StoreKey := "acc"; bank_StoreKey := "bank"; staking_StoreKey := "staking";
  mint_StoreKey := "mint"; distr_StoreKey := "distribution"; slashing_StoreKey := "slashing";
  consensus_StoreKey := "consensus"; epochs_StoreKey := "epochs"; gov_StoreKey := "gov";
  feegrant_StoreKey := "feegrant"; authz_StoreKey := "authz"; upgrade_StoreKey := "upgrade";
  FeeCollectorName := "fee_collector"; BondedPoolName := "bonded_tokens_pool";
  NotBondedPoolName := "not_bonded_tokens_pool";
  Minter := "minter"; Burner := "burner"; Staking := "staking";
|}.

#[export] Instance names_laws : SdkNamesLaws.
Proof. split; apply (bool_decide_unpack _); vm_compute; done. Qed.

(** The account must exist and hold the permission. *)
Definition with_permission (m : string) (p : list string -> bool) (act : M bank unit) : M bank unit :=
  match maccPerms !! m with
  | Some perms => if p perms then act else fail (Panic "module account lacks permission")
  | None => fail (Panic "module account does not exist")
  end.
Definition may (p : string) (perms : list string) : bool := bool_decide (p ∈ perms).

#[export] Instance checked_bank : BankKeeper bank := {|
  GetBalance := balance;
  GetSupply := supply;
  SendCoins := SendCoins;
  SendCoinsFromAccountToModule a m c :=
    with_permission m (fun _ => true) (SendCoinsFromAccountToModule a m c);
  SendCoinsFromModuleToAccount m b c :=
    with_permission m (fun _ => true)
      (if decide (AccAddress_String b ∈ BlockedAddresses) then fail (Sentinel "sdk" "unauthorized")
       else SendCoinsFromModuleToAccount m b c);
  MintCoins m c := with_permission m (may Minter) (MintCoins m c);
  BurnCoins m c := with_permission m (may Burner) (BurnCoins m c);
|}.

#[export] Instance checked_bank_laws : PermissionLaws checked_bank bank_keeper.
Proof.
  split; intros *; cbn [MintCoins BurnCoins SendCoinsFromAccountToModule SendCoinsFromModuleToAccount
    SendCoins checked_bank]; unfold with_permission, may.
  - intros -> H. by rewrite bool_decide_eq_true_2.
  - intros -> H. by rewrite bool_decide_eq_true_2.
  - by intros [p ->].
  - intros [p ->] H. by rewrite decide_False.
  - intros [p ->] H. rewrite decide_True; [|done]. by eexists.
  - done.
Qed.

Local Notation registered b := (@exec _ _ _ b _ _ _ _ (Tx ctx [register]) (new_app bank0 grants0)).

(** Registering an org burns half of the slot price through the org account. *)
Lemma permissions_suffice_witness :
  registered checked_bank = registered bank_keeper /\
  is_ok (registered checked_bank).1 = true.
Proof.
  assert (is_ok (registered checked_bank).1 = true) as Hok by (vm_compute; reflexivity).
  destruct (permissions_suffice (checked := checked_bank) (plain := bank_keeper)
    (Tx ctx [register]) (new_app bank0 grants0)) as [H|(? & ? & ? & ? & ? & ? & _ & _ & _ & _ & _ & H)].
  - split; [exact H|exact Hok].
  - rewrite H in Hok. discriminate Hok.
Defined.
End AppConfigDemo.
