(* ===== verification/GenesisJson.v ===== *)
(** * The genesis states as JSON

    The JSON members of the genesis states of the modules, with the names and
    [omitempty] options of the struct tags (types/keys.go, types/genesis.go and
    the generated state.pb.go; the records of x/serve, x/memory and x/bandwidth
    without tags use the Go names).  Each state is read back as it was written
    ([decode_encode]), but for the events of x/serve: the body of an event is an
    interface and cannot be read. *)

From S2P Require Import Prelude Bytes Store Ifaces Json.
From S2P Require Org Serve Emissions Identity Reputation Memory Bandwidth Attestation.
Local Open Scope string_scope.

Section Codecs.
Context {B64 : Base64} {B64LAW : Base64Law}.

(** x/org *)
#[export] Existing Instance Org.Org_fields.
Definition Org_Org_members : list (field Org.Org) := [
   fld "org_id" j_string Org.o_OrgID;
   fld "slot" (j_uint 64) Org.o_Slot;
   fld "leader" j_string Org.o_Leader;
   fld "domain" j_string Org.o_Domain;
   fld "name" j_string Org.o_Name;
   fld "description" j_string Org.o_Description;
   fld "tech_stack" j_string Org.o_TechStack;
   fld "focus_areas" j_string Org.o_FocusAreas;
   fld "created_at" (j_uint 64) Org.o_CreatedAt;
   fld "renewal_height" (j_uint 64) Org.o_RenewalHeight;
   fld "storage_quota" (j_uint 64) Org.o_StorageQuota;
   fld "retrieval_budget" (j_uint 64) Org.o_RetrievalBudget;
   fld "status" (j_int 32) Org.o_Status;
   fld "hub_serving_address" j_string Org.o_HubServingAddress;
   fld "hub_endpoints" (j_slice j_string) Org.o_HubEndpoints;
   fld "hub_response_pubkey" j_string Org.o_HubResponsePubkey;
   fld "leader_wallet_address" j_string Org.o_LeaderWalletAddress;
   fld "account_address" j_string Org.o_AccountAddress].
Definition Org_Org_json : codec Org.Org :=
  j_struct (Org.mkOrg (zero j_string) (zero (j_uint 64)) (zero j_string) (zero j_string) (zero
      j_string) (zero j_string) (zero j_string) (zero j_string) (zero (j_uint 64)) (zero (j_uint 64))
      (zero (j_uint 64)) (zero (j_uint 64)) (zero (j_int 32)) (zero j_string) (zero (j_slice j_string))
      (zero j_string) (zero j_string) (zero j_string)) Org_Org_members.
#[export] Instance Org_Org_law : CodecLaw Org_Org_json.
Proof. struct_law. Qed.
#[export] Instance Org_Org_faithful : Faithful Org_Org_json.
Proof. faithful. Qed.
#[global] Opaque Org_Org_json.
#[export] Existing Instance Org.MemberRecord_fields.
Definition Org_MemberRecord_members : list (field Org.MemberRecord) := [
   fld "org_id" j_string Org.m_OrgID;
   fld "pubkey" j_string Org.m_Pubkey;
   fld "role" j_string Org.m_Role;
   fld "x25519_pubkey" j_string Org.m_X25519Pubkey;
   fld "can_contribute" j_bool Org.m_CanContribute;
   fld "can_moderate" j_bool Org.m_CanModerate].
Definition Org_MemberRecord_json : codec Org.MemberRecord :=
  j_struct (Org.mkMember (zero j_string) (zero j_string) (zero j_string) (zero j_string) (zero j_bool)
      (zero j_bool)) Org_MemberRecord_members.
#[export] Instance Org_MemberRecord_law : CodecLaw Org_MemberRecord_json.
Proof. struct_law. Qed.
#[export] Instance Org_MemberRecord_faithful : Faithful Org_MemberRecord_json.
Proof. faithful. Qed.
#[global] Opaque Org_MemberRecord_json.
#[export] Instance Org_OrgConfig_fields : Fields Org.OrgConfig :=
  fun r => Org.mkOrgConfig (Org.c_OrgID r) (Org.c_ServeReceiptRequired r) (Org.c_ContestStakeVibe r)
      (Org.c_VocabHash r) (Org.c_EmbeddingModelID r) (Org.c_MinContributionsPerEpoch r).
Definition Org_OrgConfig_members : list (field Org.OrgConfig) := [
   fld "org_id" j_string Org.c_OrgID;
   fld "serve_receipt_required" j_bool Org.c_ServeReceiptRequired;
   fld "contest_stake_vibe" (j_uint 64) Org.c_ContestStakeVibe;
   fld "vocab_hash" j_string Org.c_VocabHash;
   fld "embedding_model_id" j_string Org.c_EmbeddingModelID;
   fld "min_contributions_per_epoch" (j_uint 64) Org.c_MinContributionsPerEpoch].
Definition Org_OrgConfig_json : codec Org.OrgConfig :=
  j_struct (Org.mkOrgConfig (zero j_string) (zero j_bool) (zero (j_uint 64)) (zero j_string) (zero
      j_string) (zero (j_uint 64))) Org_OrgConfig_members.
#[export] Instance Org_OrgConfig_law : CodecLaw Org_OrgConfig_json.
Proof. struct_law. Qed.
#[export] Instance Org_OrgConfig_faithful : Faithful Org_OrgConfig_json.
Proof. faithful. Qed.
#[global] Opaque Org_OrgConfig_json.
#[export] Existing Instance Org.Params_fields.
Definition Org_Params_members : list (field Org.Params) := [
   fld_omit "min_registration_fee" (j_uint 64) (N.eqb 0) Org.p_MinRegistrationFee;
   fld_omit "annual_renewal_fee" (j_uint 64) (N.eqb 0) Org.p_AnnualRenewalFee;
   fld_omit "default_storage_quota" (j_uint 64) (N.eqb 0) Org.p_DefaultStorageQuota;
   fld_omit "default_retrieval_budget" (j_uint 64) (N.eqb 0) Org.p_DefaultRetrievalBudget;
   fld_omit "grace_period_epochs" (j_uint 64) (N.eqb 0) Org.p_GracePeriodEpochs;
   fld_omit "burn_price_decay_epochs" (j_uint 64) (N.eqb 0) Org.p_BurnPriceDecayEpochs;
   fld_omit "base_burn_price" (j_uint 64) (N.eqb 0) Org.p_BaseBurnPrice;
   fld_omit "burn_price_increase_percent" (j_uint 64) (N.eqb 0) Org.p_BurnPriceIncreasePercent;
   fld_omit "slot_cap" (j_uint 64) (N.eqb 0) Org.p_SlotCap].
Definition Org_Params_json : codec Org.Params :=
  j_struct (Org.mkParams (zero (j_uint 64)) (zero (j_uint 64)) (zero (j_uint 64)) (zero (j_uint 64))
      (zero (j_uint 64)) (zero (j_uint 64)) (zero (j_uint 64)) (zero (j_uint 64)) (zero (j_uint 64)))
      Org_Params_members.
#[export] Instance Org_Params_law : CodecLaw Org_Params_json.
Proof. struct_law. Qed.
#[export] Instance Org_Params_faithful : Faithful Org_Params_json.
Proof. faithful. Qed.
#[global] Opaque Org_Params_json.
#[export] Instance Org_GenesisState_fields : Fields Org.GenesisState :=
  fun r => Org.mkGenesisState (Org.g_Orgs r) (Org.g_Members r) (Org.g_OrgConfigs r) (Org.g_NextSlot r)
      (Org.g_Params r).
Definition Org_GenesisState_members : list (field Org.GenesisState) := [
   fld "orgs" (j_slice (j_nonnil Org_Org_json)) Org.g_Orgs;
   fld "members" (j_slice (j_nonnil Org_MemberRecord_json)) Org.g_Members;
   fld "org_configs" (j_slice (j_nonnil Org_OrgConfig_json)) Org.g_OrgConfigs;
   fld "next_slot" (j_uint 64) Org.g_NextSlot;
   fld "params" Org_Params_json Org.g_Params].
Definition Org_GenesisState_json : codec Org.GenesisState :=
  j_struct (Org.mkGenesisState (zero (j_slice (j_nonnil Org_Org_json))) (zero (j_slice (j_nonnil
      Org_MemberRecord_json))) (zero (j_slice (j_nonnil Org_OrgConfig_json))) (zero (j_uint 64)) (zero
      Org_Params_json)) Org_GenesisState_members.
#[export] Instance Org_GenesisState_law : CodecLaw Org_GenesisState_json.
Proof. struct_law. Qed.
#[export] Instance Org_GenesisState_faithful : Faithful Org_GenesisState_json.
Proof. faithful. Qed.
#[global] Opaque Org_GenesisState_json.

(** x/serve *)
#[export] Instance Serve_ServeReceipt_fields : Fields Serve.ServeReceipt :=
  fun r => Serve.mkServeReceipt (Serve.r_OrgID r) (Serve.r_ContentHash r) (Serve.r_ServeKey r)
      (Serve.r_ServeKeyPubkey r) (Serve.r_ContributorID r) (Serve.r_Epoch r) (Serve.r_Fingerprint r)
      (Serve.r_IsSelfServe r) (Serve.r_ModelID r) (Serve.r_TurnCount r) (Serve.r_EpisodeRef r).
Definition Serve_ServeReceipt_members : list (field Serve.ServeReceipt) := [
   fld "OrgID" j_string Serve.r_OrgID;
   fld "ContentHash" j_bytes Serve.r_ContentHash;
   fld "ServeKey" j_string Serve.r_ServeKey;
   fld "ServeKeyPubkey" j_bytes Serve.r_ServeKeyPubkey;
   fld "ContributorID" j_string Serve.r_ContributorID;
   fld "Epoch" (j_uint 64) Serve.r_Epoch;
   fld "Fingerprint" j_bytes Serve.r_Fingerprint;
   fld "IsSelfServe" j_bool Serve.r_IsSelfServe;
   fld "ModelID" j_string Serve.r_ModelID;
   fld "TurnCount" (j_uint 32) Serve.r_TurnCount;
   fld "EpisodeRef" j_bytes Serve.r_EpisodeRef].
Definition Serve_ServeReceipt_json : codec Serve.ServeReceipt :=
  j_struct (Serve.mkServeReceipt (zero j_string) (zero j_bytes) (zero j_string) (zero j_bytes) (zero
      j_string) (zero (j_uint 64)) (zero j_bytes) (zero j_bool) (zero j_string) (zero (j_uint 32)) (zero
      j_bytes)) Serve_ServeReceipt_members.
#[export] Instance Serve_ServeReceipt_law : CodecLaw Serve_ServeReceipt_json.
Proof. struct_law. Qed.
#[export] Instance Serve_ServeReceipt_faithful : Faithful Serve_ServeReceipt_json.
Proof. faithful. Qed.
#[global] Opaque Serve_ServeReceipt_json.
#[export] Existing Instance Serve.StoredDenialReceipt_fields.
Definition Serve_StoredDenialReceipt_members : list (field Serve.StoredDenialReceipt) := [
   fld_omit "org_id" j_string empty_string Serve.dr_OrgId;
   fld_omit "memory_hash" j_bytes empty_string Serve.dr_MemoryHash;
   fld_omit "deny_key" j_string empty_string Serve.dr_DenyKey;
   fld_omit "reason" j_string empty_string Serve.dr_Reason;
   fld_omit "epoch" (j_uint 64) (N.eqb 0) Serve.dr_Epoch;
   fld_omit "serve_fingerprint" j_bytes empty_string Serve.dr_ServeFingerprint;
   fld_omit "serve_key_pubkey" j_bytes empty_string Serve.dr_ServeKeyPubkey;
   fld_omit "neg_anchor" j_bytes empty_string Serve.dr_NegAnchor].
Definition Serve_StoredDenialReceipt_json : codec Serve.StoredDenialReceipt :=
  j_struct (Serve.mkStoredDenialReceipt (zero j_string) (zero j_bytes) (zero j_string) (zero j_string)
      (zero (j_uint 64)) (zero j_bytes) (zero j_bytes) (zero j_bytes)) Serve_StoredDenialReceipt_members.
#[export] Instance Serve_StoredDenialReceipt_law : CodecLaw Serve_StoredDenialReceipt_json.
Proof. struct_law. Qed.
#[export] Instance Serve_StoredDenialReceipt_faithful : Faithful Serve_StoredDenialReceipt_json.
Proof. faithful. Qed.
#[global] Opaque Serve_StoredDenialReceipt_json.
(** The wrapper types of the oneof body. *)
Definition write_body (b : Serve.EventBody) : json :=
  let bytes name x := if empty_string x then [] else [(name, enc j_bytes x)] in
  let num name n := if N.eqb 0 n then [] else [(name, JNum (Z.of_N n))] in
  match b with
  | Serve.EventEntry_Outcome ep ev sv res src =>
      JObj [("outcome", JObj (bytes "episode_ref" ep ++ bytes "evidence_ref" ev ++ bytes "serve_ref" sv ++
        num "resolution" res ++ num "source" src)%list)]
  | Serve.EventEntry_ValidityPredicate p res ev =>
      JObj [("validity_predicate", JObj (bytes "predicate_id" p ++ num "result" res ++
        bytes "evidence_ref" ev)%list)]
  | Serve.EventEntry_CostToDiscover c t g ev =>
      JObj [("cost_to_discover", JObj (num "cycles" c ++ num "tool_calls" t ++
        num "attempts_to_green" g ++ bytes "evidence_ref" ev)%list)]
  | Serve.EventEntry_Convergence r =>
      JObj [("convergence", JObj (bytes "convergence_ref" r))]
  end.
#[export] Existing Instance Serve.StoredEvent_fields.
Definition Serve_StoredEvent_members : list (field Serve.StoredEvent) := [
   fld_omit "org_id" j_string empty_string Serve.ev_OrgId;
   fld_omit "epoch" (j_uint 64) (N.eqb 0) Serve.ev_Epoch;
   fld_omit "event_type" (j_uint 31) (N.eqb 0) Serve.ev_EventType;
   fld_omit "memory_content_hash" j_bytes empty_string Serve.ev_MemoryContentHash;
   fld_omit "signer_pubkey" j_bytes empty_string Serve.ev_SignerPubkey;
   fld_omit "nonce" j_bytes empty_string Serve.ev_Nonce;
   fld_omit "signature" j_bytes empty_string Serve.ev_Signature;
   fld_omit "fingerprint" j_bytes empty_string Serve.ev_Fingerprint;
   fld "Body" (j_interface write_body) Serve.ev_Body].
Definition Serve_StoredEvent_json : codec Serve.StoredEvent :=
  j_struct (Serve.mkStoredEvent (zero j_string) (zero (j_uint 64)) (zero (j_uint 31)) (zero j_bytes)
      (zero j_bytes) (zero j_bytes) (zero j_bytes) (zero j_bytes) (zero (j_interface write_body)))
      Serve_StoredEvent_members.
#[export] Instance Serve_StoredEvent_law : CodecLaw Serve_StoredEvent_json.
Proof. struct_law. Qed.
#[export] Instance Serve_StoredEvent_faithful : Faithful Serve_StoredEvent_json.
Proof. faithful. Qed.
#[global] Opaque Serve_StoredEvent_json.
#[export] Existing Instance Serve.StoredPolicyAnchor_fields.
Definition Serve_StoredPolicyAnchor_members : list (field Serve.StoredPolicyAnchor) := [
   fld_omit "policy_version" j_string empty_string Serve.pa_PolicyVersion;
   fld_omit "policy_hash" j_bytes empty_string Serve.pa_PolicyHash;
   fld_omit "anchored_at_epoch" (j_uint 64) (N.eqb 0) Serve.pa_AnchoredAtEpoch;
   fld_omit "anchored_at_height" (j_int 64) (Z.eqb 0) Serve.pa_AnchoredAtHeight].
Definition Serve_StoredPolicyAnchor_json : codec Serve.StoredPolicyAnchor :=
  j_struct (Serve.mkPolicyAnchor (zero j_string) (zero j_bytes) (zero (j_uint 64)) (zero (j_int 64)))
      Serve_StoredPolicyAnchor_members.
#[export] Instance Serve_StoredPolicyAnchor_law : CodecLaw Serve_StoredPolicyAnchor_json.
Proof. struct_law. Qed.
#[export] Instance Serve_StoredPolicyAnchor_faithful : Faithful Serve_StoredPolicyAnchor_json.
Proof. faithful. Qed.
#[global] Opaque Serve_StoredPolicyAnchor_json.
#[export] Existing Instance Serve.EpochServeStats_fields.
Definition Serve_EpochServeStats_members : list (field Serve.EpochServeStats) := [
   fld "OrgID" j_string Serve.es_OrgID;
   fld "Epoch" (j_uint 64) Serve.es_Epoch;
   fld "TotalServes" (j_uint 64) Serve.es_TotalServes;
   fld "TotalDenials" (j_uint 64) Serve.es_TotalDenials;
   fld "UniqueMemoriesServed" (j_uint 64) Serve.es_UniqueMemoriesServed;
   fld "UniqueServeKeys" (j_uint 64) Serve.es_UniqueServeKeys;
   fld "SelfServes" (j_uint 64) Serve.es_SelfServes;
   fld "ModelBreakdown" j_map Serve.es_ModelBreakdown].
Definition Serve_EpochServeStats_json : codec Serve.EpochServeStats :=
  j_struct (Serve.mkEpochServeStats (zero j_string) (zero (j_uint 64)) (zero (j_uint 64)) (zero
      (j_uint 64)) (zero (j_uint 64)) (zero (j_uint 64)) (zero (j_uint 64)) (zero j_map))
      Serve_EpochServeStats_members.
#[export] Instance Serve_EpochServeStats_law : CodecLaw Serve_EpochServeStats_json.
Proof. struct_law. Qed.
#[export] Instance Serve_EpochServeStats_faithful : Faithful Serve_EpochServeStats_json.
Proof. faithful. Qed.
#[global] Opaque Serve_EpochServeStats_json.
#[export] Existing Instance Serve.ContributorEpochServes_fields.
Definition Serve_ContributorEpochServes_members : list (field Serve.ContributorEpochServes) := [
   fld "ContributorID" j_string Serve.cs_ContributorID;
   fld "Epoch" (j_uint 64) Serve.cs_Epoch;
   fld "ServeCount" (j_uint 64) Serve.cs_ServeCount;
   fld "SelfServeCount" (j_uint 64) Serve.cs_SelfServeCount;
   fld "OrgIDs" (j_slice j_string) Serve.cs_OrgIDs;
   fld "TotalTurns" (j_uint 64) Serve.cs_TotalTurns].
Definition Serve_ContributorEpochServes_json : codec Serve.ContributorEpochServes :=
  j_struct (Serve.mkContributorEpochServes (zero j_string) (zero (j_uint 64)) (zero (j_uint 64)) (zero
      (j_uint 64)) (zero (j_slice j_string)) (zero (j_uint 64))) Serve_ContributorEpochServes_members.
#[export] Instance Serve_ContributorEpochServes_law : CodecLaw Serve_ContributorEpochServes_json.
Proof. struct_law. Qed.
#[export] Instance Serve_ContributorEpochServes_faithful : Faithful Serve_ContributorEpochServes_json.
Proof. faithful. Qed.
#[global] Opaque Serve_ContributorEpochServes_json.
#[export] Instance Serve_GenesisState_fields : Fields Serve.GenesisState :=
  fun r => Serve.mkGenesisState (Serve.g_ServeReceipts r) (Serve.g_DenialReceipts r) (Serve.g_Events
      r) (Serve.g_PolicyAnchors r) (Serve.g_EpochStats r) (Serve.g_ContributorServes r).
Definition Serve_GenesisState_members : list (field Serve.GenesisState) := [
   fld "serve_receipts" (j_slice (j_nonnil Serve_ServeReceipt_json)) Serve.g_ServeReceipts;
   fld "denial_receipts" (j_slice (j_ptr Serve_StoredDenialReceipt_json)) Serve.g_DenialReceipts;
   fld "events" (j_slice (j_ptr Serve_StoredEvent_json)) Serve.g_Events;
   fld "policy_anchors" (j_slice (j_ptr Serve_StoredPolicyAnchor_json)) Serve.g_PolicyAnchors;
   fld "epoch_stats" (j_slice (j_nonnil Serve_EpochServeStats_json)) Serve.g_EpochStats;
   fld "contributor_serves" (j_slice (j_nonnil Serve_ContributorEpochServes_json)) Serve.g_ContributorServes].
Definition Serve_GenesisState_json : codec Serve.GenesisState :=
  j_struct (Serve.mkGenesisState (zero (j_slice (j_nonnil Serve_ServeReceipt_json))) (zero (j_slice
      (j_ptr Serve_StoredDenialReceipt_json))) (zero (j_slice (j_ptr Serve_StoredEvent_json))) (zero
      (j_slice (j_ptr Serve_StoredPolicyAnchor_json))) (zero (j_slice (j_nonnil
      Serve_EpochServeStats_json))) (zero (j_slice (j_nonnil Serve_ContributorEpochServes_json))))
      Serve_GenesisState_members.
#[export] Instance Serve_GenesisState_law : CodecLaw Serve_GenesisState_json.
Proof. struct_law. Qed.
#[export] Instance Serve_GenesisState_faithful : Faithful Serve_GenesisState_json.
Proof. faithful. Qed.
#[global] Opaque Serve_GenesisState_json.

(** x/emissions *)
#[export] Existing Instance Emissions.EmissionPool_fields.
Definition Emissions_EmissionPool_members : list (field Emissions.EmissionPool) := [
   fld "total_supply" (j_uint 64) Emissions.ep_TotalSupply;
   fld "daily_mint" (j_uint 64) Emissions.ep_DailyMint;
   fld "operator_share" (j_uint 64) Emissions.ep_OperatorShare;
   fld "validator_share" (j_uint 64) Emissions.ep_ValidatorShare;
   fld "epoch" (j_uint 64) Emissions.ep_Epoch;
   fld "validator_pool_remaining_uvibe" (j_uint 64) Emissions.ep_ValidatorPoolRemainingUvibe;
   fld "contributor_pool_remaining_uvibe" (j_uint 64) Emissions.ep_ContributorPoolRemainingUvibe;
   fld "contributor_rollover_uvibe" (j_uint 64) Emissions.ep_ContributorRolloverUvibe;
   fld "start_epoch" (j_uint 64) Emissions.ep_StartEpoch;
   fld "total_epochs_elapsed" (j_uint 64) Emissions.ep_TotalEpochsElapsed].
Definition Emissions_EmissionPool_json : codec Emissions.EmissionPool :=
  j_struct (Emissions.mkEmissionPool (zero (j_uint 64)) (zero (j_uint 64)) (zero (j_uint 64)) (zero
      (j_uint 64)) (zero (j_uint 64)) (zero (j_uint 64)) (zero (j_uint 64)) (zero (j_uint 64)) (zero
      (j_uint 64)) (zero (j_uint 64))) Emissions_EmissionPool_members.
#[export] Instance Emissions_EmissionPool_law : CodecLaw Emissions_EmissionPool_json.
Proof. struct_law. Qed.
#[export] Instance Emissions_EmissionPool_faithful : Faithful Emissions_EmissionPool_json.
Proof. faithful. Qed.
#[global] Opaque Emissions_EmissionPool_json.
#[export] Existing Instance Emissions.DailyEmission_fields.
Definition Emissions_DailyEmission_members : list (field Emissions.DailyEmission) := [
   fld "epoch" (j_uint 64) Emissions.de_Epoch;
   fld "total_emitted" (j_uint 64) Emissions.de_TotalEmitted;
   fld "validator_share" (j_uint 64) Emissions.de_ValidatorShare].
Definition Emissions_DailyEmission_json : codec Emissions.DailyEmission :=
  j_struct (Emissions.mkDailyEmission (zero (j_uint 64)) (zero (j_uint 64)) (zero (j_uint 64)))
      Emissions_DailyEmission_members.
#[export] Instance Emissions_DailyEmission_law : CodecLaw Emissions_DailyEmission_json.
Proof. struct_law. Qed.
#[export] Instance Emissions_DailyEmission_faithful : Faithful Emissions_DailyEmission_json.
Proof. faithful. Qed.
#[global] Opaque Emissions_DailyEmission_json.
#[export] Existing Instance Emissions.BootstrapCredit_fields.
Definition Emissions_BootstrapCredit_members : list (field Emissions.BootstrapCredit) := [
   fld "operator_id" j_string Emissions.bc_OperatorID;
   fld "credits" (j_uint 64) Emissions.bc_Credits;
   fld "redeemed" (j_uint 64) Emissions.bc_Redeemed].
Definition Emissions_BootstrapCredit_json : codec Emissions.BootstrapCredit :=
  j_struct (Emissions.mkBootstrapCredit (zero j_string) (zero (j_uint 64)) (zero (j_uint 64)))
      Emissions_BootstrapCredit_members.
#[export] Instance Emissions_BootstrapCredit_law : CodecLaw Emissions_BootstrapCredit_json.
Proof. struct_law. Qed.
#[export] Instance Emissions_BootstrapCredit_faithful : Faithful Emissions_BootstrapCredit_json.
Proof. faithful. Qed.
#[global] Opaque Emissions_BootstrapCredit_json.
#[export] Existing Instance Emissions.AsymmetricGate_fields.
Definition Emissions_AsymmetricGate_members : list (field Emissions.AsymmetricGate) := [
   fld "operator_id" j_string Emissions.ag_OperatorID;
   fld "org_id" j_string Emissions.ag_OrgID;
   fld "storage_passed" j_bool Emissions.ag_StoragePassed;
   fld "retrieval_allowed" j_bool Emissions.ag_RetrievalAllowed;
   fld "epoch" (j_uint 64) Emissions.ag_Epoch].
Definition Emissions_AsymmetricGate_json : codec Emissions.AsymmetricGate :=
  j_struct (Emissions.mkAsymmetricGate (zero j_string) (zero j_string) (zero j_bool) (zero j_bool)
      (zero (j_uint 64))) Emissions_AsymmetricGate_members.
#[export] Instance Emissions_AsymmetricGate_law : CodecLaw Emissions_AsymmetricGate_json.
Proof. struct_law. Qed.
#[export] Instance Emissions_AsymmetricGate_faithful : Faithful Emissions_AsymmetricGate_json.
Proof. faithful. Qed.
#[global] Opaque Emissions_AsymmetricGate_json.
#[export] Instance Emissions_GenesisState_fields : Fields Emissions.GenesisState :=
  fun r => Emissions.mkGenesisState (Emissions.g_EmissionPool r) (Emissions.g_DailyEmissions r)
      (Emissions.g_BootstrapCredits r) (Emissions.g_AsymmetricGates r) (Emissions.g_BootstrapExpiry r).
Definition Emissions_GenesisState_members : list (field Emissions.GenesisState) := [
   fld "emission_pool" (j_ptr Emissions_EmissionPool_json) Emissions.g_EmissionPool;
   fld "daily_emissions" (j_slice (j_nonnil Emissions_DailyEmission_json)) Emissions.g_DailyEmissions;
   fld "bootstrap_credits" (j_slice (j_nonnil Emissions_BootstrapCredit_json)) Emissions.g_BootstrapCredits;
   fld "asymmetric_gates" (j_slice (j_nonnil Emissions_AsymmetricGate_json)) Emissions.g_AsymmetricGates;
   fld "bootstrap_expiry" (j_uint 64) Emissions.g_BootstrapExpiry].
Definition Emissions_GenesisState_json : codec Emissions.GenesisState :=
  j_struct (Emissions.mkGenesisState (zero (j_ptr Emissions_EmissionPool_json)) (zero (j_slice
      (j_nonnil Emissions_DailyEmission_json))) (zero (j_slice (j_nonnil Emissions_BootstrapCredit_json)))
      (zero (j_slice (j_nonnil Emissions_AsymmetricGate_json))) (zero (j_uint 64)))
      Emissions_GenesisState_members.
#[export] Instance Emissions_GenesisState_law : CodecLaw Emissions_GenesisState_json.
Proof. struct_law. Qed.
#[export] Instance Emissions_GenesisState_faithful : Faithful Emissions_GenesisState_json.
Proof. faithful. Qed.
#[global] Opaque Emissions_GenesisState_json.

(** x/identity *)
#[export] Existing Instance Identity.StoredIdentityAlias_fields.
Definition Identity_StoredIdentityAlias_members : list (field Identity.StoredIdentityAlias) := [
   fld_omit "passkey_pubkey" j_string empty_string Identity.a_PasskeyPubkey;
   fld_omit "wallet_address" j_string empty_string Identity.a_WalletAddress;
   fld_omit "is_migrated" j_bool negb Identity.a_IsMigrated;
   fld_omit "migrated_at_epoch" (j_uint 64) (N.eqb 0) Identity.a_MigratedAtEpoch].
Definition Identity_StoredIdentityAlias_json : codec Identity.StoredIdentityAlias :=
  j_struct (Identity.mkAlias (zero j_string) (zero j_string) (zero j_bool) (zero (j_uint 64)))
      Identity_StoredIdentityAlias_members.
#[export] Instance Identity_StoredIdentityAlias_law : CodecLaw Identity_StoredIdentityAlias_json.
Proof. struct_law. Qed.
#[export] Instance Identity_StoredIdentityAlias_faithful : Faithful Identity_StoredIdentityAlias_json.
Proof. faithful. Qed.
#[global] Opaque Identity_StoredIdentityAlias_json.
#[export] Existing Instance Identity.Params_fields.
Definition Identity_Params_members : list (field Identity.Params) := [
   fld_omit "active" j_bool negb Identity.p_Active].
Definition Identity_Params_json : codec Identity.Params :=
  j_struct (Identity.mkParams (zero j_bool)) Identity_Params_members.
#[export] Instance Identity_Params_law : CodecLaw Identity_Params_json.
Proof. struct_law. Qed.
#[export] Instance Identity_Params_faithful : Faithful Identity_Params_json.
Proof. faithful. Qed.
#[global] Opaque Identity_Params_json.
#[export] Instance Identity_GenesisState_fields : Fields Identity.GenesisState :=
  fun r => Identity.mkGenesisState (Identity.g_Aliases r) (Identity.g_Params r).
Definition Identity_GenesisState_members : list (field Identity.GenesisState) := [
   fld_omit "aliases" (j_slice (j_ptr Identity_StoredIdentityAlias_json)) empty_slice Identity.g_Aliases;
   fld "params" Identity_Params_json Identity.g_Params].
Definition Identity_GenesisState_json : codec Identity.GenesisState :=
  j_struct (Identity.mkGenesisState (zero (j_slice (j_ptr Identity_StoredIdentityAlias_json))) (zero
      Identity_Params_json)) Identity_GenesisState_members.
#[export] Instance Identity_GenesisState_law : CodecLaw Identity_GenesisState_json.
Proof. struct_law. Qed.
#[export] Instance Identity_GenesisState_faithful : Faithful Identity_GenesisState_json.
Proof. faithful. Qed.
#[global] Opaque Identity_GenesisState_json.

(** x/reputation *)
#[export] Existing Instance Reputation.ReputationStats_fields.
Definition Reputation_ReputationStats_members : list (field Reputation.ReputationStats) := [
   fld "developer_id" j_string Reputation.rs_DeveloperID;
   fld "memory_count" (j_uint 64) Reputation.rs_MemoryCount;
   fld "difficulty_bucket" (j_array 11 (j_uint 64)) Reputation.rs_DifficultyBucket;
   fld "domain_tags" j_counts Reputation.rs_DomainTags;
   fld "provenance_breakdown" j_counts Reputation.rs_ProvenanceBreakdown;
   fld "xp" (j_uint 64) Reputation.rs_XP;
   fld "serve_count" (j_uint 64) Reputation.rs_ServeCount;
   fld "self_serve_count" (j_uint 64) Reputation.rs_SelfServeCount;
   fld "org_breadth" (j_uint 64) Reputation.rs_OrgBreadth;
   fld "first_seen_epoch" (j_uint 64) Reputation.rs_FirstSeenEpoch;
   fld "serve_xp" (j_uint 64) Reputation.rs_ServeXP].
Definition Reputation_ReputationStats_json : codec Reputation.ReputationStats :=
  j_struct (Reputation.mkStats (zero j_string) (zero (j_uint 64)) (zero (j_array 11 (j_uint 64)))
      (zero j_counts) (zero j_counts) (zero (j_uint 64)) (zero (j_uint 64)) (zero (j_uint 64)) (zero
      (j_uint 64)) (zero (j_uint 64)) (zero (j_uint 64))) Reputation_ReputationStats_members.
#[export] Instance Reputation_ReputationStats_law : CodecLaw Reputation_ReputationStats_json.
Proof. struct_law. Qed.
#[export] Instance Reputation_ReputationStats_faithful : Faithful Reputation_ReputationStats_json.
Proof. faithful. Qed.
#[global] Opaque Reputation_ReputationStats_json.
#[export] Existing Instance Reputation.StoredContributorOrgSet_fields.
Definition Reputation_StoredContributorOrgSet_members : list (field Reputation.StoredContributorOrgSet) := [
   fld_omit "contributor_id" j_string empty_string Reputation.os_ContributorId;
   fld_omit "org_ids" (j_slice j_string) empty_slice Reputation.os_OrgIds].
Definition Reputation_StoredContributorOrgSet_json : codec Reputation.StoredContributorOrgSet :=
  j_struct (Reputation.mkOrgSet (zero j_string) (zero (j_slice j_string)))
      Reputation_StoredContributorOrgSet_members.
#[export] Instance Reputation_StoredContributorOrgSet_law : CodecLaw Reputation_StoredContributorOrgSet_json.
Proof. struct_law. Qed.
#[export] Instance Reputation_StoredContributorOrgSet_faithful : Faithful
    Reputation_StoredContributorOrgSet_json.
Proof. faithful. Qed.
#[global] Opaque Reputation_StoredContributorOrgSet_json.
#[export] Instance Reputation_GenesisState_fields : Fields Reputation.GenesisState :=
  fun r => Reputation.mkGenesis (Reputation.g_Active r) (Reputation.g_Stats r)
      (Reputation.g_ContributorOrgSets r).
Definition Reputation_GenesisState_members : list (field Reputation.GenesisState) := [
   fld "active" j_bool Reputation.g_Active;
   fld "stats" (j_slice (j_nonnil Reputation_ReputationStats_json)) Reputation.g_Stats;
   fld "contributor_org_sets" (j_slice (j_nonnil Reputation_StoredContributorOrgSet_json))
       Reputation.g_ContributorOrgSets].
Definition Reputation_GenesisState_json : codec Reputation.GenesisState :=
  j_struct (Reputation.mkGenesis (zero j_bool) (zero (j_slice (j_nonnil
      Reputation_ReputationStats_json))) (zero (j_slice (j_nonnil
      Reputation_StoredContributorOrgSet_json)))) Reputation_GenesisState_members.
#[export] Instance Reputation_GenesisState_law : CodecLaw Reputation_GenesisState_json.
Proof. struct_law. Qed.
#[export] Instance Reputation_GenesisState_faithful : Faithful Reputation_GenesisState_json.
Proof. faithful. Qed.
#[global] Opaque Reputation_GenesisState_json.

(** x/memory *)
#[export] Existing Instance Memory.PendingCommitment_fields.
Definition Memory_PendingCommitment_members : list (field Memory.PendingCommitment) := [
   fld "OrgID" j_string Memory.pc_OrgID;
   fld "ContentHash" j_bytes Memory.pc_ContentHash;
   fld "Keywords" (j_slice j_string) Memory.pc_Keywords;
   fld "Contributor" j_string Memory.pc_Contributor;
   fld "ContributorAddress" j_string Memory.pc_ContributorAddress;
   fld "ProducerModelId" j_string Memory.pc_ProducerModelId;
   fld "AttestationSessionHash" j_bytes Memory.pc_AttestationSessionHash;
   fld "Epoch" (j_uint 64) Memory.pc_Epoch;
   fld "SubmittedAt" (j_uint 64) Memory.pc_SubmittedAt;
   fld "MemoryType" (j_uint 31) Memory.pc_MemoryType;
   fld "McVersion" (j_uint 32) Memory.pc_McVersion].
Definition Memory_PendingCommitment_json : codec Memory.PendingCommitment :=
  j_struct (Memory.mkPending (zero j_string) (zero j_bytes) (zero (j_slice j_string)) (zero j_string)
      (zero j_string) (zero j_string) (zero j_bytes) (zero (j_uint 64)) (zero (j_uint 64)) (zero (j_uint
      31)) (zero (j_uint 32))) Memory_PendingCommitment_members.
#[export] Instance Memory_PendingCommitment_law : CodecLaw Memory_PendingCommitment_json.
Proof. struct_law. Qed.
#[export] Instance Memory_PendingCommitment_faithful : Faithful Memory_PendingCommitment_json.
Proof. faithful. Qed.
#[global] Opaque Memory_PendingCommitment_json.
#[export] Existing Instance Memory.MemoryCommitment_fields.
Definition Memory_MemoryCommitment_members : list (field Memory.MemoryCommitment) := [
   fld "OrgID" j_string Memory.mc_OrgID;
   fld "ContentHash" j_bytes Memory.mc_ContentHash;
   fld "EncryptedBlob" j_bytes Memory.mc_EncryptedBlob;
   fld "Keywords" (j_slice j_string) Memory.mc_Keywords;
   fld "Contributor" j_string Memory.mc_Contributor;
   fld "ContributorAddress" j_string Memory.mc_ContributorAddress;
   fld "ProducerModelId" j_string Memory.mc_ProducerModelId;
   fld "AttestationSessionHash" j_bytes Memory.mc_AttestationSessionHash;
   fld "Epoch" (j_uint 64) Memory.mc_Epoch;
   fld "CommittedAtHeight" (j_uint 64) Memory.mc_CommittedAtHeight;
   fld "CommittingLeader" j_string Memory.mc_CommittingLeader;
   fld "State" (j_uint 31) Memory.mc_State;
   fld "LastActiveEpoch" (j_uint 64) Memory.mc_LastActiveEpoch;
   fld "WrappedDekEnc" j_bytes Memory.mc_WrappedDekEnc;
   fld "PlaintextHash" j_bytes Memory.mc_PlaintextHash;
   fld "Salt" j_bytes Memory.mc_Salt;
   fld "CiphertextHash" j_bytes Memory.mc_CiphertextHash;
   fld "WrappedDekHash" j_bytes Memory.mc_WrappedDekHash;
   fld "ContributorSig" j_bytes Memory.mc_ContributorSig;
   fld "MemoryType" (j_uint 31) Memory.mc_MemoryType;
   fld "ApprovedAtEpoch" (j_uint 64) Memory.mc_ApprovedAtEpoch;
   fld "McVersion" (j_uint 32) Memory.mc_McVersion].
Definition Memory_MemoryCommitment_json : codec Memory.MemoryCommitment :=
  j_struct (Memory.mkMemory (zero j_string) (zero j_bytes) (zero j_bytes) (zero (j_slice j_string))
      (zero j_string) (zero j_string) (zero j_string) (zero j_bytes) (zero (j_uint 64)) (zero (j_uint 64))
      (zero j_string) (zero (j_uint 31)) (zero (j_uint 64)) (zero j_bytes) (zero j_bytes) (zero j_bytes)
      (zero j_bytes) (zero j_bytes) (zero j_bytes) (zero (j_uint 31)) (zero (j_uint 64)) (zero (j_uint
      32))) Memory_MemoryCommitment_members.
#[export] Instance Memory_MemoryCommitment_law : CodecLaw Memory_MemoryCommitment_json.
Proof. struct_law. Qed.
#[export] Instance Memory_MemoryCommitment_faithful : Faithful Memory_MemoryCommitment_json.
Proof. faithful. Qed.
#[global] Opaque Memory_MemoryCommitment_json.
#[export] Instance Memory_MemoryRelationship_fields : Fields Memory.MemoryRelationship :=
  fun r => Memory.mkRelationship (Memory.mr_SourceCID r) (Memory.mr_TargetCID r)
      (Memory.mr_RelationType r) (Memory.mr_OrgID r) (Memory.mr_Proposer r) (Memory.mr_Approved r)
      (Memory.mr_Epoch r).
Definition Memory_MemoryRelationship_members : list (field Memory.MemoryRelationship) := [
   fld "SourceCID" j_string Memory.mr_SourceCID;
   fld "TargetCID" j_string Memory.mr_TargetCID;
   fld "RelationType" (j_uint 31) Memory.mr_RelationType;
   fld "OrgID" j_string Memory.mr_OrgID;
   fld "Proposer" j_string Memory.mr_Proposer;
   fld "Approved" j_bool Memory.mr_Approved;
   fld "Epoch" (j_uint 64) Memory.mr_Epoch].
Definition Memory_MemoryRelationship_json : codec Memory.MemoryRelationship :=
  j_struct (Memory.mkRelationship (zero j_string) (zero j_string) (zero (j_uint 31)) (zero j_string)
      (zero j_string) (zero j_bool) (zero (j_uint 64))) Memory_MemoryRelationship_members.
#[export] Instance Memory_MemoryRelationship_law : CodecLaw Memory_MemoryRelationship_json.
Proof. struct_law. Qed.
#[export] Instance Memory_MemoryRelationship_faithful : Faithful Memory_MemoryRelationship_json.
Proof. faithful. Qed.
#[global] Opaque Memory_MemoryRelationship_json.
#[export] Existing Instance Memory.StoredValidityMetadata_fields.
Definition Memory_StoredValidityMetadata_members : list (field Memory.StoredValidityMetadata) := [
   fld_omit "org_id" j_string empty_string Memory.sv_OrgId;
   fld_omit "memory_cid" j_string empty_string Memory.sv_MemoryCid;
   fld_omit "valid_after_epoch" (j_uint 64) (N.eqb 0) Memory.sv_ValidAfterEpoch;
   fld_omit "valid_until_epoch" (j_uint 64) (N.eqb 0) Memory.sv_ValidUntilEpoch;
   fld_omit "scope_tags_bz" j_bytes empty_string Memory.sv_ScopeTagsBz].
Definition Memory_StoredValidityMetadata_json : codec Memory.StoredValidityMetadata :=
  j_struct (Memory.mkStoredValidity (zero j_string) (zero j_string) (zero (j_uint 64)) (zero (j_uint
      64)) (zero j_bytes)) Memory_StoredValidityMetadata_members.
#[export] Instance Memory_StoredValidityMetadata_law : CodecLaw Memory_StoredValidityMetadata_json.
Proof. struct_law. Qed.
#[export] Instance Memory_StoredValidityMetadata_faithful : Faithful Memory_StoredValidityMetadata_json.
Proof. faithful. Qed.
#[global] Opaque Memory_StoredValidityMetadata_json.
#[export] Instance Memory_EpochMerkleRoot_fields : Fields Memory.EpochMerkleRoot :=
  fun r => Memory.mkMerkleRoot (Memory.em_OrgID r) (Memory.em_Epoch r) (Memory.em_MerkleRoot r)
      (Memory.em_MemoryCount r).
Definition Memory_EpochMerkleRoot_members : list (field Memory.EpochMerkleRoot) := [
   fld "OrgID" j_string Memory.em_OrgID;
   fld "Epoch" (j_uint 64) Memory.em_Epoch;
   fld "MerkleRoot" j_bytes Memory.em_MerkleRoot;
   fld "MemoryCount" (j_uint 64) Memory.em_MemoryCount].
Definition Memory_EpochMerkleRoot_json : codec Memory.EpochMerkleRoot :=
  j_struct (Memory.mkMerkleRoot (zero j_string) (zero (j_uint 64)) (zero j_bytes) (zero (j_uint 64)))
      Memory_EpochMerkleRoot_members.
#[export] Instance Memory_EpochMerkleRoot_law : CodecLaw Memory_EpochMerkleRoot_json.
Proof. struct_law. Qed.
#[export] Instance Memory_EpochMerkleRoot_faithful : Faithful Memory_EpochMerkleRoot_json.
Proof. faithful. Qed.
#[global] Opaque Memory_EpochMerkleRoot_json.
#[export] Existing Instance Memory.Params_fields.
Definition Memory_Params_members : list (field Memory.Params) := [
   fld_omit "max_pending_per_org" (j_uint 64) (N.eqb 0) Memory.p_MaxPendingPerOrg;
   fld_omit "pending_retention_epochs" (j_uint 64) (N.eqb 0) Memory.p_PendingRetentionEpochs;
   fld_omit "max_blob_size_bytes" (j_uint 64) (N.eqb 0) Memory.p_MaxBlobSizeBytes;
   fld_omit "max_keywords_per_memory" (j_uint 32) (N.eqb 0) Memory.p_MaxKeywordsPerMemory;
   fld_omit "contest_window_epochs" (j_uint 64) (N.eqb 0) Memory.p_ContestWindowEpochs].
Definition Memory_Params_json : codec Memory.Params :=
  j_struct (Memory.mkParams (zero (j_uint 64)) (zero (j_uint 64)) (zero (j_uint 64)) (zero (j_uint
      32)) (zero (j_uint 64))) Memory_Params_members.
#[export] Instance Memory_Params_law : CodecLaw Memory_Params_json.
Proof. struct_law. Qed.
#[export] Instance Memory_Params_faithful : Faithful Memory_Params_json.
Proof. faithful. Qed.
#[global] Opaque Memory_Params_json.
#[export] Instance Memory_GenesisState_fields : Fields Memory.GenesisState :=
  fun r => Memory.mkGenesisState (Memory.g_PendingCommitments r) (Memory.g_MemoryCommitments r)
      (Memory.g_Relationships r) (Memory.g_ValidityMetadata r) (Memory.g_MerkleRoots r) (Memory.g_Params
      r).
Definition Memory_GenesisState_members : list (field Memory.GenesisState) := [
   fld "pending_commitments" (j_slice (j_nonnil Memory_PendingCommitment_json)) Memory.g_PendingCommitments;
   fld "memory_commitments" (j_slice (j_nonnil Memory_MemoryCommitment_json)) Memory.g_MemoryCommitments;
   fld "relationships" (j_slice (j_ptr Memory_MemoryRelationship_json)) Memory.g_Relationships;
   fld "validity_metadata" (j_slice (j_ptr Memory_StoredValidityMetadata_json)) Memory.g_ValidityMetadata;
   fld "merkle_roots" (j_slice (j_nonnil Memory_EpochMerkleRoot_json)) Memory.g_MerkleRoots;
   fld "params" Memory_Params_json Memory.g_Params].
Definition Memory_GenesisState_json : codec Memory.GenesisState :=
  j_struct (Memory.mkGenesisState (zero (j_slice (j_nonnil Memory_PendingCommitment_json))) (zero
      (j_slice (j_nonnil Memory_MemoryCommitment_json))) (zero (j_slice (j_ptr
      Memory_MemoryRelationship_json))) (zero (j_slice (j_ptr Memory_StoredValidityMetadata_json))) (zero
      (j_slice (j_nonnil Memory_EpochMerkleRoot_json))) (zero Memory_Params_json))
      Memory_GenesisState_members.
#[export] Instance Memory_GenesisState_law : CodecLaw Memory_GenesisState_json.
Proof. struct_law. Qed.
#[export] Instance Memory_GenesisState_faithful : Faithful Memory_GenesisState_json.
Proof. faithful. Qed.
#[global] Opaque Memory_GenesisState_json.

(** x/bandwidth *)
#[export] Existing Instance Bandwidth.BandwidthState_fields.
Definition Bandwidth_BandwidthState_members : list (field Bandwidth.BandwidthState) := [
   fld "OrgID" j_string Bandwidth.bs_OrgID;
   fld "Epoch" (j_uint 64) Bandwidth.bs_Epoch;
   fld "MemoryUsed" (j_uint 64) Bandwidth.bs_MemoryUsed;
   fld "MemoryCap" (j_uint 64) Bandwidth.bs_MemoryCap;
   fld "ServeUsed" (j_uint 64) Bandwidth.bs_ServeUsed;
   fld "ServeCap" (j_uint 64) Bandwidth.bs_ServeCap].
Definition Bandwidth_BandwidthState_json : codec Bandwidth.BandwidthState :=
  j_struct (Bandwidth.mkBandwidthState (zero j_string) (zero (j_uint 64)) (zero (j_uint 64)) (zero
      (j_uint 64)) (zero (j_uint 64)) (zero (j_uint 64))) Bandwidth_BandwidthState_members.
#[export] Instance Bandwidth_BandwidthState_law : CodecLaw Bandwidth_BandwidthState_json.
Proof. struct_law. Qed.
#[export] Instance Bandwidth_BandwidthState_faithful : Faithful Bandwidth_BandwidthState_json.
Proof. faithful. Qed.
#[global] Opaque Bandwidth_BandwidthState_json.
#[export] Instance Bandwidth_BandwidthOverride_fields : Fields Bandwidth.BandwidthOverride :=
  fun r => Bandwidth.mkBandwidthOverride (Bandwidth.bo_OrgID r) (Bandwidth.bo_MemoryCap r)
      (Bandwidth.bo_ServeCap r).
Definition Bandwidth_BandwidthOverride_members : list (field Bandwidth.BandwidthOverride) := [
   fld "OrgID" j_string Bandwidth.bo_OrgID;
   fld "MemoryCap" (j_uint 64) Bandwidth.bo_MemoryCap;
   fld "ServeCap" (j_uint 64) Bandwidth.bo_ServeCap].
Definition Bandwidth_BandwidthOverride_json : codec Bandwidth.BandwidthOverride :=
  j_struct (Bandwidth.mkBandwidthOverride (zero j_string) (zero (j_uint 64)) (zero (j_uint 64)))
      Bandwidth_BandwidthOverride_members.
#[export] Instance Bandwidth_BandwidthOverride_law : CodecLaw Bandwidth_BandwidthOverride_json.
Proof. struct_law. Qed.
#[export] Instance Bandwidth_BandwidthOverride_faithful : Faithful Bandwidth_BandwidthOverride_json.
Proof. faithful. Qed.
#[global] Opaque Bandwidth_BandwidthOverride_json.
#[export] Instance Bandwidth_GenesisState_fields : Fields Bandwidth.GenesisState :=
  fun r => Bandwidth.mkGenesisState (Bandwidth.g_BandwidthStates r) (Bandwidth.g_BandwidthOverrides r).
Definition Bandwidth_GenesisState_members : list (field Bandwidth.GenesisState) := [
   fld "bandwidth_states" (j_slice (j_nonnil Bandwidth_BandwidthState_json)) Bandwidth.g_BandwidthStates;
   fld "bandwidth_overrides" (j_slice (j_nonnil Bandwidth_BandwidthOverride_json))
       Bandwidth.g_BandwidthOverrides].
Definition Bandwidth_GenesisState_json : codec Bandwidth.GenesisState :=
  j_struct (Bandwidth.mkGenesisState (zero (j_slice (j_nonnil Bandwidth_BandwidthState_json))) (zero
      (j_slice (j_nonnil Bandwidth_BandwidthOverride_json)))) Bandwidth_GenesisState_members.
#[export] Instance Bandwidth_GenesisState_law : CodecLaw Bandwidth_GenesisState_json.
Proof. struct_law. Qed.
#[export] Instance Bandwidth_GenesisState_faithful : Faithful Bandwidth_GenesisState_json.
Proof. faithful. Qed.
#[global] Opaque Bandwidth_GenesisState_json.

(** x/attestation *)
#[export] Existing Instance Attestation.StoredSessionAttestation_fields.
Definition Attestation_StoredSessionAttestation_members : list (field
    Attestation.StoredSessionAttestation) := [
   fld_omit "org_id" j_string empty_string Attestation.sa_OrgId;
   fld_omit "session_hash" j_bytes empty_string Attestation.sa_SessionHash;
   fld_omit "model_id" j_string empty_string Attestation.sa_ModelId;
   fld_omit "turn_count" (j_uint 32) (N.eqb 0) Attestation.sa_TurnCount;
   fld_omit "token_count" (j_uint 32) (N.eqb 0) Attestation.sa_TokenCount;
   fld_omit "provider_type" (j_uint 31) (N.eqb 0) Attestation.sa_ProviderType;
   fld_omit "commitllm_receipt_hash" j_bytes empty_string Attestation.sa_CommitllmReceiptHash;
   fld_omit "provider_signature_hash" j_bytes empty_string Attestation.sa_ProviderSignatureHash;
   fld_omit "contributor_id" j_string empty_string Attestation.sa_ContributorId;
   fld_omit "epoch" (j_uint 64) (N.eqb 0) Attestation.sa_Epoch;
   fld_omit "submitted_at_height" (j_uint 64) (N.eqb 0) Attestation.sa_SubmittedAtHeight].
Definition Attestation_StoredSessionAttestation_json : codec Attestation.StoredSessionAttestation :=
  j_struct (Attestation.mkAttestation (zero j_string) (zero j_bytes) (zero j_string) (zero (j_uint
      32)) (zero (j_uint 32)) (zero (j_uint 31)) (zero j_bytes) (zero j_bytes) (zero j_string) (zero
      (j_uint 64)) (zero (j_uint 64))) Attestation_StoredSessionAttestation_members.
#[export] Instance Attestation_StoredSessionAttestation_law : CodecLaw
    Attestation_StoredSessionAttestation_json.
Proof. struct_law. Qed.
#[export] Instance Attestation_StoredSessionAttestation_faithful : Faithful
    Attestation_StoredSessionAttestation_json.
Proof. faithful. Qed.
#[global] Opaque Attestation_StoredSessionAttestation_json.
#[export] Instance Attestation_GenesisState_fields : Fields Attestation.GenesisState :=
  fun r => Attestation.mkGenesisState (Attestation.g_Attestations r).
Definition Attestation_GenesisState_members : list (field Attestation.GenesisState) := [
   fld "attestations" (j_slice (j_nonnil Attestation_StoredSessionAttestation_json))
       Attestation.g_Attestations].
Definition Attestation_GenesisState_json : codec Attestation.GenesisState :=
  j_struct (Attestation.mkGenesisState (zero (j_slice (j_nonnil
      Attestation_StoredSessionAttestation_json)))) Attestation_GenesisState_members.
#[export] Instance Attestation_GenesisState_law : CodecLaw Attestation_GenesisState_json.
Proof. struct_law. Qed.
#[export] Instance Attestation_GenesisState_faithful : Faithful Attestation_GenesisState_json.
Proof. faithful. Qed.
#[global] Opaque Attestation_GenesisState_json.

(** ** The genesis states read back *)

(** The parameters of x/org are read over the defaults: a parameter that is zero
    was left out. *)
Definition keep_zero (old new : N) : N := if N.eqb 0 new then old else new.
Definition merge_params (old new : Org.Params) : Org.Params :=
  Org.mkParams (keep_zero (Org.p_MinRegistrationFee old) (Org.p_MinRegistrationFee new))
    (keep_zero (Org.p_AnnualRenewalFee old) (Org.p_AnnualRenewalFee new))
    (keep_zero (Org.p_DefaultStorageQuota old) (Org.p_DefaultStorageQuota new))
    (keep_zero (Org.p_DefaultRetrievalBudget old) (Org.p_DefaultRetrievalBudget new))
    (keep_zero (Org.p_GracePeriodEpochs old) (Org.p_GracePeriodEpochs new))
    (keep_zero (Org.p_BurnPriceDecayEpochs old) (Org.p_BurnPriceDecayEpochs new))
    (keep_zero (Org.p_BaseBurnPrice old) (Org.p_BaseBurnPrice new))
    (keep_zero (Org.p_BurnPriceIncreasePercent old) (Org.p_BurnPriceIncreasePercent new))
    (keep_zero (Org.p_SlotCap old) (Org.p_SlotCap new)).

#[local] Transparent Org_GenesisState_json Identity_GenesisState_json
  Reputation_GenesisState_json.

Lemma org_read_back g0 g :
  ok Org_GenesisState_json g = true ->
  dec Org_GenesisState_json g0 (enc Org_GenesisState_json g) =
  Ok (g <| Org.g_Params := merge_params (Org.g_Params g0) (Org.g_Params g) |>).
Proof.
  intros Hok. rewrite (codec_law g0 g Hok). f_equal. destruct g as [o m c n p], g0 as [o0 m0 c0 n0 p0].
  unfold Org_GenesisState_json in Hok. rewrite ok_struct in Hok. open_struct_in Hok.
  repeat rewrite andb_true_iff in Hok. destruct_and? Hok.
  unfold Org_GenesisState_json. rewrite back_struct. open_struct.
  f_equal; (apply back_slice; [apply _|assumption]).
Qed.

(** Identity and reputation states are read into a fresh embedded struct. *)
Lemma identity_read_back g :
  ok Identity_GenesisState_json g = true ->
  dec_embedded (zero Identity_GenesisState_json) Identity_GenesisState_members
    (enc Identity_GenesisState_json g) = Ok (Some g).
Proof.
  intros Hok. pose proof (back_zero g Hok) as Hb. unfold Identity_GenesisState_json in *.
  rewrite <- Hb at 2. apply dec_embedded_out; [| |done|].
  - apply (bool_decide_unpack _). vm_compute. exact I.
  - repeat (apply Forall_cons; split); [..|apply Forall_nil; exact I];
      first [apply fld_law; apply _ | apply fld_omit_law; [apply _ | by intros []]].
  - unfold Identity_GenesisState_members, members. cbn. by destruct (empty_slice _).
Qed.

Lemma reputation_read_back g :
  ok Reputation_GenesisState_json g = true ->
  dec_embedded (zero Reputation_GenesisState_json) Reputation_GenesisState_members
    (enc Reputation_GenesisState_json g) = Ok (Some g).
Proof.
  intros Hok. pose proof (back_zero g Hok) as Hb. unfold Reputation_GenesisState_json in *.
  rewrite <- Hb at 2. apply dec_embedded_out; [| |done|done].
  - apply (bool_decide_unpack _). vm_compute. exact I.
  - repeat (apply Forall_cons; split); [..|apply Forall_nil; exact I]; apply fld_law; apply _.
Qed.
#[global] Opaque Org_GenesisState_json Identity_GenesisState_json
  Reputation_GenesisState_json.

(** An event with a body cannot be read back, nor can a genesis of x/serve that
    contains one. *)
Lemma event_unreadable e :
  is_Some (Serve.ev_Body e) -> unreadable Serve_StoredEvent_json (enc Serve_StoredEvent_json e).
Proof.
  intros [b Hb]. with_strategy transparent [Serve_StoredEvent_json] unfold Serve_StoredEvent_json.
  apply (struct_unreadable _ _ "Body" (j_interface write_body) Serve.ev_Body).
  - apply (bool_decide_unpack _). vm_compute. exact I.
  - unfold Serve_StoredEvent_members. do 8 right. left.
  - rewrite Hb. apply interface_unreadable. by destruct b.
Qed.

Lemma serve_genesis_unreadable g e :
  Some e ∈ Serve.g_Events g -> is_Some (Serve.ev_Body e) ->
  unreadable Serve_GenesisState_json (enc Serve_GenesisState_json g).
Proof.
  intros He Hb. with_strategy transparent [Serve_GenesisState_json] unfold Serve_GenesisState_json.
  apply (struct_unreadable _ _ "events" (j_slice (j_ptr Serve_StoredEvent_json)) Serve.g_Events).
  - apply (bool_decide_unpack _). vm_compute. exact I.
  - unfold Serve_GenesisState_members. do 2 right. left.
  - apply (slice_unreadable _ _ (Some e)); [done|]. apply ptr_unreadable; [|by apply event_unreadable].
    with_strategy transparent [Serve_StoredEvent_json] done.
Qed.
End Codecs.
