(* ===== verification/Modules.v ===== *)
(** * The modules as the module manager sees them (x/*/module/module.go)

    Every module wraps the genesis functions of its keeper: states are read from
    and written to JSON, and an error while the chain starts or exports is a
    panic.  Five of the modules (org, serve, emissions, identity, reputation)
    implement [module.HasGenesis]; the methods of memory, bandwidth and
    attestation have other signatures, and the manager passes over them.

    [InitChainer_json] is [InitChainer] (app/app.go) on the JSON of the genesis
    file, with the manager's loop over [OrderInitGenesis]; the theorems relate it
    to the model on decoded states of App.v.  The genesis of the SDK's modules
    and the module version map are the SDK's. *)

From S2P Require Import Prelude Bytes Store Wire Ifaces Json GenesisJson.
From S2P Require Org Emissions Identity Bandwidth Attestation Memory Serve Reputation ServeGenesis.
From S2P Require Import App AppConfig.
Local Open Scope string_scope.
Local Open Scope N_scope.

(** [fmt.Errorf] of a failed call becomes a panic. *)
Definition or_panic {A} (context : string) (r : result A) : result A :=
  match r with Ok x => Ok x | Err _ => Err (Panic context) end.

(** The keeper's [InitGenesis] after the decoding, as in App.v. *)
Definition supplied {A} (r : result A) : result A := or_panic "init genesis" r.

Lemma for_each_app {S A} (l1 l2 : list A) (f : A -> M S unit) s :
  for_each (l1 ++ l2)%list f s = (for_each l1 f ;; for_each l2 f) s.
Proof.
  revert s. induction l1 as [|x l1 IH]; intros s; [done|]. cbn. unfold mbind, M_bind in *.
  destruct (f x s) as [[u|e] s']; [|done]. apply IH.
Qed.

Section Modules.
Context {B F : Type} {SDK : SdkNames} {ADDR : Addresses} {BANK : BankKeeper B}
  {FEEGRANT : FeegrantKeeper F} {URL : UrlParser} {CRYPTO : Crypto} {JSON : Memory.JsonTags}
  {B64 : Base64}.
Notation app := (App B F).

(** ** [DefaultGenesis] *)
Definition Org_DefaultGenesis : json := enc Org_GenesisState_json Org.DefaultGenesis.
Definition Serve_DefaultGenesis : json := enc Serve_GenesisState_json (zero Serve_GenesisState_json).
Definition Emissions_DefaultGenesis : json := enc Emissions_GenesisState_json Emissions.DefaultGenesis.
Definition Identity_DefaultGenesis : json := enc Identity_GenesisState_json Identity.DefaultGenesis.
Definition Reputation_DefaultGenesis : json :=
  enc Reputation_GenesisState_json Reputation.DefaultGenesis.
Definition Memory_DefaultGenesis : json := enc Memory_GenesisState_json (zero Memory_GenesisState_json).
Definition Bandwidth_DefaultGenesis : json :=
  enc Bandwidth_GenesisState_json (zero Bandwidth_GenesisState_json).
Definition Attestation_DefaultGenesis : json :=
  enc Attestation_GenesisState_json (zero Attestation_GenesisState_json).

(** ** Reading a supplied state

    [UnmarshalJSON] of the identity and reputation states reads into a struct
    embedded by pointer and copies its fields: nil when nothing was read. *)
Definition read_embedded {R} (empty : R) (fs : list (field R)) (j : json) : result R :=
  o ← dec_embedded empty fs j;
  match o with Some r => Ok r | None => Err (Panic "nil pointer dereference") end.

Definition Org_read (state : Org.GenesisState) (j : json) : result Org.GenesisState :=
  dec Org_GenesisState_json state j.
Definition Serve_read (j : json) : result Serve.GenesisState :=
  dec Serve_GenesisState_json (zero Serve_GenesisState_json) j.
Definition Emissions_read (j : json) : result Emissions.GenesisState :=
  dec Emissions_GenesisState_json (zero Emissions_GenesisState_json) j.
Definition Identity_read (j : json) : result Identity.GenesisState :=
  read_embedded (zero Identity_GenesisState_json) Identity_GenesisState_members j.
Definition Reputation_read (j : json) : result Reputation.GenesisState :=
  read_embedded (zero Reputation_GenesisState_json) Reputation_GenesisState_members j.

(** ** [ValidateGenesis] *)
Definition Org_ValidateGenesis (bz : RawMessage) : result unit :=
  match bz with
  | None => Ok tt
  | Some j =>
      state ← wrap_err "org: unmarshal genesis" (Org_read (zero Org_GenesisState_json) j);
      Org.GenesisState_Validate state
  end.
Definition Serve_ValidateGenesis (bz : RawMessage) : result unit :=
  match bz with
  | None => Ok tt
  | Some j => wrap_err "serve: unmarshal genesis" (Serve_read j) ;; Ok tt
  end.
Definition Emissions_ValidateGenesis (bz : RawMessage) : result unit :=
  match bz with
  | None => Ok tt
  | Some j =>
      state ← wrap_err "emissions: unmarshal genesis" (Emissions_read j);
      Emissions.GenesisState_Validate state
  end.
Definition Identity_ValidateGenesis (bz : RawMessage) : result unit :=
  match bz with
  | None => Ok tt
  | Some j =>
      state ← wrap_err "identity: unmarshal genesis" (Identity_read j);
      Identity.GenesisState_Validate state
  end.
Definition Reputation_ValidateGenesis (bz : RawMessage) : result unit :=
  match bz with
  | None => Ok tt
  | Some j => wrap_err "reputation: unmarshal genesis" (Reputation_read j) ;; Ok tt
  end.

(** ** [InitGenesis] *)

(** The state to start from: what was supplied or the default. *)
Definition supplied_or {A} (default_state : A) (read : json -> result A) (bz : RawMessage) : result A :=
  match bz with None => Ok default_state | Some j => supplied (read j) end.

Definition Org_InitGenesis (bz : RawMessage) : M app unit :=
  state ← lift (supplied_or Org.DefaultGenesis (Org_read Org.DefaultGenesis) bz);
  panics (lift (Org.GenesisState_Validate state) ;; in_org (Org.InitGenesis state)).

Definition Serve_InitGenesis (bz : RawMessage) : M app unit :=
  match bz with
  | None => mret tt
  | Some j =>
      state ← lift (supplied (Serve_read j));
      panics (in_serve (Serve.InitGenesis state))
  end.

Definition Emissions_InitGenesis (bz : RawMessage) : M app unit :=
  state ← lift (supplied_or Emissions.DefaultGenesis Emissions_read bz);
  panics (in_emissions (Emissions.Module_InitGenesis (Some state))).

Definition Identity_InitGenesis (bz : RawMessage) : M app unit :=
  state ← lift (supplied_or Identity.DefaultGenesis Identity_read bz);
  panics (in_identity (Identity.InitGenesisState (Some state))).

Definition Reputation_InitGenesis (bz : RawMessage) : M app unit :=
  state ← lift (supplied_or Reputation.DefaultGenesis Reputation_read bz);
  panics (in_reputation (Reputation.Module_InitGenesis (Some state))).

(** The three that return their error; nobody calls them. *)
Definition Memory_InitGenesis (bz : RawMessage) : M app unit :=
  match bz with
  | None => mret tt
  | Some j =>
      state ← lift (dec Memory_GenesisState_json (zero Memory_GenesisState_json) j);
      in_memory (Memory.InitGenesis state)
  end.
Definition Bandwidth_InitGenesis (bz : RawMessage) : M app unit :=
  match bz with
  | None => mret tt
  | Some j =>
      state ← lift (dec Bandwidth_GenesisState_json (zero Bandwidth_GenesisState_json) j);
      in_bandwidth (Bandwidth.InitGenesis state)
  end.
Definition Attestation_InitGenesis (bz : RawMessage) : M app unit :=
  match bz with
  | None => mret tt
  | Some j =>
      state ← lift (dec Attestation_GenesisState_json (zero Attestation_GenesisState_json) j);
      in_attestation (Attestation.InitGenesis state)
  end.

(** ** [ExportGenesis] of the three *)
Definition Memory_ExportGenesis (a : app) : result json :=
  state ← Memory.ExportGenesis (a_memory a); mret (enc Memory_GenesisState_json state).
Definition Bandwidth_ExportGenesis (a : app) : result json :=
  mret (enc Bandwidth_GenesisState_json (Bandwidth.ExportGenesis (a_bandwidth a))).
Definition Attestation_ExportGenesis (a : app) : result json :=
  mret (enc Attestation_GenesisState_json (Attestation.ExportGenesis (a_attestation a))).

(** ** The module manager *)

(** The type assertion to [module.HasGenesis].  The SDK's modules have their own
    state, which is not part of the model. *)
Definition HasGenesis (name : string) : option (RawMessage -> M app unit) :=
  if bool_decide (name = "org") then Some Org_InitGenesis
  else if bool_decide (name = "serve") then Some Serve_InitGenesis
  else if bool_decide (name = "emissions") then Some Emissions_InitGenesis
  else if bool_decide (name = "identity") then Some Identity_InitGenesis
  else if bool_decide (name = "reputation") then Some Reputation_InitGenesis
  else None.

(** [Manager.InitGenesis]: modules without an entry are passed over. *)
Definition init_module (genesisData : gmap string json) (name : string) : M app unit :=
  match genesisData !! name with
  | None => mret tt
  | Some j => match HasGenesis name with None => mret tt | Some init => init (Some j) end
  end.
Definition Manager_InitGenesis (genesisData : gmap string json) : M app unit :=
  for_each (OrderInitGenesis ModuleManager) (init_module genesisData).

(** [json.Unmarshal(req.AppStateBytes, &genesisState)]. *)
Definition genesis_map (AppState : json) : result (gmap string json) :=
  match AppState with
  | JNull => Ok ∅
  | JObj l => Ok (list_to_map (reverse l))
  | _ => type_error
  end.

Definition InitChainer_json (AppState : json) : M app unit :=
  genesisState ← lift (genesis_map AppState);
  Manager_InitGenesis genesisState ;;
  write_markers.

(** ** The states behind the JSON *)
Definition decode_entry {A} (read : json -> result A) (data : gmap string json) (name : string) :
    result (option A) :=
  match data !! name with None => Ok None | Some j => x ← supplied (read j); mret (Some x) end.

Definition decode_genesis (data : gmap string json) : result Genesis :=
  org ← decode_entry (Org_read Org.DefaultGenesis) data "org";
  serve ← decode_entry Serve_read data "serve";
  emissions ← decode_entry Emissions_read data "emissions";
  identity ← decode_entry Identity_read data "identity";
  reputation ← decode_entry Reputation_read data "reputation";
  mret (mkGenesis org serve emissions identity reputation).

(** ** Genesis from JSON and from decoded states *)
Section Decoding.
Context {NAMES : SdkNamesLaws}.
Implicit Types (data : gmap string json) (a : app).

Lemma sdk_names_apart name : name ∈ sdk_modules -> name ∉ wevibe_modules.
Proof.
  intros H1 H2. pose proof modules_distinct as H. apply NoDup_app in H as (_ & H & _). by eapply H.
Qed.

Lemma init_none data name : HasGenesis name = None -> init_module data name = (fun a => (Ok tt, a)).
Proof. intros H. unfold init_module. rewrite H. by destruct (data !! name). Qed.

Lemma init_sdk data l a :
  (forall name, name ∈ l -> HasGenesis name = None) -> for_each l (init_module data) a = (Ok tt, a).
Proof.
  induction l as [|name l IH]; intros H; [done|]. cbn [for_each]. unfold mbind, M_bind.
  rewrite init_none by (apply H; left). apply IH. intros y Hy. apply H. by right.
Qed.

Lemma sdk_no_genesis name : name ∈ sdk_modules -> HasGenesis name = None.
Proof.
  intros Hn%sdk_names_apart. unfold HasGenesis, wevibe_modules in *.
  repeat (rewrite bool_decide_eq_false_2; [|set_solver]). done.
Qed.

(** The manager in its order: the modules of the SDK come first. *)
Lemma Manager_InitGenesis_eq data a :
  Manager_InitGenesis data a =
  for_each ["org"; "serve"; "emissions"; "identity"; "reputation"] (init_module data) a.
Proof.
  unfold Manager_InitGenesis. cbn [OrderInitGenesis ModuleManager].
  match goal with |- for_each ?l _ _ = _ =>
    change l with (take 13 l ++ ["org"; "bandwidth"; "memory"; "serve"; "attestation"; "emissions";
      "identity"; "reputation"])%list end.
  rewrite for_each_app. unfold mbind at 1, M_bind at 1. rewrite init_sdk.
  2: { intros name Hn. apply sdk_no_genesis. cbn [take] in Hn. unfold sdk_modules. set_solver. }
  cbn [for_each]. unfold mbind, M_bind.
  rewrite !(init_none data "bandwidth"), !(init_none data "memory"), !(init_none data "attestation") by done.
  repeat case_match; simplify_eq; done.
Qed.

(** A module whose entry decodes starts as with the decoded state; any other
    entry stops the chain. *)
Lemma init_decoded {A} name init (read : json -> result A) (f : A -> M app unit) data o :
  HasGenesis name = Some init ->
  (forall j x, supplied (read j) = Ok x -> init (Some j) = f x) ->
  decode_entry read data name = Ok o -> init_module data name = when_some o f.
Proof.
  intros Hg Hf. unfold decode_entry, init_module. rewrite Hg.
  destruct (data !! name) as [j|]; [|by intros [= <-]].
  destruct (supplied (read j)) as [x|] eqn:E; [|done]. intros [= <-]. by apply Hf.
Qed.

Lemma init_undecoded {A} name init (read : json -> result A) data e a :
  HasGenesis name = Some init ->
  (forall j e, supplied (read j) = Err e -> forall a, init (Some j) a = (Err e, a)) ->
  decode_entry read data name = Err e -> init_module data name a = (Err e, a).
Proof.
  intros Hg Hf. unfold decode_entry, init_module. rewrite Hg.
  destruct (data !! name) as [j|]; [|done].
  destruct (supplied (read j)) as [x|e'] eqn:E; [done|]. intros [= <-]. by apply Hf.
Qed.

Ltac module_reads := intros; unfold Org_InitGenesis, Serve_InitGenesis, Emissions_InitGenesis,
  Identity_InitGenesis, Reputation_InitGenesis, supplied_or;
  match goal with H : supplied _ = _ |- _ => rewrite H; reflexivity end.

Definition stops {S A} (m : M S A) : Prop := forall s, exists e s', m s = (Err e, s').

Lemma stops_for_each {S A} (l : list A) (f : A -> M S unit) x : x ∈ l -> stops (f x) -> stops (for_each l f).
Proof.
  intros Hx Hs. induction Hx as [x l|x y l Hx IH]; intros s; cbn; unfold mbind, M_bind.
  - destruct (Hs s) as (e & s' & ->). eauto.
  - destruct (f y s) as [[u|e] s']; [by apply IH|eauto].
Qed.

Lemma stops_bind {S A C} (m : M S A) (f : A -> M S C) : stops m -> stops (m ≫= f).
Proof. intros Hm s. unfold mbind, M_bind. destruct (Hm s) as (e & s' & ->). eauto. Qed.

(** The file as the modules' states in the order of their start. *)
Lemma InitChainer_json_eq l data a :
  genesis_map l = Ok data ->
  InitChainer_json l a =
  (for_each ["org"; "serve"; "emissions"; "identity"; "reputation"] (init_module data) ;; write_markers) a.
Proof.
  intros Hl. unfold InitChainer_json. rewrite Hl. unfold lift, mbind, M_bind.
  by rewrite Manager_InitGenesis_eq.
Qed.

Lemma InitChainer_json_ok l data g a :
  genesis_map l = Ok data -> decode_genesis data = Ok g -> InitChainer_json l a = InitChainer g a.
Proof.
  intros Hl Hg. rewrite (InitChainer_json_eq _ _ _ Hl). unfold decode_genesis in Hg.
  apply result_bind_ok in Hg as (org & H1 & Hg). apply result_bind_ok in Hg as (serve & H2 & Hg).
  apply result_bind_ok in Hg as (emissions & H3 & Hg). apply result_bind_ok in Hg as (identity & H4 & Hg).
  apply result_bind_ok in Hg as (reputation & H5 & Hg). injection Hg as <-. cbn [for_each].
  eapply (init_decoded "org" _ _
    (fun state => panics (lift (Org.GenesisState_Validate state) ;; in_org (Org.InitGenesis state)))) in H1; [|reflexivity|module_reads].
  eapply (init_decoded "serve" _ _
    (fun state => panics (in_serve (Serve.InitGenesis state)))) in H2; [|reflexivity|module_reads].
  eapply (init_decoded "emissions" _ _
    (fun state => panics (in_emissions (Emissions.Module_InitGenesis (Some state))))) in H3; [|reflexivity|module_reads].
  eapply (init_decoded "identity" _ _
    (fun state => panics (in_identity (Identity.InitGenesisState (Some state))))) in H4; [|reflexivity|module_reads].
  eapply (init_decoded "reputation" _ _
    (fun state => panics (in_reputation (Reputation.Module_InitGenesis (Some state))))) in H5; [|reflexivity|module_reads].
  rewrite H1, H2, H3, H4, H5. unfold InitChainer. unfold mbind, M_bind. cbn [gs_org gs_serve gs_emissions
    gs_identity gs_reputation].
  do 5 (match goal with |- context [when_some ?o ?f ?a] =>
    destruct (when_some o f a) as [[[]|] ?]; [|reflexivity] end).
  reflexivity.
Qed.

Lemma InitChainer_json_err l data e :
  genesis_map l = Ok data -> decode_genesis data = Err e -> stops (InitChainer_json l).
Proof.
  intros Hl Hg a. rewrite (InitChainer_json_eq _ _ _ Hl).
  enough (stops (for_each ["org"; "serve"; "emissions"; "identity"; "reputation"] (init_module data)))
    as Hs by by apply stops_bind.
  unfold decode_genesis, mbind, result_bind in Hg.
  destruct (decode_entry _ _ "org") as [?|e1] eqn:H1.
  2: { apply (stops_for_each _ _ "org"); [set_solver|]. intros st. do 2 eexists.
       eapply init_undecoded; [reflexivity|module_reads|done]. }
  destruct (decode_entry _ _ "serve") as [?|e1] eqn:H2.
  2: { apply (stops_for_each _ _ "serve"); [set_solver|]. intros st. do 2 eexists.
       eapply init_undecoded; [reflexivity|module_reads|done]. }
  destruct (decode_entry _ _ "emissions") as [?|e1] eqn:H3.
  2: { apply (stops_for_each _ _ "emissions"); [set_solver|]. intros st. do 2 eexists.
       eapply init_undecoded; [reflexivity|module_reads|done]. }
  destruct (decode_entry _ _ "identity") as [?|e1] eqn:H4.
  2: { apply (stops_for_each _ _ "identity"); [set_solver|]. intros st. do 2 eexists.
       eapply init_undecoded; [reflexivity|module_reads|done]. }
  destruct (decode_entry _ _ "reputation") as [?|e1] eqn:H5; [done|].
  apply (stops_for_each _ _ "reputation"); [set_solver|]. intros st. do 2 eexists.
  eapply init_undecoded; [reflexivity|module_reads|done].
Qed.

(** A successful start decodes every state of the file. *)
Lemma InitChainer_json_inv l u a a' :
  InitChainer_json l a = (Ok u, a') ->
  exists data g, genesis_map l = Ok data /\ decode_genesis data = Ok g /\ InitChainer g a = (Ok u, a').
Proof.
  intros H. destruct (genesis_map l) as [data|] eqn:Hl; [|by unfold InitChainer_json in H; rewrite Hl in H].
  destruct (decode_genesis data) as [g|e] eqn:Hg.
  - exists data, g. by rewrite <- (InitChainer_json_ok _ _ _ _ Hl Hg).
  - destruct (InitChainer_json_err _ _ _ Hl Hg a) as (? & ? & E). congruence.
Qed.

(** ** The file [wevibed init] writes *)

(** [ModuleBasics] holds modules of the SDK only, so none of the WeVibe modules
    finds an entry: the chain starts with nothing but the markers. *)
Lemma init_file_starts_empty l a :
  (forall k j, (k, j) ∈ l -> k ∈ ModuleBasics) -> InitChainer_json (JObj l) a = write_markers a.
Proof.
  intros Hl.
  assert (forall name, name ∈ wevibe_modules -> (list_to_map (reverse l) : gmap string json) !! name = None)
    as Hn.
  { intros name Hw. apply not_elem_of_list_to_map_1. intros ([k j] & -> & Hk)%list_elem_of_fmap.
    cbn in Hw. rewrite elem_of_reverse in Hk. apply Hl in Hk. apply (sdk_names_apart k); [|done].
    unfold ModuleBasics, sdk_modules in *. set_solver. }
  rewrite (InitChainer_json_ok _ (list_to_map (reverse l)) (mkGenesis None None None None None)); [done|done|].
  unfold decode_genesis, decode_entry. rewrite !Hn by (unfold wevibe_modules; set_solver). done.
Qed.

(** Without further entries no epoch is ever minted: there is no pool. *)
Lemma init_file_has_no_pool l (bank : B) (grants : F) :
  (forall k j, (k, j) ∈ l -> k ∈ ModuleBasics) ->
  exists a', InitChainer_json (JObj l) (empty_app bank grants) = (Ok tt, a') /\
    forall epoch p evs, (Emissions.MintDailyEmission (P := app) epoch (mkSt (a_emissions a') p evs)).1 =
      Err Emissions.ErrNoEmissionPool.
Proof.
  intros Hl. rewrite init_file_starts_empty by done. eexists. split; [reflexivity|]. done.
Qed.
End Decoding.
End Modules.

(** ** The file of scripts/init-chain.sh *)
Module ModulesDemo.
Import Simple AppConfigDemo.
Local Instance no_base64 : Base64 := {| base64_Encode x := x; base64_Decode := Some |}.

(** What the script adds to the file. *)
Definition script_emissions : json := JObj [("emission_pool", JObj [
  ("total_supply", JNum 0); ("daily_mint", JNum 1000000000); ("operator_share", JNum 80);
  ("validator_share", JNum 20); ("epoch", JNum 0);
  ("validator_pool_remaining_uvibe", JNum 570000000000000);
  ("contributor_pool_remaining_uvibe", JNum 320000000000000);
  ("contributor_rollover_uvibe", JNum 0); ("start_epoch", JNum 0); ("total_epochs_elapsed", JNum 0)])].
Definition script_reputation : json := JObj [("active", JBool true)].

(** The script seeds the pool of [DefaultGenesis], and the states it seeds are
    valid. *)
Example script_states :
  Emissions_read script_emissions = Ok Emissions.DefaultGenesis /\
  Reputation_read script_reputation = Ok Reputation.DefaultGenesis /\
  Emissions_ValidateGenesis (Some script_emissions) = Ok tt /\
  Reputation_ValidateGenesis (Some script_reputation) = Ok tt.
Proof. split_and!; vm_compute; reflexivity. Qed.
End ModulesDemo.
