(* ===== verification/AppExport.v ===== *)
(** * Exporting and restarting the chain (app/export.go)

    [ExportAppStateAndValidators] asks the module manager for the genesis of
    the modules that implement its genesis interface: of the WeVibe modules
    these are org, serve, emissions, identity and reputation (the
    [module.HasGenesis] assertions of their module.go).  The methods of
    the memory, bandwidth and attestation modules have another signature, so
    the manager does not call them.  The exported states are written as JSON and
    read back when a chain is started from them ([restart]).  The validators and
    the consensus parameters are the SDK's. *)

From S2P Require Import Prelude Bytes Store Wire Ifaces Org Emissions Identity Bandwidth Attestation Memory.
From S2P Require Import Serve ServeGenesis Reputation App AppFacts AppProps AppRewards AppDemo AppConfig Json GenesisJson Modules.
From Stdlib Require Import Ascii.
Local Open Scope string_scope.
Local Open Scope N_scope.

Section Exporting.
Context {B F : Type} {ADDR : Addresses} {BANK : BankKeeper B} {FEEGRANT : FeegrantKeeper F}
  {URL : UrlParser} {CRYPTO : Crypto} {JSON : Memory.JsonTags} {SDK : SdkNames} {NAMES : SdkNamesLaws}
  {B64 : Base64} {B64LAW : Base64Law}.
Notation app := (App B F).

(** Iteration orders of Go maps: of the model counts inside serve statistics
    when they were stored, and of the statistics of the reputation module when
    they are exported. *)
Context (model_order : gmap string N -> list (string * N))
  (stats_order : gmap string Reputation.ReputationStats -> list Reputation.ReputationStats).

(** The modules' [ExportGenesis] (module/module.go): errors are panics. *)
Definition export_panics {A} (r : result A) : result A :=
  match r with Ok x => Ok x | Err _ => Err (Panic "export genesis") end.

Definition Module_ExportGenesis_org (a : app) : result Org.GenesisState :=
  export_panics (Org.ExportGenesis (a_org a)).
Definition Module_ExportGenesis_serve (a : app) : Serve.GenesisState :=
  ServeGenesis.ExportGenesis model_order (a_serve a).
Definition Module_ExportGenesis_emissions (a : app) : result Emissions.GenesisState :=
  export_panics (Emissions.ExportGenesis (a_emissions a)).
Definition Module_ExportGenesis_identity (a : app) : result Identity.GenesisState :=
  export_panics (Identity.ExportGenesisState (a_identity a)).
Definition Module_ExportGenesis_reputation (a : app) : Reputation.GenesisState :=
  Reputation.mkGenesis (Reputation.IsActive (a_reputation a))
    (stats_order (Reputation.GetReputationStatsMap (a_reputation a)))
    (omap (fun kv => match kv.2 with Reputation.VOrgSet s => Some s | _ => None end)
       (prefix_iter "orgset/" (a_reputation a))).

(** [Manager.ExportGenesis]: the states of the modules that have one. *)
Definition Manager_ExportGenesis (a : app) : result Genesis :=
  org ← Module_ExportGenesis_org a;
  emissions ← Module_ExportGenesis_emissions a;
  identity ← Module_ExportGenesis_identity a;
  mret (mkGenesis (Some org) (Some (Module_ExportGenesis_serve a)) (Some emissions) (Some identity)
          (Some (Module_ExportGenesis_reputation a))).

(** The states as the JSON of a genesis file. *)
Definition entry {A} (name : string) (c : codec A) (o : option A) : list (string * json) :=
  match o with None => [] | Some x => [(name, enc c x)] end.
Definition encode_genesis (g : Genesis) : json :=
  JObj (entry "org" Org_GenesisState_json (gs_org g) ++
        entry "serve" Serve_GenesisState_json (gs_serve g) ++
        entry "emissions" Emissions_GenesisState_json (gs_emissions g) ++
        entry "identity" Identity_GenesisState_json (gs_identity g) ++
        entry "reputation" Reputation_GenesisState_json (gs_reputation g))%list.

(** The application state of an [ExportedApp]. *)
Definition ExportAppStateAndValidators (a : app) : result json :=
  genState ← Manager_ExportGenesis a;
  mret (encode_genesis genState).

(** A new chain started from the exported state. *)
Definition restart (bank : B) (grants : F) (a : app) : result app :=
  AppState ← ExportAppStateAndValidators a;
  match InitChainer_json AppState (empty_app bank grants) with
  | (Ok _, a') => Ok a'
  | (Err e, _) => Err e
  end.

(** The export of the reputation module is one of those its keeper allows. *)
Lemma export_reputation_ok a :
  stats_order (Reputation.GetReputationStatsMap (a_reputation a)) ≡ₚ
    (map_to_list (Reputation.GetReputationStatsMap (a_reputation a))).*2 ->
  Reputation.ExportGenesisState (a_reputation a) (Module_ExportGenesis_reputation a).
Proof. intros H. by split. Qed.

(** ** The genesis file *)

(** The states are values of their Go types that JSON can hold: numbers in range,
    strings (the ids, map keys and texts of every record) valid UTF-8, no event
    with a body, and, for x/org, no parameter zero. *)
Definition no_zero (p : Org.Params) : bool :=
  forallb (fun n => negb (0 =? n))
    [Org.p_MinRegistrationFee p; Org.p_AnnualRenewalFee p; Org.p_DefaultStorageQuota p;
     Org.p_DefaultRetrievalBudget p; Org.p_GracePeriodEpochs p; Org.p_BurnPriceDecayEpochs p;
     Org.p_BaseBurnPrice p; Org.p_BurnPriceIncreasePercent p; Org.p_SlotCap p].
Definition fits {A} (f : A -> bool) (o : option A) : bool :=
  match o with None => true | Some x => f x end.
Definition genesis_ok (g : Genesis) : bool :=
  fits (fun s => ok Org_GenesisState_json s && no_zero (Org.g_Params s)) (gs_org g) &&
  fits (ok Serve_GenesisState_json) (gs_serve g) &&
  fits (ok Emissions_GenesisState_json) (gs_emissions g) &&
  fits (ok Identity_GenesisState_json) (gs_identity g) &&
  fits (ok Reputation_GenesisState_json) (gs_reputation g).

Lemma merge_no_zero p0 p : no_zero p = true -> merge_params p0 p = p.
Proof.
  unfold no_zero. cbn [forallb]. rewrite !andb_true_iff. intros Hp. destruct_and? Hp.
  repeat match goal with H : negb _ = true |- _ => apply negb_true_iff in H end.
  unfold merge_params, keep_zero. destruct p; cbn [Org.p_MinRegistrationFee Org.p_AnnualRenewalFee
    Org.p_DefaultStorageQuota Org.p_DefaultRetrievalBudget Org.p_GracePeriodEpochs
    Org.p_BurnPriceDecayEpochs Org.p_BaseBurnPrice Org.p_BurnPriceIncreasePercent Org.p_SlotCap] in *.
  repeat match goal with H : (0 =? _) = false |- _ => rewrite H; clear H end. done.
Qed.

Lemma genesis_entries g :
  exists data, genesis_map (encode_genesis g) = Ok data /\
    data !! "org" = enc Org_GenesisState_json <$> gs_org g /\
    data !! "serve" = enc Serve_GenesisState_json <$> gs_serve g /\
    data !! "emissions" = enc Emissions_GenesisState_json <$> gs_emissions g /\
    data !! "identity" = enc Identity_GenesisState_json <$> gs_identity g /\
    data !! "reputation" = enc Reputation_GenesisState_json <$> gs_reputation g.
Proof.
  eexists. split; [reflexivity|]. by destruct g as [[] [] [] [] []].
Qed.

Lemma decode_entry_back {A} (c : codec A) (read : json -> result A) data name o :
  data !! name = enc c <$> o -> (forall x, o = Some x -> read (enc c x) = Ok x) ->
  decode_entry read data name = Ok o.
Proof.
  intros H Hr. unfold decode_entry. rewrite H. destruct o as [x|]; [|done]. cbn. by rewrite (Hr x).
Qed.

(** C16: a genesis file says what the chain starts from.  When every number of
    the states fits its Go type, every string is valid UTF-8, no event has a body
    and no parameter of x/org is zero, starting from the JSON of the states is
    starting from the states. *)
Theorem genesis_file_roundtrip (g : Genesis) (a : app) :
  genesis_ok g = true -> InitChainer_json (encode_genesis g) a = InitChainer g a.
Proof.
  unfold genesis_ok. rewrite !andb_true_iff. intros [[[[Ho Hs] He] Hi] Hr].
  destruct (genesis_entries g) as (data & Hd & D1 & D2 & D3 & D4 & D5).
  apply (InitChainer_json_ok _ data); [done|]. unfold decode_genesis.
  erewrite (decode_entry_back _ (Org_read Org.DefaultGenesis)); [|exact D1|].
  2: { intros x Hx. rewrite Hx in Ho. cbn in Ho. apply andb_true_iff in Ho as [Ho Hz].
       unfold Org_read. rewrite org_read_back by done. rewrite merge_no_zero by done. by destruct x. }
  erewrite (decode_entry_back _ Serve_read); [|exact D2|].
  2: { intros x Hx. rewrite Hx in Hs. apply decode_encode; [apply _|apply _|done]. }
  erewrite (decode_entry_back _ Emissions_read); [|exact D3|].
  2: { intros x Hx. rewrite Hx in He. apply decode_encode; [apply _|apply _|done]. }
  erewrite (decode_entry_back _ Identity_read); [|exact D4|].
  2: { intros x Hx. rewrite Hx in Hi. unfold Identity_read, read_embedded. by rewrite identity_read_back. }
  erewrite (decode_entry_back _ Reputation_read); [|exact D5|].
  2: { intros x Hx. rewrite Hx in Hr. unfold Reputation_read, read_embedded. by rewrite reputation_read_back. }
  by destruct g.
Qed.

(** ** What a restart forgets *)

(** Every step of [InitChainer] before the markers leaves the stores of the
    memory, bandwidth and attestation modules alone. *)
Definition others_empty (a : app) : Prop :=
  a_memory a = ∅ /\ a_bandwidth a = ∅ /\ a_attestation a = ∅.

Definition preserves_others {A} (m : M app A) : Prop :=
  forall a r a', others_empty a -> m a = (r, a') -> others_empty a'.

Lemma others_bind {A C} (m : M app A) (f : A -> M app C) :
  preserves_others m -> (forall x, preserves_others (f x)) -> preserves_others (m ≫= f).
Proof.
  intros Hm Hf a r a' Ha H. unfold mbind, M_bind in H. destruct (m a) as [[x|e] a1] eqn:E.
  - by eapply Hf, H; eapply Hm.
  - simplify_eq. by eapply Hm.
Qed.

Lemma others_when {A} (o : option A) (f : A -> M app unit) :
  (forall x, preserves_others (panics (f x))) -> preserves_others (when_some o (fun x => panics (f x))).
Proof. intros Hf. destruct o; [apply Hf|]. intros a r a' Ha [= <- <-]. done. Qed.

Lemma others_panics {A} (m : M app A) : preserves_others m -> preserves_others (panics m).
Proof.
  intros Hm a r a' Ha H. unfold panics, map_err in H. destruct (m a) as [[x|e] a1] eqn:E; simplify_eq;
    by eapply Hm.
Qed.

Lemma others_lift {A} (x : result A) : preserves_others (lift x).
Proof. by intros a r a' Ha [= <- <-]. Qed.

Lemma others_in_org {A} (m : M (St Org.org_val (B * F)) A) : preserves_others (in_org m).
Proof. intros a r a' Ha H. unfold in_org in H. destruct (m _). by simplify_eq. Qed.
Lemma others_in_reputation {A} (m : M (St Reputation.rep_val unit) A) : preserves_others (in_reputation m).
Proof. intros a r a' Ha H. unfold in_reputation in H. destruct (m _). by simplify_eq. Qed.

Lemma others_in_store {V A} (get : app -> gmap string V) put (m : M (St V app) A) :
  (forall v a, others_empty a -> others_empty (put v a)) -> moves eq m ->
  preserves_others (in_store get put m).
Proof.
  intros Hput Hm a r a' Ha H. unfold in_store in H. destruct (m _) as [r1 s1] eqn:E.
  apply Hm in E. cbn in E. simplify_eq. apply (Hput _ _ Ha).
Qed.

Lemma InitChainer_others g (bank : B) (grants : F) r (a' : app) :
  InitChainer g (empty_app bank grants) = (Ok r, a') ->
  a_memory a' = {[ genesisInitMarkerKey := Memory.VRaw genesisInitMarkerValue ]} /\
  a_bandwidth a' = {[ genesisInitMarkerKey := Bandwidth.VRaw genesisInitMarkerValue ]} /\
  a_attestation a' = {[ genesisInitMarkerKey := Attestation.VRaw genesisInitMarkerValue ]}.
Proof.
  intros H. assert (others_empty (empty_app bank grants)) as H0 by done. unfold InitChainer in H.
  apply M_bind_ok in H as ([] & a1 & H1 & H). apply others_when in H1; [| |done].
  2: { intros x. apply others_panics, others_bind; [apply others_lift|intros _; apply others_in_org]. }
  apply M_bind_ok in H as ([] & a2 & H2 & H). apply others_when in H2; [| |done].
  2: { intros x. apply others_panics, others_in_store; [done|].
       unfold Serve.InitGenesis, Serve.IncrementDenialCount, Serve.incr_uint64,
         Serve.updateEpochDenialStats, Serve.modify_stats. frame. }
  apply M_bind_ok in H as ([] & a3 & H3 & H). apply others_when in H3; [| |done].
  2: { intros x. apply others_panics, others_in_store; [done|].
       unfold Emissions.Module_InitGenesis, Emissions.SetParams, Emissions.InitGenesis. frame. }
  apply M_bind_ok in H as ([] & a4 & H4 & H). apply others_when in H4; [| |done].
  2: { intros x. apply others_panics, others_in_store; [done|].
       unfold Identity.InitGenesisState, Identity.setParams, Identity.SetAlias. frame. }
  apply M_bind_ok in H as ([] & a5 & H5 & H). apply others_when in H5; [| |done].
  2: { intros x. apply others_panics, others_in_reputation. }
  destruct H5 as (Hm & Hb & Ha). unfold write_markers in H. injection H as <- <-.
  cbn. by rewrite Hm, Hb, Ha.
Qed.

(** C19: restarting the chain from its exported state forgets every memory.
    Whatever state is exported, after a successful restart no memory is approved
    or pending, no session is attested, and no entry of any serve batch is
    accepted: the modules of these records are not asked for their genesis. *)
Theorem restart_forgets_memories (bank : B) (grants : F) (a a' : app) :
  restart bank grants a = Ok a' ->
  (forall o h, Memory.GetApprovedMemory (a_memory a') o h = Err Memory.ErrMemoryNotFound /\
     Memory.GetPendingCommitment (a_memory a') o h = Err Memory.ErrCommitmentNotFound) /\
  (forall o, Memory.GetApprovedCount (a_memory a') o = Ok 0) /\
  (forall o h, Attestation.GetSessionAttestation (a_attestation a') o h =
     Err Attestation.ErrAttestationNotFound) /\
  (forall params o e sv m es v s',
     Serve.process_serve (P := app) params o e sv (mkSt m a' es) = (Ok v, s') -> v <> Serve.Accepted).
Proof.
  unfold restart. intros H. apply result_bind_ok in H as (AppState & _ & H).
  destruct (InitChainer_json _ _) as [[r|] a1] eqn:E; simplify_eq.
  apply InitChainer_json_inv in E as (data & g & _ & _ & E).
  apply InitChainer_others in E as (Hm & _ & Ha).
  assert (forall k v, String.prefix genesisInitMarkerKey k = false ->
    ({[genesisInitMarkerKey := v]} : gmap string Memory.mem_val) !! k = None) as Hk.
  { intros k v Hk. apply lookup_singleton_ne. intros <-. discriminate Hk. }
  assert (forall o h, Memory.GetApprovedMemory (a_memory a') o h = Err Memory.ErrMemoryNotFound) as Hg.
  { intros o h. unfold Memory.GetApprovedMemory. by rewrite Hm, Hk. }
  split_and!.
  - intros o h. split; [apply Hg|]. unfold Memory.GetPendingCommitment. by rewrite Hm, Hk.
  - intros o. unfold Memory.GetApprovedCount, Memory.read_uint64. by rewrite Hm, Hk.
  - intros o h. unfold Attestation.GetSessionAttestation. rewrite Ha.
    by rewrite lookup_singleton_ne.
  - intros params o e sv m es v s' Hp ->. unfold Serve.process_serve in Hp.
    destruct (_ || _) in Hp; [by mok Hp|]. destruct (negb _) in Hp; [by mok Hp|].
    apply M_bind_ok in Hp as (dup & s1 & H1 & Hp). mok H1. destruct dup; [by mok Hp|].
    apply M_bind_ok in Hp as (mem & s2 & H2 & Hp). unfold attempt, peer_read in H2. mok H2.
    cbn [peers Serve.GetApprovedMemory serve_memory] in Hp. rewrite Hg in Hp. by mok Hp.
Qed.

(** ** What a restart refuses *)

(** C20: a chain that has recorded an event cannot be restarted from its
    export.  The body of an event is a oneof, a Go interface, which encoding/json
    writes but cannot read: whatever else the state holds, a chain started from
    the exported file stops with an error while it reads the genesis of x/serve. *)
Theorem restart_refused_with_events (bank : B) (grants : F) (a : app) o epoch fp e :
  a_serve a !! eventKey o epoch fp = Some (VEvent e) -> is_Some (ev_Body e) ->
  is_ok (restart bank grants a) = false.
Proof.
  intros Hk Hb. unfold restart, ExportAppStateAndValidators.
  destruct (Manager_ExportGenesis a) as [g|] eqn:Eg; [|done]. cbn.
  assert (exists sg, gs_serve g = Some sg /\ Some e ∈ Serve.g_Events sg) as (sg & Hg & He).
  { unfold Manager_ExportGenesis in Eg. apply result_bind_ok in Eg as (? & _ & Eg).
    apply result_bind_ok in Eg as (? & _ & Eg). apply result_bind_ok in Eg as (? & _ & [= <-]).
    eexists. split; [reflexivity|]. cbn.
    by eapply (exported (fun v => Some <$> export_event model_order v) EventPrefix). }
  destruct (genesis_entries g) as (data & Hd & _ & D2 & _).
  destruct (InitChainer_json (encode_genesis g) (empty_app bank grants)) as [[u|] a'] eqn:E; [|done].
  apply InitChainer_json_inv in E as (data' & g' & Hd' & Hdec & _). rewrite Hd in Hd'.
  injection Hd' as <-. unfold decode_genesis in Hdec. apply result_bind_ok in Hdec as (? & _ & Hdec).
  apply result_bind_ok in Hdec as (sv & Hsv & _). unfold decode_entry in Hsv. rewrite D2, Hg in Hsv.
  cbn in Hsv. pose proof (serve_genesis_unreadable sg e He Hb (Json.zero Serve_GenesisState_json)) as Hu.
  unfold Serve_read in Hsv. by destruct (dec Serve_GenesisState_json _ _).
Qed.
End Exporting.

(** ** A restart of the execution of AppDemo.v *)
Module AppExportDemo.
Import Simple AppDemo AppConfigDemo.

(** Hexadecimal stands in for base64. *)
Local Instance hex64 : Base64 := {| base64_Encode := hex_encode; base64_Decode := hex_decode |}.
Local Instance hex64_law : Base64Law.
Proof. intros x. apply hex_decode_encode. Qed.

Local Notation final := (run_app history (new_app bank0 grants0)).
Definition orders : gmap string Reputation.ReputationStats -> list Reputation.ReputationStats :=
  fun m => (map_to_list m).*2.
Local Notation restarted := (restart map_to_list orders bank0 grants0 final).

(** The restart succeeds: the org and the receipt are there, the memory of the
    receipt is not, so a served memory need not be approved any more. *)
Example restart_state :
  match restarted with
  | Ok again =>
      Org.HasOrg (a_org again) org0 = true /\
      Serve.HasServeFingerprint (a_serve again) fingerprint = true /\
      is_ok (Memory.GetApprovedMemory (a_memory final) org0 hash) = true /\
      is_ok (Memory.GetApprovedMemory (a_memory again) org0 hash) = false
  | Err _ => False
  end.
Proof. vm_compute. done. Qed.

Lemma restart_forgets_memories_witness :
  exists again, restarted = Ok again /\
    Memory.GetApprovedMemory (a_memory again) org0 hash = Err Memory.ErrMemoryNotFound.
Proof.
  pose proof restart_state as H.
  destruct restarted as [again|e] eqn:E; [|destruct H]. exists again. split; [reflexivity|].
  apply (restart_forgets_memories map_to_list orders bank0 grants0 final again E).
Defined.

(** The default genesis as a file. *)
Lemma genesis_file_roundtrip_witness :
  InitChainer_json (encode_genesis DefaultGenesis) (empty_app bank0 grants0) =
  InitChainer DefaultGenesis (empty_app bank0 grants0).
Proof. apply (genesis_file_roundtrip DefaultGenesis (empty_app bank0 grants0)). vm_compute. reflexivity. Defined.

(** The same run with one more event: nothing else is needed to lose the way
    back. *)
Definition event : EventEntry :=
  mkEventEntry EventType_EVENT_TYPE_CONVERGENCE hash pad pad sig64 (Some (EventEntry_Convergence pad)).
Definition event_tx : block_step :=
  Tx ctx [ServeMsg (EventBatchMsg (mkMsgSubmitEventBatch "server" org0 1 [Some event]))].
Local Notation eventful := (run_app (history ++ [event_tx])%list (new_app bank0 grants0)).
Definition event_fp : string :=
  match CanonicalEventBody (ee_EventType event) org0 hash 1 pad pad event with
  | Ok body => ComputeEventFingerprint body
  | Err _ => ""
  end.

Lemma event_stored :
  a_serve eventful !! eventKey org0 1 event_fp = Some (VEvent (storedEventFromEntry org0 1 event event_fp)).
Proof. vm_compute. reflexivity. Qed.

Lemma restart_refused_with_events_witness :
  is_ok (restart map_to_list orders bank0 grants0 eventful) = false.
Proof.
  apply (restart_refused_with_events map_to_list orders bank0 grants0 eventful org0 1 event_fp
    (storedEventFromEntry org0 1 event event_fp)).
  - exact event_stored.
  - exists (EventEntry_Convergence pad). reflexivity.
Defined.

(** A governance decision for free org slots does not survive a restart: a price
    of zero is left out of the file, and the parameters are read over the
    defaults. *)
Definition free_slots : Org.Params :=
  Org.mkParams 10000000 5000000 1073741824 10000 30 10 0 20 32.
Definition govern : block_step :=
  Tx ctx [OrgMsg (Org.UpdateParamsMsg (Org.mkMsgUpdateParams govAuthority (Some free_slots)))].
Local Notation governed := (run_app [govern] (new_app bank0 grants0)).

Lemma restart_resets_zero_params :
  Org.GetParams (a_org governed) = Ok free_slots /\
  match restart map_to_list orders bank0 grants0 governed with
  | Ok again => Org.GetParams (a_org again) = Ok Org.DefaultParams
  | Err _ => False
  end.
Proof. split; vm_compute; reflexivity. Qed.

(** A developer id is the bytes of a key, kept as a string: one that is not valid
    UTF-8 leaves the export as another id, so the restarted chain files the
    statistics under a key nobody asks for. *)
Definition raw_id : string := String (ascii_of_N 255) "key".
Definition raw_stats : Reputation.GenesisState :=
  Reputation.mkGenesis true [Reputation.NewReputationStats raw_id] [].

Lemma restart_renames_raw_ids :
  ok Reputation_GenesisState_json raw_stats = false /\
  match Reputation_read (enc Reputation_GenesisState_json raw_stats) with
  | Ok g => Reputation.rs_DeveloperID <$> Reputation.g_Stats g = [replacement "key"]
  | Err _ => False
  end.
Proof. split; vm_compute; reflexivity. Qed.

(** The empty object is no state for identity and reputation: no field is read,
    the embedded struct is nil and copying its fields panics. *)
Lemma empty_object_panics :
  Identity_read (JObj []) = Err (Panic "nil pointer dereference") /\
  Reputation_read (JObj []) = Err (Panic "nil pointer dereference") /\
  Emissions_read (JObj []) = Ok (Emissions.mkGenesisState None [] [] [] 0).
Proof. split_and!; vm_compute; reflexivity. Qed.
End AppExportDemo.
