(* ===== verification/Queries.v ===== *)
(** * The gRPC query servers

    Models x/<module>/keeper/grpc_query.go of the eight modules: the requests
    and responses of types/query.pb.go as records and tuples, one definition
    per query, named after its server.  A query reads a committed state of the
    application; what it writes on the way (a bandwidth state initialised by
    [GetOrInitBandwidthState]) goes to a context that is thrown away, so only
    the result is kept.  A request that the server compares with [nil] is an
    option. *)

From S2P Require Import Prelude Bytes Store Wire Ifaces App.
From S2P Require Org Emissions Identity Bandwidth Attestation Memory Serve Reputation.
Local Open Scope string_scope.
Local Open Scope N_scope.

(** [status.Error(codes.<code>, text)]. *)
Definition status_Error (code text : string) : error := Wrap code (Errorf text).
Definition InvalidArgument (text : string) : error := status_Error "InvalidArgument" text.
Definition Internal (text : string) : error := status_Error "Internal" text.

(** [if req == nil { return err }]. *)
Definition require_req {R A} (e : error) (req : option R) (f : R -> result A) : result A :=
  match req with None => Err e | Some r => f r end.
Definition nil_request : error := Errorf "request cannot be nil".
Definition empty_request : error := InvalidArgument "empty request".

(** [if x, err := call(); err == nil { ... }]: the error is dropped, a panic is
    not. *)
Definition if_ok {A} (r : result A) : result (option A) :=
  match r with
  | Ok a => Ok (Some a)
  | Err (Panic t) => Err (Panic t)
  | Err _ => Ok None
  end.

(** [json.Marshal] of a [map[string]string]. *)
Class JsonMarshal := { json_Marshal_tags : gmap string string -> string }.

(** ** Responses (types/query.pb.go) *)
Record OrgInfo := mkOrgInfo {
  oi_OrgId : string; oi_Leader : string; oi_CreatedAt : N; oi_RenewalHeight : N;
  oi_StorageQuota : N; oi_RetrievalBudget : N; oi_Status : Z; oi_Domain : string;
  oi_HubServingAddress : string; oi_HubEndpoints : list string; oi_HubResponsePubkey : string;
}.

Record MemberInfo := mkMemberInfo {
  mi_OrgId : string; mi_Pubkey : string; mi_Role : string; mi_CanContribute : bool;
  mi_CanModerate : bool;
}.

Record OrgProfile := mkOrgProfile {
  pr_OrgId : string; pr_Leader : string; pr_AccountAddress : string; pr_Domain : string;
  pr_Status : Z; pr_CreatedAt : N; pr_StorageQuota : N; pr_RetrievalBudget : N;
  pr_MemberCount : N; pr_ModeratorCount : N; pr_ApprovedMemoryCount : N;
  pr_TotalServes : N; pr_UniqueMemoriesServed : N; pr_SelfServes : N;
  pr_ModelBreakdown : gmap string N;
  pr_MemoryBandwidthUsed : N; pr_MemoryBandwidthCap : N; pr_ServeBandwidthUsed : N;
  pr_ServeBandwidthCap : N;
}.

Record PageRequest := mkPageRequest { pg_Offset : N; pg_Limit : N }.

Record UpheldReportEntry := mkUpheldReportEntry {
  ur_OrgId : string; ur_ContentHash : string; ur_ContributorPubkey : string;
  ur_ApprovingModerators : list string; ur_UpholdingModerators : list string;
  ur_ReporterPubkey : string; ur_Reason : string; ur_UpheldAtEpoch : N;
}.

Record CrossOrgProfile := mkCrossOrgProfile {
  xp_DeveloperId : string; xp_MemoryCount : N; xp_Xp : N; xp_ServeCount : N;
  xp_SelfServeCount : N; xp_OrgBreadth : N; xp_ServeXp : N; xp_FirstSeenEpoch : N;
  xp_OrgIds : list string; xp_DomainTags : option (gmap string N);
}.

Record ContributorProfile := mkContributorProfile {
  co_ContributorId : string; co_Xp : N; co_ServeXp : N; co_MemoryCount : N;
  co_ServeCount : N; co_SelfServeCount : N; co_OrgBreadth : N; co_FirstSeenEpoch : N;
  co_DifficultyHistogram : list N; co_TopDomains : list string;
  co_ProvenanceBreakdown : option (gmap string N); co_OrgIds : list string;
  co_EpochServes : N; co_EpochSelfServes : N; co_EpochTotalTurns : N;
}.

Record VerifyUpheldReportResponse := mkVerifyResponse {
  vr_Plaintext : string; vr_Ciphertext : string; vr_Capsule : string;
  vr_PlaintextHash : string; vr_PlaintextOversized : bool;
  vr_ApprovingModerators : list string; vr_UpholdingModerators : list string;
  vr_UpheldAtEpoch : N; vr_Salt : string; vr_CiphertextHash : string;
  vr_WrappedDekHash : string; vr_ContributorSig : string; vr_ContributorPubkey : string;
  vr_EncryptedBlob : string; vr_WrappedDekEnc : string; vr_ContentHash : string;
  vr_OrgId : string; vr_Epoch : N; vr_MemoryType : string; vr_CanonicalBody : string;
}.

(** ** Pagination of the report listings

    [int] is 64-bit: offset and limit are converted with wrap-around, their sum
    wraps, and the slice expression panics on bounds out of order. *)
Definition int_wrap (x : Z) : Z := int64_of_u64 (u64_of_int64 x).

(** [reports[low:high]]. *)
Definition slice {A} (low high : Z) (l : list A) : result (list A) :=
  if (0 <=? low)%Z && (low <=? high)%Z && (high <=? Z.of_nat (length l))%Z
  then Ok (take (Z.to_nat (high - low)) (drop (Z.to_nat low) l))
  else Err (Panic "slice bounds out of range").

Definition paginateReports (reports : list UpheldReportEntry) (page : option PageRequest) :
    result (list UpheldReportEntry * N) :=
  let page := default (mkPageRequest 0 100) page in
  let n := Z.of_nat (length reports) in
  let offset := int64_of_u64 (pg_Offset page) in
  let limit := int64_of_u64 (pg_Limit page) in
  let limit := (if limit =? 0 then 100 else limit)%Z in
  let offset := (if n <? offset then n else offset)%Z in
  let end_ := int_wrap (offset + limit) in
  let end_ := (if n <? end_ then n else end_)%Z in
  window ← slice offset end_ reports;
  mret (window, N.of_nat (length reports)).

(** ** The byte comparison and the signed body, as reputation's server has them *)
Fixpoint bytes_agree (left right : string) : bool :=
  match left, right with
  | String x left', String y right' => if bool_decide (x = y) then bytes_agree left' right' else false
  | _, _ => true
  end.

Definition bytesEqual (left right : string) : bool :=
  if negb (len left =? len right) then false else bytes_agree left right.

Definition buildSubmitMemoryCanonicalBody (ciphertextHash contributorPubkey : string)
    (epochID memoryType : N)
    (orgID plaintextHash salt submissionHash wrappedDekHash : string) : string :=
  Join newline [
    "wevibe.submit_memory.v1";
    "ciphertext_hash:" +:+ hex_encode ciphertextHash;
    "contributor_pubkey:" +:+ contributorPubkey;
    "epoch_id:" +:+ FormatUint epochID;
    "memory_type:" +:+ Memory.CanonicalMemoryType memoryType;
    "org_id:" +:+ orgID;
    "plaintext_hash:" +:+ hex_encode plaintextHash;
    "salt:" +:+ hex_encode salt;
    "submission_hash:" +:+ hex_encode submissionHash;
    "wrapped_dek_hash:" +:+ hex_encode wrappedDekHash].

Section Queries.
Context {B F : Type} {ADDR : Addresses} {BANK : BankKeeper B} {CRYPTO : Crypto}
  {JSON : Memory.JsonTags} {MARSHAL : JsonMarshal}.
Notation app := (App B F).
Implicit Types (a : app).

(** ** x/org *)
Definition OrgQuery_GetOrg a (orgId : string) : result OrgInfo :=
  org ← Org.GetOrg (a_org a) orgId;
  mret {|
    oi_OrgId := Org.o_OrgID org;
    oi_Leader := Org.o_Leader org;
    oi_CreatedAt := Org.o_CreatedAt org;
    oi_RenewalHeight := Org.o_RenewalHeight org;
    oi_StorageQuota := Org.o_StorageQuota org;
    oi_RetrievalBudget := Org.o_RetrievalBudget org;
    oi_Status := Org.o_Status org;
    oi_Domain := Org.o_Domain org;
    oi_HubServingAddress := Org.o_HubServingAddress org;
    oi_HubEndpoints := Org.o_HubEndpoints org;
    oi_HubResponsePubkey := Org.o_HubResponsePubkey org;
  |}.

Definition OrgQuery_GetMembers a (orgId : string) : result (list MemberInfo) :=
  mret ((fun m => mkMemberInfo (Org.m_OrgID m) (Org.m_Pubkey m) (Org.m_Role m)
                    (Org.m_CanContribute m) (Org.m_CanModerate m))
        <$> Org.GetAllMembers (a_org a) orgId).

Definition OrgQuery_IsMember a (orgId pubkey : string) : result bool :=
  mret (Org.IsMember (a_org a) orgId pubkey).

Definition OrgQuery_Params a : result Org.Params := Org.GetParams (a_org a).

(** serve receipt required, minimal contributions per epoch, contest stake *)
Definition OrgQuery_GetOrgConfig a (orgId : string) : result (bool * N * N) :=
  cfg ← Org.GetOrgConfig (a_org a) orgId;
  mret (Org.c_ServeReceiptRequired cfg, Org.c_MinContributionsPerEpoch cfg,
        Org.c_ContestStakeVibe cfg).

(** account address, balance in uvibe *)
Definition OrgQuery_GetOrgAccount a (orgId : string) : result (string * string) :=
  org ← Org.GetOrg (a_org a) orgId;
  accountAddr ← wrap_err "invalid org account address"
                  (AccAddressFromBech32 (Org.o_AccountAddress org));
  mret (Org.o_AccountAddress org, FormatUint (GetBalance (a_bank a) accountAddr)).

(** [memberCount] and [moderatorCount] after the loop over the members. *)
Definition count_members (members : list Org.MemberRecord) : N * N :=
  foldl (fun c m => ((c.1 + 1)%u64, if Org.m_CanModerate m then (c.2 + 1)%u64 else c.2))
    (0, 0) members.

(** The three peers are set by [NewWeVibeApp]. *)
Definition OrgQuery_GetOrgProfile a (orgId : string) (epoch : N) : result OrgProfile :=
  err_if (bool_decide (orgId = "")) Org.ErrInvalidOrgID ;;
  org ← Org.GetOrg (a_org a) orgId;
  let members := Org.GetAllMembers (a_org a) orgId in
  let counts := count_members members in
  approved ← if_ok (Memory.GetApprovedCount (a_memory a) orgId);
  serves ← (if 0 <? epoch then if_ok (Serve.GetEpochServeStatsRaw (a_serve a) orgId epoch)
            else mret None);
  bandwidth ← (if 0 <? epoch
               then if_ok (in_bandwidth (Bandwidth.GetOrInitBandwidthStateRaw orgId epoch) a).1
               else mret None);
  let '(totalServes, uniqueMemories, selfServes, breakdown) := default (0, 0, 0, ∅) serves in
  let '(memoryUsed, memoryCap, serveUsed, serveCap) := default (0, 0, 0, 0) bandwidth in
  mret {|
    pr_OrgId := Org.o_OrgID org;
    pr_Leader := Org.o_Leader org;
    pr_AccountAddress := Org.o_AccountAddress org;
    pr_Domain := Org.o_Domain org;
    pr_Status := Org.o_Status org;
    pr_CreatedAt := Org.o_CreatedAt org;
    pr_StorageQuota := Org.o_StorageQuota org;
    pr_RetrievalBudget := Org.o_RetrievalBudget org;
    pr_MemberCount := counts.1;
    pr_ModeratorCount := counts.2;
    pr_ApprovedMemoryCount := default 0 approved;
    pr_TotalServes := totalServes;
    pr_UniqueMemoriesServed := uniqueMemories;
    pr_SelfServes := selfServes;
    pr_ModelBreakdown := breakdown;
    pr_MemoryBandwidthUsed := memoryUsed;
    pr_MemoryBandwidthCap := memoryCap;
    pr_ServeBandwidthUsed := serveUsed;
    pr_ServeBandwidthCap := serveCap;
  |}.

(** ** x/memory *)

(** The record a memory is answered as. *)
Definition memory_answer (memory : Memory.MemoryCommitment) : Memory.StoredMemoryCommitment := {|
  Memory.sm_OrgId := Memory.mc_OrgID memory;
  Memory.sm_ContentHash := Memory.mc_ContentHash memory;
  Memory.sm_EncryptedBlob := Memory.mc_EncryptedBlob memory;
  Memory.sm_Keywords := Memory.mc_Keywords memory;
  Memory.sm_ContributorPubkey := Memory.mc_Contributor memory;
  Memory.sm_ContributorAddress := Memory.mc_ContributorAddress memory;
  Memory.sm_ProducerModelId := Memory.mc_ProducerModelId memory;
  Memory.sm_AttestationSessionHash := Memory.mc_AttestationSessionHash memory;
  Memory.sm_PlaintextHash := Memory.mc_PlaintextHash memory;
  Memory.sm_Salt := Memory.mc_Salt memory;
  Memory.sm_CiphertextHash := Memory.mc_CiphertextHash memory;
  Memory.sm_WrappedDekHash := Memory.mc_WrappedDekHash memory;
  Memory.sm_ContributorSig := Memory.mc_ContributorSig memory;
  Memory.sm_Epoch := Memory.mc_Epoch memory;
  Memory.sm_CommittedAtHeight := Memory.mc_CommittedAtHeight memory;
  Memory.sm_CommittingLeaderPubkey := Memory.mc_CommittingLeader memory;
  Memory.sm_State := Memory.mc_State memory;
  Memory.sm_LastActiveEpoch := Memory.mc_LastActiveEpoch memory;
  Memory.sm_WrappedDekEnc := Memory.mc_WrappedDekEnc memory;
  Memory.sm_McVersion := Memory.mc_McVersion memory;
  Memory.sm_MemoryType := Memory.mc_MemoryType memory;
  Memory.sm_ApprovedAtEpoch := Memory.mc_ApprovedAtEpoch memory;
|}.

Definition MemoryQuery_GetMemory a (orgId contentHash : string) :
    result Memory.StoredMemoryCommitment :=
  memory ← Memory.GetApprovedMemory (a_memory a) orgId contentHash;
  mret (memory_answer memory).

(** Wallet, producer model, attestation and version are left out. *)
Definition pending_answer (p : Memory.PendingCommitment) : Memory.StoredPendingCommitment := {|
  Memory.sp_OrgId := Memory.pc_OrgID p;
  Memory.sp_ContentHash := Memory.pc_ContentHash p;
  Memory.sp_Keywords := Memory.pc_Keywords p;
  Memory.sp_ContributorId := Memory.pc_Contributor p;
  Memory.sp_Epoch := Memory.pc_Epoch p;
  Memory.sp_SubmittedAtHeight := Memory.pc_SubmittedAt p;
  Memory.sp_MemoryType := Memory.pc_MemoryType p;
  Memory.sp_ContributorAddress := "";
  Memory.sp_ProducerModelId := "";
  Memory.sp_AttestationSessionHash := "";
  Memory.sp_McVersion := 0;
|}.

Definition MemoryQuery_GetPendingCommitments a (orgId : string) :
    result (list Memory.StoredPendingCommitment) :=
  mret (pending_answer <$> Memory.GetAllPendingForOrg (a_memory a) orgId).

Definition MemoryQuery_GetMemoryCount a (orgId : string) : result N :=
  Memory.GetApprovedCount (a_memory a) orgId.

(** root, number of memories *)
Definition MemoryQuery_GetEpochMerkleRoot a (orgId : string) (epoch : N) : result (string * N) :=
  merkle ← Memory.GetEpochMerkleRoot (a_memory a) orgId epoch;
  mret (Memory.em_MerkleRoot merkle, Memory.em_MemoryCount merkle).

Definition MemoryQuery_Params a : result Memory.Params := Memory.GetParams (a_memory a).

Definition MemoryQuery_ListRelationships a (orgId cid : string) :
    result (list Memory.StoredMemoryRelationship) :=
  rels ← Memory.ListRelationshipsForMemory (a_memory a) orgId cid;
  mret (map (fun rel => Memory.mkStoredRelationship (Memory.mr_OrgID rel) (Memory.mr_SourceCID rel)
           (Memory.mr_TargetCID rel) (Memory.mr_RelationType rel) (Memory.mr_Proposer rel)
           (Memory.mr_Approved rel) (Memory.mr_Epoch rel)) rels).

(** [Found: false] is [None]. *)
Definition MemoryQuery_GetValidity a (orgId cid : string) :
    result (option Memory.StoredValidityMetadata) :=
  metadata ← Memory.GetValidityMetadata (a_memory a) orgId cid;
  mret (match metadata with
        | None => None
        | Some md => Some (Memory.mkStoredValidity orgId cid (Memory.vm_ValidAfterEpoch md)
                             (Memory.vm_ValidUntilEpoch md)
                             (json_Marshal_tags (Memory.vm_ScopeTags md)))
        end).

(** The loop over the requested hashes: memories found, hashes not found. *)
Fixpoint lookup_batch (m : gmap string Memory.mem_val) (orgId : string) (hashes : list string) :
    list Memory.StoredMemoryCommitment * list string :=
  match hashes with
  | [] => ([], [])
  | hash :: hashes' =>
      let '(memories, notFound) := lookup_batch m orgId hashes' in
      match Memory.GetApprovedMemory m orgId hash with
      | Ok memory => (memory_answer memory :: memories, notFound)
      | Err _ => (memories, hash :: notFound)
      end
  end.

Definition MemoryQuery_GetMemoriesBatch a (req : option (string * list string)) :
    result (list Memory.StoredMemoryCommitment * list string) :=
  require_req empty_request req (fun '(orgId, contentHashes) =>
    err_if (bool_decide (orgId = "")) (InvalidArgument "org_id required") ;;
    err_if (length contentHashes =? 0)%nat
      (InvalidArgument "at least one content_hash required") ;;
    err_if (50 <? length contentHashes)%nat (InvalidArgument "max 50 content hashes per batch") ;;
    mret (lookup_batch (a_memory a) orgId contentHashes)).

(** ** x/serve *)

(** The answer carries no denial count. *)
Definition ServeQuery_GetEpochServeStats a (req : option (string * N)) :
    result Serve.EpochServeStats :=
  require_req nil_request req (fun '(orgId, epoch) =>
    stats ← Serve.GetEpochServeStats (a_serve a) orgId epoch;
    mret {|
      Serve.es_OrgID := Serve.es_OrgID stats;
      Serve.es_Epoch := Serve.es_Epoch stats;
      Serve.es_TotalServes := Serve.es_TotalServes stats;
      Serve.es_TotalDenials := 0;
      Serve.es_UniqueMemoriesServed := Serve.es_UniqueMemoriesServed stats;
      Serve.es_UniqueServeKeys := Serve.es_UniqueServeKeys stats;
      Serve.es_SelfServes := Serve.es_SelfServes stats;
      Serve.es_ModelBreakdown := Serve.es_ModelBreakdown stats;
    |}).

Definition ServeQuery_GetContributorServes a (req : option (string * N)) :
    result Serve.ContributorEpochServes :=
  require_req nil_request req (fun '(contributorId, epoch) =>
    cs ← Serve.GetContributorEpochServes (a_serve a) contributorId epoch;
    mret {|
      Serve.cs_ContributorID := Serve.cs_ContributorID cs;
      Serve.cs_Epoch := Serve.cs_Epoch cs;
      Serve.cs_ServeCount := Serve.cs_ServeCount cs;
      Serve.cs_SelfServeCount := Serve.cs_SelfServeCount cs;
      Serve.cs_OrgIDs := Serve.cs_OrgIDs cs;
      Serve.cs_TotalTurns := Serve.cs_TotalTurns cs;
    |}).

Definition ServeQuery_GetMemoryServeCount a (req : option (string * string * N)) : result N :=
  require_req nil_request req (fun '(orgId, contentHash, epoch) =>
    Serve.GetMemoryServeCount (a_serve a) orgId contentHash epoch).

Definition ServeQuery_ListEvents a (req : option (string * N)) : result (list Serve.StoredEvent) :=
  require_req nil_request req (fun '(orgId, epoch) =>
    mret (Serve.GetEventsForEpoch (a_serve a) orgId epoch)).

Definition ServeQuery_GetPolicyAnchor a (req : option string) :
    result (option Serve.StoredPolicyAnchor) :=
  require_req nil_request req (fun policyVersion =>
    Serve.GetPolicyAnchor (a_serve a) policyVersion).

Definition ServeQuery_GetLatestPolicyAnchor a (req : option unit) :
    result (option Serve.StoredPolicyAnchor) :=
  require_req nil_request req (fun _ => Serve.GetLatestPolicyAnchor (a_serve a)).

Definition ServeQuery_Params a (req : option unit) : result Serve.Params :=
  require_req nil_request req (fun _ => Serve.GetParams (a_serve a)).

(** ** x/bandwidth *)

(** A state that does not exist is answered with the error of a missing
    override. *)
Definition BandwidthQuery_GetBandwidthState a (orgId : string) (epoch : N) :
    result Bandwidth.StoredBandwidthState :=
  state ← Bandwidth.GetBandwidthState (a_bandwidth a) orgId epoch;
  match state with
  | None => Err Bandwidth.ErrOverrideNotFound
  | Some state => mret (Bandwidth.mkStoredBandwidthState (Bandwidth.bs_OrgID state)
      (Bandwidth.bs_Epoch state) (Bandwidth.bs_MemoryUsed state) (Bandwidth.bs_MemoryCap state)
      (Bandwidth.bs_ServeUsed state) (Bandwidth.bs_ServeCap state))
  end.

(** [HasOverride: false] is [None]. *)
Definition BandwidthQuery_GetBandwidthOverride a (orgId : string) :
    result (option Bandwidth.StoredBandwidthOverride) :=
  match Bandwidth.GetBandwidthOverride (a_bandwidth a) orgId with
  | Err e => if bool_decide (e = Bandwidth.ErrOverrideNotFound) then mret None else Err e
  | Ok override => mret (Some (Bandwidth.mkStoredBandwidthOverride (Bandwidth.bo_OrgID override)
      (Bandwidth.bo_MemoryCap override) (Bandwidth.bo_ServeCap override)))
  end.

(** memory remaining, serves remaining *)
Definition BandwidthQuery_GetRemainingBandwidth a (orgId : string) (epoch : N) : result (N * N) :=
  (in_bandwidth (Bandwidth.GetRemainingBandwidth orgId epoch) a).1.

Definition BandwidthQuery_Params a : result Bandwidth.Params := Bandwidth.GetParams (a_bandwidth a).

(** ** x/emissions *)

(** total supply, daily mint, operator share, validator share, epoch *)
Definition EmissionsQuery_GetEmissionPool a : result (N * N * N * N * N) :=
  pool ← Emissions.GetEmissionPool (a_emissions a);
  mret (Emissions.ep_TotalSupply pool, Emissions.ep_DailyMint pool, Emissions.ep_OperatorShare pool,
        Emissions.ep_ValidatorShare pool, Emissions.ep_Epoch pool).

Definition EmissionsQuery_Params a : result Emissions.Params := Emissions.GetParams (a_emissions a).

(** pending withdrawal, all-time earnings *)
Definition EmissionsQuery_ContributorReward a (req : option string) : result (N * N) :=
  require_req empty_request req (fun pubkey =>
    pending ← Emissions.GetContributorReward (a_emissions a) pubkey;
    allTime ← Emissions.GetLifetimeContributorReward (a_emissions a) pubkey;
    mret (pending, allTime)).

(** ** x/identity *)

(** wallet address, is migrated, found *)
Definition IdentityQuery_ResolveIdentity a (req : option string) : result (string * bool * bool) :=
  require_req empty_request req (fun passkeyPubkey =>
    alias ← Identity.GetAlias (a_identity a) passkeyPubkey;
    mret (match alias with
          | None => ("", false, false)
          | Some alias => (Identity.a_WalletAddress alias, Identity.a_IsMigrated alias, true)
          end)).

(** ** x/attestation *)
Definition AttestationQuery_GetSessionAttestation a (orgId sessionHash : string) :
    result Attestation.StoredSessionAttestation :=
  Attestation.GetSessionAttestation (a_attestation a) orgId sessionHash.

Definition AttestationQuery_ListSessionAttestations a (orgId : string) (epoch : N) :
    result (list Attestation.StoredSessionAttestation) :=
  mret (Attestation.ListSessionAttestations (a_attestation a) orgId epoch).

Definition AttestationQuery_Params a : result Attestation.Params :=
  Attestation.GetParams (a_attestation a).

(** ** x/reputation *)

(** developer, memory count, XP *)
Definition ReputationQuery_GetReputation a (developer : string) : result (string * N * N) :=
  stats ← Reputation.GetReputation (a_reputation a) developer;
  mret (Reputation.rs_DeveloperID stats, Reputation.rs_MemoryCount stats, Reputation.rs_XP stats).

Definition ReputationQuery_GetXP a (developer : string) : result N :=
  Reputation.GetXP (a_reputation a) developer.

Definition ReputationQuery_IsActive a : result bool := mret (Reputation.IsActive (a_reputation a)).

Definition ReputationQuery_Params a : result Reputation.Params :=
  Reputation.GetParams (a_reputation a).

(** serve count, self-serve count, org breadth, serve XP, first epoch *)
Definition ReputationQuery_GetServeStats a (developer : string) : result (N * N * N * N * N) :=
  stats ← Reputation.GetServeStats (a_reputation a) developer;
  mret (Reputation.rs_ServeCount stats, Reputation.rs_SelfServeCount stats,
        Reputation.rs_OrgBreadth stats, Reputation.rs_ServeXP stats,
        Reputation.rs_FirstSeenEpoch stats).

Definition ReputationQuery_GetContributorOrgSet a (developer : string) : result (list string) :=
  orgSet ← Reputation.GetContributorOrgSet (a_reputation a) developer;
  mret (Reputation.os_OrgIds orgSet).

Definition ReputationQuery_GetCrossOrgProfile a (developer : string) : result CrossOrgProfile :=
  stats ← Reputation.GetReputation (a_reputation a) developer;
  orgSet ← Reputation.GetContributorOrgSet (a_reputation a) developer;
  mret {|
    xp_DeveloperId := Reputation.rs_DeveloperID stats;
    xp_MemoryCount := Reputation.rs_MemoryCount stats;
    xp_Xp := Reputation.rs_XP stats;
    xp_ServeCount := Reputation.rs_ServeCount stats;
    xp_SelfServeCount := Reputation.rs_SelfServeCount stats;
    xp_OrgBreadth := Reputation.rs_OrgBreadth stats;
    xp_ServeXp := Reputation.rs_ServeXP stats;
    xp_FirstSeenEpoch := Reputation.rs_FirstSeenEpoch stats;
    xp_OrgIds := Reputation.os_OrgIds orgSet;
    xp_DomainTags := Reputation.rs_DomainTags stats;
  |}.

(** The errors of the two lookups after the statistics are dropped; [order] is
    the iteration order of the tag map. *)
Definition ReputationQuery_GetContributorProfile a
    (order : gmap string N -> list (string * N)) (contributorId : string) (epoch : N) :
    result ContributorProfile :=
  err_if (bool_decide (contributorId = "")) Reputation.ErrInvalidDeveloper ;;
  stats ← Reputation.GetReputation (a_reputation a) contributorId;
  topDomains ← if_ok (Reputation.GetTopDomains (a_reputation a) contributorId 10 order);
  orgSet ← if_ok (Reputation.GetContributorOrgSet (a_reputation a) contributorId);
  serves ← (if 0 <? epoch
            then if_ok (Serve.GetContributorEpochServesRaw (a_serve a) contributorId epoch)
            else mret None);
  let '(serveCount, selfServeCount, totalTurns, _) := default (0, 0, 0, []) serves in
  mret {|
    co_ContributorId := contributorId;
    co_Xp := Reputation.rs_XP stats;
    co_ServeXp := Reputation.rs_ServeXP stats;
    co_MemoryCount := Reputation.rs_MemoryCount stats;
    co_ServeCount := Reputation.rs_ServeCount stats;
    co_SelfServeCount := Reputation.rs_SelfServeCount stats;
    co_OrgBreadth := Reputation.rs_OrgBreadth stats;
    co_FirstSeenEpoch := Reputation.rs_FirstSeenEpoch stats;
    co_DifficultyHistogram := Reputation.rs_DifficultyBucket stats;
    co_TopDomains := default [] topDomains;
    co_ProvenanceBreakdown := Reputation.rs_ProvenanceBreakdown stats;
    co_OrgIds := match orgSet with Some o => Reputation.os_OrgIds o | None => [] end;
    co_EpochServes := serveCount;
    co_EpochSelfServes := selfServeCount;
    co_EpochTotalTurns := totalTurns;
  |}.

(** The keeper never answers a nil profile. *)
Definition ReputationQuery_LeaderProfile a (leaderPubkey orgId : string) :
    result Reputation.StoredLeaderProfile :=
  err_if (bool_decide (leaderPubkey = "") || bool_decide (orgId = "")) Reputation.ErrInvalidDeveloper ;;
  Reputation.GetLeaderProfile (a_reputation a) leaderPubkey orgId.

Definition ReputationQuery_ModeratorProfile a (moderatorPubkey orgId : string) :
    result Reputation.StoredModeratorProfile :=
  err_if (bool_decide (moderatorPubkey = "") || bool_decide (orgId = ""))
    Reputation.ErrInvalidDeveloper ;;
  Reputation.GetModeratorProfile (a_reputation a) moderatorPubkey orgId.

Definition report_entry (report : Memory.StoredMemoryReport) : UpheldReportEntry := {|
  ur_OrgId := Memory.rp_OrgId report;
  ur_ContentHash := Memory.rp_ContentHash report;
  ur_ContributorPubkey := Memory.rp_ContributorPubkey report;
  ur_ApprovingModerators := Memory.rp_ApprovingModerators report;
  ur_UpholdingModerators := Memory.rp_UpholdingModerators report;
  ur_ReporterPubkey := Memory.rp_ReporterPubkey report;
  ur_Reason := Memory.rp_Reason report;
  ur_UpheldAtEpoch := Memory.rp_UpheldAtEpoch report;
|}.

(** The three listings differ in the guard of the callback. *)
Definition matching_reports a (matches : Memory.StoredMemoryReport -> bool)
    (page : option PageRequest) : result (list UpheldReportEntry * N) :=
  matching ←
    match Memory.IterateUpheldReports (fun acc report =>
            (if matches report then (acc ++ [report_entry report])%list else acc, true))
            [] (a_memory a) with
    | Ok l => Ok l
    | Err _ => Err (Internal "iterate upheld reports")
    end;
  paginateReports matching page.

Definition ReputationQuery_UpheldReportsByContributor a
    (req : option (string * option PageRequest)) : result (list UpheldReportEntry * N) :=
  require_req empty_request req (fun '(contributorId, page) =>
    err_if (bool_decide (contributorId = "")) (InvalidArgument "contributor_id required") ;;
    matching_reports a
      (fun report => bool_decide (Memory.rp_ContributorPubkey report = contributorId)) page).

(** One entry per report, however often the moderator is listed. *)
Definition ReputationQuery_UpheldReportsByModerator a
    (req : option (string * option PageRequest)) : result (list UpheldReportEntry * N) :=
  require_req empty_request req (fun '(moderatorPubkey, page) =>
    err_if (bool_decide (moderatorPubkey = "")) (InvalidArgument "moderator_pubkey required") ;;
    matching_reports a
      (fun report => existsb (fun approver => bool_decide (approver = moderatorPubkey))
                       (Memory.rp_ApprovingModerators report)) page).

Definition ReputationQuery_UpheldReportsByLeader a
    (req : option (string * option PageRequest)) : result (list UpheldReportEntry * N) :=
  require_req empty_request req (fun '(leaderPubkey, page) =>
    err_if (bool_decide (leaderPubkey = "")) (InvalidArgument "leader_pubkey required") ;;
    matching_reports a
      (fun report => bool_decide (Memory.rp_CommittingLeaderPubkey report = leaderPubkey)) page).

Definition ReputationQuery_VerifyUpheldReport a (req : option (string * string)) :
    result VerifyUpheldReportResponse :=
  require_req empty_request req (fun '(orgId, contentHash) =>
    err_if (bool_decide (orgId = "")) (InvalidArgument "org_id required") ;;
    err_if (len contentHash =? 0) (InvalidArgument "content_hash required") ;;
    memory ←
      match Memory.GetApprovedMemory (a_memory a) orgId contentHash with
      | Ok memory => Ok memory
      | Err e => Err (if bool_decide (e = Memory.ErrMemoryNotFound)
                      then status_Error "NotFound" "approved memory not found"
                      else Internal "lookup approved memory")
      end;
    let report := Memory.GetUpheldReport (a_memory a) orgId contentHash in
    err_if ((len (Memory.mc_PlaintextHash memory) =? 0) || (len (Memory.mc_Salt memory) =? 0) ||
            (len (Memory.mc_CiphertextHash memory) =? 0) ||
            (len (Memory.mc_ContributorSig memory) =? 0))
      (Internal "approved memory missing verification fields") ;;
    let wrappedDekHash := sha256 (Memory.mc_WrappedDekEnc memory) in
    err_if ((0 <? len (Memory.mc_WrappedDekHash memory)) &&
            negb (bytesEqual (Memory.mc_WrappedDekHash memory) wrappedDekHash))
      (Internal "stored wrapped_dek_hash mismatch") ;;
    let submissionHash :=
      sha256 (Memory.mc_EncryptedBlob memory +:+ Memory.mc_WrappedDekEnc memory) in
    err_if (negb (bytesEqual (Memory.mc_ContentHash memory) submissionHash))
      (Internal "stored content_hash mismatch") ;;
    let canonicalBody := buildSubmitMemoryCanonicalBody (Memory.mc_CiphertextHash memory)
      (Memory.mc_Contributor memory) (Memory.mc_Epoch memory) (Memory.mc_MemoryType memory)
      (Memory.mc_OrgID memory) (Memory.mc_PlaintextHash memory) (Memory.mc_Salt memory)
      submissionHash wrappedDekHash in
    mret {|
      vr_Plaintext := match report with Some r => Memory.rp_Plaintext r | None => "" end;
      vr_Ciphertext := match report with Some r => Memory.rp_Ciphertext r | None => "" end;
      vr_Capsule := match report with Some r => Memory.rp_Capsule r | None => "" end;
      vr_PlaintextHash := Memory.mc_PlaintextHash memory;
      vr_PlaintextOversized :=
        match report with Some r => Memory.rp_PlaintextOversized r | None => false end;
      vr_ApprovingModerators :=
        match report with Some r => Memory.rp_ApprovingModerators r | None => [] end;
      vr_UpholdingModerators :=
        match report with Some r => Memory.rp_UpholdingModerators r | None => [] end;
      vr_UpheldAtEpoch := match report with Some r => Memory.rp_UpheldAtEpoch r | None => 0 end;
      vr_Salt := Memory.mc_Salt memory;
      vr_CiphertextHash := Memory.mc_CiphertextHash memory;
      vr_WrappedDekHash := wrappedDekHash;
      vr_ContributorSig := Memory.mc_ContributorSig memory;
      vr_ContributorPubkey := Memory.mc_Contributor memory;
      vr_EncryptedBlob := Memory.mc_EncryptedBlob memory;
      vr_WrappedDekEnc := Memory.mc_WrappedDekEnc memory;
      vr_ContentHash := Memory.mc_ContentHash memory;
      vr_OrgId := Memory.mc_OrgID memory;
      vr_Epoch := Memory.mc_Epoch memory;
      vr_MemoryType := Memory.CanonicalMemoryType (Memory.mc_MemoryType memory);
      vr_CanonicalBody := canonicalBody;
    |}).
End Queries.
