(* ===== verification/QueriesProps.v ===== *)
(** * What the queries answer

    The query servers against the state of the chain: the evidence answered for
    a report verifies, the report listings are exact windows of the stored
    reports, the org profile counts what is stored. *)

From S2P Require Import Prelude Bytes Store Wire Ifaces Org OrgFacts App AppFacts AppProps Queries.
From S2P Require Emissions EmissionsFacts Identity Bandwidth Attestation.
From S2P Require Memory MemoryFacts MemoryProps Serve ServeFacts Reputation AppRewards.
Local Open Scope string_scope.
Local Open Scope N_scope.

(** ** Byte comparison *)
Lemma bytes_agree_spec x y : String.length x = String.length y -> bytes_agree x y = true <-> x = y.
Proof.
  revert y. induction x as [|c x IH]; intros [|d y]; simpl; try done.
  intros [= H]. case_bool_decide as E; [|split; [done|congruence]].
  rewrite (IH _ H). subst. split; congruence.
Qed.

Lemma bytesEqual_spec x y : bytesEqual x y = true <-> x = y.
Proof.
  unfold bytesEqual, len. destruct (N.eqb_spec (N.of_nat (String.length x)) (N.of_nat (String.length y))) as [E|E]; simpl.
  - apply bytes_agree_spec. lia.
  - split; [done|]. by intros ->.
Qed.

(** ** Pages *)

(** The page of [xs] at offset [o] with limit [l], where 0 stands for 100.  The
    slice expression panics when the converted offset or limit is negative or
    their sum overflows. *)
Definition window {A} (o l : N) (xs : list A) : result (list A * N) :=
  let n := N.of_nat (length xs) in
  let l' := if l =? 0 then 100 else l in
  if (o <? two63) && (l <? two63) && (N.min o n + l' <? two63)
  then Ok (take (N.to_nat l') (drop (N.to_nat o) xs), n)
  else Err (Panic "slice bounds out of range").

Lemma slice_ok {A} (low high : N) (xs : list A) :
  low <= high -> high <= N.of_nat (length xs) ->
  slice (Z.of_N low) (Z.of_N high) xs = Ok (take (N.to_nat (high - low)) (drop (N.to_nat low) xs)).
Proof.
  intros H1 H2. unfold slice.
  rewrite !(proj2 (Z.leb_le _ _)) by lia. cbn. do 3 f_equal; lia.
Qed.

Lemma slice_panic {A} (low high : Z) (xs : list A) :
  (low < 0 \/ high < low)%Z -> slice low high xs = Err (Panic "slice bounds out of range").
Proof.
  intros H. unfold slice. destruct (Z.leb_spec 0 low), (Z.leb_spec low high); try done. lia.
Qed.

Lemma int64_small x : x < two63 -> int64_of_u64 x = Z.of_N x.
Proof. intros H. unfold int64_of_u64. by rewrite (proj2 (N.ltb_lt _ _)). Qed.
Lemma int64_large x : is_u64 x -> two63 <= x -> (int64_of_u64 x = Z.of_N x - Z.of_N two64)%Z.
Proof. intros _ H. unfold int64_of_u64. by rewrite (proj2 (N.ltb_ge _ _)). Qed.

Lemma int_wrap_small x : (- Z.of_N two63 <= x < Z.of_N two63)%Z -> int_wrap x = x.
Proof.
  intros H. unfold int_wrap, u64_of_int64, int64_of_u64. unfold two63, two64 in *.
  destruct (Z.leb_spec 0 x).
  - rewrite Z.mod_small by lia. case_match eqn:E; [lia|]. apply N.ltb_ge in E. lia.
  - rewrite <- (Z.mod_unique x _ (-1) (x + 18446744073709551616)) by lia.
    case_match eqn:E; [apply N.ltb_lt in E; lia|lia].
Qed.

Lemma int_wrap_over x :
  (Z.of_N two63 <= x < Z.of_N two64)%Z -> int_wrap x = (x - Z.of_N two64)%Z.
Proof.
  intros H. unfold int_wrap, u64_of_int64, int64_of_u64. unfold two63, two64 in *.
  rewrite Z.mod_small by lia. case_match eqn:E; [apply N.ltb_lt in E; lia|lia].
Qed.

Lemma take_min {A} k (xs : list A) : take k xs = take (k `min` length xs) xs.
Proof.
  destruct (Nat.le_gt_cases k (length xs)); [by rewrite Nat.min_l|].
  rewrite Nat.min_r by lia. by rewrite !take_ge by lia.
Qed.

Lemma paginate_window reports o l :
  is_u64 o -> is_u64 l -> N.of_nat (length reports) < two63 ->
  paginateReports reports (Some (mkPageRequest o l)) = window o l reports.
Proof.
  intros Ho Hl Hn. unfold paginateReports, window. cbn [default id pg_Offset pg_Limit].
  set (n := length reports) in *. set (l' := if l =? 0 then 100 else l).
  destruct (N.ltb_spec o two63) as [Ho'|Ho']; cbn [andb].
  2: { rewrite slice_panic; [done|]. left. rewrite int64_large by done.
       unfold is_u64, two63, two64 in *. case_match eqn:E; [apply Z.ltb_lt in E|]; lia. }
  rewrite (int64_small o) by done.
  assert ((if (Z.of_nat n <? Z.of_N o)%Z then Z.of_nat n else Z.of_N o) =
          Z.of_N (N.min o (N.of_nat n))) as ->.
  { case_match eqn:E; [apply Z.ltb_lt in E|apply Z.ltb_ge in E]; lia. }
  set (off := N.min o (N.of_nat n)). assert (off <= N.of_nat n) as Hoff by lia.
  destruct (N.ltb_spec l two63) as [Hl'|Hl']; cbn [andb].
  2: { rewrite slice_panic; [done|]. right. rewrite int64_large by done.
       unfold is_u64, two63, two64 in *.
       rewrite (proj2 (Z.eqb_neq _ _)) by lia.
       rewrite int_wrap_small by (unfold two63; lia).
       case_match eqn:E; [apply Z.ltb_lt in E|]; lia. }
  rewrite (int64_small l) by done.
  assert ((if (Z.of_N l =? 0)%Z then 100 else Z.of_N l)%Z = Z.of_N l') as ->.
  { unfold l'. destruct (N.eqb_spec l 0) as [->|]; [done|]. by rewrite (proj2 (Z.eqb_neq _ _)) by lia. }
  assert (l' < two63 /\ l' <> 0) as [Hl2 Hl0].
  { unfold l', two63 in *. destruct (N.eqb_spec l 0); lia. }
  destruct (N.ltb_spec (off + l') two63) as [Hs|Hs].
  - rewrite int_wrap_small by (unfold two63 in *; lia).
    assert ((if (Z.of_nat n <? Z.of_N off + Z.of_N l')%Z then Z.of_nat n
             else Z.of_N off + Z.of_N l')%Z = Z.of_N (N.min (off + l') (N.of_nat n))) as ->.
    { case_match eqn:E; [apply Z.ltb_lt in E|apply Z.ltb_ge in E]; lia. }
    rewrite slice_ok by lia. cbn. do 2 f_equal.
    rewrite (take_min (N.to_nat l')), length_drop. fold n.
    destruct (N.le_gt_cases o (N.of_nat n)).
    + replace off with o in * by lia. f_equal. lia.
    + replace off with (N.of_nat n) in * by lia. rewrite !drop_ge by (fold n; lia). by rewrite !take_nil.
  - rewrite slice_panic; [done|]. right. rewrite int_wrap_over by (unfold two63, two64 in *; lia).
    case_match eqn:E; [apply Z.ltb_lt in E|]; unfold two63, two64 in *; lia.
Qed.

(** ** The stored reports *)

(** In the order of their keys. *)
Definition stored_reports (m : gmap string Memory.mem_val) : list Memory.StoredMemoryReport :=
  omap (fun kv => match kv.2 with Memory.VReport r => Some r | _ => None end)
    (prefix_iter Memory.reportPrefixKey m).

(** The entries of a listing. *)
Definition entries (matches : Memory.StoredMemoryReport -> bool)
    (m : gmap string Memory.mem_val) : list UpheldReportEntry :=
  map report_entry (List.filter matches (stored_reports m)).

Lemma wf_reports m kv :
  MemoryFacts.mem_wf m -> kv ∈ prefix_iter Memory.reportPrefixKey m ->
  exists r, kv.2 = Memory.VReport r.
Proof.
  destruct kv as [k v]. intros Hwf Hin. apply elem_of_prefix_iter in Hin as [Hv Hp]; [|by eexists].
  apply prefix_spec in Hp as [t ->]. pose proof (Hwf _ _ Hv) as Hs. cbn [snd].
  destruct v; try done; eauto. destruct Hs as [[[[o H]|H] _]|H]; discriminate H.
Qed.

Lemma iterate_collects (matches : Memory.StoredMemoryReport -> bool) (l : list (string * Memory.mem_val)) acc :
  (forall kv, kv ∈ l -> exists r, kv.2 = Memory.VReport r) ->
  Memory.iterate_reports (fun acc report =>
    (if matches report then (acc ++ [report_entry report])%list else acc, true)) acc l =
  Ok (acc ++ map report_entry (List.filter matches
        (omap (fun kv : string * Memory.mem_val =>
           match kv.2 with Memory.VReport r => Some r | _ => None end) l)))%list.
Proof.
  revert acc. induction l as [|[k v] l IH]; intros acc Hl; cbn; [by rewrite app_nil_r|].
  destruct (Hl (k, v)) as [r Hr]; [by left|]. cbn in Hr. subst v. cbn.
  rewrite IH by (intros; apply Hl; by right).
  destruct (matches r); [|done]. cbn. by rewrite <- app_assoc.
Qed.

Lemma length_omap_le {A C} (f : A -> option C) l : (length (omap f l) <= length l)%nat.
Proof. induction l as [|x l IH]; cbn; [done|]. destruct (f x); cbn; lia. Qed.

Lemma entries_length matches m : (length (entries matches m) <= size m)%nat.
Proof.
  unfold entries, stored_reports. rewrite length_map.
  etrans; [apply List.filter_length_le|]. etrans; [apply length_omap_le|].
  unfold prefix_iter. rewrite Iterator_length. apply map_subseteq_size, map_filter_subseteq.
Qed.

Section QueriesProps.
Context {B F : Type} {ADDR : Addresses} {BANK : BankKeeper B} {FEEGRANT : FeegrantKeeper F}
  {URL : UrlParser} {CRYPTO : Crypto} {JSON : Memory.JsonTags}.
Notation app := (App B F).
Implicit Types (a : app).

Lemma matching_reports_spec a matches page :
  MemoryFacts.mem_wf (a_memory a) ->
  matching_reports a matches page = paginateReports (entries matches (a_memory a)) page.
Proof.
  intros Hwf. unfold matching_reports, Memory.IterateUpheldReports.
  rewrite iterate_collects by (intros; by eapply wf_reports). done.
Qed.

Lemma matching_reports_window a matches o l :
  MemoryFacts.mem_wf (a_memory a) -> N.of_nat (size (a_memory a)) < two63 -> is_u64 o -> is_u64 l ->
  matching_reports a matches (Some (mkPageRequest o l)) = window o l (entries matches (a_memory a)).
Proof.
  intros Hwf Hn Ho Hl. rewrite matching_reports_spec by done. apply paginate_window; [done..|].
  pose proof (entries_length matches (a_memory a)). lia.
Qed.

(** C14: the report listings are exact: on every run, for every page, the listing
    of a contributor, of a moderator and of a leader answers the requested
    window of exactly the stored reports that name them (as the contributor,
    among the approving moderators, as the committing leader) in key order,
    with their total number.  An offset or limit of 2^63 or more, or a sum that
    overflows, panics. *)
Theorem report_listings_exact bank grants l who off lim :
  Forall app_msg_wf (all_msgs l) -> N.of_nat (length (all_msgs l)) < two64 ->
  let a := run_app l (new_app bank grants) in
  N.of_nat (size (a_memory a)) < two63 -> who <> "" -> is_u64 off -> is_u64 lim ->
  let req := Some (who, Some (mkPageRequest off lim)) in
  ReputationQuery_UpheldReportsByContributor a req =
    window off lim (entries (fun r => bool_decide (Memory.rp_ContributorPubkey r = who)) (a_memory a)) /\
  ReputationQuery_UpheldReportsByModerator a req =
    window off lim (entries (fun r => bool_decide (who ∈ Memory.rp_ApprovingModerators r)) (a_memory a)) /\
  ReputationQuery_UpheldReportsByLeader a req =
    window off lim (entries (fun r => bool_decide (Memory.rp_CommittingLeaderPubkey r = who)) (a_memory a)).
Proof.
  intros Hwf Hn a Hsz Hwho Ho Hl req.
  pose proof (MemoryFacts.inv_wf _ (ai_memory _ _ (new_app_run_inv bank grants l Hwf Hn))) as HM. fold a in HM.
  unfold req, ReputationQuery_UpheldReportsByContributor, ReputationQuery_UpheldReportsByModerator,
    ReputationQuery_UpheldReportsByLeader. cbn [require_req].
  rewrite bool_decide_false by done. cbn [err_if mbind result_bind].
  split_and!; etrans; try (by apply matching_reports_window); try done.
  f_equal. unfold entries. f_equal. apply List.filter_ext. intros r.
  apply eq_true_iff_eq. rewrite bool_decide_eq_true, existsb_exists.
  setoid_rewrite bool_decide_eq_true. setoid_rewrite <- list_elem_of_In. naive_solver.
Qed.

(** ** Batches *)

(** A batch answers every requested hash exactly once: with its memory, or as
    not found. *)
Lemma lookup_batch_partition m o hashes :
  MemoryFacts.mem_wf m ->
  let '(memories, notFound) := lookup_batch m o hashes in
  ((Memory.sm_ContentHash <$> memories) ++ notFound)%list ≡ₚ hashes /\
  Forall (fun c => m !! Memory.approvedKey o (Memory.sm_ContentHash c) = Some (Memory.VMemory c)) memories /\
  Forall (fun h => m !! Memory.approvedKey o h = None) notFound.
Proof.
  intros Hwf. induction hashes as [|h hashes IH]; cbn [lookup_batch]; [done|].
  destruct (lookup_batch m o hashes) as [memories notFound]. destruct IH as (HP & Hm & Hn).
  unfold Memory.GetApprovedMemory. destruct (m !! Memory.approvedKey o h) as [v|] eqn:E.
  - destruct (MemoryFacts.wf_approved _ _ _ _ Hwf E) as (c & -> & _ & Hh).
    cbn [Memory.decode_memory from_option_err mbind result_bind mret result_ret].
    assert (memory_answer (Memory.storedToMemory c) = c) as -> by by destruct c.
    cbn [fmap list_fmap]. rewrite Hh. split_and!; [|constructor; [by rewrite Hh|done]|done].
    cbn. by rewrite HP.
  - split_and!; [|done|by constructor]. rewrite <- Permutation_middle. by rewrite HP.
Qed.

(** ** Profiles *)

Lemma count_members_from members c :
  is_u64 c.1 -> is_u64 c.2 ->
  foldl (fun c m => ((c.1 + 1)%u64, if Org.m_CanModerate m then (c.2 + 1)%u64 else c.2)) c members =
  ((c.1 + N.of_nat (length members)) mod two64,
   (c.2 + N.of_nat (length (List.filter Org.m_CanModerate members))) mod two64).
Proof.
  revert c. induction members as [|m l IH]; intros [x y] Hx Hy; cbn [foldl length List.filter fst snd] in *.
  - rewrite !N.add_0_r. by rewrite !N.mod_small.
  - rewrite IH; cbn [fst snd].
    + destruct (Org.m_CanModerate m); unfold u64_add; cbn [length];
        rewrite ?N.Div0.add_mod_idemp_l; f_equal; f_equal; lia.
    + apply u64_add_is.
    + destruct (Org.m_CanModerate m); [apply u64_add_is|done].
Qed.

Lemma count_members_spec members :
  N.of_nat (length members) < two64 ->
  count_members members =
  (N.of_nat (length members), N.of_nat (length (List.filter Org.m_CanModerate members))).
Proof.
  intros H. unfold count_members. rewrite count_members_from by by vm_compute. cbn [fst snd].
  pose proof (List.filter_length_le Org.m_CanModerate members).
  rewrite !N.add_0_l, !N.mod_small by lia. done.
Qed.

(** Every entry under the prefix of an existing org is a member. *)
Lemma GetAllMembers_length m id o :
  org_inv m -> m !! orgKey id = Some (VOrg o) ->
  N.of_nat (length (GetAllMembers m id)) = member_count id m.
Proof.
  intros HO Ho. pose proof (inv_org_slash _ _ _ HO Ho) as Hf.
  unfold GetAllMembers, members_of, member_count. f_equal.
  assert (forall kv, kv ∈ prefix_iter (memberPrefix id) m -> exists x, kv.2 = VMember x) as Hall.
  { intros [k v] Hin. apply elem_of_prefix_iter in Hin as [Hv Hp]; [|apply memberPrefix_end].
    apply prefix_spec in Hp as [t ->]. cbn [snd].
    destruct (inv_member _ HO id t v Hf) as (x & _ & -> & _); [|eauto].
    rewrite <- Hv. f_equal. unfold memberKey, memberPrefix. by rewrite !str_app_assoc. }
  induction (prefix_iter _ _) as [|[k v] l IH]; [done|].
  destruct (Hall (k, v)) as [x Hx]; [by left|]. cbn in Hx |- *. subst v. cbn. f_equal.
  apply IH. intros; apply Hall. by right.
Qed.

(** The serve part of a profile. *)
Lemma serve_stats_total m o e :
  ServeFacts.serve_inv m -> exists x, if_ok (Serve.GetEpochServeStatsRaw m o e) = Ok x /\
    (default (0, 0, 0, ∅) x).1.1.1 = ServeFacts.receipts_total (ServeFacts.of_org o e) m mod two64.
Proof.
  intros HS. rewrite <- (ServeFacts.total_serves_exact m o e HS).
  unfold ServeFacts.total_serves, Serve.GetEpochServeStatsRaw. unfold Serve.GetEpochServeStats at 1.
  destruct (m !! Serve.statsKey o e) as [v|] eqn:E.
  - destruct (ServeFacts.inv_stats _ _ HS _ _ _ E) as (s & -> & _). eexists. split; [done|].
    unfold Serve.GetEpochServeStats. by rewrite E.
  - exists None. split; [done|]. unfold Serve.GetEpochServeStats. by rewrite E.
Qed.

(** The bandwidth part never panics. *)
Lemma bandwidth_part a id e :
  exists x, if_ok (in_bandwidth (Bandwidth.GetOrInitBandwidthStateRaw id e) a).1 = Ok x.
Proof.
  unfold in_bandwidth, in_store, Bandwidth.GetOrInitBandwidthStateRaw,
    Bandwidth.GetOrInitBandwidthState, Bandwidth.GetBandwidthState, Bandwidth.caps, Bandwidth.GetParams.
  mrun. cbn [kv]. repeat case_match; simplify_eq; cbn in *; simplify_eq; eauto.
Qed.

(** The number of members that may moderate. *)
Definition moderator_count (id : string) (m : gmap string org_val) : N :=
  N.of_nat (length (List.filter m_CanModerate (GetAllMembers m id))).

(** C15: the profile of an org counts what is stored: on every run the query
    answers for exactly the registered orgs, and its numbers are the number of
    member records (which is the org's own counter of active members), of those
    that may moderate, of the approved memories and, for an epoch, of the serve
    receipts, the last two modulo 2^64. *)
Theorem org_profile_exact bank grants l id e :
  Forall app_msg_wf (all_msgs l) -> N.of_nat (length (all_msgs l)) < two64 ->
  let a := run_app l (new_app bank grants) in
  match OrgQuery_GetOrgProfile a id e with
  | Ok p => exists o, a_org a !! orgKey id = Some (VOrg o) /\
      pr_OrgId p = id /\ pr_Leader p = so_Leader o /\
      pr_MemberCount p = member_count id (a_org a) /\
      pr_MemberCount p = so_TotalActiveMembers o /\
      pr_ModeratorCount p = moderator_count id (a_org a) /\
      pr_ApprovedMemoryCount p = MemoryFacts.approved_total id (a_memory a) mod two64 /\
      pr_TotalServes p =
        if e =? 0 then 0
        else ServeFacts.receipts_total (ServeFacts.of_org id e) (a_serve a) mod two64
  | Err x => a_org a !! orgKey id = None /\ (x = ErrOrgNotFound \/ x = ErrInvalidOrgID)
  end.
Proof.
  intros Hwf Hn a. pose proof (new_app_run_inv bank grants l Hwf Hn) as HA. fold a in HA.
  destruct HA as [HO _ HC HM HS _ _ _]. unfold OrgQuery_GetOrgProfile.
  destruct (a_org a !! orgKey id) as [v|] eqn:E.
  2: { unfold err_if. case_bool_decide; cbn; [by auto|]. unfold GetOrg. rewrite E. cbn. auto. }
  destruct (inv_org _ HO _ _ E) as (o & -> & Hid & Hslot & _).
  rewrite bool_decide_false by (intros H; rewrite H in Hslot; discriminate Hslot).
  cbn [err_if mbind result_bind].
  unfold GetOrg. rewrite E. cbn [unmarshalOrg mbind result_bind mret result_ret].
  rewrite (MemoryFacts.inv_count _ HM). cbn [if_ok].
  assert (exists x, (if 0 <? e then if_ok (Serve.GetEpochServeStatsRaw (a_serve a) id e)
      else mret None) = Ok x /\ (default (0, 0, 0, ∅) x).1.1.1 = (if e =? 0 then 0
      else ServeFacts.receipts_total (ServeFacts.of_org id e) (a_serve a) mod two64)) as (x & -> & Hx).
  { destruct (N.eqb_spec e 0) as [->|He]; [by exists None|].
    rewrite (proj2 (N.ltb_lt 0 e)) by lia. by apply serve_stats_total. }
  assert (exists y, (if 0 <? e then if_ok (in_bandwidth (Bandwidth.GetOrInitBandwidthStateRaw id e) a).1
      else mret None) = Ok y) as (y & ->).
  { destruct (0 <? e); [apply bandwidth_part|by exists None]. }
  unfold mbind, mret, result_bind, result_ret. rewrite <- Hx.
  destruct (default (0, 0, 0, ∅) x) as [[[t u] w] b], (default (0, 0, 0, 0) y) as [[[t' u'] w'] b'].
  pose proof (GetAllMembers_length _ _ _ HO E) as Hm. pose proof (HC id).
  rewrite count_members_spec by lia.
  exists o. split_and!; try done; cbn; rewrite Hm. symmetry. by apply (inv_count _ HO).
Qed.

(** ** Evidence *)

(** An approved record is backed by its contributor. *)
Definition backed (c : Memory.StoredMemoryCommitment) : Prop :=
  Memory.sm_OrgId c <> "" /\
  (exists pk, Memory.decode_pubkey (Memory.sm_ContributorPubkey c) = Some pk /\
     ed25519_Verify pk (Memory.buildSubmitMemoryCanonicalBody (Memory.sm_CiphertextHash c)
       (Memory.sm_ContributorPubkey c) (Memory.sm_Epoch c) (Memory.sm_MemoryType c)
       (Memory.sm_OrgId c) (Memory.sm_PlaintextHash c) (Memory.sm_Salt c)
       (Memory.sm_ContentHash c) (Memory.sm_WrappedDekHash c)) (Memory.sm_ContributorSig c) = true) /\
  Memory.sm_ContentHash c = sha256 (Memory.sm_EncryptedBlob c +:+ Memory.sm_WrappedDekEnc c) /\
  Memory.sm_CiphertextHash c = sha256 (Memory.sm_EncryptedBlob c) /\
  Memory.sm_WrappedDekHash c = sha256 (Memory.sm_WrappedDekEnc c).

Definition all_backed (m : gmap string Memory.mem_val) : Prop :=
  map_Forall (fun _ v => match v with Memory.VMemory c => backed c | _ => True end) m.

Lemma approve_backed msg (s : St Memory.mem_val app) u s' :
  MemoryFacts.mem_wf (kv s) -> all_backed (kv s) ->
  Memory.MsgServer_ApproveMemory msg s = (Ok u, s') -> all_backed (kv s').
Proof.
  intros Hwf HB H. apply MemoryProps.approve_msg_spec in H as
    (Ho & Hstep & _ & Hgone & Hpend & pk & c & Hc & Hpk & Hv & Hh & Hct & Hdek & _); [|done].
  unfold Memory.GetApprovedMemory in Hc.
  destruct Hstep as [x _ _ _|p x n Hp Ha (Hxo & Hxh & _) _ _|r _ _|p];
    [by apply map_Forall_insert_2| |by apply map_Forall_insert_2..].
  assert (Memory.pendingKey (Memory.sp_OrgId p) (Memory.sp_ContentHash p) =
          Memory.pendingKey (Memory.ma_OrgId msg) (Memory.ma_ContentHash msg)) as Hk.
  { destruct (decide (Memory.pendingKey (Memory.sp_OrgId p) (Memory.sp_ContentHash p) =
          Memory.pendingKey (Memory.ma_OrgId msg) (Memory.ma_ContentHash msg))); [done|].
    exfalso. rewrite lookup_insert_ne, lookup_delete_ne, lookup_insert_ne in Hgone by done.
    rewrite Hgone in Hpend. by destruct Hpend. }
  apply MemoryFacts.pendingKey_inj in Hk as [Hpo Hph]. rewrite Hpo, Hph in *.
  rewrite lookup_insert_ne, lookup_delete_ne, lookup_insert_eq in Hc by done. injection Hc as <-.
  apply map_Forall_insert_2; [done|]. apply map_Forall_delete, map_Forall_insert_2; [|done].
  unfold backed. rewrite Hxo, Hxh. eauto 10.
Qed.

Lemma memory_msg_backed ctx c (s : St Memory.mem_val app) u s' :
  (forall i k, c <> Memory.EpochEnd i k) -> MemoryFacts.mem_inv (kv s) -> all_backed (kv s) ->
  Memory.handle memory_keeper ctx c s = (Ok u, s') -> all_backed (kv s').
Proof.
  intros Hc HI HB H. destruct c; cbn [Memory.handle] in H.
  - unfold Memory.MsgServer_SubmitCommitment, Memory.requireLeaderWallet in H. mok H.
    match goal with H : Memory.SubmitCommitment _ _ = _ |- _ =>
      apply MemoryFacts.SubmitCommitment_step in H as (_ & _ & -> & _) end.
    by apply map_Forall_insert_2.
  - by eapply approve_backed; [apply HI|..].
  - unfold Memory.MsgServer_ReportMemory, Memory.requireLeaderWallet in H. mok H.
    apply MemoryFacts.ReportMemory_step in H as (_ & r & ->). by apply map_Forall_insert_2.
  - unfold Memory.MsgServer_UpdateParams, Memory.SetParams in H. mok H. by apply map_Forall_insert_2.
  - by destruct (Hc identifier number).
Qed.

Lemma epoch_backed e m m' : MemoryFacts.epoch_step e m m' -> all_backed m -> all_backed m'.
Proof.
  intros H HB. destruct H as [|c v Hc|o cid|r _];
    [by apply map_Forall_insert_2| |by apply map_Forall_delete|by apply map_Forall_insert_2].
  apply map_Forall_insert_2; [|done]. exact (HB _ _ Hc).
Qed.

(** *** Along runs of the application *)
Lemma route_other_memory ctx m a u a' :
  memory_call m = None -> route ctx m a = (Ok u, a') -> a_memory a' = a_memory a.
Proof.
  intros Hm H. unfold route in H. rewrite Hm in H.
  destruct (reputation_call m) as [c|] eqn:Er.
  { unfold in_reputation in H. destruct (Reputation.handle _ _ _). by simplify_eq. }
  destruct m; try done; mok H; [|apply in_store_run in H as (s' & H%serve_frame & ->); by destruct H|..].
  { unfold in_org in H. destruct (Org.handle _ _ _ _). by simplify_eq. }
  all: match goal with Hr : _ = (Ok _, ?s) |- a_memory ?s = _ =>
    eapply AppRewards.bank_only in Hr as [? _]; [done|bank_frame|done] end.
Qed.

Lemma tx_backed ctx msgs n a u a' :
  Forall app_msg_wf msgs -> n + N.of_nat (length msgs) < two64 -> app_inv n a ->
  all_backed (a_memory a) -> for_each msgs (route ctx) a = (Ok u, a') -> all_backed (a_memory a').
Proof.
  revert n a. induction msgs as [|m msgs IH]; intros n a Hwf Hn HA HB H; cbn [for_each length] in *; [by mok H|].
  apply M_bind_ok in H as (u1 & a1 & H1 & H). apply Forall_cons in Hwf as [Hm Hwf].
  eapply (IH (n + 1)); [done|lia| | |exact H].
  - eapply route_inv; [done|lia|exact HA|exact H1].
  - destruct (memory_call m) as [c|] eqn:Ec; [|by rewrite (route_other_memory _ _ _ _ _ Ec H1)].
    unfold route in H1. rewrite Ec in H1. apply in_store_run in H1 as (s' & H1 & ->). cbn.
    eapply memory_msg_backed; [| | |exact H1]; [by destruct m; simplify_eq/=|apply HA|exact HB].
Qed.

Lemma exec_backed x n a r a' :
  Forall app_msg_wf (step_msgs x) -> n + N.of_nat (length (step_msgs x)) < two64 -> app_inv n a ->
  all_backed (a_memory a) -> exec x a = (r, a') -> all_backed (a_memory a').
Proof.
  intros Hwf Hn HA HB H. destruct x as [ctx msgs|i k]; cbn [exec step_msgs] in *.
  - destruct r as [u|e]; [|by apply deliver_err in H as ->].
    apply deliver_ok in H. by eapply tx_backed.
  - apply hooks_run in H as (r1 & a1 & r2 & H1 & H2 & _).
    pose proof (emissions_hook_inv _ _ _ _ _ _ HA H1) as HA1.
    eapply AppRewards.bank_only in H1 as [Hm _]; [|apply emissions_hook_frame|done].
    apply memory_hook_steps with (n := n) in H2 as (_ & _ & Hs & _); [|done]. rewrite Hm in Hs.
    clear -HB Hs. induction Hs; eauto using epoch_backed.
Qed.

Lemma run_backed l n a :
  Forall app_msg_wf (all_msgs l) -> n + N.of_nat (length (all_msgs l)) < two64 -> app_inv n a ->
  all_backed (a_memory a) -> all_backed (a_memory (run_app l a)).
Proof.
  revert n a. induction l as [|x l IH]; intros n a Hwf Hn HA HB; [done|].
  unfold all_msgs in *. cbn [fmap list_fmap concat] in *. rewrite length_app in *.
  apply Forall_app in Hwf as [Hx Hwf].
  change (run_app (x :: l) a) with (run_app l (exec x a).2).
  destruct (exec x a) as [r a'] eqn:E. cbn [snd].
  eapply (IH (n + N.of_nat (length (step_msgs x)))); [done|lia| |].
  - eapply exec_inv; [done|lia|done|exact E].
  - eapply exec_backed; [exact Hx| |exact HA|exact HB|exact E]. lia.
Qed.

Lemma new_app_backed (bank : B) (grants : F) : all_backed (a_memory (new_app bank grants)).
Proof.
  change (all_backed MemoryProps.new_store). by apply map_Forall_singleton.
Qed.

Lemma len_nonzero x : x <> "" -> (len x =? 0) = false.
Proof. intros Hx. apply N.eqb_neq. unfold len. destruct x; [done|]. cbn. lia. Qed.
Lemma len_zero x : (len x =? 0) = bool_decide (x = "").
Proof. case_bool_decide as E; [by subst|by apply len_nonzero]. Qed.

(** The stored report the answer quotes, if any. *)
Definition quotes (resp : VerifyUpheldReportResponse) (r : Memory.StoredMemoryReport) : Prop :=
  vr_Plaintext resp = Memory.rp_Plaintext r /\ vr_Ciphertext resp = Memory.rp_Ciphertext r /\
  vr_ApprovingModerators resp = Memory.rp_ApprovingModerators r /\
  vr_UpholdingModerators resp = Memory.rp_UpholdingModerators r /\
  vr_UpheldAtEpoch resp = Memory.rp_UpheldAtEpoch r.

(** C13: the evidence answered for a report verifies: on every run, for every
    approved memory, the query answers unless the approval left plaintext hash
    or salt empty, which the message server accepts; and the answer carries a
    body naming the memory over which the answered signature verifies under
    the contributor's key, a blob and a wrapped key that hash to the content,
    ciphertext and key hashes, and the text of an upheld report of this memory
    if there is one.  For any other memory the query answers NotFound. *)
Theorem verified_report_is_backed {LAWS : CryptoLaws} (bank : B) (grants : F) l o h :
  Forall app_msg_wf (all_msgs l) -> N.of_nat (length (all_msgs l)) < two64 ->
  let a := run_app l (new_app bank grants) in
  o <> "" -> h <> "" ->
  match Memory.GetApprovedMemory (a_memory a) o h with
  | Err _ => ReputationQuery_VerifyUpheldReport a (Some (o, h)) =
               Err (status_Error "NotFound" "approved memory not found")
  | Ok c =>
      if bool_decide (Memory.mc_PlaintextHash c = "") || bool_decide (Memory.mc_Salt c = "")
      then ReputationQuery_VerifyUpheldReport a (Some (o, h)) =
             Err (Internal "approved memory missing verification fields")
      else exists resp pk, ReputationQuery_VerifyUpheldReport a (Some (o, h)) = Ok resp /\
        vr_OrgId resp = o /\ vr_ContentHash resp = h /\
        vr_ContributorPubkey resp = Memory.mc_Contributor c /\
        Memory.decode_pubkey (vr_ContributorPubkey resp) = Some pk /\
        ed25519_Verify pk (vr_CanonicalBody resp) (vr_ContributorSig resp) = true /\
        vr_CanonicalBody resp = Memory.buildSubmitMemoryCanonicalBody (vr_CiphertextHash resp)
          (vr_ContributorPubkey resp) (vr_Epoch resp) (Memory.mc_MemoryType c) o
          (vr_PlaintextHash resp) (vr_Salt resp) h (vr_WrappedDekHash resp) /\
        h = sha256 (vr_EncryptedBlob resp +:+ vr_WrappedDekEnc resp) /\
        vr_CiphertextHash resp = sha256 (vr_EncryptedBlob resp) /\
        vr_WrappedDekHash resp = sha256 (vr_WrappedDekEnc resp) /\
        match Memory.GetUpheldReport (a_memory a) o h with
        | Some r => quotes resp r
        | None => vr_Plaintext resp = "" /\ vr_UpheldAtEpoch resp = 0
        end
  end.
Proof.
  intros Hwf Hn a Ho Hh. pose proof (new_app_run_inv bank grants l Hwf Hn) as HA. fold a in HA.
  assert (all_backed (a_memory a)) as HB.
  { apply (run_backed l 0); [done|lia|apply new_app_inv|apply new_app_backed]. }
  pose proof (MemoryFacts.inv_wf _ (ai_memory _ _ HA)) as HM.
  unfold ReputationQuery_VerifyUpheldReport. cbn [require_req].
  rewrite bool_decide_false by done. rewrite (len_nonzero h) by done.
  cbn [err_if mbind result_bind]. unfold Memory.GetApprovedMemory.
  destruct (a_memory a !! Memory.approvedKey o h) as [v|] eqn:E; [|done].
  destruct (MemoryFacts.wf_approved _ _ _ _ HM E) as (x & -> & Hxo & Hxh).
  destruct (HB _ _ E) as (_ & (pk & Hpk & Hv) & Hch & Hct & Hdk).
  cbn [Memory.decode_memory from_option_err mbind result_bind mret result_ret].
  set (c := Memory.storedToMemory x).
  assert ((len (Memory.mc_CiphertextHash c) =? 0) = false) as ->.
  { change (Memory.mc_CiphertextHash c) with (Memory.sm_CiphertextHash x). by rewrite Hct, sha256_size. }
  assert ((len (Memory.mc_ContributorSig c) =? 0) = false) as ->.
  { change (Memory.mc_ContributorSig c) with (Memory.sm_ContributorSig x). by rewrite (verify_size _ _ _ Hv). }
  assert (bytesEqual (Memory.mc_WrappedDekHash c) (sha256 (Memory.mc_WrappedDekEnc c)) = true) as ->
    by by apply bytesEqual_spec.
  assert (bytesEqual (Memory.mc_ContentHash c)
    (sha256 (Memory.mc_EncryptedBlob c +:+ Memory.mc_WrappedDekEnc c)) = true) as ->
    by by apply bytesEqual_spec.
  rewrite !len_zero, !orb_false_r, andb_false_r.
  destruct (_ || _); [done|]. cbn [negb err_if mbind result_bind mret result_ret].
  eexists _, pk. split; [reflexivity|]. cbn -[sha256 Memory.GetUpheldReport].
  rewrite Hdk, Hxo, Hxh in Hv. rewrite <- Hch, Hxo, Hxh.
  split_and!; try done; destruct (Memory.GetUpheldReport _ _ _); done.
Qed.
End QueriesProps.
