(* ===== verification/QueriesDemo.v ===== *)
(** * Queries at an execution

    The execution of the application with an upheld report added, and what the
    query servers answer about it. *)

From S2P Require Import Prelude Bytes Store Wire Ifaces App AppFacts AppProps AppDemo.
From S2P Require Import Queries QueriesProps.
From S2P Require Org OrgFacts Emissions Identity Bandwidth Attestation Memory Serve Reputation.
Local Open Scope string_scope.
Local Open Scope N_scope.

Module QueriesDemo.
Import Simple AppDemo.

Definition report : app_msg := ReportMemory
  (Memory.mkMsgReportMemory "wallet" org0 hash lead ["mod"; "mod"] ["mod2"] "reporter" "spam"
     "text" "cipher" "capsule" "ph" false).
Definition reported : list block_step := (history ++ [Tx ctx [report]])%list.
Local Notation state := (run_app reported (new_app bank0 grants0)).

Lemma reported_wf : Forall app_msg_wf (all_msgs reported).
Proof. repeat constructor. Qed.

Definition first_page (who : string) : option (string * option PageRequest) :=
  Some (who, Some (mkPageRequest 0 0)).
Definition count_of (r : result (list UpheldReportEntry * N)) : option (nat * N) :=
  match r with Ok (l, n) => Some (length l, n) | Err _ => None end.

(** One entry per report, although the moderator is listed twice.  The report
    is stored under the wallet that signed it: the listing by the leader's
    public key is empty. *)
Example listings_run :
  count_of (ReputationQuery_UpheldReportsByContributor state (first_page lead)) = Some (1%nat, 1) /\
  count_of (ReputationQuery_UpheldReportsByModerator state (first_page "mod")) = Some (1%nat, 1) /\
  count_of (ReputationQuery_UpheldReportsByLeader state (first_page lead)) = Some (0%nat, 0) /\
  count_of (ReputationQuery_UpheldReportsByLeader state (first_page "wallet")) = Some (1%nat, 1).
Proof. vm_compute. done. Qed.

(** An offset of 2^63 panics. *)
Example listing_panics :
  ReputationQuery_UpheldReportsByContributor state (Some (lead, Some (mkPageRequest two63 0))) =
  Err (Panic "slice bounds out of range").
Proof. vm_compute. done. Qed.

Lemma state_small : N.of_nat (size (a_memory state)) < two63.
Proof. vm_compute. reflexivity. Qed.

Lemma report_listings_exact_witness :
  ReputationQuery_UpheldReportsByContributor state (Some (lead, Some (mkPageRequest 0 10))) =
  window 0 10 (entries (fun r => bool_decide (Memory.rp_ContributorPubkey r = lead)) (a_memory state)).
Proof.
  pose proof (report_listings_exact bank0 grants0 reported lead 0 10 reported_wf eq_refl state_small) as H.
  destruct (H ltac:(discriminate) eq_refl eq_refl) as (Hc & _). exact Hc.
Defined.

(** ** The profile *)
Example profile_runs :
  match OrgQuery_GetOrgProfile state org0 1 with
  | Ok p => Some (pr_MemberCount p, pr_ModeratorCount p, pr_ApprovedMemoryCount p, pr_TotalServes p,
                  pr_ServeBandwidthUsed p, pr_ServeBandwidthCap p)
  | Err _ => None
  end = Some (1, 0, 1, 1, 1, 50000).
Proof. vm_compute. done. Qed.

Lemma org_profile_exact_witness :
  match OrgQuery_GetOrgProfile state org0 1 with
  | Ok p => pr_MemberCount p = OrgFacts.member_count org0 (a_org state)
  | Err _ => True
  end.
Proof.
  pose proof (org_profile_exact bank0 grants0 reported org0 1 reported_wf eq_refl) as H. cbv zeta in H.
  destruct (OrgQuery_GetOrgProfile state org0 1) as [p|e]; [|exact I].
  destruct H as (o & _ & _ & _ & Hm & _). exact Hm.
Defined.

(** ** The evidence *)
#[export] Instance crypto32_laws : CryptoLaws (CRYPTO := crypto32).
Proof.
  split.
  - intros x. cbn [sha256 crypto32].
    enough (forall n y, (n <= String.length y)%nat -> String.length (String.substring 0 n y) = n) as H.
    { unfold len. rewrite H; [done|]. rewrite str_length_app. cbn. lia. }
    induction n as [|n IH]; intros [|c y] Hy; cbn in *; try done; [lia|]. f_equal. apply IH. lia.
  - intros pk msg sig. cbn [ed25519_Verify crypto32]. rewrite bool_decide_eq_true. by intros ->.
Qed.

Lemma evidence_memory :
  match Memory.GetApprovedMemory (a_memory state) org0 hash with
  | Ok c => bool_decide (Memory.mc_PlaintextHash c = "") || bool_decide (Memory.mc_Salt c = "") = false
  | Err _ => False
  end.
Proof. vm_compute. reflexivity. Qed.

Lemma verified_report_is_backed_witness :
  exists resp pk, ReputationQuery_VerifyUpheldReport state (Some (org0, hash)) = Ok resp /\
    ed25519_Verify pk (vr_CanonicalBody resp) (vr_ContributorSig resp) = true.
Proof.
  pose proof (verified_report_is_backed bank0 grants0 reported org0 hash reported_wf eq_refl) as H.
  specialize (H ltac:(discriminate) ltac:(discriminate)). pose proof evidence_memory as E.
  destruct (Memory.GetApprovedMemory (a_memory state) org0 hash) as [c|]; [|destruct E].
  rewrite E in H. destruct H as (resp & pk & Hq & _ & _ & _ & _ & Hv & _).
  exact (ex_intro _ resp (ex_intro _ pk (conj Hq Hv))).
Defined.

(** An approval without plaintext hash is accepted and cannot be verified. *)
Definition bare_approval : Memory.MsgApproveMemory :=
  Memory.mkMsgApproveMemory "wallet" org0 hash blob lead "dek" 1 "" "salt" (sha256 blob) sig64 1.
Local Notation bare := (run_app (submitted ++ [Tx ctx [ApproveMemory bare_approval]])%list
                          (new_app bank0 grants0)).
Example bare_approval_unverifiable :
  Memory.GetApprovedCount (a_memory bare) org0 = Ok 1 /\
  ReputationQuery_VerifyUpheldReport bare (Some (org0, hash)) =
    Err (Internal "approved memory missing verification fields").
Proof. vm_compute. done. Qed.
End QueriesDemo.
