(* ===== verification/Gateway.v ===== *)
(** * The REST gateway

    The query.pb.gw.go files translate HTTP requests into calls of the query
    servers (Queries.v): a [request_Query_X_0] per query reads the variables of
    the URL path, for some queries also the query string, builds the request
    message and calls the query client; [local_request_Query_X_0] calls the
    query server instead; [RegisterQueryHandlerClient] and
    [RegisterQueryHandlerServer] put them on a mux under their path patterns.

    The runtime of the gateway (github.com/grpc-ecosystem/grpc-gateway) is not
    part of the repository: the class [Runtime] stands for its conversions, its
    form parsing and its pattern matching, and [RuntimeLaws] for what its
    documentation says of them.

    A request message without query parameters is the tuple of its fields, in
    the order in which the request function sets them; the client and the server
    of a query are functions of the request message. *)

From S2P Require Import Prelude Bytes Store Wire Ifaces App Queries.
From S2P Require Org Emissions Identity Bandwidth Attestation Memory Serve Reputation.
From Stdlib Require Import Ascii.
Local Open Scope string_scope.
Local Open Scope N_scope.

(** ** Path patterns

    [runtime.NewPattern(version, ops, pool, verb)]: the operations are pairs of
    an opcode and an operand. *)
Record Pattern := NewPattern {
  pt_version : N; pt_ops : list N; pt_pool : list string; pt_verb : string;
}.

(** ** Patterns *)

(** *** x/identity/types/query.pb.gw.go *)
Definition pattern_Identity_ResolveIdentity : Pattern :=
  NewPattern 1 [2; 0; 2; 1; 2; 2; 2; 3; 1; 0; 4; 1; 5; 4]
    ["wevibe"; "identity"; "v1"; "resolve"; "passkey_pubkey"] "".

(** *** x/org/types/query.pb.gw.go *)
Definition pattern_Org_GetOrg : Pattern :=
  NewPattern 1 [2; 0; 2; 1; 2; 2; 2; 1; 1; 0; 4; 1; 5; 3]
    ["wevibe"; "org"; "v1"; "org_id"] "".
Definition pattern_Org_GetMembers : Pattern :=
  NewPattern 1 [2; 0; 2; 1; 2; 2; 2; 3; 1; 0; 4; 1; 5; 4]
    ["wevibe"; "org"; "v1"; "members"; "org_id"] "".
Definition pattern_Org_IsMember : Pattern :=
  NewPattern 1 [2; 0; 2; 1; 2; 2; 2; 3; 1; 0; 4; 1; 5; 4; 1; 0; 4; 1; 5; 5]
    ["wevibe"; "org"; "v1"; "is_member"; "org_id"; "pubkey"] "".
Definition pattern_Org_Params : Pattern :=
  NewPattern 1 [2; 0; 2; 1; 2; 2; 2; 3]
    ["wevibe"; "org"; "v1"; "params"] "".
Definition pattern_Org_GetOrgConfig : Pattern :=
  NewPattern 1 [2; 0; 2; 1; 2; 2; 2; 3; 1; 0; 4; 1; 5; 4]
    ["wevibe"; "org"; "v1"; "config"; "org_id"] "".
Definition pattern_Org_GetOrgProfile : Pattern :=
  NewPattern 1 [2; 0; 2; 1; 2; 2; 2; 3; 1; 0; 4; 1; 5; 4]
    ["wevibe"; "org"; "v1"; "profile"; "org_id"] "".
Definition pattern_Org_GetOrgAccount : Pattern :=
  NewPattern 1 [2; 0; 2; 1; 2; 2; 2; 3; 1; 0; 4; 1; 5; 4]
    ["wevibe"; "org"; "v1"; "account"; "org_id"] "".

(** *** x/serve/types/query.pb.gw.go *)
Definition pattern_Serve_GetEpochServeStats : Pattern :=
  NewPattern 1 [2; 0; 2; 1; 2; 2; 2; 3; 1; 0; 4; 1; 5; 4; 1; 0; 4; 1; 5; 5]
    ["wevibe"; "serve"; "v1"; "stats"; "org_id"; "epoch"] "".
Definition pattern_Serve_GetContributorServes : Pattern :=
  NewPattern 1 [2; 0; 2; 1; 2; 2; 2; 3; 1; 0; 4; 1; 5; 4; 1; 0; 4; 1; 5; 5]
    ["wevibe"; "serve"; "v1"; "contributor"; "contributor_id"; "epoch"] "".
Definition pattern_Serve_GetMemoryServeCount : Pattern :=
  NewPattern 1 [2; 0; 2; 1; 2; 2; 2; 3; 1; 0; 4; 1; 5; 4; 1; 0; 4; 1; 5; 5; 1; 0; 4; 1; 5; 6]
    ["wevibe"; "serve"; "v1"; "memory"; "org_id"; "content_hash"; "epoch"] "".
Definition pattern_Serve_ListEvents : Pattern :=
  NewPattern 1 [2; 0; 2; 1; 2; 2; 2; 3; 1; 0; 4; 1; 5; 4; 1; 0; 4; 1; 5; 5]
    ["wevibe"; "serve"; "v1"; "events"; "org_id"; "epoch"] "".
Definition pattern_Serve_GetPolicyAnchor : Pattern :=
  NewPattern 1 [2; 0; 2; 1; 2; 2; 2; 3; 1; 0; 4; 1; 5; 4]
    ["wevibe"; "serve"; "v1"; "policy_anchor"; "policy_version"] "".
Definition pattern_Serve_GetLatestPolicyAnchor : Pattern :=
  NewPattern 1 [2; 0; 2; 1; 2; 2; 2; 3]
    ["wevibe"; "serve"; "v1"; "policy_anchor_latest"] "".
Definition pattern_Serve_Params : Pattern :=
  NewPattern 1 [2; 0; 2; 1; 2; 2; 2; 3]
    ["wevibe"; "serve"; "v1"; "params"] "".

(** *** x/reputation/types/query.pb.gw.go *)
Definition pattern_Reputation_GetReputation : Pattern :=
  NewPattern 1 [2; 0; 2; 1; 2; 2; 2; 1; 1; 0; 4; 1; 5; 3]
    ["wevibe"; "reputation"; "v1"; "developer"] "".
Definition pattern_Reputation_GetXP : Pattern :=
  NewPattern 1 [2; 0; 2; 1; 2; 2; 2; 3; 1; 0; 4; 1; 5; 4]
    ["wevibe"; "reputation"; "v1"; "xp"; "developer"] "".
Definition pattern_Reputation_IsActive : Pattern :=
  NewPattern 1 [2; 0; 2; 1; 2; 2; 2; 3]
    ["wevibe"; "reputation"; "v1"; "active"] "".
Definition pattern_Reputation_Params : Pattern :=
  NewPattern 1 [2; 0; 2; 1; 2; 2; 2; 3]
    ["wevibe"; "reputation"; "v1"; "params"] "".
Definition pattern_Reputation_GetServeStats : Pattern :=
  NewPattern 1 [2; 0; 2; 1; 2; 2; 2; 3; 1; 0; 4; 1; 5; 4]
    ["wevibe"; "reputation"; "v1"; "serve_stats"; "developer"] "".
Definition pattern_Reputation_GetContributorOrgSet : Pattern :=
  NewPattern 1 [2; 0; 2; 1; 2; 2; 2; 3; 1; 0; 4; 1; 5; 4]
    ["wevibe"; "reputation"; "v1"; "org_set"; "developer"] "".
Definition pattern_Reputation_GetCrossOrgProfile : Pattern :=
  NewPattern 1 [2; 0; 2; 1; 2; 2; 2; 3; 1; 0; 4; 1; 5; 4]
    ["wevibe"; "reputation"; "v1"; "profile"; "developer"] "".
Definition pattern_Reputation_GetContributorProfile : Pattern :=
  NewPattern 1 [2; 0; 2; 1; 2; 2; 2; 3; 1; 0; 4; 1; 5; 4]
    ["wevibe"; "reputation"; "v1"; "contributor"; "contributor_id"] "".
Definition pattern_Reputation_ModeratorProfile : Pattern :=
  NewPattern 1 [2; 0; 2; 1; 2; 2; 2; 3; 1; 0; 4; 1; 5; 4]
    ["wevibe"; "reputation"; "v1"; "moderator"; "moderator_pubkey"] "".
Definition pattern_Reputation_LeaderProfile : Pattern :=
  NewPattern 1 [2; 0; 2; 1; 2; 2; 2; 3; 1; 0; 4; 1; 5; 4]
    ["wevibe"; "reputation"; "v1"; "leader"; "leader_pubkey"] "".
Definition pattern_Reputation_UpheldReportsByContributor : Pattern :=
  NewPattern 1 [2; 0; 2; 1; 2; 2; 2; 3; 2; 4; 1; 0; 4; 1; 5; 5]
    ["wevibe"; "reputation"; "v1"; "upheld_reports"; "contributor"; "contributor_id"] "".
Definition pattern_Reputation_UpheldReportsByModerator : Pattern :=
  NewPattern 1 [2; 0; 2; 1; 2; 2; 2; 3; 2; 4; 1; 0; 4; 1; 5; 5]
    ["wevibe"; "reputation"; "v1"; "upheld_reports"; "moderator"; "moderator_pubkey"] "".
Definition pattern_Reputation_UpheldReportsByLeader : Pattern :=
  NewPattern 1 [2; 0; 2; 1; 2; 2; 2; 3; 2; 4; 1; 0; 4; 1; 5; 5]
    ["wevibe"; "reputation"; "v1"; "upheld_reports"; "leader"; "leader_pubkey"] "".
Definition pattern_Reputation_VerifyUpheldReport : Pattern :=
  NewPattern 1 [2; 0; 2; 1; 2; 2; 2; 3; 1; 0; 4; 1; 5; 4; 1; 0; 4; 1; 5; 5]
    ["wevibe"; "reputation"; "v1"; "verify_upheld_report"; "org_id"; "content_hash"] "".

(** *** x/emissions/types/query.pb.gw.go *)
Definition pattern_Emissions_GetEmissionPool : Pattern :=
  NewPattern 1 [2; 0; 2; 1; 2; 2; 2; 3]
    ["wevibe"; "emissions"; "v1"; "pool"] "".
Definition pattern_Emissions_Params : Pattern :=
  NewPattern 1 [2; 0; 2; 1; 2; 2; 2; 3]
    ["wevibe"; "emissions"; "v1"; "params"] "".
Definition pattern_Emissions_ContributorReward : Pattern :=
  NewPattern 1 [2; 0; 2; 1; 2; 2; 2; 3; 1; 0; 4; 1; 5; 4]
    ["wevibe"; "emissions"; "v1"; "contributor-reward"; "pubkey"] "".

(** *** x/memory/types/query.pb.gw.go *)
Definition pattern_Memory_GetMemory : Pattern :=
  NewPattern 1 [2; 0; 2; 1; 2; 2; 2; 1; 1; 0; 4; 1; 5; 3; 1; 0; 4; 1; 5; 4]
    ["wevibe"; "memory"; "v1"; "org_id"; "content_hash"] "".
Definition pattern_Memory_GetPendingCommitments : Pattern :=
  NewPattern 1 [2; 0; 2; 1; 2; 2; 2; 3; 1; 0; 4; 1; 5; 4]
    ["wevibe"; "memory"; "v1"; "pending"; "org_id"] "".
Definition pattern_Memory_GetMemoryCount : Pattern :=
  NewPattern 1 [2; 0; 2; 1; 2; 2; 2; 3; 1; 0; 4; 1; 5; 4]
    ["wevibe"; "memory"; "v1"; "count"; "org_id"] "".
Definition pattern_Memory_GetEpochMerkleRoot : Pattern :=
  NewPattern 1 [2; 0; 2; 1; 2; 2; 2; 3; 1; 0; 4; 1; 5; 4; 1; 0; 4; 1; 5; 5]
    ["wevibe"; "memory"; "v1"; "merkle_root"; "org_id"; "epoch"] "".
Definition pattern_Memory_Params : Pattern :=
  NewPattern 1 [2; 0; 2; 1; 2; 2; 2; 3]
    ["wevibe"; "memory"; "v1"; "params"] "".
Definition pattern_Memory_ListRelationships : Pattern :=
  NewPattern 1 [2; 0; 2; 1; 2; 2; 2; 3; 1; 0; 4; 1; 5; 4; 1; 0; 4; 1; 5; 5]
    ["wevibe"; "memory"; "v1"; "relationships"; "org_id"; "cid"] "".
Definition pattern_Memory_GetValidity : Pattern :=
  NewPattern 1 [2; 0; 2; 1; 2; 2; 2; 3; 1; 0; 4; 1; 5; 4; 1; 0; 4; 1; 5; 5]
    ["wevibe"; "memory"; "v1"; "validity"; "org_id"; "cid"] "".
Definition pattern_Memory_GetMemoriesBatch : Pattern :=
  NewPattern 1 [2; 0; 2; 1; 2; 2; 2; 3; 1; 0; 4; 1; 5; 4]
    ["wevibe"; "memory"; "v1"; "memories_batch"; "org_id"] "".

(** *** x/bandwidth/types/query.pb.gw.go *)
Definition pattern_Bandwidth_GetBandwidthState : Pattern :=
  NewPattern 1 [2; 0; 2; 1; 2; 2; 2; 3; 1; 0; 4; 1; 5; 4; 1; 0; 4; 1; 5; 5]
    ["wevibe"; "bandwidth"; "v1"; "state"; "org_id"; "epoch"] "".
Definition pattern_Bandwidth_GetBandwidthOverride : Pattern :=
  NewPattern 1 [2; 0; 2; 1; 2; 2; 2; 3; 1; 0; 4; 1; 5; 4]
    ["wevibe"; "bandwidth"; "v1"; "override"; "org_id"] "".
Definition pattern_Bandwidth_GetRemainingBandwidth : Pattern :=
  NewPattern 1 [2; 0; 2; 1; 2; 2; 2; 3; 1; 0; 4; 1; 5; 4; 1; 0; 4; 1; 5; 5]
    ["wevibe"; "bandwidth"; "v1"; "remaining"; "org_id"; "epoch"] "".
Definition pattern_Bandwidth_Params : Pattern :=
  NewPattern 1 [2; 0; 2; 1; 2; 2; 2; 3]
    ["wevibe"; "bandwidth"; "v1"; "params"] "".

(** *** x/attestation/types/query.pb.gw.go *)
Definition pattern_Attestation_GetSessionAttestation : Pattern :=
  NewPattern 1 [2; 0; 2; 1; 2; 2; 2; 3; 1; 0; 4; 1; 5; 4; 1; 0; 4; 1; 5; 5]
    ["wevibe"; "attestation"; "v1"; "session"; "org_id"; "session_hash"] "".
Definition pattern_Attestation_ListSessionAttestations : Pattern :=
  NewPattern 1 [2; 0; 2; 1; 2; 2; 2; 3; 1; 0; 4; 1; 5; 4; 1; 0; 4; 1; 5; 5]
    ["wevibe"; "attestation"; "v1"; "sessions"; "org_id"; "epoch"] "".
Definition pattern_Attestation_Params : Pattern :=
  NewPattern 1 [2; 0; 2; 1; 2; 2; 2; 3]
    ["wevibe"; "attestation"; "v1"; "params"] "".

(** ** The request messages that take query parameters (types/query.pb.go) *)
Record Org_QueryGetOrgProfileRequest := mkOrg_QueryGetOrgProfileRequest {
  gop_OrgId : string; gop_Epoch : N;
}.
Record Reputation_QueryGetContributorProfileRequest := mkReputation_QueryGetContributorProfileRequest {
  gcp_ContributorId : string; gcp_Epoch : N;
}.
Record Reputation_QueryModeratorProfileRequest := mkReputation_QueryModeratorProfileRequest {
  gmp_ModeratorPubkey : string; gmp_OrgId : string;
}.
Record Reputation_QueryLeaderProfileRequest := mkReputation_QueryLeaderProfileRequest {
  glp_LeaderPubkey : string; glp_OrgId : string;
}.
Record Reputation_QueryUpheldReportsByContributorRequest := mkReputation_QueryUpheldReportsByContributorRequest {
  urc_ContributorId : string; urc_Pagination : option PageRequest;
}.
Record Reputation_QueryUpheldReportsByModeratorRequest := mkReputation_QueryUpheldReportsByModeratorRequest {
  urm_ModeratorPubkey : string; urm_Pagination : option PageRequest;
}.
Record Reputation_QueryUpheldReportsByLeaderRequest := mkReputation_QueryUpheldReportsByLeaderRequest {
  url_LeaderPubkey : string; url_Pagination : option PageRequest;
}.
Record Memory_QueryGetMemoriesBatchRequest := mkMemory_QueryGetMemoriesBatchRequest {
  gmb_OrgId : string; gmb_ContentHashes : list string;
}.

(** ** The runtime *)
Class Runtime := {
  (** an [*http.Request] and its form values *)
  Request : Type;
  Form : Type;
  ParseForm : Request -> result Form;
  runtime_String : string -> result string;
  runtime_Uint64 : string -> result N;
  runtime_Bytes : string -> result string;
  (** [Pattern.Match]: the variables bound by the components of a path *)
  Pattern_Match : Pattern -> list string -> option (gmap string string);
}.

(** [runtime.PopulateQueryParameters(&msg, form, filter)] for one message type. *)
Class QueryParameters `{Runtime} (R : Type) := {
  PopulateQueryParameters : R -> Form -> list string -> result R;
}.

Section Gateway.
Context {RT : Runtime} {B F : Type} {ADDR : Addresses} {BANK : BankKeeper B} {CRYPTO : Crypto}
  {JSON : Memory.JsonTags} {MARSHAL : JsonMarshal}
  (tag_order : gmap string N -> list (string * N)).
Notation app := (App B F).

(** [val, ok = pathParams[name]], then the conversion of [val]. *)
Definition path_param {A} (name : string) (convert : string -> result A)
    (pathParams : gmap string string) : result A :=
  match pathParams !! name with
  | None => Err (InvalidArgument ("missing parameter " +:+ name))
  | Some val =>
      match convert val with
      | Ok x => Ok x
      | Err e => Err (InvalidArgument ("type mismatch, parameter: " +:+ name))
      end
  end.

(** [req.ParseForm()], then [PopulateQueryParameters] into the message. *)
Definition form_fields {Msg} `{!QueryParameters Msg} (protoReq : Msg) (req : Request)
    (filter : list string) : result Msg :=
  form ← match ParseForm req with
         | Ok f => Ok f
         | Err _ => Err (InvalidArgument "parse form")
         end;
  match PopulateQueryParameters protoReq form filter with
  | Ok m => Ok m
  | Err _ => Err (InvalidArgument "query parameters")
  end.

(** [proto.Message]: the answers have different types. *)
Inductive answer := Answer (R : Type) (resp : R).
Definition answer_of {R} (r : result R) : result answer := x ← r; mret (Answer R x).

Record Route := mkRoute {
  rt_module : string;
  rt_query : string;
  rt_pattern : Pattern;
  rt_handler : app -> Request -> gmap string string -> result answer;
}.

Context `{!QueryParameters Org_QueryGetOrgProfileRequest}
  `{!QueryParameters Memory_QueryGetMemoriesBatchRequest}
  `{!QueryParameters Reputation_QueryGetContributorProfileRequest}
  `{!QueryParameters Reputation_QueryModeratorProfileRequest}
  `{!QueryParameters Reputation_QueryLeaderProfileRequest}
  `{!QueryParameters Reputation_QueryUpheldReportsByContributorRequest}
  `{!QueryParameters Reputation_QueryUpheldReportsByModeratorRequest}
  `{!QueryParameters Reputation_QueryUpheldReportsByLeaderRequest}.

(** ** The request functions *)

(** x/identity *)
Definition request_Identity_ResolveIdentity {R} (client : string -> result R)
    (req : Request) (pathParams : gmap string string) : result R :=
  PasskeyPubkey ← path_param "passkey_pubkey" runtime_String pathParams;
  client PasskeyPubkey.
Definition local_request_Identity_ResolveIdentity {R} (server : string -> result R)
    (req : Request) (pathParams : gmap string string) : result R :=
  PasskeyPubkey ← path_param "passkey_pubkey" runtime_String pathParams;
  server PasskeyPubkey.

(** x/org *)
Definition request_Org_GetOrg {R} (client : string -> result R)
    (req : Request) (pathParams : gmap string string) : result R :=
  OrgId ← path_param "org_id" runtime_String pathParams;
  client OrgId.
Definition local_request_Org_GetOrg {R} (server : string -> result R)
    (req : Request) (pathParams : gmap string string) : result R :=
  OrgId ← path_param "org_id" runtime_String pathParams;
  server OrgId.
Definition request_Org_GetMembers {R} (client : string -> result R)
    (req : Request) (pathParams : gmap string string) : result R :=
  OrgId ← path_param "org_id" runtime_String pathParams;
  client OrgId.
Definition local_request_Org_GetMembers {R} (server : string -> result R)
    (req : Request) (pathParams : gmap string string) : result R :=
  OrgId ← path_param "org_id" runtime_String pathParams;
  server OrgId.
Definition request_Org_IsMember {R} (client : string * string -> result R)
    (req : Request) (pathParams : gmap string string) : result R :=
  OrgId ← path_param "org_id" runtime_String pathParams;
  Pubkey ← path_param "pubkey" runtime_String pathParams;
  client (OrgId, Pubkey).
Definition local_request_Org_IsMember {R} (server : string * string -> result R)
    (req : Request) (pathParams : gmap string string) : result R :=
  OrgId ← path_param "org_id" runtime_String pathParams;
  Pubkey ← path_param "pubkey" runtime_String pathParams;
  server (OrgId, Pubkey).
Definition request_Org_Params {R} (client : unit -> result R)
    (req : Request) (pathParams : gmap string string) : result R :=
  client tt.
Definition local_request_Org_Params {R} (server : unit -> result R)
    (req : Request) (pathParams : gmap string string) : result R :=
  server tt.
Definition request_Org_GetOrgConfig {R} (client : string -> result R)
    (req : Request) (pathParams : gmap string string) : result R :=
  OrgId ← path_param "org_id" runtime_String pathParams;
  client OrgId.
Definition local_request_Org_GetOrgConfig {R} (server : string -> result R)
    (req : Request) (pathParams : gmap string string) : result R :=
  OrgId ← path_param "org_id" runtime_String pathParams;
  server OrgId.
Definition filter_Org_GetOrgProfile : list string := ["org_id"].
Definition request_Org_GetOrgProfile {R} (client : Org_QueryGetOrgProfileRequest -> result R)
    (req : Request) (pathParams : gmap string string) : result R :=
  OrgId ← path_param "org_id" runtime_String pathParams;
  protoReq ← form_fields (mkOrg_QueryGetOrgProfileRequest OrgId 0) req filter_Org_GetOrgProfile;
  client protoReq.
Definition local_request_Org_GetOrgProfile {R} (server : Org_QueryGetOrgProfileRequest -> result R)
    (req : Request) (pathParams : gmap string string) : result R :=
  OrgId ← path_param "org_id" runtime_String pathParams;
  protoReq ← form_fields (mkOrg_QueryGetOrgProfileRequest OrgId 0) req filter_Org_GetOrgProfile;
  server protoReq.
Definition request_Org_GetOrgAccount {R} (client : string -> result R)
    (req : Request) (pathParams : gmap string string) : result R :=
  OrgId ← path_param "org_id" runtime_String pathParams;
  client OrgId.
Definition local_request_Org_GetOrgAccount {R} (server : string -> result R)
    (req : Request) (pathParams : gmap string string) : result R :=
  OrgId ← path_param "org_id" runtime_String pathParams;
  server OrgId.

(** x/serve *)
Definition request_Serve_GetEpochServeStats {R} (client : string * N -> result R)
    (req : Request) (pathParams : gmap string string) : result R :=
  OrgId ← path_param "org_id" runtime_String pathParams;
  Epoch ← path_param "epoch" runtime_Uint64 pathParams;
  client (OrgId, Epoch).
Definition local_request_Serve_GetEpochServeStats {R} (server : string * N -> result R)
    (req : Request) (pathParams : gmap string string) : result R :=
  OrgId ← path_param "org_id" runtime_String pathParams;
  Epoch ← path_param "epoch" runtime_Uint64 pathParams;
  server (OrgId, Epoch).
Definition request_Serve_GetContributorServes {R} (client : string * N -> result R)
    (req : Request) (pathParams : gmap string string) : result R :=
  ContributorId ← path_param "contributor_id" runtime_String pathParams;
  Epoch ← path_param "epoch" runtime_Uint64 pathParams;
  client (ContributorId, Epoch).
Definition local_request_Serve_GetContributorServes {R} (server : string * N -> result R)
    (req : Request) (pathParams : gmap string string) : result R :=
  ContributorId ← path_param "contributor_id" runtime_String pathParams;
  Epoch ← path_param "epoch" runtime_Uint64 pathParams;
  server (ContributorId, Epoch).
Definition request_Serve_GetMemoryServeCount {R} (client : string * string * N -> result R)
    (req : Request) (pathParams : gmap string string) : result R :=
  OrgId ← path_param "org_id" runtime_String pathParams;
  ContentHash ← path_param "content_hash" runtime_Bytes pathParams;
  Epoch ← path_param "epoch" runtime_Uint64 pathParams;
  client (OrgId, ContentHash, Epoch).
Definition local_request_Serve_GetMemoryServeCount {R} (server : string * string * N -> result R)
    (req : Request) (pathParams : gmap string string) : result R :=
  OrgId ← path_param "org_id" runtime_String pathParams;
  ContentHash ← path_param "content_hash" runtime_Bytes pathParams;
  Epoch ← path_param "epoch" runtime_Uint64 pathParams;
  server (OrgId, ContentHash, Epoch).
Definition request_Serve_ListEvents {R} (client : string * N -> result R)
    (req : Request) (pathParams : gmap string string) : result R :=
  OrgId ← path_param "org_id" runtime_String pathParams;
  Epoch ← path_param "epoch" runtime_Uint64 pathParams;
  client (OrgId, Epoch).
Definition local_request_Serve_ListEvents {R} (server : string * N -> result R)
    (req : Request) (pathParams : gmap string string) : result R :=
  OrgId ← path_param "org_id" runtime_String pathParams;
  Epoch ← path_param "epoch" runtime_Uint64 pathParams;
  server (OrgId, Epoch).
Definition request_Serve_GetPolicyAnchor {R} (client : string -> result R)
    (req : Request) (pathParams : gmap string string) : result R :=
  PolicyVersion ← path_param "policy_version" runtime_String pathParams;
  client PolicyVersion.
Definition local_request_Serve_GetPolicyAnchor {R} (server : string -> result R)
    (req : Request) (pathParams : gmap string string) : result R :=
  PolicyVersion ← path_param "policy_version" runtime_String pathParams;
  server PolicyVersion.
Definition request_Serve_GetLatestPolicyAnchor {R} (client : unit -> result R)
    (req : Request) (pathParams : gmap string string) : result R :=
  client tt.
Definition local_request_Serve_GetLatestPolicyAnchor {R} (server : unit -> result R)
    (req : Request) (pathParams : gmap string string) : result R :=
  server tt.
Definition request_Serve_Params {R} (client : unit -> result R)
    (req : Request) (pathParams : gmap string string) : result R :=
  client tt.
Definition local_request_Serve_Params {R} (server : unit -> result R)
    (req : Request) (pathParams : gmap string string) : result R :=
  server tt.

(** x/reputation *)
Definition request_Reputation_GetReputation {R} (client : string -> result R)
    (req : Request) (pathParams : gmap string string) : result R :=
  Developer ← path_param "developer" runtime_Bytes pathParams;
  client Developer.
Definition local_request_Reputation_GetReputation {R} (server : string -> result R)
    (req : Request) (pathParams : gmap string string) : result R :=
  Developer ← path_param "developer" runtime_Bytes pathParams;
  server Developer.
Definition request_Reputation_GetXP {R} (client : string -> result R)
    (req : Request) (pathParams : gmap string string) : result R :=
  Developer ← path_param "developer" runtime_Bytes pathParams;
  client Developer.
Definition local_request_Reputation_GetXP {R} (server : string -> result R)
    (req : Request) (pathParams : gmap string string) : result R :=
  Developer ← path_param "developer" runtime_Bytes pathParams;
  server Developer.
Definition request_Reputation_IsActive {R} (client : unit -> result R)
    (req : Request) (pathParams : gmap string string) : result R :=
  client tt.
Definition local_request_Reputation_IsActive {R} (server : unit -> result R)
    (req : Request) (pathParams : gmap string string) : result R :=
  server tt.
Definition request_Reputation_Params {R} (client : unit -> result R)
    (req : Request) (pathParams : gmap string string) : result R :=
  client tt.
Definition local_request_Reputation_Params {R} (server : unit -> result R)
    (req : Request) (pathParams : gmap string string) : result R :=
  server tt.
Definition request_Reputation_GetServeStats {R} (client : string -> result R)
    (req : Request) (pathParams : gmap string string) : result R :=
  Developer ← path_param "developer" runtime_Bytes pathParams;
  client Developer.
Definition local_request_Reputation_GetServeStats {R} (server : string -> result R)
    (req : Request) (pathParams : gmap string string) : result R :=
  Developer ← path_param "developer" runtime_Bytes pathParams;
  server Developer.
Definition request_Reputation_GetContributorOrgSet {R} (client : string -> result R)
    (req : Request) (pathParams : gmap string string) : result R :=
  Developer ← path_param "developer" runtime_Bytes pathParams;
  client Developer.
Definition local_request_Reputation_GetContributorOrgSet {R} (server : string -> result R)
    (req : Request) (pathParams : gmap string string) : result R :=
  Developer ← path_param "developer" runtime_Bytes pathParams;
  server Developer.
Definition request_Reputation_GetCrossOrgProfile {R} (client : string -> result R)
    (req : Request) (pathParams : gmap string string) : result R :=
  Developer ← path_param "developer" runtime_Bytes pathParams;
  client Developer.
Definition local_request_Reputation_GetCrossOrgProfile {R} (server : string -> result R)
    (req : Request) (pathParams : gmap string string) : result R :=
  Developer ← path_param "developer" runtime_Bytes pathParams;
  server Developer.
Definition filter_Reputation_GetContributorProfile : list string := ["contributor_id"].
Definition request_Reputation_GetContributorProfile {R} (client : Reputation_QueryGetContributorProfileRequest -> result R)
    (req : Request) (pathParams : gmap string string) : result R :=
  ContributorId ← path_param "contributor_id" runtime_String pathParams;
  protoReq ← form_fields (mkReputation_QueryGetContributorProfileRequest ContributorId 0) req filter_Reputation_GetContributorProfile;
  client protoReq.
Definition local_request_Reputation_GetContributorProfile {R} (server : Reputation_QueryGetContributorProfileRequest -> result R)
    (req : Request) (pathParams : gmap string string) : result R :=
  ContributorId ← path_param "contributor_id" runtime_String pathParams;
  protoReq ← form_fields (mkReputation_QueryGetContributorProfileRequest ContributorId 0) req filter_Reputation_GetContributorProfile;
  server protoReq.
Definition filter_Reputation_ModeratorProfile : list string := ["moderator_pubkey"].
Definition request_Reputation_ModeratorProfile {R} (client : Reputation_QueryModeratorProfileRequest -> result R)
    (req : Request) (pathParams : gmap string string) : result R :=
  ModeratorPubkey ← path_param "moderator_pubkey" runtime_String pathParams;
  protoReq ← form_fields (mkReputation_QueryModeratorProfileRequest ModeratorPubkey "") req filter_Reputation_ModeratorProfile;
  client protoReq.
Definition local_request_Reputation_ModeratorProfile {R} (server : Reputation_QueryModeratorProfileRequest -> result R)
    (req : Request) (pathParams : gmap string string) : result R :=
  ModeratorPubkey ← path_param "moderator_pubkey" runtime_String pathParams;
  protoReq ← form_fields (mkReputation_QueryModeratorProfileRequest ModeratorPubkey "") req filter_Reputation_ModeratorProfile;
  server protoReq.
Definition filter_Reputation_LeaderProfile : list string := ["leader_pubkey"].
Definition request_Reputation_LeaderProfile {R} (client : Reputation_QueryLeaderProfileRequest -> result R)
    (req : Request) (pathParams : gmap string string) : result R :=
  LeaderPubkey ← path_param "leader_pubkey" runtime_String pathParams;
  protoReq ← form_fields (mkReputation_QueryLeaderProfileRequest LeaderPubkey "") req filter_Reputation_LeaderProfile;
  client protoReq.
Definition local_request_Reputation_LeaderProfile {R} (server : Reputation_QueryLeaderProfileRequest -> result R)
    (req : Request) (pathParams : gmap string string) : result R :=
  LeaderPubkey ← path_param "leader_pubkey" runtime_String pathParams;
  protoReq ← form_fields (mkReputation_QueryLeaderProfileRequest LeaderPubkey "") req filter_Reputation_LeaderProfile;
  server protoReq.
Definition filter_Reputation_UpheldReportsByContributor : list string := ["contributor_id"].
Definition request_Reputation_UpheldReportsByContributor {R} (client : Reputation_QueryUpheldReportsByContributorRequest -> result R)
    (req : Request) (pathParams : gmap string string) : result R :=
  ContributorId ← path_param "contributor_id" runtime_String pathParams;
  protoReq ← form_fields (mkReputation_QueryUpheldReportsByContributorRequest ContributorId None) req filter_Reputation_UpheldReportsByContributor;
  client protoReq.
Definition local_request_Reputation_UpheldReportsByContributor {R} (server : Reputation_QueryUpheldReportsByContributorRequest -> result R)
    (req : Request) (pathParams : gmap string string) : result R :=
  ContributorId ← path_param "contributor_id" runtime_String pathParams;
  protoReq ← form_fields (mkReputation_QueryUpheldReportsByContributorRequest ContributorId None) req filter_Reputation_UpheldReportsByContributor;
  server protoReq.
Definition filter_Reputation_UpheldReportsByModerator : list string := ["moderator_pubkey"].
Definition request_Reputation_UpheldReportsByModerator {R} (client : Reputation_QueryUpheldReportsByModeratorRequest -> result R)
    (req : Request) (pathParams : gmap string string) : result R :=
  ModeratorPubkey ← path_param "moderator_pubkey" runtime_String pathParams;
  protoReq ← form_fields (mkReputation_QueryUpheldReportsByModeratorRequest ModeratorPubkey None) req filter_Reputation_UpheldReportsByModerator;
  client protoReq.
Definition local_request_Reputation_UpheldReportsByModerator {R} (server : Reputation_QueryUpheldReportsByModeratorRequest -> result R)
    (req : Request) (pathParams : gmap string string) : result R :=
  ModeratorPubkey ← path_param "moderator_pubkey" runtime_String pathParams;
  protoReq ← form_fields (mkReputation_QueryUpheldReportsByModeratorRequest ModeratorPubkey None) req filter_Reputation_UpheldReportsByModerator;
  server protoReq.
Definition filter_Reputation_UpheldReportsByLeader : list string := ["leader_pubkey"].
Definition request_Reputation_UpheldReportsByLeader {R} (client : Reputation_QueryUpheldReportsByLeaderRequest -> result R)
    (req : Request) (pathParams : gmap string string) : result R :=
  LeaderPubkey ← path_param "leader_pubkey" runtime_String pathParams;
  protoReq ← form_fields (mkReputation_QueryUpheldReportsByLeaderRequest LeaderPubkey None) req filter_Reputation_UpheldReportsByLeader;
  client protoReq.
Definition local_request_Reputation_UpheldReportsByLeader {R} (server : Reputation_QueryUpheldReportsByLeaderRequest -> result R)
    (req : Request) (pathParams : gmap string string) : result R :=
  LeaderPubkey ← path_param "leader_pubkey" runtime_String pathParams;
  protoReq ← form_fields (mkReputation_QueryUpheldReportsByLeaderRequest LeaderPubkey None) req filter_Reputation_UpheldReportsByLeader;
  server protoReq.
Definition request_Reputation_VerifyUpheldReport {R} (client : string * string -> result R)
    (req : Request) (pathParams : gmap string string) : result R :=
  OrgId ← path_param "org_id" runtime_String pathParams;
  ContentHash ← path_param "content_hash" runtime_Bytes pathParams;
  client (OrgId, ContentHash).
Definition local_request_Reputation_VerifyUpheldReport {R} (server : string * string -> result R)
    (req : Request) (pathParams : gmap string string) : result R :=
  OrgId ← path_param "org_id" runtime_String pathParams;
  ContentHash ← path_param "content_hash" runtime_Bytes pathParams;
  server (OrgId, ContentHash).

(** x/emissions *)
Definition request_Emissions_GetEmissionPool {R} (client : unit -> result R)
    (req : Request) (pathParams : gmap string string) : result R :=
  client tt.
Definition local_request_Emissions_GetEmissionPool {R} (server : unit -> result R)
    (req : Request) (pathParams : gmap string string) : result R :=
  server tt.
Definition request_Emissions_Params {R} (client : unit -> result R)
    (req : Request) (pathParams : gmap string string) : result R :=
  client tt.
Definition local_request_Emissions_Params {R} (server : unit -> result R)
    (req : Request) (pathParams : gmap string string) : result R :=
  server tt.
Definition request_Emissions_ContributorReward {R} (client : string -> result R)
    (req : Request) (pathParams : gmap string string) : result R :=
  Pubkey ← path_param "pubkey" runtime_String pathParams;
  client Pubkey.
Definition local_request_Emissions_ContributorReward {R} (server : string -> result R)
    (req : Request) (pathParams : gmap string string) : result R :=
  Pubkey ← path_param "pubkey" runtime_String pathParams;
  server Pubkey.

(** x/memory *)
Definition request_Memory_GetMemory {R} (client : string * string -> result R)
    (req : Request) (pathParams : gmap string string) : result R :=
  OrgId ← path_param "org_id" runtime_String pathParams;
  ContentHash ← path_param "content_hash" runtime_Bytes pathParams;
  client (OrgId, ContentHash).
Definition local_request_Memory_GetMemory {R} (server : string * string -> result R)
    (req : Request) (pathParams : gmap string string) : result R :=
  OrgId ← path_param "org_id" runtime_String pathParams;
  ContentHash ← path_param "content_hash" runtime_Bytes pathParams;
  server (OrgId, ContentHash).
Definition request_Memory_GetPendingCommitments {R} (client : string -> result R)
    (req : Request) (pathParams : gmap string string) : result R :=
  OrgId ← path_param "org_id" runtime_String pathParams;
  client OrgId.
Definition local_request_Memory_GetPendingCommitments {R} (server : string -> result R)
    (req : Request) (pathParams : gmap string string) : result R :=
  OrgId ← path_param "org_id" runtime_String pathParams;
  server OrgId.
Definition request_Memory_GetMemoryCount {R} (client : string -> result R)
    (req : Request) (pathParams : gmap string string) : result R :=
  OrgId ← path_param "org_id" runtime_String pathParams;
  client OrgId.
Definition local_request_Memory_GetMemoryCount {R} (server : string -> result R)
    (req : Request) (pathParams : gmap string string) : result R :=
  OrgId ← path_param "org_id" runtime_String pathParams;
  server OrgId.
Definition request_Memory_GetEpochMerkleRoot {R} (client : string * N -> result R)
    (req : Request) (pathParams : gmap string string) : result R :=
  OrgId ← path_param "org_id" runtime_String pathParams;
  Epoch ← path_param "epoch" runtime_Uint64 pathParams;
  client (OrgId, Epoch).
Definition local_request_Memory_GetEpochMerkleRoot {R} (server : string * N -> result R)
    (req : Request) (pathParams : gmap string string) : result R :=
  OrgId ← path_param "org_id" runtime_String pathParams;
  Epoch ← path_param "epoch" runtime_Uint64 pathParams;
  server (OrgId, Epoch).
Definition request_Memory_Params {R} (client : unit -> result R)
    (req : Request) (pathParams : gmap string string) : result R :=
  client tt.
Definition local_request_Memory_Params {R} (server : unit -> result R)
    (req : Request) (pathParams : gmap string string) : result R :=
  server tt.
Definition request_Memory_ListRelationships {R} (client : string * string -> result R)
    (req : Request) (pathParams : gmap string string) : result R :=
  OrgId ← path_param "org_id" runtime_String pathParams;
  Cid ← path_param "cid" runtime_String pathParams;
  client (OrgId, Cid).
Definition local_request_Memory_ListRelationships {R} (server : string * string -> result R)
    (req : Request) (pathParams : gmap string string) : result R :=
  OrgId ← path_param "org_id" runtime_String pathParams;
  Cid ← path_param "cid" runtime_String pathParams;
  server (OrgId, Cid).
Definition request_Memory_GetValidity {R} (client : string * string -> result R)
    (req : Request) (pathParams : gmap string string) : result R :=
  OrgId ← path_param "org_id" runtime_String pathParams;
  Cid ← path_param "cid" runtime_String pathParams;
  client (OrgId, Cid).
Definition local_request_Memory_GetValidity {R} (server : string * string -> result R)
    (req : Request) (pathParams : gmap string string) : result R :=
  OrgId ← path_param "org_id" runtime_String pathParams;
  Cid ← path_param "cid" runtime_String pathParams;
  server (OrgId, Cid).
Definition filter_Memory_GetMemoriesBatch : list string := ["org_id"].
Definition request_Memory_GetMemoriesBatch {R} (client : Memory_QueryGetMemoriesBatchRequest -> result R)
    (req : Request) (pathParams : gmap string string) : result R :=
  OrgId ← path_param "org_id" runtime_String pathParams;
  protoReq ← form_fields (mkMemory_QueryGetMemoriesBatchRequest OrgId []) req filter_Memory_GetMemoriesBatch;
  client protoReq.
Definition local_request_Memory_GetMemoriesBatch {R} (server : Memory_QueryGetMemoriesBatchRequest -> result R)
    (req : Request) (pathParams : gmap string string) : result R :=
  OrgId ← path_param "org_id" runtime_String pathParams;
  protoReq ← form_fields (mkMemory_QueryGetMemoriesBatchRequest OrgId []) req filter_Memory_GetMemoriesBatch;
  server protoReq.

(** x/bandwidth *)
Definition request_Bandwidth_GetBandwidthState {R} (client : string * N -> result R)
    (req : Request) (pathParams : gmap string string) : result R :=
  OrgId ← path_param "org_id" runtime_String pathParams;
  Epoch ← path_param "epoch" runtime_Uint64 pathParams;
  client (OrgId, Epoch).
Definition local_request_Bandwidth_GetBandwidthState {R} (server : string * N -> result R)
    (req : Request) (pathParams : gmap string string) : result R :=
  OrgId ← path_param "org_id" runtime_String pathParams;
  Epoch ← path_param "epoch" runtime_Uint64 pathParams;
  server (OrgId, Epoch).
Definition request_Bandwidth_GetBandwidthOverride {R} (client : string -> result R)
    (req : Request) (pathParams : gmap string string) : result R :=
  OrgId ← path_param "org_id" runtime_String pathParams;
  client OrgId.
Definition local_request_Bandwidth_GetBandwidthOverride {R} (server : string -> result R)
    (req : Request) (pathParams : gmap string string) : result R :=
  OrgId ← path_param "org_id" runtime_String pathParams;
  server OrgId.
Definition request_Bandwidth_GetRemainingBandwidth {R} (client : string * N -> result R)
    (req : Request) (pathParams : gmap string string) : result R :=
  OrgId ← path_param "org_id" runtime_String pathParams;
  Epoch ← path_param "epoch" runtime_Uint64 pathParams;
  client (OrgId, Epoch).
Definition local_request_Bandwidth_GetRemainingBandwidth {R} (server : string * N -> result R)
    (req : Request) (pathParams : gmap string string) : result R :=
  OrgId ← path_param "org_id" runtime_String pathParams;
  Epoch ← path_param "epoch" runtime_Uint64 pathParams;
  server (OrgId, Epoch).
Definition request_Bandwidth_Params {R} (client : unit -> result R)
    (req : Request) (pathParams : gmap string string) : result R :=
  client tt.
Definition local_request_Bandwidth_Params {R} (server : unit -> result R)
    (req : Request) (pathParams : gmap string string) : result R :=
  server tt.

(** x/attestation *)
Definition request_Attestation_GetSessionAttestation {R} (client : string * string -> result R)
    (req : Request) (pathParams : gmap string string) : result R :=
  OrgId ← path_param "org_id" runtime_String pathParams;
  SessionHash ← path_param "session_hash" runtime_Bytes pathParams;
  client (OrgId, SessionHash).
Definition local_request_Attestation_GetSessionAttestation {R} (server : string * string -> result R)
    (req : Request) (pathParams : gmap string string) : result R :=
  OrgId ← path_param "org_id" runtime_String pathParams;
  SessionHash ← path_param "session_hash" runtime_Bytes pathParams;
  server (OrgId, SessionHash).
Definition request_Attestation_ListSessionAttestations {R} (client : string * N -> result R)
    (req : Request) (pathParams : gmap string string) : result R :=
  OrgId ← path_param "org_id" runtime_String pathParams;
  Epoch ← path_param "epoch" runtime_Uint64 pathParams;
  client (OrgId, Epoch).
Definition local_request_Attestation_ListSessionAttestations {R} (server : string * N -> result R)
    (req : Request) (pathParams : gmap string string) : result R :=
  OrgId ← path_param "org_id" runtime_String pathParams;
  Epoch ← path_param "epoch" runtime_Uint64 pathParams;
  server (OrgId, Epoch).
Definition request_Attestation_Params {R} (client : unit -> result R)
    (req : Request) (pathParams : gmap string string) : result R :=
  client tt.
Definition local_request_Attestation_Params {R} (server : unit -> result R)
    (req : Request) (pathParams : gmap string string) : result R :=
  server tt.

(** ** Registration

    Each [mux.Handle("GET", pattern, handler)] of the registration functions, in
    their order; the handler annotates the context, calls the request function
    and forwards its answer or its error. *)
Definition RegisterQueryHandlerServer_identity : list Route := [
   mkRoute "identity" "ResolveIdentity" pattern_Identity_ResolveIdentity (fun a =>
     local_request_Identity_ResolveIdentity (fun x => answer_of (IdentityQuery_ResolveIdentity a (Some x))))].

Definition RegisterQueryHandlerClient_identity : list Route := [
   mkRoute "identity" "ResolveIdentity" pattern_Identity_ResolveIdentity (fun a =>
     request_Identity_ResolveIdentity (fun x => answer_of (IdentityQuery_ResolveIdentity a (Some x))))].

Definition RegisterQueryHandlerServer_org : list Route := [
   mkRoute "org" "GetOrg" pattern_Org_GetOrg (fun a =>
     local_request_Org_GetOrg (fun x => answer_of (OrgQuery_GetOrg a x)));
   mkRoute "org" "GetMembers" pattern_Org_GetMembers (fun a =>
     local_request_Org_GetMembers (fun x => answer_of (OrgQuery_GetMembers a x)));
   mkRoute "org" "IsMember" pattern_Org_IsMember (fun a =>
     local_request_Org_IsMember (fun '(x, y) => answer_of (OrgQuery_IsMember a x y)));
   mkRoute "org" "Params" pattern_Org_Params (fun a =>
     local_request_Org_Params (fun _ => answer_of (OrgQuery_Params a)));
   mkRoute "org" "GetOrgConfig" pattern_Org_GetOrgConfig (fun a =>
     local_request_Org_GetOrgConfig (fun x => answer_of (OrgQuery_GetOrgConfig a x)));
   mkRoute "org" "GetOrgProfile" pattern_Org_GetOrgProfile (fun a =>
     local_request_Org_GetOrgProfile (fun r => answer_of (OrgQuery_GetOrgProfile a (gop_OrgId r) (gop_Epoch r))));
   mkRoute "org" "GetOrgAccount" pattern_Org_GetOrgAccount (fun a =>
     local_request_Org_GetOrgAccount (fun x => answer_of (OrgQuery_GetOrgAccount a x)))].

Definition RegisterQueryHandlerClient_org : list Route := [
   mkRoute "org" "GetOrg" pattern_Org_GetOrg (fun a =>
     request_Org_GetOrg (fun x => answer_of (OrgQuery_GetOrg a x)));
   mkRoute "org" "GetMembers" pattern_Org_GetMembers (fun a =>
     request_Org_GetMembers (fun x => answer_of (OrgQuery_GetMembers a x)));
   mkRoute "org" "IsMember" pattern_Org_IsMember (fun a =>
     request_Org_IsMember (fun '(x, y) => answer_of (OrgQuery_IsMember a x y)));
   mkRoute "org" "Params" pattern_Org_Params (fun a =>
     request_Org_Params (fun _ => answer_of (OrgQuery_Params a)));
   mkRoute "org" "GetOrgConfig" pattern_Org_GetOrgConfig (fun a =>
     request_Org_GetOrgConfig (fun x => answer_of (OrgQuery_GetOrgConfig a x)));
   mkRoute "org" "GetOrgProfile" pattern_Org_GetOrgProfile (fun a =>
     request_Org_GetOrgProfile (fun r => answer_of (OrgQuery_GetOrgProfile a (gop_OrgId r) (gop_Epoch r))));
   mkRoute "org" "GetOrgAccount" pattern_Org_GetOrgAccount (fun a =>
     request_Org_GetOrgAccount (fun x => answer_of (OrgQuery_GetOrgAccount a x)))].

Definition RegisterQueryHandlerServer_serve : list Route := [
   mkRoute "serve" "GetEpochServeStats" pattern_Serve_GetEpochServeStats (fun a =>
     local_request_Serve_GetEpochServeStats (fun '(x, y) => answer_of (ServeQuery_GetEpochServeStats a (Some (x, y)))));
   mkRoute "serve" "GetContributorServes" pattern_Serve_GetContributorServes (fun a =>
     local_request_Serve_GetContributorServes (fun '(x, y) => answer_of (ServeQuery_GetContributorServes a (Some (x, y)))));
   mkRoute "serve" "GetMemoryServeCount" pattern_Serve_GetMemoryServeCount (fun a =>
     local_request_Serve_GetMemoryServeCount (fun '(x, y, z) => answer_of (ServeQuery_GetMemoryServeCount a (Some (x, y, z)))));
   mkRoute "serve" "ListEvents" pattern_Serve_ListEvents (fun a =>
     local_request_Serve_ListEvents (fun '(x, y) => answer_of (ServeQuery_ListEvents a (Some (x, y)))));
   mkRoute "serve" "GetPolicyAnchor" pattern_Serve_GetPolicyAnchor (fun a =>
     local_request_Serve_GetPolicyAnchor (fun x => answer_of (ServeQuery_GetPolicyAnchor a (Some x))));
   mkRoute "serve" "GetLatestPolicyAnchor" pattern_Serve_GetLatestPolicyAnchor (fun a =>
     local_request_Serve_GetLatestPolicyAnchor (fun _ => answer_of (ServeQuery_GetLatestPolicyAnchor a (Some tt))));
   mkRoute "serve" "Params" pattern_Serve_Params (fun a =>
     local_request_Serve_Params (fun _ => answer_of (ServeQuery_Params a (Some tt))))].

Definition RegisterQueryHandlerClient_serve : list Route := [
   mkRoute "serve" "GetEpochServeStats" pattern_Serve_GetEpochServeStats (fun a =>
     request_Serve_GetEpochServeStats (fun '(x, y) => answer_of (ServeQuery_GetEpochServeStats a (Some (x, y)))));
   mkRoute "serve" "GetContributorServes" pattern_Serve_GetContributorServes (fun a =>
     request_Serve_GetContributorServes (fun '(x, y) => answer_of (ServeQuery_GetContributorServes a (Some (x, y)))));
   mkRoute "serve" "GetMemoryServeCount" pattern_Serve_GetMemoryServeCount (fun a =>
     request_Serve_GetMemoryServeCount (fun '(x, y, z) => answer_of (ServeQuery_GetMemoryServeCount a (Some (x, y, z)))));
   mkRoute "serve" "ListEvents" pattern_Serve_ListEvents (fun a =>
     request_Serve_ListEvents (fun '(x, y) => answer_of (ServeQuery_ListEvents a (Some (x, y)))));
   mkRoute "serve" "GetPolicyAnchor" pattern_Serve_GetPolicyAnchor (fun a =>
     request_Serve_GetPolicyAnchor (fun x => answer_of (ServeQuery_GetPolicyAnchor a (Some x))));
   mkRoute "serve" "GetLatestPolicyAnchor" pattern_Serve_GetLatestPolicyAnchor (fun a =>
     request_Serve_GetLatestPolicyAnchor (fun _ => answer_of (ServeQuery_GetLatestPolicyAnchor a (Some tt))));
   mkRoute "serve" "Params" pattern_Serve_Params (fun a =>
     request_Serve_Params (fun _ => answer_of (ServeQuery_Params a (Some tt))))].

Definition RegisterQueryHandlerServer_reputation : list Route := [
   mkRoute "reputation" "GetReputation" pattern_Reputation_GetReputation (fun a =>
     local_request_Reputation_GetReputation (fun x => answer_of (ReputationQuery_GetReputation a x)));
   mkRoute "reputation" "GetXP" pattern_Reputation_GetXP (fun a =>
     local_request_Reputation_GetXP (fun x => answer_of (ReputationQuery_GetXP a x)));
   mkRoute "reputation" "IsActive" pattern_Reputation_IsActive (fun a =>
     local_request_Reputation_IsActive (fun _ => answer_of (ReputationQuery_IsActive a)));
   mkRoute "reputation" "Params" pattern_Reputation_Params (fun a =>
     local_request_Reputation_Params (fun _ => answer_of (ReputationQuery_Params a)));
   mkRoute "reputation" "GetServeStats" pattern_Reputation_GetServeStats (fun a =>
     local_request_Reputation_GetServeStats (fun x => answer_of (ReputationQuery_GetServeStats a x)));
   mkRoute "reputation" "GetContributorOrgSet" pattern_Reputation_GetContributorOrgSet (fun a =>
     local_request_Reputation_GetContributorOrgSet (fun x => answer_of (ReputationQuery_GetContributorOrgSet a x)));
   mkRoute "reputation" "GetCrossOrgProfile" pattern_Reputation_GetCrossOrgProfile (fun a =>
     local_request_Reputation_GetCrossOrgProfile (fun x => answer_of (ReputationQuery_GetCrossOrgProfile a x)));
   mkRoute "reputation" "GetContributorProfile" pattern_Reputation_GetContributorProfile (fun a =>
     local_request_Reputation_GetContributorProfile (fun r => answer_of (ReputationQuery_GetContributorProfile a tag_order (gcp_ContributorId r) (gcp_Epoch r))));
   mkRoute "reputation" "ModeratorProfile" pattern_Reputation_ModeratorProfile (fun a =>
     local_request_Reputation_ModeratorProfile (fun r => answer_of (ReputationQuery_ModeratorProfile a (gmp_ModeratorPubkey r) (gmp_OrgId r))));
   mkRoute "reputation" "LeaderProfile" pattern_Reputation_LeaderProfile (fun a =>
     local_request_Reputation_LeaderProfile (fun r => answer_of (ReputationQuery_LeaderProfile a (glp_LeaderPubkey r) (glp_OrgId r))));
   mkRoute "reputation" "UpheldReportsByContributor" pattern_Reputation_UpheldReportsByContributor (fun a =>
     local_request_Reputation_UpheldReportsByContributor (fun r => answer_of (ReputationQuery_UpheldReportsByContributor a (Some (urc_ContributorId r, urc_Pagination r)))));
   mkRoute "reputation" "UpheldReportsByModerator" pattern_Reputation_UpheldReportsByModerator (fun a =>
     local_request_Reputation_UpheldReportsByModerator (fun r => answer_of (ReputationQuery_UpheldReportsByModerator a (Some (urm_ModeratorPubkey r, urm_Pagination r)))));
   mkRoute "reputation" "UpheldReportsByLeader" pattern_Reputation_UpheldReportsByLeader (fun a =>
     local_request_Reputation_UpheldReportsByLeader (fun r => answer_of (ReputationQuery_UpheldReportsByLeader a (Some (url_LeaderPubkey r, url_Pagination r)))));
   mkRoute "reputation" "VerifyUpheldReport" pattern_Reputation_VerifyUpheldReport (fun a =>
     local_request_Reputation_VerifyUpheldReport (fun '(x, y) => answer_of (ReputationQuery_VerifyUpheldReport a (Some (x, y)))))].

Definition RegisterQueryHandlerClient_reputation : list Route := [
   mkRoute "reputation" "GetReputation" pattern_Reputation_GetReputation (fun a =>
     request_Reputation_GetReputation (fun x => answer_of (ReputationQuery_GetReputation a x)));
   mkRoute "reputation" "GetXP" pattern_Reputation_GetXP (fun a =>
     request_Reputation_GetXP (fun x => answer_of (ReputationQuery_GetXP a x)));
   mkRoute "reputation" "IsActive" pattern_Reputation_IsActive (fun a =>
     request_Reputation_IsActive (fun _ => answer_of (ReputationQuery_IsActive a)));
   mkRoute "reputation" "Params" pattern_Reputation_Params (fun a =>
     request_Reputation_Params (fun _ => answer_of (ReputationQuery_Params a)));
   mkRoute "reputation" "GetServeStats" pattern_Reputation_GetServeStats (fun a =>
     request_Reputation_GetServeStats (fun x => answer_of (ReputationQuery_GetServeStats a x)));
   mkRoute "reputation" "GetContributorOrgSet" pattern_Reputation_GetContributorOrgSet (fun a =>
     request_Reputation_GetContributorOrgSet (fun x => answer_of (ReputationQuery_GetContributorOrgSet a x)));
   mkRoute "reputation" "GetCrossOrgProfile" pattern_Reputation_GetCrossOrgProfile (fun a =>
     request_Reputation_GetCrossOrgProfile (fun x => answer_of (ReputationQuery_GetCrossOrgProfile a x)));
   mkRoute "reputation" "GetContributorProfile" pattern_Reputation_GetContributorProfile (fun a =>
     request_Reputation_GetContributorProfile (fun r => answer_of (ReputationQuery_GetContributorProfile a tag_order (gcp_ContributorId r) (gcp_Epoch r))));
   mkRoute "reputation" "ModeratorProfile" pattern_Reputation_ModeratorProfile (fun a =>
     request_Reputation_ModeratorProfile (fun r => answer_of (ReputationQuery_ModeratorProfile a (gmp_ModeratorPubkey r) (gmp_OrgId r))));
   mkRoute "reputation" "LeaderProfile" pattern_Reputation_LeaderProfile (fun a =>
     request_Reputation_LeaderProfile (fun r => answer_of (ReputationQuery_LeaderProfile a (glp_LeaderPubkey r) (glp_OrgId r))));
   mkRoute "reputation" "UpheldReportsByContributor" pattern_Reputation_UpheldReportsByContributor (fun a =>
     request_Reputation_UpheldReportsByContributor (fun r => answer_of (ReputationQuery_UpheldReportsByContributor a (Some (urc_ContributorId r, urc_Pagination r)))));
   mkRoute "reputation" "UpheldReportsByModerator" pattern_Reputation_UpheldReportsByModerator (fun a =>
     request_Reputation_UpheldReportsByModerator (fun r => answer_of (ReputationQuery_UpheldReportsByModerator a (Some (urm_ModeratorPubkey r, urm_Pagination r)))));
   mkRoute "reputation" "UpheldReportsByLeader" pattern_Reputation_UpheldReportsByLeader (fun a =>
     request_Reputation_UpheldReportsByLeader (fun r => answer_of (ReputationQuery_UpheldReportsByLeader a (Some (url_LeaderPubkey r, url_Pagination r)))));
   mkRoute "reputation" "VerifyUpheldReport" pattern_Reputation_VerifyUpheldReport (fun a =>
     request_Reputation_VerifyUpheldReport (fun '(x, y) => answer_of (ReputationQuery_VerifyUpheldReport a (Some (x, y)))))].

Definition RegisterQueryHandlerServer_emissions : list Route := [
   mkRoute "emissions" "GetEmissionPool" pattern_Emissions_GetEmissionPool (fun a =>
     local_request_Emissions_GetEmissionPool (fun _ => answer_of (EmissionsQuery_GetEmissionPool a)));
   mkRoute "emissions" "Params" pattern_Emissions_Params (fun a =>
     local_request_Emissions_Params (fun _ => answer_of (EmissionsQuery_Params a)));
   mkRoute "emissions" "ContributorReward" pattern_Emissions_ContributorReward (fun a =>
     local_request_Emissions_ContributorReward (fun x => answer_of (EmissionsQuery_ContributorReward a (Some x))))].

Definition RegisterQueryHandlerClient_emissions : list Route := [
   mkRoute "emissions" "GetEmissionPool" pattern_Emissions_GetEmissionPool (fun a =>
     request_Emissions_GetEmissionPool (fun _ => answer_of (EmissionsQuery_GetEmissionPool a)));
   mkRoute "emissions" "Params" pattern_Emissions_Params (fun a =>
     request_Emissions_Params (fun _ => answer_of (EmissionsQuery_Params a)));
   mkRoute "emissions" "ContributorReward" pattern_Emissions_ContributorReward (fun a =>
     request_Emissions_ContributorReward (fun x => answer_of (EmissionsQuery_ContributorReward a (Some x))))].

Definition RegisterQueryHandlerServer_memory : list Route := [
   mkRoute "memory" "GetMemory" pattern_Memory_GetMemory (fun a =>
     local_request_Memory_GetMemory (fun '(x, y) => answer_of (MemoryQuery_GetMemory a x y)));
   mkRoute "memory" "GetPendingCommitments" pattern_Memory_GetPendingCommitments (fun a =>
     local_request_Memory_GetPendingCommitments (fun x => answer_of (MemoryQuery_GetPendingCommitments a x)));
   mkRoute "memory" "GetMemoryCount" pattern_Memory_GetMemoryCount (fun a =>
     local_request_Memory_GetMemoryCount (fun x => answer_of (MemoryQuery_GetMemoryCount a x)));
   mkRoute "memory" "GetEpochMerkleRoot" pattern_Memory_GetEpochMerkleRoot (fun a =>
     local_request_Memory_GetEpochMerkleRoot (fun '(x, y) => answer_of (MemoryQuery_GetEpochMerkleRoot a x y)));
   mkRoute "memory" "Params" pattern_Memory_Params (fun a =>
     local_request_Memory_Params (fun _ => answer_of (MemoryQuery_Params a)));
   mkRoute "memory" "ListRelationships" pattern_Memory_ListRelationships (fun a =>
     local_request_Memory_ListRelationships (fun '(x, y) => answer_of (MemoryQuery_ListRelationships a x y)));
   mkRoute "memory" "GetValidity" pattern_Memory_GetValidity (fun a =>
     local_request_Memory_GetValidity (fun '(x, y) => answer_of (MemoryQuery_GetValidity a x y)));
   mkRoute "memory" "GetMemoriesBatch" pattern_Memory_GetMemoriesBatch (fun a =>
     local_request_Memory_GetMemoriesBatch (fun r => answer_of (MemoryQuery_GetMemoriesBatch a (Some (gmb_OrgId r, gmb_ContentHashes r)))))].

Definition RegisterQueryHandlerClient_memory : list Route := [
   mkRoute "memory" "GetMemory" pattern_Memory_GetMemory (fun a =>
     request_Memory_GetMemory (fun '(x, y) => answer_of (MemoryQuery_GetMemory a x y)));
   mkRoute "memory" "GetPendingCommitments" pattern_Memory_GetPendingCommitments (fun a =>
     request_Memory_GetPendingCommitments (fun x => answer_of (MemoryQuery_GetPendingCommitments a x)));
   mkRoute "memory" "GetMemoryCount" pattern_Memory_GetMemoryCount (fun a =>
     request_Memory_GetMemoryCount (fun x => answer_of (MemoryQuery_GetMemoryCount a x)));
   mkRoute "memory" "GetEpochMerkleRoot" pattern_Memory_GetEpochMerkleRoot (fun a =>
     request_Memory_GetEpochMerkleRoot (fun '(x, y) => answer_of (MemoryQuery_GetEpochMerkleRoot a x y)));
   mkRoute "memory" "Params" pattern_Memory_Params (fun a =>
     request_Memory_Params (fun _ => answer_of (MemoryQuery_Params a)));
   mkRoute "memory" "ListRelationships" pattern_Memory_ListRelationships (fun a =>
     request_Memory_ListRelationships (fun '(x, y) => answer_of (MemoryQuery_ListRelationships a x y)));
   mkRoute "memory" "GetValidity" pattern_Memory_GetValidity (fun a =>
     request_Memory_GetValidity (fun '(x, y) => answer_of (MemoryQuery_GetValidity a x y)));
   mkRoute "memory" "GetMemoriesBatch" pattern_Memory_GetMemoriesBatch (fun a =>
     request_Memory_GetMemoriesBatch (fun r => answer_of (MemoryQuery_GetMemoriesBatch a (Some (gmb_OrgId r, gmb_ContentHashes r)))))].

Definition RegisterQueryHandlerServer_bandwidth : list Route := [
   mkRoute "bandwidth" "GetBandwidthState" pattern_Bandwidth_GetBandwidthState (fun a =>
     local_request_Bandwidth_GetBandwidthState (fun '(x, y) => answer_of (BandwidthQuery_GetBandwidthState a x y)));
   mkRoute "bandwidth" "GetBandwidthOverride" pattern_Bandwidth_GetBandwidthOverride (fun a =>
     local_request_Bandwidth_GetBandwidthOverride (fun x => answer_of (BandwidthQuery_GetBandwidthOverride a x)));
   mkRoute "bandwidth" "GetRemainingBandwidth" pattern_Bandwidth_GetRemainingBandwidth (fun a =>
     local_request_Bandwidth_GetRemainingBandwidth (fun '(x, y) => answer_of (BandwidthQuery_GetRemainingBandwidth a x y)));
   mkRoute "bandwidth" "Params" pattern_Bandwidth_Params (fun a =>
     local_request_Bandwidth_Params (fun _ => answer_of (BandwidthQuery_Params a)))].

Definition RegisterQueryHandlerClient_bandwidth : list Route := [
   mkRoute "bandwidth" "GetBandwidthState" pattern_Bandwidth_GetBandwidthState (fun a =>
     request_Bandwidth_GetBandwidthState (fun '(x, y) => answer_of (BandwidthQuery_GetBandwidthState a x y)));
   mkRoute "bandwidth" "GetBandwidthOverride" pattern_Bandwidth_GetBandwidthOverride (fun a =>
     request_Bandwidth_GetBandwidthOverride (fun x => answer_of (BandwidthQuery_GetBandwidthOverride a x)));
   mkRoute "bandwidth" "GetRemainingBandwidth" pattern_Bandwidth_GetRemainingBandwidth (fun a =>
     request_Bandwidth_GetRemainingBandwidth (fun '(x, y) => answer_of (BandwidthQuery_GetRemainingBandwidth a x y)));
   mkRoute "bandwidth" "Params" pattern_Bandwidth_Params (fun a =>
     request_Bandwidth_Params (fun _ => answer_of (BandwidthQuery_Params a)))].

Definition RegisterQueryHandlerServer_attestation : list Route := [
   mkRoute "attestation" "GetSessionAttestation" pattern_Attestation_GetSessionAttestation (fun a =>
     local_request_Attestation_GetSessionAttestation (fun '(x, y) => answer_of (AttestationQuery_GetSessionAttestation a x y)));
   mkRoute "attestation" "ListSessionAttestations" pattern_Attestation_ListSessionAttestations (fun a =>
     local_request_Attestation_ListSessionAttestations (fun '(x, y) => answer_of (AttestationQuery_ListSessionAttestations a x y)));
   mkRoute "attestation" "Params" pattern_Attestation_Params (fun a =>
     local_request_Attestation_Params (fun _ => answer_of (AttestationQuery_Params a)))].

Definition RegisterQueryHandlerClient_attestation : list Route := [
   mkRoute "attestation" "GetSessionAttestation" pattern_Attestation_GetSessionAttestation (fun a =>
     request_Attestation_GetSessionAttestation (fun '(x, y) => answer_of (AttestationQuery_GetSessionAttestation a x y)));
   mkRoute "attestation" "ListSessionAttestations" pattern_Attestation_ListSessionAttestations (fun a =>
     request_Attestation_ListSessionAttestations (fun '(x, y) => answer_of (AttestationQuery_ListSessionAttestations a x y)));
   mkRoute "attestation" "Params" pattern_Attestation_Params (fun a =>
     request_Attestation_Params (fun _ => answer_of (AttestationQuery_Params a)))].

(** [Module.RegisterGRPCGatewayRoutes] exists for five of the modules; the
    basic manager calls those it finds. *)
Definition mounted : list Route :=
  (RegisterQueryHandlerClient_identity ++ RegisterQueryHandlerClient_org ++
   RegisterQueryHandlerClient_serve ++ RegisterQueryHandlerClient_reputation ++
   RegisterQueryHandlerClient_emissions)%list.

Definition unmounted : list Route :=
  (RegisterQueryHandlerClient_memory ++ RegisterQueryHandlerClient_bandwidth ++
   RegisterQueryHandlerClient_attestation)%list.

(** [ServeMux.ServeHTTP] for a GET request: the first route whose pattern matches
    the components of the path. *)
Definition serve_http (mux : list Route) (a : app) (req : Request) (components : list string) :
    option (result answer) :=
  match List.find (fun r => bool_decide (is_Some (Pattern_Match (rt_pattern r) components))) mux with
  | None => None
  | Some r => (fun pp => rt_handler r a req pp) <$> Pattern_Match (rt_pattern r) components
  end.
End Gateway.
