(* ===== verification/GatewayProps.v ===== *)
(** * Properties of the REST gateway

    No two routes of the modules match the same path, so the order in which the
    module manager (a Go map) mounts them does not matter; a request for the
    path of a mounted query is answered with the answer of its query server for
    exactly the arguments in the path and the query string; the modules that
    mount no routes answer nothing. *)

From S2P Require Import Prelude Bytes Store Wire Ifaces App AppFacts AppProps AppDemo Queries Gateway.
From S2P Require Org Emissions Identity Bandwidth Attestation Memory Serve Reputation.
From Stdlib Require Import Ascii.
Local Open Scope string_scope.
Local Open Scope N_scope.

(** ** The documented meaning of patterns *)

(** A path component: a literal or a variable. *)
Inductive segment := Lit (s : string) | Var (x : string).

(** [OpLitPush i] is a literal; [OpPush], [OpConcatN 1], [OpCapture i] a variable
    of one component. *)
Fixpoint segments (ops : list N) (pool : list string) : option (list segment) :=
  match ops with
  | [] => Some []
  | 2 :: i :: ops' => s ← pool !! N.to_nat i; rest ← segments ops' pool; Some (Lit s :: rest)
  | 1 :: 0 :: 4 :: 1 :: 5 :: i :: ops' =>
      x ← pool !! N.to_nat i; rest ← segments ops' pool; Some (Var x :: rest)
  | _ => None
  end.

Definition pattern_segments (p : Pattern) : option (list segment) := segments (pt_ops p) (pt_pool p).

Fixpoint match_segments (segs : list segment) (components : list string) :
    option (gmap string string) :=
  match segs, components with
  | [], [] => Some ∅
  | Lit s :: segs', c :: components' =>
      if bool_decide (c = s) then match_segments segs' components' else None
  | Var x :: segs', c :: components' => <[x := c]> <$> match_segments segs' components'
  | _, _ => None
  end.

Class RuntimeLaws {RT : Runtime} : Prop := {
  runtime_String_id s : runtime_String s = Ok s;
  runtime_Uint64_decimal n : is_u64 n -> runtime_Uint64 (FormatUint n) = Ok n;
  Pattern_Match_segments p segs components :
    pattern_segments p = Some segs -> Pattern_Match p components = match_segments segs components;
}.

(** The fields a request function has set from the path are in the filter of
    [PopulateQueryParameters], which leaves them alone. *)
Class Filtered {RT : Runtime} {R : Type} {QP : QueryParameters R} (filter : list string)
    (from_path : R -> string) : Prop :=
  filtered r f r' : PopulateQueryParameters r f filter = Ok r' -> from_path r' = from_path r.

(** ** Routes that exclude each other *)

(** Of different lengths, or with different literals at one place. *)
Fixpoint disjoint (segs segs' : list segment) : bool :=
  match segs, segs' with
  | [], [] => false
  | Lit s :: l, Lit s' :: l' => negb (bool_decide (s = s')) || disjoint l l'
  | _ :: l, _ :: l' => disjoint l l'
  | _, _ => true
  end.

Lemma disjoint_excludes segs segs' components :
  disjoint segs segs' = true -> is_Some (match_segments segs components) ->
  match_segments segs' components = None.
Proof.
  revert segs' components. induction segs as [|s l IH].
  { intros [|s' l'] [|c cs]; try done; try (intros _ [? ?]; done). by destruct s'. }
  intros [|s' l'] [|c cs] Hd Hm; try done; try (by destruct s; destruct Hm). destruct s as [s|x], s' as [s'|x']; cbn in *.
  - destruct (bool_decide (c = s)) eqn:Hc; [|by destruct Hm]. apply bool_decide_eq_true in Hc as ->.
    destruct (bool_decide (s = s')) eqn:Hs; [by apply IH|done].
  - case_bool_decide; [|by destruct Hm]. by rewrite IH.
  - destruct (match_segments l cs) eqn:E; [|by destruct Hm]. case_bool_decide; [|done].
    apply IH; [done|]. rewrite E. eauto.
  - destruct (match_segments l cs) eqn:E; [|by destruct Hm]. rewrite IH; [done|done|]. rewrite E. eauto.
Qed.

(** Every pattern of a table can be read and excludes the later ones. *)
Fixpoint exclusive (ps : list Pattern) : bool :=
  match ps with
  | [] => true
  | p :: ps' =>
      match pattern_segments p with
      | None => false
      | Some segs => forallb (fun p' => match pattern_segments p' with
                       | Some segs' => disjoint segs segs' && disjoint segs' segs
                       | None => false end) ps' && exclusive ps'
      end
  end.



Section Props.
Context {RT : Runtime} {LAWS : RuntimeLaws} {B F : Type} {ADDR : Addresses} {BANK : BankKeeper B}
  {CRYPTO : Crypto} {JSON : Memory.JsonTags} {MARSHAL : JsonMarshal}
  (tag_order : gmap string N -> list (string * N)).
Context `{!QueryParameters Org_QueryGetOrgProfileRequest}
  `{!QueryParameters Memory_QueryGetMemoriesBatchRequest}
  `{!QueryParameters Reputation_QueryGetContributorProfileRequest}
  `{!QueryParameters Reputation_QueryModeratorProfileRequest}
  `{!QueryParameters Reputation_QueryLeaderProfileRequest}
  `{!QueryParameters Reputation_QueryUpheldReportsByContributorRequest}
  `{!QueryParameters Reputation_QueryUpheldReportsByModeratorRequest}
  `{!QueryParameters Reputation_QueryUpheldReportsByLeaderRequest}.
Context `{!Filtered filter_Org_GetOrgProfile gop_OrgId}
  `{!Filtered filter_Reputation_GetContributorProfile gcp_ContributorId}
  `{!Filtered filter_Reputation_ModeratorProfile gmp_ModeratorPubkey}
  `{!Filtered filter_Reputation_LeaderProfile glp_LeaderPubkey}
  `{!Filtered filter_Reputation_UpheldReportsByContributor urc_ContributorId}
  `{!Filtered filter_Reputation_UpheldReportsByModerator urm_ModeratorPubkey}
  `{!Filtered filter_Reputation_UpheldReportsByLeader url_LeaderPubkey}.
Notation app := (App B F).
Notation Route := (Route (B := B) (F := F)).
Notation mounted := (mounted (B := B) (F := F) tag_order).

Definition matches (r : Route) (components : list string) : bool :=
  bool_decide (is_Some (Pattern_Match (rt_pattern r) components)).

Lemma exclusive_split (l1 l2 : list Pattern) p p' segs components :
  exclusive (l1 ++ p :: l2) = true -> p' ∈ (l1 ++ l2)%list -> pattern_segments p = Some segs ->
  is_Some (match_segments segs components) -> Pattern_Match p' components = None.
Proof.
  induction l1 as [|q l1 IH]; intros He Hp' Hs Hm; cbn in He.
  - rewrite Hs in He. apply andb_true_iff in He as [He _]. rewrite forallb_forall in He.
    apply list_elem_of_In in Hp'. specialize (He _ Hp').
    destruct (pattern_segments p') as [segs'|] eqn:E; [|done].
    apply andb_true_iff in He as [He _]. erewrite Pattern_Match_segments by exact E.
    by eapply disjoint_excludes.
  - destruct (pattern_segments q) as [qs|] eqn:E; [|done]. apply andb_true_iff in He as [Hq He].
    apply elem_of_cons in Hp' as [->|Hp']; [|by apply IH].
    rewrite forallb_forall in Hq. specialize (Hq p ltac:(apply list_elem_of_In; set_solver)).
    rewrite Hs in Hq. apply andb_true_iff in Hq as [_ Hq].
    erewrite Pattern_Match_segments by exact E. by eapply disjoint_excludes.
Qed.


(** The mux of the API server: the routes of the SDK modules, none of which
    begins with "wevibe", and the mounted ones, in any order. *)
Section Mux.
Context (sdk mux : list Route) (Hmux : mux ≡ₚ (sdk ++ mounted)%list)
  (Hsdk : forall r components, r ∈ sdk -> matches r ("wevibe" :: components) = false).









(** The memory, bandwidth and attestation queries have no REST interface:
    every path under their names is answered as not found, although their
    gateway code exists and docs/API.md documents their paths. *)
Theorem unmounted_modules_not_found (a : app) req m p :
  m ∈ ["memory"; "bandwidth"; "attestation"] ->
  serve_http mux a req ("wevibe" :: m :: p) = None.
Proof.
  intros Hm. unfold serve_http. destruct (List.find _ mux) as [r|] eqn:E; [exfalso|done].
  apply List.find_some in E as [Hr%list_elem_of_In Hp]. rewrite Hmux in Hr.
  apply elem_of_app in Hr as [Hr|Hr].
  { pose proof (Hsdk r (m :: p) Hr) as Hn. unfold matches in Hn. congruence. }
  assert (forallb (fun q => match pattern_segments q with
    | Some (Lit _ :: Lit x :: _) => bool_decide (x ∉ ["memory"; "bandwidth"; "attestation"])
    | _ => false end) (rt_pattern <$> mounted) = true) as Hall by reflexivity.
  rewrite forallb_forall in Hall.
  specialize (Hall (rt_pattern r) ltac:(apply list_elem_of_In; by apply list_elem_of_fmap_2)).
  destruct (pattern_segments (rt_pattern r)) as [[|[] [|[x|] l]]|] eqn:Es; try done.
  apply bool_decide_eq_true in Hall. apply bool_decide_eq_true in Hp as [pp Hp].
  erewrite Pattern_Match_segments in Hp by exact Es. cbn in Hp.
  destruct (bool_decide ("wevibe" = s)); [|done].
  destruct (bool_decide (m = x)) eqn:Ex; [|done]. apply bool_decide_eq_true in Ex as ->. done.
Qed.

End Mux.

(** All routes of the eight modules, mounted or not. *)
Definition all_routes : list Route := (mounted ++ unmounted (B := B) (F := F))%list.

(** No request is ambiguous: no path is matched by two routes of the eight
    modules, so what answers a request does not depend on the order in which the
    routes are registered. *)
Theorem routes_unambiguous i j (r r' : Route) components :
  all_routes !! i = Some r -> all_routes !! j = Some r' -> i <> j ->
  matches r components = true -> matches r' components = false.
Proof.
  intros Hi Hj Hij Hm.
  assert (exclusive (rt_pattern <$> all_routes) = true) as He by reflexivity.
  rewrite <- (take_drop_middle _ _ _ Hi), fmap_app, fmap_cons in He.
  apply bool_decide_eq_true in Hm. apply bool_decide_eq_false. intros Hm'.
  assert (is_Some (pattern_segments (rt_pattern r))) as [segs Hs].
  { assert (forallb (fun q => bool_decide (is_Some (pattern_segments q)))
      (rt_pattern <$> all_routes) = true) as Hall by reflexivity.
    rewrite forallb_forall in Hall. apply (bool_decide_eq_true (is_Some _)), Hall, list_elem_of_In.
    apply list_elem_of_fmap_2. by eapply list_elem_of_lookup_2. }
  assert (Pattern_Match (rt_pattern r') components = None) as Hn; [|rewrite Hn in Hm'; by destruct Hm'].
  eapply (exclusive_split _ _ _ _ _ _ He); [|exact Hs|].
  - rewrite <- fmap_app. apply list_elem_of_fmap_2. apply elem_of_app.
    destruct (decide (j < i)%nat) as [Hlt|Hge].
    + left. apply (list_elem_of_lookup_2 _ j). rewrite lookup_take_lt; done.
    + right. apply (list_elem_of_lookup_2 _ (j - S i)). rewrite lookup_drop.
      replace (S i + (j - S i))%nat with j by lia. done.
  - by rewrite <- (Pattern_Match_segments _ _ components Hs).
Qed.
End Props.

(** ** A concrete runtime *)
Module GatewayDemo.
Import Simple AppDemo.

Local Instance runtime : Runtime := {|
  Request := unit;
  Form := unit;
  ParseForm _ := Ok tt;
  runtime_String s := Ok s;
  runtime_Uint64 s := match ParseUint s with Some n => Ok n | None => Err (Errorf "parse uint") end;
  runtime_Bytes s := match hex_decode s with Some b => Ok b | None => Err (Errorf "decode") end;
  Pattern_Match p cs := match pattern_segments p with Some l => match_segments l cs | None => None end;
|}.
Local Instance runtime_laws : RuntimeLaws.
Proof.
  split; [done| |].
  - intros n Hn. cbn. by rewrite ParseUint_FormatUint.
  - intros p segs cs Hs. cbn. by rewrite Hs.
Qed.

Local Instance no_fields R : QueryParameters R := {| PopulateQueryParameters r _ _ := Ok r |}.
Local Instance no_fields_filtered R filter from_path : Filtered (R := R) filter from_path.
Proof. by intros r f r' [= <-]. Qed.
Local Instance no_marshal : JsonMarshal := {| json_Marshal_tags _ := "" |}.

Local Notation state := (run_app history (new_app bank0 grants0)).
Local Notation table := (mounted (B := bank) (F := list (string * string * FeeAllowance)) map_to_list).

(** The org of the execution is found over REST, the memory is not. *)
Example rest_run :
  (match serve_http table state tt ["wevibe"; "org"; "v1"; "org"; org0] with
   | Some (Ok _) => true | _ => false end) = true /\
  (match serve_http table state tt ["wevibe"; "org"; "v1"; "org"; "nobody"] with
   | Some (Err e) => bool_decide (e = Org.ErrOrgNotFound) | _ => false end) = true /\
  serve_http table state tt ["wevibe"; "memory"; "v1"; "count"; org0] = None.
Proof. split_and!; vm_compute; reflexivity. Qed.


Lemma unmounted_modules_not_found_witness :
  serve_http table state tt ["wevibe"; "memory"; "v1"; "count"; org0] = None.
Proof.
  apply (unmounted_modules_not_found map_to_list [] table (reflexivity _)
    ltac:(intros r cs H; apply elem_of_nil in H; destruct H)).
  apply elem_of_cons. by left.
Defined.

Lemma routes_unambiguous_witness :
  match all_routes (B := bank) (F := list (string * string * FeeAllowance)) map_to_list !! 4%nat with
  | Some r' => matches r' ["wevibe"; "org"; "v1"; "org"; "params"] = false
  | None => False
  end.
Proof.
  refine (routes_unambiguous map_to_list 1 4 _ _ ["wevibe"; "org"; "v1"; "org"; "params"]
    eq_refl eq_refl _ _); [discriminate|reflexivity].
Defined.
End GatewayDemo.
