(* ===== verification/Autocli.v ===== *)
(** * Command descriptors of the modules (x/*/module/autocli.go)

    Each module describes command-line commands for its Query and Msg services:
    the RPC method, the usage line and the request fields the positional
    arguments go to.  Beside each descriptor stands the service it describes (the
    server interfaces of query.pb.go and tx.pb.go with the field names of their
    requests), so that the two can be compared.  The root command never loads
    the descriptors (Cli.v). *)

From S2P Require Import Prelude Bytes.
From Stdlib Require Import Ascii.
Local Open Scope string_scope.

(** [autocliv1.RpcCommandOptions]; the help text is left out. *)
Record Rpc := mkRpc {
  RpcMethod : string;
  Use : string;
  PositionalArgs : list string;
}.
Record Descriptor := mkDescriptor {
  Service : string;
  RpcCommandOptions : list Rpc;
}.

(** x/org *)
Definition Org_Query : Descriptor := mkDescriptor "wevibe.org.v1.Query" [
   mkRpc "GetOrg" "get-org [org-id]" ["org_id"];
   mkRpc "GetMembers" "get-members [org-id]" ["org_id"];
   mkRpc "IsMember" "is-member [org-id] [pubkey]" ["org_id"; "pubkey"];
   mkRpc "Params" "params" [];
   mkRpc "GetOrgConfig" "get-org-config [org-id]" ["org_id"]].
Definition Org_Query_methods : list (string * list string) := [
   ("GetOrg", ["org_id"]);
   ("GetMembers", ["org_id"]);
   ("IsMember", ["org_id"; "pubkey"]);
   ("Params", []);
   ("GetOrgConfig", ["org_id"]);
   ("GetOrgProfile", ["org_id"; "epoch"]);
   ("GetOrgAccount", ["org_id"])].
Definition Org_Tx : Descriptor := mkDescriptor "wevibe.org.v1.Msg" [
   mkRpc "RegisterOrg" "register-org [org-id] [leader-address]" ["org_id"; "leader"];
   mkRpc "AddMember" "add-member [org-id] [pubkey] [role]" ["org_id"; "pubkey"; "role"];
   mkRpc "SetMemberCapabilities" "set-member-capabilities [org-id] [pubkey] [can-contribute] [can-moderate]" ["org_id"; "pubkey"; "can_contribute"; "can_moderate"];
   mkRpc "RemoveMember" "remove-member [org-id] [pubkey]" ["org_id"; "pubkey"];
   mkRpc "UpdateParams" "update-params" [];
   mkRpc "SetOrgConfig" "set-org-config [org-id]" ["org_id"];
   mkRpc "GrantTrialAllowance" "grant-trial-allowance [org-id] [grantee] [daily-submissions] [trial-days]" ["org_id"; "grantee"; "daily_submissions"; "trial_days"]].
Definition Org_Tx_methods : list (string * list string) := [
   ("RegisterOrg", ["signer"; "leader"; "storage_quota"; "retrieval_budget"; "domain";
      "hub_serving_key"; "leader_wallet"; "description"; "tech_stack"; "focus_areas"; "name"]);
   ("AddMember", ["signer"; "org_id"; "pubkey"; "role"; "x25519_pubkey"; "can_contribute";
      "can_moderate"]);
   ("RemoveMember", ["signer"; "org_id"; "pubkey"]);
   ("UpdateParams", ["authority"; "params"]);
   ("SetOrgConfig", ["signer"; "org_id"; "serve_receipt_required"; "min_contributions_per_epoch";
      "contest_stake_vibe"; "vocab_hash"; "embedding_model_id"]);
   ("GrantTrialAllowance", ["signer"; "org_id"; "grantee"; "daily_submissions"; "trial_days"]);
   ("SetMemberCapabilities", ["signer"; "org_id"; "pubkey"; "can_contribute"; "can_moderate"]);
   ("TransferLeadership", ["signer"; "org_id"; "new_leader"; "new_leader_wallet"]);
   ("CloseOrg", ["signer"; "org_id"]);
   ("SetServingKey", ["signer"; "org_id"; "new_serving_key"]);
   ("SetServingInfo", ["signer"; "org_id"; "hub_endpoints"; "hub_response_pubkey"])].

(** x/memory *)
Definition Memory_Query : Descriptor := mkDescriptor "wevibe.memory.v1.Query" [
   mkRpc "GetMemory" "get-memory [org-id] [content-hash]" ["org_id"; "content_hash"];
   mkRpc "GetPendingCommitments" "get-pending [org-id]" ["org_id"];
   mkRpc "GetMemoryCount" "get-count [org-id]" ["org_id"];
   mkRpc "GetEpochMerkleRoot" "get-merkle-root [org-id] [epoch]" ["org_id"; "epoch"];
   mkRpc "Params" "params" [];
   mkRpc "GetMemoriesBatch" "get-memories-batch [org-id] [content-hash...]" ["org_id"; "content_hashes"]].
Definition Memory_Query_methods : list (string * list string) := [
   ("GetMemory", ["org_id"; "content_hash"]);
   ("GetPendingCommitments", ["org_id"]);
   ("GetMemoryCount", ["org_id"]);
   ("GetEpochMerkleRoot", ["org_id"; "epoch"]);
   ("Params", []);
   ("ListRelationships", ["org_id"; "cid"]);
   ("GetValidity", ["org_id"; "cid"]);
   ("GetMemoriesBatch", ["org_id"; "content_hashes"])].
Definition Memory_Tx : Descriptor := mkDescriptor "wevibe.memory.v1.Msg" [
   mkRpc "SubmitCommitment" "submit-commitment [org-id] [content-hash] [contributor-id]" ["org_id"; "content_hash"; "contributor_id"];
   mkRpc "ApproveMemory" "approve-memory [org-id] [content-hash]" ["org_id"; "content_hash"];
   mkRpc "RejectMemory" "reject-memory [org-id] [content-hash]" ["org_id"; "content_hash"];
   mkRpc "PurgeExpired" "purge-expired [org-id]" ["org_id"];
   mkRpc "UpdateParams" "update-params" []].
Definition Memory_Tx_methods : list (string * list string) := [
   ("SubmitCommitment", ["signer"; "org_id"; "content_hash"; "contributor_id"; "contributor_wallet";
      "memory_type"; "keywords"; "producer_model_id"; "attestation_session_hash"; "mc_version"]);
   ("ApproveMemory", ["signer"; "org_id"; "content_hash"; "encrypted_blob"; "committing_leader";
      "wrapped_dek_enc"; "memory_type"; "plaintext_hash"; "salt"; "ciphertext_hash"; "contributor_sig";
      "mc_version"]);
   ("UpdateParams", ["authority"; "params"]);
   ("ReportMemory", ["signer"; "org_id"; "content_hash"; "contributor_pubkey";
      "approving_moderators"; "upholding_moderators"; "reporter_pubkey"; "reason"; "plaintext";
      "ciphertext"; "capsule"; "plaintext_hash"; "plaintext_oversized"])].

(** x/serve *)
Definition Serve_Query : Descriptor := mkDescriptor "wevibe.serve.v1.Query" [
   mkRpc "GetEpochServeStats" "get-stats [org-id] [epoch]" ["org_id"; "epoch"];
   mkRpc "GetContributorServes" "get-contributor [contributor-id] [epoch]" ["contributor_id"; "epoch"];
   mkRpc "GetMemoryServeCount" "get-memory-count [org-id] [content-hash] [epoch]" ["org_id"; "content_hash"; "epoch"];
   mkRpc "ListEvents" "list-events [org-id] [epoch]" ["org_id"; "epoch"];
   mkRpc "GetPolicyAnchor" "get-policy-anchor [policy-version]" ["policy_version"];
   mkRpc "GetLatestPolicyAnchor" "get-latest-policy-anchor" [];
   mkRpc "Params" "params" []].
Definition Serve_Query_methods : list (string * list string) := [
   ("GetEpochServeStats", ["org_id"; "epoch"]);
   ("GetContributorServes", ["contributor_id"; "epoch"]);
   ("GetMemoryServeCount", ["org_id"; "content_hash"; "epoch"]);
   ("ListEvents", ["org_id"; "epoch"]);
   ("GetPolicyAnchor", ["policy_version"]);
   ("GetLatestPolicyAnchor", []);
   ("Params", [])].
Definition Serve_Tx : Descriptor := mkDescriptor "wevibe.serve.v1.Msg" [
   mkRpc "SubmitServeBatch" "submit-batch [org-id] [epoch]" ["org_id"; "epoch"];
   mkRpc "SubmitDenialBatch" "submit-denials [org-id] [epoch]" ["org_id"; "epoch"];
   mkRpc "SubmitEventBatch" "submit-events [org-id] [epoch]" ["org_id"; "epoch"];
   mkRpc "AnchorPolicyVersion" "anchor-policy-version [policy-version] [policy-hash]" ["policy_version"; "policy_hash"];
   mkRpc "UpdateParams" "update-params" []].
Definition Serve_Tx_methods : list (string * list string) := [
   ("SubmitServeBatch", ["signer"; "org_id"; "epoch"; "serves"]);
   ("SubmitDenialBatch", ["signer"; "org_id"; "epoch"; "entries"]);
   ("SubmitEventBatch", ["signer"; "org_id"; "epoch"; "events"]);
   ("AnchorPolicyVersion", ["authority"; "policy_version"; "policy_hash"]);
   ("UpdateParams", ["authority"; "params"])].

(** x/emissions *)
Definition Emissions_Query : Descriptor := mkDescriptor "wevibe.emissions.v1.Query" [
   mkRpc "GetEmissionPool" "pool" [];
   mkRpc "ContributorReward" "contributor-reward [pubkey]" ["pubkey"];
   mkRpc "Params" "params" []].
Definition Emissions_Query_methods : list (string * list string) := [
   ("GetEmissionPool", []);
   ("Params", []);
   ("ContributorReward", ["pubkey"])].
Definition Emissions_Tx : Descriptor := mkDescriptor "wevibe.emissions.v1.Msg" [
   mkRpc "MintDailyEmission" "mint-emission [epoch]" ["epoch"];
   mkRpc "UpdateParams" "update-params" []].
Definition Emissions_Tx_methods : list (string * list string) := [
   ("MintDailyEmission", ["authority"; "epoch"]);
   ("UpdateParams", ["authority"; "params"]);
   ("ClaimContributorReward", ["signer"; "passkey_pubkey"])].

(** x/bandwidth *)
Definition Bandwidth_Query : Descriptor := mkDescriptor "wevibe.bandwidth.v1.Query" [
   mkRpc "GetBandwidthState" "get-state [org-id] [epoch]" ["org_id"; "epoch"];
   mkRpc "GetBandwidthOverride" "get-override [org-id]" ["org_id"];
   mkRpc "GetRemainingBandwidth" "get-remaining [org-id] [epoch]" ["org_id"; "epoch"];
   mkRpc "Params" "params" []].
Definition Bandwidth_Query_methods : list (string * list string) := [
   ("GetBandwidthState", ["org_id"; "epoch"]);
   ("GetBandwidthOverride", ["org_id"]);
   ("GetRemainingBandwidth", ["org_id"; "epoch"]);
   ("Params", [])].
Definition Bandwidth_Tx : Descriptor := mkDescriptor "wevibe.bandwidth.v1.Msg" [
   mkRpc "SetBandwidthOverride" "set-override [org-id] [memory-cap] [serve-cap]" ["org_id"; "memory_cap"; "serve_cap"];
   mkRpc "UpdateParams" "update-params" []].
Definition Bandwidth_Tx_methods : list (string * list string) := [
   ("SetBandwidthOverride", ["signer"; "org_id"; "memory_cap"; "serve_cap"]);
   ("UpdateParams", ["authority"; "params"])].

(** x/identity *)
Definition Identity_Query : Descriptor := mkDescriptor "wevibe.identity.v1.Query" [
   mkRpc "ResolveIdentity" "resolve-identity [passkey-pubkey]" ["passkey_pubkey"]].
Definition Identity_Query_methods : list (string * list string) := [
   ("ResolveIdentity", ["passkey_pubkey"])].
Definition Identity_Tx : Descriptor := mkDescriptor "wevibe.identity.v1.Msg" [
   mkRpc "MigrateIdentity" "migrate-identity [passkey-pubkey] [passkey-signature] [nonce]" ["passkey_pubkey"; "passkey_signature"; "nonce"]].
Definition Identity_Tx_methods : list (string * list string) := [
   ("MigrateIdentity", ["signer"; "passkey_pubkey"; "passkey_signature"; "nonce"])].

(** x/reputation *)
Definition Reputation_Query : Descriptor := mkDescriptor "wevibe.reputation.v1.Query" [
   mkRpc "GetReputation" "get-reputation [developer-hex]" ["developer"];
   mkRpc "GetXP" "get-xp [developer-hex]" ["developer"];
   mkRpc "IsActive" "is-active" [];
   mkRpc "Params" "params" [];
   mkRpc "GetServeStats" "get-serve-stats [developer-hex]" ["developer"];
   mkRpc "GetContributorOrgSet" "get-contributor-org-set [developer-hex]" ["developer"];
   mkRpc "GetCrossOrgProfile" "get-cross-org-profile [developer-hex]" ["developer"];
   mkRpc "ModeratorProfile" "moderator-profile [moderator-pubkey] [org-id]" ["moderator_pubkey"; "org_id"];
   mkRpc "LeaderProfile" "leader-profile [leader-pubkey] [org-id]" ["leader_pubkey"; "org_id"];
   mkRpc "UpheldReportsByContributor" "upheld-reports-by-contributor [contributor-id]" ["contributor_id"];
   mkRpc "UpheldReportsByModerator" "upheld-reports-by-moderator [moderator-pubkey]" ["moderator_pubkey"];
   mkRpc "UpheldReportsByLeader" "upheld-reports-by-leader [leader-pubkey]" ["leader_pubkey"];
   mkRpc "VerifyUpheldReport" "verify-upheld-report [org-id] [content-hash-hex]" ["org_id"; "content_hash"]].
Definition Reputation_Query_methods : list (string * list string) := [
   ("GetReputation", ["developer"]);
   ("GetXP", ["developer"]);
   ("IsActive", []);
   ("Params", []);
   ("GetServeStats", ["developer"]);
   ("GetContributorOrgSet", ["developer"]);
   ("GetCrossOrgProfile", ["developer"]);
   ("GetContributorProfile", ["contributor_id"; "epoch"]);
   ("ModeratorProfile", ["moderator_pubkey"; "org_id"]);
   ("LeaderProfile", ["leader_pubkey"; "org_id"]);
   ("UpheldReportsByContributor", ["contributor_id"; "pagination"]);
   ("UpheldReportsByModerator", ["moderator_pubkey"; "pagination"]);
   ("UpheldReportsByLeader", ["leader_pubkey"; "pagination"]);
   ("VerifyUpheldReport", ["org_id"; "content_hash"])].
Definition Reputation_Tx : Descriptor := mkDescriptor "wevibe.reputation.v1.Msg" [
   mkRpc "UpdateReputation" "update-reputation [developer-hex] [memory-cid]" ["developer"; "memory_cid"];
   mkRpc "UpdateParams" "update-params" []].
Definition Reputation_Tx_methods : list (string * list string) := [
   ("UpdateReputation", ["signer"; "developer"; "memory_cid"; "difficulty"; "quality"; "domain_tags";
      "provenance"]);
   ("IncrementContribution", ["authority"; "contributor_id"; "org_id"; "memory_cid"]);
   ("IncrementServe", ["authority"; "contributor_id"; "org_id"; "memory_cid"; "serve_count"]);
   ("RecordBan", ["authority"; "contributor_id"; "org_id"; "memory_cid"]);
   ("UpdateParams", ["authority"; "params"])].

(** x/attestation *)
Definition Attestation_Query : Descriptor := mkDescriptor "wevibe.attestation.v1.Query" [
   mkRpc "GetSessionAttestation" "get-session [org-id] [session-hash]" ["org_id"; "session_hash"];
   mkRpc "ListSessionAttestations" "list-sessions [org-id] [epoch]" ["org_id"; "epoch"];
   mkRpc "Params" "params" []].
Definition Attestation_Query_methods : list (string * list string) := [
   ("GetSessionAttestation", ["org_id"; "session_hash"]);
   ("ListSessionAttestations", ["org_id"; "epoch"]);
   ("Params", [])].
Definition Attestation_Tx : Descriptor := mkDescriptor "wevibe.attestation.v1.Msg" [
   mkRpc "SubmitSessionAttestation" "submit-session [org-id] [session-hash]" ["org_id"; "session_hash"];
   mkRpc "UpdateParams" "update-params" []].
Definition Attestation_Tx_methods : list (string * list string) := [
   ("SubmitSessionAttestation", ["signer"; "org_id"; "session_hash"; "model_id"; "turn_count";
      "token_count"; "provider_type"; "commitllm_receipt_hash"; "provider_signature_hash";
      "contributor_id"; "epoch"]);
   ("UpdateParams", ["authority"; "params"])].

(** ** Comparing descriptors and services *)

(** The placeholders of a usage line: its words that start with a bracket. *)
Fixpoint count_char (c : ascii) (s : string) : nat :=
  match s with
  | EmptyString => 0
  | String a s' => (if Ascii.eqb a c then 1 else 0) + count_char c s'
  end.
Definition placeholders (usage : string) : nat := count_char "["%char usage.

(** A method the service does not have. *)
Definition dangling_methods (d : Descriptor) (methods : list (string * list string)) : list string :=
  List.filter (fun m => negb (existsb (String.eqb m) methods.*1)) (RpcMethod <$> RpcCommandOptions d).

(** An argument for a field the request does not have. *)
Definition dangling_args (d : Descriptor) (methods : list (string * list string)) :
    list (string * string) :=
  mjoin ((fun r =>
    match List.find (fun m => String.eqb m.1 (RpcMethod r)) methods with
    | None => []
    | Some m => pair (RpcMethod r) <$>
        List.filter (fun f => negb (existsb (String.eqb f) m.2)) (PositionalArgs r)
    end) <$> RpcCommandOptions d).

Definition arity_ok (d : Descriptor) : bool :=
  forallb (fun r => Nat.eqb (placeholders (Use r)) (length (PositionalArgs r))) (RpcCommandOptions d).

Definition all_descriptors : list (Descriptor * list (string * list string)) := [
   (Org_Query, Org_Query_methods); (Org_Tx, Org_Tx_methods);
   (Memory_Query, Memory_Query_methods); (Memory_Tx, Memory_Tx_methods);
   (Serve_Query, Serve_Query_methods); (Serve_Tx, Serve_Tx_methods);
   (Emissions_Query, Emissions_Query_methods); (Emissions_Tx, Emissions_Tx_methods);
   (Bandwidth_Query, Bandwidth_Query_methods); (Bandwidth_Tx, Bandwidth_Tx_methods);
   (Identity_Query, Identity_Query_methods); (Identity_Tx, Identity_Tx_methods);
   (Reputation_Query, Reputation_Query_methods); (Reputation_Tx, Reputation_Tx_methods);
   (Attestation_Query, Attestation_Query_methods); (Attestation_Tx, Attestation_Tx_methods)].

(** Every usage line has one placeholder for each positional argument. *)
Lemma usage_matches_arguments : forallb (fun d => arity_ok d.1) all_descriptors = true.
Proof. vm_compute. reflexivity. Qed.

(** Two commands call methods the memory service no longer has, and the command
    for registering an org fills in a field its message does not have; all others
    fit their service. *)
Lemma dangling_descriptors :
  mjoin ((fun d => dangling_methods d.1 d.2) <$> all_descriptors) = ["RejectMemory"; "PurgeExpired"] /\
  mjoin ((fun d => dangling_args d.1 d.2) <$> all_descriptors) = [("RegisterOrg", "org_id")].
Proof. split; vm_compute; reflexivity. Qed.
