(* ===== verification/Cli.v ===== *)
(** * The command line (cmd/wevibed/cmd/root.go)

    The root command with its checks before every command, the query commands
    written in this repository, and the entry points [newApp] and [appExport]
    the server commands call.  A query command checks the number of its
    arguments (cobra does it before [RunE]), turns them into a request and prints
    the answer of the node; the client context and the node are parameters, as
    are the commands of the SDK. *)

From S2P Require Import Prelude Bytes Ifaces App AppConfig Json AppExport.
From S2P Require Import Memory.
From Stdlib Require Import Ascii.
Local Open Scope string_scope.
Local Open Scope N_scope.

(** ** Arguments *)
Definition epochDurationSecondsEnv : string := "WEVIBE_EPOCH_DURATION_SECONDS".

Definition parseUint64Arg (raw field : string) : result N :=
  match ParseUint raw with
  | None => Err (Errorf ("invalid " +:+ field))
  | Some value => Ok value
  end.

(** [strconv.Atoi]: an optional sign and decimal digits, within 64 bits. *)
Definition Atoi (s : string) : option Z :=
  match s with
  | EmptyString => None
  | String c s' =>
      if Ascii.eqb c "-" then
        match s', digits_val 0 s' with
        | EmptyString, _ | _, None => None
        | _, Some n => if n <=? two63 then Some (- Z.of_N n)%Z else None
        end
      else
        let digits := if Ascii.eqb c "+" then s' else s in
        match digits, digits_val 0 digits with
        | EmptyString, _ | _, None => None
        | _, Some n => if n <? two63 then Some (Z.of_N n) else None
        end
  end.

(** [raw] is the value of the environment variable. *)
Definition validateEpochDurationSecondsEnv (raw : string) : result unit :=
  if bool_decide (raw = "") then Ok tt
  else match Atoi raw with
       | Some seconds => if (seconds <? 1)%Z then Err (Errorf ("invalid " +:+ epochDurationSecondsEnv)) else Ok tt
       | None => Err (Errorf ("invalid " +:+ epochDurationSecondsEnv))
       end.

(** ** Commands *)
Inductive PositionalArgs := NoArgs | ExactArgs (n : nat).

(** The requests the query commands send. *)
Inductive Query :=
  | Account (Address : string)
  | ModuleAccountByName (Name : string)
  | Balance (Address Denom : string)
  | AllBalances (Address : string)
  | Validator (ValidatorAddr : string)
  | Validators
  | DistributionParams
  | ValidatorOutstandingRewards (ValidatorAddress : string)
  | ValidatorCommission (ValidatorAddress : string)
  | CommunityPool
  | SlashingParams
  | SigningInfo (ConsAddress : string)
  | SigningInfos
  | Proposal (ProposalId : N)
  | Proposals
  | Vote (ProposalId : N) (Voter : string)
  | Votes (ProposalId : N)
  | CurrentPlan
  | AppliedPlan (Name : string).

(** [args[i]]. *)
Definition arg (args : list string) (i : nat) : result string :=
  match args !! i with Some s => Ok s | None => Err (Panic "index out of range") end.

Section Commands.
Context {R : Type} (GetClientQueryContext : result unit) (node : Query -> result R).

(** [clientCtx, err := ...]; the query; [clientCtx.PrintProto(res)]. *)
Definition ask (q : result Query) : result R :=
  GetClientQueryContext ;; (req ← q; node req).

Record Command := mkCommand {
  cmd_Name : string;
  cmd_Args : PositionalArgs;
  cmd_RunE : list string -> result R;
}.
Record Group := mkGroup { grp_Name : string; grp_Commands : list Command }.

Definition queryAuthCommand : Group := mkGroup "auth" [
   mkCommand "account" (ExactArgs 1) (fun args => ask (a ← arg args 0; mret (Account a)));
   mkCommand "module-account" (ExactArgs 1) (fun args =>
     ask (a ← arg args 0; mret (ModuleAccountByName a)))].

Definition queryBankCommand : Group := mkGroup "bank" [
   mkCommand "balance" (ExactArgs 2) (fun args =>
     ask (a ← arg args 0; d ← arg args 1; mret (Balance a d)));
   mkCommand "balances" (ExactArgs 1) (fun args => ask (a ← arg args 0; mret (AllBalances a)))].

Definition queryStakingCommand : Group := mkGroup "staking" [
   mkCommand "validator" (ExactArgs 1) (fun args => ask (a ← arg args 0; mret (Validator a)));
   mkCommand "validators" NoArgs (fun _ => ask (mret Validators))].

Definition queryDistributionCommand : Group := mkGroup "distribution" [
   mkCommand "params" NoArgs (fun _ => ask (mret DistributionParams));
   mkCommand "validator-outstanding-rewards" (ExactArgs 1) (fun args =>
     ask (a ← arg args 0; mret (ValidatorOutstandingRewards a)));
   mkCommand "commission" (ExactArgs 1) (fun args =>
     ask (a ← arg args 0; mret (ValidatorCommission a)));
   mkCommand "community-pool" NoArgs (fun _ => ask (mret CommunityPool))].

Definition querySlashingCommand : Group := mkGroup "slashing" [
   mkCommand "params" NoArgs (fun _ => ask (mret SlashingParams));
   mkCommand "signing-info" (ExactArgs 1) (fun args => ask (a ← arg args 0; mret (SigningInfo a)));
   mkCommand "signing-infos" NoArgs (fun _ => ask (mret SigningInfos))].

(** The proposal id is parsed before the client context is read. *)
Definition queryGovCommand : Group := mkGroup "gov" [
   mkCommand "proposal" (ExactArgs 1) (fun args =>
     raw ← arg args 0; proposalID ← parseUint64Arg raw "proposal id"; ask (mret (Proposal proposalID)));
   mkCommand "proposals" NoArgs (fun _ => ask (mret Proposals));
   mkCommand "vote" (ExactArgs 2) (fun args =>
     raw ← arg args 0; proposalID ← parseUint64Arg raw "proposal id";
     ask (voter ← arg args 1; mret (Vote proposalID voter)));
   mkCommand "votes" (ExactArgs 1) (fun args =>
     raw ← arg args 0; proposalID ← parseUint64Arg raw "proposal id"; ask (mret (Votes proposalID)))].

Definition queryUpgradeCommand : Group := mkGroup "upgrade" [
   mkCommand "plan" NoArgs (fun _ => ask (mret CurrentPlan));
   mkCommand "applied" (ExactArgs 1) (fun args => ask (a ← arg args 0; mret (AppliedPlan a)))].

Definition queryCommand : list Group :=
  [queryAuthCommand; queryBankCommand; queryStakingCommand; queryDistributionCommand;
   querySlashingCommand; queryGovCommand; queryUpgradeCommand].

(** cobra's [ValidateArgs], then [RunE]. *)
Definition args_ok (p : PositionalArgs) (args : list string) : bool :=
  match p with NoArgs => Nat.eqb (length args) 0 | ExactArgs n => Nat.eqb (length args) n end.
Definition execute (c : Command) (args : list string) : result R :=
  if args_ok (cmd_Args c) args then cmd_RunE c args else Err (Errorf "accepts another number of args").

(** [wevibed query <group> <command> <args>]; the commands of the SDK apart. *)
Definition query (words : list string) : result R :=
  match words with
  | g :: c :: args =>
      match List.find (fun x => String.eqb (grp_Name x) g) queryCommand with
      | None => Err (Errorf "unknown command")
      | Some grp =>
          match List.find (fun x => String.eqb (cmd_Name x) c) (grp_Commands grp) with
          | None => Err (Errorf "unknown command")
          | Some cmd => execute cmd args
          end
      end
  | _ => Err (Errorf "unknown command")
  end.

(** ** The root command *)

(** [PersistentPreRunE]: the environment variable is checked first; the other
    steps are the SDK's. *)
Definition PersistentPreRunE (env : string) (ReadPersistentCommandFlags ReadFromClientConfig
    SetCmdClientContextHandler InterceptConfigsPreRunHandler : result unit) : result unit :=
  validateEpochDurationSecondsEnv env ;;
  ReadPersistentCommandFlags ;;
  ReadFromClientConfig ;;
  SetCmdClientContextHandler ;;
  InterceptConfigsPreRunHandler.

(** [initAppConfig]: the default minimum gas price written to app.toml. *)
Definition MinGasPrices : string := "0.01vibe".
End Commands.

(** The groups of [txCommand] are those of five modules of the SDK and of the
    file's own slashing command. *)
Definition txSlashingCommand : string * list string := ("slashing", ["unjail"]).
Definition txCommand : list string :=
  ["bank"; "staking"; "distribution"; "gov"; (txSlashingCommand).1; "upgrade"].

(** ** The application behind the server commands *)
Section Server.
Context {B F : Type} {ADDR : Addresses} {BANK : BankKeeper B} {FEEGRANT : FeegrantKeeper F}
  {URL : UrlParser} {CRYPTO : Crypto} {JSON : Memory.JsonTags} {SDK : SdkNames} {B64 : Base64}
  (model_order : gmap string N -> list (string * N))
  (stats_order : gmap string Reputation.ReputationStats -> list Reputation.ReputationStats).
Notation app := (App B F).

(** The versions in the database of the node. *)
Context (LoadLatestVersion : result app) (LoadVersion : Z -> result app).

(** [newApp]: the latest version; a failure to load it is a panic. *)
Definition newApp : result app :=
  match LoadLatestVersion with Ok a => Ok a | Err _ => Err (Panic "error loading last version") end.

(** [appExport]: a height other than -1 is loaded explicitly.  The flags for a
    zero-height export and for a choice of modules are passed on to
    [ExportAppStateAndValidators], which does not look at them. *)
Definition appExport (height : Z) (forZeroHeight : bool) (jailAllowedAddrs modulesToExport : list string) :
    result json :=
  a ← (if negb (height =? -1)%Z then LoadVersion height else newApp);
  ExportAppStateAndValidators model_order stats_order a.
End Server.

(** ** Properties *)
Definition no_panic {A} (r : result A) : Prop := forall t, r <> Err (Panic t).

Lemma no_panic_bind {A B} (r : result A) (f : A -> result B) :
  no_panic r -> (forall x, r = Ok x -> no_panic (f x)) -> no_panic (r ≫= f).
Proof. intros Hr Hf. destruct r as [x|e]; [by apply Hf|]. intros t [= ->]. by apply (Hr t). Qed.
Lemma no_panic_ok {A} (x : A) : no_panic (Ok x).
Proof. by intros t. Qed.
Lemma no_panic_parse raw field : no_panic (parseUint64Arg raw field).
Proof. unfold parseUint64Arg. by destruct (ParseUint raw). Qed.

Section Safety.
Context {R : Type} (ctx : result unit) (node : Query -> result R).
Hypothesis node_no_panic : forall q, no_panic (node q).
Hypothesis ctx_no_panic : no_panic ctx.

Lemma no_panic_ask q : no_panic q -> no_panic (ask ctx node q).
Proof.
  intros Hq. apply no_panic_bind; [done|]. intros _ _. apply no_panic_bind; [done|]. intros; apply node_no_panic.
Qed.

Definition command_safe (c : @Command R) : Prop :=
  forall args, args_ok (cmd_Args c) args = true -> no_panic (cmd_RunE c args).

Lemma commands_safe : Forall (fun g => Forall command_safe (grp_Commands g)) (queryCommand ctx node).
Proof.
  repeat (apply Forall_cons; split); try apply Forall_nil; try exact I;
    intros [|a1 [|a2 [|a3 args]]] Hargs; try discriminate Hargs;
    cbn [cmd_RunE grp_Commands];
    repeat first
      [ apply no_panic_ask | apply no_panic_ok | apply no_panic_parse
      | apply no_panic_bind; [|intros] ].
Qed.

(** No query command reads past its arguments.  Whatever words follow
    [wevibed query], the command either fails with an error or sends a request:
    it never panics, provided the client and the node do not. *)
Theorem query_never_panics (words : list string) : no_panic (query ctx node words).
Proof.
  unfold query. destruct words as [|g [|c args]]; try by intros t.
  destruct (List.find _ (queryCommand ctx node)) as [grp|] eqn:Eg; [|by intros t].
  destruct (List.find _ (grp_Commands grp)) as [cmd|] eqn:Ec; [|by intros t].
  apply find_some in Eg as [Hg _], Ec as [Hc _]. unfold execute.
  destruct (args_ok _ _) eqn:Ea; [|by intros t].
  pose proof commands_safe as Hs. rewrite Forall_forall in Hs.
  specialize (Hs grp). rewrite list_elem_of_In in Hs. specialize (Hs Hg).
  rewrite Forall_forall in Hs. specialize (Hs cmd). rewrite list_elem_of_In in Hs. by apply Hs.
Qed.
End Safety.

Section Facts.
Context {R : Type} (ctx : result unit) (node : Query -> result R).

(** The commands the modules describe (Autocli.v) are not there: for every
    WeVibe module the command is unknown. *)
Lemma no_wevibe_queries m args : m ∈ wevibe_modules -> query ctx node (m :: args) = Err (Errorf "unknown command").
Proof.
  unfold wevibe_modules. rewrite !elem_of_cons, elem_of_nil. destruct args; [done|]. naive_solver.
Qed.
Lemma no_wevibe_txs m : m ∈ wevibe_modules -> m ∉ txCommand.
Proof. unfold wevibe_modules, txCommand. set_solver. Qed.

(** A proposal is asked for by its number. *)
Lemma proposal_sent n : is_u64 n -> ctx = Ok tt -> query ctx node ["gov"; "proposal"; FormatUint n] = node (Proposal n).
Proof.
  intros Hn Hc. cbn. unfold parseUint64Arg. rewrite ParseUint_FormatUint by done. unfold ask. by rewrite Hc.
Qed.
End Facts.


(** A positive number of seconds is accepted, zero and negative numbers are not. *)
Example epoch_durations :
  is_ok (validateEpochDurationSecondsEnv "") = true /\
  is_ok (validateEpochDurationSecondsEnv "86400") = true /\
  is_ok (validateEpochDurationSecondsEnv "+60") = true /\
  is_ok (validateEpochDurationSecondsEnv "0") = false /\
  is_ok (validateEpochDurationSecondsEnv "-1") = false /\
  is_ok (validateEpochDurationSecondsEnv "86400s") = false /\
  is_ok (validateEpochDurationSecondsEnv "9223372036854775808") = false.
Proof. vm_compute. done. Qed.

Module CliDemo.
Definition echo (q : Query) : result Query := Ok q.

Lemma query_never_panics_witness :
  no_panic (query (Ok tt) echo ["gov"; "vote"; "7"; "alice"]) /\
  query (Ok tt) echo ["gov"; "vote"; "7"; "alice"] = Ok (Vote 7 "alice") /\
  is_ok (query (Ok tt) echo ["gov"; "vote"; "7"]) = false.
Proof.
  split; [|split; vm_compute; reflexivity].
  apply (query_never_panics (Ok tt) echo); [intros q t H; discriminate H | intros t H; discriminate H].
Defined.
End CliDemo.
